(* ===== verification/_CoqProject ===== *)
-Q . S2P
Prelude.v
GoRuntime.v
ApiTypes.v
Platform.v
SamplePlatform.v
MachineFilters.v
MachineCollection.v
FailureDomain.v
ControlPlane.v
WorkloadCluster.v
ManagementCluster.v
Secrets.v
Fingerprints.v
MachineCreation.v
Deletion.v
Upgrade.v
StatusUpdate.v
ControlPlaneController.v
Rollout.v
Convergence.v
CloudInit.v
CloudDocument.v
BootstrapData.v
BootstrapController.v
SharedCertificates.v
TokenLifetime.v
Conversion.v
Concurrency.v
ClusterCache.v
TrackerDiscipline.v
TrackerFunctions.v
ClusterCacheSafety.v
ClusterCacheSpec.v
HealthChecks.v
Memory.v
DeepCopy.v
Scheme.v
Startup.v
