(* ===== verification/Prelude.v ===== *)
(** A verification development of the crit bootstrap and control plane providers
    for Cluster API (the Go module under src/).

    * The program

    Two controllers run in one manager process.  The control plane controller
    (controllers/controlplane) reconciles [CritControlPlane] objects: it creates
    the machines of a control plane one by one, rolls out a changed template,
    follows the workload cluster's health, and deletes machines when the object
    goes.  The bootstrap controller (controllers/bootstrap) reconciles
    [CritConfig] objects: for each machine it fills in the configuration,
    ensures certificates and bootstrap tokens, renders a cloud-config and stores
    it in a secret.  Both work only through requests to API servers, keep no
    state between two reconciliations, and rely on internal/ for machine
    collections, failure domains, health checks, certificates and remote
    clients.  internal/remote/cluster_cache.go keeps caches of workload clusters
    that several goroutines share.  apis/ declares the stored objects, copies
    them and converts the old API version.  main.go runs the controllers, or only
    the webhooks, in a manager process.

    * How it is modelled

    A function of the source is the definition of the same name.  A pure
    function is a Rocq function.  A function that leaves the process (a request,
    a random name, the clock, a generated key) is a program of [M], a tree of
    actions whose answers the environment chooses (this file); a run-time panic
    is the outcome [Panic], which every caller passes on; a Go pair of a value
    and an error is [result].  Theorems quantify over all answers, so they cover
    failed requests, stale reads and other writers.  A method that changes its
    receiver takes the object and returns it ([SM] where every exit must hand it
    back).  A deferred function is run on the outcome of the body, panics
    included.  Logging is left out.

    A map is a [gmap]; what Go leaves open, the order of [range] and the order
    of equal elements after [sort.Sort], is an argument ([GoRuntime]).  An
    [int32] is a [Z] with its wrap-around.  Code outside the repository is the
    class [Platform] with one operation per library function, and law classes
    that state the documented behaviour a theorem needs; [SamplePlatform]
    is one platform and proves all the laws, and the witnesses run on it.

    Programs are finite trees, so every reconciliation terminates and no
    definition of the program needs fuel: loops range over finite lists or maps.
    Only the health check of a cached cluster polls forever; it returns to the
    scheduler of [Concurrency] between two rounds.  The witnesses of the cluster
    cache [drain] a goroutine for at most 100 actions; their longest run has
    fewer than 30.

    Values are immutable except where aliasing is the point: the generated deep
    copies run on a heap of typed cells ([Memory]), where a struct is a record
    over a layout, with locations for its pointers and slices, and an assertion
    says which cells it owns and what value they hold.  A slice is the whole array
    behind it.  The copy theorems are about objects that do not share memory
    within themselves.

    * The files

    - [Prelude]: results, panics, programs, traces ([runs]), a Hoare logic over
      traces ([hoare]), its rules, tactics and hints.
    - [GoRuntime]: [range], [sort], integers and strings of Go; a reference
      implementation.
    - [ApiTypes], [Platform], [SamplePlatform]: data and outside code.
    - [MachineFilters], [MachineCollection] (internal/machinefilters,
      internal/machine_collection.go): filters, and sets of machines by name.
    - [FailureDomain] (internal/failure_domain.go): choosing failure domains.
    - [ControlPlane] (internal/control_plane.go, cluster_labels.go): the
      view of a control plane the steps decide on; ownership; new objects.
    - [WorkloadCluster], [ManagementCluster] (internal/workload_cluster.go,
      cluster.go, remote/cluster.go): health, nodes and remote clients.
    - [Secrets], [Fingerprints] (internal/secret): certificates and their
      secrets; the pins of certificates, with SHA-256.
    - [MachineCreation], [Deletion], [Upgrade], [StatusUpdate]
      (controllers/controlplane/helpers.go, delete.go, upgrade.go, status.go),
      and [ControlPlaneController] (controller.go, controlplane.go), which
      composes them into [Reconcile].
    - [Rollout]: the abstract rollout of a fleet of machines that
      reconciliations of a control plane implement; [Convergence]: where any
      number of them lead.  Between two reconciliations a machine whose deletion
      was accepted lingers with its timestamp for as long as it likes; the theorems
      count the machines that stand, those not being deleted.  Each reconciliation
      is a [round], which says what is assumed of the API server: the object is not
      being deleted, listings agree until the first change, failed requests have no
      effect, nobody else creates or deletes machines, generated names are fresh, and
      a health check that passes while no machine is being deleted saw as many nodes
      as machines.
    - [CloudInit] (internal/cloudinit): the templates of the cloud-config;
      [CloudDocument]: the document as a YAML reader sees it, its line breaks and
      literal blocks.
    - [BootstrapData] (controllers/bootstrap/token.go, helpers.go and what
      builds the data in controlplane.go and worker.go), and
      [BootstrapController] (controller.go and the rest), its [Reconcile].
    - [TokenLifetime]: a worker's token over many reconciliations, with the
      clock and the workload cluster that removes expired tokens.
    - [SharedCertificates]: what all nodes of a cluster have in common, whatever
      the interleaving of the reconciliations that give them their data.
    - [Conversion] (apis/*/v1alpha1): converting to the stored version and back.
      What crit's own text format and conversions preserve is not assumed: the
      theorems say what comes back in terms of what crit reads.
    - [Concurrency]: goroutines on shared memory, locks, rely-guarantee rules.
    - [ClusterCache] (internal/remote/cluster_cache.go): the tracker, its health
      checks and its reconciler; [TrackerDiscipline] and [TrackerFunctions]: the
      proof that every function keeps the tracker's invariant;
      [ClusterCacheSafety]: what follows for every interleaving;
      [ClusterCacheSpec]: an abstract tracker that the operations implement;
      [HealthChecks]: all rounds of a health check, and what they lead to.
    - [Memory], [DeepCopy] (apis/*/*/zz_generated.deepcopy.go): typed heaps,
      assertions and copying code; every generated function.
    - [Scheme] (the [RegisterConversions] of apis/*/v1alpha1): conversions as the
      scheme stores them, with the type assertions of their closures.
    - [Startup] (main.go, the [SetupWithManager] functions, the webhooks).  The
      flags that imported packages declare, kubeconfig for one, are a parameter.

    Interfaces: [ManagementCluster] promises the control plane steps what the
    fields of the reconciler ([StatusUpdate.CritControlPlaneReconciler] and its
    laws) need; [default_reconciler] discharges the laws with the
    implementation.  [Process] and [Discipline] are what a program with
    goroutines supplies to the rules of [Concurrency].

    * The theorems

    - What a reconciliation may write, and when: [Reconcile_safe],
      [upgrade_one_step], [reconcileDelete_waits], [creation_all_or_nothing],
      [config_Reconcile_safe]; that it ends with one patch: [Reconcile_patches],
      [config_Reconcile_publishes].
    - What a node is given: [node_data_complete] puts together tokens,
      certificates, configuration and cloud-config, for both kinds of nodes;
      [nodes_share_certificates] that they all trust one cluster CA.  A worker's
      token stays valid until the machine is up: [token_outlives_joining].
    - A rollout as a whole: [reconciliation_refines_rollout], [rollout_ends]
      for the number of reconciliations it takes and the machines there are,
      and [control_plane_converges] for what is reached after enough of them
      that find no error: no outdated machine, but as many machines as replicas
      only after a rollout or a first creation that nothing interrupted.
    - What the steps compute: status, initialization, health checks, ownership,
      choice of machines and domains, certificates, tokens.
    - Data: rendering a cloud-config and reading it back ([Write_document], and
      two contents that cannot be), certificates and
      their secrets, filling in a configuration without touching the user's
      settings, the two API versions, conversions registered at their types
      ([RegisterConversions_well_typed]), copies that share no memory with their
      originals ([DeepCopyObject_independent]).
    - The process: [startup_modes].
    - The cluster cache under every interleaving: no race, no deadlock, no
      duplicate watch or cache, caches kept without a reason to give them up;
      run alone, the operations refine those of an abstract tracker, and an
      unhealthy cluster is forgotten ([unhealthy_cluster_forgotten]).
    - Flaws the model shows are theorems too, for instance
      [stale_check_stops_new_cache], [reconcileKubeconfig_branches],
      [ControlPlaneIsHealthy_report].

    * Not modelled

    - [newClientFunc] of main.go, which nothing calls, and the reading of a
      command line's texts as numbers and durations.
    - The scheme and the manager themselves: which conversions and types a scheme
      has is stated by what the program asks of it.
    - The rendering of jinja expressions in the cloud-config, which its first line
      asks for and cloud-init does before it reads the YAML.
    - Contexts and their cancellation, logging, the work queue of a controller.
    - What a started cache does until its channel is closed
      ([cache.Cache.Start] is outside the repository). *)
From stdpp Require Export base gmap strings list fin_maps option sorting.
From Stdlib Require Export ZArith Lia.

(** ** Results and panics *)

(** A Go pair [(T, error)] as the callers use it: a value, or a non-nil
    error.  A function that returns only an [error] returns [option error],
    [None] being Go's [nil]. *)
Inductive result (E T : Type) : Type :=
| Ok (x : T)
| Err (e : E).
Arguments Ok {E T} x.
Arguments Err {E T} e.

(** What a call yields: a value, or a run-time panic (nil dereference,
    negative length, close of a closed channel), which unwinds every caller. *)
Inductive outcome (A : Type) : Type :=
| Val (x : A)
| Panic.
Arguments Val {A} x.
Arguments Panic {A}.

#[export] Instance outcome_ret : MRet outcome := λ A x, Val x.
#[export] Instance outcome_bind : MBind outcome := λ A B f o,
  match o with Val x => f x | Panic => Panic end.

(** ** Programs with effects

    A call that leaves the program (an API request, a random name, the clock,
    key generation) is an [action]; the environment picks its [answer].  A
    program is a well-founded tree of actions, so every program terminates
    whatever the environment answers. *)

Class Effects : Type := {
  action : Type;
  answer : action → Type;
}.

Inductive prog {E : Effects} (A : Type) : Type :=
| Ret (x : A)
| Do (a : action) (k : answer a → prog A).
Arguments Ret {E A} x.
Arguments Do {E A} a k.

(** One performed action with the answer it got. *)
Definition event {E : Effects} : Type := {a : action & answer a}.
Definition Ev {E : Effects} (a : action) (r : answer a) : event := existT a r.

Fixpoint pbind {E : Effects} {A B} (p : prog A) (f : A → prog B) : prog B :=
  match p with
  | Ret x => f x
  | Do a k => Do a (λ r, pbind (k r) f)
  end.

(** Programs that may panic: a panic skips everything up to the caller. *)
Definition M {E : Effects} (A : Type) : Type := prog (outcome A).

#[export] Instance M_ret {E : Effects} : MRet M := λ A x, Ret (Val x).
#[export] Instance M_bind {E : Effects} : MBind M := λ A B f p,
  pbind p (λ o, match o with Val x => f x | Panic => Ret Panic end).

Definition call {E : Effects} (a : action) : M (answer a) := Do a (λ r, Ret (Val r)).
Definition panic {E : Effects} {A} : M A := Ret Panic.
Definition lift {E : Effects} {A} (o : outcome A) : M A := Ret o.

(** Programs that change an object the caller still holds: the object is
    handed back also when the program panics, since deferred functions see it
    then. *)
Definition SM {E : Effects} (S A : Type) : Type := S → prog (S * outcome A).

#[export] Instance SM_ret {E : Effects} {S} : MRet (SM S) := λ A x s, Ret (s, Val x).
#[export] Instance SM_bind {E : Effects} {S} : MBind (SM S) := λ A B f m s,
  pbind (m s) (λ '(s', o), match o with Val x => f x s' | Panic => Ret (s', Panic) end).

(** A program that does not touch the object; reading and replacing it. *)
Definition embed {E : Effects} {S A} (m : M A) : SM S A := λ s, pbind m (λ o, Ret (s, o)).
Definition get {E : Effects} {S} : SM S S := λ s, Ret (s, Val s).
Definition put {E : Effects} {S} (s : S) : SM S unit := λ _, Ret (s, Val tt).

(** A [for] loop over a list with loop state [S]; the body either goes on
    ([inl]) or returns from the enclosing function ([inr]). *)
Fixpoint for_each {E : Effects} {X S R}
    (l : list X) (s : S) (body : X → S → M (S + R)) : M (S + R) :=
  match l with
  | [] => mret (inl s)
  | x :: l' =>
      body x s ≫= λ r,
        match r with
        | inl s' => for_each l' s' body
        | inr v => mret (inr v)
        end
  end.

(** A loop whose body never returns from the enclosing function. *)
Fixpoint fold_each {E : Effects} {X S} (l : list X) (s : S) (body : X → S → M S) : M S :=
  match l with
  | [] => mret s
  | x :: l' => body x s ≫= λ s', fold_each l' s' body
  end.

Declare Scope go_scope.
Delimit Scope go_scope with go.

(** [try x := m catch e => h ;; k]: Go's [x, err := m; if err != nil { h }; k]. *)
Notation "'try' x := m 'catch' e => h ;; k" :=
  (mbind (λ r, match r with Err e => h | Ok x => k end) m)
  (at level 10, x name, m at level 100, e name, h at level 99, k at level 200,
   format "'try'  x  :=  m  'catch'  e  =>  h  ;;  '/' k") : go_scope.

(** [check m catch e => h ;; k]: Go's [if err := m; err != nil { h }; k]. *)
Notation "'check' m 'catch' e => h ;; k" :=
  (mbind (λ r, match r with Some e => h | None => k end) m)
  (at level 10, m at level 100, e name, h at level 99, k at level 200,
   format "'check'  m  'catch'  e  =>  h  ;;  '/' k") : go_scope.

(** ** Executions *)

Section executions.
Context {E : Effects}.

(** [runs p tr x]: [tr] is a complete execution of [p] that returns [x]. *)
Fixpoint runs {A} (p : prog A) (tr : list event) (x : A) : Prop :=
  match p with
  | Ret y => tr = [] ∧ x = y
  | Do a k => ∃ r tr', tr = Ev a r :: tr' ∧ runs (k r) tr' x
  end.

(** [reaches p tr]: [tr] is what [p] has performed so far; the process may
    stop (crash, lose leadership) after any action. *)
Fixpoint reaches {A} (p : prog A) (tr : list event) : Prop :=
  tr = [] ∨
  match p with
  | Ret _ => False
  | Do a k => ∃ r tr', tr = Ev a r :: tr' ∧ reaches (k r) tr'
  end.

(** Runs [p] against an environment that answers from the history. *)
Fixpoint drive {A} (o : list event → ∀ a, answer a) (h : list event)
    (p : prog A) : list event * A :=
  match p with
  | Ret x => ([], x)
  | Do a k =>
      let r := o h a in
      let '(tr, x) := drive o (h ++ [Ev a r]) (k r) in
      (Ev a r :: tr, x)
  end.

(** [hoare G p h Q]: started after history [h], every action of [p] is
    allowed by [G] at its point of the history, and every complete
    execution ends in [Q]. *)
Fixpoint hoare {A} (G : list event → action → Prop) (p : prog A)
    (h : list event) (Q : A → list event → Prop) : Prop :=
  match p with
  | Ret x => Q x h
  | Do a k => G h a ∧ ∀ r, hoare G (k r) (h ++ [Ev a r]) Q
  end.

(** [performed p x h]: [p] ran from start to end somewhere in [h], and
    returned [x]. *)
Definition performed {A} (p : M A) (x : A) (h : list event) : Prop :=
  ∃ h0 h1 h2, h = h0 ++ h1 ++ h2 ∧ runs p h1 (Val x).

(** The guard that allows everything. *)
Definition anything : list event → action → Prop := λ _ _, True.
End executions.

(** ** Reasoning about executions *)

Section rules.
Context {E : Effects}.
Implicit Types (h tr : list event) (G : list event → action → Prop).

Lemma runs_pbind {A B} (p : prog A) (f : A → prog B) tr y :
  runs (pbind p f) tr y ↔
  ∃ tr1 tr2 x, tr = tr1 ++ tr2 ∧ runs p tr1 x ∧ runs (f x) tr2 y.
Proof.
  revert tr; induction p as [x|a k IH]; intros tr; simpl.
  - split; [by exists [], tr, x|]. by intros (?&?&?&->&[-> ->]&?).
  - split.
    + intros (r&tr'&->&H). apply IH in H as (tr1&tr2&x&->&?&?).
      exists (Ev a r :: tr1), tr2, x; eauto 10.
    + intros (?&tr2&x&->&(r&tr1&->&?)&?).
      exists r, (tr1 ++ tr2); split; [done|]. apply IH; eauto 10.
Qed.

Lemma runs_bind {A B} (p : M A) (f : A → M B) tr o :
  runs (p ≫= f) tr o ↔
  (runs p tr Panic ∧ o = Panic) ∨
  ∃ tr1 tr2 x, tr = tr1 ++ tr2 ∧ runs p tr1 (Val x) ∧ runs (f x) tr2 o.
Proof.
  unfold mbind, M_bind. rewrite runs_pbind. split.
  - intros (tr1&tr2&[x|]&->&H1&H2); [right; naive_solver|].
    left; destruct H2 as [-> ->]; by rewrite app_nil_r.
  - intros [[H ->]|(tr1&tr2&x&->&?&?)]; [|by exists tr1, tr2, (Val x)].
    exists tr, [], Panic; rewrite app_nil_r; repeat split; done.
Qed.

Lemma runs_call {B} a (f : answer a → M B) tr o :
  runs (call a ≫= f) tr o → ∃ r tr', tr = Ev a r :: tr' ∧ runs (f r) tr' o.
Proof. done. Qed.

Lemma hoare_mono {A} G G' (p : prog A) h (Q Q' : A → list event → Prop) :
  (∀ h a, G h a → G' h a) → (∀ x h, Q x h → Q' x h) →
  hoare G p h Q → hoare G' p h Q'.
Proof.
  intros HG HQ; revert h; induction p as [x|a k IH]; intros h; simpl; eauto.
  intros [? Hk]; split; eauto.
Qed.

(** The history only grows. *)
Lemma hoare_prefix {A} G (p : prog A) h (Q : A → list event → Prop) :
  hoare G p h Q → hoare G p h (λ x h', h `prefix_of` h' ∧ Q x h').
Proof.
  revert h; induction p as [x|a k IH]; intros h; simpl; [done|].
  intros [? Hk]; split; [done|]. intros r. specialize (IH r _ (Hk r)).
  revert IH. apply hoare_mono; [done|]. intros x h' [Hpre ?]; split; [|done].
  etrans; [|done]. by apply prefix_app_r.
Qed.

Lemma hoare_prefix_guard {A} G (p : prog A) h (Q : A → list event → Prop) :
  hoare G p h Q → hoare (λ h' a, h `prefix_of` h' ∧ G h' a) p h Q.
Proof.
  revert h; induction p as [x|a k IH]; intros h; simpl; [done|].
  intros [? Hk]; split; [done|]. intros r. eapply hoare_mono; [| |apply IH, Hk]; [|done].
  intros h' a' [Hpre ?]. split; [|done]. etrans; [|done]. by apply prefix_app_r.
Qed.

Lemma hoare_pbind {A B} G (p : prog A) (f : A → prog B) h (Q : B → list event → Prop) :
  hoare G (pbind p f) h Q ↔ hoare G p h (λ x h', hoare G (f x) h' Q).
Proof.
  revert h; induction p as [x|a k IH]; intros h; simpl; [done|].
  split; (intros [? Hk]; split; [done|]; intros r; apply IH, Hk).
Qed.

Lemma hoare_bind {A B} G (p : M A) (f : A → M B) h (Q : outcome B → list event → Prop) :
  hoare G (p ≫= f) h Q ↔
  hoare G p h (λ o h', match o with Val x => hoare G (f x) h' Q | Panic => Q Panic h' end).
Proof.
  unfold mbind, M_bind. rewrite hoare_pbind.
  split; apply hoare_mono; [done|by intros [x|] ?..|done|by intros [x|] ?].
Qed.

Lemma hoare_bind_val {A B} G (p : M A) (f : A → M B) h
    (R : A → list event → Prop) (Q : outcome B → list event → Prop) :
  hoare G p h (λ o h', match o with Val x => R x h' | Panic => False end) →
  (∀ x h', R x h' → hoare G (f x) h' Q) →
  hoare G (p ≫= f) h Q.
Proof.
  intros Hp Hf. apply hoare_bind. revert Hp. apply hoare_mono; [done|].
  intros [x|] h'; [apply Hf|done].
Qed.

Lemma hoare_call {B} G a (f : answer a → M B) h (Q : outcome B → list event → Prop) :
  hoare G (call a ≫= f) h Q ↔ G h a ∧ ∀ r, hoare G (f r) (h ++ [Ev a r]) Q.
Proof. done. Qed.

Lemma hoare_SM_bind {S A B} G (m : SM S A) (f : A → SM S B) s h
    (Q : S * outcome B → list event → Prop) :
  hoare G ((m ≫= f) s) h Q ↔
  hoare G (m s) h (λ r h',
    match r.2 with Val x => hoare G (f x r.1) h' Q | Panic => Q (r.1, Panic) h' end).
Proof.
  unfold mbind, SM_bind. rewrite hoare_pbind.
  split; apply hoare_mono; [done|by intros [? [x|]] ?..|done|by intros [? [x|]] ?].
Qed.

Lemma hoare_embed {S A} G (m : M A) (s : S) h (Q : S * outcome A → list event → Prop) :
  hoare G (embed m s) h Q ↔ hoare G m h (λ o h', Q (s, o) h').
Proof. unfold embed. rewrite hoare_pbind. done. Qed.

(** Sequencing programs that never panic. *)
Lemma hoare_safe_bind {A B} G (p : M A) (f : A → M B) h :
  hoare G p h (λ o _, o ≠ Panic) →
  (∀ x h', hoare G (f x) h' (λ o _, o ≠ Panic)) →
  hoare G (p ≫= f) h (λ o _, o ≠ Panic).
Proof.
  intros Hp Hf. apply hoare_bind. revert Hp. apply hoare_mono; [done|].
  intros [x|] h' ?; [apply Hf|done].
Qed.

(** A complete execution satisfies the postcondition. *)
Lemma hoare_runs {A} G (p : prog A) h (Q : A → list event → Prop) tr x :
  hoare G p h Q → runs p tr x → Q x (h ++ tr).
Proof.
  revert h tr; induction p as [y|a k IH]; intros h tr; simpl.
  - intros ? [-> ->]. by rewrite app_nil_r.
  - intros [_ Hk] (r&tr'&->&Hr). specialize (IH r (h ++ [Ev a r]) tr').
    rewrite <-app_assoc in IH. by apply IH.
Qed.

(** What a program with restricted actions appends to the history. *)
Lemma hoare_only {A} (F : action → Prop) G (p : prog A) h (Q : A → list event → Prop) :
  (∀ h a, G h a → F a) → hoare G p h Q →
  hoare G p h (λ x h', Q x h' ∧ ∃ l, h' = h ++ l ∧ ∀ a r, Ev a r ∈ l → F a).
Proof.
  intros HGF. revert h; induction p as [x|a k IH]; intros h; simpl.
  { intros HQ. split; [done|]. exists []. rewrite app_nil_r.
    split; [done|]. by intros ?? ?%not_elem_of_nil. }
  intros [HG Hk]. split; [done|]. intros r. eapply hoare_mono; [| |apply IH, Hk]; [done|].
  intros x h' [HQ (l&->&Hl)]. split; [done|]. exists (Ev a r :: l).
  rewrite <-app_assoc. split; [done|]. intros a' r' [Heq|?]%elem_of_cons; [|by eapply Hl].
  apply (f_equal (@projT1 _ _)) in Heq. simpl in Heq. rewrite Heq. by eapply HGF.
Qed.

Lemma performed_app {A} (p : M A) x h tr : performed p x h → performed p x (h ++ tr).
Proof.
  intros (h0&h1&h2&->&?). exists h0, h1, (h2 ++ tr). split; [|done]. by rewrite <-!app_assoc.
Qed.

Lemma performed_prefix {A} (p : M A) x h h' :
  performed p x h → h `prefix_of` h' → performed p x h'.
Proof. intros ? [tr ->]. by apply performed_app. Qed.

(** From complete executions back to the program logic. *)
Lemma hoare_from_runs {A} G (p : prog A) h (Q Q' : A → list event → Prop) :
  hoare G p h Q' → (∀ tr x, runs p tr x → Q x (h ++ tr)) → hoare G p h Q.
Proof.
  revert h; induction p as [y|a k IH]; intros h; simpl.
  - intros _ H. specialize (H [] y). rewrite app_nil_r in H. auto.
  - intros [HG Hk] H. split; [done|]. intros r. apply IH; [done|].
    intros tr x Hr. rewrite <-app_assoc. apply H. eauto.
Qed.

Lemma hoare_performed {A} G (p : M A) h (Q : outcome A → list event → Prop) :
  hoare G p h Q →
  hoare G p h (λ o h', h `prefix_of` h' ∧ Q o h' ∧
    match o with Val x => performed p x h' | Panic => True end).
Proof.
  intros H. eapply hoare_from_runs; [exact H|]. intros tr o Hr.
  split; [by apply prefix_app_r|]. split; [by eapply hoare_runs|].
  destruct o as [x|]; [|done]. exists h, tr, []. by rewrite app_nil_r.
Qed.

(** Every action performed so far was allowed when it was performed. *)
Lemma hoare_reaches {A} G (p : prog A) h (Q : A → list event → Prop) tr1 a r tr2 :
  hoare G p h Q → reaches p (tr1 ++ Ev a r :: tr2) → G (h ++ tr1) a.
Proof.
  revert h tr1; induction p as [y|a' k IH]; intros h tr1; simpl.
  - intros _ [?|[]]. by destruct tr1.
  - intros [HG Hk] [?|(r'&tr'&Heq&Hr)]; [by destruct tr1|].
    destruct tr1 as [|e tr1]; simpl in Heq.
    + apply (f_equal (fmap (@projT1 _ _) ∘ head)) in Heq; simpl in Heq.
      injection Heq as ->. by rewrite app_nil_r.
    + apply (f_equal tail) in Heq as Htl; apply (f_equal head) in Heq; simpl in *.
      injection Heq as ->; subst. specialize (IH r' (h ++ [Ev a' r']) tr1).
      rewrite <-app_assoc in IH. by apply IH.
Qed.

Lemma runs_reaches {A} (p : prog A) tr x : runs p tr x → reaches p tr.
Proof.
  revert tr; induction p as [y|a k IH]; intros tr; simpl.
  - intros [-> _]. by left.
  - intros (r&tr'&->&?). right. exists r, tr'; eauto.
Qed.

Lemma drive_runs {A} (o : list event → ∀ a, answer a) h (p : prog A) :
  runs p (drive o h p).1 (drive o h p).2.
Proof.
  revert h; induction p as [y|a k IH]; intros h; simpl; [done|].
  specialize (IH (o h a) (h ++ [Ev a (o h a)])).
  destruct (drive o _ (k (o h a))) as [tr x]; simpl in *. by exists (o h a), tr.
Qed.

Lemma drive_eq_runs {A} (o : list event → ∀ a, answer a) h (p : prog A) tr x :
  drive o h p = (tr, x) → runs p tr x.
Proof. intros Heq. generalize (drive_runs o h p). by rewrite Heq. Qed.

Lemma drive_result {A} (o : list event → ∀ a, answer a) h (p : prog A) x :
  (drive o h p).2 = x → ∃ tr, runs p tr x.
Proof. intros <-. eexists. apply drive_runs. Qed.

(** Every program has an execution, as soon as every action has an answer. *)
Lemma runs_total {A} (o : list event → ∀ a, answer a) (p : prog A) :
  ∃ tr x, runs p tr x.
Proof. eexists _, _. apply (drive_runs o []). Qed.

(** The loop rule: [I] holds before each iteration, of the items still to
    come and the loop state. *)
Lemma hoare_for_each {X S R} G (I : list X → S → list event → Prop) l s
    (body : X → S → M (S + R)) h (Q : outcome (S + R) → list event → Prop) :
  I l s h →
  (∀ x l' s' h', I (x :: l') s' h' →
     hoare G (body x s') h' (λ o h'',
       match o with
       | Val (inl s'') => I l' s'' h''
       | Val (inr v) => Q (Val (inr v)) h''
       | Panic => Q Panic h''
       end)) →
  (∀ s' h', I [] s' h' → Q (Val (inl s')) h') →
  hoare G (for_each l s body) h Q.
Proof.
  intros HI Hbody Hend. revert s h HI; induction l as [|x l IH]; intros s h HI; simpl.
  { by apply Hend. }
  apply hoare_bind. eapply hoare_mono; [done| |apply Hbody, HI].
  intros [[s'|v]|] h'; simpl; auto.
Qed.

Lemma hoare_fold_each {X S} G (I : list X → S → list event → Prop) l s
    (body : X → S → M S) h (Q : outcome S → list event → Prop) :
  I l s h →
  (∀ x l' s' h', I (x :: l') s' h' →
     hoare G (body x s') h' (λ o h'',
       match o with Val s'' => I l' s'' h'' | Panic => Q Panic h'' end)) →
  (∀ s' h', I [] s' h' → Q (Val s') h') →
  hoare G (fold_each l s body) h Q.
Proof.
  intros HI Hbody Hend. revert s h HI; induction l as [|x l IH]; intros s h HI; simpl.
  { by apply Hend. }
  apply hoare_bind. eapply hoare_mono; [done| |apply Hbody, HI].
  intros [s'|] h'; simpl; auto.
Qed.
End rules.

(** ** Lists and sorting *)

Lemma StronglySorted_lookup {A} (R : relation A) l i j x y :
  StronglySorted R l → l !! i = Some x → l !! j = Some y → i < j → R x y.
Proof.
  intros Hs; revert i j; induction Hs as [|a l Hs IH Ha]; intros i j; [done|].
  destruct i as [|i], j as [|j]; simpl; intros; simplify_eq; try lia.
  - rewrite Forall_forall in Ha. by apply Ha, list_elem_of_lookup_2 with j.
  - apply (IH i j); [done..|lia].
Qed.

Lemma StronglySorted_impl {A} (R R' : relation A) l :
  (∀ x y, R x y → R' x y) → StronglySorted R l → StronglySorted R' l.
Proof.
  intros HR. induction 1 as [|x l Hs IH Hx]; constructor; [done|].
  eapply Forall_impl; eauto.
Qed.

(** ** Automation *)

Create HintDb go discriminated.
#[export] Hint Resolve runs_reaches drive_runs drive_eq_runs : go.

(** Splits an execution of a program whose head is known: each action is
    consumed with its answer, each [match] is split. *)
Ltac run_step :=
  match goal with
  | H : runs (Ret _) _ _ |- _ => destruct H as [? ?]; simplify_eq
  | H : runs (Do _ _) _ _ |- _ =>
      let r := fresh "r" in let tr := fresh "tr" in
      destruct H as (r & tr & ? & H); simplify_eq
  | H : runs (match ?x with _ => _ end) _ _ |- _ => destruct x eqn:?; simplify_eq
  end.
Ltac run_inv := repeat (run_step; simpl in *).

(** Walks a [hoare] goal through actions and branches. *)
Ltac hoare_step :=
  match goal with
  | |- hoare _ (Ret _) _ _ => simpl
  | |- hoare _ (mret _) _ _ => simpl
  | |- hoare _ (mbind _ (call _)) _ _ => apply hoare_call; split; [|intros ?]
  | |- hoare _ (match ?x with _ => _ end) _ _ => destruct x eqn:?
  end.

(** Closes an equation that evaluation settles, without printing its sides. *)
Ltac by_evaluation := lazymatch goal with |- _ = ?v => vm_cast_no_check (eq_refl v) end.
