(* ===== verification/GoRuntime.v ===== *)
(** The parts of the Go language and standard library the program uses.

    Two of them are deliberately left open by Go: the order in which [range]
    visits a map, and the order [sort.Sort] gives to elements that compare
    equal.  [GoRuntime] is the interface every client is written against and
    [GoRuntimeLaws] what Go promises of it, so each theorem of the development
    holds for every admissible order.  [Reference] is one implementation: key
    order for maps and the insertion sort [sort.Sort] runs on short slices. *)
From Stdlib Require Import Ascii.
From stdpp Require Import pretty.
From S2P Require Import Prelude.
Local Open Scope Z_scope.

(** ** Maps and sorting *)

Class GoRuntime : Type := {
  map_range : ∀ {A}, gmap string A → list (string * A);
  sort_Sort : ∀ {A}, (A → A → bool) → list A → list A;
  (* strconv's Unicode tables, for runes above U+00FF *)
  isPrint_table : Z → bool;
}.

(** A [Less] method fit for [sort.Sort]: a strict weak order. *)
Class StrictWeak {A} (less : A → A → bool) : Prop := {
  less_irrefl x : less x x = false;
  less_trans x y z : less x y = true → less y z = true → less x z = true;
  less_incomp x y z : less x y = false → less y z = false → less x z = false;
}.

Class GoRuntimeLaws (R : GoRuntime) : Prop := {
  map_range_perm {A} (m : gmap string A) : map_range m ≡ₚ map_to_list m;
  sort_perm {A} (less : A → A → bool) l : sort_Sort less l ≡ₚ l;
  sort_sorted {A} (less : A → A → bool) `{!StrictWeak less} l :
    StronglySorted (λ x y, less y x = false) (sort_Sort less l);
}.

(** The line and the paragraph separator of Unicode are not printable. *)
Class PrintTableLaws (R : GoRuntime) : Prop :=
  separators_unprintable r : r = 8232 ∨ r = 8233 → isPrint_table r = false.

(** [sort.Reverse] *)
Definition sort_Reverse {A} (less : A → A → bool) : A → A → bool := λ x y, less y x.

(** ** Machine integers *)

(** Conversion of an [int] to [int32]. *)
Definition int32 (z : Z) : Z := (z + 2 ^ 31) `mod` 2 ^ 32 - 2 ^ 31.
Definition uint32 (z : Z) : Z := z `mod` 2 ^ 32.

(** ** Strings: Go strings are byte sequences *)

Fixpoint concat_strings (l : list string) : string :=
  match l with [] => "" | s :: l' => s +:+ concat_strings l' end.

(** [strings.Join] *)
Fixpoint strings_Join (l : list string) (sep : string) : string :=
  match l with
  | [] => ""
  | [s] => s
  | s :: l' => s +:+ sep +:+ strings_Join l' sep
  end.

(** [strings.Repeat] *)
Fixpoint strings_Repeat (s : string) (n : nat) : string :=
  match n with O => "" | S n' => s +:+ strings_Repeat s n' end.

(** [strings.Split(s, sep)] for a one-byte separator. *)
Fixpoint strings_Split (s : string) (sep : ascii) : list string :=
  match s with
  | EmptyString => [""]
  | String c s' =>
      if Ascii.eqb c sep then "" :: strings_Split s' sep
      else match strings_Split s' sep with
           | w :: ws => String c w :: ws
           | [] => [String c ""]
           end
  end.

(** [strings.HasSuffix] *)
Definition strings_HasSuffix (s suffix : string) : bool :=
  (String.length suffix <=? String.length s)%nat &&
  String.eqb (String.substring (String.length s - String.length suffix)
                (String.length suffix) s) suffix.

Definition bytes_of (s : string) : list Z :=
  (λ c, Z.of_N (N_of_ascii c)) <$> String.list_ascii_of_string s.

(** [fmt.Sprintf("%d", z)] *)
Definition fmt_d (z : Z) : string := pretty z.

Definition string_of_bytes (l : list Z) : string :=
  String.string_of_list_ascii ((λ b, ascii_of_N (Z.to_N b)) <$> l).

(** ** [unicode/utf8] and [strconv.Quote]: the [%q] verb on strings, as of the
    Go release the Dockerfile builds with (1.13) *)

Module strconv.
Definition RuneError : Z := 65533.
Definition between (lo hi b : Z) : bool := (lo <=? b) && (b <=? hi).
Definition cont (b : Z) : Z := Z.land b 63.

(** The valid range of the second byte after a given first byte. *)
Definition second_range (b0 : Z) : Z * Z :=
  if b0 =? 224 then (160, 191)
  else if b0 =? 237 then (128, 159)
  else if b0 =? 240 then (144, 191)
  else if b0 =? 244 then (128, 143)
  else (128, 191).

(** [utf8.DecodeRuneInString]: the rune and its width; an invalid encoding
    is [(RuneError, 1)]. *)
Definition DecodeRune (s : list Z) : Z * nat :=
  match s with
  | [] => (RuneError, 0%nat)
  | b0 :: s1 =>
      if b0 <? 128 then (b0, 1%nat)
      else if between 194 223 b0 then
        match s1 with
        | b1 :: _ =>
            if between 128 191 b1
            then (Z.lor (Z.shiftl (Z.land b0 31) 6) (cont b1), 2%nat) else (RuneError, 1%nat)
        | [] => (RuneError, 1%nat)
        end
      else if between 224 239 b0 then
        match s1 with
        | b1 :: b2 :: _ =>
            if between (second_range b0).1 (second_range b0).2 b1 && between 128 191 b2
            then (Z.lor (Z.shiftl (Z.land b0 15) 12) (Z.lor (Z.shiftl (cont b1) 6) (cont b2)), 3%nat)
            else (RuneError, 1%nat)
        | _ => (RuneError, 1%nat)
        end
      else if between 240 244 b0 then
        match s1 with
        | b1 :: b2 :: b3 :: _ =>
            if between (second_range b0).1 (second_range b0).2 b1 &&
               between 128 191 b2 && between 128 191 b3
            then (Z.lor (Z.shiftl (Z.land b0 7) 18)
                   (Z.lor (Z.shiftl (cont b1) 12) (Z.lor (Z.shiftl (cont b2) 6) (cont b3))), 4%nat)
            else (RuneError, 1%nat)
        | _ => (RuneError, 1%nat)
        end
      else (RuneError, 1%nat)
  end.

Definition lowerhex (n : Z) : Z := if n <? 10 then 48 + n else 87 + n.

(** The [n] low hexadecimal digits of [r]. *)
Definition hex (n : nat) (r : Z) : list Z :=
  (λ i, lowerhex (Z.land (Z.shiftr r (4 * Z.of_nat i)) 15)) <$> reverse (seq 0 n).

Section quote.
Context {R : GoRuntime}.

Definition IsPrint (r : Z) : bool :=
  if r <=? 255 then between 32 126 r || (between 161 255 r && negb (r =? 173))
  else isPrint_table r.

(** [appendEscapedRune]; [raw] is the rune's encoding in the input. *)
Definition escaped_rune (r : Z) (raw : list Z) : list Z :=
  if (r =? 34) || (r =? 92) then [92; r]
  else if IsPrint r then raw
  else if r =? 7 then [92; 97] else if r =? 8 then [92; 98]
  else if r =? 12 then [92; 102] else if r =? 10 then [92; 110]
  else if r =? 13 then [92; 114] else if r =? 9 then [92; 116]
  else if r =? 11 then [92; 118]
  else if r <? 32 then [92; 120] ++ hex 2 r
  else if r <? 65536 then [92; 117] ++ hex 4 r
  else [92; 85] ++ hex 8 r.

(** The loop of [appendQuotedWith]; the fuel bounds the bytes left. *)
Fixpoint quote_loop (fuel : nat) (s : list Z) : list Z :=
  match fuel, s with
  | O, _ | _, [] => []
  | S fuel', b :: s' =>
      let '(r, width) := DecodeRune s in
      if (width =? 1)%nat && (r =? RuneError)
      then [92; 120] ++ hex 2 b ++ quote_loop fuel' s'
      else escaped_rune r (take width s) ++ quote_loop fuel' (drop width s)
  end.

Definition Quote (s : string) : string :=
  string_of_bytes ([34] ++ quote_loop (String.length s) (bytes_of s) ++ [34]).
End quote.
End strconv.

(** ** Paths *)

Definition slash : ascii := "/"%char.

(** One path component against the components kept so far (innermost first). *)
Definition clean_step (rooted : bool) (st : list string) (c : string) : list string :=
  if bool_decide (c = "" ∨ c = ".") then st
  else if bool_decide (c = "..") then
    match st with
    | d :: st' => if bool_decide (d = "..") then c :: st else st'
    | [] => if rooted then [] else [c]
    end
  else c :: st.

(** [filepath.Clean] *)
Definition filepath_Clean (path : string) : string :=
  let rooted := match path with String c _ => Ascii.eqb c slash | _ => false end in
  let out := strings_Join (reverse (foldl (clean_step rooted) [] (strings_Split path slash))) "/" in
  if rooted then "/" +:+ out else if bool_decide (out = "") then "." else out.

(** [filepath.Join] *)
Fixpoint filepath_Join (elems : list string) : string :=
  match elems with
  | [] => ""
  | e :: es => if bool_decide (e = "") then filepath_Join es
               else filepath_Clean (strings_Join elems "/")
  end.

(** ** [hash/fnv]: FNV-1a, 32 bits *)

Module fnv.
Definition offset32 : Z := 2166136261.
Definition prime32 : Z := 16777619.

Definition write_byte (h b : Z) : Z := uint32 (Z.lxor h b * prime32).

(** [New32a], [Write], [Sum32] *)
Definition sum32a (data : list Z) : Z := foldl write_byte offset32 data.
End fnv.

(** ** [encoding/base64]: [StdEncoding.EncodeToString] *)

Module base64.
Definition alphabet : list ascii :=
  String.list_ascii_of_string
    "ABCDEFGHIJKLMNOPQRSTUVWXYZabcdefghijklmnopqrstuvwxyz0123456789+/".

Definition digit (n : Z) : ascii := default "A"%char (alphabet !! Z.to_nat n).

Fixpoint encode (data : list Z) : list ascii :=
  match data with
  | [] => []
  | [a] =>
      [digit (Z.shiftr a 2); digit (Z.shiftl (Z.land a 3) 4); "="%char; "="%char]
  | [a; b] =>
      [digit (Z.shiftr a 2);
       digit (Z.lor (Z.shiftl (Z.land a 3) 4) (Z.shiftr b 4));
       digit (Z.shiftl (Z.land b 15) 2); "="%char]
  | a :: b :: c :: data' =>
      digit (Z.shiftr a 2) ::
      digit (Z.lor (Z.shiftl (Z.land a 3) 4) (Z.shiftr b 4)) ::
      digit (Z.lor (Z.shiftl (Z.land b 15) 2) (Z.shiftr c 6)) ::
      digit (Z.land c 63) :: encode data'
  end.

Definition EncodeToString (data : string) : string :=
  String.string_of_list_ascii (encode (bytes_of data)).

(** The value of a digit. *)
Definition value (c : ascii) : option Z := Z.of_nat ∘ fst <$> list_find (c =.) alphabet.

(** [StdEncoding.DecodeString], without line breaks. *)
Fixpoint decode (text : list ascii) : option (list Z) :=
  match text with
  | [] => Some []
  | c1 :: c2 :: c3 :: c4 :: text' =>
      d1 ← value c1; d2 ← value c2;
      let b1 := Z.lor (Z.shiftl d1 2) (Z.shiftr d2 4) in
      if Ascii.eqb c4 "="%char then
        if bool_decide (text' = []) then
          if Ascii.eqb c3 "="%char then Some [b1]
          else d3 ← value c3; Some [b1; Z.lor (Z.shiftl (Z.land d2 15) 4) (Z.shiftr d3 2)]
        else None
      else
        d3 ← value c3; d4 ← value c4; rest ← decode text';
        Some (b1 :: Z.lor (Z.shiftl (Z.land d2 15) 4) (Z.shiftr d3 2) ::
              Z.lor (Z.shiftl (Z.land d3 3) 6) d4 :: rest)
  | _ => None
  end.

Definition DecodeString (text : string) : option string :=
  string_of_bytes <$> decode (String.list_ascii_of_string text).
End base64.

(** ** The reference runtime *)

Module Reference.
(** The inner loop of [insertionSort]: the new element moves left past the
    elements it is less than; the sorted prefix is kept reversed. *)
Fixpoint sift {A} (less : A → A → bool) (x : A) (rev_prefix : list A) : list A :=
  match rev_prefix with
  | [] => [x]
  | y :: r => if less x y then y :: sift less x r else x :: y :: r
  end.

Definition insertionSort {A} (less : A → A → bool) (l : list A) : list A :=
  reverse (foldl (λ acc x, sift less x acc) [] l).

#[export] Instance runtime : GoRuntime := {|
  map_range := λ A m, map_to_list m;
  sort_Sort := λ A, insertionSort;
  isPrint_table := λ r, negb ((r =? 8232) || (r =? 8233));
|}.
End Reference.

(** ** Laws *)

Lemma StronglySorted_reverse {A} (R : relation A) l :
  StronglySorted (flip R) l → StronglySorted R (reverse l).
Proof.
  induction 1 as [|x l Hs IH Hx]; [constructor|].
  rewrite reverse_cons. apply StronglySorted_app_2; [|done|by repeat constructor].
  intros y z Hy Hz. apply list_elem_of_singleton in Hz; subst.
  rewrite Forall_forall in Hx. apply (Hx y), elem_of_reverse, Hy.
Qed.

Section runtime_laws.
Context {R : GoRuntime} {RL : GoRuntimeLaws R}.

Lemma elem_of_map_range {A} (m : gmap string A) k x :
  (k, x) ∈ map_range m ↔ m !! k = Some x.
Proof. rewrite map_range_perm. apply elem_of_map_to_list. Qed.

Lemma NoDup_map_range {A} (m : gmap string A) : NoDup (map_range m).*1.
Proof. rewrite map_range_perm. apply NoDup_fst_map_to_list. Qed.

Lemma length_map_range {A} (m : gmap string A) : length (map_range m) = size m.
Proof. by rewrite map_range_perm, length_map_to_list. Qed.

(** The first element of a sorted slice is a least one. *)
Lemma sort_Sort_head {A} (less : A → A → bool) `{!StrictWeak less} l x l' :
  sort_Sort less l = x :: l' → x ∈ l ∧ ∀ y, y ∈ l → less y x = false.
Proof.
  intros Heq. assert (Hs := sort_sorted less l). assert (Hp := sort_perm less l).
  rewrite Heq in Hs, Hp. inversion_clear Hs as [|?? _ Hall].
  rewrite Forall_forall in Hall. setoid_rewrite <-Hp.
  split; [apply list_elem_of_here|]. intros y [->|?]%elem_of_cons; [apply less_irrefl|auto].
Qed.

Lemma sort_Sort_nil {A} (less : A → A → bool) l : sort_Sort less l = [] ↔ l = [].
Proof.
  assert (Hp := sort_perm less l). split; intros Heq.
  - rewrite Heq in Hp. by apply Permutation_nil.
  - subst. by apply Permutation_nil; symmetry.
Qed.
End runtime_laws.

#[export] Instance StrictWeak_reverse {A} (less : A → A → bool) `{!StrictWeak less} :
  StrictWeak (sort_Reverse less).
Proof.
  unfold sort_Reverse; split; intros *.
  - apply less_irrefl.
  - intros Hxy Hyz. by apply less_trans with y.
  - intros Hxy Hyz. by apply less_incomp with y.
Qed.

(** Comparing by an integer key, as [Less] methods do. *)
Lemma StrictWeak_key {A} (f : A → Z) : StrictWeak (λ x y, f x <? f y).
Proof. split; intros *; rewrite ?Z.ltb_lt, ?Z.ltb_ge; lia. Qed.

Module ReferenceLaws.
Import Reference.
Section sorting.
Context {A} (less : A → A → bool).

Lemma sift_perm x r : sift less x r ≡ₚ x :: r.
Proof.
  induction r as [|y r IH]; simpl; [done|].
  case_match; [|done]. rewrite IH. apply Permutation_swap.
Qed.

Lemma insertionSort_perm l : insertionSort less l ≡ₚ l.
Proof.
  unfold insertionSort. rewrite reverse_Permutation.
  cut (∀ acc, foldl (λ acc x, sift less x acc) acc l ≡ₚ acc ++ l); [intros H; apply H|].
  induction l as [|x l IH]; intros acc; simpl; [by rewrite app_nil_r|].
  rewrite IH, sift_perm. by rewrite <-Permutation_middle.
Qed.

Lemma sift_sorted `{!StrictWeak less} x r :
  StronglySorted (λ a b, less a b = false) r →
  StronglySorted (λ a b, less a b = false) (sift less x r).
Proof.
  induction 1 as [|y r Hs IH Hy]; simpl; [by repeat constructor|].
  destruct (less x y) eqn:Hxy.
  - constructor; [done|]. rewrite sift_perm. constructor; [|done].
    destruct (less y x) eqn:Hyx; [|done].
    by rewrite <-(less_trans x y x Hxy Hyx), less_irrefl.
  - constructor; [by constructor|]. constructor; [done|].
    eapply Forall_impl; [exact Hy|]. intros z. by apply less_incomp.
Qed.

Lemma insertionSort_sorted `{!StrictWeak less} l :
  StronglySorted (λ x y, less y x = false) (insertionSort less l).
Proof.
  apply StronglySorted_reverse. unfold flip.
  cut (∀ acc, StronglySorted (λ a b, less a b = false) acc →
    StronglySorted (λ a b, less a b = false) (foldl (λ acc x, sift less x acc) acc l)).
  { intros H; apply H; constructor. }
  induction l as [|x l IH]; intros acc Hacc; simpl; [done|]. by apply IH, sift_sorted.
Qed.
End sorting.

#[export] Instance runtime_laws : GoRuntimeLaws runtime.
Proof.
  split; intros *.
  - done.
  - apply insertionSort_perm.
  - intros ?. by apply insertionSort_sorted.
Qed.
#[export] Instance print_table_laws : PrintTableLaws runtime.
Proof. by intros r [-> | ->]. Qed.
End ReferenceLaws.

(** ** Machine integers and hashes *)

Lemma int32_range z : - 2 ^ 31 ≤ int32 z < 2 ^ 31.
Proof. unfold int32. pose proof (Z.mod_pos_bound (z + 2 ^ 31) (2 ^ 32)). lia. Qed.

Lemma int32_id z : - 2 ^ 31 ≤ z < 2 ^ 31 → int32 z = z.
Proof. intros. unfold int32. rewrite Z.mod_small; lia. Qed.

Lemma uint32_range z : 0 ≤ uint32 z < 2 ^ 32.
Proof. by apply Z.mod_pos_bound. Qed.

Lemma sum32a_range data : 0 ≤ fnv.sum32a data < 2 ^ 32.
Proof.
  unfold fnv.sum32a. assert (H : 0 ≤ fnv.offset32 < 2 ^ 32) by (unfold fnv.offset32; lia).
  revert H; generalize fnv.offset32; induction data as [|b data IH]; intros h Hh; simpl; [done|].
  apply IH, uint32_range.
Qed.

(** ** Bytes *)

Lemma bytes_of_range s : Forall (λ b, 0 ≤ b < 256) (bytes_of s).
Proof.
  unfold bytes_of. apply Forall_fmap, Forall_true. intros c. simpl.
  pose proof (N_ascii_bounded c). lia.
Qed.

Lemma bytes_of_string_of l : Forall (λ b, 0 ≤ b < 256) l → bytes_of (string_of_bytes l) = l.
Proof.
  intros Hl. unfold bytes_of, string_of_bytes.
  rewrite String.list_ascii_of_string_of_list_ascii, <-list_fmap_compose.
  rewrite <-(list_fmap_id l) at 2. apply list_fmap_ext. intros i b Hb.
  rewrite Forall_forall in Hl. apply list_elem_of_lookup_2, Hl in Hb. unfold compose.
  rewrite N_ascii_embedding by lia. by rewrite Z2N.id by lia.
Qed.

Lemma bytes_of_app s t : bytes_of (s +:+ t) = bytes_of s ++ bytes_of t.
Proof.
  unfold bytes_of. rewrite <-fmap_app. f_equal.
  induction s as [|a s IH]; [done|]. change (String a s +:+ t) with (String a (s +:+ t)). simpl. by rewrite IH.
Qed.

Lemma string_of_bytes_of s : string_of_bytes (bytes_of s) = s.
Proof.
  unfold string_of_bytes, bytes_of. rewrite <-list_fmap_compose.
  rewrite (list_fmap_ext _ id), list_fmap_id; [apply String.string_of_list_ascii_of_string|].
  intros i c _. unfold compose. by rewrite N2Z.id, ascii_N_embedding.
Qed.

(** ** Decoding base64 gives the data back *)

Module base64_laws.
Import base64.

(** A byte, and a digit's value. *)
Definition byte (z : Z) : Prop := 0 ≤ z < 256.

Lemma below n (P : Z → bool) :
  forallb P (seqZ 0 n) = true → ∀ z, 0 ≤ z < n → P z = true.
Proof. rewrite forallb_forall. intros H z Hz. apply H, list_elem_of_In, elem_of_seqZ. lia. Qed.

Lemma value_digit n : 0 ≤ n < 64 → value (digit n) = Some n ∧ Ascii.eqb (digit n) "="%char = false.
Proof.
  intros Hn. assert (H : bool_decide (value (digit n) = Some n) &&
    negb (Ascii.eqb (digit n) "="%char) = true); [|].
  { revert n Hn. apply (below 64). vm_compute. reflexivity. }
  apply andb_prop in H as [?%bool_decide_eq_true ?%negb_true_iff]. done.
Qed.

Lemma shiftr_range a k n : 0 ≤ k → 0 ≤ a < n * 2 ^ k → 0 ≤ Z.shiftr a k < n.
Proof.
  intros Hk Ha. rewrite Z.shiftr_div_pow2 by done.
  split; [apply Z.div_pos; lia|apply Z.div_lt_upper_bound; lia].
Qed.

Lemma land_ones_range a k n : 0 ≤ k → n = Z.ones k → 0 ≤ Z.land a n < 2 ^ k.
Proof. intros Hk ->. rewrite Z.land_ones by done. apply Z.mod_pos_bound. lia. Qed.

(** Joining the bits of two neighbouring digits. *)
Lemma split_join2 a : byte a →
  Z.lor (Z.shiftl (Z.shiftr a 2) 2) (Z.land a 3) = a ∧
  Z.lor (Z.shiftl (Z.shiftr a 4) 4) (Z.land a 15) = a ∧
  Z.lor (Z.shiftl (Z.shiftr a 6) 6) (Z.land a 63) = a.
Proof.
  intros Ha. assert (H : (Z.lor (Z.shiftl (Z.shiftr a 2) 2) (Z.land a 3) =? a) &&
    (Z.lor (Z.shiftl (Z.shiftr a 4) 4) (Z.land a 15) =? a) &&
    (Z.lor (Z.shiftl (Z.shiftr a 6) 6) (Z.land a 63) =? a) = true).
  { revert a Ha. apply (below 256). vm_compute. reflexivity. }
  lia.
Qed.

Lemma below2 n m (P : Z → Z → bool) :
  forallb (λ x, forallb (P x) (seqZ 0 m)) (seqZ 0 n) = true →
  ∀ x y, 0 ≤ x < n → 0 ≤ y < m → P x y = true.
Proof. intros H x y Hx. apply (below m). by apply (below n (λ x, forallb (P x) (seqZ 0 m))). Qed.

(** The digit made of the low bits of one byte and the high bits of the next. *)
Lemma join42 x y : 0 ≤ x < 4 → 0 ≤ y < 16 →
  let d := Z.lor (Z.shiftl x 4) y in
  0 ≤ d < 64 ∧ Z.shiftr d 4 = x ∧ Z.land d 15 = y.
Proof.
  intros Hx Hy d. assert (H : (0 <=? d) && (d <? 64) && (Z.shiftr d 4 =? x) && (Z.land d 15 =? y)
    = true); [|lia].
  revert x y Hx Hy d. apply (below2 4 16). vm_compute. reflexivity.
Qed.

Lemma join24 x y : 0 ≤ x < 16 → 0 ≤ y < 4 →
  let d := Z.lor (Z.shiftl x 2) y in
  0 ≤ d < 64 ∧ Z.shiftr d 2 = x ∧ Z.land d 3 = y.
Proof.
  intros Hx Hy d. assert (H : (0 <=? d) && (d <? 64) && (Z.shiftr d 2 =? x) && (Z.land d 3 =? y)
    = true); [|lia].
  revert x y Hx Hy d. apply (below2 16 4). vm_compute. reflexivity.
Qed.

(** The parts of a byte that go into digits. *)
Lemma parts a : byte a →
  0 ≤ Z.shiftr a 2 < 64 ∧ 0 ≤ Z.land a 3 < 4 ∧ 0 ≤ Z.shiftr a 4 < 16 ∧
  0 ≤ Z.land a 15 < 16 ∧ 0 ≤ Z.shiftr a 6 < 4 ∧ 0 ≤ Z.land a 63 < 64.
Proof.
  intros Ha. assert (H : (0 <=? Z.shiftr a 2) && (Z.shiftr a 2 <? 64) &&
    (0 <=? Z.land a 3) && (Z.land a 3 <? 4) && (0 <=? Z.shiftr a 4) && (Z.shiftr a 4 <? 16) &&
    (0 <=? Z.land a 15) && (Z.land a 15 <? 16) && (0 <=? Z.shiftr a 6) && (Z.shiftr a 6 <? 4) &&
    (0 <=? Z.land a 63) && (Z.land a 63 <? 64) = true); [|lia].
  revert a Ha. apply (below 256). vm_compute. reflexivity.
Qed.

(** The three digits of a byte and its neighbours. *)
Lemma digits a b c : byte a → byte b → byte c →
  let d2 := Z.lor (Z.shiftl (Z.land a 3) 4) (Z.shiftr b 4) in
  let d3 := Z.lor (Z.shiftl (Z.land b 15) 2) (Z.shiftr c 6) in
  (0 ≤ Z.shiftr a 2 < 64 ∧ 0 ≤ d2 < 64 ∧ 0 ≤ d3 < 64 ∧ 0 ≤ Z.land c 63 < 64) ∧
  Z.lor (Z.shiftl (Z.shiftr a 2) 2) (Z.shiftr d2 4) = a ∧
  Z.lor (Z.shiftl (Z.land d2 15) 4) (Z.shiftr d3 2) = b ∧
  Z.lor (Z.shiftl (Z.land d3 3) 6) (Z.land c 63) = c.
Proof.
  intros Ha Hb Hc d2 d3. subst d2 d3.
  pose proof (parts a Ha); pose proof (parts b Hb); pose proof (parts c Hc).
  destruct (join42 (Z.land a 3) (Z.shiftr b 4)) as (?&->&->); [lia..|].
  destruct (join24 (Z.land b 15) (Z.shiftr c 6)) as (?&->&->); [lia..|].
  split; [lia|]. split_and!; by apply split_join2.
Qed.

Lemma decode_encode_fuel fuel data :
  (length data ≤ fuel)%nat → Forall byte data → decode (encode data) = Some data.
Proof.
  revert data. induction fuel as [|fuel IH]; intros data Hlen Hb.
  { by destruct data; [|simpl in Hlen; lia]. }
  assert (H0 : byte 0) by (unfold byte; lia).
  destruct data as [|a [|b [|c data]]]; [done|..];
    rewrite ?Forall_cons in Hb; destruct_and?; cbn [encode decode].
  - destruct (digits a 0 0) as ((?&?&_)&Ea&_); [done..|].
    change (Z.shiftr 0 4) with 0 in *. rewrite Z.lor_0_r in *.
    destruct (value_digit (Z.shiftr a 2)) as [-> _]; [done|].
    destruct (value_digit (Z.shiftl (Z.land a 3) 4)) as [-> _]; [done|]. cbn. by rewrite Ea.
  - destruct (digits a b 0) as ((?&?&?&_)&Ea&Eb&_); [done..|].
    change (Z.shiftr 0 6) with 0 in *. rewrite Z.lor_0_r in *.
    destruct (value_digit (Z.shiftr a 2)) as [-> _]; [done|].
    destruct (value_digit (Z.lor (Z.shiftl (Z.land a 3) 4) (Z.shiftr b 4))) as [-> _]; [done|].
    destruct (value_digit (Z.shiftl (Z.land b 15) 2)) as [-> ->]; [done|].
    cbn. by rewrite Ea, Eb.
  - destruct (digits a b c) as ((?&?&?&?)&Ea&Eb&Ec); [done..|].
    destruct (value_digit (Z.shiftr a 2)) as [-> _]; [done|].
    destruct (value_digit (Z.lor (Z.shiftl (Z.land a 3) 4) (Z.shiftr b 4))) as [-> _]; [done|].
    destruct (value_digit (Z.lor (Z.shiftl (Z.land b 15) 2) (Z.shiftr c 6))) as [-> _]; [done|].
    destruct (value_digit (Z.land c 63)) as [-> ->]; [done|].
    rewrite IH by (done || (simpl in Hlen; lia)). cbn. by rewrite Ea, Eb, Ec.
Qed.

(** Decoding is the inverse of encoding. *)
Lemma DecodeString_EncodeToString s : DecodeString (EncodeToString s) = Some s.
Proof.
  unfold DecodeString, EncodeToString. rewrite String.list_ascii_of_string_of_list_ascii.
  rewrite (decode_encode_fuel (length (bytes_of s))) by (done || apply bytes_of_range).
  cbn. by rewrite string_of_bytes_of.
Qed.
End base64_laws.
