(* ===== verification/ApiTypes.v ===== *)
(** Data the controllers work on: the Kubernetes and Cluster API objects (the
    fields the program reads or writes) and this repository's own
    [v1alpha2] API types (apis/bootstrap/v1alpha2, apis/controlplane/v1alpha2). *)
From S2P Require Import Prelude GoRuntime.
Local Open Scope Z_scope.

(** ** Object metadata *)

(** An instant; [metav1.Time] pointers are [option Time]. *)
Abbreviation Time := Z.

Record OwnerReference := {
  or_APIVersion : string;
  or_Kind : string;
  or_Name : string;
  or_UID : string;
  or_Controller : option bool;
  or_BlockOwnerDeletion : option bool;
}.

Record ObjectMeta := {
  om_Name : string;
  om_Namespace : string;
  om_UID : string;
  om_Labels : gmap string string;
  om_Annotations : option (gmap string string);
  om_OwnerReferences : list OwnerReference;
  om_CreationTimestamp : Time;
  om_DeletionTimestamp : option Time;
  om_Finalizers : list string;
}.

Record ObjectReference := {
  ref_APIVersion : string;
  ref_Kind : string;
  ref_Namespace : string;
  ref_Name : string;
  ref_UID : string;
}.

Record ObjectKey := { key_Namespace : string; key_Name : string }.

Record GroupVersion := { gv_Group : string; gv_Version : string }.
Record GroupVersionKind := { gvk_Group : string; gvk_Version : string; gvk_Kind : string }.
Record GroupKind := { gk_Group : string; gk_Kind : string }.

Definition WithKind (gv : GroupVersion) (kind : string) : GroupVersionKind :=
  {| gvk_Group := gv_Group gv; gvk_Version := gv_Version gv; gvk_Kind := kind |}.
Definition gvk_GroupKind (gvk : GroupVersionKind) : GroupKind :=
  {| gk_Group := gvk_Group gvk; gk_Kind := gvk_Kind gvk |}.

#[export] Instance ObjectKey_eq_dec : EqDecision ObjectKey.
Proof. solve_decision. Defined.
#[export] Instance GroupVersionKind_eq_dec : EqDecision GroupVersionKind.
Proof. solve_decision. Defined.
#[export] Instance GroupKind_eq_dec : EqDecision GroupKind.
Proof. solve_decision. Defined.
#[export] Instance ObjectReference_eq_dec : EqDecision ObjectReference.
Proof. solve_decision. Defined.
#[export] Instance ObjectKey_countable : Countable ObjectKey.
Proof.
  apply (inj_countable' (λ k, (key_Namespace k, key_Name k))
    (λ p, {| key_Namespace := p.1; key_Name := p.2 |})). by intros [].
Defined.

(** ** Cluster API objects *)

Record MachineSpec := {
  ms_ClusterName : string;
  ms_Version : option string;
  ms_InfrastructureRef : ObjectReference;
  ms_ConfigRef : option ObjectReference;      (* Bootstrap.ConfigRef *)
  ms_FailureDomain : option string;
}.

Record Machine := {
  mach_Meta : ObjectMeta;
  mach_Spec : MachineSpec;
  mach_NodeRef : option ObjectReference;      (* Status.NodeRef *)
}.
Definition mach_Name (m : Machine) : string := om_Name (mach_Meta m).
Definition mach_Namespace (m : Machine) : string := om_Namespace (mach_Meta m).
Definition mach_Labels (m : Machine) : gmap string string := om_Labels (mach_Meta m).
Definition mach_FailureDomain (m : Machine) : option string := ms_FailureDomain (mach_Spec m).

Record APIEndpoint := { ep_Host : string; ep_Port : Z }.

Record FailureDomainSpec := { fds_ControlPlane : bool }.

(** A [FailureDomains] map; [Cluster.Status.FailureDomains] may be nil. *)
Abbreviation FailureDomains := (gmap string FailureDomainSpec).

Record ClusterNetwork := {
  cn_Services : option (list string);          (* Services.CIDRBlocks *)
  cn_Pods : option (list string);              (* Pods.CIDRBlocks *)
  cn_ServiceDomain : string;
}.

Record Cluster := {
  cl_Meta : ObjectMeta;
  cl_ControlPlaneEndpoint : APIEndpoint;
  cl_ControlPlaneRef : option ObjectReference;
  cl_ClusterNetwork : option ClusterNetwork;
  cl_InfrastructureReady : bool;
  cl_ControlPlaneInitialized : bool;
  cl_FailureDomains : option FailureDomains;
}.
Definition cl_Name (c : Cluster) : string := om_Name (cl_Meta c).
Definition cl_Namespace (c : Cluster) : string := om_Namespace (cl_Meta c).

(** [util.ObjectKey(cluster)] *)
Definition cl_Key (c : Cluster) : ObjectKey :=
  {| key_Namespace := cl_Namespace c; key_Name := cl_Name c |}.

(** ** Core objects *)

Record Taint := { taint_Key : string; taint_Effect : string }.
Record Condition := { cond_Type : string; cond_Status : string }.
Record Node := {
  node_Name : string;
  node_Taints : list Taint;
  node_Conditions : list Condition;
}.
Record Pod := {
  pod_Namespace : string;
  pod_Name : string;
  pod_Conditions : list Condition;
}.
Record Secret := {
  sec_Meta : ObjectMeta;
  sec_Type : string;
  sec_Data : option (gmap string string);
}.

(** Metadata with a name and a namespace only, the zero value elsewhere. *)
Definition meta (name namespace : string) : ObjectMeta := {|
  om_Name := name; om_Namespace := namespace; om_UID := "";
  om_Labels := ∅; om_Annotations := None; om_OwnerReferences := [];
  om_CreationTimestamp := 0; om_DeletionTimestamp := None; om_Finalizers := [];
|}.

Definition with_labels (l : gmap string string) (m : ObjectMeta) : ObjectMeta := {|
  om_Name := om_Name m; om_Namespace := om_Namespace m; om_UID := om_UID m;
  om_Labels := l; om_Annotations := om_Annotations m;
  om_OwnerReferences := om_OwnerReferences m;
  om_CreationTimestamp := om_CreationTimestamp m;
  om_DeletionTimestamp := om_DeletionTimestamp m; om_Finalizers := om_Finalizers m;
|}.

Definition with_owners (o : list OwnerReference) (m : ObjectMeta) : ObjectMeta := {|
  om_Name := om_Name m; om_Namespace := om_Namespace m; om_UID := om_UID m;
  om_Labels := om_Labels m; om_Annotations := om_Annotations m;
  om_OwnerReferences := o;
  om_CreationTimestamp := om_CreationTimestamp m;
  om_DeletionTimestamp := om_DeletionTimestamp m; om_Finalizers := om_Finalizers m;
|}.

(** ** Reconciliation *)

(** [ctrl.Result]; [RequeueAfter] is in nanoseconds. *)
Record Result := { res_Requeue : bool; res_RequeueAfter : Z }.
Definition NoResult : Result := {| res_Requeue := false; res_RequeueAfter := 0 |}.
Definition Requeue : Result := {| res_Requeue := true; res_RequeueAfter := 0 |}.

(** ** apis/bootstrap/v1alpha2 *)

(** groupversion_info.go *)
Definition bootstrapv1_GroupVersion : GroupVersion :=
  {| gv_Group := "bootstrap.cluster.x-k8s.io"; gv_Version := "v1alpha2" |}.

Record File := {
  file_Path : string;
  file_Owner : string;
  file_Permissions : string;
  file_Encoding : string;
  file_Content : string;
}.

Definition Base64 : string := "base64".
Definition Gzip : string := "gzip".
Definition GzipBase64 : string := "gzip+base64".
Definition CloudConfig : string := "cloud-config".

Record User := {
  user_Name : string;
  user_Gecos : option string;
  user_Groups : option string;
  user_HomeDir : option string;
  user_Inactive : option bool;
  user_Shell : option string;
  user_Passwd : option string;
  user_PrimaryGroup : option string;
  user_LockPassword : option bool;
  user_Sudo : option string;
  user_SSHAuthorizedKeys : list string;
}.

Record NTP := { ntp_Servers : list string; ntp_Enabled : option bool }.

Record CritConfigSpec := {
  ccs_Config : string;
  ccs_Files : list File;
  ccs_PreCritCommands : list string;
  ccs_PostCritCommands : list string;
  ccs_Users : list User;
  ccs_NTP : option NTP;
  ccs_Format : string;
  ccs_Verbosity : bool;
}.

Record CritConfigStatus := {
  ccst_Ready : bool;
  ccst_DataSecretName : option string;
  ccst_FailureReason : string;
  ccst_FailureMessage : string;
}.

Record CritConfig := {
  cc_Meta : ObjectMeta;
  cc_Spec : CritConfigSpec;
  cc_Status : CritConfigStatus;
}.
Definition cc_Name (c : CritConfig) : string := om_Name (cc_Meta c).
Definition cc_Namespace (c : CritConfig) : string := om_Namespace (cc_Meta c).

(** ** apis/controlplane/v1alpha2 *)

Definition controlplanev1_GroupVersion : GroupVersion :=
  {| gv_Group := "controlplane.cluster.x-k8s.io"; gv_Version := "v1alpha2" |}.

Definition CritControlPlaneFinalizer : string := "crit.controlplane.cluster.x-k8s.io".
Definition CritControlPlaneHashLabelKey : string := "crit.controlplane.cluster.x-k8s.io/hash".

Record CritControlPlaneSpec := {
  ccps_Replicas : Z;
  ccps_Version : string;
  ccps_InfrastructureTemplate : ObjectReference;
  ccps_CritConfigSpec : CritConfigSpec;
}.

Record CritControlPlaneStatus := {
  ccpst_Selector : string;
  ccpst_Replicas : Z;
  ccpst_UpdatedReplicas : Z;
  ccpst_ReadyReplicas : Z;
  ccpst_UnavailableReplicas : Z;
  ccpst_Initialized : bool;
  ccpst_Ready : bool;
  ccpst_FailureReason : string;
  ccpst_FailureMessage : option string;
}.

Record CritControlPlane := {
  ccp_Meta : ObjectMeta;
  ccp_Spec : CritControlPlaneSpec;
  ccp_Status : CritControlPlaneStatus;
}.
Definition ccp_Name (c : CritControlPlane) : string := om_Name (ccp_Meta c).
Definition ccp_Namespace (c : CritControlPlane) : string := om_Namespace (ccp_Meta c).

Definition ccp_with_meta (m : ObjectMeta) (c : CritControlPlane) : CritControlPlane :=
  {| ccp_Meta := m; ccp_Spec := ccp_Spec c; ccp_Status := ccp_Status c |}.
Definition ccp_with_status (s : CritControlPlaneStatus) (c : CritControlPlane) : CritControlPlane :=
  {| ccp_Meta := ccp_Meta c; ccp_Spec := ccp_Spec c; ccp_Status := s |}.

(** ** Crit configuration objects

    The configuration types of the crit project, with the fields the
    bootstrap controller reads or writes; [_Rest] stands for all the others,
    which it only carries along. *)

Record NodeConfiguration := {
  nc_KubeDir : string;
  nc_KubernetesVersion : string;
  nc_ClusterDomain : string;                   (* KubeletConfiguration.ClusterDomain *)
}.

Record ControlPlaneConfiguration := {
  cpc_ClusterName : string;
  cpc_ControlPlaneEndpoint : APIEndpoint;
  cpc_ExtraSANs : list string;                 (* KubeAPIServerConfiguration.ExtraSANs *)
  cpc_ServiceSubnet : string;
  cpc_PodSubnet : string;
  cpc_NodeConfiguration : NodeConfiguration;
  cpc_Rest : string;
}.

Record WorkerConfiguration := {
  wc_ClusterName : string;
  wc_ControlPlaneEndpoint : APIEndpoint;
  wc_BootstrapToken : string;
  wc_NodeConfiguration : NodeConfiguration;
  wc_Rest : string;
}.

(** What [configutil.Unmarshal] may return. *)
Inductive RuntimeObject :=
| ControlPlaneObject (cfg : ControlPlaneConfiguration)
| WorkerObject (cfg : WorkerConfiguration)
| OtherObject (gvk : GroupVersionKind).
