(* ===== verification/Platform.v ===== *)
(** The code outside this repository.

    [Platform] gathers the pure functions of the libraries the program calls
    (cluster-api, apimachinery, controller-runtime, pkg/errors, the crit
    project): every definition of the development takes them as a parameter,
    and the classes of the second section name the documented behaviour a
    theorem relies on.  [k8s] is the effect signature: one action per request
    to an API server, per random or clock value, per key generated.  The
    environment answers an action as it likes, errors included, so theorems
    over executions hold for concurrent writers, stale reads and failures. *)
From stdpp Require Import pretty.
From S2P Require Import Prelude GoRuntime ApiTypes.
Local Open Scope Z_scope.

Record RestConfig := { rc_Data : string; rc_Timeout : Z }.

(** An API server: the management cluster, or the workload cluster a REST
    configuration points to. *)
Inductive Client := Mgmt | Remote (cfg : RestConfig).

(** [x509.Certificate] as the program fills it in before signing. *)
Record CertTemplate := {
  ct_SerialNumber : Z;
  ct_CommonName : string;
  ct_NotBefore : Time;
  ct_NotAfter : Time;
  ct_KeyUsage : Z;
  ct_ExtKeyUsageClientAuth : bool;
  ct_MaxPathLenZero : bool;
  ct_BasicConstraintsValid : bool;
  ct_MaxPathLen : Z;
  ct_IsCA : bool;
}.

Class Platform : Type := {
  (* errors: pkg/errors, fmt.Errorf, apimachinery, cluster-api/errors *)
  error : Type;
  error_Error : error → string;
  errors_New : string → error;
  errors_Wrap : error → string → error;
  errors_WithStack : error → error;
  errors_Cause : error → error;
  apierrors_IsNotFound : error → bool;
  apierrors_IsAlreadyExists : error → bool;
  capierrors_RequeueAfterError : Z → error;
  (* the type assertion [err.(capierrors.HasRequeueAfterError)] *)
  as_HasRequeueAfterError : error → option Z;
  kerrors_NewAggregate : list (option error) → option error;
  is_ErrDependentCertificateNotFound : error → bool;
  is_ErrNoCluster : error → bool;

  (* metav1 *)
  time_IsZero : option Time → bool;
  time_Before : option Time → option Time → bool;
  time_RFC3339 : Time → string;
  GetControllerOf : ObjectMeta → option OwnerReference;
  NewControllerRef : ObjectMeta → GroupVersionKind → OwnerReference;
  LabelSelector_String : gmap string string → result error string;
  GroupVersion_String : GroupVersion → string;
  ref_GroupVersionKind : ObjectReference → GroupVersionKind;

  (* names of labels, keys and well-known values *)
  clusterv1_GroupVersion_String : string;
  ClusterLabelName : string;
  MachineControlPlaneLabelName : string;
  TaintNodeUnreachable : string;
  TaintEffectNoExecute : string;
  PodReady : string;
  ConditionTrue : string;
  NamespaceSystem : string;
  external_TemplateSuffix : string;
  BootstrapTokenPattern : string;
  SecretTypeBootstrapToken : string;
  BootstrapTokenIDKey : string;
  BootstrapTokenSecretKey : string;
  BootstrapTokenExpirationKey : string;
  BootstrapTokenUsageSigningKey : string;
  BootstrapTokenUsageAuthentication : string;
  BootstrapTokenExtraGroupsKey : string;
  BootstrapTokenDescriptionKey : string;
  secretutil_TLSCrtDataName : string;
  secretutil_TLSKeyDataName : string;

  (* cluster-api *)
  MachinesByCreationTimestamp_Less : Machine → Machine → bool;
  FilterControlPlane : FailureDomains → FailureDomains;
  GetIDs : FailureDomains → list (option string);
  APIEndpoint_IsZero : APIEndpoint → bool;
  APIEndpoint_String : APIEndpoint → string;
  util_IsNodeReady : Node → bool;
  util_IsPaused : Cluster → ObjectMeta → bool;
  util_EnsureOwnerRef : list OwnerReference → OwnerReference → list OwnerReference;
  controllerutil_AddFinalizer : ObjectMeta → string → ObjectMeta;
  controllerutil_RemoveFinalizer : ObjectMeta → string → ObjectMeta;
  Unstructured : Type;
  unstructured_OwnerReferences : Unstructured → list OwnerReference;
  unstructured_SetOwnerReferences : Unstructured → list OwnerReference → Unstructured;
  FromUnstructured_Machine : Unstructured → result error (option string);
  FromUnstructured_MachineSet : Unstructured → result error (option string);
  FromUnstructured_MachineDeployment : Unstructured → result error (option string);
  RESTConfigFromKubeConfig : string → result error RestConfig;

  (* what [mdutil.DeepHashObject] writes into the hasher *)
  DeepHashObject_bytes : string * ObjectReference * CritConfigSpec → list Z;

  (* the crit project's configuration files *)
  configutil_Marshal : RuntimeObject → result error string;
  configutil_Unmarshal : string → result error RuntimeObject;
  crit_APIEndpoint_IsZero : APIEndpoint → bool;
  (* the verb %T on such an object *)
  fmt_T : RuntimeObject → string;

  (* cluster-bootstrap tokens *)
  BootstrapTokenRegexp_FindStringSubmatch : string → list string;
  BootstrapTokenSecretName : string → string;

  (* key material: crypto/x509 and cluster-api/util/certs *)
  PrivateKey : Type;
  X509Certificate : Type;
  EncodeCertPEM : X509Certificate → string;
  EncodePrivateKeyPEM : PrivateKey → string;
  EncodePublicKeyPEM : PrivateKey → result error string;
  DecodeCertPEM : string → result error X509Certificate;
  DecodePrivateKeyPEM : string → result error PrivateKey;
  x509_ParseCertificate : string → result error X509Certificate;
  tls_X509KeyPair : string → string → option error;
  (* the verb %+v on a certificate template *)
  fmt_CertTemplate : CertTemplate → string;
}.

(** [bsutil.ConfigOwner]: the object that owns a CritConfig, through its
    accessors. *)
Record ConfigOwner `{Platform} := {
  co_Kind : string;
  co_Namespace : string;
  co_ClusterName : string;
  co_DataSecretName : option string;
  co_IsControlPlaneMachine : bool;
  co_IsInfrastructureReady : bool;
  co_Object : Unstructured;
}.

Record CloneTemplateInput := {
  cti_TemplateRef : ObjectReference;
  cti_Namespace : string;
  cti_OwnerRef : option OwnerReference;
  cti_ClusterName : string;
  cti_Labels : gmap string string;
}.

(** ** Effects *)

Section effects.
Context {P : Platform}.

Inductive k8s_action : Type :=
(* reads *)
| Get_CritControlPlane (k : ObjectKey)
| Get_CritConfig (k : ObjectKey)
| Get_Cluster (k : ObjectKey)
| Get_Secret (c : Client) (k : ObjectKey)
| Get_Pod (c : Client) (k : ObjectKey)
| Get_ConfigMap (c : Client) (k : ObjectKey)
| List_Machines (namespace : string) (labels : gmap string string)
| List_Nodes (c : Client) (labels : gmap string string)
| GetOwnerCluster (m : ObjectMeta)
| GetClusterByName (namespace name : string)
| GetConfigOwner (c : CritConfig)
| External_Get (ref : ObjectReference) (namespace : string)
| Kubeconfig_FromSecret (k : ObjectKey)
(* writes *)
| Create_Secret (c : Client) (s : Secret)
| Create_CritConfig (c : CritConfig)
| Create_Machine (m : Machine)
| Update_Machine (m : Machine)
| Update_Secret (c : Client) (s : Secret)
| Delete_Machine (m : Machine)
| Delete_Object (ref : ObjectReference)
| External_CloneTemplate (i : CloneTemplateInput)
| Kubeconfig_CreateSecretWithOwner (k : ObjectKey) (endpoint : string) (owner : OwnerReference)
| Patch_CritControlPlane (before after : CritControlPlane)
| Patch_CritConfig (before after : CritConfig)
| Patch_Unstructured (before after : Unstructured)
(* local services *)
| NewPatchHelper
| Client_New (cfg : RestConfig)
| GenerateName (base : string)
| Now
| GenerateBootstrapToken
| Certs_NewPrivateKey
| X509_CreateCertificate (tmpl : CertTemplate) (parent : option X509Certificate)
    (pub priv : PrivateKey)
| Recorder_Event (reason message : string).

Definition k8s_answer (a : k8s_action) : Type :=
  match a with
  | Get_CritControlPlane _ => result error CritControlPlane
  | Get_CritConfig _ => result error CritConfig
  | Get_Cluster _ => result error Cluster
  | Get_Secret _ _ => result error Secret
  | Get_Pod _ _ => result error Pod
  | Get_ConfigMap _ _ => option error
  | List_Machines _ _ => result error (list Machine)
  | List_Nodes _ _ => result error (list Node)
  | GetOwnerCluster _ => result error (option Cluster)
  | GetClusterByName _ _ => result error Cluster
  | GetConfigOwner _ => result error (option ConfigOwner)
  | External_Get _ _ => result error Unstructured
  | Kubeconfig_FromSecret _ => result error string
  | Create_CritConfig _ => result error CritConfig
  | External_CloneTemplate _ => result error ObjectReference
  | Create_Secret _ _ | Create_Machine _ | Update_Machine _ | Update_Secret _ _
  | Delete_Machine _ | Delete_Object _ | Kubeconfig_CreateSecretWithOwner _ _ _
  | Patch_CritControlPlane _ _ | Patch_CritConfig _ _ | Patch_Unstructured _ _
  | NewPatchHelper | Client_New _ => option error
  | GenerateName _ => string
  | Now => Time
  | GenerateBootstrapToken => result error string
  | Certs_NewPrivateKey => result error PrivateKey
  | X509_CreateCertificate _ _ _ _ => result error string
  | Recorder_Event _ _ => unit
  end.

#[export] Instance k8s : Effects := {| action := k8s_action; answer := k8s_answer |}.

(** Actions that change an object of a cluster. *)
Definition is_write (a : k8s_action) : bool :=
  match a with
  | Create_Secret _ _ | Create_CritConfig _ | Create_Machine _ | Update_Machine _
  | Update_Secret _ _ | Delete_Machine _ | Delete_Object _ | External_CloneTemplate _
  | Kubeconfig_CreateSecretWithOwner _ _ _ | Patch_CritControlPlane _ _
  | Patch_CritConfig _ _ | Patch_Unstructured _ _ => true
  | _ => false
  end.

(** Actions that change the set of machines, and histories without one. *)
Definition machine_change (a : k8s_action) : bool :=
  match a with Create_Machine _ | Delete_Machine _ => true | _ => false end.

Definition unchanged (h : list event) : Prop :=
  ∀ a r, @Ev k8s a r ∈ h → machine_change a = false.

Definition writeless (h : list event) : Prop :=
  ∀ a r, @Ev k8s a r ∈ h → is_write a = false.
End effects.

Lemma unchanged_app {P : Platform} (h l : list (@event k8s)) :
  unchanged (h ++ l) ↔ unchanged h ∧ unchanged l.
Proof. unfold unchanged. setoid_rewrite elem_of_app. naive_solver. Qed.

Lemma unchanged_cons {P : Platform} a r (l : list (@event k8s)) :
  machine_change a = false → unchanged l → unchanged (@Ev k8s a r :: l).
Proof.
  intros Ha Hl a' r' [Heq|?]%elem_of_cons; [|by eapply Hl].
  apply (f_equal (@projT1 _ _)) in Heq. simpl in Heq. by rewrite Heq.
Qed.

Lemma unchanged_nil {P : Platform} : unchanged [].
Proof. intros a r ?%not_elem_of_nil. done. Qed.

Lemma writeless_nil {P : Platform} : writeless [].
Proof. intros a r ?%not_elem_of_nil. done. Qed.

Lemma writeless_cons {P : Platform} a r (l : list (@event k8s)) :
  is_write a = false → writeless l → writeless (@Ev k8s a r :: l).
Proof.
  intros Ha Hl a' r' [Heq|?]%elem_of_cons; [|by eapply Hl].
  apply (f_equal (@projT1 _ _)) in Heq. simpl in Heq. by rewrite Heq.
Qed.

Lemma writeless_unchanged {P : Platform} h : writeless h → unchanged h.
Proof. intros Hw a r Hin. apply Hw in Hin. by destruct a. Qed.

#[export] Hint Resolve writeless_nil writeless_cons unchanged_nil unchanged_cons : go.

(** ** Documented behaviour

    Each class is one assumption about the code outside the repository; a
    theorem takes only those it needs. *)

(** pkg/errors and cluster-api/errors: wrapping keeps the cause, and a
    [RequeueAfterError] is recognised with the delay it was made with. *)
Class ErrorLaws (P : Platform) : Prop := {
  cause_wrap e msg : errors_Cause (errors_Wrap e msg) = errors_Cause e;
  cause_requeue d : errors_Cause (capierrors_RequeueAfterError d) = capierrors_RequeueAfterError d;
  requeue_as d : as_HasRequeueAfterError (capierrors_RequeueAfterError d) = Some d;
}.

(** [kerrors.NewAggregate] is nil exactly when every error is. *)
Class AggregateLaws (P : Platform) : Prop := {
  aggregate_nil l : kerrors_NewAggregate l = None ↔ Forall (λ e, e = None) l;
}.

(** [Time.IsZero] holds of nil. *)
Class TimeLaws (P : Platform) : Prop := {
  time_IsZero_nil : time_IsZero None = true;
}.

(** [MachinesByCreationTimestamp] orders by creation time and breaks ties by
    name. *)
Class MachineOrderLaws (P : Platform) : Prop := {
  machine_less_weak :: StrictWeak MachinesByCreationTimestamp_Less;
  machine_less_older m1 m2 :
    time_Before (Some (om_CreationTimestamp (mach_Meta m1)))
                (Some (om_CreationTimestamp (mach_Meta m2))) = true →
    MachinesByCreationTimestamp_Less m1 m2 = true;
  machine_less_tie m1 m2 :
    MachinesByCreationTimestamp_Less m1 m2 = false →
    MachinesByCreationTimestamp_Less m2 m1 = false →
    mach_Name m1 = mach_Name m2;
}.

(** [FilterControlPlane] keeps the domains suitable for control planes and
    [GetIDs] lists the keys of the map, as pointers. *)
Class FailureDomainLaws (P : Platform) : Prop := {
  FilterControlPlane_lookup fds id spec :
    FilterControlPlane fds !! id = Some spec ↔
    fds !! id = Some spec ∧ fds_ControlPlane spec = true;
  GetIDs_elem fds p :
    p ∈ GetIDs fds ↔ ∃ id, p = Some id ∧ is_Some (fds !! id);
}.

(** [NewControllerRef] makes a controller reference to its owner and
    [GetControllerOf] finds the first controller reference. *)
Class OwnerRefLaws (P : Platform) : Prop := {
  NewControllerRef_kind m gvk : or_Kind (NewControllerRef m gvk) = gvk_Kind gvk;
  NewControllerRef_name m gvk : or_Name (NewControllerRef m gvk) = om_Name m;
  NewControllerRef_uid m gvk : or_UID (NewControllerRef m gvk) = om_UID m;
  NewControllerRef_controller m gvk : or_Controller (NewControllerRef m gvk) = Some true;
  GetControllerOf_find m :
    GetControllerOf m =
    snd <$> list_find (λ r, or_Controller r = Some true) (om_OwnerReferences m);
}.

(** The two label names of cluster-api and the hash label are distinct. *)
Class LabelLaws (P : Platform) : Prop := {
  label_cluster_cp : ClusterLabelName ≠ MachineControlPlaneLabelName;
  label_cluster_hash : ClusterLabelName ≠ CritControlPlaneHashLabelKey;
  label_cp_hash : MachineControlPlaneLabelName ≠ CritControlPlaneHashLabelKey;
}.

(** Finalizers are added and removed by name. *)
Class FinalizerLaws (P : Platform) : Prop := {
  AddFinalizer_elem m f g :
    g ∈ om_Finalizers (controllerutil_AddFinalizer m f) ↔ g = f ∨ g ∈ om_Finalizers m;
  RemoveFinalizer_elem m f g :
    g ∈ om_Finalizers (controllerutil_RemoveFinalizer m f) ↔ g ≠ f ∧ g ∈ om_Finalizers m;
}.

(** The zero endpoint of cluster-api and of crit: no host and no port. *)
Class EndpointLaws (P : Platform) : Prop := {
  endpoint_zero e : APIEndpoint_IsZero e = true ↔ ep_Host e = "" ∧ ep_Port e = 0;
  crit_endpoint_zero e : crit_APIEndpoint_IsZero e = true ↔ ep_Host e = "" ∧ ep_Port e = 0;
}.

(** The keys of a token secret are distinct. *)
Class TokenLaws (P : Platform) : Prop := {
  token_keys : NoDup [BootstrapTokenIDKey; BootstrapTokenSecretKey; BootstrapTokenExpirationKey;
    BootstrapTokenUsageSigningKey; BootstrapTokenUsageAuthentication;
    BootstrapTokenExtraGroupsKey; BootstrapTokenDescriptionKey];
}.
