(* ===== verification/SamplePlatform.v ===== *)
(** One concrete platform, and the proof that it has the documented behaviour
    the law classes of [Platform] name: the hypotheses of the development are
    satisfiable together, and its definitions evaluate on concrete inputs. *)
From Stdlib Require Import Ascii.
From S2P Require Import Prelude GoRuntime ApiTypes Platform.
Local Open Scope Z_scope.

Module Sample.
Inductive err :=
| Msg (s : string)
| Wrapped (e : err) (s : string)
| NotFound
| AlreadyExists
| RequeueAfter (d : Z)
| Aggregate (texts : list string)
| DependentCertificateNotFound
| NoCluster.

Fixpoint cause (e : err) : err :=
  match e with Wrapped e' _ => cause e' | _ => e end.

Fixpoint text (e : err) : string :=
  match e with
  | Msg s => s
  | Wrapped e' s => s +:+ ": " +:+ text e'
  | NotFound => "not found"
  | AlreadyExists => "already exists"
  | RequeueAfter _ => "requeue"
  | Aggregate l => "[" +:+ concat_strings l +:+ "]"
  | DependentCertificateNotFound => "could not find secret ca"
  | NoCluster => "no cluster label present"
  end.

Definition less (m1 m2 : Machine) : bool :=
  let t1 := om_CreationTimestamp (mach_Meta m1) in
  let t2 := om_CreationTimestamp (mach_Meta m2) in
  (t1 <? t2) || ((t1 =? t2) && (encode (mach_Name m1) <? encode (mach_Name m2))%positive).

Fixpoint non_nil (l : list (option err)) : list err :=
  match l with [] => [] | Some e :: l' => e :: non_nil l' | None :: l' => non_nil l' end.

Definition aggregate (l : list (option err)) : option err :=
  match non_nil l with [] => None | es => Some (Aggregate (text <$> es)) end.

Definition split_token (t : string) : list string :=
  match strings_Split t "."%char with
  | [a; b] => if (String.length a =? 6)%nat && (String.length b =? 16)%nat
              then [t; a; b] else []
  | _ => []
  end.

Definition is_zero (t : option Time) : bool :=
  match t with Some t => t =? 0 | None => true end.

Definition parse_gvk (r : ObjectReference) : GroupVersionKind :=
  match strings_Split (ref_APIVersion r) slash with
  | [g; v] => {| gvk_Group := g; gvk_Version := v; gvk_Kind := ref_Kind r |}
  | _ => {| gvk_Group := ""; gvk_Version := ref_APIVersion r; gvk_Kind := ref_Kind r |}
  end.

Definition add_finalizer (m : ObjectMeta) (f : string) : ObjectMeta := {|
  om_Name := om_Name m; om_Namespace := om_Namespace m; om_UID := om_UID m;
  om_Labels := om_Labels m; om_Annotations := om_Annotations m;
  om_OwnerReferences := om_OwnerReferences m;
  om_CreationTimestamp := om_CreationTimestamp m;
  om_DeletionTimestamp := om_DeletionTimestamp m;
  om_Finalizers := if decide (f ∈ om_Finalizers m) then om_Finalizers m
                   else om_Finalizers m ++ [f];
|}.

Definition remove_finalizer (m : ObjectMeta) (f : string) : ObjectMeta := {|
  om_Name := om_Name m; om_Namespace := om_Namespace m; om_UID := om_UID m;
  om_Labels := om_Labels m; om_Annotations := om_Annotations m;
  om_OwnerReferences := om_OwnerReferences m;
  om_CreationTimestamp := om_CreationTimestamp m;
  om_DeletionTimestamp := om_DeletionTimestamp m;
  om_Finalizers := filter (λ g, g ≠ f) (om_Finalizers m);
|}.

#[export] Instance platform : Platform := {|
  error := err;
  error_Error := text;
  errors_New := Msg;
  errors_Wrap := Wrapped;
  errors_WithStack := λ e, Wrapped e "";
  errors_Cause := cause;
  apierrors_IsNotFound := λ e, match e with NotFound => true | _ => false end;
  apierrors_IsAlreadyExists := λ e, match e with AlreadyExists => true | _ => false end;
  capierrors_RequeueAfterError := RequeueAfter;
  as_HasRequeueAfterError := λ e, match e with RequeueAfter d => Some d | _ => None end;
  kerrors_NewAggregate := aggregate;
  is_ErrDependentCertificateNotFound := λ e,
    match e with DependentCertificateNotFound => true | _ => false end;
  is_ErrNoCluster := λ e, match e with NoCluster => true | _ => false end;
  time_IsZero := is_zero;
  time_Before := λ t u, match t, u with Some t, Some u => t <? u | _, _ => false end;
  time_RFC3339 := fmt_d;
  GetControllerOf := λ m,
    snd <$> list_find (λ r, or_Controller r = Some true) (om_OwnerReferences m);
  NewControllerRef := λ m gvk, {|
    or_APIVersion := gvk_Group gvk +:+ "/" +:+ gvk_Version gvk;
    or_Kind := gvk_Kind gvk; or_Name := om_Name m; or_UID := om_UID m;
    or_Controller := Some true; or_BlockOwnerDeletion := Some true |};
  LabelSelector_String := λ l,
    Ok (strings_Join ((λ kv, kv.1 +:+ "=" +:+ kv.2) <$> map_to_list l) ",");
  GroupVersion_String := λ gv, gv_Group gv +:+ "/" +:+ gv_Version gv;
  ref_GroupVersionKind := parse_gvk;
  clusterv1_GroupVersion_String := "cluster.x-k8s.io/v1alpha3";
  ClusterLabelName := "cluster.x-k8s.io/cluster-name";
  MachineControlPlaneLabelName := "cluster.x-k8s.io/control-plane";
  TaintNodeUnreachable := "node.kubernetes.io/unreachable";
  TaintEffectNoExecute := "NoExecute";
  PodReady := "Ready";
  ConditionTrue := "True";
  NamespaceSystem := "kube-system";
  external_TemplateSuffix := "Template";
  BootstrapTokenPattern := "\A([a-z0-9]{6})\.([a-z0-9]{16})\z";
  SecretTypeBootstrapToken := "bootstrap.kubernetes.io/token";
  BootstrapTokenIDKey := "token-id";
  BootstrapTokenSecretKey := "token-secret";
  BootstrapTokenExpirationKey := "expiration";
  BootstrapTokenUsageSigningKey := "usage-bootstrap-signing";
  BootstrapTokenUsageAuthentication := "usage-bootstrap-authentication";
  BootstrapTokenExtraGroupsKey := "auth-extra-groups";
  BootstrapTokenDescriptionKey := "description";
  secretutil_TLSCrtDataName := "tls.crt";
  secretutil_TLSKeyDataName := "tls.key";
  MachinesByCreationTimestamp_Less := less;
  FilterControlPlane := λ fds, filter (λ kv, fds_ControlPlane kv.2 = true) fds;
  GetIDs := λ fds, Some <$> (map_to_list fds).*1;
  APIEndpoint_IsZero := λ e, bool_decide (ep_Host e = "" ∧ ep_Port e = 0);
  APIEndpoint_String := λ e, ep_Host e +:+ ":" +:+ fmt_d (ep_Port e);
  util_IsNodeReady := λ n,
    bool_decide (Exists (λ c, cond_Type c = "Ready" ∧ cond_Status c = "True") (node_Conditions n));
  util_IsPaused := λ c m,
    match om_Annotations m with
    | Some a => bool_decide (is_Some (a !! "cluster.x-k8s.io/paused"))
    | None => false
    end;
  util_EnsureOwnerRef := λ l r, l ++ [r];
  controllerutil_AddFinalizer := add_finalizer;
  controllerutil_RemoveFinalizer := remove_finalizer;
  Unstructured := list OwnerReference * option string;
  unstructured_OwnerReferences := fst;
  unstructured_SetOwnerReferences := λ u l, (l, u.2);
  FromUnstructured_Machine := λ u, Ok u.2;
  FromUnstructured_MachineSet := λ u, Ok u.2;
  FromUnstructured_MachineDeployment := λ u, Ok u.2;
  RESTConfigFromKubeConfig := λ s, Ok {| rc_Data := s; rc_Timeout := 0 |};
  DeepHashObject_bytes := λ '(v, r, s),
    bytes_of (v +:+ "|" +:+ ref_Name r +:+ "|" +:+ ccs_Config s);
  configutil_Marshal := λ o,
    match o with
    | ControlPlaneObject cfg => Ok ("controlplane " +:+ cpc_ClusterName cfg)
    | WorkerObject cfg => Ok ("worker " +:+ wc_ClusterName cfg +:+ " " +:+ wc_BootstrapToken cfg)
    | OtherObject _ => Err (Msg "unknown kind")
    end;
  configutil_Unmarshal := λ s,
    let nc := {| nc_KubeDir := "/etc/kubernetes"; nc_KubernetesVersion := "";
                 nc_ClusterDomain := "" |} in
    match strings_Split s " "%char with
    | ["controlplane"; n] => Ok (ControlPlaneObject {|
        cpc_ClusterName := n; cpc_ControlPlaneEndpoint := {| ep_Host := ""; ep_Port := 0 |};
        cpc_ExtraSANs := []; cpc_ServiceSubnet := ""; cpc_PodSubnet := "";
        cpc_NodeConfiguration := nc; cpc_Rest := "" |})
    | ["worker"; n; t] => Ok (WorkerObject {|
        wc_ClusterName := n; wc_ControlPlaneEndpoint := {| ep_Host := ""; ep_Port := 0 |};
        wc_BootstrapToken := t; wc_NodeConfiguration := nc; wc_Rest := "" |})
    | _ => Err (Msg "cannot parse configuration")
    end;
  crit_APIEndpoint_IsZero := λ e, bool_decide (ep_Host e = "" ∧ ep_Port e = 0);
  fmt_T := λ o, match o with
    | ControlPlaneObject _ => "*v1alpha2.ControlPlaneConfiguration"
    | WorkerObject _ => "*v1alpha2.WorkerConfiguration"
    | OtherObject _ => "runtime.Object"
    end;
  BootstrapTokenRegexp_FindStringSubmatch := split_token;
  BootstrapTokenSecretName := λ id, "bootstrap-token-" +:+ id;
  PrivateKey := Z;
  X509Certificate := string;
  EncodeCertPEM := λ c, "CERT " +:+ c;
  EncodePrivateKeyPEM := λ k, "KEY " +:+ fmt_d k;
  EncodePublicKeyPEM := λ k, Ok ("PUB " +:+ fmt_d k);
  DecodeCertPEM := λ s, Ok s;
  DecodePrivateKeyPEM := λ s, Ok (Z.of_nat (String.length s));
  x509_ParseCertificate := λ s, Ok s;
  tls_X509KeyPair := λ _ _, None;
  fmt_CertTemplate := λ t, ct_CommonName t;
|}.
End Sample.
Import Sample.

(** ** The sample platform has the documented behaviour *)

#[export] Instance Sample_ErrorLaws : ErrorLaws platform.
Proof. by split. Qed.

#[export] Instance Sample_AggregateLaws : AggregateLaws platform.
Proof.
  split; intros l; simpl; unfold aggregate.
  transitivity (non_nil l = []); [by destruct (non_nil l)|].
  induction l as [|[e|] l IH]; simpl; rewrite ?Forall_cons; [done|naive_solver|naive_solver].
Qed.

#[export] Instance Sample_TimeLaws : TimeLaws platform.
Proof. by split. Qed.

Lemma Sample_less_spec m1 m2 :
  less m1 m2 = true ↔
  (om_CreationTimestamp (mach_Meta m1) < om_CreationTimestamp (mach_Meta m2)) ∨
  (om_CreationTimestamp (mach_Meta m1) = om_CreationTimestamp (mach_Meta m2) ∧
   (encode (mach_Name m1) < encode (mach_Name m2))%positive).
Proof. unfold less. rewrite orb_true_iff, andb_true_iff, Z.ltb_lt, Z.eqb_eq, Pos.ltb_lt. done. Qed.

#[export] Instance Sample_MachineOrderLaws : MachineOrderLaws platform.
Proof.
  split; simpl.
  - split; intros *; rewrite <-?not_true_iff_false, ?Sample_less_spec; lia.
  - intros m1 m2 H%Z.ltb_lt. apply Sample_less_spec. by left.
  - intros m1 m2. rewrite <-!not_true_iff_false, !Sample_less_spec. intros H1 H2.
    apply (inj encode). lia.
Qed.

#[export] Instance Sample_FailureDomainLaws : FailureDomainLaws platform.
Proof.
  split; simpl.
  - intros. apply map_lookup_filter_Some.
  - intros fds p. rewrite list_elem_of_fmap. split.
    + intros (id&->&([id' spec]&->&Hin)%list_elem_of_fmap). exists id'; split; [done|].
      apply elem_of_map_to_list in Hin. by eexists.
    + intros (id&->&spec&Hid). exists id; split; [done|]. apply list_elem_of_fmap.
      exists (id, spec); split; [done|]. by apply elem_of_map_to_list.
Qed.

#[export] Instance Sample_OwnerRefLaws : OwnerRefLaws platform.
Proof. by split. Qed.

#[export] Instance Sample_LabelLaws : LabelLaws platform.
Proof. by split. Qed.

#[export] Instance Sample_FinalizerLaws : FinalizerLaws platform.
Proof.
  split; intros m f g; simpl.
  - case_decide; [naive_solver|]. rewrite elem_of_app, list_elem_of_singleton. naive_solver.
  - rewrite list_elem_of_filter. done.
Qed.

#[export] Instance Sample_EndpointLaws : EndpointLaws platform.
Proof. split; intros e; apply bool_decide_eq_true. Qed.

#[export] Instance Sample_TokenLaws : TokenLaws platform.
Proof. split. apply (bool_decide_unpack _). vm_compute. done. Qed.

(** ** Sample objects *)

Module Fixtures.
Definition ref (kind name : string) : ObjectReference := {|
  ref_APIVersion := "v1"; ref_Kind := kind; ref_Namespace := "default";
  ref_Name := name; ref_UID := name +:+ "-uid" |}.

(** A control plane machine of cluster [demo], control plane [cp]. *)
Definition machine (name : string) (created : Time) (fd : option string)
    (hash : string) : Machine := {|
  mach_Meta := {|
    om_Name := name; om_Namespace := "default"; om_UID := name +:+ "-uid";
    om_Labels := {[ ClusterLabelName := "demo"; MachineControlPlaneLabelName := "cp";
                    CritControlPlaneHashLabelKey := hash ]};
    om_Annotations := None; om_OwnerReferences := [];
    om_CreationTimestamp := created; om_DeletionTimestamp := None;
    om_Finalizers := [] |};
  mach_Spec := {|
    ms_ClusterName := "demo"; ms_Version := Some "v1.18.5";
    ms_InfrastructureRef := ref "AWSMachine" name;
    ms_ConfigRef := Some (ref "CritConfig" name); ms_FailureDomain := fd |};
  mach_NodeRef := Some (ref "Node" ("node-" +:+ name)) |}.

Definition domains : FailureDomains :=
  {[ "a" := {| fds_ControlPlane := true |}; "b" := {| fds_ControlPlane := true |};
     "c" := {| fds_ControlPlane := false |} ]}.

Definition cluster : Cluster := {|
  cl_Meta := meta "demo" "default";
  cl_ControlPlaneEndpoint := {| ep_Host := "10.0.0.1"; ep_Port := 6443 |};
  cl_ControlPlaneRef := Some (ref "CritControlPlane" "cp");
  cl_ClusterNetwork := Some {| cn_Services := Some ["10.96.0.0/12"];
    cn_Pods := Some ["10.244.0.0/16"]; cn_ServiceDomain := "cluster.local" |};
  cl_InfrastructureReady := true;
  cl_ControlPlaneInitialized := true;
  cl_FailureDomains := Some domains |}.

Definition config_spec : CritConfigSpec := {|
  ccs_Config := "controlplane demo"; ccs_Files := []; ccs_PreCritCommands := [];
  ccs_PostCritCommands := []; ccs_Users := []; ccs_NTP := None;
  ccs_Format := ""; ccs_Verbosity := false |}.

Definition ccp (replicas : Z) : CritControlPlane := {|
  ccp_Meta := meta "cp" "default";
  ccp_Spec := {| ccps_Replicas := replicas; ccps_Version := "v1.18.5";
    ccps_InfrastructureTemplate := ref "AWSMachineTemplate" "cp";
    ccps_CritConfigSpec := config_spec |};
  ccp_Status := {| ccpst_Selector := ""; ccpst_Replicas := 0; ccpst_UpdatedReplicas := 0;
    ccpst_ReadyReplicas := 0; ccpst_UnavailableReplicas := 0; ccpst_Initialized := false;
    ccpst_Ready := false; ccpst_FailureReason := ""; ccpst_FailureMessage := None |} |}.

(** An environment where nothing is found and every write succeeds. *)
Definition accept_action (a : k8s_action) : k8s_answer a :=
  match a with
  | Get_CritControlPlane _ | Get_CritConfig _ | Get_Cluster _ | Get_Secret _ _ | Get_Pod _ _
  | GetClusterByName _ _ | External_Get _ _ | Kubeconfig_FromSecret _ => Err NotFound
  | List_Machines _ _ => Ok []
  | List_Nodes _ _ => Ok []
  | GetOwnerCluster _ => Ok None
  | GetConfigOwner _ => Ok None
  | Get_ConfigMap _ _ => Some NotFound
  | Create_CritConfig c => Ok c
  | External_CloneTemplate i => Ok (ref "AWSMachine" (cti_ClusterName i +:+ "-k7q"))
  | Create_Secret _ _ | Create_Machine _ | Update_Machine _ | Update_Secret _ _
  | Delete_Machine _ | Delete_Object _ | Kubeconfig_CreateSecretWithOwner _ _ _
  | Patch_CritControlPlane _ _ | Patch_CritConfig _ _ | Patch_Unstructured _ _
  | NewPatchHelper | Client_New _ => None
  | GenerateName base => base +:+ "x2x4z"
  | Now => 1000
  | GenerateBootstrapToken => Ok "abcdef.0123456789abcdef"
  | Certs_NewPrivateKey => Ok 42
  | X509_CreateCertificate _ _ _ _ => Ok "der"
  | Recorder_Event _ _ => tt
  end.

(** The same environment with some answers replaced. *)
Definition environment (f : ∀ a : k8s_action, option (k8s_answer a)) :
    list event → ∀ a : k8s_action, k8s_answer a :=
  λ _ a, match f a with Some r => r | None => accept_action a end.
Definition accept : list event → ∀ a : k8s_action, k8s_answer a :=
  environment (λ _, None).
End Fixtures.
