(* ===== verification/MachineFilters.v ===== *)
(** internal/machinefilters/machine_filters.go: predicates on machines.  A
    filter takes a machine pointer, [None] being nil. *)
From S2P Require Import Prelude GoRuntime ApiTypes Platform.
Local Open Scope Z_scope.

Abbreviation Func := (option Machine → bool).

(** A loop that returns at the first filter that is false. *)
Fixpoint And (filters : list Func) : Func := λ machine,
  match filters with
  | [] => true
  | f :: filters' => if negb (f machine) then false else And filters' machine
  end.

Fixpoint Or (filters : list Func) : Func := λ machine,
  match filters with
  | [] => false
  | f :: filters' => if f machine then true else Or filters' machine
  end.

Definition Not (mf : Func) : Func := λ machine, negb (mf machine).

(** The loop of [InFailureDomains] on the machine's own domain. *)
Fixpoint in_failure_domains (failureDomains : list (option string)) (mine : option string) : bool :=
  match failureDomains with
  | [] => false
  | None :: fds' =>
      match mine with
      | None => true
      | Some _ => in_failure_domains fds' mine
      end
  | Some fd :: fds' =>
      match mine with
      | None => in_failure_domains fds' mine
      | Some d => if String.eqb fd d then true else in_failure_domains fds' mine
      end
  end.

Definition InFailureDomains (failureDomains : list (option string)) : Func := λ machine,
  match machine with
  | None => false
  | Some m => in_failure_domains failureDomains (mach_FailureDomain m)
  end.

Section filters.
Context {P : Platform}.

Definition OwnedControlPlaneMachines (controlPlaneName : string) : Func := λ machine,
  match machine with
  | None => false
  | Some m =>
      match mach_Labels m !! MachineControlPlaneLabelName with
      | None => false
      | Some name => String.eqb name controlPlaneName
      end
  end.

Definition HasDeletionTimestamp : Func := λ machine,
  match machine with
  | None => false
  | Some m => negb (time_IsZero (om_DeletionTimestamp (mach_Meta m)))
  end.

Definition MatchesConfigurationHash (configHash : string) : Func := λ machine,
  match machine with
  | None => false
  | Some m =>
      match mach_Labels m !! CritControlPlaneHashLabelKey with
      | Some hash => String.eqb hash configHash
      | None => false
      end
  end.

Definition OlderThan (t : option Time) : Func := λ machine,
  match machine with
  | None => false
  | Some m => time_Before (Some (om_CreationTimestamp (mach_Meta m))) t
  end.

Definition HasAnnotationKey (key : string) : Func := λ machine,
  match machine with
  | None => false
  | Some m =>
      match om_Annotations (mach_Meta m) with
      | None => false
      | Some annotations =>
          match annotations !! key with Some _ => true | None => false end
      end
  end.
End filters.

(** ** Lemmas *)

Lemma And_true filters m : And filters m = true ↔ Forall (λ f, f m = true) filters.
Proof.
  induction filters as [|f fs IH]; simpl; [by split|].
  rewrite Forall_cons, <-IH. destruct (f m); naive_solver.
Qed.

Lemma Or_true filters m : Or filters m = true ↔ Exists (λ f, f m = true) filters.
Proof.
  induction filters as [|f fs IH]; simpl; [by rewrite Exists_nil|].
  rewrite Exists_cons, <-IH. destruct (f m); naive_solver.
Qed.

Lemma And_singleton f m : And [f] m = f m.
Proof. simpl. by destruct (f m). Qed.

Lemma in_failure_domains_true fds mine :
  in_failure_domains fds mine = true ↔ mine ∈ fds.
Proof.
  induction fds as [|[fd|] fds IH]; simpl.
  - split; [done|]. by intros ?%not_elem_of_nil.
  - destruct mine as [d|]; rewrite elem_of_cons, ?IH; [|naive_solver].
    destruct (String.eqb_spec fd d); naive_solver.
  - destruct mine as [d|]; rewrite elem_of_cons, ?IH; naive_solver.
Qed.

Lemma InFailureDomains_true fds m :
  InFailureDomains fds (Some m) = true ↔ mach_FailureDomain m ∈ fds.
Proof. apply in_failure_domains_true. Qed.

Section filters_lemmas.
Context {P : Platform}.

Lemma OwnedControlPlaneMachines_true name m :
  OwnedControlPlaneMachines name (Some m) = true ↔
  mach_Labels m !! MachineControlPlaneLabelName = Some name.
Proof.
  simpl. destruct (_ !! _) as [n|]; [|done].
  destruct (String.eqb_spec n name); naive_solver.
Qed.

Lemma MatchesConfigurationHash_true hash m :
  MatchesConfigurationHash hash (Some m) = true ↔
  mach_Labels m !! CritControlPlaneHashLabelKey = Some hash.
Proof.
  simpl. destruct (_ !! _) as [n|]; [|done].
  destruct (String.eqb_spec n hash); naive_solver.
Qed.

(** No filter of the package holds of a nil machine, so none dereferences
    one; [Not] and [And []] do hold of it. *)
Lemma filters_nil fds name hash t key :
  InFailureDomains fds None = false ∧ OwnedControlPlaneMachines name None = false ∧
  HasDeletionTimestamp None = false ∧ MatchesConfigurationHash hash None = false ∧
  OlderThan t None = false ∧ HasAnnotationKey key None = false.
Proof. done. Qed.
End filters_lemmas.
