(* ===== verification/MachineCollection.v ===== *)
(** internal/machine_collection.go: sets of machines keyed by name. *)
From S2P Require Import Prelude GoRuntime ApiTypes Platform SamplePlatform MachineFilters.
Local Open Scope Z_scope.

Abbreviation FilterableMachineCollection := (gmap string Machine).

Section collection.
Context {R : GoRuntime} {P : Platform}.
Implicit Types s : FilterableMachineCollection.

(** The loop skips nil pointers. *)
Fixpoint Insert s (machines : list (option Machine)) : FilterableMachineCollection :=
  match machines with
  | [] => s
  | None :: ms => Insert s ms
  | Some m :: ms => Insert (<[mach_Name m := m]> s) ms
  end.

Definition NewFilterableMachineCollection (machines : list (option Machine)) :
    FilterableMachineCollection :=
  Insert ∅ machines.

Definition NewFilterableMachineCollectionFromMachineList (items : list Machine) :
    FilterableMachineCollection :=
  foldl (λ ss m, Insert ss [Some m]) ∅ items.

Definition unsortedList s : list Machine := (map_range s).*2.

Definition SortedByCreationTimestamp s : list Machine :=
  sort_Sort MachinesByCreationTimestamp_Less (map_range s).*2.

Definition Len s : Z := Z.of_nat (size s).

Definition newFilteredMachineCollection (filter : Func) (machines : list Machine) :
    FilterableMachineCollection :=
  foldl (λ ss m, if filter (Some m) then Insert ss [Some m] else ss) ∅ machines.

Definition Filter s (filters : list Func) : FilterableMachineCollection :=
  newFilteredMachineCollection (And filters) (unsortedList s).

Definition AnyFilter s (filters : list Func) : FilterableMachineCollection :=
  newFilteredMachineCollection (Or filters) (unsortedList s).

Definition Oldest s : option Machine :=
  if Len s =? 0 then None else head (SortedByCreationTimestamp s).

Definition Newest s : option Machine :=
  if Len s =? 0 then None
  else SortedByCreationTimestamp s !! (Z.to_nat (Len s - 1)).

(** [Machine.DeepCopy] is the identity on values. *)
Definition DeepCopy s : FilterableMachineCollection :=
  foldl (λ result m, Insert result [Some m]) ∅ (map_range s).*2.

(** The well-formedness invariant: every machine is filed under its name. *)
Definition keyed s : Prop := map_Forall (λ k m, mach_Name m = k) s.
End collection.

(** ** Lemmas *)

Lemma keyed_empty : keyed ∅.
Proof. apply map_Forall_empty. Qed.

Lemma Insert_keyed s ms : keyed s → keyed (Insert s ms).
Proof.
  revert s; induction ms as [|[m|] ms IH]; intros s Hs; simpl; [done| |by apply IH].
  apply IH. by apply map_Forall_insert_2.
Qed.

Lemma foldl_insert_keyed (f : Func) ms s :
  keyed s → keyed (foldl (λ ss m, if f (Some m) then Insert ss [Some m] else ss) s ms).
Proof.
  revert s; induction ms as [|m ms IH]; intros s Hs; simpl; [done|].
  apply IH. case_match; [|done]. by apply map_Forall_insert_2.
Qed.

(** Filtering a duplicate-free list of machines into a map. *)
Lemma foldl_filter_lookup (f : Func) ms s k m :
  NoDup (mach_Name <$> ms) → (∀ m', m' ∈ ms → s !! mach_Name m' = None) →
  foldl (λ ss m, if f (Some m) then Insert ss [Some m] else ss) s ms !! k = Some m ↔
  s !! k = Some m ∨ (m ∈ ms ∧ f (Some m) = true ∧ mach_Name m = k).
Proof.
  revert s; induction ms as [|m' ms IH]; intros s Hnd Hs; cbn [foldl].
  { split; [by left|]. by intros [?|[?%not_elem_of_nil _]]. }
  rewrite fmap_cons in Hnd. apply NoDup_cons in Hnd as [Hm' Hnd].
  rewrite list_elem_of_fmap in Hm'.
  rewrite IH; [|done|].
  - rewrite elem_of_cons. specialize (Hs m' (list_elem_of_here _ _)). destruct (f (Some m')) eqn:Hf.
    + cbn [Insert]. rewrite lookup_insert_Some. split.
      * intros [[[<- <-]|[? ?]]|?]; naive_solver.
      * intros [Hk|([->|?]&?&?)]; [|naive_solver..].
        left; right. split; [|done]. intros <-. congruence.
    + split; [intros [?|(?&?&?)]; eauto|].
      intros [?|([->|?]&?&?)]; [eauto|congruence|eauto].
  - intros m'' Hin. destruct (f (Some m')); [|apply Hs; by right].
    cbn [Insert]. rewrite lookup_insert_ne; [apply Hs; by right|]. intros Heq. apply Hm'. eauto.
Qed.

Section collection_lemmas.
Context {R : GoRuntime} {RL : GoRuntimeLaws R} {P : Platform}.
Implicit Types s : FilterableMachineCollection.

Lemma elem_of_unsortedList s m : m ∈ unsortedList s ↔ ∃ k, s !! k = Some m.
Proof.
  unfold unsortedList. rewrite list_elem_of_fmap. split.
  - intros ([k m']&->&Hin%elem_of_map_range). eauto.
  - intros [k Hk]. exists (k, m); split; [done|]. by apply elem_of_map_range.
Qed.

Lemma unsortedList_names s : keyed s → mach_Name <$> unsortedList s = (map_range s).*1.
Proof.
  intros Hs. unfold unsortedList. rewrite <-list_fmap_compose.
  apply list_fmap_ext. intros i [k m] Hi. simpl. apply Hs.
  apply elem_of_map_range. by eapply list_elem_of_lookup_2.
Qed.

Lemma filtered_lookup f s k m :
  keyed s →
  newFilteredMachineCollection f (unsortedList s) !! k = Some m ↔
  s !! k = Some m ∧ f (Some m) = true.
Proof.
  intros Hs. unfold newFilteredMachineCollection. rewrite foldl_filter_lookup.
  - rewrite lookup_empty, elem_of_unsortedList. split.
    + intros [?|([k' Hk']&?&<-)]; [done|]. by rewrite (Hs _ _ Hk').
    + intros [Hk ?]. right. split; [eauto|]. split; [done|]. by apply Hs.
  - rewrite unsortedList_names by done. apply NoDup_map_range.
  - intros. apply lookup_empty.
Qed.

Lemma Filter_lookup s fs k m :
  keyed s → Filter s fs !! k = Some m ↔ s !! k = Some m ∧ And fs (Some m) = true.
Proof. apply filtered_lookup. Qed.

Lemma Filter_keyed s fs : keyed (Filter s fs).
Proof. apply foldl_insert_keyed, keyed_empty. Qed.

Lemma Filter_nil s : keyed s → Filter s [] = s.
Proof.
  intros Hs. apply map_eq; intros k. apply option_eq; intros m.
  rewrite Filter_lookup by done. naive_solver.
Qed.

Lemma Filter_subseteq s fs : keyed s → Filter s fs ⊆ s.
Proof. intros Hs. apply map_subseteq_spec. intros k m. rewrite Filter_lookup; naive_solver. Qed.

Lemma Filter_size_pos s fs :
  keyed s →
  size (Filter s fs) ≠ 0%nat ↔ ∃ k m, s !! k = Some m ∧ And fs (Some m) = true.
Proof.
  intros Hs. rewrite map_size_ne_0_lookup. unfold is_Some.
  setoid_rewrite Filter_lookup; done.
Qed.

Lemma SortedByCreationTimestamp_perm s : SortedByCreationTimestamp s ≡ₚ unsortedList s.
Proof. apply sort_perm. Qed.

Lemma Oldest_None s : Oldest s = None ↔ s = ∅.
Proof.
  unfold Oldest, Len. rewrite <-map_size_empty_iff. case_match eqn:Hz; [naive_solver lia|].
  split; [|lia]. intros Hnone. apply head_None in Hnone.
  assert (Hp := SortedByCreationTimestamp_perm s). rewrite Hnone in Hp.
  apply Permutation_length in Hp.
  unfold unsortedList in Hp. rewrite length_fmap, length_map_range in Hp. simpl in Hp. lia.
Qed.

(** The machine [Oldest] picks: a member no other member sorts before. *)
Lemma Oldest_Some `{!MachineOrderLaws P} s m :
  Oldest s = Some m →
  (∃ k, s !! k = Some m) ∧
  ∀ k m', s !! k = Some m' → MachinesByCreationTimestamp_Less m' m = false.
Proof.
  unfold Oldest. case_match; [done|]. unfold SortedByCreationTimestamp.
  destruct (sort_Sort _ _) as [|x l] eqn:Hsort; [done|]. intros [= ->].
  apply sort_Sort_head in Hsort as [Hin Hle]; [|apply _]. split.
  - by apply elem_of_unsortedList.
  - intros k m' Hk. apply Hle, elem_of_unsortedList. eauto.
Qed.
End collection_lemmas.

(** ** Properties *)

Section collection_properties.
Context {R : GoRuntime} {RL : GoRuntimeLaws R} {P : Platform}.
Implicit Types s : FilterableMachineCollection.

Lemma Newest_Some `{!MachineOrderLaws P} s :
  s ≠ ∅ → ∃ m, Newest s = Some m ∧ (∃ k, s !! k = Some m) ∧
    ∀ k m', s !! k = Some m' → MachinesByCreationTimestamp_Less m m' = false.
Proof.
  intros Hs.
  assert (Hlen : length (SortedByCreationTimestamp s) = size s).
  { rewrite SortedByCreationTimestamp_perm. unfold unsortedList.
    by rewrite length_fmap, length_map_range. }
  assert (size s ≠ 0%nat) as Hsz by by rewrite map_size_empty_iff.
  unfold Newest, Len. destruct (Z.eqb_spec (Z.of_nat (size s)) 0) as [|_]; [lia|].
  destruct (SortedByCreationTimestamp s !! Z.to_nat (Z.of_nat (size s) - 1)) as [m|] eqn:Hm;
    [|apply lookup_ge_None in Hm; lia].
  exists m; split; [done|]. split.
  - apply elem_of_unsortedList. rewrite <-SortedByCreationTimestamp_perm.
    by eapply list_elem_of_lookup_2.
  - intros k m' Hk. assert (m' ∈ SortedByCreationTimestamp s) as [i Hi]%list_elem_of_lookup.
    { rewrite SortedByCreationTimestamp_perm. apply elem_of_unsortedList. eauto. }
    assert (i < size s)%nat as Hlt by (rewrite <-Hlen; by eapply lookup_lt_Some).
    destruct (decide (i = Z.to_nat (Z.of_nat (size s) - 1))) as [->|].
    { rewrite Hm in Hi; injection Hi as ->. apply less_irrefl. }
    apply (StronglySorted_lookup _ _ i _ m' m (sort_sorted _ _) Hi Hm). lia.
Qed.

(** [Filter] keeps exactly the machines that pass every given filter,
    and [AnyFilter] those that pass at least one, whatever order the map is
    ranged over; both return collections keyed by machine name again. *)
Theorem Filter_exact s fs :
  keyed s →
  keyed (Filter s fs) ∧ keyed (AnyFilter s fs) ∧
  (∀ k m, Filter s fs !! k = Some m ↔
     s !! k = Some m ∧ ∀ f, f ∈ fs → f (Some m) = true) ∧
  (∀ k m, AnyFilter s fs !! k = Some m ↔
     s !! k = Some m ∧ ∃ f, f ∈ fs ∧ f (Some m) = true).
Proof.
  intros Hs. split; [apply Filter_keyed|].
  split; [apply foldl_insert_keyed, keyed_empty|]. split; intros k m.
  - by rewrite Filter_lookup, And_true, Forall_forall.
  - unfold AnyFilter. by rewrite filtered_lookup, Or_true, Exists_exists.
Qed.

(** A non-empty collection has an [Oldest] and a [Newest] machine: a
    member none of the others was created before, respectively after. *)
Theorem Oldest_Newest_extremal `{!MachineOrderLaws P} s :
  s ≠ ∅ →
  ∃ o n, Oldest s = Some o ∧ Newest s = Some n ∧
    (∃ k, s !! k = Some o) ∧ (∃ k, s !! k = Some n) ∧
    ∀ k m, s !! k = Some m →
      time_Before (Some (om_CreationTimestamp (mach_Meta m)))
                  (Some (om_CreationTimestamp (mach_Meta o))) = false ∧
      time_Before (Some (om_CreationTimestamp (mach_Meta n)))
                  (Some (om_CreationTimestamp (mach_Meta m))) = false.
Proof.
  intros Hs. destruct (Newest_Some s Hs) as (n&Hn&?&Hmax).
  destruct (Oldest s) as [o|] eqn:Ho; [|by apply Oldest_None in Ho].
  apply Oldest_Some in Ho as [? Hmin].
  exists o, n; split_and!; try done. intros k m Hk.
  split; apply not_true_iff_false; intros Hlt%machine_less_older; specialize (Hmin k m Hk);
    specialize (Hmax k m Hk); congruence.
Qed.
End collection_properties.

(** Although maps are ranged over in any order and [sort.Sort] is not
    stable, [Oldest] picks the same machine of a keyed collection on every
    run. *)
Theorem Oldest_deterministic {R1 R2 : GoRuntime} {RL1 : GoRuntimeLaws R1}
    {RL2 : GoRuntimeLaws R2} {P : Platform} {ML : MachineOrderLaws P}
    (s : FilterableMachineCollection) :
  keyed s → @Oldest R1 P s = @Oldest R2 P s.
Proof.
  intros Hs. destruct (@Oldest R1 P s) as [m1|] eqn:H1.
  - destruct (@Oldest R2 P s) as [m2|] eqn:H2.
    + apply Oldest_Some in H1 as [[k1 Hk1] Hmin1], H2 as [[k2 Hk2] Hmin2].
      assert (mach_Name m1 = mach_Name m2) as Hn.
      { apply machine_less_tie; eauto. }
      f_equal. rewrite (Hs _ _ Hk1), (Hs _ _ Hk2) in Hn. congruence.
    + apply Oldest_None in H2. subst. by rewrite (proj2 (Oldest_None ∅)) in H1.
  - apply Oldest_None in H1. subst. symmetry. by apply Oldest_None.
Qed.

(** ** Witnesses *)

Module CollectionWitness.
Import Reference ReferenceLaws Sample Fixtures.

Definition m1 : Machine := machine "m1" 10 (Some "a") "1".
Definition m2 : Machine := machine "m2" 20 None "2".
Definition m3 : Machine := machine "m3" 30 (Some "b") "1".
Definition three : FilterableMachineCollection :=
  NewFilterableMachineCollection [Some m3; None; Some m1; Some m2].

Lemma three_keyed : keyed three.
Proof. apply Insert_keyed, keyed_empty. Qed.

Lemma Filter_exact_witness :
  keyed three ∧ Filter three [MatchesConfigurationHash "1"] !! "m3" = Some m3 ∧
  ∀ f, f ∈ [MatchesConfigurationHash "1"] → f (Some m3) = true.
Proof.
  split; [exact three_keyed|]. split; [reflexivity|].
  destruct (Filter_exact three [MatchesConfigurationHash "1"] three_keyed) as (_&_&H&_).
  exact (proj2 (proj1 (H "m3" m3) eq_refl)).
Defined.

Lemma Oldest_Newest_extremal_witness :
  three ≠ ∅ ∧ Oldest three = Some m1 ∧ Newest three = Some m3 ∧
  ∃ o n, Oldest three = Some o ∧ Newest three = Some n ∧
    (∃ k, three !! k = Some o) ∧ (∃ k, three !! k = Some n) ∧
    ∀ k m, three !! k = Some m →
      time_Before (Some (om_CreationTimestamp (mach_Meta m)))
                  (Some (om_CreationTimestamp (mach_Meta o))) = false ∧
      time_Before (Some (om_CreationTimestamp (mach_Meta n)))
                  (Some (om_CreationTimestamp (mach_Meta m))) = false.
Proof.
  split; [discriminate|]. split; [vm_compute; reflexivity|].
  split; [vm_compute; reflexivity|]. apply Oldest_Newest_extremal. discriminate.
Defined.

(** A runtime that ranges over maps in the opposite order. *)
Definition backwards : GoRuntime :=
  {| map_range := λ A m, reverse (map_to_list m); sort_Sort := λ A, insertionSort;
     isPrint_table := λ _, false |}.

Lemma backwards_laws : GoRuntimeLaws backwards.
Proof.
  split; intros *; simpl.
  - apply reverse_Permutation.
  - apply insertionSort_perm.
  - intros ?. by apply insertionSort_sorted.
Qed.

Lemma Oldest_deterministic_witness :
  keyed three ∧ @Oldest runtime platform three = @Oldest backwards platform three.
Proof.
  split; [exact three_keyed|].
  exact (Oldest_deterministic (R1 := runtime) (R2 := backwards) (RL2 := backwards_laws)
    three three_keyed).
Defined.
End CollectionWitness.
