(* ===== verification/FailureDomain.v ===== *)
(** internal/failure_domain.go: spreading machines over failure domains. *)
From S2P Require Import Prelude GoRuntime ApiTypes Platform SamplePlatform.
From S2P Require Import MachineFilters MachineCollection.
Local Open Scope Z_scope.

(** internal/control_plane.go: the control plane a reconciliation works on. *)
Record ControlPlane := {
  cp_CCP : CritControlPlane;
  cp_Cluster : Cluster;
  cp_Machines : FilterableMachineCollection;
}.

Record failureDomainAggregation := { fda_id : string; fda_count : Z }.

(** [failureDomainAggregations.Less] *)
Definition aggregation_Less (f g : failureDomainAggregation) : bool :=
  fda_count f <? fda_count g.

(** Reading a possibly nil map. *)
Definition from_nil (fds : option FailureDomains) : FailureDomains := default ∅ fds.

Section failure_domain.
Context {R : GoRuntime} {P : Platform}.
Implicit Types fds : FailureDomains.
Implicit Types machines : FilterableMachineCollection.

(** The two loops of [pick]: every domain starts at zero, then each machine
    in a known domain counts for it. *)
Definition init_counters fds : gmap string Z :=
  foldl (λ counters kv, <[kv.1 := 0]> counters) ∅ (map_range fds).

Definition count_machine fds (counters : gmap string Z) (m : Machine) : gmap string Z :=
  match mach_FailureDomain m with
  | None => counters
  | Some id =>
      match fds !! id with
      | None => counters
      | Some _ => <[id := default 0 (counters !! id) + 1]> counters
      end
  end.

Definition pick fds machines : list failureDomainAggregation :=
  if (size fds =? 0)%nat then []
  else
    let counters := foldl (count_machine fds) (init_counters fds) (map_range machines).*2 in
    (λ kv, {| fda_id := kv.1; fda_count := kv.2 |}) <$> map_range counters.

Definition orderDescending fds machines : list failureDomainAggregation :=
  let aggregations := pick fds machines in
  if (length aggregations =? 0)%nat then []
  else sort_Sort (sort_Reverse aggregation_Less) aggregations.

Definition PickFewest fds machines : option string :=
  let aggregations := pick fds machines in
  if (length aggregations =? 0)%nat then None
  else fda_id <$> head (sort_Sort aggregation_Less aggregations).

(** [make([]*string, n)] panics when [n] is negative. *)
Definition PickNFewest fds machines (n : Z) : outcome (list (option string)) :=
  if n <? 0 then Panic
  else
    let aggregations := pick fds machines in
    if (length aggregations =? 0)%nat then Val (replicate (Z.to_nat n) None)
    else
      let aggregations := sort_Sort aggregation_Less aggregations in
      Val ((λ i, fda_id <$> aggregations !! (i `mod` length aggregations)%nat)
           <$> seq 0 (Z.to_nat n)).

(** The inner loop of [PickMost]. *)
Fixpoint some_machine_in (id : string) (machines : list Machine) : bool :=
  match machines with
  | [] => false
  | m :: ms =>
      match mach_FailureDomain m with
      | None => some_machine_in id ms
      | Some d => if String.eqb d id then true else some_machine_in id ms
      end
  end.

Fixpoint first_inhabited (aggregations : list failureDomainAggregation)
    (machines : list Machine) : option string :=
  match aggregations with
  | [] => None
  | fd :: fds => if some_machine_in (fda_id fd) machines then Some (fda_id fd)
                 else first_inhabited fds machines
  end.

Definition PickMost (c : ControlPlane) machines : option string :=
  let fds := orderDescending
    (FilterControlPlane (from_nil (cl_FailureDomains (cp_Cluster c)))) (cp_Machines c) in
  first_inhabited fds (map_range machines).*2.

(** ** What the counts should be *)

(** The number of machines of a collection in a domain. *)
Definition population machines (id : string) : Z :=
  Z.of_nat (length (filter (λ m, mach_FailureDomain m = Some id) (map_to_list machines).*2)).
End failure_domain.

(** ** Lemmas *)

Lemma init_counters_lookup {R : GoRuntime} {RL : GoRuntimeLaws R} (fds : FailureDomains) id :
  init_counters fds !! id = (λ _, 0) <$> fds !! id.
Proof.
  unfold init_counters.
  cut (∀ l c, foldl (λ (counters : gmap string Z) (kv : string * FailureDomainSpec),
      <[kv.1 := 0]> counters) c l !! id = if decide (id ∈ l.*1) then Some 0 else c !! id).
  { intros ->. rewrite lookup_empty. case_decide as Hin.
    - apply list_elem_of_fmap in Hin as ([k x]&->&Hk%elem_of_map_range).
      simpl. by rewrite Hk.
    - destruct (fds !! id) as [x|] eqn:Hx; [|done]. destruct Hin.
      apply list_elem_of_fmap. exists (id, x). by rewrite elem_of_map_range. }
  induction l as [|[k x] l IH]; intros c; cbn [foldl]; [by rewrite decide_False by apply not_elem_of_nil|].
  rewrite IH, fmap_cons. simpl. repeat case_decide; try done.
  - destruct H0. by right.
  - rewrite elem_of_cons in H0. destruct H0 as [->|]; [|done]. by rewrite lookup_insert_eq.
  - rewrite lookup_insert_ne; [done|]. intros ->. destruct H0. left.
Qed.

Definition count_in (id : string) (ms : list Machine) : Z :=
  Z.of_nat (length (filter (λ m, mach_FailureDomain m = Some id) ms)).

Lemma count_in_cons id m ms :
  count_in id (m :: ms) = (if decide (mach_FailureDomain m = Some id) then 1 else 0) + count_in id ms.
Proof. unfold count_in. rewrite filter_cons. case_decide; rewrite ?length_cons; lia. Qed.

Lemma count_in_population {R : GoRuntime} {RL : GoRuntimeLaws R} (machines : FilterableMachineCollection) id :
  count_in id (map_range machines).*2 = population machines id.
Proof. unfold count_in, population. by rewrite map_range_perm. Qed.

Lemma count_machine_lookup fds c m id :
  is_Some (fds !! id) → is_Some (c !! id) →
  count_machine fds c m !! id =
    (Z.add (if decide (mach_FailureDomain m = Some id) then 1 else 0)) <$> c !! id.
Proof.
  intros [x Hx] [n Hn]. unfold count_machine.
  destruct (mach_FailureDomain m) as [d|]; [|case_decide; [done|by rewrite Hn]].
  destruct (decide (d = id)) as [->|Hne].
  - rewrite decide_True, Hx, lookup_insert_eq, Hn by done. simpl. f_equal; lia.
  - rewrite decide_False by congruence. rewrite Hn. simpl.
    destruct (fds !! d); [rewrite lookup_insert_ne by done|]; by rewrite Hn.
Qed.

Lemma count_machine_dom fds c m id :
  (∀ id, is_Some (fds !! id) → is_Some (c !! id)) →
  is_Some (count_machine fds c m !! id) ↔ is_Some (c !! id).
Proof.
  intros Hdom. unfold count_machine. destruct (mach_FailureDomain m) as [d|]; [|done].
  destruct (fds !! d) eqn:Hd; [|done]. rewrite lookup_insert_is_Some'.
  split; [|by right]. intros [<-|?]; [|done]. apply Hdom. rewrite Hd; eauto.
Qed.

Lemma count_machines_lookup fds c ms id :
  (∀ id, is_Some (fds !! id) ↔ is_Some (c !! id)) →
  foldl (count_machine fds) c ms !! id = Z.add (count_in id ms) <$> c !! id.
Proof.
  revert c; induction ms as [|m ms IH]; intros c Hdom; cbn [foldl].
  { by destruct (c !! id). }
  rewrite IH by (intros id'; rewrite count_machine_dom; naive_solver).
  destruct (c !! id) as [n|] eqn:Hn.
  - rewrite count_machine_lookup, Hn, count_in_cons by (rewrite ?Hdom, Hn; eauto).
    simpl. f_equal; lia.
  - assert (¬ is_Some (count_machine fds c m !! id)) as Hno.
    { rewrite count_machine_dom, Hn by naive_solver. by apply is_Some_None. }
    apply eq_None_not_Some in Hno. by rewrite Hno.
Qed.

Section failure_domain_lemmas.
Context {R : GoRuntime} {RL : GoRuntimeLaws R} {P : Platform}.
Implicit Types fds : FailureDomains.
Implicit Types machines : FilterableMachineCollection.

Lemma counters_lookup fds machines id :
  foldl (count_machine fds) (init_counters fds) (map_range machines).*2 !! id =
  (λ _, population machines id) <$> fds !! id.
Proof.
  rewrite count_machines_lookup.
  - rewrite init_counters_lookup, count_in_population. destruct (fds !! id); simpl; [|done].
    f_equal; lia.
  - intros id'. rewrite init_counters_lookup. by rewrite fmap_is_Some.
Qed.

Lemma elem_of_pick fds machines a :
  a ∈ pick fds machines ↔
  is_Some (fds !! fda_id a) ∧ fda_count a = population machines (fda_id a).
Proof.
  unfold pick. destruct (Nat.eqb_spec (size fds) 0) as [Hz|Hnz].
  - apply map_size_empty_inv in Hz as ->. split; [by intros ?%not_elem_of_nil|].
    rewrite lookup_empty. by intros [[]%is_Some_None _].
  - rewrite list_elem_of_fmap. split.
    + intros ([id n]&->&Hin%elem_of_map_range). rewrite counters_lookup in Hin. simpl.
      destruct (fds !! id); simplify_eq/=. split; [by eexists|done].
    + intros [[x Hx] Hc]. exists (fda_id a, fda_count a). split; [by destruct a|].
      apply elem_of_map_range. by rewrite counters_lookup, Hx, Hc.
Qed.

Lemma NoDup_pick fds machines : NoDup (fda_id <$> pick fds machines).
Proof.
  unfold pick. case_match; [constructor|]. rewrite <-list_fmap_compose.
  unfold compose; simpl. apply NoDup_map_range.
Qed.

Lemma pick_nil fds machines : pick fds machines = [] ↔ fds = ∅.
Proof.
  split.
  - intros Hnil. apply map_empty. intros id. destruct (fds !! id) eqn:Hid; [|done].
    assert ({| fda_id := id; fda_count := population machines id |} ∈ pick fds machines) as Hin
      by (apply elem_of_pick; simpl; rewrite Hid; eauto).
    rewrite Hnil in Hin. by apply not_elem_of_nil in Hin.
  - by intros ->.
Qed.

Lemma length_pick fds machines : length (pick fds machines) = size fds.
Proof.
  rewrite <-(length_fmap fda_id). rewrite <-(size_dom (D:=gset string) fds).
  rewrite <-(size_list_to_set (C:=gset string)) by apply NoDup_pick.
  f_equal. apply set_eq. intros id. rewrite elem_of_list_to_set, elem_of_dom, list_elem_of_fmap.
  split.
  - by intros (a&->&[? _]%elem_of_pick).
  - intros Hid. exists {| fda_id := id; fda_count := population machines id |}.
    split; [done|]. by apply elem_of_pick.
Qed.

Lemma length_pick_0 fds machines : length (pick fds machines) = 0%nat ↔ fds = ∅.
Proof. by rewrite length_zero_iff_nil, pick_nil. Qed.

Lemma some_machine_in_true id ms :
  some_machine_in id ms = true ↔ ∃ m, m ∈ ms ∧ mach_FailureDomain m = Some id.
Proof.
  induction ms as [|m ms IH]; simpl.
  { split; [done|]. by intros (?&?%not_elem_of_nil&_). }
  setoid_rewrite elem_of_cons. destruct (mach_FailureDomain m) as [d|] eqn:Hd.
  - destruct (String.eqb_spec d id) as [->|]; [naive_solver|]. rewrite IH. split.
    + intros (m'&?&?). eauto.
    + intros (m'&[->|?]&?); [congruence|eauto].
  - rewrite IH. split; [intros (m'&?&?); eauto|]. intros (m'&[->|?]&?); [congruence|eauto].
Qed.

(** The first domain with a machine in it, in a sorted list, is a least one
    among those with a machine in it. *)
Lemma first_inhabited_Some (R' : relation failureDomainAggregation) l ms id :
  StronglySorted R' l → first_inhabited l ms = Some id →
  ∃ a, a ∈ l ∧ fda_id a = id ∧ some_machine_in id ms = true ∧
    ∀ b, b ∈ l → some_machine_in (fda_id b) ms = true → b = a ∨ R' a b.
Proof.
  induction 1 as [|a l Hs IH Ha]; simpl; [done|].
  destruct (some_machine_in (fda_id a) ms) eqn:Hin.
  - intros [= <-]. exists a. split; [left|]. split_and!; [done..|].
    rewrite Forall_forall in Ha. intros b [->|?]%elem_of_cons ?; auto.
  - intros (b&?&<-&?&Hmin)%IH. exists b. split; [by right|]. split_and!; [done..|].
    intros b' [->|?]%elem_of_cons ?; [congruence|auto].
Qed.

Lemma first_inhabited_None l ms :
  first_inhabited l ms = None ↔ ∀ a, a ∈ l → some_machine_in (fda_id a) ms = false.
Proof.
  induction l as [|a l IH]; simpl.
  { split; [by intros _ ? ?%not_elem_of_nil|done]. }
  setoid_rewrite elem_of_cons. destruct (some_machine_in (fda_id a) ms) eqn:Hin; [|naive_solver].
  split; [done|]. intros Hall. specialize (Hall a (or_introl eq_refl)). congruence.
Qed.

Lemma orderDescending_perm fds machines : orderDescending fds machines ≡ₚ pick fds machines.
Proof.
  unfold orderDescending. case_match eqn:Hz; [|apply sort_perm].
  apply Nat.eqb_eq, length_zero_iff_nil in Hz. by rewrite Hz.
Qed.

Lemma orderDescending_sorted fds machines :
  StronglySorted (λ a b, fda_count b ≤ fda_count a) (orderDescending fds machines).
Proof.
  unfold orderDescending. destruct (_ =? _)%nat; [constructor|].
  pose proof (StrictWeak_reverse aggregation_Less (StrictWeak0 := StrictWeak_key fda_count)) as HW.
  refine (StronglySorted_impl _ _ _ _ (sort_sorted (sort_Reverse aggregation_Less) _)).
  intros a b. unfold sort_Reverse, aggregation_Less. apply Z.ltb_ge.
Qed.
End failure_domain_lemmas.

(** ** Properties *)

Section failure_domain_properties.
Context {R : GoRuntime} {RL : GoRuntimeLaws R} {P : Platform}.
Implicit Types fds : FailureDomains.
Implicit Types machines : FilterableMachineCollection.

#[local] Instance aggregation_weak : StrictWeak aggregation_Less.
Proof. apply StrictWeak_key. Qed.

Lemma sorted_pick_perm fds machines :
  sort_Sort aggregation_Less (pick fds machines) ≡ₚ pick fds machines.
Proof. apply sort_perm. Qed.

(** [PickFewest] gives no domain exactly when there is none to choose
    from, and otherwise a known domain with the fewest machines of the
    collection, whatever the order of maps and of equal elements. *)
Theorem PickFewest_minimal fds machines :
  (PickFewest fds machines = None ↔ fds = ∅) ∧
  ∀ id, PickFewest fds machines = Some id →
    is_Some (fds !! id) ∧
    ∀ id', is_Some (fds !! id') → population machines id ≤ population machines id'.
Proof.
  unfold PickFewest. destruct (Nat.eqb_spec (length (pick fds machines)) 0) as [Hz|Hnz].
  { apply length_pick_0 in Hz as ->. done. }
  destruct (sort_Sort aggregation_Less (pick fds machines)) as [|a l] eqn:Hs.
  { apply sort_Sort_nil in Hs. by rewrite Hs in Hnz. }
  rewrite length_pick_0 in Hnz. apply sort_Sort_head in Hs as [Ha Hmin]; [|apply _].
  split; [done|]. cbn. intros id [= <-]. apply elem_of_pick in Ha as [Hid Hc].
  split; [done|]. intros id' Hid'. rewrite <-Hc.
  specialize (Hmin {| fda_id := id'; fda_count := population machines id' |}).
  unfold aggregation_Less in Hmin. rewrite Z.ltb_ge in Hmin. apply Hmin.
  by apply elem_of_pick.
Qed.

Lemma PickNFewest_length fds machines n :
  0 ≤ n → ∃ l, PickNFewest fds machines n = Val l ∧ length l = Z.to_nat n.
Proof.
  intros Hn. unfold PickNFewest. destruct (Z.ltb_spec n 0); [lia|].
  destruct (_ =? _)%nat; eexists; (split; [done|]);
    by rewrite ?length_replicate, ?length_fmap, ?length_seq.
Qed.

(** The [i]-th answer of [PickNFewest]. *)
Lemma PickNFewest_lookup fds machines n l :
  PickNFewest fds machines n = Val l → fds ≠ ∅ →
  0 ≤ n ∧ length l = Z.to_nat n ∧
  ∀ i, (i < Z.to_nat n)%nat →
    l !! i = Some (fda_id <$>
      sort_Sort aggregation_Less (pick fds machines) !!
        (i `mod` length (sort_Sort aggregation_Less (pick fds machines)))%nat).
Proof.
  unfold PickNFewest. destruct (Z.ltb_spec n 0); [done|].
  destruct (Nat.eqb_spec (length (pick fds machines)) 0) as [Hz|Hnz].
  { apply length_pick_0 in Hz. done. }
  intros [= <-] _. split; [done|]. rewrite length_fmap, length_seq. split; [done|].
  intros i Hi. by rewrite list_lookup_fmap, lookup_seq_lt by done.
Qed.

(** [PickNFewest] panics exactly on a negative count; otherwise it gives
    exactly [n] answers.  Without domains they are all nil; with domains
    each is a known domain, consecutive answers are distinct up to the
    number of domains, after which the sequence repeats, and an answer of
    the first round has no more machines than a later one of that round. *)
Theorem PickNFewest_spread fds machines n :
  (PickNFewest fds machines n = Panic ↔ n < 0) ∧
  ∀ l, PickNFewest fds machines n = Val l →
    length l = Z.to_nat n ∧
    (fds = ∅ → ∀ p, p ∈ l → p = None) ∧
    (fds ≠ ∅ → ∀ i p, l !! i = Some p → ∃ id, p = Some id ∧ is_Some (fds !! id)) ∧
    (fds ≠ ∅ → ∀ i j, (i < j < size fds)%nat → ∀ id id',
       l !! i = Some (Some id) → l !! j = Some (Some id') →
       id ≠ id' ∧ population machines id ≤ population machines id') ∧
    (fds ≠ ∅ → ∀ i, (i + size fds < length l)%nat → l !! (i + size fds)%nat = l !! i).
Proof.
  split.
  { unfold PickNFewest. destruct (Z.ltb_spec n 0); [done|]. case_match; by split; [|lia]. }
  intros l Hl. destruct (decide (fds = ∅)) as [->|Hfds].
  { unfold PickNFewest in Hl. destruct (n <? 0); [done|].
    rewrite (proj2 (pick_nil ∅ machines) eq_refl) in Hl. injection Hl as <-.
    split_and!; [apply length_replicate|intros _ p [-> _]%elem_of_replicate; done|done..]. }
  destruct (PickNFewest_lookup _ _ _ _ Hl Hfds) as (Hn&Hlen&Hlook).
  pose proof (sorted_pick_perm fds machines) as Hperm.
  set (agg := sort_Sort aggregation_Less (pick fds machines)) in *.
  assert (length agg = size fds) as Hagg by (subst agg; rewrite Hperm; apply length_pick).
  assert (size fds ≠ 0%nat) as Hsz by by rewrite map_size_empty_iff.
  assert (∀ i p, l !! i = Some p → (i < Z.to_nat n)%nat) as Hlt.
  { intros i p Hi%lookup_lt_Some. lia. }
  split_and!; [done|done| | |].
  - intros _ i p Hi. rewrite (Hlook i (Hlt _ _ Hi)) in Hi. injection Hi as <-.
    destruct (lookup_lt_is_Some_2 agg (i `mod` length agg)) as [a Ha].
    { apply Nat.mod_upper_bound. lia. }
    rewrite Ha. exists (fda_id a); split; [done|].
    apply list_elem_of_lookup_2 in Ha. rewrite Hperm, elem_of_pick in Ha. apply Ha.
  - intros _ i j Hij id id' Hi Hj.
    rewrite (Hlook i (Hlt _ _ Hi)) in Hi. rewrite (Hlook j (Hlt _ _ Hj)) in Hj.
    rewrite Nat.mod_small in Hi, Hj by lia.
    destruct (agg !! i) as [a|] eqn:Ha; [|done]. destruct (agg !! j) as [b|] eqn:Hb; [|done].
    simpl in Hi, Hj. injection Hi as <-. injection Hj as <-. split.
    + intros Heq. assert (NoDup (fda_id <$> agg)) as Hnd by (subst agg; rewrite Hperm; apply NoDup_pick).
      assert (i = j); [|lia].
      apply (NoDup_lookup _ i j (fda_id a) Hnd); rewrite list_lookup_fmap; [by rewrite Ha|].
      rewrite Hb, Heq. done.
    + pose proof (StronglySorted_lookup _ _ i j a b (sort_sorted aggregation_Less _) Ha Hb) as Hle.
      unfold aggregation_Less in Hle. rewrite Z.ltb_ge in Hle. specialize (Hle ltac:(lia)).
      apply list_elem_of_lookup_2 in Ha, Hb. rewrite Hperm, elem_of_pick in Ha, Hb.
      destruct Ha as [_ <-], Hb as [_ <-]. done.
  - intros _ i Hi. rewrite !Hlook by lia. do 3 f_equal.
    rewrite Hagg. replace (i + size fds)%nat with (i + 1 * size fds)%nat by lia.
    by rewrite Nat.Div0.mod_add.
Qed.
End failure_domain_properties.

(** ** Choosing the fullest domain *)

Section pick_most_properties.
Context {R : GoRuntime} {RL : GoRuntimeLaws R} {P : Platform}.
Implicit Types machines : FilterableMachineCollection.

(** The domains [PickMost] knows of. *)
Definition control_plane_domains (c : ControlPlane) : FailureDomains :=
  FilterControlPlane (from_nil (cl_FailureDomains (cp_Cluster c))).

(** A domain with a machine of the collection in it. *)
Definition inhabits machines (id : string) : Prop :=
  ∃ k m, machines !! k = Some m ∧ mach_FailureDomain m = Some id.

Lemma some_machine_in_range machines id :
  some_machine_in id (map_range machines).*2 = true ↔ inhabits machines id.
Proof.
  rewrite some_machine_in_true. split.
  - intros (m&(k&Hk)%elem_of_unsortedList&?). by exists k, m.
  - intros (k&m&Hk&?). exists m; split; [|done]. apply elem_of_unsortedList; eauto.
Qed.

(** [PickMost] gives no domain exactly when no given machine lies in a
    control plane domain of the cluster; otherwise it gives a domain such a
    machine lies in, and none of the other domains they lie in has more
    machines of the control plane. *)
Lemma PickMost_maximal (c : ControlPlane) machines :
  (PickMost c machines = None ↔
     ∀ id, inhabits machines id → control_plane_domains c !! id = None) ∧
  ∀ id, PickMost c machines = Some id →
    is_Some (control_plane_domains c !! id) ∧ inhabits machines id ∧
    ∀ id', is_Some (control_plane_domains c !! id') → inhabits machines id' →
      population (cp_Machines c) id' ≤ population (cp_Machines c) id.
Proof.
  unfold PickMost; fold (control_plane_domains c).
  pose proof (orderDescending_perm (control_plane_domains c) (cp_Machines c)) as Hperm.
  split.
  - rewrite first_inhabited_None. split.
    + intros Hnone id Hid%some_machine_in_range. apply eq_None_not_Some. intros Hdom.
      specialize (Hnone {| fda_id := id; fda_count := population (cp_Machines c) id |}).
      simpl in Hnone. rewrite Hid in Hnone. discriminate Hnone.
      rewrite Hperm. by apply elem_of_pick.
    + intros Hnone a Ha. apply not_true_iff_false. intros Hin%some_machine_in_range.
      apply Hnone in Hin. rewrite Hperm, elem_of_pick, Hin in Ha.
      by destruct Ha as [[? [=]] _].
  - intros id Hid. apply (first_inhabited_Some _ _ _ _ (orderDescending_sorted _ _)) in Hid
      as (a&Ha&<-&Hin&Hmax).
    rewrite Hperm, elem_of_pick in Ha. destruct Ha as [Hdom Hcount].
    split; [done|]. split; [by apply some_machine_in_range|].
    intros id' Hdom' Hin'%some_machine_in_range.
    destruct (Hmax {| fda_id := id'; fda_count := population (cp_Machines c) id' |})
      as [<-|Hle]; [|done|done|].
    + rewrite Hperm. by apply elem_of_pick.
    + simpl in Hle. lia.
Qed.
End pick_most_properties.

(** ** Witnesses *)

Module FailureDomainWitness.
Import Reference ReferenceLaws Sample Fixtures CollectionWitness.

Definition m4 : Machine := machine "m4" 40 (Some "a") "1".
Definition four : FilterableMachineCollection := Insert three [Some m4].

Example pick_counts :
  PickFewest domains four = Some "c" ∧ PickFewest ∅ four = None ∧
  PickNFewest domains four 4 = Val [Some "c"; Some "b"; Some "a"; Some "c"] ∧
  PickNFewest ∅ four 2 = Val [None; None] ∧ PickNFewest domains four (-1) = Panic.
Proof. vm_compute. done. Qed.

Definition plane : ControlPlane :=
  {| cp_CCP := ccp 3; cp_Cluster := cluster; cp_Machines := four |}.

Example most_counts :
  PickMost plane four = Some "a" ∧
  PickMost plane (NewFilterableMachineCollection [Some m3; Some m2]) = Some "b" ∧
  PickMost plane (NewFilterableMachineCollection [Some m2]) = None.
Proof. vm_compute. done. Qed.

Lemma PickFewest_minimal_witness :
  PickFewest domains four = Some "c" ∧
  is_Some (domains !! "c") ∧
  ∀ id', is_Some (domains !! id') → population four "c" ≤ population four id'.
Proof.
  split; [vm_compute; reflexivity|].
  apply (proj2 (PickFewest_minimal domains four)). vm_compute; reflexivity.
Defined.

Lemma PickNFewest_spread_witness :
  PickNFewest domains four 4 = Val [Some "c"; Some "b"; Some "a"; Some "c"] ∧
  population four "b" ≤ population four "a".
Proof.
  assert (Hl : PickNFewest domains four 4 = Val [Some "c"; Some "b"; Some "a"; Some "c"])
    by (vm_compute; reflexivity).
  split; [exact Hl|].
  destruct (proj2 (PickNFewest_spread domains four 4) _ Hl) as (_&_&_&Hord&_).
  refine (proj2 (Hord _ 1%nat 2%nat _ "b" "a" _ _)).
  - discriminate.
  - vm_compute; lia.
  - reflexivity.
  - reflexivity.
Defined.
End FailureDomainWitness.
