(* ===== verification/ControlPlane.v ===== *)
(** internal/control_plane.go and internal/cluster_labels.go: the business
    logic of a control plane, with the hash of
    apis/controlplane/v1alpha2/critcontrolplane_types.go. *)
From stdpp Require Import pretty.
From S2P Require Import Prelude GoRuntime ApiTypes Platform SamplePlatform.
From S2P Require Import MachineFilters MachineCollection FailureDomain.
Local Open Scope Z_scope.

Section control_plane.
Context {R : GoRuntime} {P : Platform}.
Implicit Types c : ControlPlane.
Implicit Types machines : FilterableMachineCollection.

(** *** cluster_labels.go *)

Definition ControlPlaneLabelsForCluster (clusterName controlPlaneName : string) :
    gmap string string :=
  <[MachineControlPlaneLabelName := controlPlaneName]> {[ClusterLabelName := clusterName]}.

Definition ControlPlaneLabelsForClusterWithHash
    (clusterName controlPlaneName hash : string) : gmap string string :=
  <[CritControlPlaneHashLabelKey := hash]>
    (ControlPlaneLabelsForCluster clusterName controlPlaneName).

(** The [MatchLabels] of the selector. *)
Definition ControlPlaneSelectorForCluster (clusterName controlPlaneName : string) :
    gmap string string :=
  ControlPlaneLabelsForCluster clusterName controlPlaneName.

(** *** critcontrolplane_types.go *)

Definition Hash (s : CritControlPlaneSpec) : string :=
  fmt_d (fnv.sum32a (DeepHashObject_bytes
    (ccps_Version s, ccps_InfrastructureTemplate s, ccps_CritConfigSpec s))).

(** *** control_plane.go *)

Definition NewControlPlane (cluster : Cluster) (ccp : CritControlPlane)
    (ownedMachines : FilterableMachineCollection) : ControlPlane :=
  {| cp_CCP := ccp; cp_Cluster := cluster; cp_Machines := ownedMachines |}.

Definition cp_FailureDomains c : FailureDomains :=
  match cl_FailureDomains (cp_Cluster c) with
  | None => ∅
  | Some fds => fds
  end.

Definition Version c : string := ccps_Version (ccp_Spec (cp_CCP c)).

Definition InfrastructureTemplate c : ObjectReference :=
  ccps_InfrastructureTemplate (ccp_Spec (cp_CCP c)).

Definition SpecHash c : string := Hash (ccp_Spec (cp_CCP c)).

Definition controller_ref (ccp : CritControlPlane) : OwnerReference :=
  NewControllerRef (ccp_Meta ccp) (WithKind controlplanev1_GroupVersion "CritControlPlane").

Definition set_owners (owners : list OwnerReference) (m : Machine) : Machine :=
  {| mach_Meta := with_owners owners (mach_Meta m); mach_Spec := mach_Spec m;
     mach_NodeRef := mach_NodeRef m |}.

Definition take_ownership c (m : Machine) : Machine :=
  set_owners (om_OwnerReferences (mach_Meta m) ++ [controller_ref (cp_CCP c)]) m.

Definition owned_by_other c (ref : OwnerReference) : bool :=
  negb (String.eqb (or_Kind ref) "CritControlPlane") ||
  negb (String.eqb (or_Name ref) (ccp_Name (cp_CCP c))).

Definition already_owned (m : Machine) : error :=
  errors_New ("Machine " +:+ mach_Name m +:+ " is already owned by another controller").

(** One iteration.  The collection holds pointers, so the new owner
    reference stays in it even when the update fails. *)
Definition ensure_machine c (km : string * Machine)
    (st : FilterableMachineCollection * list error) :
    M ((FilterableMachineCollection * list error) +
       (FilterableMachineCollection * option error)) :=
  let '(k, machine) := km in
  let '(machines, errs) := st in
  match GetControllerOf (mach_Meta machine) with
  | Some controllerRef =>
      if owned_by_other c controllerRef then
        mret (inr (machines, Some (already_owned machine)))
      else mret (inl (machines, errs))
  | None =>
      let machine' := take_ownership c machine in
      err ← call (Update_Machine machine');
      mret (inl (<[k := machine']> machines, errs ++ option_list err))
  end.

(** The collection after the call, with the error. *)
Definition EnsureOwnership c : M (FilterableMachineCollection * option error) :=
  r ← for_each (map_range (cp_Machines c)) (cp_Machines c, []) (ensure_machine c);
  match r with
  | inr out => mret out
  | inl (machines, errs) =>
      if (0 <? length errs)%nat then mret (machines, kerrors_NewAggregate (Some <$> errs))
      else mret (machines, None)
  end.

Definition AsOwnerReference c : OwnerReference := {|
  or_APIVersion := GroupVersion_String controlplanev1_GroupVersion;
  or_Kind := "CritControlPlane";
  or_Name := ccp_Name (cp_CCP c);
  or_UID := om_UID (ccp_Meta (cp_CCP c));
  or_Controller := None;
  or_BlockOwnerDeletion := None |}.

Definition MachinesNeedingUpgrade c : FilterableMachineCollection :=
  Filter (cp_Machines c) [Not (MatchesConfigurationHash (SpecHash c))].

(** [Oldest()] is dereferenced without a nil check. *)
Definition FailureDomainWithMostMachines c machines : outcome (option string) :=
  let notInFailureDomains :=
    Filter machines [Not (InFailureDomains (GetIDs (FilterControlPlane (cp_FailureDomains c))))] in
  if 0 <? Len notInFailureDomains then
    match Oldest notInFailureDomains with
    | Some m => Val (mach_FailureDomain m)
    | None => Panic
    end
  else Val (PickMost c machines).

Definition MachineInFailureDomainWithMostMachines c machines : outcome (result error Machine) :=
  fd ← FailureDomainWithMostMachines c machines;
  let machinesInFailureDomain := Filter machines [InFailureDomains [fd]] in
  mret (match Oldest machinesInFailureDomain with
        | None => Err (errors_New "failed to pick control plane Machine to mark for deletion")
        | Some machineToMark => Ok machineToMark
        end).

Definition FailureDomainWithFewestMachines c : option string :=
  if (size (FilterControlPlane (from_nil (cl_FailureDomains (cp_Cluster c)))) =? 0)%nat
  then None
  else PickFewest (FilterControlPlane (cp_FailureDomains c)) (cp_Machines c).

Definition NFailureDomainsWithFewestMachines c (replicas : Z) : outcome (list (option string)) :=
  PickNFewest (FilterControlPlane (cp_FailureDomains c)) (cp_Machines c) replicas.

Definition new_meta (name : string) c (owner : OwnerReference) : ObjectMeta := {|
  om_Name := name; om_Namespace := ccp_Namespace (cp_CCP c); om_UID := "";
  om_Labels := ControlPlaneLabelsForClusterWithHash (cl_Name (cp_Cluster c))
                 (ccp_Name (cp_CCP c)) (SpecHash c);
  om_Annotations := None; om_OwnerReferences := [owner];
  om_CreationTimestamp := 0; om_DeletionTimestamp := None; om_Finalizers := [] |}.

Definition GenerateCritConfig c (spec : CritConfigSpec) : M CritConfig :=
  name ← call (GenerateName (ccp_Name (cp_CCP c) +:+ "-"));
  mret {| cc_Meta := new_meta name c (AsOwnerReference c); cc_Spec := spec;
          cc_Status := {| ccst_Ready := false; ccst_DataSecretName := None;
                          ccst_FailureReason := ""; ccst_FailureMessage := "" |} |}.

Definition NewMachine c (infraRef bootstrapRef : ObjectReference)
    (failureDomain : option string) : M Machine :=
  name ← call (GenerateName (ccp_Name (cp_CCP c) +:+ "-"));
  mret {| mach_Meta := new_meta name c (controller_ref (cp_CCP c));
          mach_Spec := {| ms_ClusterName := cl_Name (cp_Cluster c);
                          ms_Version := Some (Version c);
                          ms_InfrastructureRef := infraRef;
                          ms_ConfigRef := Some bootstrapRef;
                          ms_FailureDomain := failureDomain |};
          mach_NodeRef := None |}.

Definition HasDeletingMachine c : bool :=
  0 <? Len (Filter (cp_Machines c) [HasDeletionTimestamp]).

(** ** Ownership, abstractly *)

(** The machine has a controller other than this control plane. *)
Definition foreign c (m : Machine) : Prop :=
  ∃ ref, GetControllerOf (mach_Meta m) = Some ref ∧ owned_by_other c ref = true.

(** The machine's controller is this control plane. *)
Definition controlled c (m : Machine) : Prop :=
  ∃ ref, GetControllerOf (mach_Meta m) = Some ref ∧
    or_Kind ref = "CritControlPlane" ∧ or_Name ref = ccp_Name (cp_CCP c).

(** What the collection should be after a complete pass: the machines
    without a controller are taken over, the others left alone. *)
Definition adopt c (m : Machine) : Machine :=
  match GetControllerOf (mach_Meta m) with Some _ => m | None => take_ownership c m end.
End control_plane.

(** ** Lemmas *)

Section ownership_lemmas.
Context {R : GoRuntime} {RL : GoRuntimeLaws R} {P : Platform}.
Implicit Types c : ControlPlane.

Lemma owned_by_other_false c ref :
  owned_by_other c ref = false ↔
  or_Kind ref = "CritControlPlane" ∧ or_Name ref = ccp_Name (cp_CCP c).
Proof.
  unfold owned_by_other. rewrite orb_false_iff, !negb_false_iff, !String.eqb_eq. done.
Qed.

Lemma controlled_not_foreign c m :
  is_Some (GetControllerOf (mach_Meta m)) → ¬ foreign c m → controlled c m.
Proof.
  intros [ref Href] Hnf. exists ref; split; [done|]. apply owned_by_other_false.
  apply not_true_iff_false. intros Ho. apply Hnf. by exists ref.
Qed.

Lemma list_find_app_singleton {A} (Q : A → Prop) `{∀ x, Decision (Q x)} l x :
  list_find Q l = None → Q x → snd <$> list_find Q (l ++ [x]) = Some x.
Proof.
  intros Hnone Hx. induction l as [|y l IH]; simpl in *.
  { by rewrite decide_True. }
  case_decide; [done|]. destruct (list_find Q l) eqn:Hl; [done|].
  specialize (IH eq_refl). by destruct (list_find Q (l ++ [x])) as [[? ?]|].
Qed.

(** The first controller reference of a machine that has none before the new
    one is the new one. *)
Lemma take_ownership_controlled `{!OwnerRefLaws P} c m :
  GetControllerOf (mach_Meta m) = None → controlled c (take_ownership c m).
Proof.
  intros Hnone. exists (controller_ref (cp_CCP c)). unfold controller_ref.
  rewrite NewControllerRef_kind, NewControllerRef_name. split; [|done].
  rewrite GetControllerOf_find in Hnone |- *. simpl. apply list_find_app_singleton.
  - by destruct (list_find _ _).
  - apply NewControllerRef_controller.
Qed.

Lemma adopt_controlled `{!OwnerRefLaws P} c m : ¬ foreign c m → controlled c (adopt c m).
Proof.
  intros Hnf. unfold adopt. destruct (GetControllerOf (mach_Meta m)) eqn:Hc.
  - apply controlled_not_foreign; [|done]. by rewrite Hc.
  - by apply take_ownership_controlled.
Qed.

(** The only write an ownership check makes. *)
Definition adoption_guard c (a : k8s_action) : Prop :=
  ∃ k m, cp_Machines c !! k = Some m ∧ GetControllerOf (mach_Meta m) = None ∧
    a = Update_Machine (take_ownership c m).

(** The loop invariant: the machines visited so far are adopted, none of
    them has another controller. *)
Definition adopted_but c (l : list (string * Machine)) (ms : FilterableMachineCollection) : Prop :=
  NoDup l.*1 ∧
  (∀ k m, (k, m) ∈ l → cp_Machines c !! k = Some m) ∧
  (∀ k, ms !! k = (λ m, if decide (k ∈ l.*1) then m else adopt c m) <$> cp_Machines c !! k) ∧
  (∀ k m, cp_Machines c !! k = Some m → k ∉ l.*1 → ¬ foreign c m).

Lemma adopted_but_step c k m l ms :
  adopted_but c ((k, m) :: l) ms → ¬ foreign c m →
  adopted_but c l (match GetControllerOf (mach_Meta m) with
                   | Some _ => ms | None => <[k := take_ownership c m]> ms end).
Proof.
  intros (Hnd&Hin&Hms&Hvis) Hm. rewrite fmap_cons in Hnd. apply NoDup_cons in Hnd as [Hk Hnd].
  assert (Hkm : cp_Machines c !! k = Some m) by (apply Hin; left).
  split; [done|]. split; [intros k' m' ?; apply Hin; by right|].
  assert (Hms' : ∀ k', k' ≠ k → ms !! k' =
    (λ m, if decide (k' ∈ l.*1) then m else adopt c m) <$> cp_Machines c !! k').
  { intros k' Hne. rewrite Hms. destruct (cp_Machines c !! k'); [|done]. cbn. f_equal.
    repeat case_decide; try done; rewrite elem_of_cons in *; naive_solver. }
  split.
  - intros k'. destruct (decide (k' = k)) as [->|Hne].
    + rewrite Hkm. simpl. rewrite decide_False by done. unfold adopt.
      destruct (GetControllerOf (mach_Meta m)) eqn:Hc; [|by rewrite lookup_insert_eq].
      rewrite Hms, Hkm. cbn. rewrite decide_True by left. done.
    + destruct (GetControllerOf (mach_Meta m)); [by apply Hms'|].
      rewrite lookup_insert_ne by done. by apply Hms'.
  - intros k' m' Hk' Hnin. destruct (decide (k' = k)) as [->|Hne].
    + rewrite Hkm in Hk'. by injection Hk' as <-.
    + apply (Hvis k' m' Hk'). rewrite fmap_cons, elem_of_cons. naive_solver.
Qed.

Lemma EnsureOwnership_hoare `{!AggregateLaws P} c h :
  hoare (λ _, adoption_guard c) (EnsureOwnership c) h (λ o _,
    match o with
    | Panic => False
    | Val (ms, None) => ms = adopt c <$> cp_Machines c ∧
        ∀ k m, cp_Machines c !! k = Some m → ¬ foreign c m
    | Val (_, Some _) => True
    end).
Proof.
  unfold EnsureOwnership. apply hoare_bind.
  apply (hoare_for_each _ (λ l st _, adopted_but c l st.1)).
  - simpl. split; [apply NoDup_map_range|]. split; [intros k m; apply elem_of_map_range|].
    assert (Hall : ∀ k m, cp_Machines c !! k = Some m → k ∈ (map_range (cp_Machines c)).*1).
    { intros k m Hk. apply list_elem_of_fmap. exists (k, m). by rewrite elem_of_map_range. }
    split.
    + intros k. destruct (cp_Machines c !! k) as [m|] eqn:Hk; [|done]. simpl.
      by rewrite decide_True by eauto.
    + intros k m Hk []. eauto.
  - intros [k m] l [ms errs] h' HI. simpl in HI. unfold ensure_machine.
    destruct (GetControllerOf (mach_Meta m)) as [ref|] eqn:Hc.
    + destruct (owned_by_other c ref) eqn:Ho; simpl; [done|].
      assert (¬ foreign c m) as Hnf by (intros (ref'&Href&?); congruence).
      pose proof (adopted_but_step _ _ _ _ _ HI Hnf) as HI'. by rewrite Hc in HI'.
    + apply hoare_call. split.
      { exists k, m. split_and!; [|done..]. apply HI. left. }
      intros err. simpl.
      assert (¬ foreign c m) as Hnf by (intros (ref'&Href&?); congruence).
      pose proof (adopted_but_step _ _ _ _ _ HI Hnf) as HI'. by rewrite Hc in HI'.
  - intros [ms errs] h' (_&_&Hms&Hvis). destruct (0 <? length errs)%nat eqn:Hlen.
    + simpl. destruct (kerrors_NewAggregate _) eqn:Hagg; [done|].
      apply aggregate_nil in Hagg. destruct errs; [done|].
      rewrite fmap_cons, Forall_cons in Hagg. by destruct Hagg.
    + simpl. split.
      * apply map_eq; intros k. rewrite Hms, lookup_fmap.
        destruct (cp_Machines c !! k); [|done]. done.
      * intros k m Hk. apply (Hvis k m Hk), not_elem_of_nil.
Qed.
End ownership_lemmas.

(** ** Properties *)

Section control_plane_properties.
Context {R : GoRuntime} {RL : GoRuntimeLaws R} {P : Platform}.
Implicit Types c : ControlPlane.

(** C20: however the API server answers, checking ownership never panics, and
    at any point it has only updated machines of the control plane that had
    no controller, adding the control plane as one.  When it reports no
    error, no machine belongs to another controller, every orphan was
    adopted and every machine is now controlled by this control plane. *)
Theorem EnsureOwnership_adopts `{!AggregateLaws P, !OwnerRefLaws P} c :
  (∀ tr1 a r tr2, reaches (EnsureOwnership c) (tr1 ++ Ev a r :: tr2) → adoption_guard c a) ∧
  (∀ tr o, runs (EnsureOwnership c) tr o → o ≠ Panic) ∧
  ∀ tr ms, runs (EnsureOwnership c) tr (Val (ms, None)) →
    ms = adopt c <$> cp_Machines c ∧
    (∀ k m, cp_Machines c !! k = Some m → ¬ foreign c m) ∧
    ∀ k m, ms !! k = Some m → controlled c m.
Proof.
  pose proof (EnsureOwnership_hoare c []) as H. split_and!.
  - intros tr1 a r tr2 Hr. exact (hoare_reaches _ _ _ _ _ _ _ _ H Hr).
  - intros tr o Hr ->. exact (hoare_runs _ _ _ _ _ _ H Hr).
  - intros tr ms Hr. destruct (hoare_runs _ _ _ _ _ _ H Hr) as [-> Hnf].
    split_and!; [done..|]. intros k m. rewrite lookup_fmap, fmap_Some.
    intros (m'&Hk&->). apply adopt_controlled. eauto.
Qed.

(** The members of the collection outside every control plane domain. *)
Definition misplaced c (m : Machine) : Prop :=
  ¬ ∃ id, mach_FailureDomain m = Some id ∧ is_Some (control_plane_domains c !! id).

Lemma cp_domains_eq c : FilterControlPlane (cp_FailureDomains c) = control_plane_domains c.
Proof.
  unfold cp_FailureDomains, control_plane_domains, from_nil. by destruct (cl_FailureDomains _).
Qed.

Lemma not_in_domains_true `{!FailureDomainLaws P} c m :
  Not (InFailureDomains (GetIDs (FilterControlPlane (cp_FailureDomains c)))) (Some m) = true ↔
  misplaced c m.
Proof.
  unfold Not, misplaced. rewrite negb_true_iff, <-not_true_iff_false, InFailureDomains_true.
  rewrite GetIDs_elem, cp_domains_eq. done.
Qed.

(** The domain picked when some machine is misplaced, and when none is. *)
Lemma FailureDomainWithMostMachines_cases `{!FailureDomainLaws P, !MachineOrderLaws P} c ms :
  keyed ms → ms ≠ ∅ →
  ∃ fd, FailureDomainWithMostMachines c ms = Val fd ∧
    (∃ k m, ms !! k = Some m ∧ mach_FailureDomain m = fd) ∧
    (((∃ k m, ms !! k = Some m ∧ misplaced c m) ∧
      (∃ k m, ms !! k = Some m ∧ mach_FailureDomain m = fd ∧ misplaced c m)) ∨
     ((∀ k m, ms !! k = Some m → ¬ misplaced c m) ∧ PickMost c ms = fd)).
Proof.
  intros Hk Hne. unfold FailureDomainWithMostMachines, Len.
  destruct (Z.ltb_spec 0 (Z.of_nat (size (Filter ms
    [Not (InFailureDomains (GetIDs (FilterControlPlane (cp_FailureDomains c))))])))) as [Hlt|Hge].
  - set (nif := Filter ms _) in *. destruct (Oldest nif) as [m|] eqn:Ho.
    + apply Oldest_Some in Ho as [[k Hm] _]. subst nif. rewrite Filter_lookup in Hm by done.
      rewrite And_singleton, not_in_domains_true in Hm. destruct Hm.
      exists (mach_FailureDomain m). split; [done|]. split; [eauto|]. left. eauto 10.
    + apply Oldest_None, map_size_empty_iff in Ho. lia.
  - assert (∀ k m, ms !! k = Some m → ¬ misplaced c m) as Hall.
    { intros k m Hm Hmis. assert (size (Filter ms [Not (InFailureDomains
        (GetIDs (FilterControlPlane (cp_FailureDomains c))))]) ≠ 0%nat) as Hsz; [|lia].
      apply Filter_size_pos; [done|]. exists k, m. split; [done|].
      by rewrite And_singleton, not_in_domains_true. }
    exists (PickMost c ms). split; [done|]. split; [|by right].
    destruct (PickMost_maximal c ms) as [Hnone Hsome].
    destruct (PickMost c ms) as [id|].
    + destruct (Hsome id eq_refl) as (_&(k&m&?&?)&_). by exists k, m.
    + apply map_choose in Hne as (k&m&Hm). destruct (Hall k m Hm).
      intros (id&Hid&[x Hx]). rewrite (proj1 Hnone eq_refl id) in Hx; [done|by exists k, m].
Qed.

(** The choice, in two steps. *)
Lemma selection_picks `{!FailureDomainLaws P, !MachineOrderLaws P} c ms :
  keyed ms → ms ≠ ∅ →
  ∃ fd m, FailureDomainWithMostMachines c ms = Val fd ∧
    MachineInFailureDomainWithMostMachines c ms = Val (Ok m) ∧
    (∃ k, ms !! k = Some m) ∧ mach_FailureDomain m = fd ∧
    ∀ k m', ms !! k = Some m' → mach_FailureDomain m' = mach_FailureDomain m →
      MachinesByCreationTimestamp_Less m' m = false.
Proof.
  intros Hk Hne. destruct (FailureDomainWithMostMachines_cases c ms Hk Hne)
    as (fd&Hfd&(k0&m0&Hm0&Hfd0)&_).
  unfold MachineInFailureDomainWithMostMachines. rewrite Hfd. cbn [mbind outcome_bind].
  assert (Hin : ∀ k m, Filter ms [InFailureDomains [fd]] !! k = Some m ↔
    ms !! k = Some m ∧ mach_FailureDomain m = fd).
  { intros k m. by rewrite Filter_lookup, And_singleton, InFailureDomains_true,
      list_elem_of_singleton by done. }
  destruct (Oldest (Filter ms [InFailureDomains [fd]])) as [m|] eqn:Ho.
  2:{ apply Oldest_None in Ho. specialize (Hin k0 m0). rewrite Ho, lookup_empty in Hin.
      discriminate (proj2 Hin (conj Hm0 Hfd0)). }
  apply Oldest_Some in Ho as [[k Hm] Hmin]. apply Hin in Hm as [Hm Hfdm].
  exists fd, m. split_and!; [done|done|by exists k|done|].
  intros k' m' Hm' Hfd'. apply (Hmin k'), Hin. split; [done|congruence].
Qed.

(** C32: choosing the machine to remove never panics and succeeds on every
    non-empty collection.  A machine outside the control plane domains is
    chosen if there is one; otherwise one from a domain with the most
    control plane machines among the domains of the collection; and in
    either case an oldest machine of its domain. *)
Theorem MachineInFailureDomainWithMostMachines_selects
    `{!FailureDomainLaws P, !MachineOrderLaws P} c ms :
  keyed ms → ms ≠ ∅ →
  ∃ m, MachineInFailureDomainWithMostMachines c ms = Val (Ok m) ∧
    (∃ k, ms !! k = Some m) ∧
    ((∃ k m', ms !! k = Some m' ∧ misplaced c m') → misplaced c m) ∧
    ((∀ k m', ms !! k = Some m' → ¬ misplaced c m') →
      ∃ id, mach_FailureDomain m = Some id ∧
        ∀ k m' id', ms !! k = Some m' → mach_FailureDomain m' = Some id' →
          population (cp_Machines c) id' ≤ population (cp_Machines c) id) ∧
    ∀ k m', ms !! k = Some m' → mach_FailureDomain m' = mach_FailureDomain m →
      MachinesByCreationTimestamp_Less m' m = false.
Proof.
  intros Hk Hne. destruct (selection_picks c ms Hk Hne) as (fd&m&Hfd&Hm&[k Hkm]&Hfdm&Hmin).
  exists m. split_and!; [done|by exists k| | |done]; clear Hmin.
  - destruct (FailureDomainWithMostMachines_cases c ms Hk Hne)
      as (fd'&Hfd'&_&[[_ (k1&m1&_&Hfd1&Hmis1)]|[Hno _]]); intros Hmis.
    + intros (id&Hid&Hdom). apply Hmis1. exists id. split; [congruence|done].
    + destruct Hmis as (k1&m1&Hm1&Hmis1). by destruct (Hno k1 m1 Hm1).
  - intros Hno. destruct (FailureDomainWithMostMachines_cases c ms Hk Hne)
      as (fd'&Hfd'&_&[[(k1&m1&Hm1&Hmis1) _]|[_ Hpick]]).
    { by destruct (Hno k1 m1 Hm1). }
    destruct (mach_FailureDomain m) as [id|] eqn:Hid.
    2:{ destruct (Hno k m Hkm). intros (id&?&_). congruence. }
    exists id; split; [done|]. intros k' m' id' Hm' Hid'.
    apply (proj2 (PickMost_maximal c ms) id); [congruence| |by exists k', m'].
    destruct (decide (is_Some (control_plane_domains c !! id'))) as [?|Hn]; [done|].
    destruct (Hno k' m' Hm'). intros (id''&?&?). destruct Hn. congruence.
Qed.
End control_plane_properties.

Section rollout_properties.
Context {R : GoRuntime} {RL : GoRuntimeLaws R} {P : Platform}.
Implicit Types c : ControlPlane.

Definition with_machines (ms : FilterableMachineCollection) c : ControlPlane :=
  {| cp_CCP := cp_CCP c; cp_Cluster := cp_Cluster c; cp_Machines := ms |}.

(** The control plane with another desired size. *)
Definition with_replicas (n : Z) c : ControlPlane :=
  let ccp := cp_CCP c in
  let s := ccp_Spec ccp in
  {| cp_CCP := {| ccp_Meta := ccp_Meta ccp;
       ccp_Spec := {| ccps_Replicas := n; ccps_Version := ccps_Version s;
         ccps_InfrastructureTemplate := ccps_InfrastructureTemplate s;
         ccps_CritConfigSpec := ccps_CritConfigSpec s |};
       ccp_Status := ccp_Status ccp |};
     cp_Cluster := cp_Cluster c; cp_Machines := cp_Machines c |}.

Lemma MachinesNeedingUpgrade_lookup c k m :
  keyed (cp_Machines c) →
  MachinesNeedingUpgrade c !! k = Some m ↔
  cp_Machines c !! k = Some m ∧ mach_Labels m !! CritControlPlaneHashLabelKey ≠ Some (SpecHash c).
Proof.
  intros Hk. unfold MachinesNeedingUpgrade. rewrite Filter_lookup, And_singleton by done.
  unfold Not. rewrite negb_true_iff, <-not_true_iff_false, MatchesConfigurationHash_true. done.
Qed.

Lemma Hash_inj s1 s2 :
  Hash s1 = Hash s2 ↔
  fnv.sum32a (DeepHashObject_bytes
    (ccps_Version s1, ccps_InfrastructureTemplate s1, ccps_CritConfigSpec s1)) =
  fnv.sum32a (DeepHashObject_bytes
    (ccps_Version s2, ccps_InfrastructureTemplate s2, ccps_CritConfigSpec s2)).
Proof. unfold Hash, fmt_d. split; [apply (inj pretty)|by intros ->]. Qed.

(** C33: a rollout concerns exactly the machines whose hash label is missing
    or differs from the hash of the current template; changing the number of
    replicas never makes a machine outdated, and two templates have the same
    hash exactly when their 32-bit FNV-1a sums collide. *)
Theorem MachinesNeedingUpgrade_exact c :
  keyed (cp_Machines c) →
  (∀ k m, MachinesNeedingUpgrade c !! k = Some m ↔
     cp_Machines c !! k = Some m ∧
     ∀ h, mach_Labels m !! CritControlPlaneHashLabelKey = Some h → h ≠ SpecHash c) ∧
  (∀ n, MachinesNeedingUpgrade (with_replicas n c) = MachinesNeedingUpgrade c) ∧
  ∀ c', SpecHash c = SpecHash c' ↔
    ∃ n, 0 ≤ n < 2 ^ 32 ∧
      fnv.sum32a (DeepHashObject_bytes (Version c, InfrastructureTemplate c,
        ccps_CritConfigSpec (ccp_Spec (cp_CCP c)))) = n ∧
      fnv.sum32a (DeepHashObject_bytes (Version c', InfrastructureTemplate c',
        ccps_CritConfigSpec (ccp_Spec (cp_CCP c')))) = n.
Proof.
  intros Hk. split_and!; [|done|].
  - intros k m. rewrite MachinesNeedingUpgrade_lookup by done.
    split; intros [? Hh]; (split; [done|]); [congruence|]. intros Heq. by apply (Hh _ Heq).
  - intros c'. unfold SpecHash. rewrite Hash_inj. unfold Version, InfrastructureTemplate.
    split; [|by intros (n&_&->&->)]. intros Heq. eexists. split; [apply sum32a_range|by split].
Qed.

Lemma new_labels_lookup `{!LabelLaws P} cl ccp hash :
  ControlPlaneLabelsForCluster cl ccp ⊆ ControlPlaneLabelsForClusterWithHash cl ccp hash ∧
  ControlPlaneLabelsForClusterWithHash cl ccp hash !! MachineControlPlaneLabelName = Some ccp ∧
  ControlPlaneLabelsForClusterWithHash cl ccp hash !! ClusterLabelName = Some cl ∧
  ControlPlaneLabelsForClusterWithHash cl ccp hash !! CritControlPlaneHashLabelKey = Some hash.
Proof.
  unfold ControlPlaneLabelsForClusterWithHash, ControlPlaneLabelsForCluster.
  pose proof label_cluster_cp. pose proof label_cluster_hash. pose proof label_cp_hash.
  split_and!; [apply insert_subseteq|..].
  - rewrite lookup_insert_ne, lookup_singleton_ne; congruence.
  - by rewrite lookup_insert_ne, lookup_insert_eq by done.
  - by rewrite !lookup_insert_ne, lookup_singleton_eq by done.
  - by rewrite lookup_insert_eq.
Qed.

(** A machine made for the control plane carries the labels its machines
    are listed and filtered by, has the control plane as its controller, and
    is up to date: adding it, under a fresh name, to the collection leaves
    the set of outdated machines as it was.  Making one performs a single
    request, for its name. *)
Theorem NewMachine_joins `{!LabelLaws P, !OwnerRefLaws P} c infraRef bootstrapRef fd tr o :
  runs (NewMachine c infraRef bootstrapRef fd) tr o →
  ∃ m, o = Val m ∧ tr = [Ev (GenerateName (ccp_Name (cp_CCP c) +:+ "-")) (mach_Name m)] ∧
    ControlPlaneSelectorForCluster (cl_Name (cp_Cluster c)) (ccp_Name (cp_CCP c)) ⊆ mach_Labels m ∧
    OwnedControlPlaneMachines (ccp_Name (cp_CCP c)) (Some m) = true ∧
    controlled c m ∧ mach_FailureDomain m = fd ∧
    (keyed (cp_Machines c) → cp_Machines c !! mach_Name m = None →
     MachinesNeedingUpgrade (with_machines (<[mach_Name m := m]> (cp_Machines c)) c) =
     MachinesNeedingUpgrade c).
Proof.
  intros (name&tr'&->&[-> ->]). eexists. split; [done|]. split; [done|].
  destruct (new_labels_lookup (cl_Name (cp_Cluster c)) (ccp_Name (cp_CCP c)) (SpecHash c))
    as (?&?&?&?).
  split_and!; [done|by apply OwnedControlPlaneMachines_true| |done|].
  - exists (controller_ref (cp_CCP c)). rewrite GetControllerOf_find. simpl.
    rewrite decide_True by apply NewControllerRef_controller.
    split; [done|]. unfold controller_ref.
    by rewrite NewControllerRef_kind, NewControllerRef_name.
  - intros Hk Hfresh. apply map_eq; intros k. apply option_eq; intros m.
    rewrite !MachinesNeedingUpgrade_lookup; [|done|by apply map_Forall_insert_2]. simpl.
    rewrite lookup_insert_Some. split.
    + intros [[[<- <-]|[? ?]] Hh]; [|done]. by destruct Hh.
    + intros [Hm Hh]. split; [|done]. right. split; [|done]. intros <-. simpl in Hfresh. congruence.
Qed.
End rollout_properties.

(** ** Witnesses *)

Module ControlPlaneWitness.
Import Reference ReferenceLaws Sample Fixtures CollectionWitness FailureDomainWitness.

Definition plane0 : ControlPlane := with_machines three plane.

(** [m3] already belongs to another control plane. *)
Definition stolen : Machine :=
  set_owners [controller_ref (ccp_with_meta (meta "other" "default") (ccp 1))] m3.

Lemma plane0_keyed : keyed (cp_Machines plane0).
Proof. apply three_keyed. Qed.

Lemma EnsureOwnership_adopts_witness :
  ∃ tr ms, runs (EnsureOwnership plane0) tr (Val (ms, None)) ∧
    ms = adopt plane0 <$> three ∧ ms !! "m1" = Some (take_ownership plane0 m1).
Proof.
  destruct (drive accept [] (EnsureOwnership plane0)) as [tr o] eqn:Hd.
  pose proof (drive_eq_runs _ _ _ _ _ Hd) as Hr.
  assert (Ho : o = Val (adopt plane0 <$> three, None)).
  { transitivity (drive accept [] (EnsureOwnership plane0)).2; [by rewrite Hd|].
    vm_compute. reflexivity. }
  subst o. destruct (EnsureOwnership_adopts plane0) as (_&_&Hok).
  destruct (Hok tr _ Hr) as (Hms&_&_). eexists _, _. split; [exact Hr|]. split; [exact Hms|].
  vm_compute. reflexivity.
Defined.

Example foreign_machine_refused :
  (drive accept [] (EnsureOwnership (with_machines {["m3" := stolen]} plane))).2 =
  Val ({["m3" := stolen]}, Some (Msg "Machine m3 is already owned by another controller")).
Proof. vm_compute. reflexivity. Qed.

Lemma MachineInFailureDomainWithMostMachines_selects_witness :
  three ≠ ∅ ∧ MachineInFailureDomainWithMostMachines plane0 three = Val (Ok m2) ∧
  misplaced plane0 m2.
Proof.
  assert (Hne : three ≠ ∅) by discriminate.
  assert (Hsel : MachineInFailureDomainWithMostMachines plane0 three = Val (Ok m2))
    by (vm_compute; reflexivity).
  destruct (MachineInFailureDomainWithMostMachines_selects plane0 three three_keyed Hne)
    as (m&Hm&_&Hmis&_). rewrite Hsel in Hm. injection Hm as <-.
  split; [exact Hne|]. split; [exact Hsel|]. apply Hmis. exists "m2", m2.
  split; [reflexivity|]. intros (id&[=]&_).
Defined.

Lemma MachinesNeedingUpgrade_exact_witness :
  keyed (cp_Machines plane0) ∧ MachinesNeedingUpgrade plane0 !! "m1" = Some m1 ∧
  MachinesNeedingUpgrade (with_replicas 7 plane0) = MachinesNeedingUpgrade plane0.
Proof.
  destruct (MachinesNeedingUpgrade_exact plane0 plane0_keyed) as (Hex&Hrep&_).
  split; [exact plane0_keyed|]. split; [|apply Hrep].
  apply Hex. split; [reflexivity|]. intros h [= <-]. vm_compute. discriminate.
Defined.

Lemma NewMachine_joins_witness :
  ∃ m tr, runs (NewMachine plane0 (ref "I" "i") (ref "B" "b") (Some "a")) tr (Val m) ∧
    mach_Name m = "cp-x2x4z" ∧ controlled plane0 m.
Proof.
  eexists _, _. split; [exact (drive_runs accept [] _)|].
  destruct (NewMachine_joins plane0 (ref "I" "i") (ref "B" "b") (Some "a") _ _
    (drive_runs accept [] _)) as (m&Hm&_&_&_&Hc&_).
  vm_compute in Hm. injection Hm as <-. split; [reflexivity|exact Hc].
Defined.
End ControlPlaneWitness.
