(* ===== verification/WorkloadCluster.v ===== *)
(** internal/workload_cluster.go: health and status of a workload cluster,
    read through a client for it. *)
From S2P Require Import Prelude GoRuntime ApiTypes Platform SamplePlatform.
Local Open Scope Z_scope.
Local Open Scope go_scope.

(** [map[string]error]; [None] is a nil error. *)
Abbreviation HealthCheckResult := (gmap string (option error)).

Section workload.
Context {P : Platform}.

Record ClusterStatus := { cs_Nodes : Z; cs_ReadyNodes : Z }.

(** The client of the workload cluster, and the etcd TLS material (a CA
    bundle and a client certificate with its key). *)
Record Workload := {
  w_Client : Client;
  w_etcd_RootCAs : string;
  w_etcd_Certificate : string * string;
}.

Definition getControlPlaneNodes (w : Workload) : M (result error (list Node)) :=
  try nodes := call (List_Nodes (w_Client w) {["node-role.kubernetes.io/master" := ""]})
  catch err => mret (Err err);;
  mret (Ok nodes).

Definition staticPodName (component nodeName : string) : string :=
  component +:+ "-" +:+ nodeName.

Definition pod_not_ready (pod : Pod) : error :=
  errors_New ("static pod " +:+ pod_Namespace pod +:+ "/" +:+ pod_Name pod +:+ " is not ready").

Fixpoint ready_conditions (pod : Pod) (found : bool) (conditions : list Condition) :
    option error :=
  match conditions with
  | [] =>
      if negb found
      then Some (errors_New ("pod does not have ready condition: " +:+ pod_Name pod))
      else None
  | condition :: conditions' =>
      let found := if String.eqb (cond_Type condition) PodReady then true else found in
      if String.eqb (cond_Type condition) PodReady &&
         negb (String.eqb (cond_Status condition) ConditionTrue)
      then Some (pod_not_ready pod)
      else ready_conditions pod found conditions'
  end.

Definition checkStaticPodReadyCondition (pod : Pod) : option error :=
  ready_conditions pod false (pod_Conditions pod).

Fixpoint no_execute_taint (node : Node) (taints : list Taint) : option error :=
  match taints with
  | [] => None
  | taint :: taints' =>
      if String.eqb (taint_Key taint) TaintNodeUnreachable &&
         String.eqb (taint_Effect taint) TaintEffectNoExecute
      then Some (errors_New ("node has NoExecute taint: " +:+ node_Name node))
      else no_execute_taint node taints'
  end.

Definition checkNodeNoExecuteCondition (node : Node) : option error :=
  no_execute_taint node (node_Taints node).

Definition pod_key (component : string) (node : Node) : ObjectKey :=
  {| key_Namespace := NamespaceSystem; key_Name := staticPodName component (node_Name node) |}.

(** One iteration of the loop over the nodes; [continue] ends it. *)
Definition check_node (w : Workload) (node : Node) (response : HealthCheckResult) :
    M HealthCheckResult :=
  let name := node_Name node in
  let response := <[name := None]> response in
  match checkNodeNoExecuteCondition node with
  | Some err => mret (<[name := Some err]> response)
  | None =>
      try apiServerPod := call (Get_Pod (w_Client w) (pod_key "kube-apiserver" node))
      catch err => mret (<[name := Some err]> response);;
      let response := <[name := checkStaticPodReadyCondition apiServerPod]> response in
      try controllerManagerPod :=
        call (Get_Pod (w_Client w) (pod_key "kube-controller-manager" node))
      catch err => mret (<[name := Some err]> response);;
      mret (<[name := checkStaticPodReadyCondition controllerManagerPod]> response)
  end.

Definition ControlPlaneIsHealthy (w : Workload) : M (result error HealthCheckResult) :=
  try controlPlaneNodes := getControlPlaneNodes w catch err => mret (Err err);;
  response ← fold_each controlPlaneNodes ∅ (check_node w);
  mret (Ok response).

Definition count_node (status : ClusterStatus) (node : Node) : ClusterStatus :=
  {| cs_Nodes := int32 (cs_Nodes status + 1);
     cs_ReadyNodes := if util_IsNodeReady node then int32 (cs_ReadyNodes status + 1)
                      else cs_ReadyNodes status |}.

(** The method [ClusterStatus] of [Workload]. *)
Definition Workload_ClusterStatus (w : Workload) : M (result error ClusterStatus) :=
  try nodes := getControlPlaneNodes w catch err => mret (Err err);;
  mret (Ok (foldl count_node {| cs_Nodes := 0; cs_ReadyNodes := 0 |} nodes)).

(** ** What the checks mean *)

(** The pod has a Ready condition, and every one it has is true. *)
Definition pod_is_ready (pod : Pod) : Prop :=
  (∃ c, c ∈ pod_Conditions pod ∧ cond_Type c = PodReady) ∧
  ∀ c, c ∈ pod_Conditions pod → cond_Type c = PodReady → cond_Status c = ConditionTrue.

Definition evicting (node : Node) : Prop :=
  ∃ t, t ∈ node_Taints node ∧ taint_Key t = TaintNodeUnreachable ∧
    taint_Effect t = TaintEffectNoExecute.

(** What a nil error for a node rests on in an execution: the node tolerates
    execution, its API server pod exists and its controller manager pod was
    read and is ready. *)
Definition node_verified (w : Workload) (tr : list event) (node : Node) : Prop :=
  ¬ evicting node ∧
  (∃ pod, Ev (Get_Pod (w_Client w) (pod_key "kube-apiserver" node)) (Ok pod) ∈ tr) ∧
  ∃ pod, Ev (Get_Pod (w_Client w) (pod_key "kube-controller-manager" node)) (Ok pod) ∈ tr ∧
    pod_is_ready pod.

(** What a non-nil error rests on. *)
Definition node_refuted (w : Workload) (tr : list event) (node : Node) (e : error) : Prop :=
  evicting node ∨
  (∃ component, Ev (Get_Pod (w_Client w) (pod_key component node)) (Err e) ∈ tr) ∨
  ∃ pod, Ev (Get_Pod (w_Client w) (pod_key "kube-controller-manager" node)) (Ok pod) ∈ tr ∧
    ¬ pod_is_ready pod.

Definition node_justified (w : Workload) (tr : list event) (node : Node)
    (r : option error) : Prop :=
  match r with None => node_verified w tr node | Some e => node_refuted w tr node e end.
End workload.

(** ** Lemmas *)

Section workload_lemmas.
Context {P : Platform}.

Lemma ready_conditions_None pod found cs :
  ready_conditions pod found cs = None ↔
  (found = true ∨ ∃ c, c ∈ cs ∧ cond_Type c = PodReady) ∧
  ∀ c, c ∈ cs → cond_Type c = PodReady → cond_Status c = ConditionTrue.
Proof.
  revert found; induction cs as [|c cs IH]; intros found; simpl.
  - setoid_rewrite elem_of_nil. destruct found; naive_solver.
  - setoid_rewrite elem_of_cons. destruct (String.eqb_spec (cond_Type c) PodReady) as [Ht|Ht]; simpl.
    + destruct (String.eqb_spec (cond_Status c) ConditionTrue) as [Hs|Hs]; simpl.
      * rewrite IH. naive_solver.
      * split; [done|]. intros [_ H]. destruct Hs. apply (H c); auto.
    + rewrite IH. naive_solver.
Qed.

Lemma checkStaticPodReadyCondition_None pod :
  checkStaticPodReadyCondition pod = None ↔ pod_is_ready pod.
Proof.
  unfold checkStaticPodReadyCondition, pod_is_ready. rewrite ready_conditions_None. naive_solver.
Qed.

Lemma checkNodeNoExecuteCondition_None node :
  checkNodeNoExecuteCondition node = None ↔ ¬ evicting node.
Proof.
  unfold checkNodeNoExecuteCondition, evicting.
  induction (node_Taints node) as [|t ts IH]; simpl.
  - setoid_rewrite elem_of_nil. naive_solver.
  - setoid_rewrite elem_of_cons.
    destruct (String.eqb_spec (taint_Key t) TaintNodeUnreachable) as [Hk|Hk],
      (String.eqb_spec (taint_Effect t) TaintEffectNoExecute) as [He|He]; simpl;
      rewrite ?IH; [|naive_solver..].
    split; [done|]. intros []. eauto 10.
Qed.

Lemma node_justified_mono w tr tr' node r :
  node_justified w tr node r → node_justified w (tr ++ tr') node r.
Proof.
  destruct r as [e|]; simpl; unfold node_refuted, node_verified; setoid_rewrite elem_of_app;
    naive_solver.
Qed.

#[export] Instance evicting_dec node : Decision (evicting node).
Proof.
  refine (cast_if (decide (Exists (λ t, taint_Key t = TaintNodeUnreachable ∧
    taint_Effect t = TaintEffectNoExecute) (node_Taints node))));
    by rewrite Exists_exists in *.
Defined.

(** A loop iteration files one justified result under the node's name. *)
Lemma check_node_hoare w node resp h :
  hoare anything (check_node w node resp) h (λ o h',
    ∃ r, o = Val (<[node_Name node := r]> resp) ∧ h `prefix_of` h' ∧
      node_justified w h' node r).
Proof.
  unfold check_node. destruct (checkNodeNoExecuteCondition node) as [e|] eqn:Ht.
  { simpl. exists (Some e).  rewrite insert_insert_eq. split_and!; [done..|]. left.
    destruct (decide (checkNodeNoExecuteCondition node = None)) as [Hn|Hn]; [congruence|].
    rewrite checkNodeNoExecuteCondition_None in Hn. by apply dec_stable. }
  apply checkNodeNoExecuteCondition_None in Ht.
  apply hoare_call; split; [done|]. intros [pod1|e]; simpl.
  2:{ exists (Some e). rewrite insert_insert_eq. split_and!; [done|by apply prefix_app_r|].
      right; left. exists "kube-apiserver". apply elem_of_app; right. left. }
  split; [done|]. intros [pod2|e]; simpl.
  2:{ exists (Some e). rewrite !insert_insert_eq.
      split_and!; [done|by apply prefix_app_r, prefix_app_r|].
      right; left. exists "kube-controller-manager". apply elem_of_app; right. left. }
  exists (checkStaticPodReadyCondition pod2). rewrite !insert_insert_eq.
  split_and!; [done|by apply prefix_app_r, prefix_app_r|].
  destruct (checkStaticPodReadyCondition pod2) eqn:Hr; simpl.
  - right; right. exists pod2. split; [apply elem_of_app; right; left|].
    rewrite <-checkStaticPodReadyCondition_None. congruence.
  - split; [done|]. apply checkStaticPodReadyCondition_None in Hr. split.
    + exists pod1. rewrite !elem_of_app. left; right; left.
    + exists pod2. rewrite !elem_of_app. split; [right; left|done].
Qed.
End workload_lemmas.

(** ** Properties *)

Section workload_properties.
Context {P : Platform}.

(** The report covers exactly the given nodes, each with a justified
    result. *)
Definition report_of (w : Workload) (nodes : list Node) (h : list event)
    (resp : HealthCheckResult) : Prop :=
  dom resp = list_to_set (C := gset string) (node_Name <$> nodes) ∧
  ∀ name r, resp !! name = Some r →
    ∃ node, node ∈ nodes ∧ node_Name node = name ∧ node_justified w h node r.

Lemma check_nodes_hoare w nodes h :
  hoare anything (fold_each nodes ∅ (check_node w)) h (λ o h',
    ∃ resp, o = Val resp ∧ report_of w nodes h' resp).
Proof.
  apply (hoare_fold_each _ (λ l resp h', ∃ done, nodes = done ++ l ∧ report_of w done h' resp)).
  - exists []. split; [done|]. split; [by rewrite dom_empty_L|]. intros name r. by rewrite lookup_empty.
  - intros node l resp h' (done&->&Hdom&Hresp).
    eapply hoare_mono; [done| |apply check_node_hoare].
    intros o h'' (r&->&[tr ->]&Hr). exists (done ++ [node]). rewrite <-app_assoc.
    split; [done|]. split.
    + rewrite dom_insert_L, fmap_app, list_to_set_app_L, Hdom. simpl. set_solver.
    + intros name r'. rewrite lookup_insert_Some. intros [[<- <-]|[_ Hr']].
      * exists node. rewrite elem_of_app, list_elem_of_singleton. eauto.
      * apply Hresp in Hr' as (node'&?&?&?). exists node'. rewrite elem_of_app.
        split_and!; [by left|done|]. by apply node_justified_mono.
  - intros resp h' (done&->&Hr). rewrite app_nil_r. eauto.
Qed.

(** C19: the health check of a workload cluster fails only if its nodes
    cannot be listed; otherwise it reports on exactly the listed control
    plane nodes, and every verdict is backed by what was read: a nil error
    means a node that is not being evicted, whose API server pod exists and
    whose controller manager pod is ready; an error means an eviction taint,
    a failed read or a controller manager that is not ready. *)
Theorem ControlPlaneIsHealthy_report (w : Workload) tr o :
  runs (ControlPlaneIsHealthy w) tr o →
  ∃ r tr', tr = Ev (List_Nodes (w_Client w) {["node-role.kubernetes.io/master" := ""]}) r :: tr' ∧
    match r with
    | Err e => o = Val (Err e)
    | Ok nodes => ∃ resp, o = Val (Ok resp) ∧ report_of w nodes tr resp
    end.
Proof.
  intros (r&tr'&->&Hr). exists r, tr'. split; [done|]. destruct r as [nodes|e].
  - simpl in Hr. apply runs_bind in Hr as [[Hp ->]|(tr1&tr2&resp&->&Hp&->&->)].
    + by destruct (hoare_runs _ _ _ _ _ _ (check_nodes_hoare w nodes []) Hp) as (?&?&_).
    + set (a := List_Nodes _ _). pose proof (check_nodes_hoare w nodes [@Ev k8s a (Ok nodes)]) as Hh.
      destruct (hoare_runs _ _ _ _ _ _ Hh Hp) as (?&[= <-]&Hrep).
      exists resp. rewrite app_nil_r. done.
  - simpl in Hr. by destruct Hr as [-> ->].
Qed.

Lemma count_node_foldl nodes n rn :
  0 ≤ rn ≤ n → n + Z.of_nat (length nodes) < 2 ^ 31 →
  foldl count_node {| cs_Nodes := n; cs_ReadyNodes := rn |} nodes =
  {| cs_Nodes := n + Z.of_nat (length nodes);
     cs_ReadyNodes := rn + Z.of_nat (length (filter (λ x, util_IsNodeReady x = true) nodes)) |}.
Proof.
  revert n rn; induction nodes as [|x nodes IH]; intros n rn Hn Hlt; cbn [foldl].
  { simpl. f_equal; lia. }
  rewrite length_cons in *. unfold count_node at 2. simpl cs_Nodes. simpl cs_ReadyNodes.
  rewrite filter_cons, (int32_id (n + 1)) by lia.
  destruct (util_IsNodeReady x) eqn:Hx.
  - rewrite decide_True, (int32_id (rn + 1)), IH, length_cons by (done || lia). f_equal; lia.
  - rewrite decide_False, IH by (done || lia). f_equal; lia.
Qed.

(** The counts of a cluster status, as long as they fit an [int32]. *)
Lemma Workload_ClusterStatus_ok w tr o :
  runs (Workload_ClusterStatus w) tr o →
  ∃ r, tr = [Ev (List_Nodes (w_Client w) {["node-role.kubernetes.io/master" := ""]}) r] ∧
    match r with
    | Err e => o = Val (Err e)
    | Ok nodes => ∃ s, o = Val (Ok s) ∧
        (Z.of_nat (length nodes) < 2 ^ 31 →
          cs_Nodes s = Z.of_nat (length nodes) ∧
          cs_ReadyNodes s =
            Z.of_nat (length (filter (λ x, util_IsNodeReady x = true) nodes)))
    end.
Proof.
  intros (r&tr'&->&Hr). exists r. destruct r as [nodes|e]; simpl in Hr; destruct Hr as [-> ->].
  - split; [done|]. eexists; split; [done|]. intros Hlt.
    by rewrite count_node_foldl by lia.
  - done.
Qed.
End workload_properties.

(** ** Witnesses *)

Module WorkloadWitness.
Import Reference Sample Fixtures.

Definition remote : Client := Remote {| rc_Data := "demo"; rc_Timeout := 30000000000 |}.
Definition workload : Workload :=
  {| w_Client := remote; w_etcd_RootCAs := ""; w_etcd_Certificate := ("", "") |}.

Definition node (name : string) : Node :=
  {| node_Name := name; node_Taints := [];
     node_Conditions := [{| cond_Type := "Ready"; cond_Status := "True" |}] |}.

Definition pod (name status : string) : Pod :=
  {| pod_Namespace := "kube-system"; pod_Name := name;
     pod_Conditions := [{| cond_Type := "Ready"; cond_Status := status |}] |}.

(** The API server pods of every node report [apiserver], the controller
    managers are ready. *)
Definition pods (apiserver : string) (nodes : list Node) :
    list event → ∀ a : k8s_action, k8s_answer a :=
  environment (λ a,
    match a with
    | List_Nodes _ _ => Some (Ok nodes)
    | Get_Pod _ k =>
        Some (Ok (pod (key_Name k)
          (if String.prefix "kube-apiserver" (key_Name k) then apiserver else "True")))
    | _ => None
    end).

Definition healthy : HealthCheckResult := {["node-m1" := None; "node-m2" := None]}.

Lemma ControlPlaneIsHealthy_report_witness :
  ∃ tr, runs (ControlPlaneIsHealthy workload) tr (Val (Ok healthy)) ∧
    ∃ x, node_Name x = "node-m1" ∧ node_verified workload tr x.
Proof.
  assert (Hd : (drive (pods "True" [node "node-m1"; node "node-m2"]) []
    (ControlPlaneIsHealthy workload)).2 = Val (Ok healthy)) by (vm_compute; reflexivity).
  apply drive_result in Hd as [tr Hr].
  exists tr. split; [exact Hr|].
  destruct (ControlPlaneIsHealthy_report workload tr _ Hr) as ([nodes|e]&tr'&_&Hrep);
    [|discriminate].
  destruct Hrep as (resp&Hresp&_&Hall). injection Hresp as <-.
  destruct (Hall "node-m1" None eq_refl) as (x&_&Hx&Hj). exists x. split; [exact Hx|exact Hj].
Defined.

(** The verdict on a node is the controller manager's alone: an API server
    pod that is not ready goes unreported, because the second assignment to
    the node's entry overwrites the first. *)
Lemma unready_apiserver_unreported :
  checkStaticPodReadyCondition (pod "kube-apiserver-node-m1" "False") ≠ None ∧
  (drive (pods "False" [node "node-m1"]) [] (ControlPlaneIsHealthy workload)).2 =
    Val (Ok {["node-m1" := None]}).
Proof. split; [vm_compute; discriminate|vm_compute; reflexivity]. Qed.
End WorkloadWitness.
