(* ===== verification/ManagementCluster.v ===== *)
(** internal/cluster.go and internal/remote/cluster.go: what the controllers
    ask of the management cluster, and how they reach a workload cluster. *)
From S2P Require Import Prelude GoRuntime ApiTypes Platform SamplePlatform.
From S2P Require Import MachineFilters MachineCollection FailureDomain ControlPlane WorkloadCluster.
Local Open Scope Z_scope.
Local Open Scope go_scope.

(** Durations are in nanoseconds. *)
Definition Second : Z := 1000000000.
Definition Minute : Z := 60 * Second.
Definition Hour : Z := 60 * Minute.

(** [x509.KeyUsage] bits *)
Definition KeyUsageDigitalSignature : Z := 1.
Definition KeyUsageKeyEncipherment : Z := 4.
Definition KeyUsageCertSign : Z := 32.

(** [ObjectKey.String] *)
Definition key_String (k : ObjectKey) : string := key_Namespace k +:+ "/" +:+ key_Name k.

Section management.
Context {R : GoRuntime} {P : Platform}.

(** *** internal/remote/cluster.go *)

Definition RESTConfig (cluster : ObjectKey) : M (result error RestConfig) :=
  try kubeConfig := call (Kubeconfig_FromSecret cluster)
  catch err => mret (Err (errors_Wrap err
    ("failed to retrieve kubeconfig secret for Cluster " +:+ key_String cluster)));;
  mret (match RESTConfigFromKubeConfig kubeConfig with
        | Err err => Err (errors_Wrap err
            ("failed to create REST configuration for Cluster " +:+ key_String cluster))
        | Ok restConfig => Ok restConfig
        end).

Definition NewClusterClient (cluster : ObjectKey) : M (result error Client) :=
  try restConfig := RESTConfig cluster catch err => mret (Err err);;
  check call (Client_New restConfig) catch err => mret (Err (errors_Wrap err
    ("failed to create client for Cluster " +:+ key_String cluster)));;
  mret (Ok (Remote restConfig)).

(** *** internal/cluster.go *)

Definition GetMachinesForCluster (cluster : ObjectKey) (filters : list Func) :
    M (result error FilterableMachineCollection) :=
  try ml := call (List_Machines (key_Namespace cluster) {[ClusterLabelName := key_Name cluster]})
  catch err => mret (Err (errors_Wrap err "failed to list machines"));;
  mret (Ok (Filter (NewFilterableMachineCollectionFromMachineList ml) filters)).

Definition client_cert_template (now : Time) : CertTemplate := {|
  ct_SerialNumber := 0;
  ct_CommonName := "cluster-api.x-k8s.io";
  ct_NotBefore := now + Minute * -5;
  ct_NotAfter := now + Hour * 24 * 365 * 10;
  ct_KeyUsage := KeyUsageDigitalSignature;
  ct_ExtKeyUsageClientAuth := true;
  ct_MaxPathLenZero := false;
  ct_BasicConstraintsValid := false;
  ct_MaxPathLen := 0;
  ct_IsCA := false |}.

Definition newClientCert (caCert : X509Certificate) (key caKey : PrivateKey) :
    M (result error X509Certificate) :=
  now ← call Now;
  let tmpl := client_cert_template now in
  try b := call (X509_CreateCertificate tmpl (Some caCert) key caKey)
  catch err => mret (Err (errors_Wrap err
    ("failed to create signed client certificate: " +:+ fmt_CertTemplate tmpl)));;
  mret (match x509_ParseCertificate b with
        | Ok c => Ok c
        | Err err => Err (errors_WithStack err)
        end).

(** The [tls.Certificate] is kept as the pair of PEM blocks it is made of. *)
Definition generateClientCert (caCertEncoded caKeyEncoded : string) :
    M (result error (string * string)) :=
  try privKey := call Certs_NewPrivateKey catch err => mret (Err err);;
  match DecodeCertPEM caCertEncoded with
  | Err err => mret (Err err)
  | Ok caCert =>
      match DecodePrivateKeyPEM caKeyEncoded with
      | Err err => mret (Err err)
      | Ok caKey =>
          try x509Cert := newClientCert caCert privKey caKey catch err => mret (Err err);;
          let crt := EncodeCertPEM x509Cert in
          let key := EncodePrivateKeyPEM privKey in
          mret (match tls_X509KeyPair crt key with
                | Some err => Err err
                | None => Ok (crt, key)
                end)
      end
  end.

Definition secret_data (s : Secret) : gmap string string := default ∅ (sec_Data s).

Definition GetWorkloadCluster (clusterKey : ObjectKey) : M (result error Workload) :=
  try restConfig := RESTConfig clusterKey catch err => mret (Err err);;
  let restConfig := {| rc_Data := rc_Data restConfig; rc_Timeout := 30 * Second |} in
  check call (Client_New restConfig) catch err => mret (Err (errors_Wrap err
    ("failed to create client for workload cluster " +:+ key_String clusterKey)));;
  let key := {| key_Namespace := key_Namespace clusterKey;
                key_Name := key_Name clusterKey +:+ "-etcd" |} in
  try secret := call (Get_Secret Mgmt key)
  catch err => mret (Err (errors_Wrap err
    ("failed to get secret; etcd CA bundle " +:+ key_String key)));;
  match secret_data secret !! secretutil_TLSCrtDataName with
  | None => mret (Err (errors_New
      ("etcd tls crt does not exist for cluster " +:+ key_String clusterKey)))
  | Some caCertData =>
      match secret_data secret !! secretutil_TLSKeyDataName with
      | None => mret (Err (errors_New
          ("etcd tls key does not exist for cluster " +:+ key_String clusterKey)))
      | Some caKeyData =>
          try clientCert := generateClientCert caCertData caKeyData
          catch err => mret (Err err);;
          mret (Ok {| w_Client := Remote restConfig; w_etcd_RootCAs := caCertData;
                      w_etcd_Certificate := clientCert |})
      end
  end.

Definition node_error (kv : string * option error) : list error :=
  match kv.2 with
  | Some err => [errors_New ("node " +:+ strconv.Quote kv.1 +:+ ": " +:+ error_Error err)]
  | None => []
  end.

Definition machine_name (m : Machine) : string := mach_Namespace m +:+ "/" +:+ mach_Name m.

(** The loop over the machines. *)
Fixpoint machines_checked (nodeChecks : HealthCheckResult) (machines : list Machine) :
    option error :=
  match machines with
  | [] => None
  | machine :: machines' =>
      match mach_NodeRef machine with
      | None => Some (errors_New
          ("control plane machine " +:+ machine_name machine +:+ " has no status.nodeRef"))
      | Some ref =>
          match nodeChecks !! ref_Name ref with
          | None => Some (errors_New ("machine's (" +:+ machine_name machine +:+ ") node (" +:+
              ref_Name ref +:+ ") was not checked"))
          | Some _ => machines_checked nodeChecks machines'
          end
      end
  end.

(** A failed check has a nil map of node results. *)
Definition healthCheck (hc : M (result error HealthCheckResult)) (clusterKey : ObjectKey)
    (controlPlaneName : string) : M (option error) :=
  r ← hc;
  let nodeChecks : HealthCheckResult := match r with Ok checks => checks | Err _ => ∅ end in
  let errorList := (match r with Ok _ => [] | Err err => [err] end) ++
    (map_range nodeChecks ≫= node_error) in
  if negb (length errorList =? 0)%nat then mret (kerrors_NewAggregate (Some <$> errorList))
  else
    try machines := GetMachinesForCluster clusterKey [OwnedControlPlaneMachines controlPlaneName]
    catch err => mret (Some err);;
    match machines_checked nodeChecks (map_range machines).*2 with
    | Some err => mret (Some err)
    | None =>
        if negb (size nodeChecks =? size machines)%nat then
          mret (Some (errors_New ("number of nodes and machines in namespace " +:+
            key_Namespace clusterKey +:+ " did not match: " +:+
            fmt_d (Z.of_nat (size nodeChecks)) +:+ " nodes " +:+
            fmt_d (Z.of_nat (size machines)) +:+ " machines")))
        else mret None
    end.

Definition TargetClusterControlPlaneIsHealthy (clusterKey : ObjectKey)
    (controlPlaneName : string) : M (option error) :=
  try cluster := GetWorkloadCluster clusterKey catch err => mret (Some err);;
  healthCheck (ControlPlaneIsHealthy cluster) clusterKey controlPlaneName.
End management.

(** The interface [ManagementCluster]: what the control plane controller uses
    of the management cluster. *)
Class ManagementCluster {P : Platform} : Type := {
  mc_GetMachinesForCluster :
    ObjectKey → list Func → M (result error FilterableMachineCollection);
  mc_TargetClusterControlPlaneIsHealthy : ObjectKey → string → M (option error);
  mc_GetWorkloadCluster : ObjectKey → M (result error Workload);
}.

(** The implementation [Management]. *)
#[export] Instance Management {R : GoRuntime} {P : Platform} : ManagementCluster := {|
  mc_GetMachinesForCluster := GetMachinesForCluster;
  mc_TargetClusterControlPlaneIsHealthy := TargetClusterControlPlaneIsHealthy;
  mc_GetWorkloadCluster := GetWorkloadCluster;
|}.

(** What the interface promises: its operations only read, never panic, and
    the machines it returns are keyed and pass the filters. *)
Definition reads_only {P : Platform} : list event → k8s_action → Prop :=
  λ _ a, is_write a = false.

Class ManagementClusterLaws {P : Platform} (MC : ManagementCluster) : Prop := {
  mc_machines key filters h :
    hoare reads_only (mc_GetMachinesForCluster key filters) h (λ o _,
      match o with
      | Val (Ok ms) => keyed ms ∧ ∀ k m f, ms !! k = Some m → f ∈ filters → f (Some m) = true
      | Val (Err _) => True
      | Panic => False
      end);
  mc_health key name h :
    hoare reads_only (mc_TargetClusterControlPlaneIsHealthy key name) h (λ o _, o ≠ Panic);
  mc_workload key h :
    hoare reads_only (mc_GetWorkloadCluster key) h (λ o _, o ≠ Panic);
}.

(** ** Lemmas *)

Section management_lemmas.
Context {R : GoRuntime} {RL : GoRuntimeLaws R} {P : Platform}.

Lemma list_keyed ms s :
  keyed s → keyed (foldl (λ ss m, Insert ss [Some m]) s ms).
Proof.
  revert s; induction ms as [|m ms IH]; intros s Hs; simpl; [done|].
  by apply IH, map_Forall_insert_2.
Qed.

Lemma NewFromMachineList_keyed ms : keyed (NewFilterableMachineCollectionFromMachineList ms).
Proof. apply list_keyed, keyed_empty. Qed.

(** The machines of an answer that pass the filters, and no others. *)
Lemma GetMachinesForCluster_hoare key filters h :
  hoare reads_only (GetMachinesForCluster key filters) h (λ o _,
    match o with
    | Val (Ok ms) => keyed ms ∧ ∀ k m f, ms !! k = Some m → f ∈ filters → f (Some m) = true
    | Val (Err _) => True
    | Panic => False
    end).
Proof.
  unfold GetMachinesForCluster. apply hoare_call; split; [done|].
  intros [ml|e]; simpl; [|done]. split; [apply Filter_keyed|].
  intros k m f Hm Hf. rewrite Filter_lookup in Hm by apply NewFromMachineList_keyed.
  destruct Hm as [_ Hall]. rewrite And_true, Forall_forall in Hall. by apply Hall.
Qed.

Lemma RESTConfig_hoare key h :
  hoare reads_only (RESTConfig key) h (λ o _, o ≠ Panic).
Proof. unfold RESTConfig. simpl. split; [done|]. by intros [?|?]. Qed.

Lemma generateClientCert_hoare crt key h :
  hoare reads_only (generateClientCert crt key) h (λ o _, o ≠ Panic).
Proof.
  unfold generateClientCert. simpl. split; [done|]. intros [priv|]; [|done].
  destruct (DecodeCertPEM crt); [|done]. destruct (DecodePrivateKeyPEM key); [|done].
  simpl. split; [done|]. intros now. split; [done|]. intros [b|]; [|done]. simpl.
  by destruct (x509_ParseCertificate b).
Qed.

Lemma GetWorkloadCluster_hoare key h :
  hoare reads_only (GetWorkloadCluster key) h (λ o _, o ≠ Panic).
Proof.
  apply hoare_safe_bind; [apply RESTConfig_hoare|]. intros [cfg|] h1; [|done].
  apply hoare_call; split; [done|]. intros [|]; [done|].
  apply hoare_call; split; [done|]. intros [s|]; [|done].
  destruct (secret_data s !! secretutil_TLSCrtDataName); [|done].
  destruct (secret_data s !! secretutil_TLSKeyDataName); [|done].
  apply hoare_safe_bind; [apply generateClientCert_hoare|]. by intros [?|] h2.
Qed.

Lemma check_node_reads w node resp h :
  hoare reads_only (check_node w node resp) h (λ o _, o ≠ Panic).
Proof.
  unfold check_node. destruct (checkNodeNoExecuteCondition node); [done|].
  apply hoare_call; split; [done|]. intros [?|]; [|done].
  apply hoare_call; split; [done|]. by intros [?|].
Qed.

Lemma ControlPlaneIsHealthy_reads w h :
  hoare reads_only (ControlPlaneIsHealthy w) h (λ o _, o ≠ Panic).
Proof.
  apply hoare_safe_bind.
  { unfold getControlPlaneNodes. simpl. split; [done|]. by intros [?|]. }
  intros [nodes|] h'; [|done]. apply hoare_safe_bind; [|done].
  apply (hoare_fold_each _ (λ _ _ _, True)); [done| |done].
  intros node l s h'' _. eapply hoare_mono; [done| |apply check_node_reads].
  by intros [?|].
Qed.

Lemma healthCheck_hoare hc key name h :
  hoare reads_only hc h (λ o _, o ≠ Panic) →
  hoare reads_only (healthCheck hc key name) h (λ o _, o ≠ Panic).
Proof.
  intros Hhc. apply hoare_safe_bind; [done|]. intros r h'. cbv zeta.
  destruct (negb _); [done|]. apply hoare_safe_bind.
  { eapply hoare_mono; [done| |apply GetMachinesForCluster_hoare]. by intros [?|]. }
  intros [ms|] h''; [|done]. destruct (machines_checked _ _); [done|].
  by destruct (negb _).
Qed.

#[export] Instance Management_laws : ManagementClusterLaws Management.
Proof.
  split.
  - apply GetMachinesForCluster_hoare.
  - intros key name h. apply hoare_safe_bind; [apply GetWorkloadCluster_hoare|].
    intros [w|] h'; [|done]. apply healthCheck_hoare, ControlPlaneIsHealthy_reads.
  - apply GetWorkloadCluster_hoare.
Qed.
End management_lemmas.

(** ** Properties *)

Section management_properties.
Context {R : GoRuntime} {RL : GoRuntimeLaws R} {P : Platform}.
Implicit Types ms : FilterableMachineCollection.
Implicit Types checks : HealthCheckResult.

(** The control plane machines of a listing. *)
Definition owned_machines (items : list Machine) (name : string) : FilterableMachineCollection :=
  Filter (NewFilterableMachineCollectionFromMachineList items) [OwnedControlPlaneMachines name].

(** The machine's node was checked, without error. *)
Definition node_checked checks (m : Machine) : Prop :=
  ∃ ref, mach_NodeRef m = Some ref ∧ is_Some (checks !! ref_Name ref).

(** No two machines have the same node. *)
Definition distinct_nodes ms : Prop :=
  ∀ k k' m m' ref ref', ms !! k = Some m → ms !! k' = Some m' →
    mach_NodeRef m = Some ref → mach_NodeRef m' = Some ref' →
    ref_Name ref = ref_Name ref' → k = k'.

Lemma machines_checked_None checks l :
  machines_checked checks l = None ↔ ∀ m, m ∈ l → node_checked checks m.
Proof.
  induction l as [|m l IH]; simpl.
  { setoid_rewrite elem_of_nil. naive_solver. }
  setoid_rewrite elem_of_cons. unfold node_checked in *.
  destruct (mach_NodeRef m) as [ref|] eqn:Href.
  - destruct (checks !! ref_Name ref) eqn:Hc.
    + rewrite IH. naive_solver.
    + split; [done|]. intros H. destruct (H m (or_introl eq_refl)) as (ref'&?&[? ?]). congruence.
  - split; [done|]. intros H. destruct (H m (or_introl eq_refl)) as (ref'&?&?). congruence.
Qed.

Lemma node_errors_nil checks :
  map_range checks ≫= node_error = [] ↔ ∀ n r, checks !! n = Some r → r = None.
Proof.
  transitivity (∀ kv, kv ∈ map_range checks → kv.2 = None).
  - induction (map_range checks) as [|[n r] l IH].
    { setoid_rewrite elem_of_nil. naive_solver. }
    setoid_rewrite elem_of_cons. rewrite bind_cons. unfold node_error at 1. simpl.
    destruct r as [e|]; [|naive_solver]. split; [done|]. intros H.
    by specialize (H (n, Some e) (or_introl eq_refl)).
  - setoid_rewrite <-elem_of_map_range. split; [intros H n r Hn; by apply (H (n, r))|].
    intros H [n r] Hn. eauto.
Qed.

(** Pigeonhole: as many machines as nodes, on distinct nodes, leave no node
    without a machine. *)
Lemma nodes_covered checks ms :
  (∀ k m, ms !! k = Some m → node_checked checks m) → size checks = size ms →
  distinct_nodes ms →
  ∀ n, is_Some (checks !! n) →
    ∃ k m ref, ms !! k = Some m ∧ mach_NodeRef m = Some ref ∧ ref_Name ref = n.
Proof.
  intros Hall Hsize Hinj n Hn.
  set (node := λ m, from_option ref_Name "" (mach_NodeRef m)).
  set (names := (node ∘ snd) <$> map_to_list ms).
  assert (Hnames : ∀ x, x ∈ names ↔ ∃ k m, ms !! k = Some m ∧ node m = x).
  { intros x. unfold names. rewrite list_elem_of_fmap. split.
    - intros ([k m]&->&Hin%elem_of_map_to_list). exists k, m. done.
    - intros (k&m&Hm&<-). exists (k, m). by rewrite elem_of_map_to_list. }
  assert (Hnd : NoDup names).
  { apply NoDup_fmap_2_strong; [|apply NoDup_map_to_list].
    intros [k m] [k' m'] Hk%elem_of_map_to_list Hk'%elem_of_map_to_list. unfold node; simpl.
    destruct (Hall _ _ Hk) as (ref&Href&_), (Hall _ _ Hk') as (ref'&Href'&_).
    rewrite Href, Href'. simpl. intros Heq.
    assert (k = k') as <- by (eapply Hinj; eauto). congruence. }
  assert (list_to_set names = dom checks) as Heq.
  { apply (set_subseteq_size_eq (C := gset string)).
    - intros x. rewrite elem_of_list_to_set, elem_of_dom, Hnames. intros (k&m&Hm&<-).
      destruct (Hall _ _ Hm) as (ref&Href&?). unfold node. by rewrite Href.
    - rewrite size_list_to_set, size_dom by done. unfold names.
      rewrite length_fmap, length_map_to_list. lia. }
  apply elem_of_dom in Hn. rewrite <-Heq, elem_of_list_to_set, Hnames in Hn.
  destruct Hn as (k&m&Hm&<-). destruct (Hall _ _ Hm) as (ref&Href&_).
  exists k, m, ref. unfold node. by rewrite Href.
Qed.

(** C18: a health check reports no error only after the check itself
    succeeded with no failed node and a listing of the control plane's
    machines agreed with it: every machine has a node that was checked and
    there are as many nodes as machines.  If no two machines claim one node,
    nodes and machines correspond one to one. *)
Theorem healthCheck_success `{!AggregateLaws P} hc key name tr :
  runs (healthCheck hc key name) tr (Val None) →
  ∃ tr1 checks items,
    runs hc tr1 (Val (Ok checks)) ∧
    tr = tr1 ++ [Ev (List_Machines (key_Namespace key)
      {[ClusterLabelName := key_Name key]}) (Ok items)] ∧
    (∀ n r, checks !! n = Some r → r = None) ∧
    (∀ k m, owned_machines items name !! k = Some m → node_checked checks m) ∧
    size checks = size (owned_machines items name) ∧
    (distinct_nodes (owned_machines items name) →
     ∀ n, is_Some (checks !! n) → ∃ k m ref, owned_machines items name !! k = Some m ∧
       mach_NodeRef m = Some ref ∧ ref_Name ref = n).
Proof.
  unfold healthCheck. intros [[_ [=]]|(tr1&tr2&r&->&Hhc&Hr)]%runs_bind.
  cbv zeta in Hr. exists tr1. destruct (negb _) eqn:Herrs.
  { destruct Hr as [-> [= Hagg]]. symmetry in Hagg. apply aggregate_nil in Hagg.
    destruct (_ ++ _); [done|]. rewrite fmap_cons, Forall_cons in Hagg. by destruct Hagg. }
  apply negb_false_iff, Nat.eqb_eq, length_zero_iff_nil in Herrs.
  destruct r as [checks|e]; [|done]. rewrite app_nil_l, node_errors_nil in Herrs.
  exists checks. apply runs_bind in Hr as [[_ [=]]|(tr3&tr4&r&->&Hms&Hr)].
  destruct Hms as (a&tr5&->&Hms). destruct a as [items|e]; destruct Hms as [-> [= ->]].
  2:{ by destruct Hr. }
  fold (owned_machines items name) in Hr. exists items.
  destruct (machines_checked _ _) eqn:Hchk; [by destruct Hr|].
  destruct (negb _) eqn:Hsz; [by destruct Hr|]. destruct Hr as [-> _].
  apply negb_false_iff, Nat.eqb_eq in Hsz. rewrite machines_checked_None in Hchk.
  assert (∀ k m, owned_machines items name !! k = Some m → node_checked checks m) as Hall.
  { intros k m Hm. apply Hchk, elem_of_unsortedList. eauto. }
  rewrite app_nil_r. split_and!; try done. by apply nodes_covered.
Qed.
End management_properties.

(** ** Witnesses *)

Module ManagementWitness.
Import Reference ReferenceLaws Sample Fixtures CollectionWitness WorkloadWitness.

Definition demo : ObjectKey := {| key_Namespace := "default"; key_Name := "demo" |}.
Definition items : list Machine := [m1; m2].

(** A workload cluster that can be reached, with the given nodes; all its
    pods are ready. *)
Definition reachable (nodes : list Node) (items : list Machine) :
    list event → ∀ a : k8s_action, k8s_answer a :=
  environment (λ a,
    match a with
    | Kubeconfig_FromSecret k => Some (Ok (key_Name k))
    | Get_Secret _ k => Some (Ok {| sec_Meta := meta (key_Name k) (key_Namespace k);
        sec_Type := ""; sec_Data := Some {["tls.crt" := "crt"; "tls.key" := "key"]} |})
    | List_Machines _ _ => Some (Ok items)
    | List_Nodes _ _ => Some (Ok nodes)
    | Get_Pod _ k => Some (Ok (pod (key_Name k) "True"))
    | _ => None
    end).

Lemma healthCheck_success_witness :
  ∃ tr, runs (healthCheck (ControlPlaneIsHealthy workload) demo "cp") tr (Val None) ∧
    ∃ tr1 checks items, runs (ControlPlaneIsHealthy workload) tr1 (Val (Ok checks)) ∧
      size checks = size (owned_machines items "cp").
Proof.
  assert (Hd : (drive (reachable [node "node-m1"; node "node-m2"] items) []
    (healthCheck (ControlPlaneIsHealthy workload) demo "cp")).2 = Val None)
    by (vm_compute; reflexivity).
  pose proof (drive_runs (reachable [node "node-m1"; node "node-m2"] items) []
    (healthCheck (ControlPlaneIsHealthy workload) demo "cp")) as Hr. rewrite Hd in Hr.
  exists (drive (reachable [node "node-m1"; node "node-m2"] items) []
    (healthCheck (ControlPlaneIsHealthy workload) demo "cp")).1. split; [exact Hr|].
  destruct (healthCheck_success (ControlPlaneIsHealthy workload) demo "cp" _ Hr)
    as (tr1&checks&items'&Hrun&_&_&Hchk&Hsz&_).
  exists tr1, checks, items'. split; [exact Hrun|exact Hsz].
Defined.

Example target_cluster_healthy :
  (drive (reachable [node "node-m1"; node "node-m2"] items) []
    (TargetClusterControlPlaneIsHealthy demo "cp")).2 = Val None.
Proof. vm_compute. reflexivity. Qed.

(** Without the condition on node references there is no correspondence:
    two machines that claim the same node pass for two nodes. *)
Definition m1' : Machine :=
  {| mach_Meta := mach_Meta m2; mach_Spec := mach_Spec m2; mach_NodeRef := mach_NodeRef m1 |}.

Lemma shared_node_unnoticed :
  (drive (reachable [node "node-m1"; node "node-m2"] [m1; m1']) []
    (TargetClusterControlPlaneIsHealthy demo "cp")).2 = Val None ∧
  ∀ k m ref, owned_machines [m1; m1'] "cp" !! k = Some m → mach_NodeRef m = Some ref →
    ref_Name ref ≠ "node-m2".
Proof.
  split; [vm_compute; reflexivity|]. intros k m r Hm.
  assert (map_Forall (λ _ m, mach_NodeRef m = mach_NodeRef m1) (owned_machines [m1; m1'] "cp"))
    as Hall.
  { refine (bool_decide_unpack _ _). vm_compute. exact I. }
  rewrite (Hall k m Hm). intros [= <-]. discriminate.
Qed.
End ManagementWitness.
