(* ===== verification/Secrets.v ===== *)
(** internal/secret: the certificates of a cluster, looked up in secrets of
    the management cluster or generated and saved there. *)
From S2P Require Import Prelude GoRuntime ApiTypes Platform SamplePlatform ManagementCluster.
Local Open Scope Z_scope.
Local Open Scope go_scope.

(** *** consts.go *)

Abbreviation Purpose := string.
Definition KubeconfigDataName : string := "value".
Definition TLSKeyDataName : string := "tls.key".
Definition TLSCrtDataName : string := "tls.crt".
Definition Kubeconfig : Purpose := "kubeconfig".
Definition ClusterCA : Purpose := "ca".
Definition EtcdCA : Purpose := "etcd".
Definition ServiceAccount : Purpose := "sa".
Definition FrontProxyCA : Purpose := "proxy".
Definition AuthProxyCA : Purpose := "auth-proxy".
Definition APIServerEtcdClient : Purpose := "apiserver-etcd-client".

(** *** secret.go *)

Definition Name (cluster : string) (suffix : Purpose) : string := cluster +:+ "-" +:+ suffix.

Definition secret_key (clusterName : ObjectKey) (purpose : Purpose) : ObjectKey :=
  {| key_Namespace := key_Namespace clusterName; key_Name := Name (key_Name clusterName) purpose |}.

(** *** certificates.go *)

Definition rootOwnerValue : string := "root:root".
Definition defaultCertificatesDir : string := "/etc/kubernetes/pki".

Record KeyPair := { kp_Cert : string; kp_Key : string }.

Record Certificate := {
  cert_Generated : bool;
  cert_Purpose : Purpose;
  cert_KeyPair : option KeyPair;
  cert_CertFile : string;
  cert_KeyFile : string;
}.

(** A slice of distinct pointers: a method that changes a certificate gives
    back the whole slice. *)
Abbreviation Certificates := (list Certificate).

Definition certificate (purpose : Purpose) (certFile keyFile : string) : Certificate :=
  {| cert_Generated := false; cert_Purpose := purpose; cert_KeyPair := None;
     cert_CertFile := certFile; cert_KeyFile := keyFile |}.

Definition NewCertificatesForControlPlane (certificatesDir : string) : Certificates := [
  certificate ClusterCA (filepath_Join [certificatesDir; "ca.crt"])
    (filepath_Join [certificatesDir; "ca.key"]);
  certificate ServiceAccount (filepath_Join [certificatesDir; "sa.pub"])
    (filepath_Join [certificatesDir; "sa.key"]);
  certificate FrontProxyCA (filepath_Join [certificatesDir; "front-proxy-ca.crt"])
    (filepath_Join [certificatesDir; "front-proxy-ca.key"]);
  certificate AuthProxyCA (filepath_Join [certificatesDir; "auth-proxy-ca.crt"])
    (filepath_Join [certificatesDir; "auth-proxy-ca.key"]);
  certificate EtcdCA (filepath_Join [certificatesDir; "etcd"; "ca.crt"])
    (filepath_Join [certificatesDir; "etcd"; "ca.key"])
].

Definition NewCertificatesForWorker (certificatesDir : string) : Certificates := [
  certificate ClusterCA (filepath_Join [certificatesDir; "ca.crt"]) ""
].

Fixpoint GetByPurpose (c : Certificates) (purpose : Purpose) : option Certificate :=
  match c with
  | [] => None
  | certificate :: c' =>
      if String.eqb (cert_Purpose certificate) purpose then Some certificate
      else GetByPurpose c' purpose
  end.

Definition set_key_pair (kp : KeyPair) (generated : bool) (c : Certificate) : Certificate :=
  {| cert_Generated := generated; cert_Purpose := cert_Purpose c; cert_KeyPair := Some kp;
     cert_CertFile := cert_CertFile c; cert_KeyFile := cert_KeyFile c |}.

(** [Certificate.AsFiles]; a nil [KeyPair] is dereferenced. *)
Definition Certificate_AsFiles (c : Certificate) : outcome (list File) :=
  match cert_KeyPair c with
  | None => Panic
  | Some kp =>
      let file path permissions content := {|
        file_Path := path; file_Owner := rootOwnerValue; file_Permissions := permissions;
        file_Encoding := ""; file_Content := content |} in
      Val ((if (0 <? String.length (kp_Cert kp))%nat
            then [file (cert_CertFile c) "0640" (kp_Cert kp)] else []) ++
           (if (0 <? String.length (kp_Key kp))%nat
            then [file (cert_KeyFile c) "0600" (kp_Key kp)] else []))
  end.

(** Appends the files of a certificate, if there is one. *)
Definition append_files (certFiles : list File) (c : option Certificate) : outcome (list File) :=
  match c with
  | None => Val certFiles
  | Some c => files ← Certificate_AsFiles c; Val (certFiles ++ files)
  end.

(** [Certificates.AsFiles] *)
Definition AsFiles (c : Certificates) : outcome (list File) :=
  certFiles ← append_files [] (GetByPurpose c ClusterCA);
  certFiles ← append_files certFiles (GetByPurpose c EtcdCA);
  certFiles ← append_files certFiles (GetByPurpose c FrontProxyCA);
  certFiles ← append_files certFiles (GetByPurpose c ServiceAccount);
  append_files certFiles (GetByPurpose c APIServerEtcdClient).

Section certificates.
Context {P : Platform}.

Definition ErrMissingCertificate : error := errors_New "missing certificate".
Definition ErrMissingCrt : error := errors_New "missing crt data".
Definition ErrMissingKey : error := errors_New "missing key data".

(** A loop over the certificates that returns at the first error. *)
Fixpoint for_certificates (c : Certificates) (body : Certificate → M (Certificate * option error)) :
    M (Certificates * option error) :=
  match c with
  | [] => mret ([], None)
  | x :: c' =>
      body x ≫= λ '(x', err),
      match err with
      | Some e => mret (x' :: c', Some e)
      | None => for_certificates c' body ≫= λ '(c'', err'), mret (x' :: c'', err')
      end
  end.

Definition secretToKeyPair (s : Secret) : result error KeyPair :=
  match secret_data s !! TLSCrtDataName with
  | None => Err (errors_New ("missing data for key " +:+ TLSCrtDataName))
  | Some c => Ok {| kp_Cert := c; kp_Key := default "" (secret_data s !! TLSKeyDataName) |}
  end.

Definition lookup_certificate (clusterName : ObjectKey) (c : Certificate) :
    M (Certificate * option error) :=
  try s := call (Get_Secret Mgmt (secret_key clusterName (cert_Purpose c)))
  catch err =>
    (if apierrors_IsNotFound err then mret (c, None)
     else mret (c, Some (errors_WithStack err)));;
  match secretToKeyPair s with
  | Err err => mret (c, Some err)
  | Ok kp => mret (set_key_pair kp (cert_Generated c) c, None)
  end.

Definition Lookup (c : Certificates) (clusterName : ObjectKey) :
    M (Certificates * option error) :=
  for_certificates c (lookup_certificate clusterName).

Fixpoint EnsureAllExist (c : Certificates) : option error :=
  match c with
  | [] => None
  | certificate :: c' =>
      match cert_KeyPair certificate with
      | None => Some ErrMissingCertificate
      | Some kp =>
          if (String.length (kp_Cert kp) =? 0)%nat then
            Some (errors_Wrap ErrMissingCrt ("for certificate: " +:+ cert_Purpose certificate))
          else if (String.length (kp_Key kp) =? 0)%nat then
            Some (errors_Wrap ErrMissingKey ("for certificate: " +:+ cert_Purpose certificate))
          else EnsureAllExist c'
      end
  end.

Definition ca_template (now : Time) : CertTemplate := {|
  ct_SerialNumber := 0;
  ct_CommonName := "kubernetes";
  ct_NotBefore := now + Minute * -5;
  ct_NotAfter := now + Hour * 24 * 365 * 10;
  ct_KeyUsage :=
    Z.lor (Z.lor KeyUsageKeyEncipherment KeyUsageDigitalSignature) KeyUsageCertSign;
  ct_ExtKeyUsageClientAuth := false;
  ct_MaxPathLenZero := true;
  ct_BasicConstraintsValid := true;
  ct_MaxPathLen := 0;
  ct_IsCA := true |}.

(** The template is its own parent. *)
Definition newSelfSignedCACert (key : PrivateKey) : M (result error X509Certificate) :=
  now ← call Now;
  let tmpl := ca_template now in
  try b := call (X509_CreateCertificate tmpl None key key)
  catch err => mret (Err (errors_Wrap err
    ("failed to create self signed CA certificate: " +:+ fmt_CertTemplate tmpl)));;
  mret (match x509_ParseCertificate b with
        | Ok c => Ok c
        | Err err => Err (errors_WithStack err)
        end).

Definition newCertificateAuthority : M (result error (X509Certificate * PrivateKey)) :=
  try key := call Certs_NewPrivateKey catch err => mret (Err err);;
  try c := newSelfSignedCACert key catch err => mret (Err err);;
  mret (Ok (c, key)).

Definition generateCACert : M (result error KeyPair) :=
  try r := newCertificateAuthority catch err => mret (Err err);;
  mret (Ok {| kp_Cert := EncodeCertPEM r.1; kp_Key := EncodePrivateKeyPEM r.2 |}).

Definition generateServiceAccountKeys : M (result error KeyPair) :=
  try saCreds := call Certs_NewPrivateKey catch err => mret (Err err);;
  match EncodePublicKeyPEM saCreds with
  | Err err => mret (Err err)
  | Ok saPub => mret (Ok {| kp_Cert := saPub; kp_Key := EncodePrivateKeyPEM saCreds |})
  end.

(** The [switch]; [None] is the [continue]. *)
Definition generator (purpose : Purpose) : option (M (result error KeyPair)) :=
  if String.eqb purpose APIServerEtcdClient then None
  else if String.eqb purpose ServiceAccount then Some generateServiceAccountKeys
  else Some generateCACert.

Definition generate_certificate (c : Certificate) : M (Certificate * option error) :=
  match cert_KeyPair c with
  | Some _ => mret (c, None)
  | None =>
      match generator (cert_Purpose c) with
      | None => mret (c, None)
      | Some gen =>
          try kp := gen catch err => mret (c, Some err);;
          mret (set_key_pair kp true c, None)
      end
  end.

Definition Generate (c : Certificates) : M (Certificates * option error) :=
  for_certificates c generate_certificate.

(** A nil [KeyPair] is dereferenced. *)
Definition AsSecret (c : Certificate) (clusterName : ObjectKey) (owner : OwnerReference) :
    outcome Secret :=
  match cert_KeyPair c with
  | None => Panic
  | Some kp =>
      let m := with_labels {[ClusterLabelName := key_Name clusterName]}
        (meta (Name (key_Name clusterName) (cert_Purpose c)) (key_Namespace clusterName)) in
      Val {| sec_Meta := if cert_Generated c then with_owners [owner] m else m;
             sec_Type := "";
             sec_Data := Some {[TLSKeyDataName := kp_Key kp; TLSCrtDataName := kp_Cert kp]} |}
  end.

Definition save_certificate (clusterName : ObjectKey) (owner : OwnerReference)
    (c : Certificate) : M (Certificate * option error) :=
  if negb (cert_Generated c) then mret (c, None)
  else
    s ← lift (AsSecret c clusterName owner);
    check call (Create_Secret Mgmt s) catch err => mret (c, Some (errors_WithStack err));;
    mret (c, None).

Definition SaveGenerated (c : Certificates) (clusterName : ObjectKey) (owner : OwnerReference) :
    M (Certificates * option error) :=
  for_certificates c (save_certificate clusterName owner).

Definition LookupOrGenerate (c : Certificates) (clusterName : ObjectKey)
    (owner : OwnerReference) : M (Certificates * option error) :=
  Lookup c clusterName ≫= λ '(c, err),
  match err with
  | Some err => mret (c, Some err)
  | None =>
      Generate c ≫= λ '(c, err),
      match err with
      | Some err => mret (c, Some err)
      | None => SaveGenerated c clusterName owner
      end
  end.

Definition GetFromNamespacedName (clusterName : ObjectKey) (purpose : Purpose) :
    M (result error Secret) :=
  call (Get_Secret Mgmt (secret_key clusterName purpose)).

(** The function [Get]. *)
Definition Secret_Get (cluster : ObjectKey) (purpose : Purpose) : M (result error Secret) :=
  GetFromNamespacedName cluster purpose.
End certificates.

(** ** Lemmas *)

#[export] Instance Name_inj cluster : Inj (=) (=) (Name cluster).
Proof. intros p p' H. by apply (inj (String.append cluster)), (inj (String.append "-")) in H. Qed.

Lemma GetByPurpose_elem c p x : GetByPurpose c p = Some x → x ∈ c ∧ cert_Purpose x = p.
Proof.
  induction c as [|y c IH]; simpl; [done|]. rewrite elem_of_cons.
  destruct (String.eqb_spec (cert_Purpose y) p) as [Hp|]; [|naive_solver].
  intros [= ->]. eauto.
Qed.

Section certificate_rules.
Context {P : Platform}.

(** The loop rule for certificates: [Pre] and [Post] are facts about the
    history that later events do not undo. *)
Lemma hoare_for_certificates G (Pre : Certificate → list event → Prop)
    (Post : Certificate → Certificate → list event → Prop) body c h :
  (∀ x h h', Pre x h → h `prefix_of` h' → Pre x h') →
  (∀ x x' h h', Post x x' h → h `prefix_of` h' → Post x x' h') →
  (∀ x h, Pre x h → hoare G (body x) h (λ o h',
     ∃ x' err, o = Val (x', err) ∧ (err = None → Post x x' h'))) →
  (∀ x, x ∈ c → Pre x h) →
  hoare G (for_certificates c body) h (λ o h',
    ∃ c' err, o = Val (c', err) ∧ (err = None → Forall2 (λ x x', Post x x' h') c c')).
Proof.
  intros HPre HPost Hbody. revert h; induction c as [|x c IH]; intros h Hc; simpl.
  { eexists [], None. split; [done|]. by constructor. }
  apply hoare_bind. eapply hoare_mono; [done| |apply hoare_prefix, Hbody, Hc; left].
  intros o h' (Hpre&x'&err&->&Hx). destruct err as [e|].
  { simpl. by eexists _, (Some e). }
  apply hoare_bind. eapply hoare_mono; [done| |apply hoare_prefix, IH].
  - intros o h'' (Hpre'&c'&err&->&Hc'). simpl. eexists _, err. split; [done|].
    intros ->. constructor; eauto.
  - intros y Hy. eapply HPre; [apply Hc; by right|done].
Qed.

(** The secret of a certificate was read, or found missing. *)
Definition found (key : ObjectKey) (h : list event) (p : Purpose) (s : Secret) : Prop :=
  Ev (Get_Secret Mgmt (secret_key key p)) (Ok s) ∈ h.
Definition absent (key : ObjectKey) (h : list event) (p : Purpose) : Prop :=
  ∃ e, apierrors_IsNotFound e = true ∧ Ev (Get_Secret Mgmt (secret_key key p)) (Err e) ∈ h.

Definition same_certificate (c c' : Certificate) : Prop :=
  cert_Purpose c' = cert_Purpose c ∧ cert_CertFile c' = cert_CertFile c ∧
  cert_KeyFile c' = cert_KeyFile c.

(** The certificate holds the key pair of the secret that was read. *)
Definition from_secret (key : ObjectKey) (h : list event) (c c' : Certificate) : Prop :=
  same_certificate c c' ∧ cert_Generated c' = cert_Generated c ∧
  ∃ s kp, found key h (cert_Purpose c) s ∧ secretToKeyPair s = Ok kp ∧ cert_KeyPair c' = Some kp.

(** After [Lookup]. *)
Definition looked_up (key : ObjectKey) (c c' : Certificate) (h : list event) : Prop :=
  from_secret key h c c' ∨ (absent key h (cert_Purpose c) ∧ c' = c).

(** After [Generate]: a new key pair, only where no secret was found. *)
Definition generated (key : ObjectKey) (h : list event) (c c' : Certificate) : Prop :=
  same_certificate c c' ∧ absent key h (cert_Purpose c) ∧ cert_Generated c' = true ∧
  cert_Purpose c ≠ APIServerEtcdClient ∧ is_Some (cert_KeyPair c').

(** The user-supplied client certificate may stay empty. *)
Definition left_out (key : ObjectKey) (h : list event) (c c' : Certificate) : Prop :=
  c' = c ∧ absent key h (cert_Purpose c) ∧ cert_Purpose c = APIServerEtcdClient.

Definition resolved (key : ObjectKey) (c c' : Certificate) (h : list event) : Prop :=
  from_secret key h c c' ∨ generated key h c c' ∨ left_out key h c c'.

(** After [SaveGenerated]: the secret made from the certificate exists. *)
Definition saved (key : ObjectKey) (owner : OwnerReference) (c c' : Certificate)
    (h : list event) : Prop :=
  c' = c ∧ (cert_Generated c = true →
    ∃ s, AsSecret c key owner = Val s ∧ Ev (Create_Secret Mgmt s) None ∈ h).

Lemma looked_up_mono key c c' h h' :
  looked_up key c c' h → h `prefix_of` h' → looked_up key c c' h'.
Proof.
  unfold looked_up, from_secret, found, absent. intros H [l ->].
  setoid_rewrite elem_of_app. naive_solver.
Qed.

Lemma resolved_mono key c c' h h' :
  resolved key c c' h → h `prefix_of` h' → resolved key c c' h'.
Proof.
  unfold resolved, generated, left_out, from_secret, found, absent. intros H [l ->].
  setoid_rewrite elem_of_app. naive_solver.
Qed.

Lemma saved_mono key owner c c' h h' :
  saved key owner c c' h → h `prefix_of` h' → saved key owner c c' h'.
Proof. unfold saved. intros H [l ->]. setoid_rewrite elem_of_app. naive_solver. Qed.

(** The only write: the secret of a purpose whose secret was found missing,
    with a key pair, labelled and owned, in the cluster's namespace. *)
Definition creation_guard (key : ObjectKey) (owner : OwnerReference) (h : list event)
    (a : k8s_action) : Prop :=
  match a with
  | Create_Secret c s =>
      c = Mgmt ∧ om_Namespace (sec_Meta s) = key_Namespace key ∧
      om_OwnerReferences (sec_Meta s) = [owner] ∧ (∃ kp, secretToKeyPair s = Ok kp) ∧
      ∃ p, om_Name (sec_Meta s) = Name (key_Name key) p ∧ absent key h p ∧
        p ≠ APIServerEtcdClient
  | _ => is_write a = false
  end.

Lemma lookup_hoare key owner x h :
  hoare (creation_guard key owner) (lookup_certificate key x) h (λ o h',
    ∃ x' err, o = Val (x', err) ∧ (err = None → looked_up key x x' h')).
Proof.
  unfold lookup_certificate. apply hoare_call; split; [done|]. intros [s|e].
  - destruct (secretToKeyPair s) as [kp|e] eqn:Hkp; simpl; [|by eexists _, (Some e)].
    eexists _, None. split; [done|]. intros _. left. split; [done|]. split; [done|].
    exists s, kp. split; [|done]. apply elem_of_app. right. left.
  - destruct (apierrors_IsNotFound e) eqn:He; simpl; [|by eexists _, (Some _)].
    eexists _, None. split; [done|]. intros _. right. split; [|done].
    exists e. split; [done|]. apply elem_of_app. right. left.
Qed.

Lemma newSelfSignedCACert_reads k h :
  hoare reads_only (newSelfSignedCACert k) h (λ o _, o ≠ Panic).
Proof.
  unfold newSelfSignedCACert. simpl. split; [done|]. intros now. split; [done|].
  intros [b|]; [|done]. simpl. by destruct (x509_ParseCertificate b).
Qed.

Lemma generator_reads p gen h :
  generator p = Some gen → hoare reads_only gen h (λ o _, o ≠ Panic).
Proof.
  unfold generator. destruct (String.eqb _ _); [done|].
  destruct (String.eqb _ _); intros [= <-].
  - unfold generateServiceAccountKeys. simpl. split; [done|]. intros [k|]; [|done].
    by destruct (EncodePublicKeyPEM k).
  - apply hoare_safe_bind; [|by intros [?|] ?].
    apply hoare_call; split; [done|]. intros [k|]; [|done].
    apply hoare_safe_bind; [apply newSelfSignedCACert_reads|]. by intros [?|] ?.
Qed.

Lemma reads_creation_guard key owner h a : reads_only h a → creation_guard key owner h a.
Proof. by destruct a. Qed.
End certificate_rules.

Section certificate_phases.
Context {P : Platform}.

(** The three phases on a slice whose certificates are still empty. *)
Definition fresh (c : Certificate) : Prop := cert_KeyPair c = None ∧ cert_Generated c = false.

(** What [Generate] relies on, and what it does to one certificate. *)
Definition may_generate (key : ObjectKey) (x : Certificate) (h : list event) : Prop :=
  cert_KeyPair x = None → absent key h (cert_Purpose x).
Definition completed (key : ObjectKey) (x x' : Certificate) (h : list event) : Prop :=
  (is_Some (cert_KeyPair x) ∧ x' = x) ∨
  (cert_KeyPair x = None ∧ (generated key h x x' ∨ left_out key h x x')).

(** What [SaveGenerated] relies on. *)
Definition may_save (key : ObjectKey) (x : Certificate) (h : list event) : Prop :=
  cert_Generated x = true →
  is_Some (cert_KeyPair x) ∧ absent key h (cert_Purpose x) ∧
  cert_Purpose x ≠ APIServerEtcdClient.

Lemma generate_hoare key owner x h :
  may_generate key x h →
  hoare (creation_guard key owner) (generate_certificate x) h (λ o h',
    ∃ x' err, o = Val (x', err) ∧ (err = None → completed key x x' h')).
Proof.
  intros Hx. unfold generate_certificate. destruct (cert_KeyPair x) as [kp|] eqn:Hkp.
  { simpl. eexists _, None. split; [done|]. intros _. left. by rewrite Hkp. }
  specialize (Hx Hkp). destruct (generator (cert_Purpose x)) as [gen|] eqn:Hgen.
  - apply hoare_bind. eapply hoare_mono; [apply reads_creation_guard| |].
    2: eapply hoare_prefix, generator_reads, Hgen.
    intros [[kp|e]|] h' [[l ->] ?]; [| |done]; simpl; [|by eexists _, (Some e)].
    eexists _, None. split; [done|]. intros _. right; split; [done|left]. split_and!; [done| |done| |by eexists].
    + destruct Hx as (e&?&?). exists e. rewrite elem_of_app. eauto.
    + simpl. intros Hp. by rewrite Hp in Hgen.
  - simpl. eexists _, None. split; [done|]. intros _. right; split; [done|right]. split_and!; [done..|].
    unfold generator in Hgen. destruct (String.eqb_spec (cert_Purpose x) APIServerEtcdClient);
      [done|]. by destruct (String.eqb _ _).
Qed.

Lemma save_hoare key owner x h :
  may_save key x h →
  hoare (creation_guard key owner) (save_certificate key owner x) h (λ o h',
    ∃ x' err, o = Val (x', err) ∧ (err = None → saved key owner x x' h')).
Proof.
  intros Hx. unfold save_certificate, may_save in *. destruct (cert_Generated x) eqn:Hg; simpl.
  2:{ eexists _, None. split; [done|]. intros _. split; [done|]. by rewrite Hg. }
  destruct (Hx eq_refl) as ([kp Hkp]&Habs&Hp). unfold AsSecret at 1. rewrite Hkp, Hg. simpl.
  split; [split_and!; [done..|by eexists|by eexists]|]. intros [e|]; simpl; [by eexists _, (Some _)|].
  eexists _, None. split; [done|]. intros _. split; [done|]. intros _.
  unfold AsSecret. rewrite Hkp, Hg. eexists. split; [done|]. apply elem_of_app. right. left.
Qed.

Lemma Forall2_elem_r {A B} (Q : A → B → Prop) l k y :
  Forall2 Q l k → y ∈ k → ∃ x, x ∈ l ∧ Q x y.
Proof.
  induction 1 as [|x y' l k HQ _ IH]; [by intros ?%not_elem_of_nil|].
  setoid_rewrite elem_of_cons. intros [->|Hy]; [eauto|]. naive_solver.
Qed.

Lemma Forall2_compose {A B C} (Q : A → B → Prop) (Q' : B → C → Prop) (Q'' : A → C → Prop) l k j :
  (∀ x y z, Q x y → Q' y z → Q'' x z) → Forall2 Q l k → Forall2 Q' k j → Forall2 Q'' l j.
Proof.
  intros H HQ; revert j; induction HQ; intros j HQ'; inversion HQ'; subst; constructor; eauto.
Qed.

Lemma looked_up_completed key x y z h :
  fresh x → looked_up key x y h → completed key y z h → resolved key x z h.
Proof.
  intros [Hkp Hg] [Hs|[Ha ->]] [[Hk ->]|[Hk Hz]].
  - by left.
  - destruct Hs as (_&_&s&kp&_&_&?). congruence.
  - destruct Hk. congruence.
  - by right.
Qed.

Lemma resolved_may_save key x y h : fresh x → resolved key x y h → may_save key y h.
Proof.
  intros [_ Hg] [(_&Hg'&_)|[((Hp&_)&?&?&?&?)|(->&_)]] Hy; [congruence| |congruence].
  rewrite Hp. done.
Qed.

Lemma LookupOrGenerate_hoare key owner c h :
  (∀ x, x ∈ c → fresh x) →
  hoare (creation_guard key owner) (LookupOrGenerate c key owner) h (λ o h',
    ∃ c' err, o = Val (c', err) ∧
      (err = None → Forall2 (λ x x', resolved key x x' h' ∧ saved key owner x' x' h') c c')).
Proof.
  intros Hc. unfold LookupOrGenerate, Lookup. apply hoare_bind. eapply hoare_mono; [done| |].
  2:{ apply (hoare_for_certificates _ (λ x _, fresh x)
        (λ x x' h', fresh x ∧ looked_up key x x' h')); [done| | |exact Hc].
      - intros x x' h0 h' [? ?] ?. split; [done|]. by eapply looked_up_mono.
      - intros x h0 Hx. eapply hoare_mono; [done| |apply lookup_hoare].
        intros o h' (x'&err&->&?). eauto 10. }
  intros o h1 (c1&err&->&Hc1). destruct err as [e|]; [by eexists _, (Some e)|].
  specialize (Hc1 eq_refl). apply hoare_bind. eapply hoare_mono; [done| |].
  2:{ apply hoare_prefix, (hoare_for_certificates _ (may_generate key) (completed key)).
      - unfold may_generate, absent. intros x h0 h' H [l ->]. setoid_rewrite elem_of_app. naive_solver.
      - unfold completed, generated, left_out, absent. intros x x' h0 h' H [l ->].
        setoid_rewrite elem_of_app. naive_solver.
      - intros x h0. apply generate_hoare.
      - intros x Hx. destruct (Forall2_elem_r _ _ _ _ Hc1 Hx) as (x0&Hx0&_&Hl).
        intros Hkp. destruct Hl as [(_&_&s&kp&_&_&?)|[? ->]]; [congruence|done]. }
  intros o h2 ([l2 ->]&c2&err&->&Hc2). destruct err as [e|]; [by eexists _, (Some e)|].
  specialize (Hc2 eq_refl).
  assert (Forall2 (λ x x', fresh x ∧ resolved key x x' (h1 ++ l2)) c c2) as Hres.
  { eapply Forall2_compose; [|exact Hc1|exact Hc2]. intros x y z [Hx Hxy] Hyz.
    split; [done|]. eapply looked_up_completed; [done|eapply looked_up_mono, prefix_app_r; done|done]. }
  eapply hoare_mono; [done| |].
  2:{ apply hoare_prefix, (hoare_for_certificates _ (may_save key) (saved key owner)).
      - unfold may_save, absent. intros x h0 h' H [l ->]. setoid_rewrite elem_of_app. naive_solver.
      - apply saved_mono.
      - intros x h0. apply save_hoare.
      - intros x Hx. destruct (Forall2_elem_r _ _ _ _ Hres Hx) as (x0&_&Hf&Hr).
        by eapply resolved_may_save. }
  intros o h3 ([l3 ->]&c3&err&->&Hc3). eexists _, err. split; [done|]. intros ->.
  specialize (Hc3 eq_refl). eapply Forall2_compose; [|exact Hres|exact Hc3].
  intros x y z [_ Hxy] Hyz. assert (z = y) as -> by apply Hyz.
  split; [eapply resolved_mono; [done|by apply prefix_app_r]|done].
Qed.
End certificate_phases.

(** ** Properties *)

Section secrets_properties.
Context {P : Platform}.

(** C12: looking up or generating the certificates of a cluster never panics.
    At any point it has only created, in the cluster's namespace and owned
    by the given owner, secrets whose purpose it had looked up before and
    found missing, never that of the user-supplied etcd client.  When it
    reports no error, each certificate holds the key pair of the secret that
    was read, or a new key pair whose secret was created, or is the missing
    etcd client certificate. *)
Theorem LookupOrGenerate_resolves key owner c :
  (∀ x, x ∈ c → fresh x) →
  (∀ tr1 a r tr2, reaches (LookupOrGenerate c key owner) (tr1 ++ Ev a r :: tr2) →
     creation_guard key owner tr1 a) ∧
  ∀ tr o, runs (LookupOrGenerate c key owner) tr o →
    ∃ c' err, o = Val (c', err) ∧
      (err = None → Forall2 (λ x x', resolved key x x' tr ∧ saved key owner x' x' tr) c c').
Proof.
  intros Hc. pose proof (LookupOrGenerate_hoare key owner c [] Hc) as H. split.
  - intros tr1 a r tr2 Hr. exact (hoare_reaches _ _ _ _ _ _ _ _ H Hr).
  - intros tr o Hr. exact (hoare_runs _ _ _ _ _ _ H Hr).
Qed.

Lemma secretToKeyPair_AsSecret key owner c s :
  AsSecret c key owner = Val s → ∃ kp, cert_KeyPair c = Some kp ∧ secretToKeyPair s = Ok kp.
Proof.
  unfold AsSecret. destruct (cert_KeyPair c) as [kp|]; [|done]. intros [= <-].
  exists kp. split; [done|]. unfold secretToKeyPair, secret_data. simpl sec_Data. cbn [default from_option id].
  rewrite lookup_insert_ne, lookup_singleton_eq, lookup_insert_eq by done. by destruct kp.
Qed.

Lemma AsSecret_key key owner c s :
  AsSecret c key owner = Val s →
  {| key_Namespace := om_Namespace (sec_Meta s); key_Name := om_Name (sec_Meta s) |} =
    secret_key key (cert_Purpose c).
Proof.
  unfold AsSecret. destruct (cert_KeyPair c); [|done]. intros [= <-]. by destruct (cert_Generated c).
Qed.

(** A certificate saved as a secret is read back as it was: the secret
    is found under the key the lookup of its purpose uses, which no other
    purpose of the cluster uses, and gives the same key pair. *)
Theorem AsSecret_roundtrip key owner c s :
  AsSecret c key owner = Val s →
  {| key_Namespace := om_Namespace (sec_Meta s); key_Name := om_Name (sec_Meta s) |} =
    secret_key key (cert_Purpose c) ∧
  (∀ p, secret_key key p = secret_key key (cert_Purpose c) → p = cert_Purpose c) ∧
  om_OwnerReferences (sec_Meta s) = (if cert_Generated c then [owner] else []) ∧
  ∃ kp, cert_KeyPair c = Some kp ∧ secretToKeyPair s = Ok kp ∧
    ∀ certFile keyFile,
      runs (lookup_certificate key (certificate (cert_Purpose c) certFile keyFile))
        [Ev (Get_Secret Mgmt (secret_key key (cert_Purpose c))) (Ok s)]
        (Val (set_key_pair kp false (certificate (cert_Purpose c) certFile keyFile), None)).
Proof.
  intros Hs. destruct (secretToKeyPair_AsSecret _ _ _ _ Hs) as (kp&Hkp&Hs').
  pose proof (AsSecret_key _ _ _ _ Hs) as Hkey.
  unfold AsSecret in Hs. rewrite Hkp in Hs. split_and!.
  - exact Hkey.
  - intros p [= Hp]. by apply (inj (Name (key_Name key))).
  - injection Hs as <-. by destruct (cert_Generated c).
  - exists kp. split_and!; [done..|]. intros certFile keyFile.
    exists (Ok s), []. split; [done|]. simpl. rewrite Hs'. done.
Qed.

Lemma from_secret_or_generated key h x x' :
  resolved key x x' h →
  cert_Purpose x' = cert_Purpose x ∧
  (cert_Purpose x ≠ APIServerEtcdClient → is_Some (cert_KeyPair x')).
Proof.
  intros [((?&_)&_&s&kp&_&_&->)|[((?&_)&_&_&_&?)|(->&_&?)]]; split; eauto; done.
Qed.

(** The certificate was kept, with a key pair unless it is the user's. *)
Definition complete (x x' : Certificate) : Prop :=
  cert_Purpose x' = cert_Purpose x ∧
  (cert_Purpose x ≠ APIServerEtcdClient → is_Some (cert_KeyPair x')).

Lemma complete_purposes c c' :
  Forall2 complete c c' → cert_Purpose <$> c = cert_Purpose <$> c'.
Proof. induction 1 as [|x x' c c' [Hp _] _ IH]; [done|]. by rewrite !fmap_cons, Hp, IH. Qed.

Lemma complete_GetByPurpose c c' p :
  Forall2 complete c c' → p ≠ APIServerEtcdClient → is_Some (GetByPurpose c p) →
  ∃ x kp, GetByPurpose c' p = Some x ∧ cert_KeyPair x = Some kp.
Proof.
  induction 1 as [|x x' c c' [Hp Hkp] _ IH]; simpl; [by intros _ []|].
  intros Hne. rewrite Hp. destruct (String.eqb_spec (cert_Purpose x) p) as [Heq|]; [|auto].
  intros _. rewrite Heq in Hkp. destruct (Hkp Hne) as [kp ?]. eauto.
Qed.

Lemma complete_GetByPurpose_None c c' p :
  Forall2 complete c c' → GetByPurpose c p = None → GetByPurpose c' p = None.
Proof.
  induction 1 as [|x x' c c' [Hp _] _ IH]; simpl; [done|].
  rewrite Hp. by destruct (String.eqb _ _).
Qed.

(** The files of one certificate. *)
Definition files_of (c : Certificates) (p : Purpose) : list File :=
  match GetByPurpose c p with
  | Some x => match Certificate_AsFiles x with Val fs => fs | Panic => [] end
  | None => []
  end.

Lemma append_files_present certFiles c p x kp :
  GetByPurpose c p = Some x → cert_KeyPair x = Some kp →
  append_files certFiles (GetByPurpose c p) = Val (certFiles ++ files_of c p).
Proof.
  intros Hx Hkp. unfold files_of. rewrite Hx. simpl. unfold Certificate_AsFiles. by rewrite Hkp.
Qed.

Lemma NewCertificatesForControlPlane_fresh dir x :
  x ∈ NewCertificatesForControlPlane dir → fresh x.
Proof. revert x. apply Forall_forall. by repeat constructor. Qed.

Lemma resolved_complete key owner c c' h :
  Forall2 (λ x x', resolved key x x' h ∧ saved key owner x' x' h) c c' → Forall2 complete c c'.
Proof.
  intros Hres. eapply Forall2_impl; [exact Hres|]. intros x x' [H _].
  by eapply from_secret_or_generated.
Qed.

Lemma fresh_run_complete key owner c tr c' :
  (∀ x, x ∈ c → fresh x) →
  runs (LookupOrGenerate c key owner) tr (Val (c', None)) → Forall2 complete c c'.
Proof.
  intros Hf Hr. destruct (hoare_runs _ _ _ _ _ _ (LookupOrGenerate_hoare key owner _ [] Hf) Hr)
    as (c0&err&[= <- <-]&Hres). by eapply resolved_complete, Hres.
Qed.

Lemma complete_key_pairs dir c' :
  Forall2 complete (NewCertificatesForControlPlane dir) c' → ∀ x, x ∈ c' → is_Some (cert_KeyPair x).
Proof.
  intros Hc x' Hx'. destruct (Forall2_elem_r _ _ _ _ Hc Hx') as (x&Hx&Hxc).
  apply Hxc. clear Hxc Hx'. revert x Hx. by apply Forall_forall; repeat constructor.
Qed.

Lemma complete_AsFiles dir c' :
  Forall2 complete (NewCertificatesForControlPlane dir) c' →
  AsFiles c' = Val (files_of c' ClusterCA ++ files_of c' EtcdCA ++
                    files_of c' FrontProxyCA ++ files_of c' ServiceAccount).
Proof.
  intros Hres'. unfold AsFiles.
  destruct (complete_GetByPurpose _ _ ClusterCA Hres') as (x1&kp1&H1&K1); [done..|].
  destruct (complete_GetByPurpose _ _ EtcdCA Hres') as (x2&kp2&H2&K2); [done..|].
  destruct (complete_GetByPurpose _ _ FrontProxyCA Hres') as (x3&kp3&H3&K3); [done..|].
  destruct (complete_GetByPurpose _ _ ServiceAccount Hres') as (x4&kp4&H4&K4); [done..|].
  rewrite (append_files_present _ _ _ _ _ H1 K1). cbn [mbind outcome_bind].
  rewrite (append_files_present _ _ _ _ _ H2 K2). cbn [mbind outcome_bind].
  rewrite (append_files_present _ _ _ _ _ H3 K3). cbn [mbind outcome_bind].
  rewrite (append_files_present _ _ _ _ _ H4 K4). cbn [mbind outcome_bind].
  rewrite (complete_GetByPurpose_None _ _ APIServerEtcdClient Hres') by done.
  cbn [append_files app]. by rewrite <-!app_assoc.
Qed.

(** C35: once the certificates of a control plane node are resolved, turning
    them into files cannot panic, and gives the certificate and key files of
    the cluster CA, the etcd CA, the front proxy CA and the service account,
    in this order, and of nothing else: the auth proxy CA, though generated
    and saved, is written to no file. *)
Theorem control_plane_files key owner dir tr c' :
  runs (LookupOrGenerate (NewCertificatesForControlPlane dir) key owner) tr (Val (c', None)) →
  cert_Purpose <$> c' = [ClusterCA; ServiceAccount; FrontProxyCA; AuthProxyCA; EtcdCA] ∧
  (∀ x, x ∈ c' → is_Some (cert_KeyPair x)) ∧
  AsFiles c' = Val (files_of c' ClusterCA ++ files_of c' EtcdCA ++
                    files_of c' FrontProxyCA ++ files_of c' ServiceAccount).
Proof.
  intros Hr. pose proof (fresh_run_complete _ _ _ _ _ (NewCertificatesForControlPlane_fresh dir) Hr)
    as Hc. split_and!; [|by eapply complete_key_pairs|by eapply complete_AsFiles].
  symmetry. by apply (complete_purposes _ _ Hc).
Qed.
End secrets_properties.

(** ** Witnesses *)

Module SecretsWitness.
Import Reference Sample Fixtures ManagementWitness.

Definition owner : OwnerReference :=
  {| or_APIVersion := "v1"; or_Kind := "CritConfig"; or_Name := "cfg"; or_UID := "u";
     or_Controller := None; or_BlockOwnerDeletion := None |}.
Definition empty : Certificates := NewCertificatesForControlPlane "/etc/kubernetes/pki".

Lemma empty_fresh x : x ∈ empty → fresh x.
Proof. revert x. apply Forall_forall. by repeat constructor. Qed.

(** All certificates of a new cluster are generated and saved. *)
Definition filled : Certificates :=
  match (drive accept [] (LookupOrGenerate empty demo owner)).2 with
  | Val (c, _) => c
  | Panic => []
  end.

Lemma new_cluster_run :
  ∃ tr, runs (LookupOrGenerate empty demo owner) tr (Val (filled, None)).
Proof. apply (drive_result accept []). vm_compute. reflexivity. Qed.

Lemma LookupOrGenerate_resolves_witness :
  ∃ tr, runs (LookupOrGenerate empty demo owner) tr (Val (filled, None)) ∧
    Forall2 (λ x x', resolved demo x x' tr ∧ saved demo owner x' x' tr) empty filled.
Proof.
  destruct new_cluster_run as [tr Hr]. exists tr. split; [exact Hr|].
  destruct (proj2 (LookupOrGenerate_resolves demo owner empty empty_fresh) tr _ Hr)
    as (c'&err&Heq&Hres). assert (err = None) as -> by congruence.
  assert (c' = filled) as -> by congruence. exact (Hres eq_refl).
Defined.

Definition ca : Certificate :=
  set_key_pair {| kp_Cert := "CERT"; kp_Key := "KEY" |} true (certificate ClusterCA "c" "k").
Definition ca_secret : Secret :=
  match AsSecret ca demo owner with
  | Val s => s
  | Panic => {| sec_Meta := meta "" ""; sec_Type := ""; sec_Data := None |}
  end.

Lemma AsSecret_roundtrip_witness :
  AsSecret ca demo owner = Val ca_secret ∧
  om_Name (sec_Meta ca_secret) = "demo-ca" ∧ om_OwnerReferences (sec_Meta ca_secret) = [owner].
Proof.
  assert (H : AsSecret ca demo owner = Val ca_secret) by reflexivity.
  destruct (AsSecret_roundtrip demo owner ca ca_secret H) as (_&_&Ho&_).
  split; [exact H|]. split; [reflexivity|exact Ho].
Defined.

Lemma control_plane_files_witness :
  ∃ files, AsFiles filled = Val files ∧
    file_Path <$> files = ["/etc/kubernetes/pki/ca.crt"; "/etc/kubernetes/pki/ca.key";
      "/etc/kubernetes/pki/etcd/ca.crt"; "/etc/kubernetes/pki/etcd/ca.key";
      "/etc/kubernetes/pki/front-proxy-ca.crt"; "/etc/kubernetes/pki/front-proxy-ca.key";
      "/etc/kubernetes/pki/sa.pub"; "/etc/kubernetes/pki/sa.key"].
Proof.
  destruct new_cluster_run as [tr Hr]. unfold empty in Hr.
  destruct (control_plane_files demo owner "/etc/kubernetes/pki" tr filled Hr) as (_&_&Hf).
  eexists. split; [exact Hf|]. vm_compute. reflexivity.
Defined.
End SecretsWitness.
