(* ===== verification/Fingerprints.v ===== *)
(** The fingerprints of certificates (internal/secret/certificates.go, [Hashes]
    and [hashCert]): the SHA-256 sum of a certificate's public key, as the pins
    of a cluster's certificate authority are written.  Of the standard library,
    [crypto/sha256], [encoding/hex] and [strings.ToLower] are modelled. *)
From Stdlib Require Import Ascii.
From S2P Require Import Prelude GoRuntime ApiTypes Platform SamplePlatform Secrets.
Local Open Scope Z_scope.
Local Open Scope go_scope.

(** ** [crypto/sha256] *)

Module sha256.
(** Words of 32 bits. *)
Definition word (x : Z) : Z := Z.land x 0xffffffff.
Definition add (x y : Z) : Z := word (x + y).
Definition rotr (n x : Z) : Z := Z.lor (Z.shiftr x n) (word (Z.shiftl x (32 - n))).

(** The constants are the first 32 bits of the fractional parts of the roots of
    the first primes: cube roots for the rounds, square roots to begin with. *)
Definition primes : list Z :=
  filter (λ n, Forall (λ d, n mod d ≠ 0) (seqZ 2 (n - 2))) (seqZ 2 310).
Definition cube_root (x : Z) : Z :=
  foldl (λ r bit, if (r + 2 ^ bit) ^ 3 <=? x then r + 2 ^ bit else r) 0 (reverse (seqZ 0 36)).
Definition K : list Z := Eval vm_compute in (λ p, word (cube_root (p * 2 ^ 96))) <$> primes.

Record digest := { h0 : Z; h1 : Z; h2 : Z; h3 : Z; h4 : Z; h5 : Z; h6 : Z; h7 : Z }.
Definition initial : digest := Eval vm_compute in
  let h n := word (Z.sqrt (default 0 (primes !! n) * 2 ^ 64)) in
  {| h0 := h 0%nat; h1 := h 1%nat; h2 := h 2%nat; h3 := h 3%nat;
     h4 := h 4%nat; h5 := h 5%nat; h6 := h 6%nat; h7 := h 7%nat |}.

(** The message schedule, latest word first. *)
Definition extend (w : list Z) : list Z :=
  let at_ n := default 0 (w !! n) in
  let s0 := Z.lxor (Z.lxor (rotr 7 (at_ 14%nat)) (rotr 18 (at_ 14%nat))) (Z.shiftr (at_ 14%nat) 3) in
  let s1 := Z.lxor (Z.lxor (rotr 17 (at_ 1%nat)) (rotr 19 (at_ 1%nat))) (Z.shiftr (at_ 1%nat) 10) in
  add (add (at_ 15%nat) s0) (add (at_ 6%nat) s1) :: w.
Definition schedule (block : list Z) : list Z := reverse (Nat.iter 48 extend (reverse block)).

Definition round (d : digest) (kw : Z * Z) : digest :=
  let S1 := Z.lxor (Z.lxor (rotr 6 (h4 d)) (rotr 11 (h4 d))) (rotr 25 (h4 d)) in
  let ch := Z.lxor (Z.land (h4 d) (h5 d)) (Z.land (Z.lxor (h4 d) 0xffffffff) (h6 d)) in
  let t1 := add (add (add (h7 d) S1) (add ch kw.1)) kw.2 in
  let S0 := Z.lxor (Z.lxor (rotr 2 (h0 d)) (rotr 13 (h0 d))) (rotr 22 (h0 d)) in
  let maj := Z.lxor (Z.lxor (Z.land (h0 d) (h1 d)) (Z.land (h0 d) (h2 d))) (Z.land (h1 d) (h2 d)) in
  {| h0 := add t1 (add S0 maj); h1 := h0 d; h2 := h1 d; h3 := h2 d;
     h4 := add (h3 d) t1; h5 := h4 d; h6 := h5 d; h7 := h6 d |}.

Definition compress (d : digest) (block : list Z) : digest :=
  let r := foldl round d (zip K (schedule block)) in
  {| h0 := add (h0 d) (h0 r); h1 := add (h1 d) (h1 r); h2 := add (h2 d) (h2 r);
     h3 := add (h3 d) (h3 r); h4 := add (h4 d) (h4 r); h5 := add (h5 d) (h5 r);
     h6 := add (h6 d) (h6 r); h7 := add (h7 d) (h7 r) |}.

(** Big-endian. *)
Definition byte_at (x shift : Z) : Z := Z.land (Z.shiftr x shift) 255.
Definition word_bytes (x : Z) : list Z := [byte_at x 24; byte_at x 16; byte_at x 8; byte_at x 0].
Fixpoint words (bytes : list Z) : list Z :=
  match bytes with
  | a :: b :: c :: d :: bytes' =>
      Z.lor (Z.lor (Z.shiftl a 24) (Z.shiftl b 16)) (Z.lor (Z.shiftl c 8) d) :: words bytes'
  | _ => []
  end.

(** A one bit, zeros, and the length in bits as 64 bits fill up the last block. *)
Definition pad (data : list Z) : list Z :=
  let bits := 8 * Z.of_nat (length data) in
  data ++ [128] ++ replicate (Z.to_nat ((55 - Z.of_nat (length data)) mod 64)) 0 ++
  word_bytes (Z.shiftr bits 32) ++ word_bytes (word bits).

Fixpoint blocks (n : nat) (ws : list Z) : list (list Z) :=
  match n with O => [] | S n' => take 16 ws :: blocks n' (drop 16 ws) end.

(** [sha256.Sum256] *)
Definition Sum256 (data : string) : list Z :=
  let ws := words (pad (bytes_of data)) in
  let d := foldl compress initial (blocks (length ws / 16) ws) in
  [h0 d; h1 d; h2 d; h3 d; h4 d; h5 d; h6 d; h7 d] ≫= word_bytes.
End sha256.

(** ** [encoding/hex] and [strings.ToLower] *)

Module hex.
Definition hextable : list ascii := String.list_ascii_of_string "0123456789abcdef".
Definition digit (n : Z) : ascii := default "0"%char (hextable !! Z.to_nat n).
Definition encode (data : list Z) : list ascii := data ≫= λ b, [digit (Z.shiftr b 4); digit (Z.land b 15)].
Definition EncodeToString (data : list Z) : string := String.string_of_list_ascii (encode data).
End hex.

(** For a text of ASCII characters. *)
Definition to_lower (c : ascii) : ascii :=
  let n := N_of_ascii c in
  if ((65 <=? n)%N && (n <=? 90)%N)%bool then ascii_of_N (n + 32) else c.
Definition strings_ToLower (s : string) : string :=
  String.string_of_list_ascii (to_lower <$> String.list_ascii_of_string s).

(** ** certificates.go *)

(** k8s.io/client-go/util/cert and crypto/x509. *)
Class CertParser {P : Platform} : Type := {
  cert_ParseCertsPEM : string → result error (list X509Certificate);
  RawSubjectPublicKeyInfo : X509Certificate → string;
}.

Section hashes.
Context {P : Platform} {CP : CertParser}.

Definition hashCert (certificate : X509Certificate) : string :=
  "sha256:" +:+ strings_ToLower (hex.EncodeToString (sha256.Sum256 (RawSubjectPublicKeyInfo certificate))).

(** [Certificate.Hashes]; a nil [KeyPair] is dereferenced. *)
Definition Hashes (c : Certificate) : outcome (result error (list string)) :=
  match cert_KeyPair c with
  | None => Panic
  | Some kp =>
      match cert_ParseCertsPEM (kp_Cert kp) with
      | Err err => Val (Err (errors_Wrap err ("unable to parse " +:+ cert_Purpose c +:+ " certificate")))
      | Ok certificates => Val (Ok (hashCert <$> certificates))
      end
  end.
End hashes.

(** ** The sum of some texts *)

Example sum_of_abc :
  hex.EncodeToString (sha256.Sum256 "abc") =
  "ba7816bf8f01cfea414140de5dae2223b00361a396177a9cb410ff61f20015ad".
Proof. vm_compute. reflexivity. Qed.

Example sum_of_nothing :
  hex.EncodeToString (sha256.Sum256 "") =
  "e3b0c44298fc1c149afbf4c8996fb92427ae41e4649b934ca495991b7852b855".
Proof. vm_compute. reflexivity. Qed.

(** Two blocks. *)
Example sum_of_two_blocks :
  hex.EncodeToString (sha256.Sum256 "abcdbcdecdefdefgefghfghighijhijkijkljklmklmnlmnomnopnopq") =
  "248d6a61d20638b8e5c026930c3e6039a33ce45964ff2167f6ecedd419db06c1".
Proof. vm_compute. reflexivity. Qed.

(** ** Lemmas *)

Definition is_byte (b : Z) : Prop := 0 ≤ b < 256.

(** Padding fills up the last block of 64 bytes, so that no byte is left out. *)
Lemma pad_length data : (Z.of_nat (length (sha256.pad data))) mod 64 = 0.
Proof.
  unfold sha256.pad. rewrite !length_app, length_replicate. cbn [length sha256.word_bytes].
  pose proof (Z.mod_pos_bound (55 - Z.of_nat (length data)) 64 ltac:(lia)).
  pose proof (Z.div_mod (55 - Z.of_nat (length data)) 64 ltac:(lia)).
  rewrite !Nat2Z.inj_add, Z2Nat.id by lia. simpl (Z.of_nat _).
  replace (_ + _) with ((1 - (55 - Z.of_nat (length data)) / 64) * 64) by lia.
  by rewrite Z.mod_mul.
Qed.

Lemma words_length n bytes : (length bytes = 4 * n)%nat → length (sha256.words bytes) = n.
Proof.
  revert bytes. induction n as [|n IH]; intros bytes Hlen.
  { destruct bytes; [done|simpl in Hlen; lia]. }
  destruct bytes as [|a [|b [|c [|d bytes]]]]; simpl in Hlen; try lia.
  cbn [sha256.words length]. f_equal. apply IH. lia.
Qed.

Lemma blocks_concat n (ws : list Z) :
  (length ws = 16 * n)%nat → concat (sha256.blocks n ws) = ws ∧ Forall (λ b, length b = 16%nat) (sha256.blocks n ws).
Proof.
  revert ws. induction n as [|n IH]; intros ws Hlen; cbn [sha256.blocks concat].
  { destruct ws; [by split|simpl in Hlen; lia]. }
  destruct (IH (drop 16 ws)) as [Hc Hf]; [rewrite length_drop; lia|].
  rewrite Hc, take_drop. split; [done|]. constructor; [|done]. rewrite length_take. lia.
Qed.

(** Every word of the padded message is compressed. *)
Lemma blocks_cover data (ws := sha256.words (sha256.pad data)) :
  concat (sha256.blocks (length ws / 16) ws) = ws ∧
  Forall (λ b, length b = 16%nat) (sha256.blocks (length ws / 16) ws).
Proof.
  pose proof (pad_length data) as Hpad.
  apply Z.mod_divide in Hpad as [k Hk]; [|lia].
  assert (Hws : length ws = (16 * Z.to_nat k)%nat) by (apply words_length; lia).
  rewrite Hws, Nat.mul_comm, Nat.div_mul by lia. apply blocks_concat. lia.
Qed.

Lemma byte_at_byte x n : is_byte (sha256.byte_at x n).
Proof.
  unfold is_byte, sha256.byte_at. change 255 with (Z.ones 8). rewrite Z.land_ones by lia.
  by apply Z.mod_pos_bound.
Qed.

Lemma Sum256_bytes data : length (sha256.Sum256 data) = 32%nat ∧ Forall is_byte (sha256.Sum256 data).
Proof.
  unfold sha256.Sum256. cbv zeta. split; [done|]. apply Forall_bind.
  repeat constructor; apply byte_at_byte.
Qed.

Lemma hex_inj d d' :
  Forall is_byte d → Forall is_byte d' → hex.encode d = hex.encode d' → d = d'.
Proof.
  assert (Hdigit : ∀ n m, 0 ≤ n < 16 → 0 ≤ m < 16 → hex.digit n = hex.digit m → n = m).
  { intros n m Hn Hm. assert (Hall : bool_decide (NoDup hex.hextable) = true) by (vm_compute; reflexivity).
    apply bool_decide_eq_true in Hall. unfold hex.digit. intros Heq.
    assert (Hlen : length hex.hextable = 16%nat) by done.
    destruct (lookup_lt_is_Some_2 hex.hextable (Z.to_nat n)) as [c Hc]; [lia|].
    destruct (lookup_lt_is_Some_2 hex.hextable (Z.to_nat m)) as [c' Hc']; [lia|].
    rewrite Hc, Hc' in Heq. simpl in Heq. subst c'.
    pose proof (NoDup_lookup _ _ _ _ Hall Hc Hc'). lia. }
  intros Hd. revert d'. induction Hd as [|b d Hb Hd IH]; intros d' Hd'; destruct Hd' as [|b' d' Hb' Hd'];
    [done..|]. unfold hex.encode. rewrite !bind_cons. intros Heq. injection Heq as H1 H2 H3.
  assert (Hhigh : ∀ b, is_byte b → 0 ≤ Z.shiftr b 4 < 16 ∧ 0 ≤ Z.land b 15 < 16 ∧
    b = 16 * Z.shiftr b 4 + Z.land b 15).
  { unfold is_byte. intros x Hx. change 15 with (Z.ones 4). rewrite Z.shiftr_div_pow2, Z.land_ones by lia.
    change (2 ^ 4) with 16. pose proof (Z.mod_pos_bound x 16 ltac:(lia)).
    pose proof (Z.div_mod x 16 ltac:(lia)). lia. }
  destruct (Hhigh b Hb) as (?&?&->), (Hhigh b' Hb') as (?&?&->).
  f_equal; [|by apply IH]. apply Hdigit in H1; [|done..]. apply Hdigit in H2; [|done..]. lia.
Qed.

Lemma hex_lower d : strings_ToLower (hex.EncodeToString d) = hex.EncodeToString d.
Proof.
  unfold strings_ToLower, hex.EncodeToString. rewrite String.list_ascii_of_string_of_list_ascii. f_equal.
  assert (Hdigit : ∀ n, to_lower (hex.digit n) = hex.digit n).
  { intros n. unfold hex.digit. destruct (hex.hextable !! Z.to_nat n) as [c|] eqn:Hc; [|done]. simpl.
    assert (Hall : bool_decide (Forall (λ c, to_lower c = c) hex.hextable) = true) by (vm_compute; reflexivity).
    apply bool_decide_eq_true in Hall. by apply (Forall_lookup_1 _ _ _ _ Hall Hc). }
  unfold hex.encode. induction d as [|b d IH]; [done|].
  rewrite bind_cons, fmap_app, IH. cbn [fmap list_fmap]. by rewrite !Hdigit.
Qed.

Lemma hex_length d : String.length (hex.EncodeToString d) = (2 * length d)%nat.
Proof.
  unfold hex.EncodeToString. assert (Hs : ∀ l, String.length (String.string_of_list_ascii l) = length l)
    by (induction l; simpl; auto).
  rewrite Hs. unfold hex.encode. clear Hs. induction d as [|b d IH]; [done|].
  rewrite bind_cons, length_app, IH. simpl. lia.
Qed.

Section hashes_properties.
Context {P : Platform} {CP : CertParser}.

Lemma hashCert_digits x (digits := hex.EncodeToString (sha256.Sum256 (RawSubjectPublicKeyInfo x))) :
  hashCert x = "sha256:" +:+ digits ∧ String.length (hashCert x) = 71%nat.
Proof.
  assert (hashCert x = "sha256:" +:+ digits) as -> by (unfold hashCert; by rewrite hex_lower).
  assert (Hl : String.length digits = 64%nat) by (unfold digits; by rewrite hex_length, (proj1 (Sum256_bytes _))).
  clearbody digits. split; [done|]. change (7 + String.length digits = 71)%nat. by rewrite Hl.
Qed.

Lemma hashCert_inj x y :
  hashCert x = hashCert y ↔
  sha256.Sum256 (RawSubjectPublicKeyInfo x) = sha256.Sum256 (RawSubjectPublicKeyInfo y).
Proof.
  unfold hashCert. rewrite !hex_lower. split; [|by intros ->]. intros Heq.
  apply (inj (String.append "sha256:")) in Heq. unfold hex.EncodeToString in Heq.
  apply (f_equal String.list_ascii_of_string) in Heq. rewrite !String.list_ascii_of_string_of_list_ascii in Heq.
  by apply hex_inj in Heq; [|apply Sum256_bytes..].
Qed.

(** Fingerprinting a certificate panics exactly without a key pair and otherwise
    fails exactly if the text is not that of certificates.  It gives one pin for
    each certificate of the text, in order: 64 hexadecimal digits after the name
    of the hash.  Two pins agree exactly if the SHA-256 sums of the public keys
    do. *)
Theorem Hashes_pins c :
  (Hashes c = Panic ↔ cert_KeyPair c = None) ∧
  ∀ kp, cert_KeyPair c = Some kp →
    match cert_ParseCertsPEM (kp_Cert kp) with
    | Err e => ∃ msg, Hashes c = Val (Err (errors_Wrap e msg))
    | Ok certificates => ∃ pins, Hashes c = Val (Ok pins) ∧
        Forall2 (λ x pin, String.length pin = 71%nat ∧
          pin = "sha256:" +:+ hex.EncodeToString (sha256.Sum256 (RawSubjectPublicKeyInfo x))) certificates pins ∧
        ∀ x y, x ∈ certificates → y ∈ certificates →
          hashCert x = hashCert y ↔
          sha256.Sum256 (RawSubjectPublicKeyInfo x) = sha256.Sum256 (RawSubjectPublicKeyInfo y)
    end.
Proof.
  unfold Hashes. split.
  { destruct (cert_KeyPair c) as [kp|]; [|done]. by destruct (cert_ParseCertsPEM _). }
  intros kp ->. destruct (cert_ParseCertsPEM (kp_Cert kp)) as [cs|e]; [|by eexists].
  eexists. split; [done|]. split; [|intros; apply hashCert_inj].
  apply Forall2_fmap_r, Forall_Forall2_diag, Forall_true. intros x.
  by destruct (hashCert_digits x).
Qed.
End hashes_properties.
