(* ===== verification/MachineCreation.v ===== *)
(** controllers/controlplane/helpers.go: creating a control plane machine with
    its infrastructure and bootstrap objects, and undoing a partial creation. *)
From S2P Require Import Prelude GoRuntime ApiTypes Platform SamplePlatform.
From S2P Require Import MachineFilters MachineCollection FailureDomain ControlPlane.
From S2P Require Import ManagementCluster.
Local Open Scope Z_scope.
Local Open Scope go_scope.

Definition DeleteRequeueAfter : Z := 30 * Second.
Definition HealthCheckFailedRequeueAfter : Z := 20 * Second.
Definition DependentCertRequeueAfter : Z := 30 * Second.

Section machine_creation.
Context {P : Platform}.

(** An owner reference that is not a controller reference. *)
Definition plain_owner (ccp : CritControlPlane) : OwnerReference := {|
  or_APIVersion := GroupVersion_String controlplanev1_GroupVersion;
  or_Kind := "CritControlPlane";
  or_Name := ccp_Name ccp;
  or_UID := om_UID (ccp_Meta ccp);
  or_Controller := None;
  or_BlockOwnerDeletion := None |}.

Definition hash_labels (ccp : CritControlPlane) (cluster : Cluster) : gmap string string :=
  ControlPlaneLabelsForClusterWithHash (cl_Name cluster) (ccp_Name ccp) (Hash (ccp_Spec ccp)).

Definition object_meta (name : string) (ccp : CritControlPlane) (cluster : Cluster)
    (owner : OwnerReference) : ObjectMeta :=
  with_labels (hash_labels ccp cluster) (with_owners [owner] (meta name (ccp_Namespace ccp))).

Definition bootstrap_config (name : string) (ccp : CritControlPlane) (cluster : Cluster)
    (spec : CritConfigSpec) : CritConfig :=
  {| cc_Meta := object_meta name ccp cluster (plain_owner ccp);
     cc_Spec := spec;
     cc_Status := {| ccst_Ready := false; ccst_DataSecretName := None;
                     ccst_FailureReason := ""; ccst_FailureMessage := "" |} |}.

(** The object the server returns carries the name and the UID. *)
Definition config_ref (c : CritConfig) : ObjectReference :=
  {| ref_APIVersion := GroupVersion_String bootstrapv1_GroupVersion;
     ref_Kind := "CritConfig";
     ref_Namespace := cc_Namespace c;
     ref_Name := cc_Name c;
     ref_UID := om_UID (cc_Meta c) |}.

Definition generateCritConfig (ccp : CritControlPlane) (cluster : Cluster)
    (spec : CritConfigSpec) : M (result error ObjectReference) :=
  name ← call (GenerateName (ccp_Name ccp +:+ "-"));
  try bootstrapConfig := call (Create_CritConfig (bootstrap_config name ccp cluster spec))
  catch err => mret (Err (errors_Wrap err "Failed to create bootstrap configuration"));;
  mret (Ok (config_ref bootstrapConfig)).

Definition new_machine (name : string) (ccp : CritControlPlane) (cluster : Cluster)
    (infraRef : ObjectReference) (bootstrapRef : option ObjectReference)
    (failureDomain : option string) : Machine :=
  {| mach_Meta := object_meta name ccp cluster (controller_ref ccp);
     mach_Spec := {| ms_ClusterName := cl_Name cluster;
                     ms_Version := Some (ccps_Version (ccp_Spec ccp));
                     ms_InfrastructureRef := infraRef;
                     ms_ConfigRef := bootstrapRef;
                     ms_FailureDomain := failureDomain |};
     mach_NodeRef := None |}.

Definition generateMachine (ccp : CritControlPlane) (cluster : Cluster)
    (infraRef : ObjectReference) (bootstrapRef : option ObjectReference)
    (failureDomain : option string) : M (option error) :=
  name ← call (GenerateName (ccp_Name ccp +:+ "-"));
  check call (Create_Machine (new_machine name ccp cluster infraRef bootstrapRef failureDomain))
  catch err => mret (Some (errors_Wrap err "Failed to create machine"));;
  mret None.

(** The unstructured object that is deleted has no UID. *)
Definition cleanup_ref (ref : ObjectReference) : ObjectReference :=
  {| ref_APIVersion := ref_APIVersion ref; ref_Kind := ref_Kind ref;
     ref_Namespace := ref_Namespace ref; ref_Name := ref_Name ref; ref_UID := "" |}.

Definition cleanup_one (ref : option ObjectReference) (errs : list error) : M (list error) :=
  match ref with
  | None => mret errs
  | Some ref =>
      check call (Delete_Object (cleanup_ref ref))
      catch err =>
        (if negb (apierrors_IsNotFound err)
         then mret (errs ++ [errors_Wrap err "failed to cleanup generated resources after error"])
         else mret errs);;
      mret errs
  end.

Definition cleanupFromGeneration (remoteRefs : list (option ObjectReference)) :
    M (option error) :=
  errs ← fold_each remoteRefs [] cleanup_one;
  mret (kerrors_NewAggregate (Some <$> errs)).

Definition clone_input (cluster : Cluster) (ccp : CritControlPlane) : CloneTemplateInput := {|
  cti_TemplateRef := ccps_InfrastructureTemplate (ccp_Spec ccp);
  cti_Namespace := ccp_Namespace ccp;
  cti_OwnerRef := Some (plain_owner ccp);
  cti_ClusterName := cl_Name cluster;
  cti_Labels := hash_labels ccp cluster |}.

Definition cloneConfigsAndGenerateMachine (cluster : Cluster) (ccp : CritControlPlane)
    (bootstrapSpec : CritConfigSpec) (failureDomain : option string) : M (option error) :=
  try infraRef := call (External_CloneTemplate (clone_input cluster ccp))
  catch err => mret (Some (errors_Wrap err "failed to clone infrastructure template"));;
  r ← generateCritConfig ccp cluster bootstrapSpec;
  let bootstrapRef := match r with Ok ref => Some ref | Err _ => None end in
  let errs := match r with
              | Ok _ => []
              | Err err => [errors_Wrap err "failed to generate bootstrap config"]
              end in
  errs ← (if (length errs =? 0)%nat then
            check generateMachine ccp cluster infraRef bootstrapRef failureDomain
            catch err => mret (errs ++ [errors_Wrap err "failed to create Machine"]);;
            mret errs
          else mret errs);
  if (0 <? length errs)%nat then
    check cleanupFromGeneration [Some infraRef; bootstrapRef]
    catch err => mret (kerrors_NewAggregate (Some <$>
      (errs ++ [errors_Wrap err "failed to cleanup generated resources"])));;
    mret (kerrors_NewAggregate (Some <$> errs))
  else mret None.
End machine_creation.

(** ** Specification *)

Section creation_spec.
Context {P : Platform}.
Implicit Types (cluster : Cluster) (ccp : CritControlPlane).

(** Exactly the given objects are deleted, in order. *)
Definition deletions (refs : list ObjectReference) (tr : list event) : Prop :=
  Forall2 (λ ref e, ∃ r, e = Ev (Delete_Object (cleanup_ref ref)) r) refs tr.

(** What creating a machine may do: it fails to clone the infrastructure and
    leaves nothing behind, or creates all three objects, or fails in between
    and deletes what it created. *)
Inductive creation_run cluster ccp (spec : CritConfigSpec) (fd : option string) :
    list event → bool → Prop :=
| creation_no_infra e :
    creation_run cluster ccp spec fd
      [Ev (External_CloneTemplate (clone_input cluster ccp)) (Err e)] false
| creation_no_config infra n1 e del :
    deletions [infra] del →
    creation_run cluster ccp spec fd
      (Ev (External_CloneTemplate (clone_input cluster ccp)) (Ok infra) ::
       Ev (GenerateName (ccp_Name ccp +:+ "-")) n1 ::
       Ev (Create_CritConfig (bootstrap_config n1 ccp cluster spec)) (Err e) :: del) false
| creation_no_machine infra n1 cfg n2 e del :
    deletions [infra; config_ref cfg] del →
    creation_run cluster ccp spec fd
      (Ev (External_CloneTemplate (clone_input cluster ccp)) (Ok infra) ::
       Ev (GenerateName (ccp_Name ccp +:+ "-")) n1 ::
       Ev (Create_CritConfig (bootstrap_config n1 ccp cluster spec)) (Ok cfg) ::
       Ev (GenerateName (ccp_Name ccp +:+ "-")) n2 ::
       Ev (Create_Machine (new_machine n2 ccp cluster infra (Some (config_ref cfg)) fd))
         (Some e) :: del) false
| creation_done infra n1 cfg n2 :
    creation_run cluster ccp spec fd
      [Ev (External_CloneTemplate (clone_input cluster ccp)) (Ok infra);
       Ev (GenerateName (ccp_Name ccp +:+ "-")) n1;
       Ev (Create_CritConfig (bootstrap_config n1 ccp cluster spec)) (Ok cfg);
       Ev (GenerateName (ccp_Name ccp +:+ "-")) n2;
       Ev (Create_Machine (new_machine n2 ccp cluster infra (Some (config_ref cfg)) fd)) None]
      true.

(** The actions of a creation. *)
Definition creation_action cluster ccp (a : k8s_action) : Prop :=
  match a with
  | External_CloneTemplate i => i = clone_input cluster ccp
  | Create_CritConfig c => ∃ name spec, c = bootstrap_config name ccp cluster spec
  | Create_Machine m =>
      ∃ name infra ref fd, m = new_machine name ccp cluster infra (Some ref) fd
  | Delete_Object _ => True
  | _ => is_write a = false
  end.
End creation_spec.

(** ** Properties *)

Section creation_properties.
Context {P : Platform}.
Implicit Types (cluster : Cluster) (ccp : CritControlPlane).

Lemma cleanup_one_run ref errs tr o :
  runs (cleanup_one ref errs) tr o →
  (∃ errs', o = Val errs') ∧ deletions (option_list ref) tr.
Proof.
  destruct ref as [ref|]; [|intros [-> ->]; split; [eauto|constructor]].
  intros (r&tr'&->&Hr). simpl. enough (tr' = [] ∧ ∃ errs', o = Val errs') as [-> ?].
  { split; [done|]. constructor; [eauto|constructor]. }
  destruct r as [e|]; [simpl in Hr; destruct (negb _)|]; destruct Hr as [-> ->]; eauto.
Qed.

Lemma cleanup_run refs tr o :
  runs (cleanupFromGeneration refs) tr o →
  (∃ err, o = Val err) ∧ deletions (refs ≫= option_list) tr.
Proof.
  unfold cleanupFromGeneration. intros Hr.
  assert (Hl : ∀ errs tr o, runs (fold_each refs errs cleanup_one) tr o →
    (∃ errs', o = Val errs') ∧ deletions (refs ≫= option_list) tr).
  { clear. induction refs as [|ref refs IH]; intros errs tr o; simpl.
    { intros [-> ->]. split; [eauto|constructor]. }
    intros [[Hr ->]|(tr1&tr2&errs'&->&H1&H2)]%runs_bind.
    { by destruct (cleanup_one_run _ _ _ _ Hr) as [[? ?] _]. }
    apply cleanup_one_run in H1 as [_ ?]. apply IH in H2 as [? ?]. split; [done|].
    by apply Forall2_app. }
  apply runs_bind in Hr as [[Hr ->]|(tr1&tr2&errs'&->&H1&->&->)].
  - by destruct (Hl _ _ _ Hr) as [[? ?] _].
  - apply Hl in H1 as [_ ?]. rewrite app_nil_r. eauto.
Qed.

Lemma generateCritConfig_run ccp cluster spec tr o :
  runs (generateCritConfig ccp cluster spec) tr o →
  ∃ n r, tr = [Ev (GenerateName (ccp_Name ccp +:+ "-")) n;
               Ev (Create_CritConfig (bootstrap_config n ccp cluster spec)) r] ∧
    o = Val (match r with
             | Ok c => Ok (config_ref c)
             | Err e => Err (errors_Wrap e "Failed to create bootstrap configuration")
             end).
Proof.
  intros (n&tr1&->&r&tr2&->&Hr). exists n, r. by destruct r; destruct Hr as [-> ->].
Qed.

Lemma generateMachine_run ccp cluster infra ref fd tr o :
  runs (generateMachine ccp cluster infra ref fd) tr o →
  ∃ n r, tr = [Ev (GenerateName (ccp_Name ccp +:+ "-")) n;
               Ev (Create_Machine (new_machine n ccp cluster infra ref fd)) r] ∧
    o = Val ((λ e, errors_Wrap e "Failed to create machine") <$> r).
Proof.
  intros (n&tr1&->&r&tr2&->&Hr). exists n, r. by destruct r; destruct Hr as [-> ->].
Qed.

Lemma aggregate_cons `{!AggregateLaws P} (e : error) l :
  kerrors_NewAggregate (Some <$> (e :: l)) ≠ None.
Proof. rewrite aggregate_nil, fmap_cons, Forall_cons. by intros [? _]. Qed.

(** Cleaning up after the given errors: an error results. *)
Lemma cleanup_errors_run `{!AggregateLaws P} refs e l tr o :
  runs (check cleanupFromGeneration refs
        catch err => mret (kerrors_NewAggregate (Some <$>
          ((e :: l) ++ [errors_Wrap err "failed to cleanup generated resources"])));;
        mret (kerrors_NewAggregate (Some <$> (e :: l))) : M (option error)) tr o →
  (∃ err, o = Val (Some err)) ∧ deletions (refs ≫= option_list) tr.
Proof.
  intros [[Hr ->]|(tr1&tr2&err&->&H1&H2)]%runs_bind.
  { by destruct (cleanup_run _ _ _ Hr) as [[? ?] _]. }
  apply cleanup_run in H1 as [_ ?].
  assert (∃ l', runs (mret (kerrors_NewAggregate (Some <$> (e :: l'))) : M _) tr2 o) as (l'&->&->).
  { destruct err; eauto. }
  rewrite app_nil_r. split; [|done].
  destruct (kerrors_NewAggregate (Some <$> e :: l')) eqn:Hagg; [by eexists|]. by apply aggregate_cons in Hagg.
Qed.

Lemma creation_run_of `{!AggregateLaws P} cluster ccp spec fd tr o :
  runs (cloneConfigsAndGenerateMachine cluster ccp spec fd) tr o →
  ∃ err ok, o = Val err ∧ creation_run cluster ccp spec fd tr ok ∧ (ok = true ↔ err = None).
Proof.
  unfold cloneConfigsAndGenerateMachine. intros (ri&tr1&->&Hr)%runs_call.
  destruct ri as [infra|e]; cbv beta iota zeta in Hr.
  2:{ destruct Hr as [-> ->]. eexists _, false. split; [done|]. split; [constructor|done]. }
  apply runs_bind in Hr as [[Hr ->]|(tr2&tr3&rc&->&Hc&Hr)].
  { by apply generateCritConfig_run in Hr as (?&?&_&?). }
  apply generateCritConfig_run in Hc as (n1&rc'&->&[= ->]).
  destruct rc' as [cfg|e]; cbv beta iota zeta in Hr.
  - apply runs_bind in Hr as [[Hr ->]|(tr4&tr5&errs&->&Hm&Hr)].
    { apply runs_bind in Hr as [[Hr _]|(?&?&err&_&_&Hr)]; [|by destruct err; destruct Hr].
      by apply generateMachine_run in Hr as (?&?&_&?). }
    apply runs_bind in Hm as [[_ [=]]|(tr6&tr7&err&->&Hm&Herr)].
    apply generateMachine_run in Hm as (n2&rm&->&[= ->]). destruct rm as [e|].
    + destruct Herr as [-> [= ->]]. apply cleanup_errors_run in Hr as [[err ->] Hdel].
      exists (Some err), false. split; [done|]. split; [|done].
      by apply creation_no_machine.
    + destruct Herr as [-> [= ->]]. destruct Hr as [-> ->].
      exists None, true. split; [done|]. split; [constructor|done].
  - apply runs_bind in Hr as [[[_ [=]] _]|(tr4&tr5&errs&->&[-> [= ->]]&Hr)].
    apply cleanup_errors_run in Hr as [[err ->] Hdel].
    exists (Some err), false. split; [done|]. split; [|done]. by apply creation_no_config.
Qed.

(** Only the actions of a creation are performed, also up to a crash, and
    the machine is created after no other change of the machines. *)
Lemma creation_hoare cluster ccp spec fd h :
  hoare (λ h' a, creation_action cluster ccp a ∧
      (machine_change a = true → ∃ l, h' = h ++ l ∧ unchanged l))
    (cloneConfigsAndGenerateMachine cluster ccp spec fd) h (λ o _, o ≠ Panic).
Proof.
  assert (Hclean : ∀ refs h', hoare (λ h' a, creation_action cluster ccp a ∧
      (machine_change a = true → ∃ l, h' = h ++ l ∧ unchanged l))
    (cleanupFromGeneration refs) h' (λ o _, o ≠ Panic)).
  { intros refs h1. apply hoare_safe_bind; [|done].
    apply (hoare_fold_each _ (λ _ _ _, True)); [done| |done].
    intros ref l errs h' _. destruct ref as [ref|]; [|done].
    apply hoare_call. split; [done|]. intros [e|]; [|done]. by destruct (negb _). }
  apply hoare_call; split; [done|]. intros [infra|e]; [|done].
  assert (Hl : unchanged [Ev (External_CloneTemplate (clone_input cluster ccp)) (Ok infra)])
    by (apply unchanged_cons; [done|apply unchanged_nil]).
  revert Hl. generalize [@Ev k8s (External_CloneTemplate (clone_input cluster ccp)) (Ok infra)].
  intros l Hl. apply hoare_bind.
  apply hoare_call; split; [done|]. intros n. apply hoare_call.
  split; [split; [by exists n, spec|done]|]. intros rc.
  set (l2 := [_]). set (l3 := [_]).
  assert (Hl' : unchanged (l ++ l2 ++ l3)).
  { rewrite !unchanged_app. split_and!; [done|by apply unchanged_cons, unchanged_nil..]. }
  rewrite <-!app_assoc. clearbody l2 l3. revert Hl'. generalize (l ++ l2 ++ l3). clear l l2 l3 Hl.
  intros l Hl.
  destruct rc as [c|e]; (apply hoare_safe_bind; [|intros errs h2;
    destruct (0 <? length errs)%nat; [|done];
    apply hoare_safe_bind; [apply Hclean|by intros [?|] ?]]); [|done].
  simpl. split; [done|]. intros m. split; [split|by intros [?|]].
  - by exists m, infra, (config_ref c), fd.
  - intros _. exists (l ++ [@Ev k8s (GenerateName (ccp_Name ccp +:+ "-")) m]).
    rewrite <-app_assoc. split; [done|]. rewrite unchanged_app. split; [done|].
    by apply unchanged_cons, unchanged_nil.
Qed.

(** The object an event created, if it did. *)
Definition cloned_infra (e : event) : option ObjectReference :=
  let '(existT a r) := e in
  match a as a return k8s_answer a → option ObjectReference with
  | External_CloneTemplate _ => λ r, match r with Ok infra => Some infra | Err _ => None end
  | _ => λ _, None
  end r.
Definition created_config (e : event) : option CritConfig :=
  let '(existT a r) := e in
  match a as a return k8s_answer a → option CritConfig with
  | Create_CritConfig _ => λ r, match r with Ok cfg => Some cfg | Err _ => None end
  | _ => λ _, None
  end r.
Definition created_machine (e : event) : option Machine :=
  let '(existT a r) := e in
  match a as a return k8s_answer a → option Machine with
  | Create_Machine m => λ r, match r with None => Some m | Some _ => None end
  | _ => λ _, None
  end r.
Definition requested_deletion (ref : ObjectReference) (tr : list event) : Prop :=
  ∃ r, Ev (Delete_Object (cleanup_ref ref)) r ∈ tr.

(** Nothing a failed creation made is left: no machine, and the deletion of
    every other object was requested. *)
Definition undone (tr : list event) : Prop :=
  ∀ e, e ∈ tr → created_machine e = None ∧
    (∀ infra, cloned_infra e = Some infra → requested_deletion infra tr) ∧
    ∀ cfg, created_config e = Some cfg → requested_deletion (config_ref cfg) tr.

Lemma deletions_requested refs tr ref :
  deletions refs tr → ref ∈ refs → requested_deletion ref tr.
Proof.
  unfold requested_deletion.
  induction 1 as [|ref' e refs tr [r ->] _ IH]; [by intros ?%not_elem_of_nil|].
  setoid_rewrite elem_of_cons. intros [->|Hin]; [eauto|]. naive_solver.
Qed.

Lemma deletions_only refs tr e :
  deletions refs tr → e ∈ tr →
  created_machine e = None ∧ cloned_infra e = None ∧ created_config e = None.
Proof.
  induction 1 as [|ref' e' refs tr [r ->] _ IH]; [by intros ?%not_elem_of_nil|].
  rewrite elem_of_cons. intros [->|Hin]; [done|auto].
Qed.

Lemma requested_deletion_cons e ref tr :
  requested_deletion ref tr → requested_deletion ref (e :: tr).
Proof. intros [r ?]. exists r. by right. Qed.

Lemma creation_run_undone cluster ccp spec fd tr :
  creation_run cluster ccp spec fd tr false → undone tr.
Proof.
  assert (Hdel : ∀ refs del e, deletions refs del → e ∈ del → ∀ l,
    created_machine e = None ∧
    (∀ infra, cloned_infra e = Some infra → requested_deletion infra l) ∧
    ∀ cfg, created_config e = Some cfg → requested_deletion (config_ref cfg) l).
  { intros refs del e H1 H2 l. destruct (deletions_only _ _ _ H1 H2) as (->&->&->). done. }
  intros Hrun; inversion Hrun as [e|infra n1 e del Hd|infra n1 cfg n2 e del Hd|]; subst;
    intros ev; rewrite !elem_of_cons; intros Hev.
  - destruct Hev as [->|?%not_elem_of_nil]; done.
  - destruct Hev as [->|[->|[->|?]]]; [|done|done|by eapply Hdel].
    split_and!; [done| |done]. intros ? [= <-].
    do 3 apply requested_deletion_cons. by eapply deletions_requested; [|left].
  - destruct Hev as [->|[->|[->|[->|[->|?]]]]]; [|done| |done|done|by eapply Hdel].
    + split_and!; [done| |done]. intros ? [= <-].
      do 5 apply requested_deletion_cons. by eapply deletions_requested; [|left].
    + split_and!; [done|done|]. intros ? [= <-].
      do 5 apply requested_deletion_cons. by eapply deletions_requested; [|right; left].
Qed.

(** C10: creating a machine never panics.  When it reports no error it made
    exactly five requests: the infrastructure object cloned from the
    template, a bootstrap configuration, and a machine referring to both,
    with two generated names.  When it reports an error, no machine was
    created, and the deletion of every object it had created was requested. *)
Theorem creation_all_or_nothing `{!AggregateLaws P} cluster ccp spec fd tr o :
  runs (cloneConfigsAndGenerateMachine cluster ccp spec fd) tr o →
  (o = Val None ∧ ∃ infra n1 cfg n2, tr = [
     Ev (External_CloneTemplate (clone_input cluster ccp)) (Ok infra);
     Ev (GenerateName (ccp_Name ccp +:+ "-")) n1;
     Ev (Create_CritConfig (bootstrap_config n1 ccp cluster spec)) (Ok cfg);
     Ev (GenerateName (ccp_Name ccp +:+ "-")) n2;
     Ev (Create_Machine (new_machine n2 ccp cluster infra (Some (config_ref cfg)) fd)) None]) ∨
  (∃ e, o = Val (Some e)) ∧ undone tr.
Proof.
  intros (err&ok&->&Hrun&Hok)%creation_run_of. destruct ok.
  - left. rewrite (proj1 Hok eq_refl). split; [done|]. inversion Hrun; subst.
    by eexists _, _, _, _.
  - right. split; [|by eapply creation_run_undone].
    destruct err as [e|]; [eauto|]. by discriminate (proj2 Hok eq_refl).
Qed.
End creation_properties.

(** ** Witnesses *)

Module CreationWitness.
Import Reference Sample Fixtures.

Definition create : M (option error) :=
  cloneConfigsAndGenerateMachine cluster (ccp 1) config_spec (Some "a").

(** The machine is refused; what was created before it is deleted. *)
Definition refuse_machine : list event → ∀ a : k8s_action, k8s_answer a :=
  environment (λ a, match a with Create_Machine _ => Some (Some (Msg "quota")) | _ => None end).

Lemma creation_all_or_nothing_witness :
  (∃ tr, runs create tr (Val None)) ∧
  ∃ tr e, runs create tr (Val (Some e)) ∧ length tr = 7%nat ∧ undone tr.
Proof.
  split.
  - apply (drive_result accept []). vm_compute. reflexivity.
  - pose proof (drive_runs refuse_machine [] create) as Hr.
    assert (Hl : length (drive refuse_machine [] create).1 = 7%nat) by (vm_compute; reflexivity).
    exists (drive refuse_machine [] create).1, (Aggregate ["failed to create Machine: Failed to create machine: quota"]).
    assert (Hd : (drive refuse_machine [] create).2 = Val (Some (Aggregate
      ["failed to create Machine: Failed to create machine: quota"]))) by (vm_compute; reflexivity).
    rewrite Hd in Hr. split; [exact Hr|]. split; [exact Hl|].
    destruct (creation_all_or_nothing cluster (ccp 1) config_spec (Some "a") _ _ Hr)
      as [[Hno _]|[_ Hun]]; [discriminate Hno|exact Hun].
Defined.
End CreationWitness.
