(* ===== verification/Deletion.v ===== *)
(** controllers/controlplane/delete.go: deleting a control plane. *)
From S2P Require Import Prelude GoRuntime ApiTypes Platform SamplePlatform.
From S2P Require Import MachineFilters MachineCollection FailureDomain ControlPlane.
From S2P Require Import WorkloadCluster ManagementCluster MachineCreation.
Local Open Scope Z_scope.
Local Open Scope go_scope.

Definition deleteRequeueAfter : Z := 30 * Second.
Definition healthCheckFailedRequeueAfter : Z := 20 * Second.

Section deletion.
Context {R : GoRuntime} {P : Platform} {MC : ManagementCluster}.

(** The text [%v] prints for an error that may be nil. *)
Definition fmt_error (err : option error) : string :=
  match err with Some err => error_Error err | None => "<nil>" end.

Definition delete_machine (km : string * Machine) (errs : list error) : M (list error) :=
  check call (Delete_Machine km.2)
  catch err => (if negb (apierrors_IsNotFound err) then mret (errs ++ [err]) else mret errs);;
  mret errs.

(** The control plane object is changed in place: the first component is its
    value at the return. *)
Definition reconcileDelete (cluster : Cluster) (ccp : CritControlPlane) :
    M (CritControlPlane * (Result * option error)) :=
  try allMachines := mc_GetMachinesForCluster (cl_Key cluster) []
  catch err => mret (ccp, (NoResult, Some err));;
  let ownedMachines := Filter allMachines [OwnedControlPlaneMachines (ccp_Name ccp)] in
  if (size ownedMachines =? 0)%nat then
    mret (ccp_with_meta
      (controllerutil_RemoveFinalizer (ccp_Meta ccp) CritControlPlaneFinalizer) ccp,
      (NoResult, None))
  else if negb (size allMachines =? size ownedMachines)%nat then
    mret (ccp, (NoResult, Some (capierrors_RequeueAfterError deleteRequeueAfter)))
  else
    let machinesToDelete := Filter ownedMachines [Not HasDeletionTimestamp] in
    errs ← fold_each (map_range machinesToDelete) [] delete_machine;
    if (0 <? length errs)%nat then
      let err := kerrors_NewAggregate (Some <$> errs) in
      _ ← call (Recorder_Event "FailedDelete"
        ("Failed to delete control plane Machines for cluster " +:+ key_String (cl_Key cluster) +:+
         " control plane: " +:+ fmt_error err));
      mret (ccp, (NoResult, err))
    else mret (ccp, (NoResult, Some (capierrors_RequeueAfterError deleteRequeueAfter))).

(** ** What a deletion may do *)

(** A machine may be deleted once the cluster's machines have been listed,
    all of them are machines of this control plane, and it is not being
    deleted already. *)
Definition deletion_guard (cluster : Cluster) (ccp : CritControlPlane) (h : list event)
    (a : k8s_action) : Prop :=
  match a with
  | Delete_Machine m =>
      ∃ all, performed (mc_GetMachinesForCluster (cl_Key cluster) []) (Ok all) h ∧
        (∃ k, all !! k = Some m) ∧
        (∀ k m', all !! k = Some m' → OwnedControlPlaneMachines (ccp_Name ccp) (Some m') = true) ∧
        HasDeletionTimestamp (Some m) = false
  | _ => is_write a = false
  end.

(** The deletion of a machine was requested. *)
Definition asked (m : Machine) (h : list event) : Prop :=
  ∃ r, Ev (Delete_Machine m) r ∈ h.

(** What holds of the returned object and error. *)
Definition deletion_result (cluster : Cluster) (ccp : CritControlPlane)
    (o : outcome (CritControlPlane * (Result * option error))) (h : list event) : Prop :=
  ∃ ccp' err, o = Val (ccp', (NoResult, err)) ∧
    match err with
    | None =>
        ccp' = ccp_with_meta
          (controllerutil_RemoveFinalizer (ccp_Meta ccp) CritControlPlaneFinalizer) ccp ∧
        ∃ all, performed (mc_GetMachinesForCluster (cl_Key cluster) []) (Ok all) h ∧
          ∀ k m, all !! k = Some m → OwnedControlPlaneMachines (ccp_Name ccp) (Some m) = false
    | Some e =>
        ccp' = ccp ∧
        (performed (mc_GetMachinesForCluster (cl_Key cluster) []) (Err e) h ∨
         ∃ all, performed (mc_GetMachinesForCluster (cl_Key cluster) []) (Ok all) h ∧
           ((e = capierrors_RequeueAfterError deleteRequeueAfter ∧ ∃ k m, all !! k = Some m ∧
              OwnedControlPlaneMachines (ccp_Name ccp) (Some m) = false) ∨
            ∀ k m, all !! k = Some m → HasDeletionTimestamp (Some m) = false → asked m h))
    end.
End deletion.

(** ** Properties *)

Section deletion_properties.
Context {R : GoRuntime} {RL : GoRuntimeLaws R} {P : Platform}.
Context {MC : ManagementCluster} {MCL : ManagementClusterLaws MC}.

Lemma Filter_size_eq s f :
  keyed s → size s = size (Filter s [f]) → ∀ k m, s !! k = Some m → f (Some m) = true.
Proof.
  intros Hs Hsz k m Hm. assert (Filter s [f] = s) as Heq.
  { apply map_subseteq_size_eq; [by apply Filter_subseteq|lia]. }
  rewrite <-Heq, Filter_lookup, And_singleton in Hm by done. apply Hm.
Qed.

Lemma Filter_size_ne s f :
  keyed s → size s ≠ size (Filter s [f]) → ∃ k m, s !! k = Some m ∧ f (Some m) = false.
Proof.
  intros Hs Hne. destruct (decide (map_Forall (λ _ m, f (Some m) = true) s)) as [Hall|Hnot].
  - destruct Hne. f_equal. apply map_eq; intros k. apply option_eq; intros m.
    rewrite Filter_lookup, And_singleton by done. split; [|naive_solver].
    intros Hm. split; [done|]. by apply (Hall k).
  - apply map_not_Forall in Hnot as (k&m&Hm&Hf); [|solve_decision].
    exists k, m. split; [done|]. by apply not_true_is_false.
Qed.

Lemma Filter_size_0 s f :
  keyed s → size (Filter s [f]) = 0%nat → ∀ k m, s !! k = Some m → f (Some m) = false.
Proof.
  intros Hs Hz%map_size_empty_iff k m Hm. apply not_true_is_false. intros Hf.
  assert (Filter s [f] !! k = Some m) as Hk by by rewrite Filter_lookup, And_singleton.
  by rewrite Hz in Hk.
Qed.

(** The deletions of the loop: each machine is asked for once. *)
Lemma delete_machines_hoare (G : list event → k8s_action → Prop) l errs h :
  (∀ k m h', (k, m) ∈ l → h `prefix_of` h' → G h' (Delete_Machine m)) →
  hoare G (fold_each l errs delete_machine) h (λ o h',
    (∃ errs', o = Val errs') ∧ h `prefix_of` h' ∧
    ∀ k m, (k, m) ∈ l → asked m h').
Proof.
  intros HG. apply (hoare_fold_each _ (λ (l' : list (string * Machine)) (_ : list error) h', h `prefix_of` h' ∧ (∀ km, km ∈ l' → km ∈ l) ∧
    ∀ k m, (k, m) ∈ l → (k, m) ∈ l' ∨ asked m h')).
  - split_and!; eauto.
  - intros [k m] l' errs' h' (Hpre&Hsub&Hdone). unfold delete_machine. apply hoare_call.
    split; [eapply HG; [apply Hsub; left|done]|]. intros r.
    assert (h `prefix_of` (h' ++ [Ev (Delete_Machine m) r]) ∧ (∀ km, km ∈ l' → km ∈ l) ∧
      ∀ k' m', (k', m') ∈ l → (k', m') ∈ l' ∨
        asked m' (h' ++ [Ev (Delete_Machine m) r])) as HI.
    { split_and!; [by apply prefix_app_r|intros; apply Hsub; by right|].
      intros k' m' [[[= -> ->]|?]%elem_of_cons|[r' ?]]%Hdone; [|by left|];
        right; eexists; apply elem_of_app; [right; left|by left]. }
    destruct r as [e|]; [destruct (negb _)|]; exact HI.
  - intros errs' h' (Hpre&_&Hdone). split; [eauto|]. split; [done|].
    intros k m Hin. destruct (Hdone k m Hin) as [?%not_elem_of_nil|?]; done.
Qed.

Lemma reconcileDelete_hoare `{!AggregateLaws P} cluster ccp h :
  hoare (deletion_guard cluster ccp) (reconcileDelete cluster ccp) h
    (deletion_result cluster ccp).
Proof.
  unfold reconcileDelete. apply hoare_bind.
  eapply hoare_mono; [| |apply hoare_performed, mc_machines]; [by intros ? []|].
  intros [[all|e]|] h1 (_&Hall&Hperf); [| |done].
  2:{ simpl. exists ccp, (Some e). split; [done|]. split; [done|by left]. }
  destruct Hall as [Hkeyed _]. cbv zeta.
  destruct (Nat.eqb_spec (size (Filter all [OwnedControlPlaneMachines (ccp_Name ccp)])) 0) as [Hz|Hnz].
  { simpl. eexists _, None. split; [done|]. split; [done|]. exists all. split; [done|].
    by apply Filter_size_0. }
  destruct (Nat.eqb_spec (size all)
    (size (Filter all [OwnedControlPlaneMachines (ccp_Name ccp)]))) as [Heq|Hne]; cbn [negb].
  2:{ simpl. eexists _, (Some _). split; [done|]. split; [done|]. right. exists all.
      split; [done|]. left. split; [done|]. by apply Filter_size_ne. }
  pose proof (Filter_size_eq _ _ Hkeyed Heq) as Howned.
  set (del := Filter (Filter all _) _).
  assert (Hdel : ∀ k m, (k, m) ∈ map_range del ↔
    all !! k = Some m ∧ HasDeletionTimestamp (Some m) = false).
  { intros k m. unfold del. rewrite elem_of_map_range, !Filter_lookup, !And_singleton
      by (done || apply Filter_keyed). unfold Not. rewrite negb_true_iff. naive_solver. }
  apply hoare_bind. eapply hoare_mono; [done| |apply delete_machines_hoare].
  2:{ intros k m h' Hin Hpre. apply Hdel in Hin as [Hk Hts]. exists all. split_and!.
      - by eapply performed_prefix.
      - eauto.
      - intros k' m'. apply Howned.
      - done. }
  intros o h2 ([errs ->]&Hpre&Hdone). apply (performed_prefix _ _ _ _ Hperf) in Hpre.
  assert (Hfin : ∀ e h3, h2 `prefix_of` h3 →
    deletion_result cluster ccp (Val (ccp, (NoResult, Some e))) h3).
  { intros e h3 Hpre3. exists ccp, (Some e). split; [done|]. split; [done|]. right.
    exists all. split; [by eapply performed_prefix|]. right. intros k m Hk Hts.
    destruct (Hdone k m) as [r Hr]; [by apply Hdel|]. exists r. destruct Hpre3 as [l ->].
    apply elem_of_app. by left. }
  destruct errs as [|e errs]; [by apply Hfin|].
  apply hoare_call. split; [done|]. intros []. simpl.
  destruct (kerrors_NewAggregate _) eqn:Hagg; [by apply Hfin, prefix_app_r|].
  by apply aggregate_cons in Hagg.
Qed.

(** C11: deleting a control plane never panics.  Up to any point it has asked
    for the deletion of machines only after a listing that showed no machine
    of the cluster outside the control plane, and only of machines not
    already being deleted.  It releases the finalizer, and reports no error,
    only after a listing without machines of the control plane; otherwise
    the object is unchanged and an error says why: the listing failed, other
    machines are still there (retried after thirty seconds), or the deletion
    of every remaining machine has been asked for. *)
Theorem reconcileDelete_waits `{!AggregateLaws P} cluster ccp :
  (∀ tr1 a r tr2, reaches (reconcileDelete cluster ccp) (tr1 ++ Ev a r :: tr2) →
     deletion_guard cluster ccp tr1 a) ∧
  ∀ tr o, runs (reconcileDelete cluster ccp) tr o → deletion_result cluster ccp o tr.
Proof.
  pose proof (reconcileDelete_hoare cluster ccp []) as H. split.
  - intros tr1 a r tr2 Hr. exact (hoare_reaches _ _ _ _ _ _ _ _ H Hr).
  - intros tr o Hr. exact (hoare_runs _ _ _ _ _ _ H Hr).
Qed.
End deletion_properties.

(** ** Witnesses *)

Module DeletionWitness.
Import Reference ReferenceLaws Sample Fixtures CollectionWitness.

(** The listing shows the given machines. *)
Definition listing (items : list Machine) : list event → ∀ a : k8s_action, k8s_answer a :=
  environment (λ a, match a with List_Machines _ _ => Some (Ok items) | _ => None end).

Definition worker : Machine := {|
  mach_Meta := with_labels ∅ (meta "w1" "default"); mach_Spec := mach_Spec m1;
  mach_NodeRef := None |}.

Lemma reconcileDelete_waits_witness :
  (drive (listing [m1; worker]) [] (reconcileDelete cluster (ccp 3))).2 =
    Val (ccp 3, (NoResult, Some (RequeueAfter 30000000000))) ∧
  ∃ tr, runs (reconcileDelete cluster (ccp 3)) tr
      (Val (ccp 3, (NoResult, Some (RequeueAfter 30000000000)))) ∧
    deletion_result cluster (ccp 3)
      (Val (ccp 3, (NoResult, Some (RequeueAfter 30000000000)))) tr.
Proof.
  assert (Hd : (drive (listing [m1; worker]) [] (reconcileDelete cluster (ccp 3))).2 =
    Val (ccp 3, (NoResult, Some (RequeueAfter 30000000000)))) by (vm_compute; reflexivity).
  split; [exact Hd|]. apply drive_result in Hd as [tr Hr]. exists tr. split; [exact Hr|].
  exact (proj2 (reconcileDelete_waits cluster (ccp 3)) tr _ Hr).
Defined.

Example finalizer_released :
  (drive accept [] (reconcileDelete cluster (ccp 3))).2 =
  Val (ccp_with_meta (remove_finalizer (ccp_Meta (ccp 3)) CritControlPlaneFinalizer) (ccp 3),
       (NoResult, None)).
Proof. vm_compute. reflexivity. Qed.
End DeletionWitness.
