(* ===== verification/Upgrade.v ===== *)
(** controllers/controlplane/upgrade.go: replacing outdated control plane
    machines one at a time. *)
From S2P Require Import Prelude GoRuntime ApiTypes Platform SamplePlatform.
From S2P Require Import MachineFilters MachineCollection FailureDomain ControlPlane.
From S2P Require Import WorkloadCluster ManagementCluster MachineCreation Deletion.
Local Open Scope Z_scope.
Local Open Scope go_scope.

Section upgrade.
Context {R : GoRuntime} {P : Platform} {MC : ManagementCluster}.

Definition reconcileHealth (cluster : Cluster) (ccp : CritControlPlane)
    (controlPlane : ControlPlane) : M (option error) :=
  check mc_TargetClusterControlPlaneIsHealthy (cl_Key cluster) (ccp_Name ccp)
  catch err =>
    (_ ← call (Recorder_Event "ControlPlaneUnhealthy"
       ("Waiting for control plane to pass control plane health check to continue reconciliation: "
        +:+ error_Error err));
     mret (Some (capierrors_RequeueAfterError healthCheckFailedRequeueAfter)));;
  if HasDeletingMachine controlPlane
  then mret (Some (capierrors_RequeueAfterError deleteRequeueAfter))
  else mret None.

(** Never a nil machine without an error: the caller's check for one is dead
    code. *)
Definition selectMachineForScaleDown (controlPlane : ControlPlane) :
    outcome (result error Machine) :=
  let machines := cp_Machines controlPlane in
  let needingUpgrade := MachinesNeedingUpgrade controlPlane in
  let machines := if 0 <? Len needingUpgrade then needingUpgrade else machines in
  MachineInFailureDomainWithMostMachines controlPlane machines.

Definition scaleUpControlPlane (cluster : Cluster) (ccp : CritControlPlane)
    (controlPlane : ControlPlane) : M (Result * option error) :=
  check reconcileHealth cluster ccp controlPlane
  catch _err =>
    mret (NoResult, Some (capierrors_RequeueAfterError healthCheckFailedRequeueAfter));;
  let bootstrapSpec := ccps_CritConfigSpec (ccp_Spec ccp) in
  let fd := FailureDomainWithFewestMachines controlPlane in
  check cloneConfigsAndGenerateMachine cluster ccp bootstrapSpec fd
  catch err =>
    (_ ← call (Recorder_Event "FailedScaleUp"
       ("Failed to create additional control plane Machine for cluster " +:+
        key_String (cl_Key cluster) +:+ " control plane: " +:+ error_Error err));
     mret (NoResult, Some err));;
  mret (Requeue, None).

Definition scaleDownControlPlane (cluster : Cluster) (ccp : CritControlPlane)
    (controlPlane : ControlPlane) : M (Result * option error) :=
  check reconcileHealth cluster ccp controlPlane
  catch _err =>
    mret (NoResult, Some (capierrors_RequeueAfterError healthCheckFailedRequeueAfter));;
  try machineToDelete := lift (selectMachineForScaleDown controlPlane)
  catch err => mret (NoResult, Some (errors_Wrap err "failed to select machine for scale down"));;
  check mc_TargetClusterControlPlaneIsHealthy (cl_Key cluster) (ccp_Name ccp)
  catch err =>
    (_ ← call (Recorder_Event "ControlPlaneUnhealthy"
       ("Waiting for control plane to pass control plane health check before removing a control plane machine: "
        +:+ error_Error err));
     mret (NoResult, Some (capierrors_RequeueAfterError healthCheckFailedRequeueAfter)));;
  check call (Delete_Machine machineToDelete)
  catch err =>
    (if negb (apierrors_IsNotFound err) then
       _ ← call (Recorder_Event "FailedScaleDown"
         ("Failed to delete control plane Machine " +:+ mach_Name machineToDelete +:+
          " for cluster " +:+ key_String (cl_Key cluster) +:+ " control plane: " +:+
          error_Error err));
       mret (NoResult, Some err)
     else mret (Requeue, None));;
  mret (Requeue, None).

Definition upgradeControlPlane (cluster : Cluster) (ccp : CritControlPlane)
    (controlPlane : ControlPlane) : M (Result * option error) :=
  try workloadCluster := mc_GetWorkloadCluster (cl_Key cluster)
  catch err => mret (NoResult, Some err);;
  try status := Workload_ClusterStatus workloadCluster catch err => mret (NoResult, Some err);;
  if cs_Nodes status <=? ccps_Replicas (ccp_Spec ccp)
  then scaleUpControlPlane cluster ccp controlPlane
  else scaleDownControlPlane cluster ccp controlPlane.

(** ** What a rollout step may do *)

(** A health check of the control plane passed. *)
Definition healthy (cluster : Cluster) (ccp : CritControlPlane) (h : list event) : Prop :=
  performed (mc_TargetClusterControlPlaneIsHealthy (cl_Key cluster) (ccp_Name ccp)) None h.

(** The nodes counted for the decision. *)
Definition counted (cluster : Cluster) (n : Z) (h : list event) : Prop :=
  ∃ w s, performed (mc_GetWorkloadCluster (cl_Key cluster)) (Ok w) h ∧
    performed (Workload_ClusterStatus w) (Ok s) h ∧ cs_Nodes s = n.

(** Objects are created only with at most as many nodes as replicas, a
    machine is removed only with more, both only after a passed health check
    and with no machine being deleted; the removed machine is an outdated
    one of the control plane. *)
Definition rollout_guard (cluster : Cluster) (ccp : CritControlPlane)
    (controlPlane : ControlPlane) (h : list event) (a : k8s_action) : Prop :=
  (machine_change a = true → unchanged h) ∧
  match a with
  | Delete_Machine m =>
      healthy cluster ccp h ∧ HasDeletingMachine controlPlane = false ∧
      (∃ n, counted cluster n h ∧ ccps_Replicas (ccp_Spec ccp) < n) ∧
      ∃ k, MachinesNeedingUpgrade controlPlane !! k = Some m
  | _ =>
      is_write a = true →
      creation_action cluster ccp a ∧
      healthy cluster ccp h ∧ HasDeletingMachine controlPlane = false ∧
      ∃ n, counted cluster n h ∧ n ≤ ccps_Replicas (ccp_Spec ccp)
  end.

(** A machine's deletion was accepted, or it was gone already. *)
Definition removed (m : Machine) (h : list event) : Prop :=
  ∃ r, Ev (Delete_Machine m) r ∈ h ∧
    match r with None => True | Some e => apierrors_IsNotFound e = true end.

(** A machine was created or removed. *)
Definition progressed (h : list event) : Prop :=
  (∃ m, Ev (Create_Machine m) None ∈ h) ∨ ∃ m, removed m h.

(** Never a panic; without an error the next step follows at once. *)
Definition rollout_result (o : outcome (Result * option error)) (h : list event) : Prop :=
  ∃ res err, o = Val (res, err) ∧
    (err = None → res = Requeue ∧ progressed h).
End upgrade.

(** ** Lemmas *)

Section upgrade_lemmas.
Context {R : GoRuntime} {RL : GoRuntimeLaws R} {P : Platform}.
Context {MC : ManagementCluster} {MCL : ManagementClusterLaws MC}.
Implicit Types (cluster : Cluster) (ccp : CritControlPlane) (cp : ControlPlane).

(** What a program that changes no machine leaves of the history. *)
Lemma hoare_unchanged {A} G (p : M A) h (Q : outcome A → list event → Prop) :
  (∀ h a, G h a → machine_change a = false) → hoare G p h Q →
  hoare G p h (λ o h', Q o h' ∧ (∃ l, h' = h ++ l ∧ unchanged l) ∧
    match o with Val x => performed p x h' | Panic => True end).
Proof.
  intros HG H. apply hoare_performed in H.
  eapply (hoare_only (E := k8s) (λ a, machine_change a = false)) in H; [|exact HG].
  eapply hoare_mono; [| |exact H]; [done|]. by intros o h' [(_&?&?) ?].
Qed.

Lemma hoare_reads {A} (p : M A) h (Q : outcome A → list event → Prop) :
  hoare reads_only p h Q →
  hoare reads_only p h (λ o h', Q o h' ∧ (∃ l, h' = h ++ l ∧ unchanged l) ∧
    match o with Val x => performed p x h' | Panic => True end).
Proof. apply hoare_unchanged. by intros ? []. Qed.

Lemma counted_app cluster n h l : counted cluster n h → counted cluster n (h ++ l).
Proof. intros (w&s&?&?&?). exists w, s. auto using performed_app. Qed.

Lemma progressed_app h l : progressed h → progressed (h ++ l).
Proof. unfold progressed, removed. setoid_rewrite elem_of_app. naive_solver. Qed.

Lemma unchanged_not_progressed h : unchanged h → ¬ progressed h.
Proof. intros Hu [[m Hm]|(m&r&Hr&_)]; [by apply Hu in Hm|by apply Hu in Hr]. Qed.

Lemma reconcileHealth_hoare cluster ccp cp h :
  hoare reads_only (reconcileHealth cluster ccp cp) h (λ o h',
    (∃ l, h' = h ++ l ∧ unchanged l) ∧
    ∃ err, o = Val err ∧
      (err = None → healthy cluster ccp h' ∧ HasDeletingMachine cp = false)).
Proof.
  unfold reconcileHealth. apply hoare_bind.
  eapply hoare_mono; [| |apply hoare_reads, mc_health]; [done|].
  intros [[e|]|] h' (Hnp&(l&->&Hl)&Hperf); [| |done].
  - apply hoare_call. split; [done|]. intros []. simpl. split; [|by eexists (Some _)].
    exists (l ++ [@Ev k8s (Recorder_Event "ControlPlaneUnhealthy"
      ("Waiting for control plane to pass control plane health check to continue reconciliation: "
        +:+ error_Error e)) tt]).
    rewrite app_assoc, unchanged_app. split; [done|]. split; [done|].
    by apply unchanged_cons, unchanged_nil.
  - destruct (HasDeletingMachine cp); simpl; (split; [by exists l|]);
      [by eexists (Some _)|by exists None].
Qed.

Lemma creation_performed `{!AggregateLaws P} cluster ccp spec fd h :
  performed (cloneConfigsAndGenerateMachine cluster ccp spec fd) None h → progressed h.
Proof.
  intros (h0&h1&h2&->&Hr). apply creation_run_of in Hr as (err&ok&[= <-]&Hrun&Hok).
  rewrite (proj2 Hok eq_refl) in Hrun. inversion Hrun; subst.
  left. eexists. rewrite !elem_of_app, !elem_of_cons. naive_solver.
Qed.
End upgrade_lemmas.

(** ** Properties *)

Section upgrade_properties.
Context {R : GoRuntime} {RL : GoRuntimeLaws R} {P : Platform}.
Context {MC : ManagementCluster} {MCL : ManagementClusterLaws MC} {AL : AggregateLaws P}.
Implicit Types (cluster : Cluster) (ccp : CritControlPlane) (cp : ControlPlane).

Lemma reads_rollout cluster ccp cp h a : reads_only h a → rollout_guard cluster ccp cp h a.
Proof. unfold reads_only. intros Hr. split; [by destruct a|]. by destruct a. Qed.

Lemma rollout_error res e h : rollout_result (Val (res, Some e)) h.
Proof. by exists res, (Some e). Qed.
#[local] Hint Resolve rollout_error : core.

Lemma unchanged_reads h h' :
  unchanged h → (∃ l, h' = h ++ l ∧ unchanged l) → unchanged h' ∧ h `prefix_of` h'.
Proof. intros Hu (l&->&Hl). rewrite unchanged_app. split; [done|by apply prefix_app_r]. Qed.

Lemma counted_prefix cluster n h h' : counted cluster n h → h `prefix_of` h' → counted cluster n h'.
Proof. intros ? [l ->]. by apply counted_app. Qed.

Lemma scaleUp_hoare cluster ccp cp n h :
  unchanged h → counted cluster n h → n ≤ ccps_Replicas (ccp_Spec ccp) →
  hoare (rollout_guard cluster ccp cp) (scaleUpControlPlane cluster ccp cp) h rollout_result.
Proof.
  intros Hu Hn Hle. unfold scaleUpControlPlane. apply hoare_bind.
  eapply hoare_mono; [apply reads_rollout| |apply reconcileHealth_hoare].
  intros o h1 (Hl&err&->&Herr). destruct (unchanged_reads _ _ Hu Hl) as [Hu1 Hp1].
  destruct err as [e|]; [by apply rollout_error|]. destruct (Herr eq_refl) as [Hok Hdel].
  cbv zeta. apply hoare_bind. eapply hoare_mono;
    [| |apply hoare_prefix_guard, hoare_performed, creation_hoare].
  - intros h' a [Hpre [Hact Hch]]. split.
    + intros Ha. destruct (Hch Ha) as (l&->&?). by apply unchanged_app.
    + assert (is_write a = true → creation_action cluster ccp a ∧ healthy cluster ccp h' ∧
        HasDeletingMachine cp = false ∧ ∃ n, counted cluster n h' ∧ n ≤ ccps_Replicas (ccp_Spec ccp)).
      { intros _. split; [done|]. split; [by eapply performed_prefix|]. split; [done|].
        exists n. split; [|done]. eapply counted_prefix; [done|]. by etrans. }
      by destruct a.
  - intros [err|] h2 (_&Hnp&Hperf); [|done]. destruct err as [e|].
    + apply hoare_call. split; [apply reads_rollout; done|]. intros []. apply rollout_error.
    + apply creation_performed in Hperf. by exists Requeue, None.
Qed.

Context {FL : FailureDomainLaws P} {ML : MachineOrderLaws P}.

Lemma select_outdated cp :
  keyed (cp_Machines cp) → MachinesNeedingUpgrade cp ≠ ∅ →
  ∃ m k, selectMachineForScaleDown cp = Val (Ok m) ∧ MachinesNeedingUpgrade cp !! k = Some m.
Proof.
  intros Hk Hne. unfold selectMachineForScaleDown, Len.
  assert (size (MachinesNeedingUpgrade cp) ≠ 0%nat) by by apply map_size_non_empty_iff.
  destruct (Z.ltb_spec 0 (Z.of_nat (size (MachinesNeedingUpgrade cp)))); [|lia].
  destruct (selection_picks cp (MachinesNeedingUpgrade cp)) as (fd&m&_&?&[k ?]&_);
    [apply Filter_keyed|done|]. by exists m, k.
Qed.

Lemma scaleDown_hoare cluster ccp cp n h :
  keyed (cp_Machines cp) → MachinesNeedingUpgrade cp ≠ ∅ →
  unchanged h → counted cluster n h → ccps_Replicas (ccp_Spec ccp) < n →
  hoare (rollout_guard cluster ccp cp) (scaleDownControlPlane cluster ccp cp) h rollout_result.
Proof.
  intros Hkeyed Hne Hu Hn Hlt. unfold scaleDownControlPlane. apply hoare_bind.
  eapply hoare_mono; [apply reads_rollout| |apply reconcileHealth_hoare].
  intros o h1 (Hl&err&->&Herr). destruct (unchanged_reads _ _ Hu Hl) as [Hu1 Hp1].
  destruct err as [e|]; [by apply rollout_error|]. destruct (Herr eq_refl) as [_ Hdel].
  destruct (select_outdated cp Hkeyed Hne) as (m&k&Hsel&Hm). rewrite Hsel.
  apply hoare_bind. cbn [lift hoare]. apply hoare_bind.
  eapply hoare_mono; [| |apply hoare_reads, mc_health]; [apply reads_rollout|].
  intros [[e|]|] h2 (Hnp&Hl2&Hperf); [| |done];
    destruct (unchanged_reads _ _ Hu1 Hl2) as [Hu2 Hp2].
  { apply hoare_call. split; [by apply reads_rollout|]. intros []. apply rollout_error. }
  apply hoare_call. split.
  { split; [done|]. split; [done|]. split; [done|]. split; [|by exists k].
    exists n. split; [|done]. eapply counted_prefix; [done|]. by etrans. }
  intros r. assert (match r with None => True | Some e => apierrors_IsNotFound e = true end →
    progressed (h2 ++ [@Ev k8s (Delete_Machine m) r])) as Hpr.
  { intros Hr. right. exists m, r. split; [|done]. apply elem_of_app. right. left. }
  destruct r as [e|]; [destruct (apierrors_IsNotFound e) eqn:He|]; simpl.
  - exists Requeue, None. split; [done|]. intros _. split; [done|by apply Hpr].
  - split; [by apply reads_rollout|]. intros []. apply rollout_error.
  - exists Requeue, None. split; [done|]. intros _. split; [done|by apply Hpr].
Qed.

Lemma ClusterStatus_hoare w h :
  hoare reads_only (Workload_ClusterStatus w) h (λ o _, o ≠ Panic).
Proof. simpl. split; [done|]. by intros [?|?]. Qed.

Lemma upgrade_hoare cluster ccp cp h :
  keyed (cp_Machines cp) → MachinesNeedingUpgrade cp ≠ ∅ → unchanged h →
  hoare (rollout_guard cluster ccp cp) (upgradeControlPlane cluster ccp cp) h rollout_result.
Proof.
  intros Hkeyed Hne Hu. unfold upgradeControlPlane. apply hoare_bind.
  eapply hoare_mono; [| |apply hoare_reads, mc_workload]; [apply reads_rollout|].
  intros [[w|e]|] h1 (Hnp&Hl1&Hw); [|by apply rollout_error|done].
  destruct (unchanged_reads _ _ Hu Hl1) as [Hu1 Hp1]. apply hoare_bind.
  eapply hoare_mono; [| |apply hoare_reads, ClusterStatus_hoare]; [apply reads_rollout|].
  intros [[s|e]|] h2 (Hnp2&Hl2&Hs); [|by apply rollout_error|done].
  destruct (unchanged_reads _ _ Hu1 Hl2) as [Hu2 Hp2].
  assert (counted cluster (cs_Nodes s) h2) as Hc.
  { exists w, s. split_and!; [|done|done]. by eapply performed_prefix. }
  destruct (Z.leb_spec (cs_Nodes s) (ccps_Replicas (ccp_Spec ccp))).
  - by eapply scaleUp_hoare.
  - by eapply scaleDown_hoare.
Qed.

(** C2: a rollout step of a control plane with outdated machines never
    panics and changes at most one machine.  Up to any point it has created
    objects only while the workload cluster had at most as many nodes as
    replicas, and requested the deletion of a machine only while it had more;
    both only after a passed health check and with no machine being deleted,
    and the machine to delete is an outdated machine of the control plane.
    Without an error the next step is requested at once, and a machine was
    created or a machine removed. *)
Theorem upgrade_one_step cluster ccp cp :
  keyed (cp_Machines cp) → MachinesNeedingUpgrade cp ≠ ∅ →
  (∀ tr1 a r tr2, reaches (upgradeControlPlane cluster ccp cp) (tr1 ++ Ev a r :: tr2) →
     rollout_guard cluster ccp cp tr1 a) ∧
  ∀ tr o, runs (upgradeControlPlane cluster ccp cp) tr o → rollout_result o tr.
Proof.
  intros Hk Hne. pose proof (upgrade_hoare cluster ccp cp [] Hk Hne unchanged_nil) as H. split.
  - intros tr1 a r tr2 Hr. exact (hoare_reaches _ _ _ _ _ _ _ _ H Hr).
  - intros tr o Hr. exact (hoare_runs _ _ _ _ _ _ H Hr).
Qed.
End upgrade_properties.

(** ** Witnesses *)

Module UpgradeWitness.
Import Reference ReferenceLaws Sample Fixtures CollectionWitness WorkloadWitness.
Import ManagementWitness.

Definition pair : FilterableMachineCollection := NewFilterableMachineCollection [Some m1; Some m2].
Definition outdated : ControlPlane := NewControlPlane cluster (ccp 1) pair.
Definition two_nodes : list event → ∀ a : k8s_action, k8s_answer a :=
  reachable [node "node-m1"; node "node-m2"] items.

Lemma upgrade_one_step_witness :
  MachinesNeedingUpgrade outdated ≠ ∅ ∧
  ∃ tr, runs (upgradeControlPlane cluster (ccp 1) outdated) tr (Val (Requeue, None)) ∧
    progressed tr.
Proof.
  assert (Hne : MachinesNeedingUpgrade outdated ≠ ∅).
  { intros Heq. apply (f_equal size) in Heq. vm_compute in Heq. discriminate. }
  assert (Hk : keyed (cp_Machines outdated)) by apply Insert_keyed, keyed_empty.
  split; [exact Hne|].
  assert (Hd : (drive two_nodes [] (upgradeControlPlane cluster (ccp 1) outdated)).2 =
    Val (Requeue, None)) by (vm_compute; reflexivity).
  apply drive_result in Hd as [tr Hr]. exists tr. split; [exact Hr|].
  destruct (proj2 (upgrade_one_step cluster (ccp 1) outdated Hk Hne) tr _ Hr)
    as (res&err&Heq&Hres). assert (err = None) as -> by congruence.
  exact (proj2 (Hres eq_refl)).
Defined.

(** Two nodes for one replica: the misplaced machine goes; for two replicas a
    third machine is created first. *)
Example rollout_directions :
  (omap created_machine (drive two_nodes [] (upgradeControlPlane cluster (ccp 1) outdated)).1 = []
   ∧ length (omap created_machine (drive two_nodes []
       (upgradeControlPlane cluster (ccp 2) outdated)).1) = 1%nat).
Proof. vm_compute. done. Qed.
End UpgradeWitness.
