(* ===== verification/StatusUpdate.v ===== *)
(** controllers/controlplane/status.go: the status of a control plane. *)
From S2P Require Import Prelude GoRuntime ApiTypes Platform SamplePlatform.
From S2P Require Import MachineFilters MachineCollection FailureDomain ControlPlane.
From S2P Require Import WorkloadCluster ManagementCluster Upgrade.
Local Open Scope Z_scope.
Local Open Scope go_scope.

(** The reconciler's two interfaces to the clusters, [managementCluster] and
    [remoteClientGetter]. *)
Class CritControlPlaneReconciler {P : Platform} : Type := {
  r_managementCluster :: ManagementCluster;
  r_remoteClientGetter : ObjectKey → M (result error Client);
}.

(** What the reconciler relies on. *)
Class ReconcilerLaws {P : Platform} (RC : CritControlPlaneReconciler) : Prop := {
  r_management_laws :: ManagementClusterLaws r_managementCluster;
  r_remote_reads key h : hoare reads_only (r_remoteClientGetter key) h (λ o _, o ≠ Panic);
}.

(** The reconciler [SetupWithManager] makes when no field was set. *)
#[export] Instance default_reconciler {R : GoRuntime} {P : Platform} :
  CritControlPlaneReconciler :=
  {| r_managementCluster := Management; r_remoteClientGetter := NewClusterClient |}.

#[export] Instance default_reconciler_laws {R : GoRuntime} {RL : GoRuntimeLaws R} {P : Platform} :
  ReconcilerLaws default_reconciler.
Proof.
  split; [apply _|]. intros key h. apply hoare_safe_bind; [apply RESTConfig_hoare|].
  intros [cfg|] h'; [|done]. apply hoare_call. split; [done|]. by intros [?|].
Qed.

(** One field of a status at a time. *)
Definition status_selector (x : string) (s : CritControlPlaneStatus) : CritControlPlaneStatus :=
  {| ccpst_Selector := x; ccpst_Replicas := ccpst_Replicas s;
     ccpst_UpdatedReplicas := ccpst_UpdatedReplicas s; ccpst_ReadyReplicas := ccpst_ReadyReplicas s;
     ccpst_UnavailableReplicas := ccpst_UnavailableReplicas s;
     ccpst_Initialized := ccpst_Initialized s; ccpst_Ready := ccpst_Ready s;
     ccpst_FailureReason := ccpst_FailureReason s; ccpst_FailureMessage := ccpst_FailureMessage s |}.

Definition status_counts (replicas updated ready unavailable : Z) (s : CritControlPlaneStatus) :
    CritControlPlaneStatus :=
  {| ccpst_Selector := ccpst_Selector s; ccpst_Replicas := replicas;
     ccpst_UpdatedReplicas := updated; ccpst_ReadyReplicas := ready;
     ccpst_UnavailableReplicas := unavailable;
     ccpst_Initialized := ccpst_Initialized s; ccpst_Ready := ccpst_Ready s;
     ccpst_FailureReason := ccpst_FailureReason s; ccpst_FailureMessage := ccpst_FailureMessage s |}.

Definition status_flags (initialized ready : bool) (s : CritControlPlaneStatus) :
    CritControlPlaneStatus :=
  {| ccpst_Selector := ccpst_Selector s; ccpst_Replicas := ccpst_Replicas s;
     ccpst_UpdatedReplicas := ccpst_UpdatedReplicas s; ccpst_ReadyReplicas := ccpst_ReadyReplicas s;
     ccpst_UnavailableReplicas := ccpst_UnavailableReplicas s;
     ccpst_Initialized := initialized; ccpst_Ready := ready;
     ccpst_FailureReason := ccpst_FailureReason s; ccpst_FailureMessage := ccpst_FailureMessage s |}.

Section status.
Context {R : GoRuntime} {P : Platform} {RC : CritControlPlaneReconciler}.

Definition count_ready (readyMachines : Z) (n : Node) : Z :=
  if util_IsNodeReady n then int32 (readyMachines + 1) else readyMachines.

Definition crit_config_key : ObjectKey :=
  {| key_Namespace := NamespaceSystem; key_Name := "crit-config" |}.

Definition set_status (f : CritControlPlaneStatus → CritControlPlaneStatus)
    (ccp : CritControlPlane) : CritControlPlane :=
  ccp_with_status (f (ccp_Status ccp)) ccp.

(** The object at the return, with the error. *)
Definition updateStatus (ccp : CritControlPlane) (cluster : Cluster) :
    M (CritControlPlane * option error) :=
  match LabelSelector_String
          (ControlPlaneSelectorForCluster (cl_Name cluster) (ccp_Name ccp)) with
  | Err err => mret (ccp, Some (errors_Wrap err "failed to parse label selector"))
  | Ok selector =>
      let ccp := set_status (status_selector selector) ccp in
      try ownedMachines :=
        mc_GetMachinesForCluster (cl_Key cluster) [OwnedControlPlaneMachines (ccp_Name ccp)]
      catch err => mret (ccp, Some (errors_Wrap err "failed to get list of owned machines"));;
      let currentMachines :=
        Filter ownedMachines [MatchesConfigurationHash (Hash (ccp_Spec ccp))] in
      let updated := int32 (Len currentMachines) in
      let replicas := int32 (Len ownedMachines) in
      let ccp := set_status (status_counts replicas updated 0 replicas) ccp in
      if negb (time_IsZero (om_DeletionTimestamp (ccp_Meta ccp))) then mret (ccp, None)
      else
        try remoteClient := r_remoteClientGetter (cl_Key cluster)
        catch err => mret (ccp, Some (errors_Wrap err "failed to create remote cluster client"));;
        try nodes := call (List_Nodes remoteClient {["node-role.kubernetes.io/master" := ""]})
        catch err => mret (ccp, Some err);;
        let readyMachines := foldl count_ready 0 nodes in
        let ccp := set_status (status_counts replicas updated readyMachines
                                 (int32 (replicas - readyMachines))) ccp in
        initialized ← (if negb (ccpst_Initialized (ccp_Status ccp)) then
                         err ← call (Get_ConfigMap remoteClient crit_config_key);
                         mret (match err with None => true | Some _ => false end)
                       else mret true);
        mret (set_status (status_flags initialized (negb (readyMachines =? 0))) ccp, None)
  end.

(** ** What a status should say *)

(** The machines with the current configuration. *)
Definition current_machines (owned : FilterableMachineCollection) (ccp : CritControlPlane) :
    FilterableMachineCollection :=
  filter (λ km : string * Machine,
    mach_Labels km.2 !! CritControlPlaneHashLabelKey = Some (Hash (ccp_Spec ccp))) owned.

Definition ready_nodes (nodes : list Node) : Z :=
  Z.of_nat (length (filter (λ x, util_IsNodeReady x = true) nodes)).

(** The fields that depend on the workload cluster: while the control plane
    is being deleted none of it is read, otherwise they reflect the nodes
    and the [crit-config] map that were read. *)
Definition reflects_nodes (ccp : CritControlPlane) (owned : FilterableMachineCollection)
    (s : CritControlPlaneStatus) (tr : list event) : Prop :=
  if negb (time_IsZero (om_DeletionTimestamp (ccp_Meta ccp))) then
    ccpst_ReadyReplicas s = 0 ∧ ccpst_UnavailableReplicas s = ccpst_Replicas s ∧
    ccpst_Ready s = ccpst_Ready (ccp_Status ccp) ∧
    ccpst_Initialized s = ccpst_Initialized (ccp_Status ccp)
  else
    ∃ c nodes, Ev (List_Nodes c {["node-role.kubernetes.io/master" := ""]}) (Ok nodes) ∈ tr ∧
      (Z.of_nat (length nodes) < 2 ^ 31 →
        ccpst_ReadyReplicas s = ready_nodes nodes ∧
        (Z.of_nat (size owned) < 2 ^ 31 →
           ccpst_UnavailableReplicas s = Z.of_nat (size owned) - ready_nodes nodes) ∧
        (ccpst_Ready s = true ↔ 0 < ready_nodes nodes)) ∧
      (ccpst_Initialized s = true → ccpst_Initialized (ccp_Status ccp) = true ∨
         Ev (Get_ConfigMap c crit_config_key) None ∈ tr) ∧
      (ccpst_Initialized (ccp_Status ccp) = true → ccpst_Initialized s = true).

Definition status_result (ccp : CritControlPlane) (cluster : Cluster)
    (s : CritControlPlaneStatus) (tr : list event) : Prop :=
  ∃ owned,
    performed (mc_GetMachinesForCluster (cl_Key cluster)
      [OwnedControlPlaneMachines (ccp_Name ccp)]) (Ok owned) tr ∧
    (Z.of_nat (size owned) < 2 ^ 31 →
       ccpst_Replicas s = Z.of_nat (size owned) ∧
       ccpst_UpdatedReplicas s = Z.of_nat (size (current_machines owned ccp))) ∧
    reflects_nodes ccp owned s tr.
End status.

(** ** Properties *)

Section status_properties.
Context {R : GoRuntime} {RL : GoRuntimeLaws R} {P : Platform}.
Context {RC : CritControlPlaneReconciler} {RCL : ReconcilerLaws RC}.
Implicit Types (cluster : Cluster) (ccp : CritControlPlane).

Lemma count_ready_foldl nodes n :
  0 ≤ n → n + Z.of_nat (length nodes) < 2 ^ 31 →
  foldl count_ready n nodes = n + ready_nodes nodes.
Proof.
  unfold ready_nodes. revert n; induction nodes as [|x nodes IH]; intros n Hn Hlt;
    cbn [foldl]; [simpl; lia|].
  rewrite length_cons in Hlt. unfold count_ready at 2. rewrite filter_cons.
  destruct (util_IsNodeReady x) eqn:Hx.
  - rewrite decide_True, int32_id, IH, length_cons by (done || lia). lia.
  - rewrite decide_False, IH by (done || lia). lia.
Qed.

Lemma ready_nodes_range nodes : 0 ≤ ready_nodes nodes ≤ Z.of_nat (length nodes).
Proof. unfold ready_nodes. pose proof (length_filter (λ x, util_IsNodeReady x = true) nodes). lia. Qed.

Lemma current_machines_eq owned ccp :
  keyed owned →
  Filter owned [MatchesConfigurationHash (Hash (ccp_Spec ccp))] = current_machines owned ccp.
Proof.
  intros Hk. apply map_eq; intros k. apply option_eq; intros m.
  rewrite Filter_lookup, And_singleton, MatchesConfigurationHash_true by done.
  unfold current_machines. by rewrite map_lookup_filter_Some.
Qed.

(** Reading the [crit-config] map, unless the control plane is initialized. *)
Lemma initialized_hoare (before : bool) c (K : list event → Prop) h :
  K h → (∀ h l, K h → K (h ++ l)) →
  hoare reads_only (if negb before then
      err ← call (E := k8s) (Get_ConfigMap c crit_config_key);
      mret (match err with None => true | Some _ => false end)
    else mret true : M bool) h
    (λ o h', ∃ i : bool, o = Val i ∧ K h' ∧
       (i = true → before = true ∨ @Ev k8s (Get_ConfigMap c crit_config_key) None ∈ h') ∧
       (before = true → i = true)).
Proof.
  intros HK Happ. destruct before; simpl.
  - exists true. split_and!; [done|done|by left|done].
  - split; [done|]. intros err. exists (match err with None => true | Some _ => false end).
    split_and!; [by destruct err|by apply Happ| |done].
    destruct err; [done|]. intros _. right. apply elem_of_app. right. left.
Qed.

Lemma updateStatus_hoare ccp cluster h :
  hoare reads_only (updateStatus ccp cluster) h (λ o h',
    ∃ ccp' err, o = Val (ccp', err) ∧ ccp_Meta ccp' = ccp_Meta ccp ∧
      ccp_Spec ccp' = ccp_Spec ccp ∧
      (err = None → status_result ccp cluster (ccp_Status ccp') h')).
Proof.
  assert (Hfail : ∀ ccp' e h', ccp_Meta ccp' = ccp_Meta ccp → ccp_Spec ccp' = ccp_Spec ccp →
    hoare reads_only (mret (ccp', Some e) : M (CritControlPlane * option error)) h' (λ o h',
      ∃ ccp' err, o = Val (ccp', err) ∧ ccp_Meta ccp' = ccp_Meta ccp ∧
        ccp_Spec ccp' = ccp_Spec ccp ∧
        (err = None → status_result ccp cluster (ccp_Status ccp') h'))).
  { intros ccp' e h' ??. by eexists _, (Some e). }
  unfold updateStatus. destruct (LabelSelector_String _) as [sel|e]; [|by apply Hfail].
  cbv zeta. apply hoare_bind.
  eapply hoare_mono; [| |apply hoare_reads, mc_machines]; [done|].
  intros [[owned|e]|] h1 (Hk&_&Hown); [|by apply Hfail|done]. destruct Hk as [Hk _].
  rewrite current_machines_eq by done. simpl ccp_Spec.
  change (current_machines owned (set_status (status_selector sel) ccp))
    with (current_machines owned ccp).
  assert (Hsub : (size (current_machines owned ccp) ≤ size owned)%nat).
  { apply map_subseteq_size, map_filter_subseteq. }
  assert (Hc : Z.of_nat (size owned) < 2 ^ 31 → int32 (Len owned) = Z.of_nat (size owned) ∧
    int32 (Len (current_machines owned ccp)) = Z.of_nat (size (current_machines owned ccp))).
  { intros. unfold Len. rewrite !int32_id by lia. done. }
  destruct (negb (time_IsZero _)) eqn:Hdel.
  { simpl. eexists _, None. split_and!; [done..|]. intros _. exists owned. split; [done|].
    split; [exact Hc|]. unfold reflects_nodes. simpl in Hdel. by rewrite Hdel. }
  apply hoare_bind. eapply hoare_mono; [| |apply hoare_reads, r_remote_reads]; [done|].
  intros [[c|e]|] h2 (Hnp&(l2&->&_)&_); [|by apply Hfail|done].
  apply hoare_call. split; [done|]. intros [nodes|e]; [|by apply Hfail].
  cbv zeta. apply hoare_bind.
  eapply hoare_mono; [| |apply (initialized_hoare _ c (λ h',
    @Ev k8s (List_Nodes c {["node-role.kubernetes.io/master" := ""]}) (Ok nodes) ∈ h' ∧
    performed (mc_GetMachinesForCluster (cl_Key cluster)
      [OwnedControlPlaneMachines (ccp_Name ccp)]) (Ok owned) h'))].
  - done.
  - intros o h3 (i&->&[Hnodes Hown']&Hi&Hi'). simpl. eexists _, None. split_and!; [done..|].
    intros _. exists owned. split; [done|]. split; [exact Hc|]. unfold reflects_nodes.
    simpl in Hdel. rewrite Hdel. exists c, nodes. split; [done|]. split; [|done].
    intros Hlt. pose proof (ready_nodes_range nodes). simpl.
    rewrite (count_ready_foldl nodes 0) by lia. rewrite Z.add_0_l. split; [done|]. split.
    + intros Hsz. rewrite (proj1 (Hc Hsz)), int32_id by lia. done.
    + destruct (Z.eqb_spec (ready_nodes nodes) 0); simpl; split; try done; lia.
  - split; [apply elem_of_app; right; left|by apply performed_app, performed_app].
  - intros h' l [Hn Ho]. split; [apply elem_of_app; by left|by apply performed_app].
Qed.

(** C16: updating the status only reads, never panics and leaves metadata and
    specification alone.  Without an error, the replica counts are the sizes
    of the control plane's machines and of those with the current template's
    hash; while the object is being deleted the workload cluster is not
    contacted, otherwise ready and unavailable replicas follow the ready
    nodes that were listed, the control plane is ready exactly when there is
    one, and it becomes initialized only when the [crit-config] map was
    found, after which it stays so. *)
Theorem updateStatus_accurate ccp cluster :
  (∀ tr1 a r tr2, reaches (updateStatus ccp cluster) (tr1 ++ Ev a r :: tr2) →
     is_write a = false) ∧
  ∀ tr o, runs (updateStatus ccp cluster) tr o →
    ∃ ccp' err, o = Val (ccp', err) ∧ ccp_Meta ccp' = ccp_Meta ccp ∧
      ccp_Spec ccp' = ccp_Spec ccp ∧
      (err = None → status_result ccp cluster (ccp_Status ccp') tr).
Proof.
  pose proof (updateStatus_hoare ccp cluster []) as H. split.
  - intros tr1 a r tr2 Hr. exact (hoare_reaches _ _ _ _ _ _ _ _ H Hr).
  - intros tr o Hr. exact (hoare_runs _ _ _ _ _ _ H Hr).
Qed.
End status_properties.

(** ** Witnesses *)

Module StatusWitness.
Import Reference ReferenceLaws Sample Fixtures CollectionWitness WorkloadWitness.
Import ManagementWitness.

(** One machine, two ready nodes. *)
Definition more_nodes : list event → ∀ a : k8s_action, k8s_answer a :=
  reachable [node "node-m1"; node "node-m2"] [m1].

Definition updated : CritControlPlane :=
  match (drive more_nodes [] (updateStatus (ccp 1) cluster)).2 with
  | Val (c, _) => c
  | Panic => ccp 1
  end.

(** Unavailable replicas can be negative: nodes, not machines, are counted
    as ready. *)
Lemma updateStatus_accurate_witness :
  ccpst_UnavailableReplicas (ccp_Status updated) = -1 ∧
  ∃ tr, runs (updateStatus (ccp 1) cluster) tr (Val (updated, None)) ∧
    status_result (ccp 1) cluster (ccp_Status updated) tr.
Proof.
  split; [vm_compute; reflexivity|].
  assert (Hd : (drive more_nodes [] (updateStatus (ccp 1) cluster)).2 = Val (updated, None))
    by (vm_compute; reflexivity).
  apply drive_result in Hd as [tr Hr]. exists tr. split; [exact Hr|].
  destruct (proj2 (updateStatus_accurate (ccp 1) cluster) tr _ Hr) as (c&err&Heq&_&_&Hres).
  assert (err = None) as -> by congruence. assert (c = updated) as -> by congruence.
  exact (Hres eq_refl).
Defined.
End StatusWitness.
