(* ===== verification/ControlPlaneController.v ===== *)
(** controllers/controlplane/controlplane.go and controller.go: the
    reconciliation of a [CritControlPlane]. *)
From S2P Require Import Prelude GoRuntime ApiTypes Platform SamplePlatform.
From S2P Require Import MachineFilters MachineCollection FailureDomain ControlPlane.
From S2P Require Import WorkloadCluster ManagementCluster Secrets MachineCreation Deletion.
From S2P Require Import Upgrade StatusUpdate.
Local Open Scope Z_scope.
Local Open Scope go_scope.

Section controller.
Context {R : GoRuntime} {P : Platform} {RC : CritControlPlaneReconciler}.

(** *** controlplane.go *)

Definition cluster_owner (cluster : Cluster) : OwnerReference := {|
  or_APIVersion := clusterv1_GroupVersion_String;
  or_Kind := "Cluster";
  or_Name := cl_Name cluster;
  or_UID := om_UID (cl_Meta cluster);
  or_Controller := None;
  or_BlockOwnerDeletion := None |}.

Definition reconcileExternalReference (cluster : Cluster) (ref : ObjectReference) :
    M (option error) :=
  if negb (strings_HasSuffix (ref_Kind ref) external_TemplateSuffix) then mret None
  else
    try obj := call (External_Get ref (cl_Namespace cluster)) catch err => mret (Some err);;
    check call NewPatchHelper catch err => mret (Some err);;
    let obj' := unstructured_SetOwnerReferences obj
      (util_EnsureOwnerRef (unstructured_OwnerReferences obj) (cluster_owner cluster)) in
    call (Patch_Unstructured obj obj').

Definition in_cluster (cluster : Cluster) : string :=
  strconv.Quote (cl_Name cluster) +:+ " in namespace " +:+ strconv.Quote (cl_Namespace cluster).

(** The last [return] wraps the error of the read, also after the secret was
    created: the inner [err] shadows it. *)
Definition reconcileControlPlaneKubeconfig (cluster : Cluster) (ccp : CritControlPlane) :
    M (option error) :=
  try _secret := GetFromNamespacedName (cl_Key cluster) Kubeconfig
  catch err =>
    (let failed := errors_Wrap err
       ("failed to retrieve Kubeconfig Secret for Cluster " +:+ in_cluster cluster) in
     if apierrors_IsNotFound err then
       check call (Kubeconfig_CreateSecretWithOwner (cl_Key cluster)
         (APIEndpoint_String (cl_ControlPlaneEndpoint cluster)) (controller_ref ccp))
       catch err' =>
         (if is_ErrDependentCertificateNotFound err' then
            mret (Some (errors_Wrap (capierrors_RequeueAfterError DependentCertRequeueAfter)
              ("could not find secret " +:+ strconv.Quote ClusterCA +:+ " for Cluster " +:+
               in_cluster cluster +:+ ", requeuing")))
          else mret (Some err'));;
       mret (Some failed)
     else mret (Some failed));;
  mret None.

(** The loop that creates the first machines: it returns at the first
    error.  [fds] has an element for every index. *)
Definition initialize_one (cluster : Cluster) (ccp : CritControlPlane)
    (bootstrapSpec : CritConfigSpec) (fds : list (option string)) (i : nat) (_ : unit) :
    M (unit + (Result * option error)) :=
  let fd := default None (fds !! i) in
  check cloneConfigsAndGenerateMachine cluster ccp bootstrapSpec fd
  catch err =>
    (_ ← call (Recorder_Event "FailedInitialization"
       ("Failed to create initial control plane Machine for cluster " +:+
        key_String (cl_Key cluster) +:+ " control plane: " +:+ error_Error err));
     mret (inr (NoResult, Some err)));;
  mret (inl tt).

Definition initialize (cluster : Cluster) (ccp : CritControlPlane)
    (controlPlane : ControlPlane) : M (Result * option error) :=
  let bootstrapSpec := ccps_CritConfigSpec (ccp_Spec ccp) in
  let replicas := ccps_Replicas (ccp_Spec ccp) in
  fds ← lift (NFailureDomainsWithFewestMachines controlPlane replicas);
  r ← for_each (seq 0 (Z.to_nat replicas)) tt (initialize_one cluster ccp bootstrapSpec fds);
  mret (match r with inr out => out | inl _ => (Requeue, None) end).

(** From the ownership of the listed machines on. *)
Definition manage_machines (cluster : Cluster) (ccp : CritControlPlane)
    (ownedMachines : FilterableMachineCollection) : M (Result * option error) :=
  EnsureOwnership (NewControlPlane cluster ccp ownedMachines) ≫= λ '(ownedMachines, err),
  match err with
  | Some err => mret (NoResult, Some err)
  | None =>
      let controlPlane := NewControlPlane cluster ccp ownedMachines in
      if (0 <? size (MachinesNeedingUpgrade controlPlane))%nat then
        upgradeControlPlane cluster ccp controlPlane
      else if Z.of_nat (size ownedMachines) =? ccps_Replicas (ccp_Spec ccp) then
        mret (NoResult, None)
      else if (size ownedMachines =? 0)%nat then initialize cluster ccp controlPlane
      else mret (NoResult, None)
  end.

(** From the listing of the machines on. *)
Definition reconcileMachines (cluster : Cluster) (ccp : CritControlPlane) :
    M (Result * option error) :=
  try ownedMachines :=
    mc_GetMachinesForCluster (cl_Key cluster) [OwnedControlPlaneMachines (ccp_Name ccp)]
  catch err => mret (NoResult, Some err);;
  manage_machines cluster ccp ownedMachines.

Definition with_finalizer (ccp : CritControlPlane) : CritControlPlane :=
  ccp_with_meta (controllerutil_AddFinalizer (ccp_Meta ccp) CritControlPlaneFinalizer) ccp.

(** The object the reconciliation works on is [with_finalizer ccp]; nothing
    else of it changes. *)
Definition reconcileControlPlane (cluster : Cluster) (ccp : CritControlPlane)
    (cfg : ControlPlaneConfiguration) : M (Result * option error) :=
  let ccp := with_finalizer ccp in
  check reconcileExternalReference cluster (ccps_InfrastructureTemplate (ccp_Spec ccp))
  catch err => mret (NoResult, Some err);;
  LookupOrGenerate
    (NewCertificatesForControlPlane
      (filepath_Join [nc_KubeDir (cpc_NodeConfiguration cfg); "pki"]))
    (cl_Key cluster) (controller_ref ccp) ≫= λ '(_, err),
  match err with
  | Some err => mret (NoResult, Some err)
  | None =>
      if APIEndpoint_IsZero (cl_ControlPlaneEndpoint cluster) then mret (NoResult, None)
      else
        check reconcileControlPlaneKubeconfig cluster ccp
        catch err => mret (NoResult, Some err);;
        reconcileMachines cluster ccp
  end.

(** *** controller.go *)

(** What the reconciliation proper ends with: a return, or a panic, which
    runs the deferred function too; with it the object at that point. *)
Inductive ending :=
| Returned (ccp : CritControlPlane) (res : Result) (reterr : option error)
| Panicked (ccp : CritControlPlane).

(** Runs the body to its end, catching the unwinding for the deferred
    function. *)
Definition catching {A} (p : M A) (f : A → ending) (ccp : CritControlPlane) : M ending :=
  pbind p (λ o, match o with Val x => Ret (Val (f x)) | Panic => Ret (Val (Panicked ccp)) end).

Definition reconcile_body (cluster : Cluster) (ccp : CritControlPlane) : M ending :=
  if negb (time_IsZero (om_DeletionTimestamp (ccp_Meta ccp))) then
    catching (reconcileDelete cluster ccp)
      (λ '(ccp', (res, err)), Returned ccp' res err) ccp
  else
    match configutil_Unmarshal (ccs_Config (ccps_CritConfigSpec (ccp_Spec ccp))) with
    | Err err => mret (Returned ccp NoResult (Some err))
    | Ok (ControlPlaneObject cfg) =>
        catching (reconcileControlPlane cluster ccp cfg)
          (λ '(res, err), Returned (with_finalizer ccp) res err) (with_finalizer ccp)
    | Ok obj =>
        mret (Returned ccp NoResult (Some (errors_New
          ("expected ControlPlaneConfiguration, received " +:+ fmt_T obj))))
    end.

(** A [RequeueAfterError] becomes a delay. *)
Definition convert_requeue (res : Result) (reterr : option error) : Result * option error :=
  match reterr with
  | None => (res, reterr)
  | Some e =>
      match as_HasRequeueAfterError (errors_Cause e) with
      | Some d => if res_RequeueAfter res =? 0
                  then ({| res_Requeue := res_Requeue res; res_RequeueAfter := d |}, None)
                  else (res, reterr)
      | None => (res, reterr)
      end
  end.

Definition add_error (reterr err : option error) : option error :=
  match err with
  | None => reterr
  | Some _ => kerrors_NewAggregate [reterr; err]
  end.

(** The deferred function; [original] is the object the patch helper was
    made with. *)
Definition deferred (cluster : Cluster) (original ccp : CritControlPlane) (res : Result)
    (reterr : option error) : M (Result * option error) :=
  let '(res, reterr) := convert_requeue res reterr in
  updateStatus ccp cluster ≫= λ '(ccp, err),
  let reterr := add_error reterr err in
  err ← call (Patch_CritControlPlane original ccp);
  let reterr := add_error reterr err in
  mret (match reterr with
        | Some _ => (res, reterr)
        | None =>
            if negb (res_Requeue res) && negb (0 <? res_RequeueAfter res) &&
               time_IsZero (om_DeletionTimestamp (ccp_Meta ccp)) &&
               negb (ccpst_Ready (ccp_Status ccp))
            then ({| res_Requeue := false; res_RequeueAfter := 20 * Second |}, None)
            else (res, None)
        end).

Definition Reconcile (req : ObjectKey) : M (Result * option error) :=
  try ccp := call (Get_CritControlPlane req)
  catch err =>
    (if apierrors_IsNotFound err then mret (NoResult, None) else mret (Requeue, None));;
  try cluster := call (GetOwnerCluster (ccp_Meta ccp))
  catch err => mret (NoResult, Some err);;
  match cluster with
  | None => mret (NoResult, None)
  | Some cluster =>
      if util_IsPaused cluster (ccp_Meta ccp) then mret (NoResult, None)
      else if negb (cl_InfrastructureReady cluster) then mret (NoResult, None)
      else
        check call NewPatchHelper catch _err => mret (Requeue, None);;
        e ← reconcile_body cluster ccp;
        match e with
        | Returned ccp' res reterr => deferred cluster ccp ccp' res reterr
        | Panicked ccp' => _ ← deferred cluster ccp ccp' NoResult None; panic
        end
  end.

(** [o.Object] as a cluster; [None] for an object of another type. *)
Definition ClusterToCritControlPlane (c : option Cluster) : list ObjectKey :=
  match c with
  | None => []
  | Some c =>
      match cl_ControlPlaneRef c with
      | Some controlPlaneRef =>
          if String.eqb (ref_Kind controlPlaneRef) "CritControlPlane" then
            [{| key_Namespace := ref_Namespace controlPlaneRef;
                key_Name := ref_Name controlPlaneRef |}]
          else []
      | None => []
      end
  end.
End controller.

(** ** Lemmas *)

Section controller_lemmas.
Context {R : GoRuntime} {RL : GoRuntimeLaws R} {P : Platform} {AL : AggregateLaws P}.
Context {RC : CritControlPlaneReconciler} {RCL : ReconcilerLaws RC}.
Implicit Types (cluster : Cluster) (ccp : CritControlPlane).

(** The machines created in an execution, in order. *)
Definition created (tr : list event) : list Machine := omap created_machine tr.

Lemma deletions_created refs del : deletions refs del → created del = [].
Proof. induction 1 as [|ref e refs del [r ->] _ IH]; [done|]. exact IH. Qed.

Lemma creation_run_created cluster ccp spec fd tr ok :
  creation_run cluster ccp spec fd tr ok →
  if ok then ∃ n infra cfg, created tr = [new_machine n ccp cluster infra (Some (config_ref cfg)) fd]
  else created tr = [].
Proof.
  destruct 1 as [e|infra n1 e del Hd|infra n1 cfg n2 e del Hd|infra n1 cfg n2];
    [done|by apply deletions_created in Hd..|by exists n2, infra, cfg].
Qed.

Lemma created_app tr1 tr2 : created (tr1 ++ tr2) = created tr1 ++ created tr2.
Proof. apply omap_app. Qed.

(** One iteration of the initialization. *)
Lemma initialize_one_run cluster ccp spec fds i s tr o :
  runs (initialize_one cluster ccp spec fds i s) tr o →
  (o = Val (inl tt) ∧ ∃ n infra cfg, created tr =
     [new_machine n ccp cluster infra (Some (config_ref cfg)) (default None (fds !! i))]) ∨
  (∃ e, o = Val (inr (NoResult, Some e))) ∧ created tr = [].
Proof.
  unfold initialize_one. intros [[Hr ->]|(tr1&tr2&err&->&H1&H2)]%runs_bind.
  { by apply creation_run_of in Hr as (?&?&?&_). }
  apply creation_run_of in H1 as (err'&ok&[= <-]&Hrun&Hok).
  apply creation_run_created in Hrun. destruct err as [e|].
  - destruct ok; [by discriminate (proj1 Hok eq_refl)|]. right.
    apply runs_call in H2 as ([]&tr'&->&->&->). rewrite created_app, Hrun. eauto.
  - rewrite (proj2 Hok eq_refl) in Hrun. destruct H2 as [-> ->]. left.
    by rewrite app_nil_r.
Qed.

(** The machines created by the loop: one per index, in order, up to the
    first failure. *)
Lemma initialize_loop_run cluster ccp spec fds l tr o :
  runs (for_each l tt (initialize_one cluster ccp spec fds)) tr o →
  ∃ j, mach_FailureDomain <$> created tr = (λ i, default None (fds !! i)) <$> take j l ∧
    (∀ m, m ∈ created tr → ∃ n infra cfg fd,
       m = new_machine n ccp cluster infra (Some (config_ref cfg)) fd) ∧
    ((o = Val (inl tt) ∧ j = length l) ∨
     ((∃ e, o = Val (inr (NoResult, Some e))) ∧ (j < length l)%nat)).
Proof.
  revert tr o; induction l as [|i l IH]; intros tr o; cbn [for_each].
  { intros [-> ->]. exists 0%nat. split; [done|]. split; [by intros ? ?%not_elem_of_nil|by left]. }
  intros [[Hr ->]|(tr1&tr2&x&->&H1&H2)]%runs_bind.
  { by apply initialize_one_run in Hr as [[? _]|[[? ?] _]]. }
  apply initialize_one_run in H1 as [[[= ->] (n&infra&cfg&Hc)]|[[e [= ->]] Hc]].
  - apply IH in H2 as (j&Hfd&Hnew&Hj). exists (S j). rewrite created_app, Hc.
    split; [cbn [app take]; by rewrite !fmap_cons, Hfd|]. split.
    + intros m [->|?]%elem_of_cons; eauto 10.
    + destruct Hj as [[-> ->]|[? ?]]; [by left|right; split; [done|simpl; lia]].
  - destruct H2 as [-> ->]. exists 0%nat. rewrite app_nil_r, Hc.
    split; [done|]. split; [by intros ? ?%not_elem_of_nil|]. right. split; [eauto|simpl; lia].
Qed.
End controller_lemmas.

(** ** Properties *)

Lemma lookup_seq_id {A} (l : list (option A)) :
  (λ i, default None (l !! i)) <$> seq 0 (length l) = l.
Proof.
  apply list_eq; intros i. rewrite list_lookup_fmap.
  destruct (decide (i < length l)%nat) as [Hi|Hi].
  - rewrite lookup_seq_lt by done. simpl. by destruct (lookup_lt_is_Some_2 _ _ Hi) as [x ->].
  - by rewrite lookup_seq_ge, lookup_ge_None_2 by lia.
Qed.

Section initialization_properties.
Context {R : GoRuntime} {RL : GoRuntimeLaws R} {P : Platform} {AL : AggregateLaws P}.
Context {RC : CritControlPlaneReconciler} {RCL : ReconcilerLaws RC}.
Implicit Types (cluster : Cluster) (ccp : CritControlPlane) (cp : ControlPlane).

Lemma new_machine_current `{!LabelLaws P} n ccp cluster infra ref fd :
  OwnedControlPlaneMachines (ccp_Name ccp)
    (Some (new_machine n ccp cluster infra ref fd)) = true ∧
  MatchesConfigurationHash (Hash (ccp_Spec ccp))
    (Some (new_machine n ccp cluster infra ref fd)) = true.
Proof.
  destruct (new_labels_lookup (cl_Name cluster) (ccp_Name ccp) (Hash (ccp_Spec ccp)))
    as (_&?&_&?).
  by rewrite OwnedControlPlaneMachines_true, MatchesConfigurationHash_true.
Qed.

(** What an execution of the initialization creates. *)
Lemma initialize_run `{!LabelLaws P} cluster ccp cp tr o :
  0 ≤ ccps_Replicas (ccp_Spec ccp) → runs (initialize cluster ccp cp) tr o →
  ∃ fds j, NFailureDomainsWithFewestMachines cp (ccps_Replicas (ccp_Spec ccp)) = Val fds ∧
    Z.of_nat (length fds) = ccps_Replicas (ccp_Spec ccp) ∧
    mach_FailureDomain <$> created tr = take j fds ∧
    (∀ m, m ∈ created tr →
       OwnedControlPlaneMachines (ccp_Name ccp) (Some m) = true ∧
       MatchesConfigurationHash (Hash (ccp_Spec ccp)) (Some m) = true) ∧
    ((o = Val (Requeue, None) ∧ j = length fds) ∨
     ((∃ e, o = Val (NoResult, Some e)) ∧ (j < length fds)%nat)).
Proof.
  unfold initialize. cbv zeta. intros Hpos Hr.
  destruct (PickNFewest_length (FilterControlPlane (cp_FailureDomains cp))
    (cp_Machines cp) _ Hpos) as (fds&Hfds&Hlen).
  unfold NFailureDomainsWithFewestMachines in *. rewrite Hfds in Hr.
  apply runs_bind in Hr as [[[_ [=]] _]|(tr0&tr1&?&->&[-> [= ->]]&Hr)].
  rewrite <-Hlen in Hr. apply runs_bind in Hr as [[Hr ->]|(tr2&tr3&x&->&H1&H2)].
  { by apply initialize_loop_run in Hr as (?&_&_&[[? _]|[[? ?] _]]). }
  apply initialize_loop_run in H1 as (j&Hfd&Hnew&Hj). destruct H2 as [-> ->].
  rewrite fmap_take, lookup_seq_id in Hfd. rewrite length_seq in Hj.
  exists fds, j. rewrite app_nil_r. simpl app. split_and!; [done|lia|done| |].
  - intros m (n&infra&cfg&fd&->)%Hnew. apply new_machine_current.
  - destruct Hj as [[[= ->] ->]|[[e [= ->]] ?]]; [by left|right; eauto].
Qed.

(** C17: initializing a control plane panics, before any request, exactly when
    the number of replicas is negative.  Otherwise the machines it creates
    take the failure domains picked for the replicas, one each and in order;
    all carry the control plane's labels and current hash; and it either
    creates one per replica and asks to be called again, or stops at the
    first failure with an error. *)
Theorem initialize_spreads `{!LabelLaws P} cluster ccp cp tr o :
  runs (initialize cluster ccp cp) tr o →
  (ccps_Replicas (ccp_Spec ccp) < 0 → o = Panic ∧ tr = []) ∧
  (0 ≤ ccps_Replicas (ccp_Spec ccp) →
   ∃ fds j, NFailureDomainsWithFewestMachines cp (ccps_Replicas (ccp_Spec ccp)) = Val fds ∧
     Z.of_nat (length fds) = ccps_Replicas (ccp_Spec ccp) ∧
     mach_FailureDomain <$> created tr = take j fds ∧
     (∀ m, m ∈ created tr →
        OwnedControlPlaneMachines (ccp_Name ccp) (Some m) = true ∧
        MatchesConfigurationHash (Hash (ccp_Spec ccp)) (Some m) = true) ∧
     ((o = Val (Requeue, None) ∧ j = length fds) ∨
      ((∃ e, o = Val (NoResult, Some e)) ∧ (j < length fds)%nat))).
Proof.
  intros Hr. split; [|intros; by apply (initialize_run cluster)].
  intros Hneg. unfold initialize, NFailureDomainsWithFewestMachines, PickNFewest in Hr. cbv zeta in Hr.
  destruct (Z.ltb_spec (ccps_Replicas (ccp_Spec ccp)) 0); [|lia]. by destruct Hr as [-> ->].
Qed.

(** C34: the kubeconfig step succeeds exactly when the secret can be read.
    When the secret is missing it is created once, but the step still fails:
    with a delay if the cluster CA is missing, with the creation's error, or
    -- when the creation succeeds -- with the error of the read. *)
Theorem reconcileKubeconfig_branches cluster ccp tr o :
  runs (reconcileControlPlaneKubeconfig cluster ccp) tr o →
  ∃ r tr', tr = Ev (Get_Secret Mgmt (secret_key (cl_Key cluster) Kubeconfig)) r :: tr' ∧
    match r with
    | Ok _ => tr' = [] ∧ o = Val None
    | Err e =>
        let failed := errors_Wrap e
          ("failed to retrieve Kubeconfig Secret for Cluster " +:+ in_cluster cluster) in
        if apierrors_IsNotFound e then
          ∃ r', tr' = [Ev (Kubeconfig_CreateSecretWithOwner (cl_Key cluster)
              (APIEndpoint_String (cl_ControlPlaneEndpoint cluster)) (controller_ref ccp)) r'] ∧
            match r' with
            | None => o = Val (Some failed)
            | Some e' =>
                if is_ErrDependentCertificateNotFound e' then
                  ∃ msg, o = Val (Some (errors_Wrap
                    (capierrors_RequeueAfterError DependentCertRequeueAfter) msg))
                else o = Val (Some e')
            end
        else tr' = [] ∧ o = Val (Some failed)
    end.
Proof.
  intros (r&tr'&->&Hr). exists r, tr'. split; [done|]. destruct r as [s|e].
  - by destruct Hr as [-> ->].
  - cbv zeta. simpl in Hr. destruct (apierrors_IsNotFound e); [|by destruct Hr as [-> ->]].
    destruct Hr as (r'&tr2&->&Hr). exists r'.
    destruct r' as [e'|]; simpl in Hr; [|by destruct Hr as [-> ->]].
    destruct (is_ErrDependentCertificateNotFound e'); destruct Hr as [-> ->]; eauto.
Qed.
End initialization_properties.

(** ** The whole reconciliation *)

Section reconcile_guards.
Context {R : GoRuntime} {P : Platform} {RC : CritControlPlaneReconciler}.
Implicit Types (cluster : Cluster) (ccp : CritControlPlane) (cp : ControlPlane).

Definition owned_listing cluster ccp : M (result error FilterableMachineCollection) :=
  mc_GetMachinesForCluster (cl_Key cluster) [OwnedControlPlaneMachines (ccp_Name ccp)].

(** The control plane whose machines were listed and found, or made, its
    own. *)
Definition adopted_plane cluster ccp cp (h : list event) : Prop :=
  ∃ owned ms, performed (owned_listing cluster ccp) (Ok owned) h ∧
    performed (EnsureOwnership (NewControlPlane cluster ccp owned)) (ms, None) h ∧
    cp = NewControlPlane cluster ccp ms.

(** Writes about machines: adoption of listed machines, a rollout step of a
    control plane with outdated machines, or the creation of machines for
    one that has none. *)
Definition machines_guard cluster ccp (h : list event) (a : k8s_action) : Prop :=
  is_write a = true →
  (∃ owned, performed (owned_listing cluster ccp) (Ok owned) h ∧
     adoption_guard (NewControlPlane cluster ccp owned) a) ∨
  ∃ cp, adopted_plane cluster ccp cp h ∧
    ((MachinesNeedingUpgrade cp ≠ ∅ ∧ rollout_guard cluster ccp cp h a) ∨
     (cp_Machines cp = ∅ ∧ creation_action cluster ccp a)).

(** Writes of a whole reconciliation of an object that is not being deleted:
    the owner of the infrastructure template, missing certificates, a
    missing kubeconfig, and then the machines. *)
Definition reconcile_guard cluster ccp (h : list event) (a : k8s_action) : Prop :=
  match a with
  | Patch_Unstructured _ _ => True
  | Create_Secret _ _ => creation_guard (cl_Key cluster) (controller_ref ccp) h a
  | Kubeconfig_CreateSecretWithOwner k _ owner =>
      k = cl_Key cluster ∧ owner = controller_ref ccp ∧ absent (cl_Key cluster) h Kubeconfig
  | _ => machines_guard cluster ccp h a
  end.
End reconcile_guards.

Section reconcile_machines.
Context {R : GoRuntime} {RL : GoRuntimeLaws R} {P : Platform} {AL : AggregateLaws P}.
Context {FL : FailureDomainLaws P} {ML : MachineOrderLaws P}.
Context {RC : CritControlPlaneReconciler} {RCL : ReconcilerLaws RC}.
Implicit Types (cluster : Cluster) (ccp : CritControlPlane) (cp : ControlPlane).

Lemma adopt_keyed cp ms : keyed ms → keyed (adopt cp <$> ms).
Proof.
  intros Hk k m. rewrite lookup_fmap, fmap_Some. intros (m0&Hm0&->).
  apply Hk in Hm0 as <-. unfold adopt. by destruct (GetControllerOf _).
Qed.

Lemma adopted_plane_prefix cluster ccp cp h h' :
  adopted_plane cluster ccp cp h → h `prefix_of` h' → adopted_plane cluster ccp cp h'.
Proof. intros (owned&ms&?&?&?) ?. exists owned, ms. eauto using performed_prefix. Qed.

(** It only creates. *)
Lemma initialize_creates cluster ccp cp h :
  hoare (λ _ a, creation_action cluster ccp a) (initialize cluster ccp cp) h
    (λ o _, o = Panic → ccps_Replicas (ccp_Spec ccp) < 0).
Proof.
  unfold initialize, NFailureDomainsWithFewestMachines. cbv zeta.
  destruct (Z.ltb_spec (ccps_Replicas (ccp_Spec ccp)) 0) as [Hneg|Hpos].
  { unfold PickNFewest. destruct (Z.ltb_spec (ccps_Replicas (ccp_Spec ccp)) 0); [by simpl; intros _|lia]. }
  destruct (PickNFewest_length (FilterControlPlane (cp_FailureDomains cp))
    (cp_Machines cp) _ Hpos) as (fds&->&_).
  apply hoare_bind. cbn [lift hoare]. apply hoare_bind.
  apply (hoare_for_each _ (λ _ _ _, True)); [done| |done].
  intros i l [] h1 _. apply hoare_bind. eapply hoare_mono; [| |apply creation_hoare].
  - by intros h' a [Ha _].
  - intros [[e|]|] h2 Hnp; [|done..]. apply hoare_call. split; [done|]. by intros [].
Qed.

Lemma initialize_hoare cluster ccp cp h :
  adopted_plane cluster ccp cp h → cp_Machines cp = ∅ →
  hoare (machines_guard cluster ccp) (initialize cluster ccp cp) h
    (λ o _, o = Panic → ccps_Replicas (ccp_Spec ccp) < 0).
Proof.
  intros Hcp Hempty.
  eapply hoare_mono; [| |apply hoare_prefix_guard, initialize_creates].
  - intros h' a [Hpre Ha] _. right. exists cp. split; [by eapply adopted_plane_prefix|by right].
  - done.
Qed.

Lemma reads_machines cluster ccp h a : reads_only h a → machines_guard cluster ccp h a.
Proof. unfold reads_only, machines_guard. congruence. Qed.

Lemma reconcileMachines_hoare cluster ccp h :
  unchanged h →
  hoare (machines_guard cluster ccp) (reconcileMachines cluster ccp) h
    (λ o _, o = Panic → ccps_Replicas (ccp_Spec ccp) < 0).
Proof.
  intros Hu. unfold reconcileMachines. apply hoare_bind.
  eapply hoare_mono; [apply reads_machines| |apply hoare_reads, mc_machines].
  intros [[owned|e]|] h1 (Hk&Hl&Hown); [|done..]. destruct Hk as [Hk _].
  destruct (unchanged_reads _ _ Hu Hl) as [Hu1 Hp1]. unfold manage_machines.
  apply hoare_bind. eapply hoare_mono; [| |apply hoare_prefix_guard, hoare_unchanged,
    EnsureOwnership_hoare; intros h' a (k&m&_&_&->); done].
  { intros h' a [Hpre Ha] _. left. exists owned. split; [by eapply performed_prefix|done]. }
  intros [[ms err]|] h2 (Hms&Hl2&Hens); [|done].
  destruct (unchanged_reads _ _ Hu1 Hl2) as [Hu2 Hp2]. destruct err as [e|]; [done|].
  destruct Hms as [-> _].
  change (cp_Machines (NewControlPlane cluster ccp owned)) with owned in *. set (ms := adopt (NewControlPlane cluster ccp owned) <$> owned) in *.
  set (cp := NewControlPlane cluster ccp ms).
  assert (adopted_plane cluster ccp cp h2) as Hcp.
  { exists owned, ms. split; [by eapply performed_prefix|done]. }
  cbv zeta. fold cp. destruct (Nat.ltb_spec 0 (size (MachinesNeedingUpgrade cp))) as [Hlt|_].
  - assert (MachinesNeedingUpgrade cp ≠ ∅) as Hne.
    { intros Heq%map_size_empty_iff. lia. }
    eapply hoare_mono; [| |apply hoare_prefix_guard, upgrade_hoare; [by apply adopt_keyed|done|done]].
    + intros h' a [Hpre Ha] _. right. exists cp.
      split; [by eapply adopted_plane_prefix|by left].
    + by intros o h' (res&err&->&_).
  - destruct (_ =? _); [done|]. destruct (Nat.eqb_spec (size ms) 0) as [Hz|]; [|done].
    apply initialize_hoare; [done|]. by apply map_size_empty_iff.
Qed.
End reconcile_machines.

Section reconcile_hoare.
Context {R : GoRuntime} {RL : GoRuntimeLaws R} {P : Platform} {AL : AggregateLaws P}.
Context {FL : FailureDomainLaws P} {ML : MachineOrderLaws P}.
Context {RC : CritControlPlaneReconciler} {RCL : ReconcilerLaws RC}.
Implicit Types (cluster : Cluster) (ccp : CritControlPlane) (cp : ControlPlane).

Lemma reads_reconcile cluster ccp h a : reads_only h a → reconcile_guard cluster ccp h a.
Proof. intros Ha. pose proof (reads_machines cluster ccp h a Ha). by destruct a. Qed.

Lemma machines_reconcile cluster ccp h a :
  machines_guard cluster ccp h a → reconcile_guard cluster ccp h a.
Proof.
  intros Ha. destruct a; try exact Ha; try exact I; exfalso;
    (destruct (Ha eq_refl) as [(owned&_&k'&m&_&_&[=])|(cp&_&[[_ [_ Hg]]|[_ Hg]])];
      [destruct (Hg eq_refl) as [[=] _]|discriminate Hg]).
Qed.

(** Writes of the first step. *)
Definition template_guard : list event → k8s_action → Prop := λ _ a,
  match a with Patch_Unstructured _ _ => True | _ => is_write a = false end.

Lemma reconcileExternalReference_hoare cluster ref h :
  hoare template_guard (reconcileExternalReference cluster ref) h (λ o _, o ≠ Panic).
Proof.
  unfold reconcileExternalReference. destruct (negb _); [done|].
  apply hoare_call. split; [done|]. intros [obj|e]; [|done].
  apply hoare_call. split; [done|]. by intros [e|].
Qed.

(** Writes of the kubeconfig step. *)
Definition kubeconfig_guard cluster ccp (h : list event) (a : k8s_action) : Prop :=
  match a with
  | Kubeconfig_CreateSecretWithOwner k _ owner =>
      k = cl_Key cluster ∧ owner = controller_ref ccp ∧ absent (cl_Key cluster) h Kubeconfig
  | _ => is_write a = false
  end.

Lemma reconcileKubeconfig_hoare cluster ccp h :
  hoare (kubeconfig_guard cluster ccp) (reconcileControlPlaneKubeconfig cluster ccp) h
    (λ o _, o ≠ Panic).
Proof.
  unfold reconcileControlPlaneKubeconfig. apply hoare_call. split; [done|].
  intros [s|e]; [done|]. cbv zeta. destruct (apierrors_IsNotFound e) eqn:He; [|done].
  apply hoare_call. split.
  - split_and!; [done..|]. exists e. split; [done|]. apply elem_of_app. right. left.
  - intros [e'|]; [|done]. by destruct (is_ErrDependentCertificateNotFound e').
Qed.

Lemma reconcileControlPlane_hoare cluster ccp cfg h :
  unchanged h →
  hoare (reconcile_guard cluster (with_finalizer ccp)) (reconcileControlPlane cluster ccp cfg) h
    (λ o _, o = Panic → ccps_Replicas (ccp_Spec ccp) < 0).
Proof.
  intros Hu. unfold reconcileControlPlane. cbv zeta. apply hoare_bind. eapply hoare_mono;
    [| |apply hoare_unchanged, reconcileExternalReference_hoare; intros ? []; done].
  { intros h' a Ha. destruct a; try done; by apply reads_reconcile. }
  intros [[e|]|] h1 (Hnp&Hl&_); [done| |done].
  destruct (unchanged_reads _ _ Hu Hl) as [Hu1 _]. apply hoare_bind. eapply hoare_mono;
    [| |apply hoare_unchanged, LookupOrGenerate_hoare].
  - intros h' a Ha. destruct a; try done; by apply reads_reconcile.
  - intros o h2 ((c&err&->&_)&Hl2&_). destruct (unchanged_reads _ _ Hu1 Hl2) as [Hu2 _].
    destruct err as [e|]; [done|]. destruct (APIEndpoint_IsZero _); [done|].
    apply hoare_bind. eapply hoare_mono;
      [| |apply hoare_unchanged, reconcileKubeconfig_hoare; intros ? []; done].
    { intros h' a Ha. destruct a; try done; by apply reads_reconcile. }
    intros [[e|]|] h3 (Hnp3&Hl3&_); [done| |done].
    destruct (unchanged_reads _ _ Hu2 Hl3) as [Hu3 _].
    eapply hoare_mono; [| |by apply reconcileMachines_hoare]; [|done].
    apply machines_reconcile.
  - intros h' a Ha. by destruct a.
  - intros x. unfold NewCertificatesForControlPlane. rewrite !elem_of_cons, elem_of_nil.
    by intros [->|[->|[->|[->|[->|[]]]]]].
Qed.
End reconcile_hoare.

Section reconcile_top.
Context {R : GoRuntime} {RL : GoRuntimeLaws R} {P : Platform} {AL : AggregateLaws P}.
Context {FL : FailureDomainLaws P} {ML : MachineOrderLaws P}.
Context {RC : CritControlPlaneReconciler} {RCL : ReconcilerLaws RC}.
Implicit Types (cluster : Cluster) (ccp : CritControlPlane).

Definition deleting ccp : bool := negb (time_IsZero (om_DeletionTimestamp (ccp_Meta ccp))).

(** The result leads to another reconciliation, or none is needed. *)
Definition settled (res : Result) (after : CritControlPlane) : Prop :=
  res_Requeue res = true ∨ 0 < res_RequeueAfter res ∨ deleting after = true ∨
  ccpst_Ready (ccp_Status after) = true.

(** The deferred function ends with the patch of the object. *)
Definition patched original (o : outcome (Result * option error)) (h : list event) : Prop :=
  ∃ h0 after r, h = h0 ++ [Ev (Patch_CritControlPlane original after) r] ∧
    ccp_Spec after = ccp_Spec original ∧
    match o with
    | Val (res, None) => r = None ∧ settled res after
    | _ => True
    end.

Definition patch_guard original : list event → k8s_action → Prop := λ _ a,
  match a with
  | Patch_CritControlPlane before after =>
      before = original ∧ ccp_Spec after = ccp_Spec original
  | _ => is_write a = false
  end.

Lemma add_error_None r e : add_error r e = None → r = None ∧ e = None.
Proof.
  unfold add_error. destruct e as [e|]; [|done]. intros Hagg%aggregate_nil.
  rewrite !Forall_cons in Hagg. by destruct Hagg as (_&[=]&_).
Qed.

Lemma deferred_hoare cluster original ccp res reterr h :
  ccp_Spec ccp = ccp_Spec original →
  hoare (patch_guard original) (deferred cluster original ccp res reterr) h
    (λ o h', o ≠ Panic ∧ patched original o h').
Proof.
  intros Hspec. unfold deferred. destruct (convert_requeue res reterr) as [res1 err1].
  apply hoare_bind. eapply hoare_mono; [| |apply updateStatus_hoare]; [by intros ? []|].
  intros o h1 (ccp'&err&->&Hmeta&Hspec'&_). cbv zeta.
  apply hoare_call. split; [by split; [|congruence]|]. intros r. simpl.
  assert (∀ res' err', (err' = None → r = None ∧ settled res' ccp') →
    (Val (res', err') : outcome (Result * option error)) ≠ Panic ∧
    patched original (Val (res', err'))
      (h1 ++ [@Ev k8s (Patch_CritControlPlane original ccp') r])) as Hdone.
  { intros res' err' Hs. split; [done|]. exists h1, ccp', r. split; [done|].
    split; [congruence|]. destruct err'; [done|by apply Hs]. }
  destruct (add_error (add_error err1 err) r) as [e|] eqn:Hadd; [by apply Hdone|].
  apply add_error_None in Hadd as [_ ->].
  destruct (negb (res_Requeue res1)) eqn:H1; [|apply Hdone; split; [done|left; by destruct (res_Requeue res1)]].
  destruct (Z.ltb_spec 0 (res_RequeueAfter res1)); [apply Hdone; split; [done|by right; left]|].
  destruct (time_IsZero (om_DeletionTimestamp (ccp_Meta ccp'))) eqn:H3;
    [|apply Hdone; split; [done|right; right; left; unfold deleting; by rewrite H3]].
  destruct (ccpst_Ready (ccp_Status ccp')) eqn:H4; simpl; apply Hdone; split; try done.
  - by do 3 right.
  - right; left. reflexivity.
Qed.
End reconcile_top.

Section reconcile_theorem.
Context {R : GoRuntime} {RL : GoRuntimeLaws R} {P : Platform} {AL : AggregateLaws P}.
Context {FL : FailureDomainLaws P} {ML : MachineOrderLaws P}.
Context {RC : CritControlPlaneReconciler} {RCL : ReconcilerLaws RC}.

(** The reads every reconciliation starts with, and the object and cluster
    they gave; only then does it go on to write. *)
Definition admitted (req : ObjectKey) ccp cluster (h : list event) : Prop :=
  (∃ h', h = Ev (Get_CritControlPlane req) (Ok ccp) ::
     Ev (GetOwnerCluster (ccp_Meta ccp)) (Ok (Some cluster)) :: Ev NewPatchHelper None :: h') ∧
  util_IsPaused cluster (ccp_Meta ccp) = false ∧ cl_InfrastructureReady cluster = true.

Definition Reconcile_guard (req : ObjectKey) (h : list event) (a : k8s_action) : Prop :=
  is_write a = true →
  ∃ ccp cluster, admitted req ccp cluster h ∧
    (patch_guard ccp h a ∨
     (deleting ccp = true ∧ deletion_guard cluster ccp h a) ∨
     (deleting ccp = false ∧ reconcile_guard cluster (with_finalizer ccp) h a)).

(** Either nothing was written, or the object was patched last; only a
    negative number of replicas can make it panic. *)
Definition Reconcile_end (req : ObjectKey) (o : outcome (Result * option error))
    (h : list event) : Prop :=
  (o ≠ Panic ∧ writeless h) ∨
  ∃ ccp cluster, admitted req ccp cluster h ∧ patched ccp o h ∧
    (o = Panic → ccps_Replicas (ccp_Spec ccp) < 0).

Lemma admitted_app req ccp cluster h l :
  admitted req ccp cluster h → admitted req ccp cluster (h ++ l).
Proof. intros [[h' ->] ?]. split; [|done]. by exists (h' ++ l). Qed.

Lemma catching_hoare {A} G (p : M A) (f : A → ending) ccp h (Q : ending → list event → Prop) :
  hoare G p h (λ o h', match o with Val x => Q (f x) h' | Panic => Q (Panicked ccp) h' end) →
  hoare G (catching p f ccp) h (λ o h', match o with Val e => Q e h' | Panic => False end).
Proof.
  intros H. apply hoare_pbind. eapply hoare_mono; [done| |exact H]. by intros [x|] h'.
Qed.

(** The body, from the object that was read: its writes, and what it leaves
    for the deferred function. *)
Lemma reconcile_body_hoare cluster ccp h :
  unchanged h →
  hoare (λ h' a, (deleting ccp = true ∧ deletion_guard cluster ccp h' a) ∨
      (deleting ccp = false ∧ reconcile_guard cluster (with_finalizer ccp) h' a))
    (reconcile_body cluster ccp) h (λ o _, match o with
      | Val (Returned ccp' _ _) => ccp_Spec ccp' = ccp_Spec ccp
      | Val (Panicked ccp') => ccp_Spec ccp' = ccp_Spec ccp ∧ ccps_Replicas (ccp_Spec ccp) < 0
      | Panic => False
      end).
Proof.
  intros Hu. unfold reconcile_body. fold (deleting ccp). destruct (deleting ccp) eqn:Hdel.
  - apply (catching_hoare _ _ _ _ _ (λ e _, match e with
      | Returned ccp' _ _ => ccp_Spec ccp' = ccp_Spec ccp
      | Panicked ccp' => ccp_Spec ccp' = ccp_Spec ccp ∧ ccps_Replicas (ccp_Spec ccp) < 0
      end)).
    eapply hoare_mono; [| |apply reconcileDelete_hoare]; [by left|].
    intros o h' (ccp'&err&->&Herr). destruct err as [e|]; [by destruct Herr as [-> _]|].
    by destruct Herr as [-> _].
  - destruct (configutil_Unmarshal _) as [[cfg|cfg|gvk]|e]; [|done..].
    apply (catching_hoare _ _ _ _ _ (λ e _, match e with
      | Returned ccp' _ _ => ccp_Spec ccp' = ccp_Spec ccp
      | Panicked ccp' => ccp_Spec ccp' = ccp_Spec ccp ∧ ccps_Replicas (ccp_Spec ccp) < 0
      end)).
    eapply hoare_mono; [| |by apply reconcileControlPlane_hoare]; [by right|].
    intros [[res err]|] h' Hp; [done|]. by split; [|apply Hp].
Qed.

Lemma Reconcile_hoare req :
  hoare (Reconcile_guard req) (Reconcile req) [] (Reconcile_end req).
Proof.
  unfold Reconcile. apply hoare_call. split; [done|]. intros [ccp|e].
  2:{ destruct (apierrors_IsNotFound e); left; eauto with go. }
  apply hoare_call. split; [done|].
  intros [[cluster|]|e]; [|left; simpl; eauto 6 with go..].
  destruct (util_IsPaused cluster (ccp_Meta ccp)) eqn:Hpaused; [left; simpl; eauto 6 with go|].
  destruct (cl_InfrastructureReady cluster) eqn:Hready; [|left; simpl; eauto 6 with go].
  apply hoare_call. split; [done|]. intros [e|]; [left; simpl; eauto 6 with go|].
  set (h0 := ((_ ++ _) ++ _) ++ _).
  assert (Hadm : admitted req ccp cluster h0).
  { split; [|done]. by exists []. }
  assert (Hu : unchanged h0).
  { apply writeless_unchanged. unfold h0. simpl. eauto 6 with go. }
  clearbody h0. apply hoare_bind. eapply hoare_mono;
    [| |apply hoare_prefix_guard, hoare_prefix, reconcile_body_hoare, Hu].
  { intros h' a [[l ->] Ha] _. exists ccp, cluster. split; [by apply admitted_app|by right]. }
  assert (Hguard : ∀ h' a, h0 `prefix_of` h' → patch_guard ccp h' a → Reconcile_guard req h' a).
  { intros h' a [l ->] Ha _. exists ccp, cluster. split; [by apply admitted_app|by left]. }
  intros [[ccp' res err|ccp']|] h1 [Hpre He]; [| |done].
  - eapply hoare_mono; [| |apply hoare_prefix_guard, hoare_prefix, deferred_hoare, He].
    + intros h' a [Hpre' Ha]. apply Hguard; [by etrans|done].
    + intros o h2 (Hpre2&Hnp&Hpatched). right. exists ccp, cluster.
      assert (h0 `prefix_of` h2) as [l ->] by by etrans. split; [by apply admitted_app|done].
  - destruct He as [He Hneg]. apply hoare_bind.
    eapply hoare_mono; [| |apply hoare_prefix_guard, hoare_prefix, deferred_hoare, He].
    + intros h' a [Hpre' Ha]. apply Hguard; [by etrans|done].
    + intros [x|] h2 (Hpre2&Hnp&Hpatched); [|done]. right. exists ccp, cluster.
      assert (h0 `prefix_of` h2) as [l ->] by by etrans. split; [by apply admitted_app|].
      split; [|done]. destruct Hpatched as (h3&after&r&->&?&_). by exists h3, after, r.
Qed.

(** C1: reconciling a control plane writes nothing unless the object could
    be read, its cluster exists, is not paused and has its infrastructure.
    Every write then made, up to any point, is the final patch of the
    object, or, when the object is being deleted, a machine deletion as
    [reconcileDelete] may make it, and otherwise the owner of the template, a
    missing certificate or kubeconfig secret, the adoption of a machine, a
    rollout step, or the creation of the first machines. *)
Theorem Reconcile_safe req tr1 a r tr2 :
  reaches (Reconcile req) (tr1 ++ Ev a r :: tr2) → Reconcile_guard req tr1 a.
Proof. intros Hr. exact (hoare_reaches _ _ _ _ _ _ _ _ (Reconcile_hoare req) Hr). Qed.

End reconcile_theorem.

(** ** Witnesses *)

Module ControllerWitness.
Import Reference ReferenceLaws Sample Fixtures CollectionWitness WorkloadWitness.
Import ManagementWitness.

Definition request : ObjectKey := {| key_Namespace := "default"; key_Name := "cp" |}.

(** A cluster with infrastructure, secrets and a kubeconfig, the given nodes
    and machines, and [n] replicas wanted. *)
Definition world (n : Z) (nodes : list Node) (items : list Machine) :
    list event → ∀ a : k8s_action, k8s_answer a :=
  environment (λ a,
    match a with
    | Get_CritControlPlane _ => Some (Ok (ccp n))
    | GetOwnerCluster _ => Some (Ok (Some cluster))
    | External_Get _ _ => Some (Ok ([], None))
    | Kubeconfig_FromSecret k => Some (Ok (key_Name k))
    | Get_Secret _ k => Some (Ok {| sec_Meta := meta (key_Name k) (key_Namespace k);
        sec_Type := ""; sec_Data := Some {["tls.crt" := "crt"; "tls.key" := "key"]} |})
    | List_Machines _ _ => Some (Ok items)
    | List_Nodes _ _ => Some (Ok nodes)
    | Get_Pod _ k => Some (Ok (pod (key_Name k) "True"))
    | _ => None
    end).

Definition first_plane : ControlPlane := NewControlPlane cluster (ccp 3) ∅.

Lemma initialize_spreads_witness :
  ∃ tr, runs (initialize cluster (ccp 3) first_plane) tr (Val (Requeue, None)) ∧
    length (created tr) = 3%nat.
Proof.
  assert (Hd : (drive accept [] (initialize cluster (ccp 3) first_plane)).2 =
    Val (Requeue, None)) by (vm_compute; reflexivity).
  apply drive_result in Hd as [tr Hr]. exists tr. split; [exact Hr|].
  destruct (initialize_spreads cluster (ccp 3) first_plane tr _ Hr) as [_ Hpos].
  destruct (Hpos ltac:(vm_compute; discriminate)) as (fds&j&_&Hlen&Hfd&_&[[_ ->]|[[e [=]] _]]).
  apply (f_equal length) in Hfd. rewrite length_fmap, length_take in Hfd.
  assert (Hl : length fds = 3%nat) by (apply Nat2Z.inj; exact Hlen).
  rewrite Hl in Hfd. exact Hfd.
Defined.

(** Creating the missing kubeconfig secret is reported as a failure to
    retrieve it. *)
Lemma reconcileKubeconfig_branches_witness :
  (drive accept [] (reconcileControlPlaneKubeconfig cluster (ccp 1))).2 =
    Val (Some (Wrapped NotFound
      ("failed to retrieve Kubeconfig Secret for Cluster " +:+ in_cluster cluster))) ∧
  ∃ tr o, runs (reconcileControlPlaneKubeconfig cluster (ccp 1)) tr o ∧ o ≠ Val None.
Proof.
  assert (Hd : (drive accept [] (reconcileControlPlaneKubeconfig cluster (ccp 1))).2 =
    Val (Some (Wrapped NotFound
      ("failed to retrieve Kubeconfig Secret for Cluster " +:+ in_cluster cluster))))
    by (vm_compute; reflexivity).
  split; [exact Hd|]. apply drive_result in Hd as [tr Hr].
  eexists tr, _. split; [exact Hr|].
  destruct (reconcileKubeconfig_branches cluster (ccp 1) tr _ Hr) as (r&tr'&_&_). discriminate.
Defined.

(** Two replicas and no machine yet: both are created. *)
Example first_reconciliation :
  (drive (world 2 [] []) [] (Reconcile request)).2 = Val (Requeue, None) ∧
  mach_FailureDomain <$> created (drive (world 2 [] []) [] (Reconcile request)).1 =
    [Some "a"; Some "b"].
Proof. vm_compute. done. Qed.

Definition template_owned : k8s_action :=
  Patch_Unstructured ([], None) ([cluster_owner cluster], None).

Lemma Reconcile_safe_witness :
  ∃ tr1 tr2, reaches (Reconcile request) (tr1 ++ @Ev k8s template_owned None :: tr2) ∧
    ∃ ccp cluster, admitted request ccp cluster tr1.
Proof.
  pose proof (runs_reaches _ _ _ (drive_runs (world 2 [] []) [] (Reconcile request))) as Hr.
  assert (H5 : (drive (world 2 [] []) [] (Reconcile request)).1 !! 5%nat =
    Some (@Ev k8s template_owned None)) by by_evaluation.
  rewrite <-(take_drop_middle _ _ _ H5) in Hr. clear H5.
  eexists _, _. split; [exact Hr|].
  destruct (Reconcile_safe request _ _ _ _ Hr eq_refl) as (c&cl&Hadm&_).
  exists c, cl. exact Hadm.
Defined.


(** Fewer machines than replicas, none outdated: nothing is done about it. *)
Definition current (name : string) : Machine :=
  machine name 10 (Some "a") (Hash (ccp_Spec (ccp 3))).

Lemma partial_initialization_kept :
  (drive (world 3 [node "node-m1"] [current "m1"]) [] (reconcileMachines cluster (ccp 3))).2 =
    Val (NoResult, None) ∧
  created (drive (world 3 [node "node-m1"] [current "m1"]) []
    (reconcileMachines cluster (ccp 3))).1 = [].
Proof. vm_compute. done. Qed.
End ControllerWitness.
