(* ===== verification/Rollout.v ===== *)
(** A rollout over many reconciliations: how the set of control plane machines
    develops when [Reconcile] (controllers/controlplane) is run again and again
    against machines that its own requests have changed.  A machine whose deletion
    was accepted is still listed, with its timestamp, until it has gone; those that
    are not being deleted stand.  Each reconciliation implements at most one step of
    an abstract rollout of the machines that stand, which keeps their number between
    the replicas and one more, or where it began, and ends after a number of steps
    known in advance. *)
From S2P Require Import Prelude GoRuntime ApiTypes Platform SamplePlatform MachineFilters MachineCollection FailureDomain ControlPlane.
From S2P Require Import WorkloadCluster ManagementCluster Secrets MachineCreation Deletion Upgrade StatusUpdate ControlPlaneController.
Local Open Scope Z_scope.
Local Open Scope go_scope.

(** ** The abstract rollout *)

(** How many machines are outdated, and how many are current. *)
Record fleet := { f_outdated : nat; f_current : nat }.
Definition f_size (f : fleet) : nat := f_outdated f + f_current f.

(** One step, for [n] replicas: a current machine is added while there are at
    most [n] machines, an outdated one is removed while there are more. *)
Inductive fleet_step (n : Z) : fleet → fleet → Prop :=
| fleet_up u c :
    (0 < u)%nat → Z.of_nat (u + c) ≤ n →
    fleet_step n {| f_outdated := u; f_current := c |} {| f_outdated := u; f_current := S c |}
| fleet_down u c :
    n < Z.of_nat (S u + c) →
    fleet_step n {| f_outdated := S u; f_current := c |} {| f_outdated := u; f_current := c |}.

Lemma fleet_step_pos n f f' : 0 < n → fleet_step n f f' → (0 < f_size f)%nat → (0 < f_size f')%nat.
Proof. unfold f_size. destruct 2; simpl; lia. Qed.

(** What [k] steps do. *)
Lemma fleet_steps n k f f' :
  nsteps (fleet_step n) k f f' →
  Z.of_nat k = 2 * (Z.of_nat (f_outdated f) - Z.of_nat (f_outdated f')) +
    (Z.of_nat (f_size f') - Z.of_nat (f_size f)) ∧
  (f_outdated f' ≤ f_outdated f)%nat ∧
  Z.min n (Z.of_nat (f_size f)) ≤ Z.of_nat (f_size f') ≤ Z.max (n + 1) (Z.of_nat (f_size f)) ∧
  (f_outdated f' = 0%nat → (0 < k)%nat → Z.of_nat (f_size f) ≤ n + 1 → Z.of_nat (f_size f') = n).
Proof.
  unfold f_size. induction 1 as [f|k f f1 f2 Hstep _ IH]; [lia|].
  destruct IH as (IH1&IH2&IH3&IH4). destruct Hstep as [u c Hu Hle|u c Hlt]; simpl in *.
  - split_and!; [lia..|]. intros Hz Hk. destruct k as [|k]; [lia|]. intros. apply IH4; lia.
  - split_and!; [lia..|]. intros Hz Hk Hle. destruct k as [|k]; [lia|]. apply IH4; lia.
Qed.

Section rollout.
Context {R : GoRuntime} {P : Platform} {RC : CritControlPlaneReconciler}.
Implicit Types (cluster : Cluster) (ccp : CritControlPlane) (ms : FilterableMachineCollection).

(** ** What the requests do to the machines *)

Definition hash_label (m : Machine) : option string := mach_Labels m !! CritControlPlaneHashLabelKey.

(** What matters of each machine, by its name: the configuration it was made for,
    and whether it is being deleted. *)
Abbreviation states := (gmap string (option string * bool)).
Definition state_of (m : Machine) : option string * bool :=
  (hash_label m, HasDeletionTimestamp (Some m)).
Definition states_of ms : states := state_of <$> ms.

(** A successful request takes effect: a machine is there from its creation; a
    machine whose deletion was accepted is being deleted; deleting a missing
    machine is no failure. *)
Definition after_event (ss : states) (e : event) : states :=
  let '(existT a r) := e in
  match a as a return k8s_answer a → states with
  | Create_Machine m => λ r,
      match r with None => <[mach_Name m := (hash_label m, false)]> ss | Some _ => ss end
  | Delete_Machine m => λ r,
      match r with
      | None => alter (λ s, (s.1, true)) (mach_Name m) ss
      | Some e => if apierrors_IsNotFound e then delete (mach_Name m) ss else ss
      end
  | _ => λ _, ss
  end r.
Definition after_events (tr : list event) (ss : states) : states := foldl after_event ss tr.

(** Some of the machines that were being deleted have gone, at once or later. *)
Definition gone (ss ss' : states) : Prop :=
  ss' ⊆ ss ∧ ∀ k s, ss !! k = Some s → ss' !! k = None → s.2 = true.

(** No machine is being deleted. *)
Definition lasting (ss : states) : Prop := ∀ k s, ss !! k = Some s → s.2 = false.

(** The machines that stand: those that are not being deleted. *)
Abbreviation labelled := (gmap string (option string)).
Definition standing (ss : states) : labelled := fst <$> filter (λ ks, ks.2.2 = false) ss.
Definition labels_of ms : labelled := standing (states_of ms).

Definition fleet_of (hash : string) (ls : labelled) : fleet := {|
  f_outdated := size (filter (λ kl, kl.2 ≠ Some hash) ls);
  f_current := size (filter (λ kl, kl.2 = Some hash) ls) |}.

(** ** Rounds *)

(** The step of a reconciliation that manages the machines, and its outcome. *)
Definition managed cluster ccp (tr : list event) (o : outcome (Result * option error)) : Prop :=
  ∃ tr1 tr2 tr3, tr = tr1 ++ tr2 ++ tr3 ∧ unchanged tr1 ∧ unchanged tr3 ∧
    runs (reconcileMachines cluster ccp) tr2 o.

(** Until the first change, a passed health check goes with [k] nodes. *)
Definition nodes_match cluster ccp (k : Z) (tr : list event) : Prop :=
  ∀ tr0 n, tr0 `prefix_of` tr → unchanged tr0 → healthy cluster ccp tr0 → counted cluster n tr0 → n = k.

(** Until the first change, a listing shows these machines. *)
Definition lists_match cluster ccp (ss : states) (tr : list event) : Prop :=
  ∀ tr0 owned, tr0 `prefix_of` tr → unchanged tr0 →
    performed (owned_listing cluster ccp) (Ok owned) tr0 → states_of owned = ss.

(** A reconciliation that finds the machines [ms]; the next one finds [ms'].
    Whatever it reads is that object, which is not being deleted, and that
    cluster; it may fail before.  Listings show the machines until the first
    change.  The next ones show what the requests did, except that machines being
    deleted go when they may.  Names are not used twice; and while no machine is
    being deleted a health check only passes with as many nodes as machines. *)
Record round (req : ObjectKey) ccp cluster ms ms' (tr : list event) : Prop := {
  round_runs : ∃ o, runs (Reconcile req) tr o;
  round_reads ccp' cluster' : admitted req ccp' cluster' tr → ccp' = ccp ∧ cluster' = cluster;
  round_live : deleting ccp = false;
  round_lists : lists_match cluster (with_finalizer ccp) (states_of ms) tr;
  round_fresh m : Ev (E := k8s) (Create_Machine m) None ∈ tr → ms !! mach_Name m = None;
  round_nodes : lasting (states_of ms) →
    nodes_match cluster (with_finalizer ccp) (Z.of_nat (size ms)) tr;
  round_next : gone (after_events tr (states_of ms)) (states_of ms');
}.

(** Any number of rounds while the specification stays as it is, [k] of which
    changed the machines that stand. *)
Inductive rounds (req : ObjectKey) (spec : CritControlPlaneSpec) :
    nat → FilterableMachineCollection → FilterableMachineCollection → Prop :=
| rounds_nil ms : rounds req spec 0 ms ms
| rounds_change k ms ms1 ms2 ccp cluster tr :
    ccp_Spec ccp = spec → round req ccp cluster ms ms1 tr → labels_of ms1 ≠ labels_of ms →
    rounds req spec k ms1 ms2 → rounds req spec (S k) ms ms2
| rounds_same k ms ms1 ms2 ccp cluster tr :
    ccp_Spec ccp = spec → round req ccp cluster ms ms1 tr → labels_of ms1 = labels_of ms →
    rounds req spec k ms1 ms2 → rounds req spec k ms ms2.
End rollout.

(** ** Lemmas *)

Section fleet_lemmas.
Implicit Types (ls : gmap string (option string)) (h k : string).

Lemma fleet_size h ls : f_size (fleet_of h ls) = size ls.
Proof.
  unfold f_size. simpl. rewrite Nat.add_comm.
  rewrite <-(map_filter_union_complement (λ kl, kl.2 = Some h) ls) at 3.
  rewrite map_size_disj_union; [done|]. apply map_disjoint_filter_complement.
Qed.

Lemma fleet_insert h k ls :
  ls !! k = None →
  fleet_of h (<[k := Some h]> ls) =
    {| f_outdated := f_outdated (fleet_of h ls); f_current := S (f_current (fleet_of h ls)) |}.
Proof.
  intros Hk. unfold fleet_of. f_equal.
  - rewrite map_filter_insert_False by naive_solver. by rewrite delete_id.
  - rewrite map_filter_insert_True by done. apply map_size_insert_None.
    apply map_lookup_filter_None. by left.
Qed.

Lemma fleet_delete h k l ls :
  ls !! k = Some l → l ≠ Some h →
  ∃ u, f_outdated (fleet_of h ls) = S u ∧
    fleet_of h (delete k ls) = {| f_outdated := u; f_current := f_current (fleet_of h ls) |}.
Proof.
  intros Hk Hl. unfold fleet_of. simpl.
  assert (Hin : filter (λ kl, kl.2 ≠ Some h) ls !! k = Some l) by by apply map_lookup_filter_Some.
  destruct (size (filter (λ kl, kl.2 ≠ Some h) ls)) as [|u] eqn:Hu.
  { apply map_size_empty_inv in Hu. by rewrite Hu, lookup_empty in Hin. }
  exists u. split; [done|]. f_equal; rewrite map_filter_delete.
  - rewrite map_size_delete_Some by by eexists. lia.
  - rewrite delete_id; [done|]. apply map_lookup_filter_None. right. naive_solver.
Qed.
End fleet_lemmas.

(** *** The states of machines *)

Section state_lemmas.
Context {R : GoRuntime} {RL : GoRuntimeLaws R} {P : Platform}.
Implicit Types (ms : FilterableMachineCollection) (ss : gmap string (option string * bool)).

Lemma standing_lookup ss k l : standing ss !! k = Some l ↔ ss !! k = Some (l, false).
Proof.
  unfold standing. rewrite lookup_fmap_Some. split.
  - intros ([l' b]&<-&[Hs Hb]%map_lookup_filter_Some). simpl in *. by subst b.
  - intros Hs. exists (l, false). split; [done|]. by apply map_lookup_filter_Some.
Qed.

Lemma standing_insert ss k l : standing (<[k := (l, false)]> ss) = <[k := l]> (standing ss).
Proof. unfold standing. by rewrite map_filter_insert_True, fmap_insert by done. Qed.

Lemma standing_delete ss k : standing (delete k ss) = delete k (standing ss).
Proof. unfold standing. by rewrite map_filter_delete, fmap_delete. Qed.

Lemma standing_mark ss k : standing (alter (λ s, (s.1, true)) k ss) = delete k (standing ss).
Proof.
  apply map_eq. intros j. apply option_eq. intros l.
  rewrite lookup_delete_Some, !standing_lookup, lookup_alter_Some. naive_solver.
Qed.

(** While no machine is being deleted all of them stand. *)
Lemma standing_lasting ss : lasting ss → standing ss = fst <$> ss.
Proof.
  intros Hl. unfold standing. f_equal. apply map_filter_id. intros k s Hs. by apply (Hl k s).
Qed.

Lemma standing_size ss : (size (standing ss) ≤ size ss)%nat.
Proof. unfold standing. rewrite map_size_fmap. apply map_subseteq_size, map_filter_subseteq. Qed.

Lemma standing_size_lasting ss : lasting ss → size (standing ss) = size ss.
Proof. intros Hl. by rewrite standing_lasting, map_size_fmap. Qed.

Lemma standing_gone ss ss' : gone ss ss' → standing ss' = standing ss.
Proof.
  intros [Hsub Hgone]. apply map_eq. intros k. apply option_eq. intros l. rewrite !standing_lookup.
  split; [intros Hk; by eapply lookup_weaken|]. intros Hk.
  destruct (ss' !! k) as [s|] eqn:Hs; [|by specialize (Hgone k _ Hk Hs)].
  f_equal. eapply lookup_weaken in Hs; [|exact Hsub]. congruence.
Qed.

Lemma gone_size ss ss' : gone ss ss' → (size ss' ≤ size ss)%nat.
Proof. intros [Hsub _]. by apply map_subseteq_size. Qed.

Lemma states_size ms : size (states_of ms) = size ms.
Proof. apply map_size_fmap. Qed.

Lemma states_lookup ms k m : ms !! k = Some m → states_of ms !! k = Some (state_of m).
Proof. intros Hm. unfold states_of. by rewrite lookup_fmap, Hm. Qed.

Lemma labels_lookup ms k m :
  lasting (states_of ms) → ms !! k = Some m → labels_of ms !! k = Some (hash_label m).
Proof.
  intros Hl Hm%states_lookup. apply standing_lookup. rewrite Hm. unfold state_of.
  f_equal. f_equal. exact (Hl k _ Hm).
Qed.

Lemma labels_fresh ms k : ms !! k = None → labels_of ms !! k = None.
Proof.
  intros Hk. apply eq_None_not_Some. intros [l Hl%standing_lookup].
  unfold states_of in Hl. by rewrite lookup_fmap, Hk in Hl.
Qed.

Lemma labels_of_size ms : (size (labels_of ms) ≤ size ms)%nat.
Proof. rewrite <-states_size. apply standing_size. Qed.

Lemma labels_size h ms : f_size (fleet_of h (labels_of ms)) = size (labels_of ms).
Proof. apply fleet_size. Qed.

Lemma not_deleting_lasting cp :
  keyed (cp_Machines cp) → HasDeletingMachine cp = false → lasting (states_of (cp_Machines cp)).
Proof.
  intros Hk Hd k s. unfold states_of. rewrite lookup_fmap_Some. intros (m&<-&Hm).
  apply (Filter_size_0 _ HasDeletionTimestamp Hk) with k; [|done]. unfold HasDeletingMachine, Len in Hd. lia.
Qed.

Lemma adopt_states cp ms : states_of (adopt cp <$> ms) = states_of ms.
Proof.
  unfold states_of. rewrite <-map_fmap_compose. apply map_fmap_ext. intros k m _. simpl.
  unfold adopt. by destruct (GetControllerOf _).
Qed.
End state_lemmas.

Section rollout_lemmas.
Context {R : GoRuntime} {RL : GoRuntimeLaws R} {P : Platform} {AL : AggregateLaws P}.
Context {FL : FailureDomainLaws P} {ML : MachineOrderLaws P} {LL : LabelLaws P}.
Context {RC : CritControlPlaneReconciler} {RCL : ReconcilerLaws RC}.
Implicit Types (cluster : Cluster) (ccp : CritControlPlane) (cp : ControlPlane).
Implicit Types (ms : FilterableMachineCollection) (ss : gmap string (option string * bool)).

Lemma after_events_app tr1 tr2 ss :
  after_events (tr1 ++ tr2) ss = after_events tr2 (after_events tr1 ss).
Proof. apply foldl_app. Qed.

Lemma after_unchanged tr ss : unchanged tr → after_events tr ss = ss.
Proof.
  intros Hu. unfold after_events. induction tr as [|[a r] tr IH]; [done|].
  change (foldl after_event (after_event ss (@Ev k8s a r)) tr = ss).
  assert (after_event ss (@Ev k8s a r) = ss) as ->.
  { assert (Ha : machine_change a = false) by (apply (Hu a r); left). by destruct a. }
  apply IH. intros a' r' Hin. apply (Hu a' r'). by right.
Qed.

Lemma not_unchanged tr :
  unchanged tr ∨ ∃ tr1 a r tr2, tr = tr1 ++ @Ev k8s a r :: tr2 ∧ machine_change a = true.
Proof.
  induction tr as [|[a r] tr IH]; [left; apply unchanged_nil|].
  destruct (machine_change a) eqn:Ha; [right; by exists [], a, r, tr|].
  destruct IH as [IH|(tr1&a'&r'&tr2&->&?)].
  - left. by apply unchanged_cons.
  - right. by exists (existT a r :: tr1), a', r', tr2.
Qed.

(** A rollout step performs at most one change. *)
Lemma upgrade_changes cluster ccp cp tr o :
  keyed (cp_Machines cp) → MachinesNeedingUpgrade cp ≠ ∅ →
  runs (upgradeControlPlane cluster ccp cp) tr o →
  (unchanged tr ∧ rollout_result o tr) ∨
  ∃ tr1 a r tr2, tr = tr1 ++ @Ev k8s a r :: tr2 ∧ machine_change a = true ∧
    unchanged tr1 ∧ unchanged tr2 ∧ rollout_guard cluster ccp cp tr1 a.
Proof.
  intros Hk Hne Hr. pose proof (upgrade_hoare cluster ccp cp [] Hk Hne unchanged_nil) as Hh.
  assert (Hguard : ∀ tr1 a r tr2, tr = tr1 ++ @Ev k8s a r :: tr2 → rollout_guard cluster ccp cp tr1 a).
  { intros tr1 a r tr2 ->. exact (hoare_reaches _ _ _ _ _ _ _ _ Hh (runs_reaches _ _ _ Hr)). }
  destruct (not_unchanged tr) as [Hu|(tr1&a&r&tr2&->&Ha)].
  { left. split; [done|]. exact (hoare_runs _ _ _ _ _ _ Hh Hr). }
  right. exists tr1, a, r, tr2. specialize (Hguard tr1 a r tr2 eq_refl) as Hg. split_and!; try done.
  - by apply (proj1 Hg).
  - destruct (not_unchanged tr2) as [Hu|(tr3&a'&r'&tr4&->&Ha')]; [done|].
    destruct (Hguard (tr1 ++ @Ev k8s a r :: tr3) a' r' tr4) as [Hu _]; [by rewrite <-app_assoc|].
    specialize (Hu Ha'). rewrite (Hu a r) in Ha; [done|]. apply elem_of_app. right. left.
Qed.

(** Machines that stand and are outdated are among those that need an upgrade. *)
Lemma needing_fleet cp :
  keyed (cp_Machines cp) →
  (f_outdated (fleet_of (SpecHash cp) (labels_of (cp_Machines cp))) ≤ size (MachinesNeedingUpgrade cp))%nat.
Proof.
  intros Hk. simpl. rewrite <-(map_size_fmap hash_label). apply map_subseteq_size.
  apply map_subseteq_spec. intros k l [Hl%standing_lookup Hne]%map_lookup_filter_Some.
  unfold states_of in Hl. apply lookup_fmap_Some in Hl as (m&[= <- _]&Hm).
  apply lookup_fmap_Some. exists m. split; [done|]. by apply MachinesNeedingUpgrade_lookup.
Qed.

(** While no machine is being deleted, they are the outdated ones. *)
Lemma needing_standing cluster ccp ms k m :
  keyed ms → lasting (states_of ms) → MachinesNeedingUpgrade (NewControlPlane cluster ccp ms) !! k = Some m →
  mach_Name m = k ∧ labels_of ms !! k = Some (hash_label m) ∧ hash_label m ≠ Some (Hash (ccp_Spec ccp)).
Proof.
  intros Hk Hl [Hm Hne]%MachinesNeedingUpgrade_lookup; [|done].
  split_and!; [by apply Hk|by apply labels_lookup|done].
Qed.

(** The requests that change the machines when they succeed. *)
Definition effective (e : event) : bool :=
  let '(existT a r) := e in
  match a as a return k8s_answer a → bool with
  | Create_Machine m => λ r, match r with None => true | Some _ => false end
  | Delete_Machine m => λ r, match r with None => true | Some e => apierrors_IsNotFound e end
  | _ => λ _, false
  end r.

Lemma progressed_effective (tr : list event) : progressed tr → ∃ e, e ∈ tr ∧ effective e = true.
Proof.
  intros [[m Hm]|(m&r&Hr&Hgood)]; eexists; (split; [done|]); [done|]. by destruct r.
Qed.

Lemma ineffective ss (e : event) : effective e = false → after_event ss e = ss.
Proof. destruct e as [[] r]; try done; simpl; by repeat case_match. Qed.

Lemma effective_change a r : effective (@Ev k8s a r) = true → machine_change a = true.
Proof. by destruct a. Qed.

Lemma unchanged_ineffective tr (e : event) : unchanged tr → e ∈ tr → effective e = false.
Proof.
  intros Hu Hin. destruct e as [a r]. specialize (Hu a r Hin). apply not_true_iff_false.
  intros He%effective_change. by rewrite He in Hu.
Qed.

(** Removing an outdated machine, and adding one. *)
Lemma removal_step cluster ccp ms m k :
  keyed ms → lasting (states_of ms) →
  MachinesNeedingUpgrade (NewControlPlane cluster ccp ms) !! k = Some m →
  ccps_Replicas (ccp_Spec ccp) < Z.of_nat (size ms) →
  fleet_step (ccps_Replicas (ccp_Spec ccp)) (fleet_of (Hash (ccp_Spec ccp)) (labels_of ms))
    (fleet_of (Hash (ccp_Spec ccp)) (delete (mach_Name m) (labels_of ms))).
Proof.
  intros Hk Hl Hm Hlt. apply needing_standing in Hm as (->&Hm&Hne); [|done..].
  destruct (fleet_delete _ _ _ _ Hm Hne) as (u&Hu&->).
  pose proof (labels_size (Hash (ccp_Spec ccp)) ms) as Hsz.
  unfold labels_of in Hsz at 2. rewrite standing_size_lasting, states_size in Hsz by done.
  destruct (fleet_of _ (labels_of ms)) as [u' c]. simpl in *. subst u'.
  apply fleet_down. unfold f_size in Hsz. simpl in Hsz. lia.
Qed.

Lemma creation_step cluster ccp ms name infra ref fd
    (m := new_machine name ccp cluster infra (Some ref) fd) :
  keyed ms → lasting (states_of ms) → MachinesNeedingUpgrade (NewControlPlane cluster ccp ms) ≠ ∅ →
  ms !! mach_Name m = None → Z.of_nat (size ms) ≤ ccps_Replicas (ccp_Spec ccp) →
  fleet_step (ccps_Replicas (ccp_Spec ccp)) (fleet_of (Hash (ccp_Spec ccp)) (labels_of ms))
    (fleet_of (Hash (ccp_Spec ccp)) (<[mach_Name m := hash_label m]> (labels_of ms))).
Proof.
  intros Hk Hl (k&m'&Hm')%map_choose Hfresh%labels_fresh Hle.
  apply needing_standing in Hm' as (_&Hm'&Hne); [|done..].
  assert (hash_label m = Some (Hash (ccp_Spec ccp))) as ->.
  { apply (MatchesConfigurationHash_true _ m). apply new_machine_current. }
  rewrite fleet_insert by done. destruct (fleet_delete _ _ _ _ Hm' Hne) as (u&Hu&_).
  pose proof (labels_size (Hash (ccp_Spec ccp)) ms) as Hsz.
  unfold labels_of in Hsz at 2. rewrite standing_size_lasting, states_size in Hsz by done.
  destruct (fleet_of _ (labels_of ms)) as [u' c]. simpl in *. apply fleet_up; [lia|].
  unfold f_size in Hsz. simpl in Hsz. lia.
Qed.

(** What an effective request does to the machines that stand, and to the number
    of machines. *)
Lemma removal_after ss m r :
  effective (@Ev k8s (Delete_Machine m) r) = true →
  standing (after_event ss (@Ev k8s (Delete_Machine m) r)) = delete (mach_Name m) (standing ss) ∧
  (size (after_event ss (@Ev k8s (Delete_Machine m) r)) ≤ size ss)%nat.
Proof.
  simpl. destruct r as [e|]; [intros ->|intros _].
  - split; [apply standing_delete|]. apply map_subseteq_size, delete_subseteq.
  - split; [apply standing_mark|]. apply dom_subseteq_size. by rewrite dom_alter.
Qed.

Lemma creation_after ss m :
  ss !! mach_Name m = None →
  standing (after_event ss (@Ev k8s (Create_Machine m) None)) = <[mach_Name m := hash_label m]> (standing ss) ∧
  size (after_event ss (@Ev k8s (Create_Machine m) None)) = S (size ss).
Proof. intros Hm. split; [apply standing_insert|]. by apply map_size_insert_None. Qed.

(** Before a change no machine was being deleted, and the health check counted and
    compared the nodes. *)
Lemma guard_of_change cluster ccp cp tr1 a :
  keyed (cp_Machines cp) → machine_change a = true → rollout_guard cluster ccp cp tr1 a →
  (lasting (states_of (cp_Machines cp)) → ∀ n, healthy cluster ccp tr1 → counted cluster n tr1 →
   n = Z.of_nat (size (cp_Machines cp))) →
  lasting (states_of (cp_Machines cp)) ∧
  ((∃ m, a = Delete_Machine m ∧ ccps_Replicas (ccp_Spec ccp) < Z.of_nat (size (cp_Machines cp)) ∧
      ∃ k, MachinesNeedingUpgrade cp !! k = Some m) ∨
   (∃ name infra ref fd, a = Create_Machine (new_machine name ccp cluster infra (Some ref) fd) ∧
      Z.of_nat (size (cp_Machines cp)) ≤ ccps_Replicas (ccp_Spec ccp))).
Proof.
  intros Hkeyed Ha [_ Hg] Hn. destruct a; try done.
  - destruct (Hg eq_refl) as ((name&infra&ref&fd&->)&Hh&Hd%not_deleting_lasting&n&Hc&Hle); [|done].
    split; [done|]. right. exists name, infra, ref, fd. split; [done|]. by rewrite <-(Hn Hd n Hh Hc).
  - destruct Hg as (Hh&Hd%not_deleting_lasting&(n&Hc&Hlt)&Hk); [|done]. split; [done|]. left.
    eexists. split; [done|]. split; [|done]. by rewrite <-(Hn Hd n Hh Hc).
Qed.

(** What requests do to the machines they find in the states [ss]: nothing; or,
    while no machine is being deleted, one step of the abstract rollout, which
    leaves at most one machine more than replicas unless there were more. *)
Definition idle (tr : list event) ss : Prop := after_events tr ss = ss.
Definition stepped (spec : CritControlPlaneSpec) (tr : list event) ss : Prop :=
  lasting ss ∧
  fleet_step (ccps_Replicas spec) (fleet_of (Hash spec) (standing ss))
    (fleet_of (Hash spec) (standing (after_events tr ss))) ∧
  Z.of_nat (size (after_events tr ss)) ≤ Z.max (ccps_Replicas spec + 1) (Z.of_nat (size ss)).

(** A rollout step implements the abstract one, or changes nothing and reports
    an error. *)
Lemma upgrade_refines cluster ccp ms tr o (cp := NewControlPlane cluster ccp ms) :
  keyed ms → MachinesNeedingUpgrade cp ≠ ∅ → runs (upgradeControlPlane cluster ccp cp) tr o →
  (∀ m, @Ev k8s (Create_Machine m) None ∈ tr → ms !! mach_Name m = None) →
  (lasting (states_of ms) → nodes_match cluster ccp (Z.of_nat (size ms)) tr) →
  (idle tr (states_of ms) ∧ ∃ res e, o = Val (res, Some e)) ∨ stepped (ccp_Spec ccp) tr (states_of ms).
Proof.
  intros Hk Hne Hr Hfresh Hn.
  assert (Hres : rollout_result o tr)
    by exact (hoare_runs _ _ _ _ _ _ (upgrade_hoare cluster ccp cp [] Hk Hne unchanged_nil) Hr).
  destruct (upgrade_changes cluster ccp cp tr o Hk Hne Hr)
    as [[Hu _]|(tr1&a&r&tr2&->&Ha&Hu1&Hu2&Hg)].
  { left. split; [by apply after_unchanged|]. destruct Hres as (res&[e|]&->&Hp); [by exists res, e|].
    destruct (Hp eq_refl) as [_ Hpr]. by apply unchanged_not_progressed in Hpr. }
  assert (Hafter : after_events (tr1 ++ @Ev k8s a r :: tr2) (states_of ms) =
    after_event (states_of ms) (@Ev k8s a r)).
  { rewrite after_events_app, (after_unchanged tr1) by done. by apply (after_unchanged tr2). }
  unfold idle, stepped. rewrite Hafter. destruct (effective (@Ev k8s a r)) eqn:Heff.
  2:{ left. split; [by apply ineffective|]. destruct Hres as (res&[e|]&->&Hp); [by exists res, e|].
    destruct (Hp eq_refl) as [_ (e&Hin&He)%progressed_effective].
    rewrite elem_of_app, elem_of_cons in Hin. destruct Hin as [Hin|[->|Hin]].
    - by rewrite (unchanged_ineffective tr1) in He.
    - by rewrite He in Heff.
    - by rewrite (unchanged_ineffective tr2) in He. }
  right. destruct (guard_of_change cluster ccp cp tr1 a Hk Ha Hg) as [Hl Hcase].
  { intros Hl n. apply Hn; [done|by apply prefix_app_r|done]. }
  change (cp_Machines cp) with ms in *. split; [done|].
  destruct Hcase as [(m&->&Hlt&k&Hm)|(name&infra&ref&fd&->&Hle)].
  - destruct (removal_after (states_of ms) m r Heff) as [-> Hsz].
    split; [by apply (removal_step cluster ccp ms m k)|lia].
  - simpl in Heff. destruct r as [e|]; [done|].
    specialize (Hfresh _ ltac:(apply elem_of_app; right; left)).
    destruct (creation_after (states_of ms) _ ltac:(unfold states_of; by rewrite lookup_fmap, Hfresh)) as [-> ->].
    rewrite states_size. split; [by apply (creation_step cluster ccp ms)|lia].
Qed.

Lemma performed_after {A} (p : M A) x h l : performed p x h → performed p x (l ++ h).
Proof. intros (h0&h1&h2&->&?). exists (l ++ h0), h1, h2. by rewrite <-app_assoc. Qed.

Lemma counted_after cluster n h l : counted cluster n h → counted cluster n (l ++ h).
Proof. intros (w&s&?&?&?). exists w, s. auto using performed_after. Qed.

Lemma runs_unchanged {A} (p : M A) G (Q : outcome A → list event → Prop) tr o :
  (∀ h a, G h a → machine_change a = false) → hoare G p [] Q → runs p tr o → unchanged tr ∧ Q o tr.
Proof.
  intros HG Hh Hr. apply hoare_unchanged in Hh; [|exact HG].
  destruct (hoare_runs _ _ _ _ _ _ Hh Hr) as (HQ&(l&Heq&Hl)&_). simpl in Heq. by subst l.
Qed.

(** How many nodes the listings of a trace showed, and which machines it
    created. *)
Definition node_counts (tr : list (@event k8s)) : list Z :=
  omap (λ e : @event k8s, let '(existT a r) := e in
    match a as a return k8s_answer a → option Z with
    | List_Nodes _ _ => λ r, match r with Ok nodes => Some (Z.of_nat (length nodes)) | Err _ => None end
    | _ => λ _, None
    end r) tr.

Lemma counted_nodes cluster tr n k :
  k < 2 ^ 31 → Forall (λ x, x = k) (node_counts tr) → counted cluster n tr → n = k.
Proof.
  intros Hk Hall (w&s&_&(h0&h1&h2&->&Hr)&<-).
  apply Workload_ClusterStatus_ok in Hr as ([nodes|e]&->&Hr); [|done]. destruct Hr as (s'&[= <-]&Hs).
  assert (Hn : Z.of_nat (length nodes) = k).
  { rewrite Forall_forall in Hall. apply Hall. unfold node_counts. apply list_elem_of_omap.
    eexists. split; [apply elem_of_app; right; left|done]. }
  rewrite Hn in Hs. by apply Hs.
Qed.

Lemma fresh_created {A} (ms : gmap string A) (tr : list (@event k8s)) :
  Forall (λ m, ms !! mach_Name m = None) (omap created_machine tr) →
  ∀ m, @Ev k8s (Create_Machine m) None ∈ tr → ms !! mach_Name m = None.
Proof.
  rewrite Forall_forall. intros Hall m Hm. apply Hall. apply list_elem_of_omap. by eexists.
Qed.

Lemma nodes_match_after tr1 cluster ccp k tr2 :
  nodes_match cluster ccp k (tr1 ++ tr2) → unchanged tr1 → nodes_match cluster ccp k tr2.
Proof.
  intros Hn Hu tr0 n Hpre Hu0 Hh Hc. apply (Hn (tr1 ++ tr0)).
  - by apply prefix_app.
  - by apply unchanged_app.
  - by apply performed_after.
  - by apply counted_after.
Qed.

Lemma nodes_match_before tr2 cluster ccp k tr1 :
  nodes_match cluster ccp k (tr1 ++ tr2) → nodes_match cluster ccp k tr1.
Proof. intros Hn tr0 n Hpre. apply Hn. by apply prefix_app_r. Qed.

(** What a reconciliation does with machines that were listed. *)
Lemma manage_refines cluster ccp ms tr o :
  keyed ms → (0 < size ms)%nat → runs (manage_machines cluster ccp ms) tr o →
  (∀ m, @Ev k8s (Create_Machine m) None ∈ tr → ms !! mach_Name m = None) →
  (lasting (states_of ms) → nodes_match cluster ccp (Z.of_nat (size ms)) tr) →
  (idle tr (states_of ms) ∧
     ((∃ res e, o = Val (res, Some e)) ∨
      o = Val (NoResult, None) ∧ f_outdated (fleet_of (Hash (ccp_Spec ccp)) (labels_of ms)) = 0%nat)) ∨
  stepped (ccp_Spec ccp) tr (states_of ms).
Proof.
  intros Hk Hpos Hr Hfresh Hn. set (c := NewControlPlane cluster ccp ms).
  apply runs_bind in Hr as [[Hr _]|(tr1&tr2&[ms' err]&->&Hown&Hr)].
  { by apply (hoare_runs _ _ _ _ _ _ (EnsureOwnership_hoare c [])) in Hr. }
  assert (Hguard : ∀ (h : list (@event k8s)) a, adoption_guard c a → machine_change a = false)
    by (intros _ a (k&m&_&_&->); done).
  destruct (runs_unchanged _ _ _ _ _ Hguard (EnsureOwnership_hoare c []) Hown) as [Hu Hms].
  unfold idle, stepped. rewrite after_events_app, (after_unchanged tr1) by done.
  destruct err as [e|]; cbv beta iota zeta in Hr.
  { destruct Hr as [-> ->]. left. split; [done|]. left. by exists NoResult, e. }
  destruct Hms as [-> _]. change (cp_Machines c) with ms in Hr. unfold labels_of.
  rewrite <-(adopt_states c ms) in Hn |- *. set (ms' := adopt c <$> ms) in *.
  assert (Hk' : keyed ms') by by apply adopt_keyed.
  assert (Hsize : size ms' = size ms) by apply map_size_fmap.
  pose proof (needing_fleet (NewControlPlane cluster ccp ms') Hk') as Hneed.
  change (cp_Machines (NewControlPlane cluster ccp ms')) with ms' in Hneed.
  change (SpecHash _) with (Hash (ccp_Spec ccp)) in Hneed.
  destruct (Nat.ltb_spec 0 (size (MachinesNeedingUpgrade (NewControlPlane cluster ccp ms')))) as [Hlt|Hz].
  - assert (Hne : MachinesNeedingUpgrade (NewControlPlane cluster ccp ms') ≠ ∅).
    { intros Hem%map_size_empty_iff. lia. }
    destruct (upgrade_refines cluster ccp ms' tr2 o Hk' Hne Hr) as [[? ?]|?].
    + intros m Hm. unfold ms'. rewrite lookup_fmap, Hfresh; [done|]. apply elem_of_app. by right.
    + intros Hl. rewrite Hsize. apply (nodes_match_after tr1); [by apply Hn|done].
    + left. split; [done|by left].
    + by right.
  - left. unfold labels_of in Hneed.
    assert (f_outdated (fleet_of (Hash (ccp_Spec ccp)) (standing (states_of ms'))) = 0%nat) as Hout by lia.
    destruct (Z.of_nat (size ms') =? ccps_Replicas (ccp_Spec ccp)).
    { destruct Hr as [-> ->]. split; [done|by right]. }
    destruct (Nat.eqb_spec (size ms') 0); [lia|]. destruct Hr as [-> ->]. split; [done|by right].
Qed.

(** *** From a whole reconciliation to the step that manages the machines *)

(** A program whose guard rules out changes of the machines. *)
Lemma runs_no_change {A} (p : M A) G (Q : outcome A → list event → Prop) tr o :
  hoare G p [] Q → (∀ h a, G h a → machine_change a = false) → runs p tr o → unchanged tr.
Proof. intros Hh HG Hr. by destruct (runs_unchanged _ _ _ _ _ HG Hh Hr). Qed.

Lemma reconcileControlPlane_managed cluster ccp cfg tr o :
  runs (reconcileControlPlane cluster ccp cfg) tr o →
  unchanged tr ∨ ∃ tr1 tr2, tr = tr1 ++ tr2 ∧ unchanged tr1 ∧
    runs (reconcileMachines cluster (with_finalizer ccp)) tr2 o.
Proof.
  unfold reconcileControlPlane. cbv zeta.
  assert (Htemplate : ∀ tr o, runs (reconcileExternalReference cluster
    (ccps_InfrastructureTemplate (ccp_Spec (with_finalizer ccp)))) tr o → unchanged tr).
  { intros t o'. apply (runs_no_change _ _ _ _ _ (reconcileExternalReference_hoare _ _ [])). by intros ? []. }
  intros [[Hr _]|(tr1&tr2&e&->&H1%Htemplate&Hr)]%runs_bind; [left; by eapply Htemplate|].
  destruct e as [e|]; [left; destruct Hr as [-> _]; by rewrite app_nil_r|].
  set (cs := NewCertificatesForControlPlane _) in Hr.
  assert (Hcerts : ∀ tr o, runs (LookupOrGenerate cs (cl_Key cluster) (controller_ref (with_finalizer ccp))) tr o →
    unchanged tr).
  { intros t o'. eapply runs_no_change; [apply LookupOrGenerate_hoare|by intros ? []].
    apply NewCertificatesForControlPlane_fresh. }
  apply runs_bind in Hr as [[Hr _]|(tr3&tr4&[c e]&->&H3%Hcerts&Hr)].
  { left. apply unchanged_app. split; [done|by eapply Hcerts]. }
  destruct e as [e|]; [left; destruct Hr as [-> _]; rewrite app_nil_r; by apply unchanged_app|].
  destruct (APIEndpoint_IsZero _); [left; destruct Hr as [-> _]; rewrite app_nil_r; by apply unchanged_app|].
  assert (Hkubeconfig : ∀ tr o, runs (reconcileControlPlaneKubeconfig cluster (with_finalizer ccp)) tr o →
    unchanged tr).
  { intros t o'. apply (runs_no_change _ _ _ _ _ (reconcileKubeconfig_hoare _ _ [])). by intros ? []. }
  apply runs_bind in Hr as [[Hr _]|(tr5&tr6&e&->&H5%Hkubeconfig&Hr)].
  { left. rewrite !unchanged_app. by split_and!; [| |eapply Hkubeconfig]. }
  destruct e as [e|]; [left; destruct Hr as [-> _]; rewrite app_nil_r, !unchanged_app; by split_and!|].
  right. exists (tr1 ++ tr3 ++ tr5), tr6. rewrite <-!app_assoc, !unchanged_app. by split_and!.
Qed.

Lemma deferred_unchanged cluster original ccp res err tr o :
  ccp_Spec ccp = ccp_Spec original → runs (deferred cluster original ccp res err) tr o → unchanged tr.
Proof.
  intros Hspec. eapply runs_no_change; [by apply deferred_hoare|by intros ? []].
Qed.

Lemma cons_eq_inv {A} (x y : A) l k : x :: l = y :: k → x = y ∧ l = k.
Proof. by intros [= -> ->]. Qed.

(** The object and the cluster that a trace read. *)
Definition read_object (e : @event k8s) : option CritControlPlane :=
  let '(existT a r) := e in
  match a as a return k8s_answer a → option CritControlPlane with
  | Get_CritControlPlane _ => λ r, match r with Ok ccp => Some ccp | Err _ => None end
  | _ => λ _, None
  end r.
Definition read_cluster (e : @event k8s) : option Cluster :=
  let '(existT a r) := e in
  match a as a return k8s_answer a → option Cluster with
  | GetOwnerCluster _ => λ r, match r with Ok cluster => cluster | Err _ => None end
  | _ => λ _, None
  end r.

Lemma admitted_read req ccp cluster tr :
  admitted req ccp cluster tr → tr !! 0%nat ≫= read_object = Some ccp ∧ tr !! 1%nat ≫= read_cluster = Some cluster.
Proof. by intros [[tr' ->] _]. Qed.

(** The reads a run starts with. *)
Lemma admitted_reads req ccp cluster tr o :
  runs (Reconcile req) tr o → admitted req ccp cluster tr →
  ∃ tr', tr = Ev (Get_CritControlPlane req) (Ok ccp) ::
      Ev (GetOwnerCluster (ccp_Meta ccp)) (Ok (Some cluster)) :: Ev NewPatchHelper None :: tr' ∧
    runs (e ← reconcile_body cluster ccp;
      match e with
      | Returned ccp' res reterr => deferred cluster ccp ccp' res reterr
      | Panicked ccp' => _ ← deferred cluster ccp ccp' NoResult None; panic
      end) tr' o.
Proof.
  intros Hr Hadm. destruct (admitted_read _ _ _ _ Hadm) as [Ho Hc]. destruct Hadm as [[tr' ->] [Hp Hi]].
  exists tr'. split; [done|]. unfold Reconcile in Hr.
  apply runs_call in Hr as (r1&tr1&[Heq1 <-]%cons_eq_inv&Hr). rewrite Heq1 in Ho. simpl in Ho.
  destruct r1 as [c|]; [|done]. injection Ho as ->.
  apply runs_call in Hr as (r2&tr2&[Heq2 <-]%cons_eq_inv&Hr).
  apply (f_equal read_cluster) in Heq2. simpl in Heq2. destruct r2 as [[cl|]|]; [|done..].
  injection Heq2 as <-. rewrite Hp, Hi in Hr. simpl negb in Hr. cbv iota in Hr.
  apply runs_call in Hr as (r3&tr3&[Heq3 <-]%cons_eq_inv&Hr).
  apply (f_equal (λ e : @event k8s, let '(existT a r) := e in
    match a return k8s_answer a → option (option error) with NewPatchHelper => λ r, Some r | _ => λ _, None end r)) in Heq3. cbn in Heq3. injection Heq3 as <-.
  exact Hr.
Qed.

(** The body of a reconciliation ends with a value that carries the
    specification. *)
Lemma body_managed cluster ccp tr o :
  deleting ccp = false → runs (reconcile_body cluster ccp) tr o →
  (∃ e, o = Val e ∧
     match e with Returned ccp' _ _ | Panicked ccp' => ccp_Spec ccp' = ccp_Spec ccp end) ∧
  (unchanged tr ∨ ∃ o' tr1 tr2, tr = tr1 ++ tr2 ∧ unchanged tr1 ∧
     runs (reconcileMachines cluster (with_finalizer ccp)) tr2 o').
Proof.
  intros Hdel. unfold reconcile_body. fold (deleting ccp). rewrite Hdel.
  destruct (configutil_Unmarshal _) as [[cfg|cfg|gvk]|e]; intros Hr;
    try (destruct Hr as [-> ->]; split; [by eexists|left; apply unchanged_nil]).
  apply runs_pbind in Hr as (tr1&tr2&o'&->&Hr&Hend).
  assert (tr2 = [] ∧ ∃ e, o = Val e ∧
    match e with Returned ccp' _ _ | Panicked ccp' => ccp_Spec ccp' = ccp_Spec ccp end) as [-> Ho].
  { destruct o' as [[res err]|]; destruct Hend as [-> ->]; (split; [done|by eexists]). }
  split; [done|]. rewrite app_nil_r.
  destruct (reconcileControlPlane_managed _ _ _ _ _ Hr) as [?|(t1&t2&->&?&?)]; [by left|right; eauto 10].
Qed.

(** A run that changed a machine had read the object and its cluster. *)
Lemma change_admitted req tr o :
  runs (Reconcile req) tr o → unchanged tr ∨ ∃ ccp cluster, admitted req ccp cluster tr.
Proof.
  intros Hr. destruct (not_unchanged tr) as [?|(tr1&a&r&tr2&->&Ha)]; [by left|right].
  destruct (hoare_reaches _ _ _ _ _ _ _ _ (Reconcile_hoare req) (runs_reaches _ _ _ Hr))
    as (ccp&cluster&Hadm&_); [by destruct a|].
  exists ccp, cluster. by apply admitted_app.
Qed.

Lemma Reconcile_managed req ccp cluster tr o :
  runs (Reconcile req) tr o → admitted req ccp cluster tr → deleting ccp = false →
  unchanged tr ∨ ∃ o', managed cluster (with_finalizer ccp) tr o'.
Proof.
  intros Hr Hadm Hdel. destruct (admitted_reads _ _ _ _ _ Hr Hadm) as (tr0&->&Hr0).
  change (?a :: ?b :: ?c :: tr0) with ([a; b; c] ++ tr0). set (reads := [_; _; _]).
  assert (Hreads : unchanged reads) by (unfold reads; auto using unchanged_cons, unchanged_nil).
  clearbody reads. clear Hr Hadm.
  apply runs_bind in Hr0 as [[Hr _]|(tr1&tr2&e&->&Hbody&Hend)].
  { by destruct (body_managed _ _ _ _ Hdel Hr) as [(?&?&_) _]. }
  destruct (body_managed _ _ _ _ Hdel Hbody) as [(e'&[= <-]&Hspec) Hm].
  assert (Hu2 : unchanged tr2).
  { destruct e as [ccp' res err|ccp']; [by eapply deferred_unchanged|].
    apply runs_bind in Hend as [[Hd _]|(t1&t2&?&->&Hd&[-> _])]; [by eapply deferred_unchanged|].
    rewrite app_nil_r. by eapply deferred_unchanged. }
  destruct Hm as [Hu1|(o'&t1&t2&->&Hu1&Hm)]; [left; by rewrite !unchanged_app|right].
  exists o', (reads ++ t1), t2, tr2. rewrite <-!app_assoc, unchanged_app. by split_and!.
Qed.

(** What the step does to the machines that were found. *)
Lemma managed_refines cluster ccp ms tr o :
  (0 < size ms)%nat → managed cluster ccp tr o → lists_match cluster ccp (states_of ms) tr →
  (lasting (states_of ms) → nodes_match cluster ccp (Z.of_nat (size ms)) tr) →
  (∀ m, @Ev k8s (Create_Machine m) None ∈ tr → ms !! mach_Name m = None) →
  (idle tr (states_of ms) ∧
     ((∃ res e, o = Val (res, Some e)) ∨
      o = Val (NoResult, None) ∧ f_outdated (fleet_of (Hash (ccp_Spec ccp)) (labels_of ms)) = 0%nat)) ∨
  stepped (ccp_Spec ccp) tr (states_of ms).
Proof.
  intros Hpos (tr1&tr2&tr3&->&Hu1&Hu3&Hr) Hlist Hn Hfresh. unfold idle, stepped.
  rewrite !after_events_app, (after_unchanged tr1), (after_unchanged tr3) by done.
  assert (Hg : ∀ (h : list (@event k8s)) a, reads_only h a → machine_change a = false) by by intros ? [].
  apply runs_bind in Hr as [[Hr _]|(tr4&tr5&r&->&Hl&Hr)].
  { by destruct (runs_unchanged _ _ _ _ _ Hg (mc_machines _ _ []) Hr) as [_ []]. }
  destruct (runs_unchanged _ _ _ _ _ Hg (mc_machines _ _ []) Hl) as [Hu4 Hk].
  rewrite after_events_app, (after_unchanged tr4) by done.
  destruct r as [owned|e]; [|left; destruct Hr as [-> ->]; eauto]. destruct Hk as [Hk _].
  assert (states_of owned = states_of ms) as Heq.
  { apply (Hlist (tr1 ++ tr4)).
    - rewrite <-!app_assoc, app_assoc. by apply prefix_app_r.
    - by apply unchanged_app.
    - exists tr1, tr4, []. by rewrite app_nil_r. }
  assert (size owned = size ms) as Hsize by by rewrite <-!states_size, Heq.
  unfold labels_of. rewrite <-Heq in *. rewrite <-Hsize in *.
  apply (manage_refines cluster ccp owned tr5 o Hk Hpos Hr).
  - intros m Hm. specialize (Hfresh m). rewrite !elem_of_app in Hfresh.
    specialize (Hfresh ltac:(auto)). apply (f_equal (.!! mach_Name m)) in Heq. unfold states_of in Heq.
    rewrite !lookup_fmap, Hfresh in Heq. by apply fmap_None in Heq.
  - intros Hlast. apply (nodes_match_after (tr1 ++ tr4)); [|by apply unchanged_app].
    apply (nodes_match_before tr3). rewrite <-!app_assoc in *. by apply Hn.
Qed.

Lemma fleet_step_irrefl n f : ¬ fleet_step n f f.
Proof. destruct f as [u c]. inversion 1; lia. Qed.

Lemma idle_not_stepped spec tr ss : idle tr ss → ¬ stepped spec tr ss.
Proof. intros Hi (_&Hs&_). rewrite Hi in Hs. by apply fleet_step_irrefl in Hs. Qed.

(** A round leaves the machines as they are, or performs one step. *)
Lemma round_requests req ccp cluster ms ms' tr :
  (0 < size ms)%nat → round req ccp cluster ms ms' tr →
  (idle tr (states_of ms) ∧
     ∀ res, managed cluster (with_finalizer ccp) tr (Val (res, None)) →
       f_outdated (fleet_of (Hash (ccp_Spec ccp)) (labels_of ms)) = 0%nat) ∨
  stepped (ccp_Spec ccp) tr (states_of ms).
Proof.
  intros Hpos [[o Hr] Hreads Hdel Hlist Hfresh Hn _].
  assert (Hstep := λ o Hm, managed_refines cluster (with_finalizer ccp) ms tr o Hpos Hm Hlist Hn Hfresh).
  change (ccp_Spec (with_finalizer ccp)) with (ccp_Spec ccp) in Hstep.
  assert (Hidle : idle tr (states_of ms) → ∀ res, managed cluster (with_finalizer ccp) tr (Val (res, None)) →
    f_outdated (fleet_of (Hash (ccp_Spec ccp)) (labels_of ms)) = 0%nat).
  { intros Hi res Hm. destruct (Hstep _ Hm) as [[_ [(?&?&[=])|[_ ?]]]|Hs]; [done|].
    by apply idle_not_stepped in Hs. }
  assert (Hcase : unchanged tr ∨ ∃ o', managed cluster (with_finalizer ccp) tr o').
  { destruct (change_admitted _ _ _ Hr) as [?|(ccp'&cluster'&Hadm)]; [by left|].
    destruct (Hreads _ _ Hadm) as [-> ->]. by eapply Reconcile_managed. }
  destruct Hcase as [Hu|[o' Hm]]; [apply (after_unchanged _ (states_of ms)) in Hu; left; split; [done|by apply Hidle]|].
  destruct (Hstep _ Hm) as [[Hi _]|Hs]; [left; split; [done|by apply Hidle]|by right].
Qed.

Lemma round_step req ccp cluster ms ms' tr (f := λ ms, fleet_of (Hash (ccp_Spec ccp)) (labels_of ms))
    (n := ccps_Replicas (ccp_Spec ccp)) :
  (0 < size ms)%nat → round req ccp cluster ms ms' tr →
  Z.of_nat (size ms') ≤ Z.max (n + 1) (Z.of_nat (size ms)) ∧
  ((labels_of ms' = labels_of ms ∧ (size ms' ≤ size ms)%nat ∧
      (∀ res, managed cluster (with_finalizer ccp) tr (Val (res, None)) → f_outdated (f ms) = 0%nat)) ∨
   (lasting (states_of ms) ∧ fleet_step n (f ms) (f ms'))).
Proof.
  intros Hpos Hround. pose proof (round_next _ _ _ _ _ _ Hround) as Hnext.
  pose proof (gone_size _ _ Hnext) as Hsize. apply standing_gone in Hnext. rewrite states_size in Hsize.
  unfold f, labels_of. rewrite Hnext.
  destruct (round_requests _ _ _ _ _ _ Hpos Hround) as [[Hi Hout]|(Hl&Hs&Hle)].
  - rewrite Hi, states_size in Hsize. rewrite Hi. split; [lia|]. left. by split_and!.
  - rewrite states_size in Hle. unfold n. split; [lia|]. by right.
Qed.

Lemma round_keeps_some req ccp cluster ms ms' tr :
  0 < ccps_Replicas (ccp_Spec ccp) → (0 < size (labels_of ms))%nat → round req ccp cluster ms ms' tr →
  (0 < size (labels_of ms'))%nat.
Proof.
  intros Hn Hpos Hr. pose proof (labels_of_size ms).
  destruct (round_step req ccp cluster ms ms' tr ltac:(lia) Hr) as [_ [[-> _]|[_ Hs]]]; [done|].
  rewrite <-(labels_size (Hash (ccp_Spec ccp)) ms'). eapply fleet_step_pos; [exact Hn|exact Hs|].
  by rewrite labels_size.
Qed.

Lemma rounds_steps req spec k ms ms' (f := λ ms, fleet_of (Hash spec) (labels_of ms)) :
  0 < ccps_Replicas spec → (0 < size (labels_of ms))%nat → rounds req spec k ms ms' →
  nsteps (fleet_step (ccps_Replicas spec)) k (f ms) (f ms') ∧
  Z.of_nat (size ms') ≤ Z.max (ccps_Replicas spec + 1) (Z.of_nat (size ms)).
Proof.
  intros Hn Hpos Hr. induction Hr as [ms|k ms ms1 ms2 ccp cluster tr <- Hr Hne _ IH
    |k ms ms1 ms2 ccp cluster tr <- Hr Heq _ IH]; [split; [constructor|lia]|..];
    destruct (IH (round_keeps_some _ _ _ _ _ _ Hn Hpos Hr)) as [IH1 IH2]; pose proof (labels_of_size ms);
    destruct (round_step req ccp cluster ms ms1 tr ltac:(lia) Hr) as [Hsize Hcase]; (split; [|lia]).
  - destruct Hcase as [[? _]|[_ Hstep]]; [done|]. by apply nsteps_l with (f ms1).
  - unfold f in *. by rewrite <-Heq.
Qed.
End rollout_lemmas.

(** ** Properties *)

Section rollout_properties.
Context {R : GoRuntime} {RL : GoRuntimeLaws R} {P : Platform} {AL : AggregateLaws P}.
Context {FL : FailureDomainLaws P} {ML : MachineOrderLaws P} {LL : LabelLaws P}.
Context {RC : CritControlPlaneReconciler} {RCL : ReconcilerLaws RC}.
Implicit Types (cluster : Cluster) (ccp : CritControlPlane).

(** C5: a reconciliation of a control plane that has machines and is not being
    deleted implements the abstract rollout, whichever of its requests fail.
    Either the machines that stand keep their names and hashes and no machine is
    added, and if the step that manages the machines reports no error then none
    that stands is outdated; or no machine was being deleted and it performs one
    step: a machine with the current hash is added while there are at most as many
    machines as replicas and some is outdated, or an outdated machine is removed
    while there are more.  What is assumed of the machines is [round]: listings
    agree until the first change, names are fresh, and a health check that passes
    while no machine is being deleted has seen as many nodes as machines. *)
Theorem reconciliation_refines_rollout req ccp cluster ms ms' tr
    (f := λ ms, fleet_of (Hash (ccp_Spec ccp)) (labels_of ms)) :
  (0 < size ms)%nat → round req ccp cluster ms ms' tr →
  (labels_of ms' = labels_of ms ∧ (size ms' ≤ size ms)%nat ∧
     (∀ res, managed cluster (with_finalizer ccp) tr (Val (res, None)) → f_outdated (f ms) = 0%nat)) ∨
  (lasting (states_of ms) ∧ fleet_step (ccps_Replicas (ccp_Spec ccp)) (f ms) (f ms')).
Proof. apply round_step. Qed.

End rollout_properties.

(** ** Witnesses *)

Module RolloutWitness.
Import Reference ReferenceLaws Sample Fixtures CollectionWitness WorkloadWitness ManagementWitness.
Import ControllerWitness.

(** One replica whose machine is outdated: a current machine is added, and once
    its node has joined the outdated one is removed.  It is still there, being
    deleted, when the next reconciliation lists the machines, and then gone. *)
Definition hash : string := Hash (ccp_Spec (ccp 1)).
Definition added : Machine := machine "cp-x2x4z" 20 (Some "b") hash.
Definition leaving : Machine := {|
  mach_Meta := {|
    om_Name := mach_Name m1; om_Namespace := mach_Namespace m1; om_UID := om_UID (mach_Meta m1);
    om_Labels := mach_Labels m1; om_Annotations := om_Annotations (mach_Meta m1);
    om_OwnerReferences := om_OwnerReferences (mach_Meta m1);
    om_CreationTimestamp := om_CreationTimestamp (mach_Meta m1); om_DeletionTimestamp := Some 60;
    om_Finalizers := ["machine.cluster.x-k8s.io"] |};
  mach_Spec := mach_Spec m1; mach_NodeRef := mach_NodeRef m1 |}.
Definition before : FilterableMachineCollection := NewFilterableMachineCollection [Some m1].
Definition between : FilterableMachineCollection := NewFilterableMachineCollection [Some m1; Some added].
Definition lingering : FilterableMachineCollection :=
  NewFilterableMachineCollection [Some leaving; Some added].
Definition after : FilterableMachineCollection := NewFilterableMachineCollection [Some added].

(** The listings of a trace. *)
Definition machine_lists (tr : list (@event k8s)) : list (list Machine) :=
  omap (λ e : @event k8s, let '(existT a r) := e in
    match a as a return k8s_answer a → option (list Machine) with
    | List_Machines _ _ => λ r, match r with Ok items => Some items | Err _ => None end
    | _ => λ _, None
    end r) tr.

Lemma prefix_Forall_omap {A B} (f : A → option B) (Q : B → Prop) l k :
  l `prefix_of` k → Forall Q (omap f k) → Forall Q (omap f l).
Proof. intros [k' ->]. rewrite omap_app. by intros [? _]%Forall_app. Qed.

Lemma lists_matched cl c ss tr :
  Forall (λ items, states_of (Filter (NewFilterableMachineCollectionFromMachineList items)
    [OwnedControlPlaneMachines (ccp_Name c)]) = ss) (machine_lists tr) → lists_match cl c ss tr.
Proof.
  intros Hall tr0 owned Hpre _ (h0&h1&h2&->&Hr). apply (prefix_Forall_omap _ _ _ _ Hpre) in Hall.
  apply runs_call in Hr as ([items|e]&tr'&->&[-> [=]]). subst owned.
  rewrite Forall_forall in Hall. apply Hall, list_elem_of_omap.
  eexists. split; [apply elem_of_app; right; left|done].
Qed.

Lemma nodes_matched cl c k tr :
  k < 2 ^ 31 → Forall (λ x, x = k) (node_counts tr) → nodes_match cl c k tr.
Proof.
  intros Hk Hall tr0 n Hpre _ _ Hc. eapply counted_nodes; [exact Hk| |exact Hc].
  by apply (prefix_Forall_omap _ _ _ _ Hpre).
Qed.

(** Only machines that are being deleted have gone. *)
Definition gone_check (ss ss' : gmap string (option string * bool)) : bool :=
  bool_decide (map_Forall (λ k s, ss' !! k = Some s ∨ ss' !! k = None ∧ s.2 = true) ss) &&
  bool_decide (map_Forall (λ k s, ss !! k = Some s) ss').

Lemma gone_checked ss ss' : gone_check ss ss' = true → gone ss ss'.
Proof.
  intros [Hss%bool_decide_eq_true Hss'%bool_decide_eq_true]%andb_prop. split.
  - apply map_subseteq_spec. intros k s Hk. by apply Hss'.
  - intros k s Hk Hnone. destruct (Hss k s Hk) as [Hsome|[_ ?]]; [congruence|done].
Qed.

(** A trace that a steady environment drives is a round. *)
Lemma round_driven n nodes items ms ms' (tr : list (@event k8s)) k :
  (drive (world n nodes items) [] (Reconcile request)).1 = tr →
  tr !! 0%nat ≫= read_object = Some (ccp n) → tr !! 1%nat ≫= read_cluster = Some cluster →
  Z.of_nat (size ms) = k → k < 2 ^ 31 → bool_decide (Forall (λ x, x = k) (node_counts tr)) = true →
  bool_decide (Forall (λ items, states_of (Filter (NewFilterableMachineCollectionFromMachineList items)
    [OwnedControlPlaneMachines (ccp_Name (with_finalizer (ccp n)))]) = states_of ms) (machine_lists tr)) = true →
  bool_decide (Forall (λ m, ms !! mach_Name m = None) (omap created_machine tr)) = true →
  gone_check (after_events tr (states_of ms)) (states_of ms') = true →
  round request (ccp n) cluster ms ms' tr.
Proof.
  intros Htr Ho Hc <- Hlt Hn%bool_decide_eq_true Hl%bool_decide_eq_true Hf%bool_decide_eq_true Hnext. split.
  - eexists. rewrite <-Htr. apply drive_runs.
  - intros ccp' cluster' [Ho' Hc']%admitted_read. split; congruence.
  - done.
  - by apply lists_matched.
  - by apply fresh_created.
  - intros _. by apply nodes_matched.
  - by apply gone_checked.
Qed.

(** The step that manages the machines, from its place in the trace. *)
Lemma managed_driven (tr : list (@event k8s)) n i j env o (w := with_finalizer (ccp n)) :
  drive env [] (reconcileMachines cluster w) = (take j (drop i tr), o) →
  bool_decide (Forall (λ e, machine_change (projT1 e) = false) (take i tr)) = true →
  bool_decide (Forall (λ e, machine_change (projT1 e) = false) (drop j (drop i tr))) = true →
  managed cluster w tr o.
Proof.
  intros Hrun Hu1%bool_decide_eq_true Hu3%bool_decide_eq_true. rewrite Forall_forall in Hu1, Hu3.
  exists (take i tr), (take j (drop i tr)), (drop j (drop i tr)). split; [by rewrite !take_drop|]. split_and!.
  - intros a r Hin. exact (Hu1 _ Hin).
  - intros a r Hin. exact (Hu3 _ Hin).
  - pose proof (drive_runs env [] (reconcileMachines cluster w)) as Hr. by rewrite Hrun in Hr.
Qed.

Definition first_world := world 1 [node "node-m1"] [m1].
Definition second_world := world 1 [node "node-m1"; node "node-cp-x2x4z"] [m1; added].
Definition third_world := world 1 [node "node-m1"; node "node-cp-x2x4z"] [leaving; added].
Definition first_trace : list (@event k8s) :=
  Eval vm_compute in (drive first_world [] (Reconcile request)).1.
Definition second_trace : list (@event k8s) :=
  Eval vm_compute in (drive second_world [] (Reconcile request)).1.
Definition third_trace : list (@event k8s) :=
  Eval vm_compute in (drive third_world [] (Reconcile request)).1.

Lemma first_round : round request (ccp 1) cluster before between first_trace.
Proof. apply (round_driven 1 [node "node-m1"] [m1] before between _ 1); first [by_evaluation|lia]. Qed.

Lemma second_round : round request (ccp 1) cluster between lingering second_trace.
Proof.
  apply (round_driven 1 [node "node-m1"; node "node-cp-x2x4z"] [m1; added] between lingering _ 2);
    first [by_evaluation|lia].
Qed.

(** While the machine is being deleted nothing else is done. *)
Lemma third_round : round request (ccp 1) cluster lingering after third_trace.
Proof.
  apply (round_driven 1 [node "node-m1"; node "node-cp-x2x4z"] [leaving; added] lingering after _ 2);
    first [by_evaluation|lia].
Qed.

(** In the first two the machines are managed without an error. *)
Lemma first_managed : managed cluster (with_finalizer (ccp 1)) first_trace (Val (Requeue, None)).
Proof. apply (managed_driven first_trace 1 12 24 first_world); by_evaluation. Qed.

Lemma second_managed : managed cluster (with_finalizer (ccp 1)) second_trace (Val (Requeue, None)).
Proof. apply (managed_driven second_trace 1 12 35 second_world); by_evaluation. Qed.

Lemma reconciliation_refines_rollout_witness :
  fleet_step 1 {| f_outdated := 1; f_current := 0 |} {| f_outdated := 1; f_current := 1 |}.
Proof.
  destruct (reconciliation_refines_rollout request (ccp 1) cluster before between first_trace
    ltac:(vm_compute; lia) first_round) as [[Heq _]|[_ Hstep]].
  - apply (f_equal size) in Heq. vm_compute in Heq. discriminate.
  - exact Hstep.
Defined.

End RolloutWitness.
