(* ===== verification/Convergence.v ===== *)
(** Where the reconciliations of a control plane lead: whatever machines are
    found first, and however many reconciliations fail in between, after enough
    whose machine step reports no error no machine that stands is outdated, and
    nothing changes any more.  How many machines there are then depends on where
    it began: as many as replicas after a rollout, or a first creation that was not
    interrupted; otherwise as many as there were, because the code adds and
    removes machines only to replace outdated ones. *)
From S2P Require Import Prelude GoRuntime ApiTypes Platform SamplePlatform MachineFilters MachineCollection FailureDomain ControlPlane.
From S2P Require Import WorkloadCluster ManagementCluster MachineCreation Deletion Upgrade StatusUpdate ControlPlaneController Rollout.
Local Open Scope Z_scope.
Local Open Scope go_scope.

(** ** The distance from the end of a rollout *)

(** Two for each outdated machine, and one for each machine that can be added
    before one has to be removed. *)
Definition distance (n : Z) (f : fleet) : Z :=
  2 * Z.of_nat (f_outdated f) + Z.max 0 (n + 1 - Z.of_nat (f_size f)).

Lemma fleet_step_distance n f f' : fleet_step n f f' → distance n f' < distance n f.
Proof. unfold distance, f_size. destruct 1; cbn [f_outdated f_current]; lia. Qed.

Lemma fleet_step_outdated n f f' : fleet_step n f f' → (0 < f_outdated f)%nat ∧ (f_outdated f' ≤ f_outdated f)%nat.
Proof. destruct 1; cbn [f_outdated]; lia. Qed.

Lemma fleet_step_end n f f' :
  fleet_step n f f' → Z.of_nat (f_size f) ≤ n + 1 →
  Z.of_nat (f_size f') ≤ n + 1 ∧ (f_outdated f' = 0%nat → Z.of_nat (f_size f') = n).
Proof. unfold f_size. destruct 1; cbn [f_outdated f_current]; lia. Qed.

(** How many reconciliations without an error are enough: one to create the first
    machines; none if no machine is outdated. *)
Definition rounds_needed (n : Z) (f : fleet) : Z :=
  if (f_size f =? 0)%nat then 1
  else if (f_outdated f =? 0)%nat then 0 else distance n f - 1.

Section convergence.
Context {R : GoRuntime} {P : Platform} {RC : CritControlPlaneReconciler}.
Implicit Types (cluster : Cluster) (ccp : CritControlPlane) (ms : FilterableMachineCollection).

(** Any number of reconciliations while the specification stays as it is, in [E] of
    which the step that manages the machines reports no error.  Those that create
    machines do so under different names.  [I] is the number of interrupted
    initializations: reconciliations that found no machine and failed, perhaps
    after they had created some of the first ones. *)
Inductive history (req : ObjectKey) (spec : CritControlPlaneSpec) :
    nat → nat → FilterableMachineCollection → FilterableMachineCollection → Prop :=
| history_nil ms : history req spec 0 0 ms ms
| history_success E I ms ms1 ms2 ccp cluster tr res :
    ccp_Spec ccp = spec → round req ccp cluster ms ms1 tr →
    managed cluster (with_finalizer ccp) tr (Val (res, None)) → NoDup (mach_Name <$> created tr) →
    history req spec E I ms1 ms2 → history req spec (S E) I ms ms2
| history_failure E I ms ms1 ms2 ccp cluster tr :
    ccp_Spec ccp = spec → round req ccp cluster ms ms1 tr → (0 < size ms)%nat ∨ created tr = [] →
    history req spec E I ms1 ms2 → history req spec E I ms ms2
| history_interrupted E I ms ms1 ms2 ccp cluster tr :
    ccp_Spec ccp = spec → round req ccp cluster ms ms1 tr → size ms = 0%nat →
    NoDup (mach_Name <$> created tr) →
    history req spec E I ms1 ms2 → history req spec E (S I) ms ms2.
End convergence.

(** ** Lemmas *)

Section convergence_lemmas.
Context {R : GoRuntime} {RL : GoRuntimeLaws R} {P : Platform} {AL : AggregateLaws P}.
Context {FL : FailureDomainLaws P} {ML : MachineOrderLaws P} {LL : LabelLaws P}.
Context {RC : CritControlPlaneReconciler} {RCL : ReconcilerLaws RC}.
Implicit Types (cluster : Cluster) (ccp : CritControlPlane) (ms : FilterableMachineCollection).
Implicit Types (ss : gmap string (option string * bool)) (tr : list (@event k8s)).

Lemma unchanged_created tr : unchanged tr → created tr = [].
Proof.
  induction tr as [|[a r] tr IH]; [done|]. intros Hu.
  assert (Ha : machine_change a = false) by (apply (Hu a r); left).
  assert (Htr : unchanged tr) by (intros a' r' Hin; apply (Hu a' r'); by right).
  unfold created. simpl. destruct a; try done; exact (IH Htr).
Qed.

(** Requests that delete no machine add those that were created. *)
Lemma after_created h tr ss :
  (∀ m r, @Ev k8s (Delete_Machine m) r ∉ tr) → NoDup (mach_Name <$> created tr) →
  (∀ m, m ∈ created tr → hash_label m = Some h ∧ ss !! mach_Name m = None) →
  fleet_of h (standing (after_events tr ss)) =
    {| f_outdated := f_outdated (fleet_of h (standing ss));
       f_current := length (created tr) + f_current (fleet_of h (standing ss)) |} ∧
  size (after_events tr ss) = (length (created tr) + size ss)%nat.
Proof.
  revert ss. induction tr as [|e tr IH]; intros ss Hdel Hdup Hnew; [by split|].
  change (after_events (e :: tr) ss) with (after_events tr (after_event ss e)).
  assert (Hdel' : ∀ m r, @Ev k8s (Delete_Machine m) r ∉ tr)
    by (intros m r Hin; apply (Hdel m r); by right).
  destruct (created_machine e) as [m|] eqn:He.
  - assert (Hc : created (e :: tr) = m :: created tr) by (unfold created; simpl; by rewrite He).
    rewrite Hc in Hdup, Hnew |- *. apply NoDup_cons in Hdup as [Hm Hdup].
    destruct (Hnew m ltac:(by left)) as [Hhash Hfresh].
    assert (after_event ss e = <[mach_Name m := (Some h, false)]> ss) as ->.
    { destruct e as [[] r]; try done. destruct r; [done|]. simpl in He. injection He as <-. simpl. by rewrite Hhash. }
    destruct (IH (<[mach_Name m := (Some h, false)]> ss)) as [-> ->]; [done..| |].
    { intros m' Hm'. destruct (Hnew m' ltac:(by right)) as [? ?]. split; [done|].
      rewrite lookup_insert_ne; [done|]. intros Heq. apply Hm. rewrite Heq. by apply list_elem_of_fmap_2. }
    rewrite standing_insert, fleet_insert, map_size_insert_None; [|done|].
    + cbn [f_outdated f_current length]. split; [f_equal; lia|lia].
    + apply eq_None_not_Some. intros [l Hl%standing_lookup]. congruence.
  - assert (Hc : created (e :: tr) = created tr) by (unfold created; simpl; by rewrite He).
    rewrite Hc in Hdup, Hnew |- *.
    assert (after_event ss e = ss) as ->; [|by apply IH].
    destruct e as [[] r]; try done; [by destruct r|]. exfalso. by eapply Hdel; left.
Qed.

Lemma needing_empty cluster ccp : size (MachinesNeedingUpgrade (NewControlPlane cluster ccp ∅)) = 0%nat.
Proof.
  apply map_size_empty_iff, map_empty. intros k. apply eq_None_not_Some.
  intros [m Hm]. apply MachinesNeedingUpgrade_lookup in Hm as [Hm _].
  - change ((∅ : FilterableMachineCollection) !! k = Some m) in Hm. by rewrite lookup_empty in Hm.
  - apply map_Forall_empty.
Qed.

(** A control plane without machines is initialized. *)
Lemma manage_empty cluster ccp tr o :
  0 < ccps_Replicas (ccp_Spec ccp) → runs (manage_machines cluster ccp ∅) tr o →
  ∃ tr1 tr2, tr = tr1 ++ tr2 ∧ unchanged tr1 ∧
    ((tr2 = [] ∧ ∃ e, o = Val (NoResult, Some e)) ∨
     runs (initialize cluster ccp (NewControlPlane cluster ccp ∅)) tr2 o).
Proof.
  intros Hn Hr. set (c := NewControlPlane cluster ccp ∅).
  apply runs_bind in Hr as [[Hr _]|(tr1&tr2&[ms' err]&->&Hown&Hr)].
  { by apply (hoare_runs _ _ _ _ _ _ (EnsureOwnership_hoare c [])) in Hr. }
  assert (Hguard : ∀ (h : list (@event k8s)) a, adoption_guard c a → machine_change a = false)
    by (intros _ a (k&m&_&_&->); done).
  destruct (runs_unchanged _ _ _ _ _ Hguard (EnsureOwnership_hoare c []) Hown) as [Hu Hms].
  exists tr1, tr2. split; [done|]. split; [done|].
  destruct err as [e|]; cbv beta iota zeta in Hr; [left; destruct Hr as [-> ->]; eauto|right].
  destruct Hms as [-> _]. change (cp_Machines c) with (∅ : FilterableMachineCollection) in Hr.
  rewrite fmap_empty in Hr.
  rewrite needing_empty in Hr. change (0 <? 0)%nat with false in Hr. cbv iota in Hr.
  rewrite map_size_empty in Hr. by destruct (Z.eqb_spec (Z.of_nat 0) (ccps_Replicas (ccp_Spec ccp))); [lia|].
Qed.

(** The step that manages the machines, when there are none. *)
Lemma managed_empty cluster ccp tr o :
  0 < ccps_Replicas (ccp_Spec ccp) → managed cluster ccp tr o → lists_match cluster ccp ∅ tr →
  ∃ tr1 tr2 tr3, tr = tr1 ++ tr2 ++ tr3 ∧ unchanged tr1 ∧ unchanged tr3 ∧
    ((tr2 = [] ∧ ∃ e, o = Val (NoResult, Some e)) ∨
     runs (initialize cluster ccp (NewControlPlane cluster ccp ∅)) tr2 o).
Proof.
  intros Hn (tr1&tr2&tr3&->&Hu1&Hu3&Hr) Hlist.
  assert (Hg : ∀ (h : list (@event k8s)) a, reads_only h a → machine_change a = false) by by intros ? [].
  apply runs_bind in Hr as [[Hr _]|(tr4&tr5&r&->&Hl&Hr)].
  { by destruct (runs_unchanged _ _ _ _ _ Hg (mc_machines _ _ []) Hr) as [_ []]. }
  destruct (runs_unchanged _ _ _ _ _ Hg (mc_machines _ _ []) Hl) as [Hu4 _].
  assert (Hu14 : unchanged (tr1 ++ tr4)) by by apply unchanged_app.
  destruct r as [owned|e].
  2:{ exists (tr1 ++ tr4), [], tr3. destruct Hr as [-> ->]. rewrite app_nil_r, <-app_assoc. eauto 10. }
  assert (owned = ∅) as ->.
  { apply map_size_empty_iff. rewrite <-states_size. rewrite (Hlist (tr1 ++ tr4)); [done| |done|].
    - rewrite <-!app_assoc, app_assoc. by apply prefix_app_r.
    - exists tr1, tr4, []. by rewrite app_nil_r. }
  apply manage_empty in Hr as (tr6&tr7&->&Hu6&Hr); [|done].
  exists (tr1 ++ tr4 ++ tr6), tr7, tr3. rewrite <-!app_assoc. split; [done|].
  split; [by rewrite !unchanged_app|]. split; done.
Qed.

(** What an initialization leaves. *)
Lemma initialize_states cluster ccp cp tr o (j := length (created tr)) :
  0 < ccps_Replicas (ccp_Spec ccp) → runs (initialize cluster ccp cp) tr o →
  NoDup (mach_Name <$> created tr) →
  fleet_of (Hash (ccp_Spec ccp)) (standing (after_events tr ∅)) = {| f_outdated := 0; f_current := j |} ∧
  size (after_events tr ∅) = j ∧ Z.of_nat j ≤ ccps_Replicas (ccp_Spec ccp) ∧
  ((∃ e, o = Val (NoResult, Some e)) ∨ Z.of_nat j = ccps_Replicas (ccp_Spec ccp)).
Proof.
  intros Hn Hr Hdup. pose proof (initialize_creates cluster ccp cp []) as Hh.
  apply (hoare_only _ _ _ _ _ (λ _ _ H, H)) in Hh.
  destruct (hoare_runs _ _ _ _ _ _ Hh Hr) as [_ (l&Heq&Hl)]. simpl in Heq. subst l.
  apply (initialize_run cluster) in Hr as (fds&i&_&Hlen&Hfd&Hnew&Hend); [|lia].
  destruct (after_created (Hash (ccp_Spec ccp)) tr ∅) as [-> ->]; [|done| |].
  { intros m r Hin. by specialize (Hl _ _ Hin). }
  { intros m [_ Hm]%Hnew. by apply MatchesConfigurationHash_true in Hm. }
  rewrite map_size_empty. fold j. apply (f_equal length) in Hfd.
  rewrite length_fmap, length_take in Hfd. fold j in Hfd.
  split; [by rewrite Nat.add_0_r|]. split; [lia|]. split; [lia|].
  destruct Hend as [[_ ->]|[[e ->] _]]; [right; lia|left; eauto].
Qed.

(** A reconciliation that finds no machine. *)
Lemma managed_none cluster ccp tr o (j := length (created tr)) :
  0 < ccps_Replicas (ccp_Spec ccp) → managed cluster ccp tr o → lists_match cluster ccp ∅ tr →
  NoDup (mach_Name <$> created tr) →
  fleet_of (Hash (ccp_Spec ccp)) (standing (after_events tr ∅)) = {| f_outdated := 0; f_current := j |} ∧
  size (after_events tr ∅) = j ∧ Z.of_nat j ≤ ccps_Replicas (ccp_Spec ccp) ∧
  ((∃ e, o = Val (NoResult, Some e)) ∨ Z.of_nat j = ccps_Replicas (ccp_Spec ccp)).
Proof.
  intros Hn Hm Hlist Hdup. destruct (managed_empty _ _ _ _ Hn Hm Hlist) as (tr1&tr2&tr3&->&Hu1&Hu3&Hr).
  unfold j. rewrite !after_events_app, (after_unchanged tr1), (after_unchanged tr3) by done.
  rewrite !created_app, (unchanged_created tr1), (unchanged_created tr3), app_nil_r in * by done.
  destruct Hr as [[-> He]|Hr]; [|by eapply initialize_states].
  split; [reflexivity|]. split; [reflexivity|]. split; [simpl; lia|by left].
Qed.

Lemma round_none req ccp cluster ms ms' tr (f := λ ms, fleet_of (Hash (ccp_Spec ccp)) (labels_of ms))
    (n := ccps_Replicas (ccp_Spec ccp)) (j := length (created tr)) :
  0 < n → size ms = 0%nat → round req ccp cluster ms ms' tr → NoDup (mach_Name <$> created tr) →
  f ms' = {| f_outdated := 0; f_current := j |} ∧ size (labels_of ms') = j ∧ (size ms' ≤ j)%nat ∧
  Z.of_nat j ≤ n ∧
  (∀ res, managed cluster (with_finalizer ccp) tr (Val (res, None)) → Z.of_nat j = n).
Proof.
  intros Hn Hsize%map_size_empty_iff Hround Hdup. subst ms.
  destruct Hround as [[o Hr] Hreads Hdel Hlist _ _ Hnext].
  change (states_of ∅) with (state_of <$> (∅ : FilterableMachineCollection)) in Hlist, Hnext.
  rewrite fmap_empty in Hlist, Hnext.
  assert (Hm : ∀ o, managed cluster (with_finalizer ccp) tr o → _)
    by exact (λ o Hm, managed_none cluster (with_finalizer ccp) tr o Hn Hm Hlist Hdup).
  change (ccp_Spec (with_finalizer ccp)) with (ccp_Spec ccp) in Hm. fold j in Hm. fold n in Hm.
  assert (Hafter : fleet_of (Hash (ccp_Spec ccp)) (standing (after_events tr ∅)) =
      {| f_outdated := 0; f_current := j |} ∧ size (after_events tr ∅) = j ∧ Z.of_nat j ≤ n).
  { assert (Hcase : unchanged tr ∨ ∃ o', managed cluster (with_finalizer ccp) tr o').
    { destruct (change_admitted _ _ _ Hr) as [?|(ccp'&cluster'&Hadm)]; [by left|].
      destruct (Hreads _ _ Hadm) as [-> ->]. by eapply Reconcile_managed. }
    destruct Hcase as [Hu|[o' Hm']]; [|by destruct (Hm _ Hm') as (?&?&?&_)].
    unfold j. rewrite (after_unchanged tr), (unchanged_created tr) by done.
    split; [reflexivity|]. split; [reflexivity|]. simpl. lia. }
  destruct Hafter as (Hf&Hs&Hle). pose proof (gone_size _ _ Hnext) as Hsz. rewrite states_size, Hs in Hsz.
  apply standing_gone in Hnext. unfold f, labels_of. rewrite Hnext. split; [done|]. split.
  { rewrite <-(fleet_size (Hash (ccp_Spec ccp))), Hf. done. }
  split; [done|]. split; [done|]. intros res (_&_&_&[[e [=]]|?])%Hm. done.
Qed.

(** What reconciliations, [E] of them without an error, do to machines that were
    found. *)
Definition approaches (spec : CritControlPlaneSpec) (E : nat) ms ms' : Prop :=
  let n := ccps_Replicas spec in
  let f ms := fleet_of (Hash spec) (labels_of ms) in
  (f_outdated (f ms) = 0%nat → labels_of ms' = labels_of ms) ∧
  (f_outdated (f ms') = 0%nat ∨ distance n (f ms') + Z.of_nat E ≤ distance n (f ms)) ∧
  (Z.of_nat (size (labels_of ms)) ≤ n + 1 → (0 < f_outdated (f ms))%nat → f_outdated (f ms') = 0%nat →
   Z.of_nat (size (labels_of ms')) = n).

Lemma approaches_same spec E ms ms1 ms2 :
  labels_of ms1 = labels_of ms → approaches spec E ms1 ms2 → approaches spec E ms ms2.
Proof. intros Heq. unfold approaches. by rewrite Heq. Qed.

Lemma approaches_weaken spec E ms ms' : approaches spec (S E) ms ms' → approaches spec E ms ms'.
Proof. intros (?&[?|?]&?); (split; [done|]); (split; [|done]); [by left|right; lia]. Qed.

Lemma approaches_settled spec E E' ms ms' (f := λ ms, fleet_of (Hash spec) (labels_of ms)) :
  f_outdated (f ms) = 0%nat → approaches spec E ms ms' → approaches spec E' ms ms'.
Proof.
  intros Hz (H1&_&H3). split; [done|]. split; [|done]. left. rewrite H1; [exact Hz|exact Hz].
Qed.

Lemma approaches_step spec E ms ms1 ms2 (f := λ ms, fleet_of (Hash spec) (labels_of ms)) :
  fleet_step (ccps_Replicas spec) (f ms) (f ms1) →
  approaches spec E ms1 ms2 → approaches spec (S E) ms ms2.
Proof.
  intros Hs (H1&H2&H3). unfold approaches. fold (f ms) (f ms1) (f ms2) in *.
  pose proof (fleet_step_distance _ _ _ Hs). pose proof (fleet_step_outdated _ _ _ Hs).
  split; [lia|]. split; [destruct H2; [by left|right; lia]|]. intros Hle _ Hz.
  apply fleet_step_end in Hs as [Hle1 Hend]; [|unfold f; by rewrite labels_size].
  unfold f in Hle1, Hend. rewrite labels_size in Hle1, Hend. fold (f ms1) in Hend.
  destruct (decide (f_outdated (f ms1) = 0%nat)) as [Hz1|]; [|apply H3; lia].
  rewrite (H1 Hz1). by apply Hend.
Qed.

Lemma history_nonempty req spec E I ms ms' :
  0 < ccps_Replicas spec → history req spec E I ms ms' → (0 < size (labels_of ms))%nat →
  approaches spec E ms ms' ∧ (0 < size (labels_of ms'))%nat.
Proof.
  intros Hn. induction 1 as [ms|E I ms ms1 ms2 ccp cluster tr res <- Hr Hm _ _ IH
    |E I ms ms1 ms2 ccp cluster tr <- Hr _ _ IH|E I ms ms1 ms2 ccp cluster tr _ _ Hz _ _ _];
    intros Hpos; pose proof (labels_of_size ms); [| | |lia].
  { split; [|done]. split; [done|]. split; [right; lia|lia]. }
  all: destruct (IH (round_keeps_some _ _ _ _ _ _ Hn Hpos Hr)) as [IH' ?]; split; [|done].
  all: destruct (round_step req ccp cluster ms ms1 tr ltac:(lia) Hr) as [_ [(Heq&_&Hout)|[_ Hs]]].
  - apply (approaches_settled _ E); [by eapply Hout|]. by eapply approaches_same.
  - by eapply approaches_step.
  - by eapply approaches_same.
  - apply approaches_weaken. by eapply approaches_step.
Qed.

Lemma history_settled req spec E I ms ms' :
  0 < ccps_Replicas spec → history req spec E I ms ms' → (0 < size (labels_of ms))%nat →
  f_outdated (fleet_of (Hash spec) (labels_of ms)) = 0%nat → labels_of ms' = labels_of ms.
Proof. intros Hn Hh Hpos. by destruct (history_nonempty _ _ _ _ _ _ Hn Hh Hpos) as [[Hsame _] _]. Qed.

(** A control plane without machines gets its first ones, all current. *)
Lemma history_empty req spec E I ms ms' (f := λ ms, fleet_of (Hash spec) (labels_of ms))
    (n := ccps_Replicas spec) (stand := λ ms, Z.of_nat (size (labels_of ms))) :
  0 < n → history req spec E I ms ms' → size ms = 0%nat → (0 < E)%nat →
  f_outdated (f ms') = 0%nat ∧ 0 < stand ms' ≤ n ∧ (I = 0%nat → stand ms' = n).
Proof.
  unfold stand, n. intros Hn. induction 1 as [|E I ms ms1 ms2 ccp cluster tr res <- Hr Hm Hdup Hh _
    |E I ms ms1 ms2 ccp cluster tr <- Hr Hc _ IH|E I ms ms1 ms2 ccp cluster tr <- Hr _ Hdup Hh IH];
    intros Hz HE; [lia|..].
  - destruct (round_none _ _ _ _ _ _ Hn Hz Hr Hdup) as (Hf&Hs&_&Hle&Hj). specialize (Hj _ Hm).
    unfold f. rewrite (history_settled _ _ _ _ _ _ Hn Hh); [|lia|by rewrite Hf]. rewrite Hf. simpl. lia.
  - destruct Hc as [?|Hc]; [lia|].
    destruct (round_none _ _ _ _ _ _ Hn Hz Hr) as (_&_&Hs&_&_); [rewrite Hc; constructor|].
    rewrite Hc in Hs. simpl in Hs. apply IH; [lia|done].
  - destruct (round_none _ _ _ _ _ _ Hn Hz Hr Hdup) as (Hf&Hs&Hsz&Hle&_).
    destruct (decide (length (created tr) = 0%nat)) as [Hj|Hj].
    { destruct IH as (?&?&_); [lia|done|]. split; [done|]. split; [done|intros [=]]. }
    unfold f. rewrite (history_settled _ _ _ _ _ _ Hn Hh); [|lia|by rewrite Hf]. rewrite Hf. simpl. lia.
Qed.
End convergence_lemmas.

(** ** Properties *)

Section convergence_properties.
Context {R : GoRuntime} {RL : GoRuntimeLaws R} {P : Platform} {AL : AggregateLaws P}.
Context {FL : FailureDomainLaws P} {ML : MachineOrderLaws P} {LL : LabelLaws P}.
Context {RC : CritControlPlaneReconciler} {RCL : ReconcilerLaws RC}.

(** C3: a control plane converges.  Begin without machines, or with some that
    stand.  After as many reconciliations whose machine step reports no error as
    [rounds_needed] says, in any order with any number that fail, no machine that
    stands is outdated, and further reconciliations change nothing.  As many stand
    as replicas if there was no machine at first and no initialization was
    interrupted (otherwise at least one and at most the replicas), or if some had
    to be replaced and there was at most one too many.  If some stood and none was
    outdated those stay as they are: there may be fewer or more than replicas,
    and the code leaves that so. *)
Theorem control_plane_converges req spec E I ms ms' (n := ccps_Replicas spec)
    (f := λ ms, fleet_of (Hash spec) (labels_of ms)) (stand := λ ms, Z.of_nat (size (labels_of ms))) :
  0 < n → size ms = 0%nat ∨ 0 < stand ms → history req spec E I ms ms' → rounds_needed n (f ms) ≤ Z.of_nat E →
  f_outdated (f ms') = 0%nat ∧
  (size ms = 0%nat → 0 < stand ms' ≤ n ∧ (I = 0%nat → stand ms' = n)) ∧
  ((0 < f_outdated (f ms))%nat → stand ms ≤ n + 1 → stand ms' = n) ∧
  (0 < stand ms → f_outdated (f ms) = 0%nat → labels_of ms' = labels_of ms) ∧
  ∀ E' I' ms'', history req spec E' I' ms' ms'' → labels_of ms'' = labels_of ms'.
Proof.
  intros Hn Hstart Hh. pose proof (labels_of_size ms).
  unfold rounds_needed. rewrite (labels_size _ ms : f_size (f ms) = _). unfold stand in *.
  destruct (Nat.eqb_spec (size (labels_of ms)) 0) as [Hz|Hz]; intros HE.
  { assert (Hnone : f_outdated (f ms) = 0%nat).
    { pose proof (labels_size (Hash spec) ms : f_size (f ms) = _) as Hsz. unfold f_size in Hsz. lia. }
    destruct (history_empty _ _ _ _ _ _ Hn Hh ltac:(lia) ltac:(lia)) as (Hout&Hle&Hall).
    split_and!; [done|done|lia|lia|]. intros E' I' ms'' Hh'. eapply history_settled; [done..|lia|done]. }
  destruct (history_nonempty _ _ _ _ _ _ Hn Hh ltac:(lia)) as [(Hsame&Hdist&Hend) Hpos].
  fold (f ms) (f ms') in *.
  assert (Hout : f_outdated (f ms') = 0%nat).
  { destruct (Nat.eqb_spec (f_outdated (f ms)) 0) as [Hu|Hu]; [unfold f; by rewrite Hsame|].
    destruct Hdist as [?|Hd]; [done|]. unfold distance at 1 in Hd. fold n in Hd. lia. }
  split_and!; [done|lia|intros; by apply Hend|intros; by apply Hsame|].
  intros E' I' ms'' Hh'. by eapply history_settled.
Qed.
End convergence_properties.

(** ** Witnesses *)

Module ConvergenceWitness.
Import Reference ReferenceLaws Sample Fixtures CollectionWitness WorkloadWitness ManagementWitness.
Import ControllerWitness RolloutWitness.

(** The rollout of [Rollout], the round that only waits included. *)
Lemma control_plane_converges_witness :
  history request (ccp_Spec (ccp 1)) 2 0 before after ∧ size (labels_of after) = 1%nat.
Proof.
  assert (Hh : history request (ccp_Spec (ccp 1)) 2 0 before after).
  { eapply history_success; [done|exact first_round|exact first_managed| |].
    { apply (bool_decide_eq_true_1 _). by_evaluation. }
    eapply history_success; [done|exact second_round|exact second_managed| |].
    { apply (bool_decide_eq_true_1 _). by_evaluation. }
    eapply history_failure; [done|exact third_round|left; vm_compute; lia|constructor]. }
  split; [exact Hh|].
  destruct (control_plane_converges request (ccp_Spec (ccp 1)) 2 0 before after ltac:(vm_compute; reflexivity)
    ltac:(right; vm_compute; reflexivity) Hh ltac:(vm_compute; discriminate)) as (_&_&Hsize&_).
  apply Nat2Z.inj, Hsize; [vm_compute; lia|vm_compute; discriminate].
Defined.
End ConvergenceWitness.
