(* ===== verification/CloudInit.v ===== *)
(** internal/cloudinit/cloudinit.go: the cloud-config document of a node.

    The four templates are constants, so parsing them cannot fail and neither
    can executing them on a [Config]; each is translated to the function that
    renders it, with the white space that the trim markers leave.  In a
    condition of [text/template] a pointer is true when it is not nil, whatever
    it points to. *)
From Stdlib Require Import Ascii.
From S2P Require Import Prelude GoRuntime ApiTypes Platform SamplePlatform.
Local Open Scope Z_scope.

Record Config := {
  cfg_Files : list File;
  cfg_PreCritCommands : list string;
  cfg_PostCritCommands : list string;
  cfg_Users : list User;
  cfg_NTP : option NTP;
  cfg_Verbosity : string;
}.

Definition newline : ascii := "010"%char.
Definition nl : string := String newline EmptyString.
Definition dquote : string := String "034"%char EmptyString.

(** The function map's [Indent]. *)
Definition Indent (i : nat) (input : string) : string :=
  let split := strings_Split input newline in
  let ident := nl +:+ strings_Repeat " " i in
  strings_Repeat " " i +:+ strings_Join split ident.

Definition bool_text (b : bool) : string := if b then "true" else "false".

(** A field that is rendered when its pointer is not nil. *)
Definition optional {A} (x : option A) (f : A → string) : string :=
  match x with Some a => f a | None => "" end.

(** A field that is rendered when it is not empty. *)
Definition non_empty (s : string) (text : string) : string :=
  if String.eqb s "" then "" else text.

Section cloudinit.
Context {R : GoRuntime}.

(** [commandsTemplate] *)
Definition command (c : string) : string := nl +:+ "  - " +:+ strconv.Quote c.
Definition commands (cs : list string) : string := concat_strings (command <$> cs).

(** [filesTemplate] *)
Definition file (f : File) : string :=
  nl +:+ "-   path: " +:+ file_Path f +:+ nl +:+ "    " +:+
  non_empty (file_Encoding f)
    ("encoding: " +:+ dquote +:+ file_Encoding f +:+ dquote +:+ nl +:+ "    ") +:+
  non_empty (file_Owner f) ("owner: " +:+ file_Owner f +:+ nl +:+ "    ") +:+
  non_empty (file_Permissions f)
    ("permissions: '" +:+ file_Permissions f +:+ "'" +:+ nl +:+ "    ") +:+
  "content: |" +:+ nl +:+ Indent 6 (file_Content f).
Definition files (fs : list File) : string :=
  "write_files:" +:+ concat_strings (file <$> fs).

(** [ntpTemplate] *)
Definition ntp (n : option NTP) : string :=
  optional n (λ n,
    nl +:+ "ntp:" +:+ nl +:+ "  " +:+
    optional (ntp_Enabled n) (λ _, "enabled: true" +:+ nl +:+ "  ") +:+
    "servers:" +:+ concat_strings ((λ s, nl +:+ "    - " +:+ s) <$> ntp_Servers n)).

(** [usersTemplate] *)
Definition attribute (key value : string) : string := nl +:+ "    " +:+ key +:+ ": " +:+ value.
Definition user (u : User) : string :=
  nl +:+ "  - name: " +:+ user_Name u +:+
  optional (user_Passwd u) (attribute "passwd") +:+
  optional (user_Gecos u) (attribute "gecos") +:+
  optional (user_Groups u) (attribute "groups") +:+
  optional (user_HomeDir u) (attribute "homedir") +:+
  optional (user_Inactive u) (λ _, attribute "inactive" "true") +:+
  optional (user_LockPassword u) (λ b, attribute "lock_passwd" (bool_text b)) +:+
  optional (user_Shell u) (attribute "shell") +:+
  optional (user_PrimaryGroup u) (attribute "primary_group") +:+
  optional (user_Sudo u) (attribute "sudo") +:+
  match user_SSHAuthorizedKeys u with
  | [] => ""
  | keys => nl +:+ "    ssh_authorized_keys:" +:+
            concat_strings ((λ k, nl +:+ "      - " +:+ k) <$> keys)
  end.
Definition users (us : list User) : string :=
  match us with
  | [] => ""
  | _ => nl +:+ "users:" +:+ concat_strings (user <$> us)
  end.

(** [nodeCloudInit] *)
Definition crit_up (verbosity : string) : string :=
  nl +:+ "  - 'crit up --config /var/lib/crit/config.yaml " +:+ verbosity +:+ "'".
Definition Write (cfg : Config) : string :=
  "## template: jinja" +:+ nl +:+ "#cloud-config" +:+ nl +:+
  files (cfg_Files cfg) +:+ nl +:+ "runcmd:" +:+
  commands (cfg_PreCritCommands cfg) +:+
  crit_up (cfg_Verbosity cfg) +:+
  commands (cfg_PostCritCommands cfg) +:+
  ntp (cfg_NTP cfg) +:+ users (cfg_Users cfg) +:+ nl.
End cloudinit.

(** ** Lines *)

(** What stands between the line feeds of a text, where [Indent] splits it too.
    What a reader of YAML takes for lines is [CloudDocument.yaml_lines]. *)
Definition lf_lines (s : string) : list string := strings_Split s newline.
Definition one_line (s : string) : Prop := lf_lines s = [s].

Lemma strings_Split_nonempty s c : strings_Split s c ≠ [].
Proof. induction s as [|a s IH]; simpl; [done|]. case_match; [done|]. by case_match. Qed.

Lemma app_cons_string a s t : String a s +:+ t = String a (s +:+ t).
Proof. done. Qed.

Lemma append_assoc a b c : (a +:+ b) +:+ c = a +:+ (b +:+ c).
Proof. induction a as [|x a IH]; [done|]. by rewrite !app_cons_string, IH. Qed.

(** Splitting a concatenation: the last word of the first part and the first
    of the second are one. *)
Lemma strings_Split_app s t c :
  ∃ ws w v vs, strings_Split s c = ws ++ [w] ∧ strings_Split t c = v :: vs ∧
    strings_Split (s +:+ t) c = ws ++ [w +:+ v] ++ vs.
Proof.
  destruct (strings_Split t c) as [|v vs] eqn:Ht; [by apply strings_Split_nonempty in Ht|].
  induction s as [|a s (ws&w&v'&vs'&Hs&[= <- <-]&Hst)].
  { exists [], "", v, vs. done. }
  rewrite app_cons_string. cbn [strings_Split]. destruct (Ascii.eqb a c).
  - exists ("" :: ws), w, v, vs. rewrite Hs, Hst. done.
  - rewrite Hst. destruct ws as [|w0 ws].
    + exists [], (String a w), v, vs. rewrite Hs. done.
    + exists (String a w0 :: ws), w, v, vs. rewrite Hs. done.
Qed.

Lemma strings_Split_sep s t c :
  strings_Split (s +:+ String c t) c = strings_Split s c ++ strings_Split t c.
Proof.
  induction s as [|a s IH].
  { change ("" +:+ String c t) with (String c t). cbn [strings_Split]. by rewrite Ascii.eqb_refl. }
  rewrite app_cons_string. cbn [strings_Split]. destruct (Ascii.eqb a c); [by rewrite IH|].
  rewrite IH. destruct (strings_Split s c) as [|w ws] eqn:Hs; [|done].
  by apply strings_Split_nonempty in Hs.
Qed.

Lemma lines_app_nl s t : lf_lines (s +:+ nl +:+ t) = lf_lines s ++ lf_lines t.
Proof. apply strings_Split_sep. Qed.

Lemma one_line_app s t : one_line s → one_line t → one_line (s +:+ t).
Proof.
  unfold one_line, lf_lines. intros Hs Ht.
  destruct (strings_Split_app s t newline) as (ws&w&v&vs&H1&H2&H3).
  rewrite Hs in H1. rewrite Ht in H2. injection H2 as <- <-.
  destruct ws as [|w0 [|? ?]]; [|discriminate..]. injection H1 as <-. by rewrite H3.
Qed.

Lemma one_line_iff s : one_line s ↔ newline ∉ String.list_ascii_of_string s.
Proof.
  unfold one_line, lf_lines. induction s as [|a s IH]; cbn [strings_Split String.list_ascii_of_string].
  { split; [intros _; apply not_elem_of_nil|done]. }
  rewrite not_elem_of_cons, <-IH. destruct (Ascii.eqb_spec a newline) as [->|Hne].
  - split; [|by intros [[] _]]. intros Heq. injection Heq. intros Hs.
    by apply strings_Split_nonempty in Hs.
  - destruct (strings_Split s newline) as [|w ws] eqn:Hs; [by apply strings_Split_nonempty in Hs|].
    split; [intros [= -> ->]; done|intros [_ [= -> ->]]; done].
Qed.

(** ** Quoting and indenting keep the structure *)

(** A byte other than the line break. *)
Definition plain_byte (b : Z) : Prop := 0 ≤ b < 256 ∧ b ≠ 10.

Lemma lowerhex_plain n : 0 ≤ n < 16 → plain_byte (strconv.lowerhex n).
Proof. intros. unfold plain_byte, strconv.lowerhex. destruct (Z.ltb_spec n 10); lia. Qed.

Lemma hex_plain n r : Forall plain_byte (strconv.hex n r).
Proof.
  unfold strconv.hex. apply Forall_fmap, Forall_true. intros i. apply lowerhex_plain.
  change 15 with (Z.ones 4). rewrite Z.land_ones by lia. apply Z.mod_pos_bound. lia.
Qed.

Lemma DecodeRune_cases b s r w :
  0 ≤ b → strconv.DecodeRune (b :: s) = (r, w) →
  (w = 1%nat ∧ r = strconv.RuneError) ∨ (w = 1%nat ∧ r = b ∧ b < 128) ∨
  Forall (λ x, 128 ≤ x) (take w (b :: s)).
Proof.
  intros Hb. unfold strconv.DecodeRune, strconv.between, strconv.second_range.
  repeat match goal with
  | |- (if ?c then _ else _) = _ → _ => destruct c eqn:?
  | |- match ?l with [] => _ | _ :: _ => _ end = _ → _ => destruct l
  end; intros [= <- <-]; auto; try (right; left; split_and!; [done..|lia]);
    right; right; repeat constructor; repeat case_match; simpl in *; lia.
Qed.

Section quoting.
Context {R : GoRuntime}.

Lemma IsPrint_plain b : 0 ≤ b < 128 → strconv.IsPrint b = true → plain_byte b.
Proof.
  intros Hb. unfold strconv.IsPrint, strconv.between, plain_byte.
  destruct (Z.leb_spec b 255); lia.
Qed.

Lemma escaped_rune_plain r raw :
  (strconv.IsPrint r = true → Forall plain_byte raw) →
  Forall plain_byte (strconv.escaped_rune r raw).
Proof.
  intros Hraw. unfold strconv.escaped_rune.
  assert (H92 : ∀ x l, plain_byte x → Forall plain_byte l → Forall plain_byte (92 :: x :: l)).
  { intros. constructor; [unfold plain_byte; lia|by constructor]. }
  repeat match goal with
  | |- Forall _ (if strconv.IsPrint r then _ else _) =>
      destruct (strconv.IsPrint r); [by apply Hraw|]
  | |- Forall _ (if ?c then _ else _) => destruct c eqn:?
  end; simpl; apply H92; try (unfold plain_byte; lia); try apply hex_plain; constructor.
Qed.

Lemma quote_loop_plain fuel s :
  Forall (λ b, 0 ≤ b < 256) s → Forall plain_byte (strconv.quote_loop fuel s).
Proof.
  revert s; induction fuel as [|fuel IH]; intros [|b s] Hs; [by simpl; constructor..|].
  cbn [strconv.quote_loop]. inversion_clear Hs as [|?? Hb Hs'].
  destruct (strconv.DecodeRune (b :: s)) as [r w] eqn:Hd.
  apply DecodeRune_cases in Hd; [|lia].
  destruct (_ && _) eqn:Hbad.
  - apply Forall_app. split; [repeat constructor; unfold plain_byte; lia|].
    apply Forall_app. split; [apply hex_plain|by apply IH].
  - apply Forall_app. split.
    + apply escaped_rune_plain. intros Hp.
      destruct Hd as [[-> ->]|[(->&->&Hlt)|Hge]]; [done| |].
      * simpl. constructor; [apply IsPrint_plain; [lia|done]|constructor].
      * assert (Forall (λ b, 0 ≤ b < 256) (take w (b :: s))) as Hr
          by (apply Forall_take; by constructor).
        eapply Forall_impl; [apply Forall_and; split; [exact Hge|exact Hr]|].
        unfold plain_byte. simpl. lia.
    + apply IH, Forall_drop. by constructor.
Qed.

Lemma string_of_bytes_one_line l : Forall plain_byte l → one_line (string_of_bytes l).
Proof.
  intros Hl. apply one_line_iff. unfold string_of_bytes.
  rewrite String.list_ascii_of_string_of_list_ascii, list_elem_of_fmap.
  intros (b&Hnl&Hb). rewrite Forall_forall in Hl. destruct (Hl b Hb) as [Hr Hne].
  apply (f_equal N_of_ascii) in Hnl. rewrite N_ascii_embedding in Hnl by lia.
  change (N_of_ascii newline) with 10%N in Hnl. lia.
Qed.

(** A quoted string is one line, whatever it quotes. *)
Lemma Quote_one_line s : one_line (strconv.Quote s).
Proof.
  apply string_of_bytes_one_line. repeat (apply Forall_app; split);
    [|apply quote_loop_plain, bytes_of_range|]; repeat constructor; lia.
Qed.
End quoting.

Lemma Repeat_one_line i : one_line (strings_Repeat " " i).
Proof. induction i as [|i IH]; [done|]. by apply one_line_app. Qed.

Lemma lines_Join_nl p ls :
  one_line p → ls ≠ [] → Forall one_line ls →
  lf_lines (p +:+ strings_Join ls (nl +:+ p)) = (λ l, p +:+ l) <$> ls.
Proof.
  intros Hp Hne Hls. induction Hls as [|l ls Hl Hls IH]; [done|].
  destruct ls as [|l' ls]; [by apply one_line_app|].
  change (strings_Join (l :: l' :: ls) (nl +:+ p))
    with (l +:+ (nl +:+ p) +:+ strings_Join (l' :: ls) (nl +:+ p)).
  rewrite append_assoc, <-(append_assoc p l), lines_app_nl, fmap_cons, IH by done.
  by rewrite (one_line_app p l Hp Hl).
Qed.

Lemma Split_one_line s : Forall one_line (lf_lines s).
Proof.
  unfold lf_lines. induction s as [|a s IH]; cbn [strings_Split]; [by repeat constructor|].
  destruct (Ascii.eqb_spec a newline) as [->|Hne]; [by constructor|].
  destruct (strings_Split s newline) as [|w ws]; [by repeat constructor; apply one_line_iff;
    apply not_elem_of_cons; split; [congruence|apply not_elem_of_nil]|].
  inversion_clear IH as [|?? Hw Hws]. constructor; [|done].
  rewrite one_line_iff in *. apply not_elem_of_cons. split; [congruence|done].
Qed.

(** Indenting a text prefixes each of its lines, and no more. *)
Lemma lines_Indent i s : lf_lines (Indent i s) = (λ l, strings_Repeat " " i +:+ l) <$> lf_lines s.
Proof.
  unfold Indent. apply lines_Join_nl; [apply Repeat_one_line|apply strings_Split_nonempty|].
  apply Split_one_line.
Qed.

Lemma Join_lines s : strings_Join (lf_lines s) nl = s.
Proof.
  unfold lf_lines. induction s as [|a s IH]; [done|]. cbn [strings_Split].
  pose proof (strings_Split_nonempty s newline) as Hne.
  destruct (Ascii.eqb_spec a newline) as [->|_].
  - destruct (strings_Split s newline) as [|w ws]; [done|]. cbn [strings_Join] in *. by rewrite IH.
  - destruct (strings_Split s newline) as [|w ws]; [done|].
    destruct ws; cbn [strings_Join] in *; by rewrite <-IH.
Qed.

(** ** The document, line by line *)

Section document.
Context {R : GoRuntime}.

Definition option_line {A} (x : option A) (f : A → string) : list string :=
  match x with Some a => [f a] | None => [] end.
Definition non_empty_line (s line : string) : list string :=
  if String.eqb s "" then [] else [line].

Definition file_lines (f : File) : list string :=
  ["-   path: " +:+ file_Path f] ++
  non_empty_line (file_Encoding f) ("    encoding: " +:+ dquote +:+ file_Encoding f +:+ dquote) ++
  non_empty_line (file_Owner f) ("    owner: " +:+ file_Owner f) ++
  non_empty_line (file_Permissions f) ("    permissions: '" +:+ file_Permissions f +:+ "'") ++
  ["    content: |"] ++
  ((λ l, "      " +:+ l) <$> lf_lines (file_Content f)).

Definition command_line (c : string) : string := "  - " +:+ strconv.Quote c.

Definition ntp_lines (n : option NTP) : list string :=
  match n with
  | None => []
  | Some n =>
      ["ntp:"] ++ option_line (ntp_Enabled n) (λ _, "  enabled: true") ++
      ["  servers:"] ++ ((λ s, "    - " +:+ s) <$> ntp_Servers n)
  end.

Definition user_lines (u : User) : list string :=
  let attr key value := "    " +:+ key +:+ ": " +:+ value in
  ["  - name: " +:+ user_Name u] ++
  option_line (user_Passwd u) (attr "passwd") ++
  option_line (user_Gecos u) (attr "gecos") ++
  option_line (user_Groups u) (attr "groups") ++
  option_line (user_HomeDir u) (attr "homedir") ++
  option_line (user_Inactive u) (λ _, attr "inactive" "true") ++
  option_line (user_LockPassword u) (λ b, attr "lock_passwd" (bool_text b)) ++
  option_line (user_Shell u) (attr "shell") ++
  option_line (user_PrimaryGroup u) (attr "primary_group") ++
  option_line (user_Sudo u) (attr "sudo") ++
  match user_SSHAuthorizedKeys u with
  | [] => []
  | keys => "    ssh_authorized_keys:" :: ((λ k, "      - " +:+ k) <$> keys)
  end.

Definition users_lines (us : list User) : list string :=
  match us with [] => [] | _ => "users:" :: (us ≫= user_lines) end.

Definition document (cfg : Config) : list string :=
  ["## template: jinja"; "#cloud-config"; "write_files:"] ++
  (cfg_Files cfg ≫= file_lines) ++
  ["runcmd:"] ++ (command_line <$> cfg_PreCritCommands cfg) ++
  ["  - 'crit up --config /var/lib/crit/config.yaml " +:+ cfg_Verbosity cfg +:+ "'"] ++
  (command_line <$> cfg_PostCritCommands cfg) ++
  ntp_lines (cfg_NTP cfg) ++ users_lines (cfg_Users cfg) ++ [""].

(** The texts the templates insert as they are. *)
Definition file_scalars (f : File) : list string :=
  [file_Path f; file_Encoding f; file_Owner f; file_Permissions f].
Definition user_scalars (u : User) : list string :=
  user_Name u :: omap id [user_Passwd u; user_Gecos u; user_Groups u; user_HomeDir u;
    user_Shell u; user_PrimaryGroup u; user_Sudo u] ++ user_SSHAuthorizedKeys u.
Definition scalars (cfg : Config) : list string :=
  cfg_Verbosity cfg :: (cfg_Files cfg ≫= file_scalars) ++
  match cfg_NTP cfg with Some n => ntp_Servers n | None => [] end ++
  (cfg_Users cfg ≫= user_scalars).

(** Lines, each on a new line. *)
Definition block (ls : list string) : string := concat_strings ((λ l, nl +:+ l) <$> ls).

Lemma concat_strings_app l k : concat_strings (l ++ k) = concat_strings l +:+ concat_strings k.
Proof. induction l as [|x l IH]; [done|]. simpl. by rewrite IH, append_assoc. Qed.

Lemma block_app l k : block (l ++ k) = block l +:+ block k.
Proof. unfold block. by rewrite fmap_app, concat_strings_app. Qed.

Lemma block_bind {A} (f : A → list string) l :
  block (l ≫= f) = concat_strings ((λ x, block (f x)) <$> l).
Proof.
  induction l as [|x l IH]; [done|]. rewrite bind_cons, block_app, IH. done.
Qed.

Lemma block_fmap {A} (f : A → string) l :
  block (f <$> l) = concat_strings ((λ x, nl +:+ f x) <$> l).
Proof. unfold block. by rewrite <-list_fmap_compose. Qed.

Lemma block_cons l ls : block (l :: ls) = nl +:+ l +:+ block ls.
Proof. unfold block. simpl. done. Qed.

Lemma append_nil_r s : s +:+ "" = s.
Proof. induction s as [|a s IH]; [done|]. by rewrite app_cons_string, IH. Qed.

Lemma block_Join ls p :
  ls ≠ [] → nl +:+ (p +:+ strings_Join ls (nl +:+ p)) = block ((λ l, p +:+ l) <$> ls).
Proof.
  intros Hne. induction ls as [|l ls IH]; [done|]. rewrite fmap_cons, block_cons.
  destruct ls as [|l' ls]; [unfold block; cbn [strings_Join fmap list_fmap concat_strings]; by rewrite append_nil_r|].
  rewrite <-IH by done.
  change (strings_Join (l :: l' :: ls) (nl +:+ p))
    with (l +:+ (nl +:+ p) +:+ strings_Join (l' :: ls) (nl +:+ p)).
  by rewrite !append_assoc.
Qed.

(** The first line and the lines of the block after it. *)
Lemma lines_block l ls :
  one_line l → Forall one_line ls → lf_lines (l +:+ block ls) = l :: ls.
Proof.
  intros Hl Hls. revert l Hl. induction Hls as [|l' ls Hl' Hls IH]; intros l Hl.
  - unfold block. cbn. by rewrite append_nil_r.
  - rewrite block_cons, lines_app_nl, Hl, IH by done. done.
Qed.


Lemma block_single l : block [l] = nl +:+ l.
Proof. apply (f_equal (String.append nl)), append_nil_r. Qed.

Lemma block_option {A} (x : option A) f : block (option_line x f) = optional x (λ a, nl +:+ f a).
Proof. destruct x; [apply block_single|done]. Qed.

Lemma block_non_empty s line : block (non_empty_line s line) = non_empty s (nl +:+ line).
Proof.
  unfold non_empty_line, non_empty. case_match; [done|]. apply block_single.
Qed.

Lemma file_block f : file f = block (file_lines f).
Proof.
  unfold file, file_lines, Indent. rewrite !block_app, !block_single, !block_non_empty, <-block_Join
    by apply strings_Split_nonempty.
  unfold non_empty. repeat case_match; rewrite ?append_assoc; reflexivity.
Qed.

Lemma command_block c : command c = nl +:+ command_line c.
Proof. done. Qed.

Lemma ntp_block n : ntp n = block (ntp_lines n).
Proof.
  destruct n as [n|]; [|done]. unfold ntp, ntp_lines. cbn [optional].
  rewrite !block_app, !block_single, block_option, block_fmap.
  destruct (ntp_Enabled n); cbn [optional]; rewrite ?append_assoc; reflexivity.
Qed.

Lemma user_block u : user u = block (user_lines u).
Proof.
  unfold user, user_lines. rewrite !block_app, !block_single, !block_option.
  unfold attribute. destruct (user_SSHAuthorizedKeys u) as [|k ks].
  - by rewrite !append_assoc.
  - by rewrite !block_cons, block_fmap, !append_assoc.
Qed.

Lemma users_block us : users us = block (users_lines us).
Proof.
  destruct us as [|u us]; [done|]. unfold users, users_lines.
  rewrite block_cons, block_bind. do 3 f_equal.
  apply list_fmap_ext. intros _ u' _. apply user_block.
Qed.

Lemma Write_block cfg : Write cfg = "## template: jinja" +:+ block (drop 1 (document cfg)).
Proof.
  unfold document. cbn [drop app].
  repeat first [rewrite block_cons | rewrite block_app]. rewrite !block_fmap, block_bind.
  unfold Write, files, commands, crit_up.
  rewrite ntp_block, users_block.
  rewrite (list_fmap_ext file (λ f, block (file_lines f)) (cfg_Files cfg))
    by (intros; apply file_block).
  rewrite !append_assoc. reflexivity.
Qed.

(** *** Every piece is one line when what it inserts is one *)

Definition literal_one_line (s : string) : bool := bool_decide (lf_lines s = [s]).

Lemma one_line_literal s : literal_one_line s = true → one_line s.
Proof. apply bool_decide_eq_true. Qed.

Lemma Forall_option_line {A} (P : string → Prop) (x : option A) f :
  (∀ a, x = Some a → P (f a)) → Forall P (option_line x f).
Proof. destruct x; constructor; auto. Qed.

Lemma Forall_non_empty_line (P : string → Prop) s line : P line → Forall P (non_empty_line s line).
Proof. intros. unfold non_empty_line. case_match; auto. Qed.

Lemma Forall_prefixed p ls :
  one_line p → Forall one_line ls → Forall one_line ((λ l, p +:+ l) <$> ls).
Proof. intros Hp Hls. apply Forall_fmap. eapply Forall_impl; [exact Hls|]. intros. by apply one_line_app. Qed.

Ltac pieces :=
  repeat first
    [ assumption | done | apply one_line_literal; reflexivity
    | apply one_line_app | apply Forall_option_line; intros | apply Forall_non_empty_line
    | apply Forall_app; split | apply Forall_prefixed | constructor ].

Lemma file_lines_one_line f : Forall one_line (file_scalars f) → Forall one_line (file_lines f).
Proof.
  unfold file_scalars. rewrite !Forall_cons. intros (?&?&?&?&_).
  unfold file_lines. pieces. apply Split_one_line.
Qed.

Lemma user_lines_one_line u : Forall one_line (user_scalars u) → Forall one_line (user_lines u).
Proof.
  unfold user_scalars. rewrite Forall_cons, Forall_app, Forall_forall. intros (?&Hopt&?).
  assert (∀ x a, x = Some a → x ∈ [user_Passwd u; user_Gecos u; user_Groups u; user_HomeDir u;
    user_Shell u; user_PrimaryGroup u; user_Sudo u] → one_line a) as Ha.
  { intros x a -> Hin. apply Hopt, list_elem_of_omap. by exists (Some a). }
  unfold user_lines. destruct (user_SSHAuthorizedKeys u); pieces;
    try (by eapply Ha; [eassumption|set_solver]).
  all: by destruct (_ : bool).
Qed.

Lemma document_one_line cfg : Forall one_line (scalars cfg) → Forall one_line (document cfg).
Proof.
  unfold scalars. rewrite Forall_cons, !Forall_app, !Forall_bind. intros (?&Hf&Hn&Hu).
  assert (Hc : ∀ cs, Forall one_line (command_line <$> cs)).
  { intros cs. apply Forall_fmap, Forall_true. intros c.
    apply one_line_app; [by apply one_line_literal|apply Quote_one_line]. }
  unfold document, ntp_lines, users_lines. pieces.
  - apply Forall_bind. eapply Forall_impl; [exact Hf|]. apply file_lines_one_line.
  - destruct (cfg_NTP cfg); pieces.
  - destruct (cfg_Users cfg); constructor; [by apply one_line_literal|].
    apply Forall_bind. eapply Forall_impl; [exact Hu|]. apply user_lines_one_line.
Qed.

Lemma file_lines_content f : ∃ p,
  file_lines f = p ++ ["    content: |"] ++ ((λ l, "      " +:+ l) <$> lf_lines (file_Content f)).
Proof.
  unfold file_lines. rewrite !(assoc_L (++)). rewrite <-(assoc_L (++) _ ["    content: |"]).
  by eexists.
Qed.

Lemma document_content cfg f : f ∈ cfg_Files cfg → ∃ before after,
  document cfg =
    before ++ ["    content: |"] ++ ((λ l, "      " +:+ l) <$> lf_lines (file_Content f)) ++ after.
Proof.
  intros (l1&l2&Hf)%list_elem_of_split. unfold document. rewrite Hf, bind_app, bind_cons.
  destruct (file_lines_content f) as [p ->].
  rewrite <-!(app_assoc _ _ (l2 ≫= file_lines)).
  eexists (["## template: jinja"; "#cloud-config"; "write_files:"] ++ (l1 ≫= file_lines) ++ p), _.
  cbn [app]. do 3 f_equal. rewrite <-!(assoc_L (++)). cbn [app].
  rewrite <-(app_assoc (_ <$> lf_lines _)). reflexivity.
Qed.

End document.

Module CloudInitExamples.
(** A pointer to [false] renders as [true]. *)
Lemma disabled_ntp_enabled :
  ntp_lines (Some {| ntp_Servers := []; ntp_Enabled := Some false |}) =
  ["ntp:"; "  enabled: true"; "  servers:"].
Proof. reflexivity. Qed.
End CloudInitExamples.
