(* ===== verification/CloudDocument.v ===== *)
(** The cloud-config of a node as a YAML reader sees it (YAML 1.1, what cloud-init
    reads): where its lines end, and what it takes for a file's content.  The
    rendering of jinja expressions, which the document's first line asks for and
    cloud-init does before, is not considered. *)
From Stdlib Require Import Ascii.
From S2P Require Import Prelude GoRuntime ApiTypes Platform SamplePlatform CloudInit.
Local Open Scope Z_scope.

(** ** Lines *)

(** The width of the line break a text starts with, or 0: LF, CR, CR LF, and in
    UTF-8 the next line, the line separator and the paragraph separator. *)
Definition break_width (l : list Z) : nat :=
  match l with
  | [] => O
  | b :: l1 =>
      if b =? 10 then 1%nat
      else if b =? 13 then match l1 with c :: _ => if c =? 10 then 2%nat else 1%nat | [] => 1%nat end
      else
        match l1 with
        | [] => O
        | c :: l2 =>
            if (b =? 194) && (c =? 133) then 2%nat
            else
              match l2 with
              | d :: _ => if (b =? 226) && (c =? 128) && ((d =? 168) || (d =? 169)) then 3%nat else O
              | [] => O
              end
        end
  end.

(** The lines of a text; [skip] bytes of a line break are still to be passed. *)
Fixpoint split_lines (skip : nat) (s : string) : list string :=
  match s with
  | EmptyString => [""]
  | String a t =>
      match skip with
      | S k => split_lines k t
      | O =>
          match break_width (bytes_of s) with
          | O => match split_lines 0 t with w :: ws => String a w :: ws | [] => [String a ""] end
          | S k => "" :: split_lines k t
          end
      end
  end.
Definition yaml_lines (s : string) : list string := split_lines 0 s.

(** The text has no line break but LF. *)
Fixpoint clean_bytes (l : list Z) : bool :=
  match l with
  | [] => true
  | b :: l' => ((b =? 10) || (break_width l =? 0)%nat) && clean_bytes l'
  end.
Definition clean (s : string) : Prop := clean_bytes (bytes_of s) = true.

(** ** Literal block scalars *)

(** The number of blanks a line starts with. *)
Fixpoint leading (s : string) : nat :=
  match s with String a t => if Ascii.eqb a " " then S (leading t) else 0 | EmptyString => 0 end.
Fixpoint is_blank (s : string) : bool :=
  match s with String a t => Ascii.eqb a " " && is_blank t | EmptyString => true end.
Fixpoint strip (n : nat) (s : string) : string :=
  match n, s with S n, String _ t => strip n t | _, _ => s end.

(** The indentation of the block that the lines start with: that of its first
    line that is not blank, or of a longer blank line before it. *)
Fixpoint block_indent (least : nat) (ls : list string) : nat :=
  match ls with
  | [] => least
  | l :: ls =>
      let least := (least `max` leading l)%nat in
      if is_blank l then block_indent least ls else least
  end.

(** The lines of a block with indentation [n], and the lines after it. *)
Fixpoint block_lines (n : nat) (ls : list string) : list string * list string :=
  match ls with
  | [] => ([], [])
  | l :: ls' =>
      if (n <=? leading l)%nat then let '(c, r) := block_lines n ls' in (strip n l :: c, r)
      else if is_blank l then let '(c, r) := block_lines n ls' in ("" :: c, r)
      else ([], ls)
  end.

(** Trailing empty lines do not count, and the last line ends with a line feed. *)
Fixpoint drop_empty (ls : list string) : list string :=
  match ls with
  | [] => []
  | l :: ls => match drop_empty ls with [] => if String.eqb l "" then [] else [l] | ls => l :: ls end
  end.
Definition clip (ls : list string) : string := concat_strings ((λ l, l +:+ nl) <$> drop_empty ls).

(** What follows a key with "|" in a mapping indented by [parent]: its value, and
    the lines after it. *)
Definition read_literal (parent : nat) (ls : list string) : string * list string :=
  let '(c, r) := block_lines (block_indent (S parent) ls) ls in (clip c, r).

(** The content's first line that is not empty starts with no blank. *)
Definition flush (content : string) : Prop := block_indent 0 (lf_lines content) = 0%nat.

(** ** Lemmas on line breaks *)

Definition plain_ascii (l : list Z) : Prop := Forall (λ b, b < 128 ∧ b ≠ 13) l.

Lemma clean_bytes_prefix p t : plain_ascii p → clean_bytes (p ++ t) = clean_bytes t.
Proof.
  induction 1 as [|b p [Hb Hcr] _ IH]; [done|]. cbn [app clean_bytes]. rewrite IH.
  assert ((b =? 10) || (break_width (b :: p ++ t) =? 0)%nat = true) as ->; [|done].
  unfold break_width. destruct (Z.eqb_spec b 10); [done|]. destruct (Z.eqb_spec b 13); [done|].
  destruct (Z.eqb_spec b 194); [lia|]. destruct (Z.eqb_spec b 226); [lia|].
  destruct (p ++ t) as [|? [|]]; done.
Qed.

Lemma clean_bytes_suffix l t :
  match t with [] => True | b :: _ => b < 128 end →
  clean_bytes (l ++ t) = clean_bytes l && clean_bytes t.
Proof.
  intros Ht. induction l as [|b l IH]; [done|]. cbn [app clean_bytes]. rewrite IH, andb_assoc. do 2 f_equal.
  destruct (Z.eqb_spec b 10); [done|]. simpl. unfold break_width.
  destruct (Z.eqb_spec b 10); [done|]. destruct (Z.eqb_spec b 13); [by repeat case_match|].
  destruct l as [|c [|d l]]; simpl; [| |done].
  - destruct t as [|c t]; [done|]. destruct (Z.eqb_spec c 133); [lia|]. destruct (Z.eqb_spec c 128); [lia|].
    rewrite !andb_false_r. by destruct t.
  - destruct t as [|d t]; [done|]. destruct (Z.eqb_spec d 168); [lia|]. destruct (Z.eqb_spec d 169); [lia|].
    by rewrite andb_false_r.
Qed.

Definition literal_plain (p : string) : bool := forallb (λ b, (b <? 128) && negb (b =? 13)) (bytes_of p).

Lemma literal_plain_ascii p : literal_plain p = true → plain_ascii (bytes_of p).
Proof.
  unfold literal_plain, plain_ascii. rewrite forallb_forall, Forall_forall. intros H b Hb.
  apply list_elem_of_In, H in Hb. lia.
Qed.

Lemma clean_prefix p t : literal_plain p = true → clean t → clean (p +:+ t).
Proof.
  intros Hp Ht. unfold clean. by rewrite bytes_of_app, clean_bytes_prefix by by apply literal_plain_ascii.
Qed.

Lemma clean_suffix s q : literal_plain q = true → clean s → clean (s +:+ q).
Proof.
  intros Hq Hs. apply literal_plain_ascii in Hq. unfold clean. rewrite bytes_of_app, clean_bytes_suffix.
  - rewrite Hs. simpl. rewrite <-(app_nil_r (bytes_of q)). by rewrite clean_bytes_prefix.
  - destruct (bytes_of q); [done|]. by inversion_clear Hq as [|?? [? _]].
Qed.

Lemma clean_literal p : literal_plain p = true → clean p.
Proof. intros Hp. rewrite <-(append_nil_r p). by apply clean_prefix. Qed.

(** A clean text has the same lines for both. *)
Lemma yaml_lines_clean s : clean s → yaml_lines s = lf_lines s.
Proof.
  unfold clean, yaml_lines, lf_lines. induction s as [|a s IH]; [done|].
  intros [Hb Hs]%andb_prop. cbn [split_lines strings_Split]. specialize (IH Hs).
  destruct (Z.eqb_spec (Z.of_N (N_of_ascii a)) 10) as [Heq|Hne].
  - assert (a = newline) as ->.
    { rewrite <-(ascii_N_embedding a). replace (N_of_ascii a) with 10%N by lia. done. }
    change (bytes_of (String newline s)) with (10 :: bytes_of s). simpl. by rewrite IH.
  - apply orb_prop in Hb as [Hb|Hb%Nat.eqb_eq]; [done|].
    change (break_width (bytes_of (String a s)) = O) in Hb. rewrite Hb, IH.
    destruct (Ascii.eqb_spec a newline) as [->|_]; [done|].
    by destruct (strings_Split s newline).
Qed.

(** *** Quoted strings *)

Section quoted.
Context {R : GoRuntime} {PL : PrintTableLaws R}.

(** The first byte of a text starts no line break. *)
Lemma clean_bytes_cons b u : break_width (b :: u) = O → clean_bytes (b :: u) = clean_bytes u.
Proof. intros Hw. cbn [clean_bytes]. by rewrite Hw, orb_true_r. Qed.

(** Only 13, 194 and 226 start one besides LF. *)
Lemma no_break b u : b ≠ 10 → b ≠ 13 → b ≠ 194 → b ≠ 226 → break_width (b :: u) = O.
Proof.
  intros. unfold break_width. rewrite !(proj2 (Z.eqb_neq b _)) by done. by destruct u as [|? []].
Qed.

(** The bytes of a printable rune start no line break. *)
Lemma printable_clean b s r w t :
  0 ≤ b < 256 → strconv.DecodeRune (b :: s) = (r, w) → (w =? 1)%nat && (r =? strconv.RuneError) = false →
  strconv.IsPrint r = true → clean_bytes (take w (b :: s) ++ t) = clean_bytes t.
Proof.
  intros Hb Hd Hok Hp. revert Hd. unfold strconv.DecodeRune, strconv.between.
  destruct (Z.ltb_spec b 128) as [Hlt|Hge].
  { intros [= <- <-]. apply (clean_bytes_prefix [b]). constructor; [|constructor].
    split; [done|]. intros ->. by vm_compute in Hp. }
  destruct ((194 <=? b) && (b <=? 223)) eqn:H2.
  { destruct s as [|c s]; [by intros [= <- <-]|]. destruct ((128 <=? c) && (c <=? 191)) eqn:Hc; [|by intros [= <- <-]].
    intros [= Hr <-]. cbn [take app]. rewrite (clean_bytes_cons b); [by apply clean_bytes_cons, no_break; lia|].
    unfold break_width. rewrite (proj2 (Z.eqb_neq b 10)), (proj2 (Z.eqb_neq b 13)) by lia.
    rewrite (proj2 (Z.eqb_neq b 226)) by lia.
    destruct (Z.eqb_spec b 194) as [->|]; [|by destruct t].
    destruct (Z.eqb_spec c 133) as [->|]; [|by destruct t]. subst r. by vm_compute in Hp. }
  destruct ((224 <=? b) && (b <=? 239)) eqn:H3.
  { destruct s as [|c [|d s]]; [by intros [= <- <-]..|].
    case_match eqn:Hc; [|by intros [= <- <-]]. intros [= Hr <-].
    assert (Hcd : 128 ≤ c < 192 ∧ 128 ≤ d < 192).
    { unfold strconv.second_range in Hc. repeat case_match; simpl in Hc; lia. }
    cbn [take app]. rewrite (clean_bytes_cons b);
      [rewrite (clean_bytes_cons c), (clean_bytes_cons d); [done|apply no_break; lia..]|].
    unfold break_width. rewrite (proj2 (Z.eqb_neq b 10)), (proj2 (Z.eqb_neq b 13)) by lia.
    rewrite (proj2 (Z.eqb_neq b 194)) by lia. cbn [andb].
    destruct (Z.eqb_spec b 226) as [->|]; [|done]. destruct (Z.eqb_spec c 128) as [->|]; [|done].
    destruct ((d =? 168) || (d =? 169)) eqn:Hsep; [|done]. exfalso.
    unfold strconv.IsPrint in Hp.
    assert (r = 8232 ∨ r = 8233) as Hr'.
    { apply orb_prop in Hsep as [Hd%Z.eqb_eq|Hd%Z.eqb_eq]; subst d r; [by left|by right]. }
    rewrite (separators_unprintable r Hr') in Hp. by destruct Hr' as [-> | ->]. }
  destruct ((240 <=? b) && (b <=? 244)) eqn:H4; [|by intros [= <- <-]].
  destruct s as [|c [|d [|e s]]]; [by intros [= <- <-]..|].
  case_match eqn:Hc; [|by intros [= <- <-]]. intros [= Hr <-].
  assert (Hcd : 128 ≤ c < 192 ∧ 128 ≤ d < 192 ∧ 128 ≤ e < 192).
  { unfold strconv.second_range in Hc. repeat case_match; simpl in Hc; lia. }
  cbn [take app]. rewrite !clean_bytes_cons; [done|apply no_break; lia..].
Qed.

Lemma hex_ascii n r : plain_ascii (strconv.hex n r).
Proof.
  unfold plain_ascii, strconv.hex. apply Forall_fmap, Forall_true. intros i. unfold compose, strconv.lowerhex.
  change 15 with (Z.ones 4). rewrite Z.land_ones by lia.
  pose proof (Z.mod_pos_bound (Z.shiftr r (4 * Z.of_nat i)) (2 ^ 4) ltac:(done)).
  destruct (Z.ltb_spec (Z.shiftr r (4 * Z.of_nat i) `mod` 2 ^ 4) 10); lia.
Qed.

Lemma escape_ascii x l : x < 128 → x ≠ 13 → plain_ascii l → plain_ascii (92 :: x :: l).
Proof. intros. unfold plain_ascii in *. by repeat constructor. Qed.

(** Either the rune as it is, which then is printable, or an escape. *)
Lemma escaped_rune_cases r raw :
  (strconv.IsPrint r = true ∧ strconv.escaped_rune r raw = raw) ∨ plain_ascii (strconv.escaped_rune r raw).
Proof.
  unfold strconv.escaped_rune. destruct ((r =? 34) || (r =? 92)) eqn:Hq.
  { right. apply escape_ascii; [lia..|constructor]. }
  destruct (strconv.IsPrint r); [by left|right].
  repeat match goal with |- plain_ascii (if ?c then _ else _) => destruct c end;
    apply escape_ascii; try done; try apply hex_ascii; constructor.
Qed.

Lemma quote_loop_clean fuel s :
  Forall (λ b, 0 ≤ b < 256) s → clean_bytes (strconv.quote_loop fuel s ++ [34]) = true.
Proof.
  revert s; induction fuel as [|fuel IH]; intros [|b s] Hs; [done..|].
  cbn [strconv.quote_loop]. inversion_clear Hs as [|?? Hb Hs'].
  destruct (strconv.DecodeRune (b :: s)) as [r w] eqn:Hd.
  destruct (_ && _) eqn:Hbad.
  - rewrite <-!app_assoc. rewrite (clean_bytes_prefix [92; 120]), clean_bytes_prefix by
      (apply hex_ascii || by repeat constructor). by apply IH.
  - rewrite <-app_assoc. assert (Hrest : Forall (λ b, 0 ≤ b < 256) (drop w (b :: s)))
      by by apply Forall_drop; constructor.
    destruct (escaped_rune_cases r (take w (b :: s))) as [[Hp ->]|Hesc].
    + erewrite printable_clean by done. by apply IH.
    + rewrite clean_bytes_prefix by done. by apply IH.
Qed.

(** A quoted string is clean, whatever it quotes. *)
Lemma Quote_clean s : clean (strconv.Quote s).
Proof.
  unfold clean, strconv.Quote. rewrite bytes_of_string_of.
  - rewrite (clean_bytes_prefix [34]) by by repeat constructor. apply quote_loop_clean, bytes_of_range.
  - repeat (apply Forall_app; split); [by repeat constructor| |by repeat constructor].
    eapply Forall_impl; [apply quote_loop_plain, bytes_of_range|]. by intros b [].
Qed.

(** *** The document *)

Lemma clean_block ls : Forall clean ls → clean (block ls).
Proof.
  induction 1 as [|l ls Hl _ IH]; [done|]. rewrite block_cons. apply clean_prefix; [done|].
  unfold clean in *. rewrite bytes_of_app, clean_bytes_suffix, Hl, IH; [done|].
  destruct ls as [|l' ls]; [done|]. rewrite block_cons. done.
Qed.

Lemma clean_lines s : clean s ↔ Forall clean (lf_lines s).
Proof.
  split.
  - unfold lf_lines. induction s as [|a s IH]; [by repeat constructor|]. intros Hs.
    assert (clean s) as Hs' by by apply andb_prop in Hs as [_ Hs]. specialize (IH Hs').
    cbn [strings_Split]. destruct (Ascii.eqb_spec a newline) as [->|Hne]; [by constructor|].
    pose proof (Join_lines s) as Hj. unfold lf_lines in Hj. pose proof (strings_Split_nonempty s newline) as Hsome.
    destruct (strings_Split s newline) as [|w ws]; [done|].
    inversion_clear IH as [|?? Hw Hws]. constructor; [|done].
    destruct ws as [|w' ws]; [cbn [strings_Join] in Hj; by subst w|].
    change (strings_Join (w :: w' :: ws) nl) with (w +:+ nl +:+ strings_Join (w' :: ws) nl) in Hj.
    unfold clean in *. rewrite <-Hj, <-app_cons_string, bytes_of_app, clean_bytes_suffix in Hs by done.
    by apply andb_prop in Hs as [Hs _].
  - rewrite <-(Join_lines s) at 2. generalize (lf_lines s). intros ls. induction 1 as [|l ls Hl _ IH]; [done|].
    destruct ls as [|l' ls]; [done|].
    change (strings_Join (l :: l' :: ls) nl) with (l +:+ nl +:+ strings_Join (l' :: ls) nl).
    unfold clean in *. rewrite bytes_of_app, clean_bytes_suffix, Hl by done. by apply clean_prefix.
Qed.

Lemma Forall_clean_prefixed p ls :
  literal_plain p = true → Forall clean ls → Forall clean ((λ l, p +:+ l) <$> ls).
Proof. intros Hp Hls. apply Forall_fmap. eapply Forall_impl; [exact Hls|]. intros. by apply clean_prefix. Qed.

Ltac clean_text :=
  lazymatch goal with
  | |- clean (String _ _ +:+ _) => apply clean_prefix; [vm_compute; reflexivity|]
  | |- clean EmptyString => reflexivity
  | |- clean (String _ _) => apply clean_literal; vm_compute; reflexivity
  | |- clean (_ +:+ dquote) => apply clean_suffix; [vm_compute; reflexivity|]
  | |- clean (_ +:+ String _ _) => apply clean_suffix; [vm_compute; reflexivity|]
  | |- clean (dquote +:+ _) => apply clean_prefix; [vm_compute; reflexivity|]
  | |- clean (strconv.Quote _) => apply Quote_clean
  end.
Ltac pieces :=
  repeat first
    [ assumption | clean_text
    | apply Forall_option_line; intros | apply Forall_non_empty_line
    | apply Forall_app; split | apply Forall_clean_prefixed; [vm_compute; reflexivity|]
    | apply Forall_nil_2 | apply Forall_cons_2 ].

Lemma file_lines_clean f :
  Forall clean (file_scalars f) → clean (file_Content f) → Forall clean (file_lines f).
Proof.
  unfold file_scalars. rewrite !Forall_cons. intros (?&?&?&?&_) ?%clean_lines.
  unfold file_lines. pieces.
Qed.

Lemma user_lines_clean u : Forall clean (user_scalars u) → Forall clean (user_lines u).
Proof.
  unfold user_scalars. rewrite Forall_cons, Forall_app, Forall_forall. intros (?&Hopt&?).
  assert (∀ x a, x = Some a → x ∈ [user_Passwd u; user_Gecos u; user_Groups u; user_HomeDir u;
    user_Shell u; user_PrimaryGroup u; user_Sudo u] → clean a) as Ha.
  { intros x a -> Hin. apply Hopt, list_elem_of_omap. by exists (Some a). }
  unfold user_lines. destruct (user_SSHAuthorizedKeys u); pieces;
    try (by eapply Ha; [eassumption|set_solver]).
  all: by destruct (_ : bool); apply clean_literal.
Qed.

Lemma document_clean cfg :
  Forall clean (scalars cfg) → Forall clean (file_Content <$> cfg_Files cfg) → Forall clean (document cfg).
Proof.
  unfold scalars. rewrite Forall_cons, !Forall_app, !Forall_bind, Forall_fmap. intros (?&Hf&Hn&Hu) Hc.
  assert (Hcs : ∀ cs, Forall clean (command_line <$> cs)).
  { intros cs. apply Forall_fmap, Forall_true. intros c. unfold compose, command_line. pieces. }
  unfold document, ntp_lines, users_lines. pieces; try apply Hcs; try done.
  - apply Forall_bind. eapply Forall_impl; [apply Forall_and; split; [exact Hf|exact Hc]|].
    intros f [? ?]. by apply file_lines_clean.
  - destruct (cfg_NTP cfg); pieces.
  - destruct (cfg_Users cfg); constructor; [by apply clean_literal|].
    apply Forall_bind. eapply Forall_impl; [exact Hu|]. apply user_lines_clean.
Qed.

Lemma Write_clean cfg : Forall clean (document cfg) → clean (Write cfg).
Proof.
  intros Hd. rewrite Write_block. apply clean_prefix; [done|]. by apply clean_block, Forall_drop.
Qed.

Lemma lines_Write cfg : Forall one_line (scalars cfg) → lf_lines (Write cfg) = document cfg.
Proof.
  intros Hs. rewrite Write_block, lines_block; [done|by apply one_line_literal|].
  by apply Forall_drop, document_one_line.
Qed.
End quoted.

(** ** Lemmas on literal blocks *)

Lemma leading_Repeat n s : leading (strings_Repeat " " n +:+ s) = (n + leading s)%nat.
Proof.
  induction n as [|n IH]; [done|].
  change (leading (strings_Repeat " " (S n) +:+ s)) with (S (leading (strings_Repeat " " n +:+ s))). by rewrite IH.
Qed.
Lemma is_blank_Repeat n s : is_blank (strings_Repeat " " n +:+ s) = is_blank s.
Proof. induction n as [|n IH]; [done|exact IH]. Qed.
Lemma strip_Repeat n s : strip n (strings_Repeat " " n +:+ s) = s.
Proof. induction n as [|n IH]; [by destruct s|exact IH]. Qed.

(** A line that ends a block. *)
Definition ends_block (l : string) : Prop := leading l = 0%nat ∧ is_blank l = false.

Lemma block_indent_least k ls : (k ≤ block_indent k ls)%nat.
Proof.
  revert k; induction ls as [|l ls IH]; intros k; simpl; [done|].
  destruct (is_blank l); [|lia]. specialize (IH (k `max` leading l)%nat). lia.
Qed.

Lemma block_indent_flush n m ls l after :
  block_indent 0 ls = 0%nat → ls ≠ [] ∨ m = n → (m ≤ n)%nat → ends_block l →
  block_indent m (((λ l, strings_Repeat " " n +:+ l) <$> ls) ++ l :: after) = n.
Proof.
  intros Hf Hne Hm [Hl Hb]. revert m Hf Hne Hm. induction ls as [|l0 ls IH]; intros m Hf Hne Hm.
  { destruct Hne as [?| ->]; [done|]. simpl. rewrite Hb, Hl. lia. }
  cbn [fmap list_fmap app block_indent] in *. rewrite leading_Repeat, is_blank_Repeat.
  assert (Hz : leading l0 = 0%nat).
  { rewrite Nat.max_0_l in Hf. destruct (is_blank l0); [|done].
    pose proof (block_indent_least (leading l0) ls). lia. }
  rewrite Hz in *. replace (m `max` (n + 0))%nat with n by lia. destruct (is_blank l0); [|done].
  apply IH; [done|by right|done].
Qed.

Lemma block_lines_indented n ls l after :
  (0 < n)%nat → ends_block l →
  block_lines n (((λ l, strings_Repeat " " n +:+ l) <$> ls) ++ l :: after) = (ls, l :: after).
Proof.
  intros Hn [Hl Hb]. induction ls as [|l0 ls IH]; cbn [fmap list_fmap app block_lines].
  - rewrite Hl, Hb. destruct (Nat.leb_spec n 0); [lia|done].
  - rewrite leading_Repeat, strip_Repeat. destruct (Nat.leb_spec n (n + leading l0)); [|lia].
    cbn [fmap list_fmap] in IH. by rewrite IH.
Qed.

Lemma drop_empty_spec ls :
  ∃ j, ls = drop_empty ls ++ replicate j "" ∧
    match last (drop_empty ls) with Some l => l ≠ "" | None => True end.
Proof.
  induction ls as [|l ls (j&Heq&Hlast)]; [by exists 0%nat|]. cbn [drop_empty].
  destruct (drop_empty ls) as [|d ds] eqn:Hd.
  - destruct (String.eqb_spec l "") as [->|Hne].
    + exists (S j). simpl in *. by rewrite <-Heq.
    + exists j. simpl in *. by rewrite <-Heq.
  - exists j. split; [by rewrite Heq at 1|done].
Qed.

Lemma Join_snoc_empty d ds j :
  strings_Join ((d :: ds) ++ replicate j "") nl = strings_Join (d :: ds) nl +:+ strings_Repeat nl j.
Proof.
  revert d; induction ds as [|d' ds IH]; intros d.
  - destruct j as [|j]; [by rewrite append_nil_r|].
    change (strings_Join ([d] ++ replicate (S j) "") nl) with (d +:+ nl +:+ strings_Join ("" :: replicate j "") nl).
    cbn [strings_Join strings_Repeat]. do 2 f_equal. induction j as [|j IHj]; [done|].
    change (nl +:+ strings_Join ("" :: replicate j "") nl = nl +:+ strings_Repeat nl j). f_equal. exact IHj.
  - change (strings_Join ((d :: d' :: ds) ++ replicate j "") nl) with
      (d +:+ nl +:+ strings_Join ((d' :: ds) ++ replicate j "") nl). rewrite IH.
    change (strings_Join (d :: d' :: ds) nl) with (d +:+ nl +:+ strings_Join (d' :: ds) nl).
    by rewrite !append_assoc.
Qed.

Lemma Join_ends d ds :
  concat_strings ((λ l, l +:+ nl) <$> d :: ds) = strings_Join (d :: ds) nl +:+ nl.
Proof.
  revert d; induction ds as [|d' ds IH]; intros d; [apply append_nil_r|].
  change (strings_Join (d :: d' :: ds) nl) with (d +:+ nl +:+ strings_Join (d' :: ds) nl).
  rewrite fmap_cons. cbn [concat_strings]. by rewrite IH, !append_assoc.
Qed.

(** The value of a literal block: the text with the line feeds at its end made
    one, or none if there is nothing else. *)
Definition one_newline (s value : string) : Prop :=
  ∃ body k, s = body +:+ strings_Repeat nl k ∧ (body = "" ∨ last (lf_lines body) ≠ Some "") ∧
    value = if String.eqb body "" then "" else body +:+ nl.

Lemma clip_lines s : one_newline s (clip (lf_lines s)).
Proof.
  unfold clip. pose proof (Split_one_line s) as Hone. pose proof (Join_lines s) as Hj. destruct (drop_empty_spec (lf_lines s)) as (j&Heq&Hlast).
  rewrite Heq in Hj, Hone. apply Forall_app in Hone as [Hone _]. destruct (drop_empty (lf_lines s)) as [|d ds].
  - exists "", (pred j). split; [|by split; [left|]]. rewrite <-Hj. clear. destruct j as [|j]; [done|].
    induction j as [|j IH]; [done|]. exact (f_equal (String.append nl) IH).
  - rewrite Join_snoc_empty in Hj. exists (strings_Join (d :: ds) nl), j. split; [done|]. split.
    { right. pose proof (lines_Join_nl "" (d :: ds) (one_line_literal "" eq_refl) ltac:(done) Hone) as Hl.
      rewrite (list_fmap_ext _ id), list_fmap_id in Hl by done.
      change (lf_lines ("" +:+ strings_Join (d :: ds) (nl +:+ ""))) with (lf_lines (strings_Join (d :: ds) nl)) in Hl.
      rewrite Hl. destruct (last (d :: ds)); [|done]. by intros [= ->]. }
    rewrite Join_ends. destruct (String.eqb_spec (strings_Join (d :: ds) nl) "") as [He|]; [|done].
    exfalso. destruct ds as [|d' ds]; [by simpl in *|]. by destruct d.
Qed.

(** ** The property *)

Section document.
Context {R : GoRuntime} {PL : PrintTableLaws R}.

(** A file's content in the document, and the line after it. *)
Lemma document_file cfg f : f ∈ cfg_Files cfg → ∃ before l after,
  document cfg =
    before ++ ["    content: |"] ++
    ((λ l, strings_Repeat " " 6 +:+ l) <$> lf_lines (file_Content f)) ++ l :: after ∧
  (l = "runcmd:" ∨ ∃ g, g ∈ cfg_Files cfg ∧ l = "-   path: " +:+ file_Path g).
Proof.
  intros (l1&l2&Hf)%list_elem_of_split. unfold document. rewrite Hf, bind_app, bind_cons.
  destruct (file_lines_content f) as [p ->].
  assert (∃ l rest, (l2 ≫= file_lines) ++ ["runcmd:"] = l :: rest ∧
    (l = "runcmd:" ∨ ∃ g, g ∈ l2 ∧ l = "-   path: " +:+ file_Path g)) as (l&rest&Heq&Hl).
  { destruct l2 as [|g l2]; [by eexists _, _; split; [done|left]|]. eexists _, _. split; [done|].
    right. exists g. split; [left|done]. }
  match goal with |- context [["runcmd:"] ++ ?x] => set (tail := x) end.
  exists (["## template: jinja"; "#cloud-config"; "write_files:"] ++ (l1 ≫= file_lines) ++ p), l, (rest ++ tail).
  split.
  - change (l :: rest ++ tail) with ((l :: rest) ++ tail). rewrite <-Heq. by rewrite <-!(assoc_L (++)).
  - destruct Hl as [->|(g&Hg&->)]; [by left|right]. exists g. split; [|done].
    apply elem_of_app. right. by right.
Qed.

End document.

(** ** Witnesses *)

Module CloudDocumentWitness.
Import Reference ReferenceLaws.

Definition motd (content : string) : File :=
  {| file_Path := "/etc/motd"; file_Owner := "root:root"; file_Permissions := "0640";
     file_Encoding := ""; file_Content := content |}.
Definition config_of (content : string) : Config :=
  {| cfg_Files := [motd content]; cfg_PreCritCommands := ["echo 1" +:+ nl +:+ "users:"];
     cfg_PostCritCommands := []; cfg_Users := []; cfg_NTP := None; cfg_Verbosity := "-v 2" |}.

(** A content that looks like other entries and ends with two line feeds. *)
Definition text : string := "hello" +:+ nl +:+ "runcmd:" +:+ nl +:+ "  - reboot" +:+ nl.
Definition sample : Config := config_of (text +:+ nl).

Definition sample_lines : list string :=
  ["## template: jinja"; "#cloud-config"; "write_files:"; "-   path: /etc/motd";
   "    owner: root:root"; "    permissions: '0640'"; "    content: |"; "      hello";
   "      runcmd:"; "        - reboot"; "      "; "      "; "runcmd:";
   "  - " +:+ dquote +:+ "echo 1\nusers:" +:+ dquote;
   "  - 'crit up --config /var/lib/crit/config.yaml -v 2'"; ""].

Lemma all_clean ls : forallb (λ s, clean_bytes (bytes_of s)) ls = true → Forall clean ls.
Proof. rewrite forallb_forall, Forall_forall. intros H s Hs. by apply H, list_elem_of_In. Qed.

Lemma sample_one_line : Forall one_line (scalars sample).
Proof. cbv [scalars sample config_of motd]. repeat constructor. Qed.


(** A carriage return in a file's content ends its entry: the reader sees commands
    that the content gives. *)
Lemma carriage_return_ends_entry :
  let content := "a" +:+ String "013" "runcmd:" +:+ String "013" "  - reboot" in
  take 5 (drop 6 (yaml_lines (Write (config_of content)))) =
    ["    content: |"; "      a"; "runcmd:"; "  - reboot"; "runcmd:"].
Proof. cbv zeta. by_evaluation. Qed.

(** So does a first line that starts with a blank, at the first line that does not. *)
Lemma indented_content_ends_entry :
  let content := " a" +:+ nl +:+ "b" in
  read_literal 4 (drop 7 (document (config_of content))) =
    ("a" +:+ nl, "      b" :: drop 9 (document (config_of content))).
Proof. cbv zeta. by_evaluation. Qed.
End CloudDocumentWitness.
