(* ===== verification/BootstrapData.v ===== *)
(** controllers/bootstrap: the bootstrap data of a node (token.go, helpers.go
    and the parts of controlplane.go and worker.go that build it): tokens of
    the workload cluster, the defaults taken from the cluster, the cloud-config
    and the secret it is stored in. *)
From S2P Require Import Prelude GoRuntime ApiTypes Platform SamplePlatform ManagementCluster.
From S2P Require Import Secrets CloudInit.
Local Open Scope Z_scope.
Local Open Scope go_scope.

(** ** token.go *)

Definition DefaultTokenTTL : Z := 15 * Minute.

Section tokens.
Context {R : GoRuntime} {P : Platform}.

Definition not_of_the_form (token : string) : error :=
  errors_New ("the bootstrap token " +:+ strconv.Quote token +:+ " was not of the form " +:+
    strconv.Quote BootstrapTokenPattern).

(** The expiration of a token made or refreshed now. *)
Definition expiration (now : Time) : string := time_RFC3339 (now + DefaultTokenTTL).

Definition token_key (tokenID : string) : ObjectKey :=
  {| key_Namespace := NamespaceSystem; key_Name := BootstrapTokenSecretName tokenID |}.

Definition token_secret (tokenID tokenSecret : string) (now : Time) : Secret := {|
  sec_Meta := meta (BootstrapTokenSecretName tokenID) NamespaceSystem;
  sec_Type := SecretTypeBootstrapToken;
  sec_Data := Some {[
    BootstrapTokenIDKey := tokenID;
    BootstrapTokenSecretKey := tokenSecret;
    BootstrapTokenExpirationKey := expiration now;
    BootstrapTokenUsageSigningKey := "true";
    BootstrapTokenUsageAuthentication := "true";
    BootstrapTokenExtraGroupsKey := "system:bootstrappers:crit:default-node-token";
    BootstrapTokenDescriptionKey := "token generated by cluster-api-bootstrap-provider-crit" ]} |}.

Definition createToken (c : Client) : M (result error string) :=
  try token := call GenerateBootstrapToken
  catch err => mret (Err (errors_Wrap err "unable to generate bootstrap token"));;
  match BootstrapTokenRegexp_FindStringSubmatch token with
  | [_; tokenID; tokenSecret] =>
      now ← call Now;
      check call (Create_Secret c (token_secret tokenID tokenSecret now))
      catch err => mret (Err err);;
      mret (Ok token)
  | _ => mret (Err (not_of_the_form token))
  end.

Definition with_expiration (now : Time) (data : gmap string string) (s : Secret) : Secret :=
  {| sec_Meta := sec_Meta s; sec_Type := sec_Type s;
     sec_Data := Some (<[BootstrapTokenExpirationKey := expiration now]> data) |}.

Definition refreshToken (c : Client) (token : string) : M (option error) :=
  match BootstrapTokenRegexp_FindStringSubmatch token with
  | [_; tokenID; _] =>
      try secret := call (Get_Secret c (token_key tokenID)) catch err => mret (Some err);;
      match sec_Data secret with
      | None =>
          mret (Some (errors_New ("Invalid bootstrap secret " +:+
            strconv.Quote (BootstrapTokenSecretName tokenID) +:+
            ", remove the token from the crit config to re-create")))
      | Some data =>
          now ← call Now;
          call (Update_Secret c (with_expiration now data secret))
      end
  | _ => mret (Some (not_of_the_form token))
  end.
End tokens.

(** ** Defaults from the cluster and the config owner *)

(** A string field that is filled in when it is empty. *)
Definition fill (value field : string) : string :=
  if String.eqb field "" then value else field.

(** [contains] *)
Fixpoint contains (ss : list string) (match_ : string) : bool :=
  match ss with
  | [] => false
  | s :: ss' => if String.eqb s match_ then true else contains ss' match_
  end.

Definition with_config (data : string) (c : CritConfigSpec) : CritConfigSpec := {|
  ccs_Config := data; ccs_Files := ccs_Files c; ccs_PreCritCommands := ccs_PreCritCommands c;
  ccs_PostCritCommands := ccs_PostCritCommands c; ccs_Users := ccs_Users c;
  ccs_NTP := ccs_NTP c; ccs_Format := ccs_Format c; ccs_Verbosity := ccs_Verbosity c |}.

Definition cc_with_spec (s : CritConfigSpec) (c : CritConfig) : CritConfig :=
  {| cc_Meta := cc_Meta c; cc_Spec := s; cc_Status := cc_Status c |}.
Definition cc_with_status (s : CritConfigStatus) (c : CritConfig) : CritConfig :=
  {| cc_Meta := cc_Meta c; cc_Spec := cc_Spec c; cc_Status := s |}.

(** The status with the two fields the controller writes. *)
Definition ready_status (name : option string) (s : CritConfigStatus) : CritConfigStatus := {|
  ccst_Ready := true; ccst_DataSecretName := name;
  ccst_FailureReason := ccst_FailureReason s; ccst_FailureMessage := ccst_FailureMessage s |}.

(** The endpoint the code copies field by field. *)
Definition copy_endpoint (e : APIEndpoint) : APIEndpoint :=
  {| ep_Host := ep_Host e; ep_Port := ep_Port e |}.

(** The first CIDR blocks, if the pointer and the slice are there, joined
    with nothing between them. *)
Definition subnet (ranges : option (list string)) (field : string) : string :=
  match ranges with
  | Some blocks => if (0 <? length blocks)%nat then fill (strings_Join blocks "") field else field
  | None => field
  end.

Definition fill_node (domain version : option string) (n : NodeConfiguration) :
    NodeConfiguration := {|
  nc_KubeDir := nc_KubeDir n;
  nc_KubernetesVersion :=
    match version with Some v => fill v (nc_KubernetesVersion n) | None => nc_KubernetesVersion n end;
  nc_ClusterDomain :=
    match domain with Some d => fill d (nc_ClusterDomain n) | None => nc_ClusterDomain n end |}.

(** The service domain, when there is a network with one. *)
Definition service_domain (network : option ClusterNetwork) : option string :=
  match network with
  | Some n => if String.eqb (cn_ServiceDomain n) "" then None else Some (cn_ServiceDomain n)
  | None => None
  end.

Section configuration.
Context {R : GoRuntime} {P : Platform}.

(** [CritConfigSpec.SetConfig] *)
Definition SetConfig (c : CritConfigSpec) (obj : RuntimeObject) : result error CritConfigSpec :=
  match configutil_Marshal obj with
  | Err err => Err err
  | Ok data => Ok (with_config data c)
  end.

Definition set_config (config : CritConfig) (obj : RuntimeObject) : result error CritConfig :=
  match SetConfig (cc_Spec config) obj with
  | Err err => Err err
  | Ok s => Ok (cc_with_spec s config)
  end.

(** The assignments to [cfg]; [version] is [machine.Spec.Version]. *)
Definition control_plane_defaults (cluster : Cluster) (version : option string)
    (cfg : ControlPlaneConfiguration) : ControlPlaneConfiguration :=
  let endpoint := cl_ControlPlaneEndpoint cluster in
  let network := cl_ClusterNetwork cluster in
  {| cpc_ClusterName := fill (cl_Name cluster) (cpc_ClusterName cfg);
     cpc_ControlPlaneEndpoint :=
       if negb (APIEndpoint_IsZero endpoint) &&
          crit_APIEndpoint_IsZero (cpc_ControlPlaneEndpoint cfg)
       then copy_endpoint endpoint else cpc_ControlPlaneEndpoint cfg;
     cpc_ExtraSANs :=
       if negb (APIEndpoint_IsZero endpoint) &&
          negb (contains (cpc_ExtraSANs cfg) (ep_Host endpoint))
       then cpc_ExtraSANs cfg ++ [ep_Host endpoint] else cpc_ExtraSANs cfg;
     cpc_ServiceSubnet := subnet (network ≫= cn_Services) (cpc_ServiceSubnet cfg);
     cpc_PodSubnet := subnet (network ≫= cn_Pods) (cpc_PodSubnet cfg);
     cpc_NodeConfiguration := fill_node (service_domain network) version (cpc_NodeConfiguration cfg);
     cpc_Rest := cpc_Rest cfg |}.

Definition cannot_convert (kind to : string) (err : error) : error :=
  errors_Wrap err ("cannot convert " +:+ kind +:+ " to " +:+ to).

Definition reconcileControlPlaneClusterConfiguration (config : CritConfig)
    (configOwner : ConfigOwner) (cluster : Cluster) (cfg : ControlPlaneConfiguration) :
    result error (CritConfig * ControlPlaneConfiguration) :=
  match FromUnstructured_Machine (co_Object configOwner) with
  | Err err => Err (cannot_convert (co_Kind configOwner) "Machine" err)
  | Ok version =>
      let cfg := control_plane_defaults cluster version cfg in
      match set_config config (ControlPlaneObject cfg) with
      | Err err => Err err
      | Ok config => Ok (config, cfg)
      end
  end.

(** [Spec.Version] of the machine, or of the machine template of the set or
    the deployment; other owners have none. *)
Definition owner_version (configOwner : ConfigOwner) : result error (option string) :=
  let convert r to :=
    match r with
    | Err err => Err (cannot_convert (co_Kind configOwner) to err)
    | Ok version => Ok version
    end in
  if String.eqb (co_Kind configOwner) "Machine" then
    convert (FromUnstructured_Machine (co_Object configOwner)) "Machine"
  else if String.eqb (co_Kind configOwner) "MachineSet" then
    convert (FromUnstructured_MachineSet (co_Object configOwner)) "MachineSet"
  else if String.eqb (co_Kind configOwner) "MachineDeployment" then
    convert (FromUnstructured_MachineDeployment (co_Object configOwner)) "MachineDeployment"
  else Ok None.

Definition worker_defaults (cluster : Cluster) (version : option string)
    (cfg : WorkerConfiguration) : WorkerConfiguration :=
  {| wc_ClusterName := fill (cl_Name cluster) (wc_ClusterName cfg);
     wc_ControlPlaneEndpoint :=
       if crit_APIEndpoint_IsZero (wc_ControlPlaneEndpoint cfg)
       then copy_endpoint (cl_ControlPlaneEndpoint cluster) else wc_ControlPlaneEndpoint cfg;
     wc_BootstrapToken := wc_BootstrapToken cfg;
     wc_NodeConfiguration :=
       fill_node (service_domain (cl_ClusterNetwork cluster)) version (wc_NodeConfiguration cfg);
     wc_Rest := wc_Rest cfg |}.

Definition waiting_for_endpoint : error :=
  errors_Wrap (capierrors_RequeueAfterError (10 * Second))
    "waiting for cluster controller to set Cluster.Spec.ControlPlaneEndpoint".

Definition reconcileWorkerClusterConfiguration (config : CritConfig)
    (configOwner : ConfigOwner) (cluster : Cluster) (cfg : WorkerConfiguration) :
    result error (CritConfig * WorkerConfiguration) :=
  if crit_APIEndpoint_IsZero (wc_ControlPlaneEndpoint cfg) &&
     APIEndpoint_IsZero (cl_ControlPlaneEndpoint cluster)
  then Err waiting_for_endpoint
  else
    match owner_version configOwner with
    | Err err => Err err
    | Ok version =>
        let cfg := worker_defaults cluster version cfg in
        match set_config config (WorkerObject cfg) with
        | Err err => Err err
        | Ok config => Ok (config, cfg)
        end
    end.

(** ** The cloud-config *)

(** The file both kinds of nodes get. *)
Definition config_file (data : string) : File := {|
  file_Path := "/var/lib/crit/config.yaml"; file_Owner := "root:root";
  file_Permissions := "0640"; file_Encoding := Base64;
  file_Content := base64.EncodeToString data |}.

Definition cloud_config (config : CritConfig) (data : string) (certFiles : list File) : Config := {|
  cfg_Files := ccs_Files (cc_Spec config) ++ [config_file data] ++ certFiles;
  cfg_PreCritCommands := ccs_PreCritCommands (cc_Spec config);
  cfg_PostCritCommands := ccs_PostCritCommands (cc_Spec config);
  cfg_Users := ccs_Users (cc_Spec config);
  cfg_NTP := ccs_NTP (cc_Spec config);
  cfg_Verbosity := if ccs_Verbosity (cc_Spec config) then "-v" else "" |}.

Definition reconcileControlPlaneCloudConfig (config : CritConfig)
    (cfg : ControlPlaneConfiguration) (certificates : Certificates) :
    outcome (result error string) :=
  match configutil_Marshal (ControlPlaneObject cfg) with
  | Err err => Val (Err err)
  | Ok data =>
      certFiles ← AsFiles certificates;
      Val (Ok (Write (cloud_config config data certFiles)))
  end.

(** The loop over the files keeps those that end in [crt]. *)
Definition crt_files (files : list File) : list File :=
  filter (λ f, strings_HasSuffix (file_Path f) "crt" = true) files.

(** The certificate that is not there is a nil pointer. *)
Definition reconcileWorkerCloudConfig (config : CritConfig) (cfg : WorkerConfiguration)
    (certificates : Certificates) : outcome (result error string) :=
  match configutil_Marshal (WorkerObject cfg) with
  | Err err => Val (Err err)
  | Ok data =>
      match GetByPurpose certificates ClusterCA with
      | None => Panic
      | Some c =>
          certs ← Certificate_AsFiles c;
          Val (Ok (Write (cloud_config config data (crt_files certs))))
      end
  end.

(** ** helpers.go *)

Definition bootstrap_secret (config : CritConfig) (cluster : Cluster) (data : string) : Secret := {|
  sec_Meta :=
    with_labels {[ClusterLabelName := cl_Name cluster]}
      (with_owners [{|
         or_APIVersion := GroupVersion_String bootstrapv1_GroupVersion;
         or_Kind := "CritConfig"; or_Name := cc_Name config; or_UID := om_UID (cc_Meta config);
         or_Controller := Some true; or_BlockOwnerDeletion := None |}]
        (meta (cc_Name config) (cc_Namespace config)));
  sec_Type := "";
  sec_Data := Some {["value" := data]} |}.

Definition storeBootstrapData (cluster : Cluster) (data : string) :
    SM CritConfig (option error) :=
  config ← get;
  let secret := bootstrap_secret config cluster data in
  check embed (call (Create_Secret Mgmt secret))
  catch err =>
    (if apierrors_IsAlreadyExists err then mret None
     else mret (Some (errors_Wrap err ("failed to create kubeconfig secret for CritConfig " +:+
            cc_Namespace config +:+ "/" +:+ cc_Name config))));;
  _ ← put (cc_with_status (ready_status (Some (om_Name (sec_Meta secret))) (cc_Status config)) config);
  mret None.
End configuration.

(** ** Lemmas *)

Lemma fill_kept v s : s ≠ "" → fill v s = s.
Proof. intros Hs. unfold fill. by destruct (String.eqb_spec s ""). Qed.

Lemma fill_fill v s : fill v (fill v s) = fill v s.
Proof.
  unfold fill. destruct (String.eqb_spec s "") as [->|Hs].
  - by destruct (String.eqb_spec v "") as [->|].
  - by destruct (String.eqb_spec s "").
Qed.

Lemma contains_true ss s : contains ss s = true ↔ s ∈ ss.
Proof.
  induction ss as [|x ss IH]; simpl; [split; [done|by intros ?%not_elem_of_nil]|].
  rewrite elem_of_cons, <-IH. destruct (String.eqb_spec x s) as [->|]; naive_solver.
Qed.

Lemma subnet_subnet ranges s : subnet ranges (subnet ranges s) = subnet ranges s.
Proof. destruct ranges as [[|b l]|]; [done| |done]. apply fill_fill. Qed.

Lemma fill_node_twice d v n : fill_node d v (fill_node d v n) = fill_node d v n.
Proof. unfold fill_node; simpl. f_equal; [destruct v|destruct d]; by rewrite ?fill_fill. Qed.

(** A field that was set stays as it was. *)
Definition kept (old new : string) : Prop := old = "" ∨ new = old.

Lemma fill_is_kept v s : kept s (fill v s).
Proof. unfold kept. destruct (decide (s = "")); [by left|right; by apply fill_kept]. Qed.

Lemma subnet_is_kept r s : kept s (subnet r s).
Proof. destruct r as [[|b l]|]; [by right|apply fill_is_kept|by right]. Qed.

Definition node_kept (old new : NodeConfiguration) : Prop :=
  nc_KubeDir new = nc_KubeDir old ∧
  kept (nc_KubernetesVersion old) (nc_KubernetesVersion new) ∧
  kept (nc_ClusterDomain old) (nc_ClusterDomain new).

Lemma fill_node_kept d v n : node_kept n (fill_node d v n).
Proof.
  unfold node_kept. simpl.
  split_and!; [done|destruct v|destruct d]; first [apply fill_is_kept|by right].
Qed.

(** A set endpoint stays as it was. *)
Definition endpoint_kept `{Platform} (old new : APIEndpoint) : Prop :=
  crit_APIEndpoint_IsZero old = true ∨ new = old.

Section configuration_lemmas.
Context {R : GoRuntime} {P : Platform}.

(** The configuration that is stored is the one that is used. *)
Definition stored (config config' : CritConfig) (obj : RuntimeObject) : Prop :=
  configutil_Marshal obj = Ok (ccs_Config (cc_Spec config')) ∧
  config' = cc_with_spec (with_config (ccs_Config (cc_Spec config')) (cc_Spec config)) config.

Lemma set_config_stored config obj config' :
  set_config config obj = Ok config' → stored config config' obj.
Proof.
  unfold set_config, SetConfig, stored. destruct (configutil_Marshal obj) as [data|]; [|done].
  by intros [= <-].
Qed.

Lemma set_config_again config obj config' :
  set_config config obj = Ok config' → set_config config' obj = Ok config'.
Proof.
  unfold set_config, SetConfig. destruct (configutil_Marshal obj) as [data|]; [|done].
  intros [= <-]. by destruct config.
Qed.

Lemma control_plane_defaults_twice `{!EndpointLaws P} cluster v cfg :
  control_plane_defaults cluster v (control_plane_defaults cluster v cfg) =
  control_plane_defaults cluster v cfg.
Proof.
  unfold control_plane_defaults; simpl. f_equal.
  - apply fill_fill.
  - destruct (APIEndpoint_IsZero (cl_ControlPlaneEndpoint cluster)) eqn:Hz; simpl; [done|].
    destruct (crit_APIEndpoint_IsZero (cpc_ControlPlaneEndpoint cfg)) eqn:Hc; [|by rewrite Hc].
    by destruct (crit_APIEndpoint_IsZero (copy_endpoint _)).
  - destruct (APIEndpoint_IsZero (cl_ControlPlaneEndpoint cluster)); simpl; [done|].
    destruct (contains (cpc_ExtraSANs cfg) _) eqn:Hc; simpl; [by rewrite Hc|].
    rewrite (proj2 (contains_true _ _)); [done|]. apply elem_of_app. right. left.
  - apply subnet_subnet.
  - apply subnet_subnet.
  - apply fill_node_twice.
Qed.

Lemma worker_defaults_twice cluster v cfg :
  worker_defaults cluster v (worker_defaults cluster v cfg) = worker_defaults cluster v cfg.
Proof.
  unfold worker_defaults; simpl. f_equal; [apply fill_fill| |apply fill_node_twice].
  by destruct (crit_APIEndpoint_IsZero (wc_ControlPlaneEndpoint cfg)) eqn:Hc;
    [destruct (crit_APIEndpoint_IsZero (copy_endpoint _))|rewrite Hc].
Qed.
End configuration_lemmas.

(** ** Properties *)

Section configuration_properties.
Context {R : GoRuntime} {P : Platform}.

(** C13: injecting the cluster's settings into a control plane configuration
    changes no field the user has set: the only other change appends the
    cluster's endpoint, once, to the names the API server certificate must
    cover.  With an endpoint on the cluster, the result covers it and has an
    endpoint itself.  The configuration stored in the CritConfig is the
    result, and injecting again, which every later reconciliation does, leaves
    it as it is. *)
Theorem control_plane_configuration_filled `{!EndpointLaws P} config owner cluster cfg config' cfg' :
  reconcileControlPlaneClusterConfiguration config owner cluster cfg = Ok (config', cfg') →
  (kept (cpc_ClusterName cfg) (cpc_ClusterName cfg') ∧
   kept (cpc_ServiceSubnet cfg) (cpc_ServiceSubnet cfg') ∧
   kept (cpc_PodSubnet cfg) (cpc_PodSubnet cfg') ∧
   node_kept (cpc_NodeConfiguration cfg) (cpc_NodeConfiguration cfg') ∧
   endpoint_kept (cpc_ControlPlaneEndpoint cfg) (cpc_ControlPlaneEndpoint cfg') ∧
   cpc_Rest cfg' = cpc_Rest cfg) ∧
  (cpc_ExtraSANs cfg' = cpc_ExtraSANs cfg ∨
   ep_Host (cl_ControlPlaneEndpoint cluster) ∉ cpc_ExtraSANs cfg ∧
   cpc_ExtraSANs cfg' = cpc_ExtraSANs cfg ++ [ep_Host (cl_ControlPlaneEndpoint cluster)]) ∧
  (APIEndpoint_IsZero (cl_ControlPlaneEndpoint cluster) = false →
   ep_Host (cl_ControlPlaneEndpoint cluster) ∈ cpc_ExtraSANs cfg' ∧
   crit_APIEndpoint_IsZero (cpc_ControlPlaneEndpoint cfg') = false) ∧
  stored config config' (ControlPlaneObject cfg') ∧
  reconcileControlPlaneClusterConfiguration config' owner cluster cfg' = Ok (config', cfg').
Proof.
  unfold reconcileControlPlaneClusterConfiguration.
  destruct (FromUnstructured_Machine _) as [v|]; [|done].
  destruct (set_config _ _) as [config0|] eqn:Hset; [|done]. intros [= <- <-].
  rewrite control_plane_defaults_twice, (set_config_again _ _ _ Hset).
  split; [|split; [|split; [|split; [by apply set_config_stored|done]]]].
  - simpl. split_and!; auto using fill_is_kept, subnet_is_kept, fill_node_kept.
    unfold endpoint_kept. destruct (crit_APIEndpoint_IsZero _); [by left|].
    rewrite andb_false_r. by right.
  - simpl. destruct (contains _ _) eqn:Hc; [rewrite andb_false_r; by left|].
    destruct (APIEndpoint_IsZero _); [by left|right]. split; [|done].
    by rewrite <-contains_true, Hc.
  - simpl. intros Hz. rewrite Hz. simpl. split.
    + destruct (contains _ _) eqn:Hc; simpl; [by apply contains_true|].
      apply elem_of_app. right. left.
    + destruct (crit_APIEndpoint_IsZero (cpc_ControlPlaneEndpoint cfg)) eqn:Hc; [|done].
      apply not_true_iff_false. rewrite crit_endpoint_zero. simpl.
      by rewrite <-endpoint_zero, Hz.
Qed.

(** Injecting the cluster's settings into a worker's configuration asks to
    be retried after ten seconds as long as neither has an endpoint.
    Otherwise it changes no field the user has set, always leaves an endpoint
    and keeps the bootstrap token; the configuration stored in the CritConfig
    is the result, and injecting again leaves it as it is. *)
Theorem worker_configuration_filled `{!EndpointLaws P, !ErrorLaws P} config owner cluster cfg :
  match reconcileWorkerClusterConfiguration config owner cluster cfg with
  | Err e =>
      crit_APIEndpoint_IsZero (wc_ControlPlaneEndpoint cfg) = true →
      APIEndpoint_IsZero (cl_ControlPlaneEndpoint cluster) = true →
      as_HasRequeueAfterError (errors_Cause e) = Some (10 * Second)
  | Ok (config', cfg') =>
      kept (wc_ClusterName cfg) (wc_ClusterName cfg') ∧
      node_kept (wc_NodeConfiguration cfg) (wc_NodeConfiguration cfg') ∧
      endpoint_kept (wc_ControlPlaneEndpoint cfg) (wc_ControlPlaneEndpoint cfg') ∧
      crit_APIEndpoint_IsZero (wc_ControlPlaneEndpoint cfg') = false ∧
      wc_BootstrapToken cfg' = wc_BootstrapToken cfg ∧ wc_Rest cfg' = wc_Rest cfg ∧
      stored config config' (WorkerObject cfg') ∧
      reconcileWorkerClusterConfiguration config' owner cluster cfg' = Ok (config', cfg')
  end.
Proof.
  unfold reconcileWorkerClusterConfiguration at 1.
  destruct (crit_APIEndpoint_IsZero (wc_ControlPlaneEndpoint cfg)) eqn:Hc;
    [destruct (APIEndpoint_IsZero (cl_ControlPlaneEndpoint cluster)) eqn:Hz|]; simpl.
  { intros _ _. unfold waiting_for_endpoint. by rewrite cause_wrap, cause_requeue, requeue_as. }
  all: destruct (owner_version owner) as [v|e] eqn:Hv; [|done].
  all: destruct (set_config _ _) as [config'|] eqn:Hset; [|done].
  all: assert (Hne : crit_APIEndpoint_IsZero (wc_ControlPlaneEndpoint (worker_defaults cluster v cfg))
    = false) by (simpl; rewrite Hc; first [exact Hc|apply not_true_iff_false;
      rewrite crit_endpoint_zero; simpl; by rewrite <-endpoint_zero, Hz]).
  all: unfold reconcileWorkerClusterConfiguration; rewrite Hne, Hv, worker_defaults_twice,
    (set_config_again _ _ _ Hset); simpl.
  all: split_and!; auto using fill_is_kept, fill_node_kept, set_config_stored.
  all: unfold endpoint_kept; rewrite Hc; auto.
Qed.
End configuration_properties.

Section token_properties.
Context {R : GoRuntime} {P : Platform}.

Lemma with_expiration_token_secret `{!TokenLaws P} id s now now' data :
  sec_Data (token_secret id s now) = Some data →
  with_expiration now' data (token_secret id s now) = token_secret id s now'.
Proof.
  intros [= <-].
  unfold with_expiration, token_secret; simpl. do 2 f_equal.
  pose proof token_keys as Hk. rewrite !NoDup_cons, !not_elem_of_cons in Hk.
  destruct Hk as ((H1&H2&_)&(H3&_)&_).
  rewrite (insert_insert_ne _ _ BootstrapTokenIDKey), (insert_insert_ne _ _ BootstrapTokenSecretKey),
    insert_insert_eq by done. done.
Qed.

(** A token that was created is stored as one secret of the workload
    cluster, valid for fifteen minutes, and is refreshed there: refreshing the
    token reads the very secret that was created and, if the server still has
    it as it was, replaces it by the secret that creating the token now would
    make.  When creating a token fails, no secret was created. *)
Theorem token_refreshable `{!TokenLaws P} c tr r :
  runs (createToken c) tr (Val r) →
  match r with
  | Err _ => ∀ s, Ev (Create_Secret c s) None ∉ tr
  | Ok token =>
      ∃ id secret now,
        tr = [Ev GenerateBootstrapToken (Ok token); Ev Now now;
              Ev (Create_Secret c (token_secret id secret now)) None] ∧
        ∀ tr' o, runs (refreshToken c token) tr' o →
          ∃ answer rest,
            tr' = Ev (Get_Secret c
              {| key_Namespace := om_Namespace (sec_Meta (token_secret id secret now));
                 key_Name := om_Name (sec_Meta (token_secret id secret now)) |}) answer :: rest ∧
            (answer = Ok (token_secret id secret now) → ∃ now' err,
               rest = [Ev Now now'; Ev (Update_Secret c (token_secret id secret now')) err] ∧
               o = Val err)
  end.
Proof.
  intros Hr. unfold createToken in Hr. apply runs_call in Hr as (a&tr1&->&Hr).
  destruct a as [token|e]; [|destruct Hr as [-> [= ->]]].
  2:{ intros s Hin%list_elem_of_singleton. by apply (f_equal (@projT1 _ _)) in Hin. }
  destruct (BootstrapTokenRegexp_FindStringSubmatch token) as [|x [|id [|secret [|]]]] eqn:Htok;
    try (destruct Hr as [-> [= ->]]; intros ? Hin%list_elem_of_singleton;
         by apply (f_equal (@projT1 _ _)) in Hin).
  apply runs_call in Hr as (now&tr2&->&Hr). apply runs_call in Hr as (err&tr3&->&Hr).
  destruct err as [e|]; destruct Hr as [-> [= ->]].
  { intros s. rewrite !elem_of_cons, elem_of_nil. intros [Hin|[Hin|[Hin|[]]]].
    - by apply (f_equal (@projT1 _ _)) in Hin.
    - by apply (f_equal (@projT1 _ _)) in Hin.
    - assert (is_Some (Some e)) as Hs by done. revert Hin Hs.
      generalize (Some e) as err. intros err Hin.
      apply (f_equal (λ x : event, match x with
        | existT (Create_Secret _ _) r => r | _ => None end)) in Hin. simpl in Hin. subst err.
      by intros [? [=]]. }
  exists id, secret, now. split; [done|]. intros tr' o Hr.
  unfold refreshToken in Hr. rewrite Htok in Hr. apply runs_call in Hr as (a&rest&->&Hr).
  exists a, rest. split; [done|]. intros ->. simpl in Hr.
  destruct Hr as (now'&tr4&->&err&tr5&->&->&->). exists now', err. split; [|done].
  by rewrite (with_expiration_token_secret id secret now now' _ eq_refl).
Qed.
End token_properties.

(** *** The files of a node *)

Lemma HasSuffix_app p q : strings_HasSuffix (p +:+ q) q = true.
Proof.
  unfold strings_HasSuffix. induction p as [|a p IH].
  - change ("" +:+ q) with q. rewrite Nat.sub_diag. apply andb_true_intro. split; [apply Nat.leb_refl|].
    apply String.eqb_eq. induction q as [|b q IHq]; [done|]. simpl. by rewrite IHq.
  - apply andb_prop in IH as [Hle%Nat.leb_le Heq]. rewrite app_cons_string.
    cbn [String.length]. rewrite Nat.sub_succ_l by done. cbn [String.substring].
    rewrite Heq, andb_true_r. apply Nat.leb_le. lia.
Qed.

Lemma Join_snoc ws w sep : ∃ p, strings_Join (ws ++ [w]) sep = p +:+ w.
Proof.
  induction ws as [|x ws [p IH]]; [by exists ""|].
  destruct ws as [|y ws]; [by exists (x +:+ sep); simpl; rewrite append_assoc|].
  exists (x +:+ sep +:+ p). change (strings_Join ((x :: y :: ws) ++ [w]) sep)
    with (x +:+ sep +:+ strings_Join ((y :: ws) ++ [w]) sep). rewrite IH, !append_assoc. done.
Qed.

(** Cleaning a path keeps a last component that is a name. *)
Lemma Clean_last path ws w :
  strings_Split path slash = ws ++ [w] → w ∉ [""; "."; ".."] →
  ∃ p, filepath_Clean path = p +:+ w.
Proof.
  rewrite !not_elem_of_cons. intros Hs (H1&H2&H3&_). unfold filepath_Clean. rewrite Hs, foldl_app.
  set (rooted := match path with "" => _ | String _ _ => _ end).
  set (st := foldl _ _ ws). cbn [foldl].
  assert (clean_step rooted st w = w :: st) as ->.
  { unfold clean_step. rewrite bool_decide_eq_false_2 by (by intros [?|?]).
    by rewrite bool_decide_eq_false_2. }
  rewrite reverse_cons. destruct (Join_snoc (reverse st) w "/") as [p ->].
  destruct rooted; [exists ("/" +:+ p); by rewrite append_assoc|].
  case_bool_decide as Hout; [|by exists p]. by destruct p.
Qed.

Lemma Join_file dir file :
  strings_Split file slash = [file] → file ∉ [""; "."; ".."] →
  ∃ p, filepath_Join [dir; file] = p +:+ file.
Proof.
  intros Hf Hn. assert (file ≠ "") as Hne by (rewrite !not_elem_of_cons in Hn; naive_solver).
  cbn [filepath_Join]. destruct (bool_decide (dir = "")).
  - rewrite bool_decide_eq_false_2 by done. by apply (Clean_last _ []).
  - apply (Clean_last _ (strings_Split dir slash)); [|done].
    change (strings_Join [dir; file] "/") with (dir +:+ String slash file).
    by rewrite strings_Split_sep, Hf.
Qed.

(** A file's entry is a run of consecutive lines. *)
Lemma document_entry {R : GoRuntime} cfg f :
  f ∈ cfg_Files cfg → ∃ before after, document cfg = before ++ file_lines f ++ after.
Proof.
  intros (l1&l2&Hf)%list_elem_of_split. unfold document. rewrite Hf, bind_app, bind_cons.
  eexists (["## template: jinja"; "#cloud-config"; "write_files:"] ++ (l1 ≫= file_lines)), _.
  cbn [app]. do 3 f_equal. rewrite <-(app_assoc (l1 ≫= file_lines)). f_equal.
  rewrite <-(app_assoc (file_lines f)). reflexivity.
Qed.

Lemma digit_plain n : base64.digit n ≠ newline.
Proof.
  unfold base64.digit. destruct (base64.alphabet !! Z.to_nat n) as [c|] eqn:Hc; [|done].
  apply list_elem_of_lookup_2 in Hc. simpl. intros ->. revert Hc.
  apply (bool_decide_unpack (newline ∉ base64.alphabet)). vm_compute. done.
Qed.

Lemma encode_plain fuel data :
  (length data ≤ fuel)%nat → newline ∉ base64.encode data.
Proof.
  revert data. induction fuel as [|fuel IH]; intros data Hlen.
  { destruct data; [apply not_elem_of_nil|simpl in Hlen; lia]. }
  destruct data as [|a [|b [|c data]]]; [apply not_elem_of_nil|..]; cbn [base64.encode];
    rewrite !not_elem_of_cons; split_and!; try (apply not_eq_sym, digit_plain); try done;
    try apply not_elem_of_nil.
  apply IH. simpl in Hlen. lia.
Qed.

Lemma EncodeToString_one_line data : one_line (base64.EncodeToString data).
Proof.
  apply one_line_iff. unfold base64.EncodeToString.
  rewrite String.list_ascii_of_string_of_list_ascii. by eapply encode_plain.
Qed.

(** The entry of the configuration file. *)
Definition config_entry (text : string) : list string :=
  ["-   path: /var/lib/crit/config.yaml"; "    encoding: " +:+ dquote +:+ "base64" +:+ dquote;
   "    owner: root:root"; "    permissions: '0640'"; "    content: |"; "      " +:+ text].

Lemma config_file_lines data :
  file_lines (config_file data) = config_entry (base64.EncodeToString data).
Proof.
  unfold file_lines. change (file_Content (config_file data)) with (base64.EncodeToString data).
  rewrite EncodeToString_one_line. reflexivity.
Qed.

(** The cloud-config has a file that decodes to the configuration. *)
Definition carries (text data : string) : Prop :=
  ∃ before entry after,
    lf_lines text = before ++ config_entry entry ++ after ∧ base64.DecodeString entry = Some data.

(** The file with the certificate of the cluster CA. *)
Definition ca_file (dir : string) (kp : KeyPair) : File := {|
  file_Path := filepath_Join [dir; "ca.crt"]; file_Owner := rootOwnerValue;
  file_Permissions := "0640"; file_Encoding := ""; file_Content := kp_Cert kp |}.

Section data_properties.
Context {R : GoRuntime} {P : Platform}.

Lemma config_readable config data certFiles :
  Forall one_line (scalars (cloud_config config data certFiles)) →
  carries (Write (cloud_config config data certFiles)) data.
Proof.
  intros Hs. assert (config_file data ∈ cfg_Files (cloud_config config data certFiles)) as Hin.
  { simpl. set_solver. }
  apply document_entry in Hin as (before&after&Hd). rewrite config_file_lines in Hd.
  exists before, (base64.EncodeToString data), after.
  split; [|apply base64_laws.DecodeString_EncodeToString].
  rewrite <-Hd, Write_block, lines_block; [done|by apply one_line_literal|].
  by apply Forall_drop, document_one_line.
Qed.

(** The certificate a worker looked up: the CA, with the cluster's key pair. *)
Definition worker_ca (dir : string) (kp : KeyPair) : Certificate :=
  set_key_pair kp false (certificate ClusterCA (filepath_Join [dir; "ca.crt"]) "").

Lemma worker_lookup dir key tr certificates :
  runs (Lookup (NewCertificatesForWorker dir) key) tr (Val (certificates, None)) →
  EnsureAllExist certificates = None →
  ∃ s kp, tr = [Ev (Get_Secret Mgmt (secret_key key ClusterCA)) (Ok s)] ∧
    secretToKeyPair s = Ok kp ∧ kp_Cert kp ≠ "" ∧ certificates = [worker_ca dir kp].
Proof.
  unfold Lookup, NewCertificatesForWorker. cbn [for_certificates]. intros Hr Hall.
  apply runs_bind in Hr as [[_ [=]]|(tr1&tr2&[x err]&->&Hx&Hr)].
  unfold lookup_certificate in Hx. apply runs_call in Hx as (a&tr3&->&Hx).
  destruct a as [s|e].
  - destruct (secretToKeyPair s) as [kp|e'] eqn:Hs; destruct Hx as [-> [= -> ->]];
      [|by destruct Hr as [_ [=]]].
    destruct Hr as [-> [= ->]]. exists s, kp. split_and!; [done|done| |done].
    intros Hkp. cbn in Hall. by rewrite Hkp in Hall.
  - destruct (apierrors_IsNotFound e); destruct Hx as [-> [= -> ->]];
      [|by destruct Hr as [_ [=]]].
    destruct Hr as [-> [= ->]]. done.
Qed.

Lemma worker_files dir kp :
  kp_Cert kp ≠ "" →
  ∃ certs, Certificate_AsFiles (worker_ca dir kp) = Val certs ∧
    crt_files certs = [ca_file dir kp].
Proof.
  intros Hkp. eexists. split; [done|]. unfold crt_files. rewrite filter_app.
  assert (0 < String.length (kp_Cert kp))%nat as ->%Nat.ltb_lt
    by (destruct (kp_Cert kp); [done|simpl; lia]).
  assert (strings_HasSuffix (filepath_Join [dir; "ca.crt"]) "crt" = true) as Hsuf.
  { destruct (Join_file dir "ca.crt") as [p ->]; [done|by rewrite !not_elem_of_cons; split_and!; try apply not_elem_of_nil|].
    change "ca.crt" with ("ca." +:+ "crt"). rewrite <-append_assoc. apply HasSuffix_app. }
  rewrite filter_cons_True by exact Hsuf. rewrite filter_nil. cbn [app]. f_equal.
  by destruct (0 <? String.length (kp_Key kp))%nat.
Qed.

(** The bootstrap data of a control plane node carries its configuration:
    unless the configuration cannot be marshalled or a certificate is missing,
    the cloud-config is rendered, and when the texts inserted unquoted hold
    no line break its entry for [config.yaml], marked as base64, decodes to
    exactly the marshalled configuration, whatever bytes it has. *)
Theorem control_plane_data_readable config cfg certificates data certFiles :
  configutil_Marshal (ControlPlaneObject cfg) = Ok data →
  AsFiles certificates = Val certFiles →
  Forall one_line (scalars (cloud_config config data certFiles)) →
  ∃ text before entry after,
    reconcileControlPlaneCloudConfig config cfg certificates = Val (Ok text) ∧
    lf_lines text = before ++ config_entry entry ++ after ∧
    base64.DecodeString entry = Some data.
Proof.
  intros Hm Hf Hs. destruct (config_readable _ _ _ Hs) as (before&entry&after&Hl&Hd).
  eexists _, before, entry, after. unfold reconcileControlPlaneCloudConfig.
  rewrite Hm, Hf. split_and!; [done|exact Hl|exact Hd].
Qed.

(** Once a worker's certificates were looked up and found complete,
    rendering its cloud-config cannot panic, and the only file it gets besides
    the user's and its configuration is the certificate of the cluster CA as
    the cluster's secret holds it, never a private key; the configuration can
    be read back from the data. *)
Theorem worker_data_without_keys config cfg dir key tr certificates data :
  runs (Lookup (NewCertificatesForWorker dir) key) tr (Val (certificates, None)) →
  EnsureAllExist certificates = None →
  configutil_Marshal (WorkerObject cfg) = Ok data →
  ∃ s kp,
    Ev (Get_Secret Mgmt (secret_key key ClusterCA)) (Ok s) ∈ tr ∧ secretToKeyPair s = Ok kp ∧
    reconcileWorkerCloudConfig config cfg certificates =
      Val (Ok (Write (cloud_config config data [ca_file dir kp]))) ∧
    (Forall one_line (scalars (cloud_config config data [ca_file dir kp])) →
     carries (Write (cloud_config config data [ca_file dir kp])) data).
Proof.
  intros Hr Hall Hm. destruct (worker_lookup _ _ _ _ Hr Hall) as (s&kp&->&Hs&Hkp&->).
  exists s, kp. split; [left|]. split; [done|]. split; [|apply config_readable].
  unfold reconcileWorkerCloudConfig. rewrite Hm. cbn [GetByPurpose].
  change (String.eqb (cert_Purpose (worker_ca dir kp)) ClusterCA) with true. cbv iota.
  destruct (worker_files dir kp Hkp) as (certs&->&Hc). cbn [mbind outcome_bind]. by rewrite Hc.
Qed.
End data_properties.

(** ** Witnesses *)

Module BootstrapWitness.
Import Sample Reference ReferenceLaws Fixtures.

Definition node : NodeConfiguration :=
  {| nc_KubeDir := "/etc/kubernetes"; nc_KubernetesVersion := ""; nc_ClusterDomain := "" |}.
Definition no_endpoint : APIEndpoint := {| ep_Host := ""; ep_Port := 0 |}.
Definition plane_config : ControlPlaneConfiguration := {|
  cpc_ClusterName := ""; cpc_ControlPlaneEndpoint := no_endpoint; cpc_ExtraSANs := ["api.demo"];
  cpc_ServiceSubnet := "10.2.0.0/16"; cpc_PodSubnet := ""; cpc_NodeConfiguration := node;
  cpc_Rest := "" |}.
Definition worker_config : WorkerConfiguration := {|
  wc_ClusterName := "demo"; wc_ControlPlaneEndpoint := no_endpoint; wc_BootstrapToken := "";
  wc_NodeConfiguration := node; wc_Rest := "" |}.
Definition crit_config : CritConfig := {|
  cc_Meta := meta "node-1" "default"; cc_Spec := config_spec;
  cc_Status := {| ccst_Ready := false; ccst_DataSecretName := None; ccst_FailureReason := "";
                  ccst_FailureMessage := "" |} |}.
Definition machine_owner : ConfigOwner := {|
  co_Kind := "Machine"; co_Namespace := "default"; co_ClusterName := "demo";
  co_DataSecretName := None; co_IsControlPlaneMachine := true; co_IsInfrastructureReady := false;
  co_Object := ([], Some "v1.18.5") |}.

(** What [plane_config] becomes. *)
Definition filled_plane : ControlPlaneConfiguration := {|
  cpc_ClusterName := "demo"; cpc_ControlPlaneEndpoint := {| ep_Host := "10.0.0.1"; ep_Port := 6443 |};
  cpc_ExtraSANs := ["api.demo"; "10.0.0.1"]; cpc_ServiceSubnet := "10.2.0.0/16";
  cpc_PodSubnet := "10.244.0.0/16";
  cpc_NodeConfiguration := {| nc_KubeDir := "/etc/kubernetes"; nc_KubernetesVersion := "v1.18.5";
                              nc_ClusterDomain := "cluster.local" |};
  cpc_Rest := "" |}.
Definition filled_worker : WorkerConfiguration := {|
  wc_ClusterName := "demo"; wc_ControlPlaneEndpoint := {| ep_Host := "10.0.0.1"; ep_Port := 6443 |};
  wc_BootstrapToken := "";
  wc_NodeConfiguration := {| nc_KubeDir := "/etc/kubernetes"; nc_KubernetesVersion := "v1.18.5";
                             nc_ClusterDomain := "cluster.local" |};
  wc_Rest := "" |}.

Lemma control_plane_configuration_filled_witness :
  reconcileControlPlaneClusterConfiguration crit_config machine_owner cluster plane_config
    = Ok (crit_config, filled_plane) ∧
  reconcileControlPlaneClusterConfiguration crit_config machine_owner cluster filled_plane
    = Ok (crit_config, filled_plane).
Proof.
  assert (reconcileControlPlaneClusterConfiguration crit_config machine_owner cluster
    plane_config = Ok (crit_config, filled_plane)) as H by reflexivity.
  split; [exact H|].
  destruct (control_plane_configuration_filled _ _ _ _ _ _ H) as (_&_&_&_&Hagain). exact Hagain.
Defined.

Lemma worker_configuration_filled_witness :
  let config' := cc_with_spec (with_config "worker demo " config_spec) crit_config in
  reconcileWorkerClusterConfiguration crit_config machine_owner cluster worker_config
    = Ok (config', filled_worker) ∧
  reconcileWorkerClusterConfiguration config' machine_owner cluster filled_worker
    = Ok (config', filled_worker).
Proof.
  intros config'. assert (reconcileWorkerClusterConfiguration crit_config machine_owner cluster
    worker_config = Ok (config', filled_worker)) as H by reflexivity.
  split; [exact H|].
  pose proof (worker_configuration_filled crit_config machine_owner cluster worker_config) as Hw.
  rewrite H in Hw. destruct Hw as (_&_&_&_&_&_&_&Hagain). exact Hagain.
Defined.

(** Without an endpoint anywhere a worker waits. *)
Definition remote : Client := Remote {| rc_Data := "demo"; rc_Timeout := 0 |}.

Lemma token_refreshable_witness :
  ∃ id secret now, (drive accept [] (createToken remote)).1 =
    [Ev GenerateBootstrapToken (Ok "abcdef.0123456789abcdef"); Ev Now now;
     Ev (Create_Secret remote (token_secret id secret now)) None].
Proof.
  assert (runs (createToken remote) (drive accept [] (createToken remote)).1
    (Val (Ok "abcdef.0123456789abcdef"))) as Hr.
  { replace (Val (Ok "abcdef.0123456789abcdef")) with (drive accept [] (createToken remote)).2
      by (vm_compute; reflexivity). apply drive_runs. }
  destruct (token_refreshable _ _ _ Hr) as (id&secret&now&Htr&_). exists id, secret, now. exact Htr.
Defined.

(** The certificates of a control plane, all with the same key pair. *)
Definition pair : KeyPair := {| kp_Cert := "CERT"; kp_Key := "KEY" |}.
Definition plane_certificates : Certificates :=
  set_key_pair pair false <$> NewCertificatesForControlPlane "/etc/kubernetes/pki".

Lemma control_plane_data_readable_witness :
  ∃ text before entry after,
    reconcileControlPlaneCloudConfig crit_config filled_plane plane_certificates = Val (Ok text) ∧
    lf_lines text = before ++ config_entry entry ++ after ∧
    base64.DecodeString entry = Some "controlplane demo".
Proof.
  assert (∃ certFiles, AsFiles plane_certificates = Val certFiles ∧
    Forall one_line (scalars (cloud_config crit_config "controlplane demo" certFiles)))
    as (certFiles&Hf&Hs).
  { eexists. split; [vm_compute; reflexivity|].
    apply (bool_decide_unpack _). vm_compute. done. }
  exact (control_plane_data_readable crit_config filled_plane plane_certificates _ _ eq_refl Hf Hs).
Defined.

Definition ca_secret : Secret := {|
  sec_Meta := meta "demo-ca" "default"; sec_Type := "";
  sec_Data := Some {[TLSCrtDataName := "CERT"; TLSKeyDataName := "KEY"]} |}.
Definition with_ca : list event → ∀ a : k8s_action, k8s_answer a :=
  environment (λ a, match a with Get_Secret _ _ => Some (Ok ca_secret) | _ => None end).
Definition lookup_ca : M (Certificates * option error) :=
  Lookup (NewCertificatesForWorker "/etc/kubernetes/pki") (cl_Key cluster).

Lemma worker_data_without_keys_witness :
  ∃ s kp, reconcileWorkerCloudConfig crit_config filled_worker
      [worker_ca "/etc/kubernetes/pki" pair] =
    Val (Ok (Write (cloud_config crit_config "worker demo " [ca_file "/etc/kubernetes/pki" kp]))) ∧
    secretToKeyPair s = Ok kp.
Proof.
  assert (runs lookup_ca (drive with_ca [] lookup_ca).1
    (Val ([worker_ca "/etc/kubernetes/pki" pair], None))) as Hr.
  { replace (Val ([worker_ca "/etc/kubernetes/pki" pair], None)) with (drive with_ca [] lookup_ca).2
      by (vm_compute; reflexivity). apply drive_runs. }
  destruct (worker_data_without_keys crit_config filled_worker _ _ _ _ "worker demo " Hr eq_refl eq_refl)
    as (s&kp&_&Hs&Hw&_). exists s, kp. split; [exact Hw|exact Hs].
Defined.
End BootstrapWitness.
