(* ===== verification/BootstrapController.v ===== *)
(** controllers/bootstrap: reconciling a CritConfig (controller.go and the
    steps of controlplane.go and worker.go).

    The CritConfig is changed in place and patched by a deferred function when
    the reconciliation succeeds; so the steps run in [SM CritConfig], which
    hands the object back on every exit, a panic included. *)
From S2P Require Import Prelude GoRuntime ApiTypes Platform SamplePlatform ManagementCluster.
From S2P Require Import Secrets CloudInit BootstrapData.
Local Open Scope Z_scope.
Local Open Scope go_scope.

(** The field [remoteClientGetter]. *)
Class CritConfigReconciler {P : Platform} : Type := {
  remoteClientGetter : ObjectKey → M (result error Client);
}.

(** What the controller relies on: the getter only reads and gives a client of
    the workload cluster. *)
Class CritConfigReconcilerLaws {P : Platform} (CR : CritConfigReconciler) : Prop := {
  remoteClientGetter_hoare k h :
    hoare reads_only (remoteClientGetter k) h (λ o _,
      match o with Val (Ok c) => c ≠ Mgmt | Val (Err _) => True | Panic => False end);
}.

(** The default [SetupWithManager] puts in. *)
#[export] Instance default_config_reconciler {P : Platform} : CritConfigReconciler :=
  {| remoteClientGetter := NewClusterClient |}.

Section bootstrap.
Context {R : GoRuntime} {P : Platform} {CR : CritConfigReconciler}.

(** *** controlplane.go *)

Definition config_controller (config : CritConfig) : OwnerReference :=
  NewControllerRef (cc_Meta config) (WithKind bootstrapv1_GroupVersion "CritConfig").

Definition reconcileControlPlaneCertificates (config : CritConfig) (cluster : Cluster)
    (cfg : ControlPlaneConfiguration) : M (result error Certificates) :=
  LookupOrGenerate
    (NewCertificatesForControlPlane (filepath_Join [nc_KubeDir (cpc_NodeConfiguration cfg); "pki"]))
    (cl_Key cluster) (config_controller config) ≫= λ '(certificates, err),
  mret (match err with
        | Some err => Err (errors_Wrap err "unable to lookup or create cluster certificates")
        | None => Ok certificates
        end).

Definition reconcileControlPlane (configOwner : ConfigOwner) (cluster : Cluster)
    (cfg : ControlPlaneConfiguration) : SM CritConfig (Result * option error) :=
  config ← get;
  match reconcileControlPlaneClusterConfiguration config configOwner cluster cfg with
  | Err err => mret (NoResult, Some err)
  | Ok (config, cfg) =>
      _ ← put config;
      try certificates := embed (reconcileControlPlaneCertificates config cluster cfg)
      catch err =>
        mret (NoResult, Some (errors_Wrap err "unable to lookup or create cluster certificates"));;
      try data := embed (lift (reconcileControlPlaneCloudConfig config cfg certificates))
      catch err => mret (NoResult, Some err);;
      check storeBootstrapData cluster data catch err => mret (NoResult, Some err);;
      mret (NoResult, None)
  end.

(** *** worker.go *)

Definition reconcileWorkerCertificates (cluster : Cluster) (cfg : WorkerConfiguration) :
    M (result error Certificates) :=
  Lookup
    (NewCertificatesForWorker (filepath_Join [nc_KubeDir (wc_NodeConfiguration cfg); "pki"]))
    (cl_Key cluster) ≫= λ '(certificates, err),
  mret (match err with
        | Some err => Err (errors_Wrap err "unable to lookup cluster certificates")
        | None =>
            match EnsureAllExist certificates with
            | Some err => Err (errors_Wrap err "missing certificates")
            | None => Ok certificates
            end
        end).

Definition with_token (token : string) (cfg : WorkerConfiguration) : WorkerConfiguration := {|
  wc_ClusterName := wc_ClusterName cfg;
  wc_ControlPlaneEndpoint := wc_ControlPlaneEndpoint cfg;
  wc_BootstrapToken := token;
  wc_NodeConfiguration := wc_NodeConfiguration cfg;
  wc_Rest := wc_Rest cfg |}.

(** A token that is there is respected. *)
Definition ensure_token (cluster : Cluster) (cfg : WorkerConfiguration) :
    M (result error WorkerConfiguration) :=
  if String.eqb (wc_BootstrapToken cfg) "" then
    try remoteClient := remoteClientGetter (cl_Key cluster) catch err => mret (Err err);;
    try token := createToken remoteClient
    catch err => mret (Err (errors_Wrap err "failed to create new bootstrap token"));;
    mret (Ok (with_token token cfg))
  else mret (Ok cfg).

Definition token_requeue : error :=
  errors_Wrap (capierrors_RequeueAfterError (DefaultTokenTTL / 2)) "requeue until token is consumed".

(** The worker configuration is changed in place as well. *)
Definition reconcileWorkerBootstrapToken (configOwner : ConfigOwner) (cluster : Cluster)
    (cfg : WorkerConfiguration) : SM CritConfig (WorkerConfiguration * option error) :=
  config ← get;
  if ccst_Ready (cc_Status config) then
    if negb (String.eqb (wc_BootstrapToken cfg) "") && negb (co_IsInfrastructureReady configOwner)
    then
      try remoteClient := embed (remoteClientGetter (cl_Key cluster))
      catch err => mret (cfg, Some err);;
      check embed (refreshToken remoteClient (wc_BootstrapToken cfg))
      catch err => mret (cfg, Some (errors_Wrap err "failed to refresh bootstrap token"));;
      match set_config config (WorkerObject cfg) with
      | Err err => mret (cfg, Some err)
      | Ok config => _ ← put config; mret (cfg, Some token_requeue)
      end
    else mret (cfg, None)
  else
    try cfg := embed (ensure_token cluster cfg) catch err => mret (cfg, Some err);;
    match set_config config (WorkerObject cfg) with
    | Err err => mret (cfg, Some err)
    | Ok config => _ ← put config; mret (cfg, None)
    end.

(** The two error branches that turn a [RequeueAfterError] into a delay. *)
Definition requeue_or_fail (err : error) : Result * option error :=
  match as_HasRequeueAfterError (errors_Cause err) with
  | Some d => ({| res_Requeue := false; res_RequeueAfter := d |}, None)
  | None => (NoResult, Some err)
  end.

Definition reconcileWorker (configOwner : ConfigOwner) (cluster : Cluster)
    (cfg : WorkerConfiguration) : SM CritConfig (Result * option error) :=
  if negb (cl_ControlPlaneInitialized cluster) then
    mret ({| res_Requeue := false; res_RequeueAfter := 30 * Second |}, None)
  else
    config ← get;
    match reconcileWorkerClusterConfiguration config configOwner cluster cfg with
    | Err err => mret (requeue_or_fail err)
    | Ok (config, cfg) =>
        _ ← put config;
        reconcileWorkerBootstrapToken configOwner cluster cfg ≫= λ '(cfg, err),
        match err with
        | Some err => mret (requeue_or_fail err)
        | None =>
            try certificates := embed (reconcileWorkerCertificates cluster cfg)
            catch err => mret (NoResult, Some (errors_Wrap err "unable to lookup cluster certificates"));;
            config ← get;
            try data := embed (lift (reconcileWorkerCloudConfig config cfg certificates))
            catch err => mret (NoResult, Some err);;
            check storeBootstrapData cluster data catch err => mret (NoResult, Some err);;
            mret (NoResult, None)
        end
    end.

(** *** controller.go *)

Definition gvk_String (gvk : GroupVersionKind) : string :=
  gvk_Group gvk +:+ "/" +:+ gvk_Version gvk +:+ ", Kind=" +:+ gvk_Kind gvk.

Definition invalid_kind (config : CritConfig) (gvk : GroupVersionKind) : error :=
  errors_New ("Config " +:+ strconv.Quote (cc_Name config) +:+
    " contained invalid configuration kind: " +:+ strconv.Quote (gvk_String gvk)).

Definition reconcile_config (configOwner : ConfigOwner) (cluster : Cluster) :
    SM CritConfig (Result * option error) :=
  config ← get;
  match configutil_Unmarshal (ccs_Config (cc_Spec config)) with
  | Err err => mret (NoResult, Some err)
  | Ok (ControlPlaneObject cfg) =>
      if negb (co_IsControlPlaneMachine configOwner) then
        mret (NoResult, Some (errors_New
          "config owner is for a worker Machine, but received a ControlPlaneConfiguration"))
      else reconcileControlPlane configOwner cluster cfg
  | Ok (WorkerObject cfg) =>
      if co_IsControlPlaneMachine configOwner then
        mret (NoResult, Some (errors_New
          "config owner is for a control plane Machine, but received a WorkerConfiguration"))
      else reconcileWorker configOwner cluster cfg
  | Ok (OtherObject gvk) => mret (NoResult, Some (invalid_kind config gvk))
  end.

(** The deferred function: a panic unwinds with a nil error. *)
Definition patch_on_success (original : CritConfig)
    (r : CritConfig * outcome (Result * option error)) : M (Result * option error) :=
  match r with
  | (config, Val (res, Some err)) => mret (res, Some err)
  | (config, Val (res, None)) => err ← call (Patch_CritConfig original config); mret (res, err)
  | (config, Panic) => _ ← call (Patch_CritConfig original config); panic
  end.

(** The machine already has its data, but the status was lost. *)
Definition status_lost (configOwner : ConfigOwner) (config : CritConfig) : bool :=
  match co_DataSecretName configOwner with
  | None => false
  | Some _ =>
      negb (ccst_Ready (cc_Status config)) ||
      match ccst_DataSecretName (cc_Status config) with None => true | Some _ => false end
  end.

Definition Reconcile (req : ObjectKey) : M (Result * option error) :=
  try config := call (Get_CritConfig req)
  catch err =>
    (if apierrors_IsNotFound err then mret (NoResult, None) else mret (NoResult, Some err));;
  try owner := call (GetConfigOwner config)
  catch err =>
    (if apierrors_IsNotFound err then mret (NoResult, None) else mret (NoResult, Some err));;
  match owner with
  | None => mret (NoResult, None)
  | Some configOwner =>
      try cluster := call (GetClusterByName (co_Namespace configOwner) (co_ClusterName configOwner))
      catch err =>
        (if is_ErrNoCluster (errors_Cause err) then mret (NoResult, None)
         else if apierrors_IsNotFound err then mret (NoResult, None)
         else mret (NoResult, Some err));;
      if negb (cl_InfrastructureReady cluster) then mret (NoResult, None)
      else
        check call NewPatchHelper catch err => mret (NoResult, Some err);;
        if status_lost configOwner config then
          err ← call (Patch_CritConfig config
            (cc_with_status (ready_status (co_DataSecretName configOwner) (cc_Status config)) config));
          mret (NoResult, err)
        else pbind (reconcile_config configOwner cluster config) (patch_on_success config)
  end.

(** The key of the CritConfig a machine's bootstrap reference names. *)
Definition config_key (namespace : string) (ref : ObjectReference) : ObjectKey :=
  {| key_Namespace := namespace; key_Name := ref_Name ref |}.

(** [o.Object] as a machine; [None] for an object of another type. *)
Definition MachineToBootstrapMapFunc (m : option Machine) : list ObjectKey :=
  match m with
  | None => []
  | Some m =>
      match ms_ConfigRef (mach_Spec m) with
      | Some ref =>
          if bool_decide (ref_GroupVersionKind ref = WithKind bootstrapv1_GroupVersion "CritConfig")
          then [config_key (mach_Namespace m) ref] else []
      | None => []
      end
  end.

Definition is_CritConfig_kind (ref : ObjectReference) : bool :=
  bool_decide (gvk_GroupKind (ref_GroupVersionKind ref) =
               gvk_GroupKind (WithKind bootstrapv1_GroupVersion "CritConfig")).

(** [o.Object] as a machine pool: its namespace and the bootstrap reference of
    its template. *)
Definition MachinePoolToBootstrapMapFunc (m : option (string * option ObjectReference)) :
    list ObjectKey :=
  match m with
  | Some (namespace, Some configRef) =>
      if is_CritConfig_kind configRef then [config_key namespace configRef] else []
  | _ => []
  end.

Definition machine_request (m : Machine) : list ObjectKey :=
  match ms_ConfigRef (mach_Spec m) with
  | Some ref => if is_CritConfig_kind ref then [config_key (mach_Namespace m) ref] else []
  | None => []
  end.

Definition ClusterToCritConfigs (c : option Cluster) : M (list ObjectKey) :=
  match c with
  | None => mret []
  | Some c =>
      try items := call (List_Machines (cl_Namespace c) {[ClusterLabelName := cl_Name c]})
      catch _err => mret [];;
      mret (items ≫= machine_request)
  end.
End bootstrap.

(** ** What a reconciliation may do *)

Section bootstrap_spec.
Context {R : GoRuntime} {P : Platform} {CR : CritConfigReconciler}.
Implicit Types (config : CritConfig) (cluster : Cluster) (configOwner : ConfigOwner) (h : list event).

(** *** The bootstrap data of a node *)

(** A token whose secret was created in the workload cluster. *)
Definition new_token cluster (token : string) h : Prop :=
  ∃ c x id secret now, performed (remoteClientGetter (cl_Key cluster)) (Ok c) h ∧
    BootstrapTokenRegexp_FindStringSubmatch token = [x; id; secret] ∧
    Ev (Create_Secret c (token_secret id secret now)) None ∈ h.

(** The token of a worker: the user's, or a new one if there is none and the
    worker is not ready. *)
Definition worker_token config cluster (old token : string) h : Prop :=
  (old ≠ "" → token = old) ∧
  (old = "" → ccst_Ready (cc_Status config) = false → new_token cluster token h).

(** What a worker is given: its configuration, with the cluster's settings and
    the token, and the certificate of the cluster CA. *)
Definition worker_data config configOwner cluster cfg (data : string) (files : list File) h : Prop :=
  ∃ config1 cfg1 token ca kp,
    reconcileWorkerClusterConfiguration config configOwner cluster cfg = Ok (config1, cfg1) ∧
    worker_token config cluster (wc_BootstrapToken cfg) token h ∧
    configutil_Marshal (WorkerObject (with_token token cfg1)) = Ok data ∧
    found (cl_Key cluster) h ClusterCA ca ∧ secretToKeyPair ca = Ok kp ∧
    files = [ca_file (filepath_Join [nc_KubeDir (wc_NodeConfiguration cfg1); "pki"]) kp].

(** What a control plane node is given: its configuration, with the cluster's
    settings, and certificates that the cluster's secrets hold. *)
Definition plane_data config configOwner cluster cfg (data : string) (files : list File) h : Prop :=
  ∃ config1 cfg1 certificates,
    reconcileControlPlaneClusterConfiguration config configOwner cluster cfg = Ok (config1, cfg1) ∧
    configutil_Marshal (ControlPlaneObject cfg1) = Ok data ∧
    Forall2 (λ x x', resolved (cl_Key cluster) x x' h ∧
        saved (cl_Key cluster) (config_controller config) x' x' h)
      (NewCertificatesForControlPlane (filepath_Join [nc_KubeDir (cpc_NodeConfiguration cfg1); "pki"]))
      certificates ∧
    AsFiles certificates = Val files.

(** By the kind of the configuration, which is that of the machine. *)
Definition node_data config configOwner cluster (data : string) (files : list File) h : Prop :=
  match configutil_Unmarshal (ccs_Config (cc_Spec config)) with
  | Ok (ControlPlaneObject cfg) =>
      co_IsControlPlaneMachine configOwner = true ∧ plane_data config configOwner cluster cfg data files h
  | Ok (WorkerObject cfg) =>
      co_IsControlPlaneMachine configOwner = false ∧ cl_ControlPlaneInitialized cluster = true ∧
      worker_data config configOwner cluster cfg data files h
  | _ => False
  end.

(** The data secret of a CritConfig: its name, namespace, label and owner are
    those of the object that was read. *)
Definition data_secret config cluster (data : string) (files : list File) : Secret :=
  bootstrap_secret config cluster (Write (cloud_config config data files)).

(** *** Writes *)

(** The object that may be written back: only the stored configuration and the
    status can differ. *)
Definition same_object config config' : Prop :=
  cc_Meta config' = cc_Meta config ∧
  ∃ data, cc_Spec config' = with_config data (cc_Spec config).

(** Its status: as it was, or ready with the name of the data secret, just after
    that secret was created; then the configuration stored is the one the node
    is given. *)
Definition status_follows config configOwner cluster config' h : Prop :=
  cc_Status config' = cc_Status config ∨
  cc_Status config' = ready_status (Some (cc_Name config)) (cc_Status config) ∧
  ∃ files h0, let data := ccs_Config (cc_Spec config') in
    node_data config configOwner cluster data files h0 ∧
    h = h0 ++ [Ev (Create_Secret Mgmt (data_secret config cluster data files)) None].

(** The writes before the patch.  For a control plane machine: a missing
    certificate secret.  For any machine: the data secret, for a worker only
    once the control plane is initialized.  In the workload cluster: a new
    token, for a worker that is not ready; and the secret of a token, for one
    that is ready and waits for its infrastructure. *)
Definition bootstrap_guard config configOwner cluster h (a : k8s_action) : Prop :=
  match a with
  | Create_Secret Mgmt s =>
      (∃ data files, node_data config configOwner cluster data files h ∧
         s = data_secret config cluster data files) ∨
      (co_IsControlPlaneMachine configOwner = true ∧
       creation_guard (cl_Key cluster) (config_controller config) h a)
  | Create_Secret (Remote _) s =>
      co_IsControlPlaneMachine configOwner = false ∧ cl_ControlPlaneInitialized cluster = true ∧
      ccst_Ready (cc_Status config) = false ∧
      ∃ id secret now, s = token_secret id secret now
  | Update_Secret c s =>
      c ≠ Mgmt ∧
      co_IsControlPlaneMachine configOwner = false ∧ cl_ControlPlaneInitialized cluster = true ∧
      ccst_Ready (cc_Status config) = true ∧ co_IsInfrastructureReady configOwner = false ∧
      ∃ id s0 data now, Ev (Get_Secret c (token_key id)) (Ok s0) ∈ h ∧ sec_Data s0 = Some data ∧
        s = with_expiration now data s0
  | _ => is_write a = false
  end.

(** What a step leaves behind. *)
Definition step_result {A} config configOwner cluster
    (r : CritConfig * outcome A) h : Prop :=
  r.2 ≠ Panic ∧ same_object config r.1 ∧ status_follows config configOwner cluster r.1 h.
End bootstrap_spec.

(** ** Lemmas *)

Section bootstrap_lemmas.
Context {R : GoRuntime} {P : Platform} {CR : CritConfigReconciler}.
Implicit Types (config : CritConfig) (cluster : Cluster) (configOwner : ConfigOwner).

Lemma with_config_same (s : CritConfigSpec) : with_config (ccs_Config s) s = s.
Proof. by destruct s. Qed.

Lemma with_token_same cfg : with_token (wc_BootstrapToken cfg) cfg = cfg.
Proof. by destruct cfg. Qed.

Lemma same_object_refl config : same_object config config.
Proof. split; [done|]. exists (ccs_Config (cc_Spec config)). by rewrite with_config_same. Qed.

Lemma same_object_trans c1 c2 c3 : same_object c1 c2 → same_object c2 c3 → same_object c1 c3.
Proof.
  intros [H1 [d1 Hs1]] [H2 [d2 Hs2]]. split; [congruence|]. exists d2. by rewrite Hs2, Hs1.
Qed.

Lemma same_object_status s config : same_object config (cc_with_status s config).
Proof. split; [done|]. exists (ccs_Config (cc_Spec config)). by rewrite with_config_same. Qed.

Lemma stored_same config config' obj :
  stored config config' obj → same_object config config' ∧ cc_Status config' = cc_Status config.
Proof. intros [_ Heq]. rewrite Heq. split; [|done]. split; [done|by eexists]. Qed.

Lemma same_data_secret config config' cluster data files :
  same_object config config' →
  bootstrap_secret config' cluster (Write (cloud_config config' data files)) =
  data_secret config cluster data files.
Proof.
  intros [Hm [d Hs]]. unfold data_secret, bootstrap_secret, cloud_config, cc_Name, cc_Namespace.
  by rewrite Hm, Hs.
Qed.

Lemma same_config_controller config config' :
  same_object config config' → config_controller config' = config_controller config.
Proof. intros [Hm _]. unfold config_controller. by rewrite Hm. Qed.

Lemma worker_token_mono config cluster old token h h' :
  worker_token config cluster old token h → h `prefix_of` h' → worker_token config cluster old token h'.
Proof.
  intros [H1 H2] Hpre. split; [done|]. intros Ho Hr.
  destruct (H2 Ho Hr) as (c&x&id&secret&now&Hp&Htok&Hin). destruct Hpre as [l ->].
  exists c, x, id, secret, now. rewrite elem_of_app. auto using performed_app.
Qed.

Lemma reads_bootstrap config configOwner cluster h a :
  reads_only h a → bootstrap_guard config configOwner cluster h a.
Proof. by destruct a. Qed.

Lemma NewClusterClient_hoare k h :
  hoare reads_only (NewClusterClient k) h (λ o _,
    match o with Val (Ok c) => c ≠ Mgmt | Val (Err _) => True | Panic => False end).
Proof.
  unfold NewClusterClient, RESTConfig. simpl. split; [done|].
  intros [?|?]; simpl; [|done]. destruct (RESTConfigFromKubeConfig _); simpl; [|done].
  split; [done|]. by intros [?|].
Qed.

#[export] Instance default_config_reconciler_laws :
  CritConfigReconcilerLaws default_config_reconciler.
Proof. split. apply NewClusterClient_hoare. Qed.

Lemma store_hoare config configOwner cluster config' files h (data := ccs_Config (cc_Spec config')) :
  same_object config config' → cc_Status config' = cc_Status config →
  node_data config configOwner cluster data files h →
  hoare (bootstrap_guard config configOwner cluster)
    (storeBootstrapData cluster (Write (cloud_config config' data files)) config') h
    (step_result config configOwner cluster).
Proof.
  intros Hsame Hst Hdata. unfold storeBootstrapData.
  apply hoare_SM_bind. cbn [get hoare snd fst]. cbv zeta.
  rewrite (same_data_secret config config' cluster data files) by done.
  apply hoare_SM_bind, hoare_embed. cbn [call hoare].
  split; [left; by exists data, files|]. intros [e|]; cbn [snd fst].
  - destruct (apierrors_IsAlreadyExists e); (split; [done|split; [done|by left]]).
  - split; [done|]. split; [eapply same_object_trans; [done|apply same_object_status]|].
    right. simpl. unfold cc_Name. rewrite Hst. split; [done|].
    by exists files, h.
Qed.

Lemma step_return {A} (x : A) config configOwner cluster config' h :
  same_object config config' → cc_Status config' = cc_Status config →
  step_result config configOwner cluster (config', Val x) h.
Proof. intros Hs Hst. split; [done|split; [done|by left]]. Qed.

Lemma control_plane_stored config owner cluster cfg config' cfg' :
  reconcileControlPlaneClusterConfiguration config owner cluster cfg = Ok (config', cfg') →
  stored config config' (ControlPlaneObject cfg').
Proof.
  unfold reconcileControlPlaneClusterConfiguration. destruct (FromUnstructured_Machine _); [|done].
  destruct (set_config _ _) eqn:Hs; [|done]. intros [= <- <-]. by apply set_config_stored.
Qed.

Lemma worker_stored config owner cluster cfg config' cfg' :
  reconcileWorkerClusterConfiguration config owner cluster cfg = Ok (config', cfg') →
  stored config config' (WorkerObject cfg') ∧ wc_BootstrapToken cfg' = wc_BootstrapToken cfg.
Proof.
  unfold reconcileWorkerClusterConfiguration. destruct (_ && _); [done|].
  destruct (owner_version _); [|done].
  destruct (set_config _ _) eqn:Hs; [|done]. intros [= <- <-].
  split; [by apply set_config_stored|done].
Qed.

(** The certificates of a control plane node: they can be turned into files. *)
Lemma certificates_hoare config configOwner cluster config' cfg h
    (dir := filepath_Join [nc_KubeDir (cpc_NodeConfiguration cfg); "pki"]) :
  same_object config config' → co_IsControlPlaneMachine configOwner = true →
  hoare (bootstrap_guard config configOwner cluster)
    (reconcileControlPlaneCertificates config' cluster cfg) h (λ o h',
      match o with
      | Val (Ok certificates) =>
          Forall2 (λ x x', resolved (cl_Key cluster) x x' h' ∧
              saved (cl_Key cluster) (config_controller config) x' x' h')
            (NewCertificatesForControlPlane dir) certificates ∧
          ∃ files, AsFiles certificates = Val files
      | Val (Err _) => True
      | Panic => False
      end).
Proof.
  intros Hsame Hcp. unfold reconcileControlPlaneCertificates. apply hoare_bind.
  rewrite (same_config_controller _ _ Hsame).
  eapply hoare_mono; [| |apply LookupOrGenerate_hoare, NewCertificatesForControlPlane_fresh].
  - intros h' a Ha. destruct a; simpl in *; try done. destruct c; [|by destruct Ha].
    right. split; [done|]. exact Ha.
  - intros o h' (c&err&->&Hc). destruct err; [done|]. simpl. split; [by apply Hc|]. eexists.
    by eapply complete_AsFiles, resolved_complete, Hc.
Qed.

Lemma control_plane_hoare config configOwner cluster cfg h :
  co_IsControlPlaneMachine configOwner = true →
  configutil_Unmarshal (ccs_Config (cc_Spec config)) = Ok (ControlPlaneObject cfg) →
  hoare (bootstrap_guard config configOwner cluster)
    (reconcileControlPlane configOwner cluster cfg config) h (step_result config configOwner cluster).
Proof.
  intros Hcp Hobj. unfold reconcileControlPlane. apply hoare_SM_bind. cbn [get hoare snd fst].
  destruct (reconcileControlPlaneClusterConfiguration _ _ _ _) as [[config' cfg']|e] eqn:Hcfg.
  2: by apply step_return; [apply same_object_refl|].
  pose proof (control_plane_stored _ _ _ _ _ _ Hcfg) as Hstored.
  destruct (stored_same _ _ _ Hstored) as [Hsame Hst].
  apply hoare_SM_bind. cbn [put hoare snd fst]. apply hoare_SM_bind, hoare_embed.
  eapply hoare_mono; [done| |by apply certificates_hoare].
  intros [[certificates|e]|] h' Hf; [| |done]; cbn [snd fst]; [|by apply step_return].
  destruct Hf as [Hcs [files Hf]]. apply hoare_SM_bind, hoare_embed. cbn [lift hoare snd fst].
  unfold reconcileControlPlaneCloudConfig. rewrite (proj1 Hstored), Hf. cbn [mbind outcome_bind].
  apply hoare_SM_bind. eapply hoare_mono; [done| |apply store_hoare; [exact Hsame|exact Hst|]].
  - intros [config'' [[e|]|]] h'' [Hp [Hsame' Hst']]; cbn [snd fst]; [by split..|done].
  - unfold node_data. rewrite Hobj. split; [done|]. exists config', cfg', certificates.
    split_and!; [done|by destruct Hstored|done|done].
Qed.

(** ** Workers *)

Lemma worker_lookup_hoare dir key h :
  hoare reads_only (Lookup (NewCertificatesForWorker dir) key) h (λ o h',
    ∃ c err, o = Val (c, err) ∧
      (err = None → EnsureAllExist c = None → ∃ s kp, found key h' ClusterCA s ∧
         secretToKeyPair s = Ok kp ∧ kp_Cert kp ≠ "" ∧ c = [worker_ca dir kp])).
Proof.
  unfold Lookup, NewCertificatesForWorker. cbn [for_certificates].
  unfold lookup_certificate. simpl. split; [done|]. intros [s|e].
  - destruct (secretToKeyPair s) as [kp|e] eqn:Hs; simpl; [|by eexists _, (Some _)].
    eexists _, None. split; [done|]. intros _ Hall. exists s, kp. split_and!; [|done| |done].
    + apply elem_of_app. right. left.
    + intros Hkp. cbn in Hall. by rewrite Hkp in Hall.
  - destruct (apierrors_IsNotFound e); simpl; [|by eexists _, (Some _)].
    by eexists _, None.
Qed.

Lemma worker_certificates_hoare cluster cfg h :
  hoare reads_only (reconcileWorkerCertificates cluster cfg) h (λ o h',
    match o with
    | Val (Ok c) => ∃ s kp, found (cl_Key cluster) h' ClusterCA s ∧ secretToKeyPair s = Ok kp ∧
        kp_Cert kp ≠ "" ∧ c = [worker_ca (filepath_Join [nc_KubeDir (wc_NodeConfiguration cfg); "pki"]) kp]
    | Val (Err _) => True
    | Panic => False
    end).
Proof.
  unfold reconcileWorkerCertificates. apply hoare_bind.
  eapply hoare_mono; [done| |apply worker_lookup_hoare].
  intros o h' (c&err&->&Hc). destruct err; [done|]. cbn.
  destruct (EnsureAllExist c) eqn:Hall; [done|]. cbn. by apply Hc.
Qed.
End bootstrap_lemmas.

Section worker_lemmas.
Context {R : GoRuntime} {P : Platform} {CR : CritConfigReconciler} {CRL : CritConfigReconcilerLaws CR}.
Implicit Types (config : CritConfig) (cluster : Cluster) (configOwner : ConfigOwner).

(** A worker whose cluster has a control plane. *)
Definition joining configOwner cluster : Prop :=
  co_IsControlPlaneMachine configOwner = false ∧ cl_ControlPlaneInitialized cluster = true.

(** The configuration with its token. *)
Definition tokened config cluster cfg cfg' (h : list event) : Prop :=
  ∃ token, cfg' = with_token token cfg ∧ worker_token config cluster (wc_BootstrapToken cfg) token h.

Lemma tokened_same config cluster cfg h :
  (wc_BootstrapToken cfg = "" → ccst_Ready (cc_Status config) = true) → tokened config cluster cfg cfg h.
Proof.
  intros Hempty. exists (wc_BootstrapToken cfg). rewrite with_token_same. split; [done|]. split; [done|].
  intros Ho. by rewrite (Hempty Ho).
Qed.

Lemma ensure_token_hoare config configOwner cluster cfg h :
  joining configOwner cluster → ccst_Ready (cc_Status config) = false →
  hoare (bootstrap_guard config configOwner cluster) (ensure_token cluster cfg) h
    (λ o h', match o with
      | Val (Ok cfg') => tokened config cluster cfg cfg' h'
      | Val (Err _) => True
      | Panic => False
      end).
Proof.
  intros [Hw Hinit] Hready. unfold ensure_token. destruct (String.eqb_spec (wc_BootstrapToken cfg) "") as [Hold|Hold].
  2: by apply tokened_same.
  apply hoare_bind. eapply hoare_mono; [apply reads_bootstrap| |apply hoare_performed, remoteClientGetter_hoare].
  intros [[c|e]|] h' (_&Hc&Hp); [|done|done]. apply hoare_bind.
  unfold createToken. apply hoare_call; split; [done|]. intros [token|e]; [|done].
  destruct (BootstrapTokenRegexp_FindStringSubmatch token) as [|x [|id [|secret [|]]]] eqn:Htok; try done.
  apply hoare_call; split; [done|]. intros now. apply hoare_call; split.
  - destruct c; [done|]. simpl. split_and!; eauto.
  - intros [e|]; [done|]. cbn [hoare mret]. exists token. split; [done|]. split; [done|]. intros _ _.
    exists c, x, id, secret, now. split_and!; [by do 3 apply performed_app|done|].
    apply elem_of_app. right. left.
Qed.

Lemma refresh_hoare config configOwner cluster c token h :
  joining configOwner cluster → ccst_Ready (cc_Status config) = true →
  co_IsInfrastructureReady configOwner = false → c ≠ Mgmt →
  hoare (bootstrap_guard config configOwner cluster) (refreshToken c token) h (λ o _, o ≠ Panic).
Proof.
  intros [Hw Hinit] Hready Hinfra Hc. unfold refreshToken.
  destruct (BootstrapTokenRegexp_FindStringSubmatch token) as [|x [|id [|y [|]]]]; try done.
  apply hoare_call; split; [done|]. intros [s0|e]; [|done].
  destruct (sec_Data s0) as [data|] eqn:Hd; [|done]. apply hoare_call; split; [done|].
  intros now. simpl. split; [|done]. split_and!; [done..|].
  exists id, s0, data, now. split; [|done]. apply elem_of_app. left. apply elem_of_app. right. left.
Qed.

(** After the token step, without an error the configuration has its token and
    is the one that is stored. *)
Definition token_result config cluster cfg
    (r : CritConfig * outcome (WorkerConfiguration * option error)) (h : list event) : Prop :=
  same_object config r.1 ∧ cc_Status r.1 = cc_Status config ∧
  match r.2 with
  | Val (cfg', None) => tokened config cluster cfg cfg' h ∧
      configutil_Marshal (WorkerObject cfg') = Ok (ccs_Config (cc_Spec r.1))
  | Val (_, Some _) => True
  | Panic => False
  end.

Lemma token_hoare config configOwner cluster cfg config' h :
  joining configOwner cluster → stored config config' (WorkerObject cfg) →
  hoare (bootstrap_guard config configOwner cluster)
    (reconcileWorkerBootstrapToken configOwner cluster cfg config') h (token_result config cluster cfg).
Proof.
  intros Hj Hstored. destruct (stored_same _ _ _ Hstored) as [Hsame Hst].
  unfold reconcileWorkerBootstrapToken. apply hoare_SM_bind. cbn [get hoare snd fst].
  assert (Hset : ∀ obj c, set_config config' obj = Ok c → same_object config c ∧
    cc_Status c = cc_Status config ∧ configutil_Marshal obj = Ok (ccs_Config (cc_Spec c))).
  { intros obj c Hc%set_config_stored. destruct (stored_same _ _ _ Hc) as [? ?].
    split; [by eapply same_object_trans|]. split; [congruence|by destruct Hc]. }
  destruct (ccst_Ready (cc_Status config')) eqn:Hready; rewrite Hst in Hready.
  - destruct (negb _ && negb _) eqn:Hcond.
    2:{ split; [done|]. split; [done|]. split; [by apply tokened_same|by destruct Hstored]. }
    apply andb_prop in Hcond as [_ Hinfra%negb_true_iff].
    apply hoare_SM_bind, hoare_embed.
    eapply hoare_mono; [apply reads_bootstrap| |apply remoteClientGetter_hoare].
    intros [[c|e]|] h' Hc; [|done|done]. cbn [snd fst]. apply hoare_SM_bind, hoare_embed.
    eapply hoare_mono; [done| |by apply refresh_hoare].
    intros [[e|]|] h'' Hp; [done| |done]. cbn [snd fst].
    destruct (set_config config' _) as [c'|] eqn:Hc'; [|done].
    destruct (Hset _ _ Hc') as (?&?&_). done.
  - apply hoare_SM_bind, hoare_embed. eapply hoare_mono; [done| |by apply ensure_token_hoare].
    intros [[cfg'|e]|] h' Hp; [|done|done]. cbn [snd fst].
    destruct (set_config config' _) as [c'|] eqn:Hc'; [|done].
    destruct (Hset _ _ Hc') as (?&?&?). done.
Qed.

Lemma worker_hoare config configOwner cluster cfg h :
  co_IsControlPlaneMachine configOwner = false →
  configutil_Unmarshal (ccs_Config (cc_Spec config)) = Ok (WorkerObject cfg) →
  hoare (bootstrap_guard config configOwner cluster)
    (reconcileWorker configOwner cluster cfg config) h (step_result config configOwner cluster).
Proof.
  intros Hw Hobj. unfold reconcileWorker. destruct (cl_ControlPlaneInitialized cluster) eqn:Hinit; simpl negb; cbv iota.
  2: by apply step_return; [apply same_object_refl|].
  apply hoare_SM_bind. cbn [get hoare snd fst].
  destruct (reconcileWorkerClusterConfiguration _ _ _ _) as [[config1 cfg1]|e] eqn:Hcfg.
  2: by apply step_return; [apply same_object_refl|].
  destruct (worker_stored _ _ _ _ _ _ Hcfg) as [Hstored Htoken1].
  apply hoare_SM_bind. cbn [put hoare snd fst]. apply hoare_SM_bind.
  eapply hoare_mono; [done| |by apply token_hoare].
  intros [config2 [[cfg2 [e|]]|]] h2 (Hsame2&Hst2&Htok); [by apply step_return| |done].
  cbn [snd fst] in *. destruct Htok as [(token&->&Htok) Hmarshal]. apply hoare_SM_bind, hoare_embed.
  eapply hoare_mono; [apply reads_bootstrap| |apply hoare_prefix, worker_certificates_hoare].
  intros [[c|e]|] h3 [Hpre Hc]; [|by apply step_return|done]. destruct Hc as (ca&kp&Hca&Hkp&Hne&->).
  cbn [snd fst]. apply hoare_SM_bind. cbn [get hoare snd fst].
  apply hoare_SM_bind, hoare_embed. cbn [lift hoare snd fst].
  unfold reconcileWorkerCloudConfig. rewrite Hmarshal. cbn [GetByPurpose].
  change (String.eqb (cert_Purpose (worker_ca ?d kp)) ClusterCA) with true.
  cbv iota. destruct (worker_files (filepath_Join [nc_KubeDir (wc_NodeConfiguration cfg1); "pki"]) kp Hne)
    as (certs&Hcerts&Hcrt).
  change (wc_NodeConfiguration (with_token token cfg1)) with (wc_NodeConfiguration cfg1).
  rewrite Hcerts. cbn [mbind outcome_bind]. rewrite Hcrt.
  apply hoare_SM_bind. eapply hoare_mono; [done| |apply store_hoare; [exact Hsame2|exact Hst2|]].
  - intros [config3 [[e|]|]] h4 [Hp' [Hsame' Hst']]; cbn [snd fst]; [by split..|done].
  - unfold node_data. rewrite Hobj. split_and!; [done..|]. exists config1, cfg1, token, ca, kp.
    split_and!; try done. rewrite <-Htoken1. by eapply worker_token_mono.
Qed.

Lemma reconcile_config_hoare config configOwner cluster h :
  hoare (bootstrap_guard config configOwner cluster) (reconcile_config configOwner cluster config) h
    (step_result config configOwner cluster).
Proof.
  unfold reconcile_config. apply hoare_SM_bind. cbn [get hoare snd fst].
  assert (Hret : ∀ x : Result * option error, step_result config configOwner cluster (config, Val x) h)
    by (intros; by apply step_return; [apply same_object_refl|]).
  destruct (configutil_Unmarshal _) as [[cfg|cfg|gvk]|e] eqn:Hobj; [| |apply Hret|apply Hret];
    destruct (co_IsControlPlaneMachine configOwner) eqn:Hcp; simpl negb; cbv iota; try apply Hret.
  - by apply control_plane_hoare.
  - by apply worker_hoare.
Qed.
End worker_lemmas.

(** ** Properties *)

Section bootstrap_properties.
Context {R : GoRuntime} {P : Platform} {CR : CritConfigReconciler} {CRL : CritConfigReconcilerLaws CR}.
Implicit Types (config : CritConfig) (cluster : Cluster) (configOwner : ConfigOwner).

(** The reads every reconciliation starts with: the object, its owner and the
    owner's cluster, whose infrastructure is ready. *)
Definition admitted (req : ObjectKey) config configOwner cluster (h : list event) : Prop :=
  h = [Ev (Get_CritConfig req) (Ok config); Ev (GetConfigOwner config) (Ok (Some configOwner));
       Ev (GetClusterByName (co_Namespace configOwner) (co_ClusterName configOwner)) (Ok cluster);
       Ev NewPatchHelper None] ∧
  cl_InfrastructureReady cluster = true.

(** What the object may be patched with: its metadata as it was, and a status
    that is as it was, or ready with the name of the machine's data secret
    when the status was lost, or ready with the name of the data secret just
    created. *)
Definition publishable config configOwner cluster (after : CritConfig) (h : list event) : Prop :=
  same_object config after ∧
  (status_follows config configOwner cluster after h ∨
   status_lost configOwner config = true ∧
   cc_Status after = ready_status (co_DataSecretName configOwner) (cc_Status config)).

Definition Reconcile_guard (req : ObjectKey) (h : list event) (a : k8s_action) : Prop :=
  is_write a = true → ∃ config configOwner cluster h0,
    admitted req config configOwner cluster h0 ∧ h0 `prefix_of` h ∧
    ((∃ after, a = Patch_CritConfig config after ∧
       publishable config configOwner cluster after h) ∨
     (status_lost configOwner config = false ∧ bootstrap_guard config configOwner cluster h a)).

(** The object was not patched. *)
Definition unpatched (h : list event) : Prop :=
  ∀ before after r, Ev (Patch_CritConfig before after) r ∉ h.

(** An object that becomes ready names a data secret: the one its owner, as it
    was read, already has, or the one that the last request created. *)
Definition ready_with_data config configOwner cluster (after : CritConfig) (h : list event) : Prop :=
  ccst_Ready (cc_Status config) = false → ccst_Ready (cc_Status after) = true →
  (∃ name, co_DataSecretName configOwner = Some name ∧
     ccst_DataSecretName (cc_Status after) = Some name) ∨
  (ccst_DataSecretName (cc_Status after) = Some (cc_Name config) ∧
   ∃ data files h0, h = h0 ++ [Ev (Create_Secret Mgmt (data_secret config cluster data files)) None]).

(** How a reconciliation ends: nothing was to be done and nothing was written;
    or it failed and the object was not patched; or the object that was read
    was patched once, last, as its owner and cluster that were read allow, and
    the error reported is that of the patch. *)
Definition Reconcile_end (req : ObjectKey) (o : outcome (Result * option error)) (h : list event) : Prop :=
  ∃ res err, o = Val (res, err) ∧
    ((err = None ∧ writeless h) ∨ (is_Some err ∧ unpatched h) ∨
     ∃ h0 h1 config configOwner cluster after,
       admitted req config configOwner cluster h0 ∧ h0 `prefix_of` h1 ∧
       h = h1 ++ [Ev (Patch_CritConfig config after) err] ∧ unpatched h1 ∧
       publishable config configOwner cluster after h1 ∧
       ready_with_data config configOwner cluster after h1).

Lemma publishable_ready config configOwner cluster after h :
  publishable config configOwner cluster after h → ready_with_data config configOwner cluster after h.
Proof.
  intros [_ [[Hst|[Hst (files&h0&_&->)]]|[Hlost Hst]]] Hno Hyes; rewrite Hst in *.
  - by rewrite Hno in Hyes.
  - right. split; [done|]. by eexists _, files, h0.
  - left. unfold status_lost in Hlost. destruct (co_DataSecretName configOwner) as [name|]; [|done].
    by exists name.
Qed.

Lemma patched_end req config configOwner cluster h0 h after res err :
  admitted req config configOwner cluster h0 → h0 `prefix_of` h → unpatched h →
  publishable config configOwner cluster after h →
  Reconcile_end req (Val (res, err)) (h ++ [Ev (Patch_CritConfig config after) err]).
Proof.
  intros Hadm Hpre Hun Hpub. exists res, err. split; [done|]. right. right.
  exists h0, h, config, configOwner, cluster, after. split_and!; try done. by apply publishable_ready.
Qed.

Lemma writeless_unpatched h : writeless h → unpatched h.
Proof. intros Hw before after r Hin. by apply Hw in Hin. Qed.

Lemma guard_unpatched config configOwner cluster h a :
  bootstrap_guard config configOwner cluster h a →
  match a with Patch_CritConfig _ _ => False | _ => True end.
Proof. by destruct a. Qed.

(** The deferred patch, from the object and history the body leaves. *)
Lemma patch_on_success_hoare req config configOwner cluster h0 h r :
  admitted req config configOwner cluster h0 → h0 `prefix_of` h → unpatched h →
  step_result config configOwner cluster r h →
  hoare (Reconcile_guard req) (patch_on_success config r) h (Reconcile_end req).
Proof.
  intros Hadm Hpre Hun (Hp&Hsame&Hst). destruct r as [after [[res [err|]]|]]; [| |done].
  - simpl. exists res, (Some err). split; [done|]. right. left. split; [by eexists|done].
  - assert (publishable config configOwner cluster after h) as Hpub by (split; [done|by left]).
    simpl. split.
    + intros _. exists config, configOwner, cluster, h0. split; [done|]. split; [done|].
      left. by exists after.
    + intros err. by eapply patched_end.
Qed.

Lemma Reconcile_body_hoare req config configOwner cluster h0 :
  admitted req config configOwner cluster h0 → status_lost configOwner config = false →
  hoare (Reconcile_guard req)
    (pbind (reconcile_config configOwner cluster config) (patch_on_success config)) h0 (Reconcile_end req).
Proof.
  intros Hadm Hlost. apply hoare_pbind.
  pose proof (reconcile_config_hoare config configOwner cluster h0) as H.
  apply hoare_prefix_guard, (hoare_only (λ a, match a with Patch_CritConfig _ _ => False | _ => True end))
    in H; [|intros ?? [_ Ha]; by eapply guard_unpatched].
  eapply hoare_mono; [| |exact H].
  - intros h' a [Hpre Ha] _. exists config, configOwner, cluster, h0. split; [done|]. split; [done|].
    right. done.
  - intros r h' [Hr (l&->&Hl)]. eapply patch_on_success_hoare; [done|by apply prefix_app_r| |done].
    intros before after e [Hin|Hin]%elem_of_app; [|by apply Hl in Hin].
    revert Hin. apply writeless_unpatched. destruct Hadm as [-> _]. auto 10 with go.
Qed.

Lemma config_Reconcile_hoare req :
  hoare (Reconcile_guard req) (Reconcile req) [] (Reconcile_end req).
Proof.
  assert (Hend : ∀ res err h, writeless h → Reconcile_end req (Val (res, err)) h).
  { intros res err h Hw. exists res, err. split; [done|].
    destruct err; [right; left; split; [done|by apply writeless_unpatched]|by left]. }
  unfold Reconcile. apply hoare_call; split; [done|]. intros [config|e].
  2: destruct (apierrors_IsNotFound e); apply Hend; cbn [app]; auto 10 with go.
  apply hoare_call; split; [done|]. intros [[configOwner|]|e].
  2-3: try destruct (apierrors_IsNotFound _); apply Hend; cbn [app]; auto 10 with go.
  apply hoare_call; split; [done|]. intros [cluster|e].
  2: repeat case_match; apply Hend; cbn [app]; auto 10 with go.
  destruct (cl_InfrastructureReady cluster) eqn:Hinfra; simpl negb; cbv iota.
  2: apply Hend; cbn [app]; auto 10 with go.
  apply hoare_call; split; [done|]. intros [e|]; [apply Hend; cbn [app]; auto 10 with go|].
  cbn [app]. match goal with |- hoare _ _ ?h _ =>
    assert (admitted req config configOwner cluster h) as Hadm by done end.
  destruct (status_lost configOwner config) eqn:Hlost; [|by eapply Reconcile_body_hoare].
  match goal with |- hoare _ _ ?h _ => set (h0 := h) in * end.
  assert (publishable config configOwner cluster
    (cc_with_status (ready_status (co_DataSecretName configOwner) (cc_Status config)) config) h0)
    as Hpub by (split; [apply same_object_status|right; done]).
  apply hoare_call; split.
  - intros _. exists config, configOwner, cluster, h0. split; [done|]. split; [done|].
    left. by eexists.
  - intros err. eapply patched_end; [exact Hadm|done| |exact Hpub].
    apply writeless_unpatched. destruct Hadm as [-> _]. auto 10 with go.
Qed.

(** C6: reconciling a CritConfig writes nothing unless the object, its owner
    and the owner's cluster could be read and the cluster's infrastructure is
    ready.  Up to any point, every write is the patch of the object, with its
    metadata unchanged and a status that follows what was done, or, unless the
    status was only to be restored: a missing certificate of a control plane
    machine, the data secret (for workers only once the control plane is
    initialized), and in the workload cluster a new bootstrap token for a
    worker that is not ready or a longer life for that of a worker that waits
    for its infrastructure. *)
Theorem config_Reconcile_safe req tr1 a r tr2 :
  reaches (Reconcile req) (tr1 ++ Ev a r :: tr2) → Reconcile_guard req tr1 a.
Proof. intros Hr. exact (hoare_reaches _ _ _ _ _ _ _ _ (config_Reconcile_hoare req) Hr). Qed.

(** C7: reconciling a CritConfig never panics.  It ends without a write and
    without an error when there is nothing to do yet, with an error and the
    object not patched, or with exactly one patch as its last request, whose
    error it reports.  The patch is of the object that was read, after its owner
    and cluster were; its status becomes ready only with the name of the data
    secret that the request just before created, or that the owner, as it was
    read, already has. *)
Theorem config_Reconcile_publishes req tr o :
  runs (Reconcile req) tr o → Reconcile_end req o tr.
Proof. intros Hr. exact (hoare_runs _ _ _ _ _ _ (config_Reconcile_hoare req) Hr). Qed.
End bootstrap_properties.

(** ** The data of a node *)

Section node_data_properties.
Context {R : GoRuntime} {P : Platform} {CR : CritConfigReconciler} {CRL : CritConfigReconcilerLaws CR}.

Lemma data_secret_no_pair config cluster data files kp :
  secretToKeyPair (data_secret config cluster data files) ≠ Ok kp.
Proof.
  unfold secretToKeyPair, secret_data. cbn [data_secret bootstrap_secret sec_Data default from_option id].
  by rewrite lookup_singleton_ne.
Qed.

(** The request for a data secret, told from one for a certificate's. *)
Lemma data_secret_requested req tr1 s r tr2 :
  reaches (Reconcile req) (tr1 ++ Ev (Create_Secret Mgmt s) r :: tr2) →
  (∀ kp, secretToKeyPair s ≠ Ok kp) →
  ∃ config configOwner cluster h0 data files, admitted req config configOwner cluster h0 ∧
    h0 `prefix_of` tr1 ∧ node_data config configOwner cluster data files tr1 ∧
    s = data_secret config cluster data files.
Proof.
  intros Hr Hnp.
  destruct (hoare_reaches _ _ _ _ _ _ _ _ (config_Reconcile_hoare req) Hr eq_refl)
    as (config&owner&cluster&h0&Hadm&Hpre&[(after&[=]&_)|[_ [(data&files&Hdata&->)|(_&_&_&_&[kp Hkp]&_)]]]).
  - by exists config, owner, cluster, h0, data, files.
  - by destruct (Hnp kp).
Qed.

(** C8: whatever the API servers answer, when the data secret of a machine is
    requested, told from a certificate's by holding no key pair, what the machine
    needs is in place: for a worker that was not ready, its bootstrap token has been
    created in the workload cluster, unless the user gave one; a worker's only
    other file is the certificate of the cluster CA as the cluster's secret holds
    it, never a key;
    for a control plane node, each certificate is one the cluster's secrets hold,
    read or created before.  The data has the final configuration as a file that
    decodes to it, if what is inserted unquoted has no line break; and the object
    becomes ready, unless its status was only lost, just after the secret was
    created, storing that same configuration. *)
Theorem node_data_complete req tr1 a r tr2 :
  reaches (Reconcile req) (tr1 ++ Ev a r :: tr2) → is_write a = true →
  ∃ config configOwner cluster h0, admitted req config configOwner cluster h0 ∧ h0 `prefix_of` tr1 ∧
    match a with
    | Create_Secret Mgmt s => (∀ kp, secretToKeyPair s ≠ Ok kp) →
        ∃ data files, node_data config configOwner cluster data files tr1 ∧
          s = data_secret config cluster data files ∧
          (Forall one_line (scalars (cloud_config config data files)) →
           ∃ text, secret_data s !! "value" = Some text ∧ carries text data)
    | Patch_CritConfig _ after =>
        cc_Status after ≠ cc_Status config → status_lost configOwner config = false →
        ∃ files tr0, let data := ccs_Config (cc_Spec after) in
          node_data config configOwner cluster data files tr0 ∧
          tr1 = tr0 ++ [Ev (Create_Secret Mgmt (data_secret config cluster data files)) None]
    | _ => True
    end.
Proof.
  intros Hr Hw.
  destruct (hoare_reaches _ _ _ _ _ _ _ _ (config_Reconcile_hoare req) Hr Hw)
    as (config&owner&cluster&h0&Hadm&Hpre&Hg).
  exists config, owner, cluster, h0. split; [done|]. split; [done|].
  destruct Hg as [(after&->&_&[[?|(_&Hdata)]|[Hlost _]])|[_ Hg]].
  - done.
  - intros _ _. exact Hdata.
  - intros _. by rewrite Hlost.
  - destruct a; try done. destruct c; [|done]. intros Hnp.
    destruct Hg as [(data&files&Hdata&->)|(_&_&_&_&[kp Hkp]&_)]; [|by destruct (Hnp kp)].
    exists data, files. split; [done|]. split; [done|]. intros Hlines. eexists.
    split; [apply lookup_singleton_eq|by apply config_readable].
Qed.
End node_data_properties.

(** ** The map functions *)

Section requests.
Context {R : GoRuntime} {P : Platform}.

Lemma machine_request_spec m k :
  k ∈ machine_request m ↔
  ∃ ref, ms_ConfigRef (mach_Spec m) = Some ref ∧ is_CritConfig_kind ref = true ∧
    k = config_key (mach_Namespace m) ref.
Proof.
  unfold machine_request. destruct (ms_ConfigRef (mach_Spec m)) as [ref|].
  - destruct (is_CritConfig_kind ref) eqn:Hk.
    + rewrite list_elem_of_singleton. naive_solver.
    + rewrite elem_of_nil. naive_solver congruence.
  - rewrite elem_of_nil. naive_solver.
Qed.

(** C36: a change of a cluster enqueues exactly the CritConfigs that the listed
    machines of the cluster refer to by group and kind, in any version, and
    nothing when the machines cannot be listed; a change of a machine enqueues
    at most the CritConfig that a change of its cluster enqueues for it, since
    it also asks for the version. *)
Theorem cluster_requests_cover_machines c tr reqs :
  runs (ClusterToCritConfigs (Some c)) tr (Val reqs) →
  ∃ answer, tr = [Ev (List_Machines (cl_Namespace c) {[ClusterLabelName := cl_Name c]}) answer] ∧
    match answer with
    | Err _ => reqs = []
    | Ok items =>
        (∀ k, k ∈ reqs ↔ ∃ m ref, m ∈ items ∧ ms_ConfigRef (mach_Spec m) = Some ref ∧
           is_CritConfig_kind ref = true ∧ k = config_key (mach_Namespace m) ref) ∧
        (∀ m, m ∈ items → ∀ k, k ∈ MachineToBootstrapMapFunc (Some m) → k ∈ reqs)
    end.
Proof.
  intros Hr. unfold ClusterToCritConfigs in Hr. apply runs_call in Hr as (answer&tr'&->&Hr).
  exists answer. destruct answer as [items|e]; destruct Hr as [-> [= ->]]; [|done].
  split; [done|]. split.
  - intros k. rewrite list_elem_of_bind. setoid_rewrite machine_request_spec. naive_solver.
  - intros m Hm k Hk. apply list_elem_of_bind. exists m. split; [|done].
    apply machine_request_spec. unfold MachineToBootstrapMapFunc in Hk.
    destruct (ms_ConfigRef (mach_Spec m)) as [ref|]; [|by apply elem_of_nil in Hk].
    case_bool_decide as Heq; [|by apply elem_of_nil in Hk]. apply list_elem_of_singleton in Hk.
    exists ref. split; [done|]. split; [|done]. apply bool_decide_eq_true. by rewrite Heq.
Qed.
End requests.

(** ** Witnesses *)

Module BootstrapControllerWitness.
Import Reference ReferenceLaws Sample Fixtures BootstrapWitness.

Definition worker_owner : ConfigOwner := {|
  co_Kind := "Machine"; co_Namespace := "default"; co_ClusterName := "demo";
  co_DataSecretName := None; co_IsControlPlaneMachine := false; co_IsInfrastructureReady := false;
  co_Object := ([], Some "v1.18.5") |}.
Definition worker_object : CritConfig :=
  cc_with_spec (with_config "worker demo " config_spec) crit_config.
Definition config_request : ObjectKey := {| key_Namespace := "default"; key_Name := "node-1" |}.

(** A cluster with an endpoint, a kubeconfig and a CA; the creation of the
    data secret is answered as given. *)
Definition world (config : CritConfig) (owner : ConfigOwner) (creation : option err) :
    list event → ∀ a : k8s_action, k8s_answer a :=
  environment (λ a,
    match a with
    | Get_CritConfig _ => Some (Ok config)
    | GetConfigOwner _ => Some (Ok (Some owner))
    | GetClusterByName _ _ => Some (Ok cluster)
    | Kubeconfig_FromSecret k => Some (Ok (key_Name k))
    | Get_Secret _ k => Some (Ok ca_secret)
    | Create_Secret Mgmt _ => Some creation
    | _ => None
    end).

Definition worker_run : list event * outcome (Result * option error) :=
  drive (world worker_object worker_owner None) [] (Reconcile config_request).

(** The patch of the worker: its token is stored, its status is ready. *)
Definition worker_patch : k8s_action :=
  Patch_CritConfig worker_object
    (cc_with_status (ready_status (Some "node-1") (cc_Status crit_config))
      (cc_with_spec (with_config "worker demo abcdef.0123456789abcdef" config_spec) crit_config)).

Lemma worker_becomes_ready :
  worker_run.2 = Val (NoResult, None) ∧ last worker_run.1 = Some (@Ev k8s worker_patch None).
Proof. split; by_evaluation. Qed.

Lemma config_Reconcile_safe_witness :
  ∃ tr1 tr2, reaches (Reconcile config_request) (tr1 ++ @Ev k8s worker_patch None :: tr2) ∧
    ∃ config owner cluster h0, admitted config_request config owner cluster h0 ∧
      h0 `prefix_of` tr1.
Proof.
  pose proof (runs_reaches _ _ _ (drive_runs (world worker_object worker_owner None) []
    (Reconcile config_request))) as Hr.
  assert (Hl : (drive (world worker_object worker_owner None) [] (Reconcile config_request)).1 !! 11%nat
    = Some (@Ev k8s worker_patch None)) by by_evaluation.
  rewrite <-(take_drop_middle _ _ _ Hl) in Hr. clear Hl.
  eexists _, _. split; [exact Hr|].
  destruct (config_Reconcile_safe config_request _ _ _ _ Hr eq_refl) as (c&o&cl&h0&Hadm&Hpre&_).
  exists c, o, cl, h0. split; [exact Hadm|exact Hpre].
Defined.

(** The data secret of that worker. *)
Definition worker_secret : Secret :=
  data_secret worker_object cluster "worker demo abcdef.0123456789abcdef"
    [ca_file "/etc/kubernetes/pki" pair].

Lemma node_data_complete_witness :
  ∃ tr1 r tr2, reaches (Reconcile config_request) (tr1 ++ @Ev k8s (Create_Secret Mgmt worker_secret) r :: tr2) ∧
    ∃ config owner cluster data files, node_data config owner cluster data files tr1.
Proof.
  pose proof (runs_reaches _ _ _ (drive_runs (world worker_object worker_owner None) []
    (Reconcile config_request))) as Hr.
  assert (Hl : (drive (world worker_object worker_owner None) [] (Reconcile config_request)).1 !! 10%nat
    = Some (@Ev k8s (Create_Secret Mgmt worker_secret) None)) by by_evaluation.
  rewrite <-(take_drop_middle _ _ _ Hl) in Hr. clear Hl.
  eexists _, _, _. split; [exact Hr|].
  destruct (node_data_complete config_request _ _ _ _ Hr eq_refl) as (config&owner&cl&h0&_&_&Hs).
  destruct (Hs (data_secret_no_pair worker_object cluster _ _)) as (data&files&Hdata&_).
  exists config, owner, cl, data, files. exact Hdata.
Defined.

Lemma config_Reconcile_publishes_witness :
  ∃ tr, runs (Reconcile config_request) tr (Val (NoResult, None)) ∧
    Reconcile_end config_request (Val (NoResult, None)) tr.
Proof.
  assert (Hd : (drive (world worker_object worker_owner None) [] (Reconcile config_request)).2 =
    Val (NoResult, None)) by by_evaluation.
  apply drive_result in Hd as [tr Hr]. exists tr. split; [exact Hr|].
  exact (config_Reconcile_publishes config_request tr _ Hr).
Defined.

(** The data secret was created before but the object not patched then: the
    reconciliation reports no error and the object never becomes ready. *)
Lemma existing_data_never_ready :
  let run := drive (world worker_object worker_owner (Some AlreadyExists)) []
    (Reconcile config_request) in
  run.2 = Val (NoResult, None) ∧
  ∃ after, last run.1 = Some (@Ev k8s (Patch_CritConfig worker_object after) None) ∧
    ccst_Ready (cc_Status after) = false.
Proof.
  split; [by_evaluation|].
  exists (cc_with_spec (with_config "worker demo abcdef.0123456789abcdef" config_spec) crit_config).
  split; by_evaluation.
Qed.

(** Three machines of the cluster: one refers to a CritConfig of the stored
    version, one to a CritConfig of the old version, one to another kind. *)
Definition referring (name version kind : string) : Machine := {|
  mach_Meta := mach_Meta (machine name 10 None "");
  mach_Spec := {|
    ms_ClusterName := "demo"; ms_Version := None; ms_InfrastructureRef := ref "AWSMachine" name;
    ms_ConfigRef := Some {|
      ref_APIVersion := version; ref_Kind := kind; ref_Namespace := "default";
      ref_Name := name; ref_UID := "" |};
    ms_FailureDomain := None |};
  mach_NodeRef := None |}.
Definition current_machine := referring "node-1" "bootstrap.cluster.x-k8s.io/v1alpha2" "CritConfig".
Definition old_machine := referring "node-2" "bootstrap.cluster.x-k8s.io/v1alpha1" "CritConfig".
Definition other_machine := referring "node-3" "bootstrap.cluster.x-k8s.io/v1alpha3" "KubeadmConfig".
Definition listed_machines : list Machine := [current_machine; old_machine; other_machine].

Definition listing : @event k8s :=
  Ev (E := k8s) (List_Machines "default" {[ClusterLabelName := "demo"]}) (Ok listed_machines).
Definition config_named (name : string) : ObjectKey :=
  {| key_Namespace := "default"; key_Name := name |}.

(** The CritConfigs of the first two are enqueued, the first also by a change of
    its machine. *)
Lemma cluster_requests_cover_machines_witness :
  runs (ClusterToCritConfigs (Some cluster)) [listing] (Val [config_named "node-1"; config_named "node-2"]) ∧
  MachineToBootstrapMapFunc (Some current_machine) = [config_named "node-1"] ∧
  config_named "node-1" ∈ [config_named "node-1"; config_named "node-2"] ∧
  config_named "node-3" ∉ [config_named "node-1"; config_named "node-2"].
Proof.
  assert (Hr : runs (ClusterToCritConfigs (Some cluster)) [listing]
    (Val [config_named "node-1"; config_named "node-2"])).
  { eexists (Ok listed_machines), []. split; [reflexivity|]. split; [reflexivity|]. by_evaluation. }
  assert (Hm : MachineToBootstrapMapFunc (Some current_machine) = [config_named "node-1"]) by by_evaluation.
  split; [exact Hr|]. split; [exact Hm|].
  destruct (cluster_requests_cover_machines cluster _ _ Hr) as (answer&Htr&Hans).
  apply (f_equal (λ tr : list (@event k8s), match tr with
    | existT a r :: _ => match a return k8s_answer a → option (result error (list Machine)) with
        | List_Machines _ _ => λ r, Some r | _ => λ _, None end r
    | [] => None end)) in Htr. injection Htr as <-.
  destruct Hans as [Hexact Hcover]. split.
  - apply (Hcover current_machine); [apply list_elem_of_here|]. rewrite Hm. apply list_elem_of_here.
  - intros (m&ref&Hin&Href&Hkind&Hkey)%Hexact.
    repeat (apply elem_of_cons in Hin as [->|Hin]; [injection Href as <-|]).
    + discriminate Hkey.
    + discriminate Hkey.
    + vm_compute in Hkind. discriminate Hkind.
    + by apply elem_of_nil in Hin.
Defined.
End BootstrapControllerWitness.
