(* ===== verification/SharedCertificates.v ===== *)
(** What the nodes of a cluster have in common: however the reconciliations of its
    machines and of its control plane interleave, and however stale the answers
    are that say a secret is missing, every node gets the same certificates.

    The certificates are secrets of the management cluster, which are created and
    then left alone; two reconciliations that both find one missing both generate
    it, and the API server lets one of them create it. *)
From S2P Require Import Prelude GoRuntime ApiTypes Platform SamplePlatform ManagementCluster.
From S2P Require Import Secrets CloudInit BootstrapData BootstrapController.
Local Open Scope Z_scope.

(** ** The secrets of the management cluster *)

Abbreviation secrets := (gmap ObjectKey Secret).

Section server.
Context {R : GoRuntime} {P : Platform}.

Definition object_key (s : Secret) : ObjectKey :=
  {| key_Namespace := om_Namespace (sec_Meta s); key_Name := om_Name (sec_Meta s) |}.

(** An answer that agrees with the secrets, and their change.  No secret is
    changed or removed, others may be added at any time.  A secret that is read
    is there; that one is missing can be answered at any time; a secret is only
    created if it was not there, and may have been created when the answer is an
    error. *)
Definition serves (s s' : secrets) (a : k8s_action) : k8s_answer a → Prop :=
  match a return k8s_answer a → Prop with
  | Get_Secret Mgmt k => λ r, s ⊆ s' ∧ ∀ x, r = Ok x → s !! k = Some x
  | Create_Secret Mgmt x => λ r, s ⊆ s' ∧ (r = None → s !! object_key x = None ∧ s' !! object_key x = Some x)
  | _ => λ _, s ⊆ s'
  end.

(** The requests of all clients, in the order in which they took place. *)
Fixpoint served (requests : list event) (s s' : secrets) : Prop :=
  match requests with
  | [] => s ⊆ s'
  | existT a r :: requests => ∃ s1, serves s s1 a r ∧ served requests s1 s'
  end.

(** The key pair of a purpose that the cluster's secrets hold. *)
Definition held (s : secrets) (key : ObjectKey) (p : Purpose) (kp : KeyPair) : Prop :=
  ∃ x, s !! Secrets.secret_key key p = Some x ∧ secretToKeyPair x = Ok kp.

(** ** What a node gets *)

(** The directory of a configuration's certificates. *)
Definition kube_dir (config : CritConfig) : option string :=
  match configutil_Unmarshal (ccs_Config (cc_Spec config)) with
  | Ok (ControlPlaneObject cfg) => Some (nc_KubeDir (cpc_NodeConfiguration cfg))
  | Ok (WorkerObject cfg) => Some (nc_KubeDir (wc_NodeConfiguration cfg))
  | _ => None
  end.

(** The certificate of the cluster CA is among the files. *)
Definition trusts (files : list File) (kp : KeyPair) : Prop :=
  kp_Cert kp ≠ "" → ∃ f dir, f ∈ files ∧ file_Path f = filepath_Join [dir; "ca.crt"] ∧
    file_Content f = kp_Cert kp.

(** The certificates of a control plane node with the key pairs held. *)
Definition with_held (s : secrets) (key : ObjectKey) (c c' : Certificate) : Prop :=
  same_certificate c c' ∧ ∃ kp, cert_KeyPair c' = Some kp ∧ held s key (cert_Purpose c) kp.
End server.

(** ** Lemmas *)

Section shared_lemmas.
Context {R : GoRuntime} {P : Platform}.
Implicit Types (s : secrets) (h G : list event).

Lemma serves_grows s s' a r : serves s s' a r → s ⊆ s'.
Proof.
  destruct a; try exact id; match goal with c : Client |- _ => destruct c end; first [exact id|by intros [? _]].
Qed.

Lemma served_grows G s s' : served G s s' → s ⊆ s'.
Proof.
  revert s. induction G as [|[a r] G IH]; intros s; simpl; [done|].
  intros (s1&Ha%serves_grows&Hs%IH). by etrans.
Qed.

(** What was read or created is there in the end. *)
Lemma served_unchanged G s s' k x :
  served G s s' → Ev (Get_Secret Mgmt k) (Ok x) ∈ G → s' !! k = Some x.
Proof.
  revert s. induction G as [|e G IH]; intros s; [by intros _ ?%not_elem_of_nil|].
  rewrite elem_of_cons. destruct e as [a r]. simpl. intros (s1&Ha&Hs) [Heq|Hin]; [|by eapply IH].
  change (existT a r) with (@Ev k8s a r) in Heq. assert (serves s s1 (Get_Secret Mgmt k) (Ok x)) as [Hg Hx].
  { change (let '(existT a r) := @Ev k8s (Get_Secret Mgmt k) (Ok x) in serves s s1 a r). by rewrite Heq. }
  eapply lookup_weaken; [by apply Hx|]. etrans; [exact Hg|by eapply served_grows].
Qed.

Lemma served_creates G s s' x :
  served G s s' → Ev (Create_Secret Mgmt x) None ∈ G → s' !! object_key x = Some x.
Proof.
  revert s. induction G as [|e G IH]; intros s; [by intros _ ?%not_elem_of_nil|].
  rewrite elem_of_cons. destruct e as [a r]. simpl. intros (s1&Ha&Hs) [Heq|Hin]; [|by eapply IH].
  change (existT a r) with (@Ev k8s a r) in Heq. assert (serves s s1 (Create_Secret Mgmt x) None) as [_ Hx].
  { change (let '(existT a r) := @Ev k8s (Create_Secret Mgmt x) None in serves s s1 a r). by rewrite Heq. }
  eapply lookup_weaken; [by apply Hx|by eapply served_grows].
Qed.

Lemma held_fun s key p kp kp' : held s key p kp → held s key p kp' → kp = kp'.
Proof. intros (x&Hx&Hkp) (x'&Hx'&Hkp'). congruence. Qed.

(** A certificate that was resolved and saved has the key pair held. *)
Lemma resolved_held G s s' key owner h c c' :
  served G s s' → h ⊆ G → cert_Purpose c ≠ APIServerEtcdClient →
  resolved key c c' h → saved key owner c' c' h → with_held s' key c c'.
Proof.
  intros Hs Hsub Hp [(Hsame&_&x&kp&Hx&Hkp&Hc)|[(Hsame&_&Hgen&_&[kp Hkp])|(_&_&?)]] [_ Hsaved]; [| |done].
  - split; [done|]. exists kp. split; [done|]. exists x. split; [|done].
    by eapply served_unchanged, Hsub.
  - split; [done|]. exists kp. split; [done|]. destruct (Hsaved Hgen) as (x&Hx&Hin).
    exists x. split.
    + destruct Hsame as [<- _]. rewrite <-(AsSecret_key _ _ _ _ Hx). by eapply served_creates, Hsub.
    + apply secretToKeyPair_AsSecret in Hx as (kp'&?&?). congruence.
Qed.

Lemma Forall2_with_l {A B} (Q : A → Prop) (T : A → B → Prop) l k :
  Forall Q l → Forall2 T l k → Forall2 (λ x y, Q x ∧ T x y) l k.
Proof. intros HQ HT. induction HT; inversion HQ; subst; auto. Qed.

Lemma with_held_complete s key c c' : Forall2 (with_held s key) c c' → Forall2 complete c c'.
Proof.
  intros H. eapply Forall2_impl; [exact H|]. intros x x' [[Hp _] (kp&Hkp&_)]. split; [done|]. by eexists.
Qed.

(** The files depend on nothing else. *)
Lemma with_held_files s key c c1 c2 p :
  Forall2 (with_held s key) c c1 → Forall2 (with_held s key) c c2 → files_of c1 p = files_of c2 p.
Proof.
  intros H1. revert c2. induction H1 as [|x x1 c c1 Hx _ IH]; intros c2 H2; inversion H2 as [|? x2 ? k2 Hx2 Hk2]; subst;
    [done|]. destruct Hx as ((Hp1&Hc1&Hk1)&kp1&Hkp1&Hh1), Hx2 as ((Hp2&Hc2&Hk2')&kp2&Hkp2&Hh2).
  pose proof (held_fun _ _ _ _ _ Hh1 Hh2) as <-. specialize (IH _ Hk2). unfold files_of in *.
  cbn [GetByPurpose]. rewrite Hp1, Hp2. destruct (String.eqb _ _); [|exact IH].
  unfold Certificate_AsFiles. by rewrite Hkp1, Hkp2, Hc1, Hc2, Hk1, Hk2'.
Qed.

Lemma with_held_AsFiles s key dir c1 c2 :
  Forall2 (with_held s key) (NewCertificatesForControlPlane dir) c1 →
  Forall2 (with_held s key) (NewCertificatesForControlPlane dir) c2 → AsFiles c1 = AsFiles c2.
Proof.
  intros H1 H2. rewrite (complete_AsFiles dir c1), (complete_AsFiles dir c2) by by eapply with_held_complete.
  by do 4 (rewrite (with_held_files s key _ c1 c2 _ H1 H2); f_equal).
Qed.

(** The cluster CA among the certificates of a control plane node. *)
Lemma plane_trusts s key dir c files :
  Forall2 (with_held s key) (NewCertificatesForControlPlane dir) c → AsFiles c = Val files →
  ∃ kp, held s key ClusterCA kp ∧ trusts files kp.
Proof.
  intros H Hf. rewrite (complete_AsFiles dir c) in Hf by by eapply with_held_complete.
  injection Hf as <-. inversion H as [|? x ? k [(Hp&Hc&_) (kp&Hkp&Hheld)] _]; subst.
  exists kp. split; [exact Hheld|]. intros Hne. exists {| file_Path := cert_CertFile x; file_Owner := rootOwnerValue;
    file_Permissions := "0640"; file_Encoding := ""; file_Content := kp_Cert kp |}, dir.
  split; [|by split].
  apply elem_of_app. left. unfold files_of. cbn [GetByPurpose].
  rewrite Hp. change (String.eqb (cert_Purpose _) ClusterCA) with true. cbv iota.
  unfold Certificate_AsFiles. rewrite Hkp.
  assert (0 < String.length (kp_Cert kp))%nat as ->%Nat.ltb_lt by (destruct (kp_Cert kp); [done|simpl; lia]).
  apply elem_of_app. left. by left.
Qed.

Lemma plane_kube_dir config owner cluster cfg config1 cfg1 :
  reconcileControlPlaneClusterConfiguration config owner cluster cfg = Ok (config1, cfg1) →
  nc_KubeDir (cpc_NodeConfiguration cfg1) = nc_KubeDir (cpc_NodeConfiguration cfg).
Proof.
  unfold reconcileControlPlaneClusterConfiguration. destruct (FromUnstructured_Machine _); [|done].
  destruct (set_config _ _); [|done]. by intros [= _ <-].
Qed.

Lemma worker_kube_dir config owner cluster cfg config1 cfg1 :
  reconcileWorkerClusterConfiguration config owner cluster cfg = Ok (config1, cfg1) →
  nc_KubeDir (wc_NodeConfiguration cfg1) = nc_KubeDir (wc_NodeConfiguration cfg).
Proof.
  unfold reconcileWorkerClusterConfiguration. destruct (_ && _); [done|].
  destruct (owner_version _); [|done]. destruct (set_config _ _); [|done]. by intros [= _ <-].
Qed.

Context {CR : CritConfigReconciler}.

(** The files of a node, given what the cluster's secrets hold. *)
Definition node_files s key (plane : bool) (dir : string) (files : list File) : Prop :=
  if plane then ∃ certificates,
    Forall2 (with_held s key) (NewCertificatesForControlPlane (filepath_Join [dir; "pki"])) certificates ∧
    AsFiles certificates = Val files
  else ∃ kp, held s key ClusterCA kp ∧ files = [ca_file (filepath_Join [dir; "pki"]) kp].

Lemma node_data_files G s s' h config configOwner cluster data files :
  served G s s' → h ⊆ G → node_data config configOwner cluster data files h →
  ∃ dir, kube_dir config = Some dir ∧
    node_files s' (cl_Key cluster) (co_IsControlPlaneMachine configOwner) dir files.
Proof.
  intros Hs Hsub. unfold node_data, kube_dir. destruct (configutil_Unmarshal _) as [[cfg|cfg|gvk]|e]; [| |done..].
  - intros (->&config1&cfg1&cs&Hcfg&_&Hcs&Hf). eexists. split; [done|]. exists cs. split; [|done].
    rewrite <-(plane_kube_dir _ _ _ _ _ _ Hcfg).
    eapply Forall2_impl; [apply (Forall2_with_l (λ c, cert_Purpose c ≠ APIServerEtcdClient)), Hcs; by repeat constructor|].
    intros c c' (Hp&Hr&Hsv). by eapply resolved_held.
  - intros (->&_&config1&cfg1&token&ca&kp&Hcfg&_&_&Hca&Hkp&->). eexists. split; [done|]. exists kp.
    rewrite <-(worker_kube_dir _ _ _ _ _ _ Hcfg). split; [|done]. exists ca. split; [|done].
    by eapply served_unchanged, Hsub.
Qed.

Lemma node_files_trust s key plane dir files :
  node_files s key plane dir files → ∃ kp, held s key ClusterCA kp ∧ trusts files kp.
Proof.
  destruct plane; [intros (c&?&?); by eapply plane_trusts|].
  intros (kp&Hkp&->). exists kp. split; [done|]. intros _. eexists _, _. by split; [left|].
Qed.

Lemma node_files_fun s key plane dir files files' :
  node_files s key plane dir files → node_files s key plane dir files' → files = files'.
Proof.
  destruct plane.
  - intros (c&Hc&Hf) (c'&Hc'&Hf'). rewrite (with_held_AsFiles _ _ _ _ _ Hc Hc') in Hf. congruence.
  - intros (kp&Hkp&->) (kp'&Hkp'&->). by rewrite (held_fun _ _ _ _ _ Hkp Hkp').
Qed.
End shared_lemmas.

(** ** Properties *)

Section shared_properties.
Context {R : GoRuntime} {P : Platform} {CR : CritConfigReconciler} {CRL : CritConfigReconcilerLaws CR}.

(** C9: however the reconciliations of a cluster's machines and everything else
    that uses the management cluster interleave, all nodes get the same
    certificates.  Whenever the data secrets of two machines of a cluster are
    requested, both carry the certificate of one cluster CA, that which the
    cluster's secrets hold in the end; and two nodes of the same kind that keep
    their certificates in the same directory get the very same files, keys
    included.  This needs only that secrets are created and not changed or
    removed, and that what is read is there; that a secret is missing may be
    answered at any time. *)
Theorem nodes_share_certificates G s s' req1 tr1 sec1 r1 tr1' req2 tr2 sec2 r2 tr2' :
  served G s s' →
  reaches (Reconcile req1) (tr1 ++ Ev (Create_Secret Mgmt sec1) r1 :: tr1') → tr1 ⊆ G →
  (∀ kp, secretToKeyPair sec1 ≠ Ok kp) →
  reaches (Reconcile req2) (tr2 ++ Ev (Create_Secret Mgmt sec2) r2 :: tr2') → tr2 ⊆ G →
  (∀ kp, secretToKeyPair sec2 ≠ Ok kp) →
  ∃ config1 owner1 cluster1 h1 data1 files1 config2 owner2 cluster2 h2 data2 files2,
    (admitted req1 config1 owner1 cluster1 h1 ∧ h1 `prefix_of` tr1 ∧
     sec1 = data_secret config1 cluster1 data1 files1) ∧
    (admitted req2 config2 owner2 cluster2 h2 ∧ h2 `prefix_of` tr2 ∧
     sec2 = data_secret config2 cluster2 data2 files2) ∧
    (cl_Key cluster1 = cl_Key cluster2 →
     (∃ kp, held s' (cl_Key cluster1) ClusterCA kp ∧ trusts files1 kp ∧ trusts files2 kp) ∧
     (co_IsControlPlaneMachine owner1 = co_IsControlPlaneMachine owner2 →
      kube_dir config1 = kube_dir config2 → files1 = files2)).
Proof.
  intros Hs Hr1 Hsub1 Hnp1 Hr2 Hsub2 Hnp2.
  destruct (data_secret_requested _ _ _ _ _ Hr1 Hnp1) as (config1&owner1&cluster1&h1&data1&files1&?&?&Hd1&?).
  destruct (data_secret_requested _ _ _ _ _ Hr2 Hnp2) as (config2&owner2&cluster2&h2&data2&files2&?&?&Hd2&?).
  destruct (node_data_files _ _ _ _ _ _ _ _ _ Hs Hsub1 Hd1) as (dir1&Hdir1&Hf1).
  destruct (node_data_files _ _ _ _ _ _ _ _ _ Hs Hsub2 Hd2) as (dir2&Hdir2&Hf2).
  exists config1, owner1, cluster1, h1, data1, files1, config2, owner2, cluster2, h2, data2, files2.
  split; [done|]. split; [done|]. intros Hkey. rewrite <-Hkey in Hf2. split.
  - destruct (node_files_trust _ _ _ _ _ Hf1) as (kp&Hkp&Ht1), (node_files_trust _ _ _ _ _ Hf2) as (kp'&Hkp'&Ht2).
    rewrite (held_fun _ _ _ _ _ Hkp' Hkp) in Ht2. eauto.
  - intros Hkind Hdir. rewrite Hdir1, Hdir2 in Hdir. injection Hdir as <-. rewrite <-Hkind in Hf2.
    by eapply node_files_fun.
Qed.
End shared_properties.

(** ** Witnesses *)

Module SharedCertificatesWitness.
Import Reference ReferenceLaws Sample Fixtures BootstrapWitness BootstrapControllerWitness.

#[local] Instance OwnerReference_eq_dec : EqDecision OwnerReference.
Proof. solve_decision. Defined.
#[local] Instance ObjectMeta_eq_dec : EqDecision ObjectMeta.
Proof. solve_decision. Defined.
#[local] Instance Secret_eq_dec : EqDecision Secret.
Proof. solve_decision. Defined.

(** The secrets after some requests, if the answers agree with them. *)
Fixpoint replay (requests : list (@event k8s)) (s : secrets) : option secrets :=
  match requests with
  | [] => Some s
  | existT a r :: requests =>
      (match a return k8s_answer a → option secrets with
       | Get_Secret Mgmt k => λ r,
           match r with Ok x => guard (s !! k = Some x);; Some s | Err _ => Some s end
       | Create_Secret Mgmt x => λ r,
           match r with
           | None => guard (s !! object_key x = None);; Some (<[object_key x := x]> s)
           | Some _ => Some s
           end
       | _ => λ _, Some s
       end r) ≫= replay requests
  end.

Lemma replay_served G s s' : replay G s = Some s' → served G s s'.
Proof.
  revert s. induction G as [|[a r] G IH]; intros s; cbn [replay served]; [by intros [= ->]|].
  intros (s1&Ha&Hs%IH)%bind_Some. exists s1. split; [|done].
  destruct a; try match goal with c : Client |- _ => destruct c end;
    try (simplify_option_eq; reflexivity).
  - destruct r as [x|e]; simplify_option_eq; (split; [reflexivity|]); [|done]. by intros ? [= <-].
  - destruct r as [e|]; simplify_option_eq; [by split|].
    split; [by apply insert_subseteq|]. intros _. split; [done|apply lookup_insert_eq].
Qed.

(** A control plane node of a new cluster generates the certificates; a worker
    that comes later finds them. *)
Definition plane_object : CritConfig :=
  {| cc_Meta := meta "node-0" "default"; cc_Spec := with_config "controlplane demo" config_spec;
     cc_Status := cc_Status crit_config |}.
Definition plane_request : ObjectKey := {| key_Namespace := "default"; key_Name := "node-0" |}.
Definition serving (config : CritConfig) (owner : ConfigOwner) (s : secrets) :
    list (@event k8s) → ∀ a : k8s_action, k8s_answer a :=
  environment (λ a,
    match a with
    | Get_CritConfig _ => Some (Ok config)
    | GetConfigOwner _ => Some (Ok (Some owner))
    | GetClusterByName _ _ => Some (Ok cluster)
    | Kubeconfig_FromSecret k => Some (Ok (key_Name k))
    | Get_Secret _ k => Some (match s !! k with Some x => Ok x | None => Err NotFound end)
    | _ => None
    end).

Definition plane_trace : list (@event k8s) :=
  Eval vm_compute in (drive (serving plane_object machine_owner ∅) [] (Reconcile plane_request)).1.
Definition stored_secrets : secrets := default ∅ (replay plane_trace ∅).
Definition worker_trace : list (@event k8s) :=
  Eval vm_compute in (drive (serving worker_object worker_owner stored_secrets) [] (Reconcile config_request)).1.

(** The secret created at a position of a trace. *)
Definition secret_at (tr : list (@event k8s)) (i : nat) : Secret :=
  match tr !! i with
  | Some (existT (Create_Secret _ x) _) => x
  | _ => {| sec_Meta := meta "" ""; sec_Type := ""; sec_Data := None |}
  end.

(** The cluster a trace begins with. *)
Definition cluster_read (tr : list (@event k8s)) : option Cluster :=
  e ← tr !! 2%nat;
  let '(existT a r) := e : @event k8s in
  match a return k8s_answer a → option Cluster with
  | GetClusterByName _ _ => λ r, match r with Ok c => Some c | Err _ => None end
  | _ => λ _, None
  end r.

Lemma admitted_cluster req config owner cl h tr :
  admitted req config owner cl h → h `prefix_of` tr → cluster_read tr = Some cl.
Proof. by intros [-> _] [l ->]. Qed.

Lemma requested_at env req (tr : list (@event k8s)) i :
  drive env [] (Reconcile req) = (tr, Val (NoResult, None)) →
  tr !! i = Some (@Ev k8s (Create_Secret Mgmt (secret_at tr i)) None) →
  reaches (Reconcile req) (take i tr ++ @Ev k8s (Create_Secret Mgmt (secret_at tr i)) None :: drop (S i) tr).
Proof.
  intros Hd Hi. rewrite (take_drop_middle _ _ _ Hi). pose proof (drive_runs env [] (Reconcile req)) as Hr.
  rewrite Hd in Hr. exact (runs_reaches _ _ _ Hr).
Qed.

Lemma take_incl {A} n (l : list A) : take n l ⊆ l.
Proof. intros x Hx. rewrite <-(take_drop n l). apply elem_of_app. by left. Qed.

Lemma nodes_share_certificates_witness :
  served (plane_trace ++ worker_trace) ∅ (default ∅ (replay (plane_trace ++ worker_trace) ∅)) ∧
  ∃ kp config1 data1 files1 config2 data2 files2, trusts files1 kp ∧ trusts files2 kp ∧
    secret_at plane_trace 27 = data_secret config1 cluster data1 files1 ∧
    secret_at worker_trace 10 = data_secret config2 cluster data2 files2.
Proof.
  assert (Hs : served (plane_trace ++ worker_trace) ∅ (default ∅ (replay (plane_trace ++ worker_trace) ∅))).
  { apply replay_served. by_evaluation. }
  split; [exact Hs|].
  destruct (nodes_share_certificates _ _ _ plane_request (take 27 plane_trace) (secret_at plane_trace 27) None
    (drop 28 plane_trace) config_request (take 10 worker_trace) (secret_at worker_trace 10) None
    (drop 11 worker_trace) Hs
    (requested_at (serving plane_object machine_owner ∅) plane_request plane_trace 27
      ltac:(by_evaluation) ltac:(by_evaluation))
    ltac:(intros e He; apply elem_of_app; left; exact (take_incl _ _ _ He))
    ltac:(intros kp Hkp; vm_compute in Hkp; discriminate Hkp)
    (requested_at (serving worker_object worker_owner stored_secrets) config_request worker_trace 10
      ltac:(by_evaluation) ltac:(by_evaluation))
    ltac:(intros e He; apply elem_of_app; right; exact (take_incl _ _ _ He))
    ltac:(intros kp Hkp; vm_compute in Hkp; discriminate Hkp))
    as (c1&o1&cl1&h1&d1&files1&c2&o2&cl2&h2&d2&files2&(Ha1&Hp1&He1)&(Ha2&Hp2&He2)&Hshare).
  apply (admitted_cluster _ _ _ _ _ _ Ha1) in Hp1. apply (admitted_cluster _ _ _ _ _ _ Ha2) in Hp2.
  assert (H1 : cluster_read (take 27 plane_trace) = Some cluster) by by_evaluation.
  assert (H2 : cluster_read (take 10 worker_trace) = Some cluster) by by_evaluation.
  rewrite H1 in Hp1. rewrite H2 in Hp2. injection Hp1 as <-. injection Hp2 as <-.
  destruct (Hshare eq_refl) as [(kp&_&Ht1&Ht2) _].
  exists kp, c1, d1, files1, c2, d2, files2. split; [exact Ht1|]. split; [exact Ht2|]. split; [exact He1|exact He2].
Defined.
End SharedCertificatesWitness.
