(* ===== verification/TokenLifetime.v ===== *)
(** The life of a worker's bootstrap token: what controllers/bootstrap/token.go and
    the token step of worker.go achieve together, over many reconciliations.

    The workload cluster removes a token that has expired; the controller refreshes
    it at each reconciliation of a worker whose machine has not come up, and asks to
    be called again.  The worlds below are the token secrets of the workload
    cluster, the clock, and the time by which the controller runs again; a step is
    time passing, the cluster removing expired tokens, or a reconciliation. *)
From stdpp Require Import pretty.
From S2P Require Import Prelude GoRuntime ApiTypes Platform SamplePlatform.
From S2P Require Import WorkloadCluster ManagementCluster Secrets CloudInit BootstrapData BootstrapController.
Local Open Scope Z_scope.

(** The token cleaner of the workload cluster: which expirations have passed at a
    time.  The text of an expiration has whole seconds. *)
Class TokenCleaner {P : Platform} : Type := { token_expired : string → Time → Prop }.
Class TokenCleanerLaws {P : Platform} (TC : TokenCleaner) : Prop := {
  expired_late t now : token_expired (time_RFC3339 t) now → t < now + Second;
}.

(** What is wrong with a configuration is not a matter of waiting. *)
Class MarshalLaws (P : Platform) : Prop := {
  marshal_no_delay obj e :
    configutil_Marshal obj = Err e → as_HasRequeueAfterError (errors_Cause e) = None;
}.

(** The secrets of the workload cluster. *)
Abbreviation secrets := (gmap ObjectKey Secret).

Section token_lifetime.
Context {R : GoRuntime} {P : Platform} {CR : CritConfigReconciler} {TC : TokenCleaner}.

(** ** The workload cluster's secrets *)

Definition secret_key (s : Secret) : ObjectKey :=
  {| key_Namespace := om_Namespace (sec_Meta s); key_Name := om_Name (sec_Meta s) |}.

(** An answer at time [now] that agrees with the secrets, and their change.  A
    write that reports an error may have taken place. *)
Definition serves (now : Time) (s s' : secrets) (a : k8s_action) : k8s_answer a → Prop :=
  match a return k8s_answer a → Prop with
  | Now => λ r, r = now ∧ s' = s
  | Get_Secret (Remote _) k => λ r, (∀ x, r = Ok x → s !! k = Some x) ∧ s' = s
  | Create_Secret (Remote _) x => λ r,
      match r with
      | None => s !! secret_key x = None ∧ s' = <[secret_key x := x]> s
      | Some _ => s' = s ∨ s !! secret_key x = None ∧ s' = <[secret_key x := x]> s
      end
  | Update_Secret (Remote _) x => λ r,
      match r with
      | None => is_Some (s !! secret_key x) ∧ s' = <[secret_key x := x]> s
      | Some _ => s' = s ∨ s' = <[secret_key x := x]> s
      end
  | _ => λ _, s' = s
  end.

Fixpoint served (now : Time) (tr : list event) (s s' : secrets) : Prop :=
  match tr with
  | [] => s' = s
  | existT a r :: tr => ∃ s1, serves now s s1 a r ∧ served now tr s1 s'
  end.

(** ** Worlds and their steps *)

Record world := { w_secrets : secrets; w_clock : Time; w_deadline : Time }.

(** The key of a token's secret. *)
Definition token_at (token : string) (k : ObjectKey) : Prop :=
  ∃ x id y, BootstrapTokenRegexp_FindStringSubmatch token = [x; id; y] ∧ k = token_key id.

Definition secret_expired (s : Secret) (now : Time) : Prop :=
  ∃ data text, sec_Data s = Some data ∧ data !! BootstrapTokenExpirationKey = Some text ∧
    token_expired text now.

(** A worker whose object is ready and whose machine is not up. *)
Definition waiting (configOwner : ConfigOwner) (config : CritConfig) : Prop :=
  ccst_Ready (cc_Status config) = true ∧ co_IsInfrastructureReady configOwner = false.

(** The secret was written, and the reconciliation asks to be called again. *)
Definition wrote (e : event) : Prop :=
  match e with
  | existT a r =>
      match a return k8s_answer a → Prop with Update_Secret _ _ => λ r, r = None | _ => λ _, False end r
  end.
Definition refreshed (tr : list event) (o : outcome (WorkerConfiguration * option error)) (delay : Z) : Prop :=
  Exists wrote tr ∧
  ∃ cfg err, o = Val (cfg, Some err) ∧
    requeue_or_fail err = ({| res_Requeue := false; res_RequeueAfter := delay |}, None).

(** [slack]: how late a call may be that was asked for, failed attempts included. *)
Inductive step (slack : Z) (token : string) : world → world → Prop :=
| step_time s t t' d : t ≤ t' ≤ d →
    step slack token {| w_secrets := s; w_clock := t; w_deadline := d |}
      {| w_secrets := s; w_clock := t'; w_deadline := d |}
| step_cluster s s' t d :
    (∀ k, token_at token k →
       s' !! k = s !! k ∨ ∃ x, s !! k = Some x ∧ secret_expired x t ∧ s' !! k = None) →
    step slack token {| w_secrets := s; w_clock := t; w_deadline := d |}
      {| w_secrets := s'; w_clock := t; w_deadline := d |}
| step_refreshed configOwner cluster cfg config config' tr o s s' t d delay :
    waiting configOwner config → wc_BootstrapToken cfg = token →
    runs (reconcileWorkerBootstrapToken configOwner cluster cfg config) tr (config', o) →
    served t tr s s' → refreshed tr o delay →
    step slack token {| w_secrets := s; w_clock := t; w_deadline := d |}
      {| w_secrets := s'; w_clock := t; w_deadline := t + delay + slack |}
| step_failed configOwner cluster cfg config config' tr o s s' t d :
    waiting configOwner config → wc_BootstrapToken cfg = token →
    runs (reconcileWorkerBootstrapToken configOwner cluster cfg config) tr (config', o) →
    served t tr s s' →
    step slack token {| w_secrets := s; w_clock := t; w_deadline := d |}
      {| w_secrets := s'; w_clock := t; w_deadline := d |}.

(** ** Executions of the token step *)

Lemma served_app now tr1 tr2 s s' :
  served now (tr1 ++ tr2) s s' ↔ ∃ s1, served now tr1 s s1 ∧ served now tr2 s1 s'.
Proof.
  revert s. induction tr1 as [|[a r] tr1 IH]; intros s; simpl.
  - split; [by exists s|]. by intros (?&->&?).
  - split.
    + intros (s1&Ha&(s2&?&?)%IH). exists s2. eauto.
    + intros (s2&(s1&?&?)&?). exists s1. split; [done|]. apply IH. eauto.
Qed.

Lemma served_reads now tr s s' : writeless tr → served now tr s s' → s' = s.
Proof.
  revert s. induction tr as [|[a r] tr IH]; intros s Hw; simpl; [done|].
  intros (s1&Ha&Hs). assert (s1 = s) as ->.
  { assert (Ha' : is_write a = false) by (apply (Hw a r); left).
    destruct a; try match goal with c : Client |- _ => destruct c end; first [done|apply Ha]. }
  apply IH; [|done]. intros b r' Hin. apply (Hw b r'). by right.
Qed.

Lemma runs_SM_embed {S A B} (m : M A) (f : A → SM S B) (st : S) tr st' o :
  runs ((embed m ≫= f) st) tr (st', o) →
  (st' = st ∧ o = Panic ∧ runs m tr Panic) ∨
  ∃ tr1 tr2 x, tr = tr1 ++ tr2 ∧ runs m tr1 (Val x) ∧ runs (f x st) tr2 (st', o).
Proof.
  unfold mbind, SM_bind, embed. intros (tr1&tr2&[st1 x]&->&H1&H2)%runs_pbind.
  apply runs_pbind in H1 as (tr3&tr4&x'&->&H1&[-> [= -> ->]]). rewrite app_nil_r in *.
  destruct x' as [x|]; [right; eauto 10|left]. destruct H2 as [-> [= -> ->]]. by rewrite app_nil_r.
Qed.

Context {CRL : CritConfigReconcilerLaws CR}.

Lemma getter_runs k tr o : runs (remoteClientGetter k) tr o →
  writeless tr ∧ match o with Val (Ok c) => ∃ cfg, c = Remote cfg | Val (Err _) => True | Panic => False end.
Proof.
  intros Hr. pose proof (hoare_only (λ a, is_write a = false) _ _ _ _ (λ _ _ H, H)
    (remoteClientGetter_hoare k [])) as Hh.
  apply (hoare_runs _ _ _ _ _ _ Hh) in Hr as [Ho (l&Htr&Hl)]. simpl in Htr. subst l.
  split; [exact Hl|]. destruct o as [[c|]|]; [|done|done]. destruct c; [done|eauto].
Qed.

(** Creating a token leaves its secret. *)
Lemma createToken_leaves now cfg tr token s s' :
  runs (createToken (Remote cfg)) tr (Val (Ok token)) → served now tr s s' →
  ∃ x id secret, BootstrapTokenRegexp_FindStringSubmatch token = [x; id; secret] ∧
    s' !! token_key id = Some (token_secret id secret now).
Proof.
  unfold createToken. intros (r&tr1&->&Hr)%runs_call. destruct r as [token'|e]; [|by destruct Hr].
  destruct (BootstrapTokenRegexp_FindStringSubmatch token') as [|x [|id [|secret [|]]]] eqn:Htok;
    try by destruct Hr.
  apply runs_call in Hr as (now'&tr2&->&Hr). apply runs_call in Hr as (err&tr3&->&Hr).
  destruct err as [e|]; [by destruct Hr|]. destruct Hr as [-> [= ->]].
  simpl. intros (s1&->&s2&[-> ->]&s3&[_ ->]&->). exists x, id, secret. split; [done|].
  apply lookup_insert_eq.
Qed.

(** Refreshing it keeps the secret, and renews it if it was written. *)
Lemma refreshToken_keeps `{!TokenLaws P} now cfg token x id secret t0 tr o s s' :
  BootstrapTokenRegexp_FindStringSubmatch token = [x; id; secret] →
  s !! token_key id = Some (token_secret id secret t0) →
  runs (refreshToken (Remote cfg) token) tr o → served now tr s s' →
  (s' !! token_key id = Some (token_secret id secret t0) ∨
   s' !! token_key id = Some (token_secret id secret now)) ∧
  (Exists wrote tr → s' !! token_key id = Some (token_secret id secret now) ∧ o = Val None) ∧ o ≠ Panic.
Proof.
  intros Htok Hs. unfold refreshToken. rewrite Htok. intros (r&tr1&->&Hr)%runs_call.
  destruct r as [sec|e].
  2:{ destruct Hr as [-> ->]. simpl. intros (s1&[_ ->]&->). split_and!; [by left| |done].
      rewrite Exists_cons, Exists_nil. by intros [[]|[]]. }
  cbn [served Ev serves]. intros (s1&[Hget ->]&Hserved). specialize (Hget sec eq_refl).
  rewrite Hs in Hget. injection Hget as <-. cbn [token_secret sec_Data] in Hr.
  apply runs_call in Hr as (now'&tr2&->&Hr). destruct Hr as (err&tr3&->&->&->).
  rewrite (with_expiration_token_secret id secret t0 now' _ eq_refl) in Hserved.
  rewrite !Exists_cons, Exists_nil. simpl in Hserved. destruct Hserved as (s2&[-> ->]&s3&Hup&->).
  change (secret_key (token_secret id secret now)) with (token_key id) in Hup.
  destruct err as [e|].
  - split_and!; [|by intros [[]|[[]|[[=]|[]]]]|done].
    destruct Hup as [-> | ->]; [by left|right; apply lookup_insert_eq].
  - destruct Hup as [_ ->]. rewrite lookup_insert_eq. auto.
Qed.

Lemma no_write tr s s' now : writeless tr → served now tr s s' → s' = s ∧ (Exists wrote tr → False).
Proof.
  intros Hw Hs. split; [by eapply served_reads|]. intros ([a r]&Hin&Hwr)%Exists_exists.
  specialize (Hw a r Hin). by destruct a.
Qed.

Lemma token_requeue_delay `{!ErrorLaws P} :
  requeue_or_fail token_requeue =
    ({| res_Requeue := false; res_RequeueAfter := DefaultTokenTTL / 2 |}, None).
Proof. unfold requeue_or_fail, token_requeue. by rewrite cause_wrap, cause_requeue, requeue_as. Qed.

Lemma set_config_no_delay `{!MarshalLaws P} config obj e :
  set_config config obj = Err e → requeue_or_fail e = (NoResult, Some e).
Proof.
  unfold set_config, SetConfig. destruct (configutil_Marshal obj) as [|e'] eqn:He; [done|].
  intros [= <-]. unfold requeue_or_fail. by rewrite (marshal_no_delay _ _ He).
Qed.

(** The token step of a worker whose machine is not up. *)
Lemma reconcile_keeps `{!TokenLaws P, !ErrorLaws P, !MarshalLaws P}
    configOwner cluster cfg config config' now x id secret t0 tr o s s' :
  waiting configOwner config →
  BootstrapTokenRegexp_FindStringSubmatch (wc_BootstrapToken cfg) = [x; id; secret] →
  s !! token_key id = Some (token_secret id secret t0) →
  runs (reconcileWorkerBootstrapToken configOwner cluster cfg config) tr (config', o) →
  served now tr s s' →
  (s' !! token_key id = Some (token_secret id secret t0) ∨
   s' !! token_key id = Some (token_secret id secret now)) ∧
  ∀ delay, refreshed tr o delay →
    s' !! token_key id = Some (token_secret id secret now) ∧ delay = DefaultTokenTTL / 2.
Proof.
  intros [Hready Hinfra] Htok Hs Hr Hserved. unfold reconcileWorkerBootstrapToken in Hr.
  unfold mbind at 1, SM_bind at 1, get in Hr. cbn [pbind] in Hr. rewrite Hready, Hinfra, andb_true_r in Hr.
  destruct (negb _).
  2:{ destruct Hr as [-> [= -> ->]]. simpl in Hserved. subst. split; [by left|]. by intros delay [?%Exists_nil _]. }
  apply runs_SM_embed in Hr as [(->&->&[_ []]%getter_runs)|(tr1&tr2&c&->&Hc&Hr)].
  apply getter_runs in Hc as [Hw Hc]. apply served_app in Hserved as (s1&H1&H2).
  destruct (no_write _ _ _ _ Hw H1) as [-> Hnw1]. destruct c as [c|e].
  2:{ destruct Hr as [-> [= -> ->]]. simpl in H2. subst. split; [by left|].
      intros delay [Hwr _]. rewrite app_nil_r in Hwr. by apply Hnw1 in Hwr. }
  destruct Hc as [rest ->].
  apply runs_SM_embed in Hr as [(->&->&Hr)|(tr3&tr4&err&->&Hr&Hend)].
  { destruct (refreshToken_keeps _ _ _ _ _ _ _ _ _ _ _ Htok Hs Hr H2) as (_&_&[]). done. }
  apply served_app in H2 as (s2&H2&H3).
  destruct (refreshToken_keeps _ _ _ _ _ _ _ _ _ _ _ Htok Hs Hr H2) as (Hkeep&Hwrote&_).
  assert (tr4 = [] ∧ s' = s2) as [-> ->].
  { destruct err as [e|]; [|destruct (set_config config _)]; destruct Hend as [-> _]; by simpl in H3. }
  split; [done|]. intros delay [Hwr (cfg'&err'&->&Hdelay)].
  rewrite app_nil_r, Exists_app in Hwr. destruct Hwr as [?|Hwr]; [by destruct Hnw1|].
  destruct (Hwrote Hwr) as [Hnow [= ->]]. split; [done|].
  destruct (set_config config _) as [c|e] eqn:Hset; destruct Hend as [_ [= _ _ ->]].
  - rewrite token_requeue_delay in Hdelay. by injection Hdelay.
  - by rewrite (set_config_no_delay _ _ _ Hset) in Hdelay.
Qed.

(** ** The token stays valid *)

(** The token step of a new worker leaves the secret of a new token. *)
Lemma reconcile_leaves configOwner cluster cfg config config' cfg' tr now s s' :
  ccst_Ready (cc_Status config) = false → wc_BootstrapToken cfg = "" →
  runs (reconcileWorkerBootstrapToken configOwner cluster cfg config) tr (config', Val (cfg', None)) →
  served now tr s s' →
  ∃ x id secret, BootstrapTokenRegexp_FindStringSubmatch (wc_BootstrapToken cfg') = [x; id; secret] ∧
    s' !! token_key id = Some (token_secret id secret now).
Proof.
  intros Hready Hempty Hr Hserved. unfold reconcileWorkerBootstrapToken in Hr.
  unfold mbind at 1, SM_bind at 1, get in Hr. cbn [pbind] in Hr. rewrite Hready in Hr.
  apply runs_SM_embed in Hr as [(_&?&_)|(tr1&tr2&r&->&Hr&Hend)]; [done|].
  destruct r as [cfg1|e]; [|by destruct Hend].
  destruct (set_config config _) as [c|e]; [|by destruct Hend]. destruct Hend as [-> [= _ ->]].
  rewrite app_nil_r in Hserved. unfold ensure_token in Hr. rewrite Hempty in Hr. simpl in Hr.
  apply runs_bind in Hr as [[_ ?]|(tr3&tr4&c'&->&Hc&Hr)]; [done|].
  apply getter_runs in Hc as [Hw Hc]. destruct c' as [c'|e]; [|by destruct Hr]. destruct Hc as [rest ->].
  apply served_app in Hserved as (s1&_&Hserved).
  apply runs_bind in Hr as [[_ ?]|(tr5&tr6&t&->&Hc&Hr)]; [done|].
  destruct t as [token|e]; [|by destruct Hr]. destruct Hr as [-> [= ->]]. rewrite app_nil_r in Hserved.
  exact (createToken_leaves _ _ _ _ _ _ Hc Hserved).
Qed.

Context {TCL : TokenCleanerLaws TC} `{!TokenLaws P, !ErrorLaws P, !MarshalLaws P}.

Definition alive (slack : Z) (token : string) (w : world) : Prop :=
  ∃ x id secret t0, BootstrapTokenRegexp_FindStringSubmatch token = [x; id; secret] ∧
    w_secrets w !! token_key id = Some (token_secret id secret t0) ∧
    t0 ≤ w_clock w ≤ w_deadline w ∧ w_deadline w ≤ t0 + DefaultTokenTTL / 2 + slack.

Lemma token_secret_fresh id secret t0 now :
  secret_expired (token_secret id secret t0) now → t0 + DefaultTokenTTL < now + Second.
Proof.
  intros (data&text&[= <-]&Htext&Hexp). apply expired_late.
  pose proof token_keys as Hk. rewrite !NoDup_cons, !not_elem_of_cons in Hk. destruct Hk as ((?&?&_)&(?&_)&_).
  rewrite !(lookup_insert_ne _ _ BootstrapTokenExpirationKey), lookup_insert_eq in Htext by done.
  by injection Htext as <-.
Qed.

Lemma step_alive slack token w w' :
  0 ≤ slack → slack + Second < DefaultTokenTTL / 2 →
  step slack token w w' → alive slack token w → alive slack token w'.
Proof.
  intros Hslack Hbound Hstep (x&id&secret&t0&Htok&Hs&[Ht Hd]&Hdead).
  assert (HTTL : 0 ≤ DefaultTokenTTL / 2 ∧ 2 * (DefaultTokenTTL / 2) = DefaultTokenTTL) by done.
  destruct Hstep as [s t t' d ?|s s' t d Hcl|configOwner cluster cfg config config' tr o s s' t d delay Hwait <- Hr Hserved Href
    |configOwner cluster cfg config config' tr o s s' t d Hwait <- Hr Hserved]; simpl in *.
  - exists x, id, secret, t0. simpl. split_and!; [done|done|lia..].
  - exists x, id, secret, t0. simpl. split_and!; [done| |done..].
    destruct (Hcl (token_key id)) as [-> |(y&Hy&Hexp&_)]; [by exists x, id, secret|done|].
    rewrite Hs in Hy. injection Hy as <-. apply token_secret_fresh in Hexp. lia.
  - destruct (reconcile_keeps _ _ _ _ _ _ _ _ _ _ _ _ _ _ Hwait Htok Hs Hr Hserved) as [_ Hnow].
    destruct (Hnow _ Href) as [Hs' ->]. exists x, id, secret, t. simpl. split_and!; [done|done|lia..].
  - destruct (reconcile_keeps _ _ _ _ _ _ _ _ _ _ _ _ _ _ Hwait Htok Hs Hr Hserved) as [[Hs'|Hs'] _].
    + exists x, id, secret, t0. simpl. split_and!; [done|done|lia..].
    + exists x, id, secret, t. simpl. split_and!; [done|done|lia..].
Qed.

(** C14: once a worker's token step has made its token, the workload cluster has
    the token's secret, and keeps it unexpired for as long as the machine is not
    up: whatever the API servers answer, refreshes that fail included, and with the
    cluster removing what has expired.  This holds if each time a reconciliation
    succeeds in writing the secret within the seven and a half minutes the code
    asks to wait and a [slack] of less than that again by a second. *)
Theorem token_outlives_joining slack configOwner cluster cfg config config' cfg' tr now s s' w :
  0 ≤ slack → slack + Second < DefaultTokenTTL / 2 →
  ccst_Ready (cc_Status config) = false → wc_BootstrapToken cfg = "" →
  runs (reconcileWorkerBootstrapToken configOwner cluster cfg config) tr (config', Val (cfg', None)) →
  served now tr s s' →
  rtc (step slack (wc_BootstrapToken cfg'))
    {| w_secrets := s'; w_clock := now; w_deadline := now + DefaultTokenTTL / 2 + slack |} w →
  ∃ x id secret t0,
    BootstrapTokenRegexp_FindStringSubmatch (wc_BootstrapToken cfg') = [x; id; secret] ∧
    w_secrets w !! token_key id = Some (token_secret id secret t0) ∧
    ¬ secret_expired (token_secret id secret t0) (w_clock w).
Proof.
  intros Hslack Hbound Hready Hempty Hr Hserved Hsteps.
  assert (HTTL : 0 ≤ DefaultTokenTTL / 2 ∧ 2 * (DefaultTokenTTL / 2) = DefaultTokenTTL) by done.
  assert (Halive : alive slack (wc_BootstrapToken cfg') w).
  { cut (alive slack (wc_BootstrapToken cfg')
      {| w_secrets := s'; w_clock := now; w_deadline := now + DefaultTokenTTL / 2 + slack |}).
    { induction Hsteps; eauto using step_alive. }
    destruct (reconcile_leaves _ _ _ _ _ _ _ _ _ _ Hready Hempty Hr Hserved) as (x&id&secret&?&?).
    exists x, id, secret, now. simpl. split_and!; [done|done|lia..]. }
  destruct Halive as (x&id&secret&t0&Htok&Hs&Ht&Hd). exists x, id, secret, t0. split_and!; [done|done|].
  intros Hexp%token_secret_fresh. lia.
Qed.
End token_lifetime.

(** ** A worker that is refreshed once, seven minutes later *)

Module TokenLifetimeWitness.
Import Reference ReferenceLaws Sample Fixtures BootstrapWitness BootstrapControllerWitness.

#[local] Instance cleaner : TokenCleaner := {|
  token_expired text now := ∃ t, text = fmt_d t ∧ t < now + Second |}.
#[local] Instance cleaner_laws : TokenCleanerLaws cleaner.
Proof. split. intros t now (t'&Heq&?). apply (inj pretty) in Heq. by subst. Qed.
#[local] Instance marshal_laws : MarshalLaws _.
Proof. split. by intros [| |] e [= <-]. Qed.

Definition token : string := "abcdef.0123456789abcdef".
Definition secret_at (t : Time) : Secret := token_secret "abcdef" "0123456789abcdef" t.
Definition client : list event := [
  @Ev k8s (Kubeconfig_FromSecret (cl_Key cluster)) (Ok "demo");
  @Ev k8s (Client_New {| rc_Data := "demo"; rc_Timeout := 0 |}) None].
Definition creation : list event := client ++ [
  @Ev k8s GenerateBootstrapToken (Ok token);
  @Ev k8s Now 0;
  @Ev k8s (Create_Secret remote (secret_at 0)) None].
Definition refresh : list event := client ++ [
  @Ev k8s (Get_Secret remote (token_key "abcdef")) (Ok (secret_at 0));
  @Ev k8s Now (7 * Minute);
  @Ev k8s (Update_Secret remote (secret_at (7 * Minute))) None].

Definition ready_object : CritConfig :=
  cc_with_status (ready_status (Some "node-1") (cc_Status crit_config)) worker_object.
Definition joined_config : WorkerConfiguration := with_token token worker_config.

Ltac follow := repeat (eexists _, _; split; [reflexivity|]); split; reflexivity.
Lemma creation_runs : ∃ config',
  runs (reconcileWorkerBootstrapToken worker_owner cluster worker_config worker_object) creation
    (config', Val (joined_config, None)).
Proof. eexists. follow. Qed.
Lemma refresh_runs : ∃ config',
  runs (reconcileWorkerBootstrapToken worker_owner cluster joined_config ready_object) refresh
    (config', Val (joined_config, Some token_requeue)).
Proof. eexists. follow. Qed.

Definition before : secrets := {[token_key "abcdef" := secret_at 0]}.
Definition after : secrets := <[token_key "abcdef" := secret_at (7 * Minute)]> before.
Lemma creation_served : served 0 creation ∅ before.
Proof.
  do 4 (eexists; split; [repeat split|]). eexists. split; [|reflexivity].
  split; [apply lookup_empty|]. by rewrite insert_empty.
Qed.
Lemma refresh_served : served (7 * Minute) refresh before after.
Proof.
  do 2 (eexists; split; [reflexivity|]). eexists. split.
  { split; [|reflexivity]. intros x [= <-]. apply lookup_singleton_eq. }
  eexists. split; [split; reflexivity|]. eexists. split; [|reflexivity].
  split; [|reflexivity]. eexists. apply lookup_singleton_eq.
Qed.

(** The controller is a minute late at most.  After fifteen minutes the token's
    first expiration has passed, and the token is valid. *)
Lemma token_outlives_joining_witness :
  ∃ id secret t0, after !! token_key id = Some (token_secret id secret t0) ∧
    ¬ secret_expired (token_secret id secret t0) (15 * Minute).
Proof.
  destruct creation_runs as [config' Hc], refresh_runs as [config2 Hr].
  destruct (token_outlives_joining Minute worker_owner cluster worker_config worker_object config'
    joined_config creation 0 ∅ before {| w_secrets := after; w_clock := 15 * Minute;
      w_deadline := 7 * Minute + DefaultTokenTTL / 2 + Minute |})
    as (x&id&secret&t0&_&Hs&Hexp); [discriminate|reflexivity|reflexivity|reflexivity|exact Hc|exact creation_served| |].
  - eapply rtc_l.
    { eapply (step_time _ _ _ _ (7 * Minute)). split; by apply Z.leb_le. }
    eapply rtc_l.
    { apply (step_refreshed _ _ worker_owner cluster joined_config ready_object config2 refresh
        (Val (joined_config, Some token_requeue)) before after (7 * Minute) _ (DefaultTokenTTL / 2));
        [by split|done|exact Hr|exact refresh_served|].
      split; [|by exists joined_config, token_requeue].
      apply Exists_exists. exists (@Ev k8s (Update_Secret remote (secret_at (7 * Minute))) None).
      split; [|done]. apply elem_of_app. right. do 2 right. left. }
    apply rtc_once, (step_time _ _ _ _ (15 * Minute)). split; by apply Z.leb_le.
  - exists id, secret, t0. split; [exact Hs|exact Hexp].
Defined.
End TokenLifetimeWitness.
