(* ===== verification/Conversion.v ===== *)
(** apis/bootstrap/v1alpha1 and apis/controlplane/v1alpha1: converting the old
    API version to the stored one and back (conversion.go, the *_conversion.go
    and zz_generated.conversion.go files).

    A conversion writes into an object the caller passes, [out]; it is a
    function from [in] and the old [out] to the new one.  On an error the
    object is not used.  An [unsafe.Pointer] cast reinterprets a value of one
    version as the other; the structs agree field by field, so the cast is the
    field-wise conversion. *)
From Stdlib Require Import Ascii.
From S2P Require Import Prelude GoRuntime ApiTypes Platform SamplePlatform.
Local Open Scope Z_scope.

(** A conversion may fail, and panics when it uses a nil scope. *)
Definition conv (E A : Type) : Type := outcome (result E A).
#[export] Instance conv_ret {E} : MRet (conv E) := λ A x, Val (Ok x).
#[export] Instance conv_bind {E} : MBind (conv E) := λ A B f m,
  match m with
  | Val (Ok x) => f x
  | Val (Err e) => Val (Err e)
  | Panic => Panic
  end.

(** The code of the crit project that conversions call: the version 1 types of
    its configurations, reading and writing them as YAML of version 2, and
    converting version 2 values.  Nothing is assumed of it: what it does to a
    configuration is part of what the theorems state. *)
Class CritConversion {P : Platform} : Type := {
  ControlPlaneConfiguration1 : Type;
  WorkerConfiguration1 : Type;
  zero_ControlPlaneConfiguration1 : ControlPlaneConfiguration1;
  zero_WorkerConfiguration1 : WorkerConfiguration1;
  MarshalToYaml_ControlPlane : ControlPlaneConfiguration1 → result error string;
  MarshalToYaml_Worker : WorkerConfiguration1 → result error string;
  UnmarshalFromYaml : string → result error RuntimeObject;
  Convert_ControlPlaneConfiguration :
    ControlPlaneConfiguration → ControlPlaneConfiguration1 → result error ControlPlaneConfiguration1;
  Convert_WorkerConfiguration :
    WorkerConfiguration → WorkerConfiguration1 → result error WorkerConfiguration1;
}.

(** ** The types of version 1 *)

Module v1alpha1.
Record File := {
  f_Path : string;
  f_Owner : string;
  f_Permissions : string;
  f_Encoding : string;
  f_Content : string;
}.
Record User := {
  u_Name : string;
  u_Gecos : option string;
  u_Groups : option string;
  u_HomeDir : option string;
  u_Inactive : option bool;
  u_Shell : option string;
  u_Passwd : option string;
  u_PrimaryGroup : option string;
  u_LockPassword : option bool;
  u_Sudo : option string;
  u_SSHAuthorizedKeys : list string;
}.
Record NTP := { n_Servers : list string; n_Enabled : option bool }.
Record CritConfigSpec `{CritConversion} := {
  s_ControlPlaneConfiguration : option ControlPlaneConfiguration1;
  s_WorkerConfiguration : option WorkerConfiguration1;
  s_Files : list File;
  s_PreCritCommands : list string;
  s_PostCritCommands : list string;
  s_Users : list User;
  s_NTP : option NTP;
  s_Format : string;
  s_Verbosity : bool;
}.
Record CritConfigStatus := {
  st_Ready : bool;
  st_DataSecretName : option string;
  st_FailureReason : string;
  st_FailureMessage : string;
}.
Record CritConfig `{CritConversion} := {
  c_Meta : ObjectMeta;
  c_Spec : CritConfigSpec;
  c_Status : CritConfigStatus;
}.
Record CritConfigTemplateResource `{CritConversion} := { r_Spec : CritConfigSpec }.
Record CritConfigTemplateSpec `{CritConversion} := { ts_Template : CritConfigTemplateResource }.
Record CritConfigTemplate `{CritConversion} := {
  t_Meta : ObjectMeta;
  t_Spec : CritConfigTemplateSpec;
}.
Record CritControlPlaneSpec `{CritConversion} := {
  cps_Replicas : Z;
  cps_Version : string;
  cps_InfrastructureTemplate : ObjectReference;
  cps_CritConfigSpec : CritConfigSpec;
}.
Record CritControlPlaneStatus := {
  cpst_Selector : string;
  cpst_Replicas : Z;
  cpst_UpdatedReplicas : Z;
  cpst_ReadyReplicas : Z;
  cpst_UnavailableReplicas : Z;
  cpst_Initialized : bool;
  cpst_Ready : bool;
  cpst_FailureReason : string;
  cpst_FailureMessage : option string;
}.
Record CritControlPlane `{CritConversion} := {
  cp_Meta : ObjectMeta;
  cp_Spec : CritControlPlaneSpec;
  cp_Status : CritControlPlaneStatus;
}.
(** A list object; nil items differ from no items. *)
Record List (A : Type) := { l_ResourceVersion : string; l_Items : option (list A) }.
Arguments l_ResourceVersion {A}.
Arguments l_Items {A}.
End v1alpha1.
Import v1alpha1.

(** The template types of version 2. *)
Record CritConfigTemplateResource2 := { r2_Spec : ApiTypes.CritConfigSpec }.
Record CritConfigTemplateSpec2 := { ts2_Template : CritConfigTemplateResource2 }.
Record CritConfigTemplate2 := { t2_Meta : ObjectMeta; t2_Spec : CritConfigTemplateSpec2 }.

(** ** Casts *)

Definition Convert_v1alpha1_File_To_v1alpha2_File (i : File) : ApiTypes.File := {|
  file_Path := f_Path i; file_Owner := f_Owner i; file_Permissions := f_Permissions i;
  file_Encoding := f_Encoding i; file_Content := f_Content i |}.
Definition Convert_v1alpha2_File_To_v1alpha1_File (i : ApiTypes.File) : File := {|
  f_Path := file_Path i; f_Owner := file_Owner i; f_Permissions := file_Permissions i;
  f_Encoding := file_Encoding i; f_Content := file_Content i |}.
Definition Convert_v1alpha1_NTP_To_v1alpha2_NTP (i : NTP) : ApiTypes.NTP :=
  {| ntp_Servers := n_Servers i; ntp_Enabled := n_Enabled i |}.
Definition Convert_v1alpha2_NTP_To_v1alpha1_NTP (i : ApiTypes.NTP) : NTP :=
  {| n_Servers := ntp_Servers i; n_Enabled := ntp_Enabled i |}.
Definition Convert_v1alpha1_User_To_v1alpha2_User (i : User) : ApiTypes.User := {|
  user_Name := u_Name i; user_Gecos := u_Gecos i; user_Groups := u_Groups i;
  user_HomeDir := u_HomeDir i; user_Inactive := u_Inactive i; user_Shell := u_Shell i;
  user_Passwd := u_Passwd i; user_PrimaryGroup := u_PrimaryGroup i;
  user_LockPassword := u_LockPassword i; user_Sudo := u_Sudo i;
  user_SSHAuthorizedKeys := u_SSHAuthorizedKeys i |}.
Definition Convert_v1alpha2_User_To_v1alpha1_User (i : ApiTypes.User) : User := {|
  u_Name := user_Name i; u_Gecos := user_Gecos i; u_Groups := user_Groups i;
  u_HomeDir := user_HomeDir i; u_Inactive := user_Inactive i; u_Shell := user_Shell i;
  u_Passwd := user_Passwd i; u_PrimaryGroup := user_PrimaryGroup i;
  u_LockPassword := user_LockPassword i; u_Sudo := user_Sudo i;
  u_SSHAuthorizedKeys := user_SSHAuthorizedKeys i |}.

(** ** Lists *)

(** The loop over the items of a list: the new slice starts with zero values. *)
Fixpoint convert_items {E A B} (f : A → B → conv E B) (zero : B) (items : list A) :
    conv E (list B) :=
  match items with
  | [] => mret []
  | i :: items' =>
      o ← f i zero;
      os ← convert_items f zero items';
      mret (o :: os)
  end.

Definition convert_list {E A B} (f : A → B → conv E B) (zero : B) (i : List A) :
    conv E (List B) :=
  match l_Items i with
  | None => mret {| l_ResourceVersion := l_ResourceVersion i; l_Items := None |}
  | Some items =>
      os ← convert_items f zero items;
      mret {| l_ResourceVersion := l_ResourceVersion i; l_Items := Some os |}
  end.

(** ** The conversions *)

Section conversion.
Context {P : Platform} {C : CritConversion}.

(** [conversion.Scope]: the generated code passes it on and the conversion of
    a control plane calls its [Convert] on the two configuration
    specifications. *)
Definition Scope : Type :=
  (CritConfigSpec → ApiTypes.CritConfigSpec → result error ApiTypes.CritConfigSpec) *
  (ApiTypes.CritConfigSpec → CritConfigSpec → result error CritConfigSpec).

(** *** CritConfigSpec *)

Definition autoConvert_v1alpha1_CritConfigSpec_To_v1alpha2_CritConfigSpec
    (i : CritConfigSpec) (o : ApiTypes.CritConfigSpec) : ApiTypes.CritConfigSpec := {|
  ccs_Config := ccs_Config o;
  ccs_Files := Convert_v1alpha1_File_To_v1alpha2_File <$> s_Files i;
  ccs_PreCritCommands := s_PreCritCommands i;
  ccs_PostCritCommands := s_PostCritCommands i;
  ccs_Users := Convert_v1alpha1_User_To_v1alpha2_User <$> s_Users i;
  ccs_NTP := Convert_v1alpha1_NTP_To_v1alpha2_NTP <$> s_NTP i;
  ccs_Format := s_Format i;
  ccs_Verbosity := s_Verbosity i |}.

Definition autoConvert_v1alpha2_CritConfigSpec_To_v1alpha1_CritConfigSpec
    (i : ApiTypes.CritConfigSpec) (o : CritConfigSpec) : CritConfigSpec := {|
  s_ControlPlaneConfiguration := s_ControlPlaneConfiguration o;
  s_WorkerConfiguration := s_WorkerConfiguration o;
  s_Files := Convert_v1alpha2_File_To_v1alpha1_File <$> ccs_Files i;
  s_PreCritCommands := ccs_PreCritCommands i;
  s_PostCritCommands := ccs_PostCritCommands i;
  s_Users := Convert_v1alpha2_User_To_v1alpha1_User <$> ccs_Users i;
  s_NTP := Convert_v1alpha2_NTP_To_v1alpha1_NTP <$> ccs_NTP i;
  s_Format := ccs_Format i;
  s_Verbosity := ccs_Verbosity i |}.

(** [out.Config], from the first configuration there is. *)
Definition marshalled_config (i : CritConfigSpec) (old : string) : result error string :=
  match s_ControlPlaneConfiguration i with
  | Some c => MarshalToYaml_ControlPlane c
  | None =>
      match s_WorkerConfiguration i with
      | Some c => MarshalToYaml_Worker c
      | None => Ok old
      end
  end.

Definition spec2_with_config (data : string) (o : ApiTypes.CritConfigSpec) :
    ApiTypes.CritConfigSpec := {|
  ccs_Config := data; ccs_Files := ccs_Files o; ccs_PreCritCommands := ccs_PreCritCommands o;
  ccs_PostCritCommands := ccs_PostCritCommands o; ccs_Users := ccs_Users o;
  ccs_NTP := ccs_NTP o; ccs_Format := ccs_Format o; ccs_Verbosity := ccs_Verbosity o |}.

Definition Convert_v1alpha1_CritConfigSpec_To_v1alpha2_CritConfigSpec
    (i : CritConfigSpec) (o : ApiTypes.CritConfigSpec) : conv error ApiTypes.CritConfigSpec :=
  match marshalled_config i (ccs_Config o) with
  | Err err => Val (Err err)
  | Ok data =>
      Val (Ok (autoConvert_v1alpha1_CritConfigSpec_To_v1alpha2_CritConfigSpec i
                 (spec2_with_config data o)))
  end.

Definition with_plane (c : ControlPlaneConfiguration1) (o : CritConfigSpec) : CritConfigSpec := {|
  s_ControlPlaneConfiguration := Some c; s_WorkerConfiguration := s_WorkerConfiguration o;
  s_Files := s_Files o; s_PreCritCommands := s_PreCritCommands o;
  s_PostCritCommands := s_PostCritCommands o; s_Users := s_Users o; s_NTP := s_NTP o;
  s_Format := s_Format o; s_Verbosity := s_Verbosity o |}.
Definition with_worker (c : WorkerConfiguration1) (o : CritConfigSpec) : CritConfigSpec := {|
  s_ControlPlaneConfiguration := s_ControlPlaneConfiguration o; s_WorkerConfiguration := Some c;
  s_Files := s_Files o; s_PreCritCommands := s_PreCritCommands o;
  s_PostCritCommands := s_PostCritCommands o; s_Users := s_Users o; s_NTP := s_NTP o;
  s_Format := s_Format o; s_Verbosity := s_Verbosity o |}.

(** The configuration is converted into the object [out] points to, or a new
    one; an object of another kind is left out. *)
Definition unmarshalled_config (config : string) (o : CritConfigSpec) : result error CritConfigSpec :=
  if String.eqb config "" then Ok o
  else
    match UnmarshalFromYaml config with
    | Err err => Err err
    | Ok (ControlPlaneObject cfg) =>
        match Convert_ControlPlaneConfiguration cfg
                (default zero_ControlPlaneConfiguration1 (s_ControlPlaneConfiguration o)) with
        | Err err => Err err
        | Ok c => Ok (with_plane c o)
        end
    | Ok (WorkerObject cfg) =>
        match Convert_WorkerConfiguration cfg
                (default zero_WorkerConfiguration1 (s_WorkerConfiguration o)) with
        | Err err => Err err
        | Ok c => Ok (with_worker c o)
        end
    | Ok (OtherObject _) => Ok o
    end.

Definition Convert_v1alpha2_CritConfigSpec_To_v1alpha1_CritConfigSpec
    (i : ApiTypes.CritConfigSpec) (o : CritConfigSpec) : conv error CritConfigSpec :=
  match unmarshalled_config (ccs_Config i) o with
  | Err err => Val (Err err)
  | Ok o => Val (Ok (autoConvert_v1alpha2_CritConfigSpec_To_v1alpha1_CritConfigSpec i o))
  end.

(** *** CritConfig *)

Definition Convert_v1alpha1_CritConfigStatus_To_v1alpha2_CritConfigStatus
    (i : CritConfigStatus) : ApiTypes.CritConfigStatus := {|
  ccst_Ready := st_Ready i; ccst_DataSecretName := st_DataSecretName i;
  ccst_FailureReason := st_FailureReason i; ccst_FailureMessage := st_FailureMessage i |}.
Definition Convert_v1alpha2_CritConfigStatus_To_v1alpha1_CritConfigStatus
    (i : ApiTypes.CritConfigStatus) : CritConfigStatus := {|
  st_Ready := ccst_Ready i; st_DataSecretName := ccst_DataSecretName i;
  st_FailureReason := ccst_FailureReason i; st_FailureMessage := ccst_FailureMessage i |}.

Definition Convert_v1alpha1_CritConfig_To_v1alpha2_CritConfig
    (i : CritConfig) (o : ApiTypes.CritConfig) : conv error ApiTypes.CritConfig :=
  spec ← Convert_v1alpha1_CritConfigSpec_To_v1alpha2_CritConfigSpec (c_Spec i) (cc_Spec o);
  mret {| cc_Meta := c_Meta i; cc_Spec := spec;
          cc_Status := Convert_v1alpha1_CritConfigStatus_To_v1alpha2_CritConfigStatus (c_Status i) |}.

Definition Convert_v1alpha2_CritConfig_To_v1alpha1_CritConfig
    (i : ApiTypes.CritConfig) (o : CritConfig) : conv error CritConfig :=
  spec ← Convert_v1alpha2_CritConfigSpec_To_v1alpha1_CritConfigSpec (cc_Spec i) (c_Spec o);
  mret {| c_Meta := cc_Meta i; c_Spec := spec;
          c_Status := Convert_v1alpha2_CritConfigStatus_To_v1alpha1_CritConfigStatus (cc_Status i) |}.

(** *** CritConfigTemplate *)

Definition Convert_v1alpha1_CritConfigTemplateResource_To_v1alpha2_CritConfigTemplateResource
    (i : CritConfigTemplateResource) (o : CritConfigTemplateResource2) :
    conv error CritConfigTemplateResource2 :=
  spec ← Convert_v1alpha1_CritConfigSpec_To_v1alpha2_CritConfigSpec (r_Spec i) (r2_Spec o);
  mret {| r2_Spec := spec |}.
Definition Convert_v1alpha2_CritConfigTemplateResource_To_v1alpha1_CritConfigTemplateResource
    (i : CritConfigTemplateResource2) (o : CritConfigTemplateResource) :
    conv error CritConfigTemplateResource :=
  spec ← Convert_v1alpha2_CritConfigSpec_To_v1alpha1_CritConfigSpec (r2_Spec i) (r_Spec o);
  mret {| r_Spec := spec |}.

Definition Convert_v1alpha1_CritConfigTemplateSpec_To_v1alpha2_CritConfigTemplateSpec
    (i : CritConfigTemplateSpec) (o : CritConfigTemplateSpec2) : conv error CritConfigTemplateSpec2 :=
  r ← Convert_v1alpha1_CritConfigTemplateResource_To_v1alpha2_CritConfigTemplateResource
        (ts_Template i) (ts2_Template o);
  mret {| ts2_Template := r |}.
Definition Convert_v1alpha2_CritConfigTemplateSpec_To_v1alpha1_CritConfigTemplateSpec
    (i : CritConfigTemplateSpec2) (o : CritConfigTemplateSpec) : conv error CritConfigTemplateSpec :=
  r ← Convert_v1alpha2_CritConfigTemplateResource_To_v1alpha1_CritConfigTemplateResource
        (ts2_Template i) (ts_Template o);
  mret {| ts_Template := r |}.

Definition Convert_v1alpha1_CritConfigTemplate_To_v1alpha2_CritConfigTemplate
    (i : CritConfigTemplate) (o : CritConfigTemplate2) : conv error CritConfigTemplate2 :=
  s ← Convert_v1alpha1_CritConfigTemplateSpec_To_v1alpha2_CritConfigTemplateSpec (t_Spec i) (t2_Spec o);
  mret {| t2_Meta := t_Meta i; t2_Spec := s |}.
Definition Convert_v1alpha2_CritConfigTemplate_To_v1alpha1_CritConfigTemplate
    (i : CritConfigTemplate2) (o : CritConfigTemplate) : conv error CritConfigTemplate :=
  s ← Convert_v1alpha2_CritConfigTemplateSpec_To_v1alpha1_CritConfigTemplateSpec (t2_Spec i) (t_Spec o);
  mret {| t_Meta := t2_Meta i; t_Spec := s |}.

(** *** CritControlPlane *)

(** The scope the conversions of this repository pass: it converts nothing. *)
Definition scope : Scope := (λ _ o, Ok o, λ _ o, Ok o).

(** Calls [s.Convert]; a nil scope is dereferenced. *)
Definition scope_Convert {A B} (f : Scope → A → B → result error B) (s : option Scope) (i : A) (o : B) :
    conv error B :=
  match s with
  | None => Panic
  | Some s => Val (f s i o)
  end.

Definition autoConvert_v1alpha1_CritControlPlaneSpec_To_v1alpha2_CritControlPlaneSpec
    (i : CritControlPlaneSpec) (o : ApiTypes.CritControlPlaneSpec) (s : option Scope) :
    conv error ApiTypes.CritControlPlaneSpec :=
  spec ← scope_Convert fst s (cps_CritConfigSpec i) (ccps_CritConfigSpec o);
  mret {| ccps_Replicas := cps_Replicas i; ccps_Version := cps_Version i;
          ccps_InfrastructureTemplate := cps_InfrastructureTemplate i;
          ccps_CritConfigSpec := spec |}.
Definition autoConvert_v1alpha2_CritControlPlaneSpec_To_v1alpha1_CritControlPlaneSpec
    (i : ApiTypes.CritControlPlaneSpec) (o : CritControlPlaneSpec) (s : option Scope) :
    conv error CritControlPlaneSpec :=
  spec ← scope_Convert snd s (ccps_CritConfigSpec i) (cps_CritConfigSpec o);
  mret {| cps_Replicas := ccps_Replicas i; cps_Version := ccps_Version i;
          cps_InfrastructureTemplate := ccps_InfrastructureTemplate i;
          cps_CritConfigSpec := spec |}.

(** The scope passed in is replaced. *)
Definition Convert_v1alpha1_CritControlPlaneSpec_To_v1alpha2_CritControlPlaneSpec
    (i : CritControlPlaneSpec) (o : ApiTypes.CritControlPlaneSpec) (s : option Scope) :
    conv error ApiTypes.CritControlPlaneSpec :=
  o ← autoConvert_v1alpha1_CritControlPlaneSpec_To_v1alpha2_CritControlPlaneSpec i o (Some scope);
  spec ← Convert_v1alpha1_CritConfigSpec_To_v1alpha2_CritConfigSpec
           (cps_CritConfigSpec i) (ccps_CritConfigSpec o);
  mret {| ccps_Replicas := ccps_Replicas o; ccps_Version := ccps_Version o;
          ccps_InfrastructureTemplate := ccps_InfrastructureTemplate o;
          ccps_CritConfigSpec := spec |}.
Definition Convert_v1alpha2_CritControlPlaneSpec_To_v1alpha1_CritControlPlaneSpec
    (i : ApiTypes.CritControlPlaneSpec) (o : CritControlPlaneSpec) (s : option Scope) :
    conv error CritControlPlaneSpec :=
  o ← autoConvert_v1alpha2_CritControlPlaneSpec_To_v1alpha1_CritControlPlaneSpec i o (Some scope);
  spec ← Convert_v1alpha2_CritConfigSpec_To_v1alpha1_CritConfigSpec
           (ccps_CritConfigSpec i) (cps_CritConfigSpec o);
  mret {| cps_Replicas := cps_Replicas o; cps_Version := cps_Version o;
          cps_InfrastructureTemplate := cps_InfrastructureTemplate o;
          cps_CritConfigSpec := spec |}.

Definition Convert_v1alpha1_CritControlPlaneStatus_To_v1alpha2_CritControlPlaneStatus
    (i : CritControlPlaneStatus) : ApiTypes.CritControlPlaneStatus := {|
  ccpst_Selector := cpst_Selector i; ccpst_Replicas := cpst_Replicas i;
  ccpst_UpdatedReplicas := cpst_UpdatedReplicas i; ccpst_ReadyReplicas := cpst_ReadyReplicas i;
  ccpst_UnavailableReplicas := cpst_UnavailableReplicas i;
  ccpst_Initialized := cpst_Initialized i; ccpst_Ready := cpst_Ready i;
  ccpst_FailureReason := cpst_FailureReason i; ccpst_FailureMessage := cpst_FailureMessage i |}.
Definition Convert_v1alpha2_CritControlPlaneStatus_To_v1alpha1_CritControlPlaneStatus
    (i : ApiTypes.CritControlPlaneStatus) : CritControlPlaneStatus := {|
  cpst_Selector := ccpst_Selector i; cpst_Replicas := ccpst_Replicas i;
  cpst_UpdatedReplicas := ccpst_UpdatedReplicas i; cpst_ReadyReplicas := ccpst_ReadyReplicas i;
  cpst_UnavailableReplicas := ccpst_UnavailableReplicas i;
  cpst_Initialized := ccpst_Initialized i; cpst_Ready := ccpst_Ready i;
  cpst_FailureReason := ccpst_FailureReason i; cpst_FailureMessage := ccpst_FailureMessage i |}.

Definition Convert_v1alpha1_CritControlPlane_To_v1alpha2_CritControlPlane
    (i : CritControlPlane) (o : ApiTypes.CritControlPlane) (s : option Scope) :
    conv error ApiTypes.CritControlPlane :=
  spec ← Convert_v1alpha1_CritControlPlaneSpec_To_v1alpha2_CritControlPlaneSpec
           (cp_Spec i) (ccp_Spec o) s;
  mret {| ccp_Meta := cp_Meta i; ccp_Spec := spec;
    ccp_Status := Convert_v1alpha1_CritControlPlaneStatus_To_v1alpha2_CritControlPlaneStatus (cp_Status i) |}.
Definition Convert_v1alpha2_CritControlPlane_To_v1alpha1_CritControlPlane
    (i : ApiTypes.CritControlPlane) (o : CritControlPlane) (s : option Scope) :
    conv error CritControlPlane :=
  spec ← Convert_v1alpha2_CritControlPlaneSpec_To_v1alpha1_CritControlPlaneSpec
           (ccp_Spec i) (cp_Spec o) s;
  mret {| cp_Meta := ccp_Meta i; cp_Spec := spec;
    cp_Status := Convert_v1alpha2_CritControlPlaneStatus_To_v1alpha1_CritControlPlaneStatus (ccp_Status i) |}.

(** *** The methods the conversion webhook calls: with a nil scope *)

Definition CritConfig_ConvertTo := Convert_v1alpha1_CritConfig_To_v1alpha2_CritConfig.
Definition CritConfig_ConvertFrom := λ dst src,
  Convert_v1alpha2_CritConfig_To_v1alpha1_CritConfig src dst.
Definition CritConfigTemplate_ConvertTo :=
  Convert_v1alpha1_CritConfigTemplate_To_v1alpha2_CritConfigTemplate.
Definition CritConfigTemplate_ConvertFrom := λ dst src,
  Convert_v1alpha2_CritConfigTemplate_To_v1alpha1_CritConfigTemplate src dst.
Definition CritControlPlane_ConvertTo := λ src dst,
  Convert_v1alpha1_CritControlPlane_To_v1alpha2_CritControlPlane src dst None.
Definition CritControlPlane_ConvertFrom := λ dst src,
  Convert_v1alpha2_CritControlPlane_To_v1alpha1_CritControlPlane src dst None.

(** Lists *)
Definition Convert_v1alpha1_CritConfigList_To_v1alpha2_CritConfigList :=
  convert_list Convert_v1alpha1_CritConfig_To_v1alpha2_CritConfig.
Definition Convert_v1alpha2_CritConfigList_To_v1alpha1_CritConfigList :=
  convert_list Convert_v1alpha2_CritConfig_To_v1alpha1_CritConfig.
Definition Convert_v1alpha1_CritConfigTemplateList_To_v1alpha2_CritConfigTemplateList :=
  convert_list Convert_v1alpha1_CritConfigTemplate_To_v1alpha2_CritConfigTemplate.
Definition Convert_v1alpha2_CritConfigTemplateList_To_v1alpha1_CritConfigTemplateList :=
  convert_list Convert_v1alpha2_CritConfigTemplate_To_v1alpha1_CritConfigTemplate.
Definition Convert_v1alpha1_CritControlPlaneList_To_v1alpha2_CritControlPlaneList zero i s :=
  convert_list (λ i o, Convert_v1alpha1_CritControlPlane_To_v1alpha2_CritControlPlane i o s) zero i.
Definition Convert_v1alpha2_CritControlPlaneList_To_v1alpha1_CritControlPlaneList zero i s :=
  convert_list (λ i o, Convert_v1alpha2_CritControlPlane_To_v1alpha1_CritControlPlane i o s) zero i.
End conversion.

(** ** Lemmas *)

Lemma File_12_21 f : Convert_v1alpha2_File_To_v1alpha1_File (Convert_v1alpha1_File_To_v1alpha2_File f) = f.
Proof. by destruct f. Qed.
Lemma File_21_12 f : Convert_v1alpha1_File_To_v1alpha2_File (Convert_v1alpha2_File_To_v1alpha1_File f) = f.
Proof. by destruct f. Qed.
Lemma User_12_21 u : Convert_v1alpha2_User_To_v1alpha1_User (Convert_v1alpha1_User_To_v1alpha2_User u) = u.
Proof. by destruct u. Qed.
Lemma User_21_12 u : Convert_v1alpha1_User_To_v1alpha2_User (Convert_v1alpha2_User_To_v1alpha1_User u) = u.
Proof. by destruct u. Qed.
Lemma NTP_12_21 n : Convert_v1alpha2_NTP_To_v1alpha1_NTP (Convert_v1alpha1_NTP_To_v1alpha2_NTP n) = n.
Proof. by destruct n. Qed.
Lemma NTP_21_12 n : Convert_v1alpha1_NTP_To_v1alpha2_NTP (Convert_v1alpha2_NTP_To_v1alpha1_NTP n) = n.
Proof. by destruct n. Qed.

Lemma fmap_inverse {A B} (f : A → B) (g : B → A) (l : list A) :
  (∀ x, g (f x) = x) → g <$> (f <$> l) = l.
Proof.
  intros H. rewrite <-list_fmap_compose. rewrite (list_fmap_ext _ id); [apply list_fmap_id|].
  intros i x _. apply H.
Qed.

Lemma option_inverse {A B} (f : A → B) (g : B → A) (x : option A) :
  (∀ x, g (f x) = x) → g <$> (f <$> x) = x.
Proof. intros H. destruct x; [|done]. simpl. by rewrite H. Qed.

Lemma conv_bind_Ok {E A B} (m : conv E A) (f : A → conv E B) y :
  m ≫= f = Val (Ok y) ↔ ∃ x, m = Val (Ok x) ∧ f x = Val (Ok y).
Proof.
  split; [|by intros (x&->&?)]. destruct m as [[x|e]|]; [by exists x|done|done].
Qed.

Section conversion_lemmas.
Context {P : Platform} {C : CritConversion}.

(** A new object of version 1: no configuration yet. *)
Definition blank (o : CritConfigSpec) : Prop :=
  s_ControlPlaneConfiguration o = None ∧ s_WorkerConfiguration o = None.

(** The specification with other configurations. *)
Definition with_configurations (c : option ControlPlaneConfiguration1 * option WorkerConfiguration1)
    (i : CritConfigSpec) : CritConfigSpec := {|
  s_ControlPlaneConfiguration := c.1; s_WorkerConfiguration := c.2;
  s_Files := s_Files i; s_PreCritCommands := s_PreCritCommands i;
  s_PostCritCommands := s_PostCritCommands i; s_Users := s_Users i; s_NTP := s_NTP i;
  s_Format := s_Format i; s_Verbosity := s_Verbosity i |}.

(** The configuration that is stored: of two the control plane's. *)
Definition stored_configuration (i : CritConfigSpec) :
    option ControlPlaneConfiguration1 * option WorkerConfiguration1 :=
  match s_ControlPlaneConfiguration i with
  | Some c => (Some c, None)
  | None => (None, s_WorkerConfiguration i)
  end.

(** The text crit writes for a configuration. *)
Definition text_of (c : option ControlPlaneConfiguration1 * option WorkerConfiguration1) : result error string :=
  match c with
  | (Some c, _) => MarshalToYaml_ControlPlane c
  | (None, Some c) => MarshalToYaml_Worker c
  | (None, None) => Ok ""
  end.

(** The configuration crit reads from a text, as version 1. *)
Definition read_as_version1 (text : string) :
    result error (option ControlPlaneConfiguration1 * option WorkerConfiguration1) :=
  if String.eqb text "" then Ok (None, None)
  else
    match UnmarshalFromYaml text with
    | Err e => Err e
    | Ok (ControlPlaneObject cfg) =>
        match Convert_ControlPlaneConfiguration cfg zero_ControlPlaneConfiguration1 with
        | Ok c => Ok (Some c, None)
        | Err e => Err e
        end
    | Ok (WorkerObject cfg) =>
        match Convert_WorkerConfiguration cfg zero_WorkerConfiguration1 with
        | Ok c => Ok (None, Some c)
        | Err e => Err e
        end
    | Ok (OtherObject _) => Ok (None, None)
    end.

Lemma with_stored_id i :
  s_ControlPlaneConfiguration i = None ∨ s_WorkerConfiguration i = None →
  with_configurations (stored_configuration i) i = i.
Proof.
  destruct i as [p w]; unfold with_configurations, stored_configuration; simpl.
  intros [->| ->]; [done|]. by destruct p.
Qed.

(** Into storage: the text of the configuration, and every other field. *)
Lemma spec_to_hub i o2 dst :
  ccs_Config o2 = "" →
  Convert_v1alpha1_CritConfigSpec_To_v1alpha2_CritConfigSpec i o2 = Val (Ok dst) ↔
  ∃ text, text_of (stored_configuration i) = Ok text ∧
    dst = autoConvert_v1alpha1_CritConfigSpec_To_v1alpha2_CritConfigSpec i (spec2_with_config text o2).
Proof.
  intros Ho2. unfold Convert_v1alpha1_CritConfigSpec_To_v1alpha2_CritConfigSpec.
  assert (marshalled_config i (ccs_Config o2) = text_of (stored_configuration i)) as ->.
  { unfold marshalled_config, text_of, stored_configuration. rewrite Ho2.
    destruct (s_ControlPlaneConfiguration i); [done|]. by destruct (s_WorkerConfiguration i). }
  destruct (text_of _) as [text|e]; [|naive_solver]. split.
  - intros [= <-]. by exists text.
  - by intros (?&[= <-]&->).
Qed.

(** Out of storage: what crit reads from the text, and every other field. *)
Lemma spec_from_hub i o1 :
  blank o1 →
  Convert_v1alpha2_CritConfigSpec_To_v1alpha1_CritConfigSpec i o1 =
    Val match read_as_version1 (ccs_Config i) with
        | Ok c => Ok (autoConvert_v1alpha2_CritConfigSpec_To_v1alpha1_CritConfigSpec i (with_configurations c o1))
        | Err e => Err e
        end.
Proof.
  intros [Hp Hw]. unfold Convert_v1alpha2_CritConfigSpec_To_v1alpha1_CritConfigSpec,
    unmarshalled_config, read_as_version1, autoConvert_v1alpha2_CritConfigSpec_To_v1alpha1_CritConfigSpec.
  rewrite Hp, Hw. cbn [default].
  repeat (case_match; try done); simplify_eq; simpl; by rewrite ?Hp, ?Hw.
Qed.

Lemma spec_fields_back i text c o1 o2 :
  autoConvert_v1alpha2_CritConfigSpec_To_v1alpha1_CritConfigSpec
    (autoConvert_v1alpha1_CritConfigSpec_To_v1alpha2_CritConfigSpec i (spec2_with_config text o2))
    (with_configurations c o1) = with_configurations c i.
Proof.
  unfold autoConvert_v1alpha2_CritConfigSpec_To_v1alpha1_CritConfigSpec, with_configurations.
  simpl. f_equal; [apply fmap_inverse, File_12_21|apply fmap_inverse, User_12_21|apply option_inverse, NTP_12_21].
Qed.

(** A version 1 specification as it comes back from storage. *)
Lemma spec_roundtrip i o2 o1 dst :
  ccs_Config o2 = "" → blank o1 →
  Convert_v1alpha1_CritConfigSpec_To_v1alpha2_CritConfigSpec i o2 = Val (Ok dst) →
  text_of (stored_configuration i) = Ok (ccs_Config dst) ∧
  Convert_v1alpha2_CritConfigSpec_To_v1alpha1_CritConfigSpec dst o1 =
    Val match read_as_version1 (ccs_Config dst) with
        | Ok c => Ok (with_configurations c i)
        | Err e => Err e
        end.
Proof.
  intros Ho2 Ho1 (text&Htext&->)%spec_to_hub; [|done]. split; [exact Htext|].
  rewrite spec_from_hub by done. cbn [ccs_Config autoConvert_v1alpha1_CritConfigSpec_To_v1alpha2_CritConfigSpec
    spec2_with_config]. destruct (read_as_version1 text); [|done]. by rewrite spec_fields_back.
Qed.

(** The hub's specification survives a visit to version 1 except for the text
    of its configuration: it is the one crit writes for what it read. *)
Definition same_but_rewritten (before after : ApiTypes.CritConfigSpec) : Prop :=
  after = spec2_with_config (ccs_Config after) before ∧
  ∃ c, read_as_version1 (ccs_Config before) = Ok c ∧ text_of c = Ok (ccs_Config after).

Lemma read_one text c : read_as_version1 text = Ok c → c.1 = None ∨ c.2 = None.
Proof. unfold read_as_version1. repeat case_match; naive_solver. Qed.

Lemma spec_hub_roundtrip i o1 o2 mid dst :
  ccs_Config o2 = "" → blank o1 →
  Convert_v1alpha2_CritConfigSpec_To_v1alpha1_CritConfigSpec i o1 = Val (Ok mid) →
  Convert_v1alpha1_CritConfigSpec_To_v1alpha2_CritConfigSpec mid o2 = Val (Ok dst) →
  same_but_rewritten i dst.
Proof.
  intros Ho2 Ho1. rewrite spec_from_hub by done. intros Hmid (text&Htext&->)%spec_to_hub; [|done].
  destruct (read_as_version1 (ccs_Config i)) as [c|] eqn:Hread; [|done]. injection Hmid as <-. split.
  - unfold spec2_with_config, autoConvert_v1alpha1_CritConfigSpec_To_v1alpha2_CritConfigSpec,
      autoConvert_v1alpha2_CritConfigSpec_To_v1alpha1_CritConfigSpec.
    cbn [s_Files s_PreCritCommands s_PostCritCommands s_Users s_NTP s_Format s_Verbosity ccs_Config].
    f_equal; [apply fmap_inverse, File_21_12|apply fmap_inverse, User_21_12|apply option_inverse, NTP_21_12].
  - exists c. split; [exact Hread|]. cbn [ccs_Config autoConvert_v1alpha1_CritConfigSpec_To_v1alpha2_CritConfigSpec
      spec2_with_config]. rewrite <-Htext. apply read_one in Hread. destruct c as [[c|] w]; [|done].
    destruct Hread as [|Hw]; [done|]. simpl in Hw. by subst w.
Qed.
(** Converting a control plane's specification: its fields, and the
    configuration's specification into what [out] has, which the scope leaves
    as it is. *)
Lemma plane_spec_to_Ok i o s dst :
  Convert_v1alpha1_CritControlPlaneSpec_To_v1alpha2_CritControlPlaneSpec i o s = Val (Ok dst) ↔
  ∃ spec, Convert_v1alpha1_CritConfigSpec_To_v1alpha2_CritConfigSpec
            (cps_CritConfigSpec i) (ccps_CritConfigSpec o) = Val (Ok spec) ∧
    dst = {| ccps_Replicas := cps_Replicas i; ccps_Version := cps_Version i;
             ccps_InfrastructureTemplate := cps_InfrastructureTemplate i; ccps_CritConfigSpec := spec |}.
Proof.
  unfold Convert_v1alpha1_CritControlPlaneSpec_To_v1alpha2_CritControlPlaneSpec. simpl.
  rewrite conv_bind_Ok. split; intros (spec&?&H); exists spec; (split; [done|]).
  - by injection H.
  - by rewrite H.
Qed.

Lemma plane_spec_from_Ok i o s dst :
  Convert_v1alpha2_CritControlPlaneSpec_To_v1alpha1_CritControlPlaneSpec i o s = Val (Ok dst) ↔
  ∃ spec, Convert_v1alpha2_CritConfigSpec_To_v1alpha1_CritConfigSpec
            (ccps_CritConfigSpec i) (cps_CritConfigSpec o) = Val (Ok spec) ∧
    dst = {| cps_Replicas := ccps_Replicas i; cps_Version := ccps_Version i;
             cps_InfrastructureTemplate := ccps_InfrastructureTemplate i; cps_CritConfigSpec := spec |}.
Proof.
  unfold Convert_v1alpha2_CritControlPlaneSpec_To_v1alpha1_CritControlPlaneSpec. simpl.
  rewrite conv_bind_Ok. split; intros (spec&?&H); exists spec; (split; [done|]).
  - by injection H.
  - by rewrite H.
Qed.

Lemma conv_bind_no_panic {E A B} (m : conv E A) (f : A → conv E B) :
  m ≠ Panic → (∀ x, f x ≠ Panic) → m ≫= f ≠ Panic.
Proof. destruct m as [[x|e]|]; naive_solver. Qed.

Lemma plane_spec_to_no_panic i o s :
  Convert_v1alpha1_CritControlPlaneSpec_To_v1alpha2_CritControlPlaneSpec i o s ≠ Panic.
Proof.
  apply conv_bind_no_panic; [done|]. intros ?. apply conv_bind_no_panic; [|done].
  unfold Convert_v1alpha1_CritConfigSpec_To_v1alpha2_CritConfigSpec. by destruct (marshalled_config _ _).
Qed.

Lemma plane_spec_from_no_panic i o s :
  Convert_v1alpha2_CritControlPlaneSpec_To_v1alpha1_CritControlPlaneSpec i o s ≠ Panic.
Proof.
  apply conv_bind_no_panic; [done|]. intros ?. apply conv_bind_no_panic; [|done].
  unfold Convert_v1alpha2_CritConfigSpec_To_v1alpha1_CritConfigSpec. by destruct (unmarshalled_config _ _).
Qed.
End conversion_lemmas.

(** Converting the items of a list keeps their number and order. *)
Lemma convert_items_Forall2 {E A B} (f : A → B → conv E B) zero items os :
  convert_items f zero items = Val (Ok os) ↔ Forall2 (λ i o, f i zero = Val (Ok o)) items os.
Proof.
  revert os; induction items as [|i items IH]; intros os; simpl.
  - split; [intros [= <-]; constructor|by inversion 1].
  - rewrite conv_bind_Ok. setoid_rewrite conv_bind_Ok. setoid_rewrite IH. split.
    + intros (o&Ho&os'&Hos&[= <-]). by constructor.
    + inversion 1; subst. eauto 10.
Qed.

(** ** Properties *)

Section conversion_properties.
Context {P : Platform} {C : CritConversion}.

(** A version 1 object with other configurations. *)
Definition config_with c (i : CritConfig) : CritConfig :=
  {| c_Meta := c_Meta i; c_Spec := with_configurations c (c_Spec i); c_Status := c_Status i |}.
Definition plane_with c (i : CritControlPlane) : CritControlPlane :=
  {| cp_Meta := cp_Meta i;
     cp_Spec := {| cps_Replicas := cps_Replicas (cp_Spec i); cps_Version := cps_Version (cp_Spec i);
       cps_InfrastructureTemplate := cps_InfrastructureTemplate (cp_Spec i);
       cps_CritConfigSpec := with_configurations c (cps_CritConfigSpec (cp_Spec i)) |};
     cp_Status := cp_Status i |}.

Lemma config_with_stored i :
  s_ControlPlaneConfiguration (c_Spec i) = None ∨ s_WorkerConfiguration (c_Spec i) = None →
  config_with (stored_configuration (c_Spec i)) i = i.
Proof. intros Hone. unfold config_with. rewrite with_stored_id by done. by destruct i. Qed.

Lemma config_back src o2 o1 dst :
  ccs_Config (cc_Spec o2) = "" → blank (c_Spec o1) →
  CritConfig_ConvertTo src o2 = Val (Ok dst) →
  text_of (stored_configuration (c_Spec src)) = Ok (ccs_Config (cc_Spec dst)) ∧
  CritConfig_ConvertFrom o1 dst =
    Val match read_as_version1 (ccs_Config (cc_Spec dst)) with
        | Ok c => Ok (config_with c src)
        | Err e => Err e
        end.
Proof.
  intros Ho2 Ho1 (spec&Hs&[= <-])%conv_bind_Ok.
  destruct (spec_roundtrip _ _ (c_Spec o1) _ Ho2 Ho1 Hs) as [Htext Hback]. split; [exact Htext|].
  unfold CritConfig_ConvertFrom, Convert_v1alpha2_CritConfig_To_v1alpha1_CritConfig. cbn [cc_Spec].
  rewrite Hback. destruct (read_as_version1 _) as [c|]; [|done]. by destruct src as [? ? []].
Qed.

(** What every stored item becomes. *)
Definition back_from_storage (i i' : CritConfig) : Prop :=
  ∃ text c, text_of (stored_configuration (c_Spec i)) = Ok text ∧ read_as_version1 text = Ok c ∧
    i' = config_with c i.

(** C37: a CritConfig of version 1 goes into storage and back without a panic:
    everything but its configuration comes back as it was.  What is stored of the
    configuration, of two the control plane's, is the text crit writes for it, and
    what comes back is what crit reads from that text, as version 1, or its
    error.  So the object comes back unchanged if it has at most one
    configuration and crit reads that from its own text.  The same holds of
    every object of a list, in order. *)
Theorem CritConfig_survives_storage src o2 o1 :
  ccs_Config (cc_Spec o2) = "" → blank (c_Spec o1) →
  CritConfig_ConvertTo src o2 ≠ Panic ∧
  (∀ dst, CritConfig_ConvertTo src o2 = Val (Ok dst) →
     let text := ccs_Config (cc_Spec dst) in
     text_of (stored_configuration (c_Spec src)) = Ok text ∧
     CritConfig_ConvertFrom o1 dst =
       Val match read_as_version1 text with Ok c => Ok (config_with c src) | Err e => Err e end ∧
     (s_ControlPlaneConfiguration (c_Spec src) = None ∨ s_WorkerConfiguration (c_Spec src) = None →
      read_as_version1 text = Ok (stored_configuration (c_Spec src)) →
      CritConfig_ConvertFrom o1 dst = Val (Ok src))) ∧
  (∀ l l2 l', Convert_v1alpha1_CritConfigList_To_v1alpha2_CritConfigList o2 l = Val (Ok l2) →
     Convert_v1alpha2_CritConfigList_To_v1alpha1_CritConfigList o1 l2 = Val (Ok l') →
     l_ResourceVersion l' = l_ResourceVersion l ∧
     option_Forall2 (Forall2 back_from_storage) (l_Items l) (l_Items l')).
Proof.
  intros Ho2 Ho1. split_and!.
  - unfold CritConfig_ConvertTo, Convert_v1alpha1_CritConfig_To_v1alpha2_CritConfig,
      Convert_v1alpha1_CritConfigSpec_To_v1alpha2_CritConfigSpec.
    by destruct (marshalled_config _ _).
  - intros dst Hto text. destruct (config_back _ _ _ _ Ho2 Ho1 Hto) as [Htext Hback].
    split; [exact Htext|]. split; [exact Hback|]. intros Hone Hread. unfold text in Hread.
    rewrite Hback, Hread. by rewrite config_with_stored.
  - intros l l2 l'. unfold Convert_v1alpha1_CritConfigList_To_v1alpha2_CritConfigList,
      Convert_v1alpha2_CritConfigList_To_v1alpha1_CritConfigList, convert_list.
    destruct (l_Items l) as [items|]; [|intros [= <-] [= <-]; split; [done|constructor]].
    intros (os&Hos&[= <-])%conv_bind_Ok (ks&His&[= <-])%conv_bind_Ok. cbn [l_Items l_ResourceVersion].
    split; [done|]. constructor. apply convert_items_Forall2 in Hos, His. clear l.
    revert ks His. induction Hos as [|i o items os Hi Hos IH]; intros ks His.
    { inversion His. constructor. }
    apply Forall2_cons_inv_l in His as (i'&ks'&Hi'&His&->). constructor; [|by apply IH].
    destruct (config_back _ _ _ _ Ho2 Ho1 Hi) as [Htext Hback]. unfold CritConfig_ConvertFrom in Hback.
    rewrite Hback in Hi'. destruct (read_as_version1 _) as [c|] eqn:Hread; [|done]. injection Hi' as <-.
    by eexists _, c.
Qed.

(** The conversions of a control plane never use the nil scope the webhook
    passes, so they cannot panic; and a control plane of version 1 comes back
    from storage as a CritConfig does. *)
Theorem CritControlPlane_survives_storage src o2 o1 :
  ccs_Config (ccps_CritConfigSpec (ccp_Spec o2)) = "" → blank (cps_CritConfigSpec (cp_Spec o1)) →
  CritControlPlane_ConvertTo src o2 ≠ Panic ∧
  (∀ hub, CritControlPlane_ConvertFrom o1 hub ≠ Panic) ∧
  ∀ dst, CritControlPlane_ConvertTo src o2 = Val (Ok dst) →
    let text := ccs_Config (ccps_CritConfigSpec (ccp_Spec dst)) in
    text_of (stored_configuration (cps_CritConfigSpec (cp_Spec src))) = Ok text ∧
    CritControlPlane_ConvertFrom o1 dst =
      Val match read_as_version1 text with Ok c => Ok (plane_with c src) | Err e => Err e end.
Proof.
  intros Ho2 Ho1. split_and!.
  - unfold CritControlPlane_ConvertTo, Convert_v1alpha1_CritControlPlane_To_v1alpha2_CritControlPlane.
    apply conv_bind_no_panic; [apply plane_spec_to_no_panic|done].
  - intros hub. unfold CritControlPlane_ConvertFrom,
      Convert_v1alpha2_CritControlPlane_To_v1alpha1_CritControlPlane.
    apply conv_bind_no_panic; [apply plane_spec_from_no_panic|done].
  - intros dst (spec&(sp&Hsp&->)%plane_spec_to_Ok&[= <-])%conv_bind_Ok. cbn [ccp_Spec ccps_CritConfigSpec].
    destruct (spec_roundtrip _ _ _ _ Ho2 Ho1 Hsp) as [Htext Hback]. split; [exact Htext|].
    unfold CritControlPlane_ConvertFrom, Convert_v1alpha2_CritControlPlane_To_v1alpha1_CritControlPlane,
      Convert_v1alpha2_CritControlPlaneSpec_To_v1alpha1_CritControlPlaneSpec. simpl. rewrite Hback.
    destruct (read_as_version1 _) as [c|]; [|done]. by destruct src as [? ? []].
Qed.

(** C38: an object of the stored version that a client reads and writes back as
    version 1 keeps everything but the text of its configuration.  That becomes
    the text crit writes for the version 1 of the configuration it read; it is
    empty if it was, or if the configuration is of neither kind.  This holds of
    CritConfigs, of their templates and of control planes. *)
Theorem hub_survives_version1 :
  (∀ hub o1 o2 mid dst,
    ccs_Config (cc_Spec o2) = "" → blank (c_Spec o1) →
    CritConfig_ConvertFrom o1 hub = Val (Ok mid) → CritConfig_ConvertTo mid o2 = Val (Ok dst) →
    cc_Meta dst = cc_Meta hub ∧ cc_Status dst = cc_Status hub ∧ same_but_rewritten (cc_Spec hub) (cc_Spec dst)) ∧
  (∀ hub o1 o2 mid dst,
    ccs_Config (r2_Spec (ts2_Template (t2_Spec o2))) = "" → blank (r_Spec (ts_Template (t_Spec o1))) →
    CritConfigTemplate_ConvertFrom o1 hub = Val (Ok mid) →
    CritConfigTemplate_ConvertTo mid o2 = Val (Ok dst) →
    t2_Meta dst = t2_Meta hub ∧
    same_but_rewritten (r2_Spec (ts2_Template (t2_Spec hub))) (r2_Spec (ts2_Template (t2_Spec dst)))) ∧
  (∀ hub o1 o2 mid dst,
    ccs_Config (ccps_CritConfigSpec (ccp_Spec o2)) = "" → blank (cps_CritConfigSpec (cp_Spec o1)) →
    CritControlPlane_ConvertFrom o1 hub = Val (Ok mid) →
    CritControlPlane_ConvertTo mid o2 = Val (Ok dst) →
    ccp_Meta dst = ccp_Meta hub ∧ ccp_Status dst = ccp_Status hub ∧
    dst = {| ccp_Meta := ccp_Meta hub; ccp_Status := ccp_Status hub; ccp_Spec := {|
      ccps_Replicas := ccps_Replicas (ccp_Spec hub); ccps_Version := ccps_Version (ccp_Spec hub);
      ccps_InfrastructureTemplate := ccps_InfrastructureTemplate (ccp_Spec hub);
      ccps_CritConfigSpec := ccps_CritConfigSpec (ccp_Spec dst) |} |} ∧
    same_but_rewritten (ccps_CritConfigSpec (ccp_Spec hub)) (ccps_CritConfigSpec (ccp_Spec dst))).
Proof.
  split_and!; intros hub o1 o2 mid dst Ho2 Ho1.
  - intros (s1&H1&[= <-])%conv_bind_Ok (s2&H2&[= <-])%conv_bind_Ok. split_and!; simpl.
    + done.
    + by destruct hub as [? ? []].
    + by eapply spec_hub_roundtrip.
  - intros (s1&(r1&(p1&H1&[= <-])%conv_bind_Ok&[= <-])%conv_bind_Ok&[= <-])%conv_bind_Ok
      (s2&(r2&(p2&H2&[= <-])%conv_bind_Ok&[= <-])%conv_bind_Ok&[= <-])%conv_bind_Ok.
    split; [done|]. by eapply spec_hub_roundtrip.
  - intros (s1&(p1&H1&->)%plane_spec_from_Ok&[= <-])%conv_bind_Ok
      (s2&(p2&H2&->)%plane_spec_to_Ok&[= <-])%conv_bind_Ok.
    split_and!; [done|by destruct hub as [? ? []]|by destruct hub as [? ? []]|].
    by eapply spec_hub_roundtrip.
Qed.
End conversion_properties.

(** ** Witnesses: a crit project whose version 1 configurations are a name, and
    which converts only configurations that set nothing else. *)

Module ConversionWitness.
Import Sample.

#[export] Instance NodeConfiguration_eq_dec : EqDecision NodeConfiguration.
Proof. solve_decision. Defined.
#[export] Instance endpoint_eq_dec : EqDecision APIEndpoint.
Proof. solve_decision. Defined.
#[export] Instance ControlPlaneConfiguration_eq_dec : EqDecision ControlPlaneConfiguration.
Proof. solve_decision. Defined.
#[export] Instance WorkerConfiguration_eq_dec : EqDecision WorkerConfiguration.
Proof. solve_decision. Defined.

Definition node : NodeConfiguration :=
  {| nc_KubeDir := ""; nc_KubernetesVersion := ""; nc_ClusterDomain := "" |}.
Definition plane (name : string) : ControlPlaneConfiguration := {|
  cpc_ClusterName := name; cpc_ControlPlaneEndpoint := {| ep_Host := ""; ep_Port := 0 |};
  cpc_ExtraSANs := []; cpc_ServiceSubnet := ""; cpc_PodSubnet := "";
  cpc_NodeConfiguration := node; cpc_Rest := "" |}.
Definition worker (name : string) : WorkerConfiguration := {|
  wc_ClusterName := name; wc_ControlPlaneEndpoint := {| ep_Host := ""; ep_Port := 0 |};
  wc_BootstrapToken := ""; wc_NodeConfiguration := node; wc_Rest := "" |}.

#[export] Instance crit : CritConversion := {|
  ControlPlaneConfiguration1 := string;
  WorkerConfiguration1 := string;
  zero_ControlPlaneConfiguration1 := "";
  zero_WorkerConfiguration1 := "";
  MarshalToYaml_ControlPlane c := Ok (String "c"%char c);
  MarshalToYaml_Worker c := Ok (String "w"%char c);
  UnmarshalFromYaml s :=
    match s with
    | String "c"%char n => Ok (ControlPlaneObject (plane n))
    | String "w"%char n => Ok (WorkerObject (worker n))
    | String _ n => Ok (OtherObject {| gvk_Group := ""; gvk_Version := ""; gvk_Kind := n |})
    | EmptyString => Err (Msg "empty")
    end;
  Convert_ControlPlaneConfiguration cfg _ :=
    if decide (cfg = plane (cpc_ClusterName cfg)) then Ok (cpc_ClusterName cfg)
    else Err (Msg "not convertible");
  Convert_WorkerConfiguration cfg _ :=
    if decide (cfg = worker (wc_ClusterName cfg)) then Ok (wc_ClusterName cfg)
    else Err (Msg "not convertible");
|}.

Definition some_files : list File :=
  [{| f_Path := "/etc/motd"; f_Owner := "root:root"; f_Permissions := "0644";
      f_Encoding := ""; f_Content := "hello" |}].
Definition spec (p w : option string) : CritConfigSpec := {|
  s_ControlPlaneConfiguration := p; s_WorkerConfiguration := w; s_Files := some_files;
  s_PreCritCommands := ["true"]; s_PostCritCommands := []; s_Users := [];
  s_NTP := Some {| n_Servers := ["ntp.org"]; n_Enabled := Some false |};
  s_Format := "cloud-config"; s_Verbosity := true |}.
Definition empty_spec : CritConfigSpec := {|
  s_ControlPlaneConfiguration := None; s_WorkerConfiguration := None; s_Files := [];
  s_PreCritCommands := []; s_PostCritCommands := []; s_Users := []; s_NTP := None;
  s_Format := ""; s_Verbosity := false |}.
Definition empty_spec2 : ApiTypes.CritConfigSpec := {|
  ccs_Config := ""; ccs_Files := []; ccs_PreCritCommands := []; ccs_PostCritCommands := [];
  ccs_Users := []; ccs_NTP := None; ccs_Format := ""; ccs_Verbosity := false |}.
Definition status : CritConfigStatus := {|
  st_Ready := true; st_DataSecretName := Some "node"; st_FailureReason := ""; st_FailureMessage := "" |}.
Definition config (s : CritConfigSpec) : CritConfig :=
  {| c_Meta := meta "node" "default"; c_Spec := s; c_Status := status |}.
Definition empty_config2 : ApiTypes.CritConfig := {|
  cc_Meta := meta "" ""; cc_Spec := empty_spec2;
  cc_Status := {| ccst_Ready := false; ccst_DataSecretName := None; ccst_FailureReason := "";
                  ccst_FailureMessage := "" |} |}.
Definition control_plane (s : CritConfigSpec) : CritControlPlane := {|
  cp_Meta := meta "cp" "default";
  cp_Spec := {| cps_Replicas := 3; cps_Version := "v1.18.5";
    cps_InfrastructureTemplate := Fixtures.ref "AWSMachineTemplate" "cp"; cps_CritConfigSpec := s |};
  cp_Status := {| cpst_Selector := ""; cpst_Replicas := 3; cpst_UpdatedReplicas := 3;
    cpst_ReadyReplicas := 2; cpst_UnavailableReplicas := 1; cpst_Initialized := true;
    cpst_Ready := true; cpst_FailureReason := ""; cpst_FailureMessage := None |} |}.
Definition empty_plane2 : ApiTypes.CritControlPlane := {|
  ccp_Meta := meta "" "";
  ccp_Spec := {| ccps_Replicas := 0; ccps_Version := "";
    ccps_InfrastructureTemplate := Fixtures.ref "" ""; ccps_CritConfigSpec := empty_spec2 |};
  ccp_Status := ccp_Status (Fixtures.ccp 0) |}.

(** An object comes back as it was; of one that has both configurations the
    worker's is lost. *)
Lemma CritConfig_survives_storage_witness :
  (∃ dst, CritConfig_ConvertTo (config (spec None (Some "demo"))) empty_config2 = Val (Ok dst) ∧
     CritConfig_ConvertFrom (config empty_spec) dst = Val (Ok (config (spec None (Some "demo"))))) ∧
  (∃ dst, CritConfig_ConvertTo (config (spec (Some "demo") (Some "other"))) empty_config2 = Val (Ok dst) ∧
     CritConfig_ConvertFrom (config empty_spec) dst = Val (Ok (config (spec (Some "demo") None)))).
Proof.
  assert (Ho2 : ccs_Config (cc_Spec empty_config2) = "") by reflexivity.
  assert (Ho1 : blank (c_Spec (config empty_spec))) by (split; reflexivity).
  split; eexists; (split; [reflexivity|]).
  - destruct (CritConfig_survives_storage (config (spec None (Some "demo"))) _ _ Ho2 Ho1) as (_&H&_).
    apply (H _ eq_refl); [by left|by_evaluation].
  - destruct (CritConfig_survives_storage (config (spec (Some "demo") (Some "other"))) _ _ Ho2 Ho1) as (_&H&_).
    destruct (H _ eq_refl) as (_&->&_). by_evaluation.
Defined.

Lemma CritControlPlane_survives_storage_witness :
  (CritControlPlane_ConvertFrom (control_plane empty_spec) <$>
     match CritControlPlane_ConvertTo (control_plane (spec None (Some "demo"))) empty_plane2 with
     | Val (Ok dst) => Some dst | _ => None end) =
  Some (Val (Ok (control_plane (spec None (Some "demo"))))).
Proof.
  destruct (CritControlPlane_ConvertTo (control_plane (spec None (Some "demo"))) empty_plane2)
    as [[dst|]|] eqn:Hto; [|discriminate Hto|discriminate Hto].
  destruct (CritControlPlane_survives_storage (control_plane (spec None (Some "demo")))
    empty_plane2 (control_plane empty_spec)) as (_&_&H); [reflexivity|split; reflexivity|].
  destruct (H dst Hto) as [Htext Hback]. injection Htext as Htext. rewrite <-Htext in Hback.
  exact (f_equal Some Hback).
Defined.

Definition hub (text : string) : ApiTypes.CritConfig := {|
  cc_Meta := meta "node" "default"; cc_Spec := spec2_with_config text empty_spec2;
  cc_Status := cc_Status empty_config2 |}.

Definition hub_as_version1 : CritConfig := {|
  c_Meta := meta "node" "default"; c_Spec := with_plane "demo" empty_spec;
  c_Status := Convert_v1alpha2_CritConfigStatus_To_v1alpha1_CritConfigStatus
                (cc_Status empty_config2) |}.

Lemma hub_survives_version1_witness :
  CritConfig_ConvertFrom (config empty_spec) (hub "cdemo") = Val (Ok hub_as_version1) ∧
  CritConfig_ConvertTo hub_as_version1 empty_config2 = Val (Ok (hub "cdemo")) ∧
  same_but_rewritten (cc_Spec (hub "cdemo")) (cc_Spec (hub "cdemo")).
Proof.
  split; [reflexivity|]. split; [reflexivity|].
  destruct hub_survives_version1 as [H _].
  destruct (H (hub "cdemo") (config empty_spec) empty_config2 hub_as_version1 (hub "cdemo"))
    as (_&_&Hsame); [reflexivity|split; reflexivity|reflexivity|reflexivity|exact Hsame].
Defined.

(** A configuration of neither kind is lost. *)
Lemma other_configuration_lost :
  (match CritConfig_ConvertFrom (config empty_spec) (hub "ocluster") with
   | Val (Ok mid) => match CritConfig_ConvertTo mid empty_config2 with
                     | Val (Ok dst) => Some (ccs_Config (cc_Spec dst)) | _ => None end
   | _ => None end) = Some "".
Proof. reflexivity. Qed.
End ConversionWitness.
