(* ===== verification/Concurrency.v ===== *)
(** Goroutines that share memory: the language's locks, an interleaving
    semantics for pools of goroutines, and the rely-guarantee rules by which
    the theorems on [ClusterCache] are proved.

    A goroutine is a program of [Prelude]; its actions are the accesses to the
    shared memory and the calls out of the process, and the scheduler runs one
    action at a time.  A program is a finite tree, so a goroutine that polls
    forever returns to the scheduler between two rounds. *)
From S2P Require Import Prelude.
Local Open Scope nat_scope.

(** ** Locks: [sync.Mutex] and [sync.RWMutex] *)

Abbreviation tid := nat.

Inductive holders :=
| Writer (t : tid)
| Readers (ts : list tid).

Section locks.
Context {L : Type} `{Countable L}.

Abbreviation lock_table := (gmap L holders).

(** How [t] holds [l]: [Some true] as the writer. *)
Definition held (t : tid) (l : L) (ls : lock_table) : option bool :=
  match ls !! l with
  | Some (Writer t') => if decide (t' = t) then Some true else None
  | Some (Readers ts) => if decide (t ∈ ts) then Some false else None
  | None => None
  end.

(** What trying to lock gives: the new table, or [None] while it blocks. *)
Definition acquire_write (t : tid) (l : L) (ls : lock_table) : option lock_table :=
  match ls !! l with
  | None => Some (<[l := Writer t]> ls)
  | Some _ => None
  end.

Definition acquire_read (t : tid) (l : L) (ls : lock_table) : option lock_table :=
  match ls !! l with
  | None => Some (<[l := Readers [t]]> ls)
  | Some (Readers ts) => Some (<[l := Readers (t :: ts)]> ls)
  | Some (Writer _) => None
  end.

(** Unlocking; [None] is the fatal error of unlocking what one does not hold. *)
Definition release_write (t : tid) (l : L) (ls : lock_table) : option lock_table :=
  match ls !! l with
  | Some (Writer t') => if decide (t' = t) then Some (delete l ls) else None
  | _ => None
  end.

Fixpoint remove_one (t : tid) (ts : list tid) : list tid :=
  match ts with
  | [] => []
  | t' :: ts' => if decide (t' = t) then ts' else t' :: remove_one t ts'
  end.

Definition release_read (t : tid) (l : L) (ls : lock_table) : option lock_table :=
  match ls !! l with
  | Some (Readers ts) =>
      if decide (t ∈ ts)
      then Some (match remove_one t ts with
                 | [] => delete l ls
                 | ts' => <[l := Readers ts']> ls
                 end)
      else None
  | _ => None
  end.

(** The readers of a lock: at least one, and each once. *)
Definition locks_wf (ls : lock_table) : Prop :=
  ∀ l ts, ls !! l = Some (Readers ts) → ts ≠ [] ∧ NoDup ts.

Implicit Types (ls : lock_table) (l : L).

(** Two goroutines hold a lock at once only as readers. *)
Lemma held_exclusive t t' l ls b :
  held t l ls = Some true → held t' l ls = Some b → t' = t.
Proof. unfold held. intros. repeat (case_match; try case_decide); naive_solver. Qed.

Lemma elem_remove_other t t' ts : t' ≠ t → t' ∈ remove_one t ts ↔ t' ∈ ts.
Proof.
  intros Hne. induction ts as [|u ts IH]; simpl; [done|].
  case_decide; rewrite !elem_of_cons, ?IH; naive_solver.
Qed.

Lemma locks_wf_insert l hs ls :
  locks_wf ls → (∀ ts, hs = Readers ts → ts ≠ [] ∧ NoDup ts) → locks_wf (<[l := hs]> ls).
Proof.
  intros Hwf Hhs l' ts. destruct (decide (l' = l)) as [->|].
  - rewrite lookup_insert_eq. intros [= ->]. by apply Hhs.
  - rewrite lookup_insert_ne by done. apply Hwf.
Qed.

Lemma locks_wf_delete l ls : locks_wf ls → locks_wf (delete l ls).
Proof. intros Hwf l' ts [_ ?]%lookup_delete_Some. by eapply Hwf. Qed.

Lemma acquire_write_held t l ls ls' :
  acquire_write t l ls = Some ls' →
  held t l ls' = Some true ∧
  (∀ t' l', (t', l') ≠ (t, l) → held t' l' ls' = held t' l' ls) ∧
  (∀ t', held t' l ls = None) ∧ (locks_wf ls → locks_wf ls').
Proof.
  unfold acquire_write. destruct (ls !! l) eqn:Hl; [done|]. intros [= <-].
  split_and!; unfold held.
  - by rewrite lookup_insert_eq, decide_True.
  - intros t' l' Hne. destruct (decide (l' = l)) as [->|]; [|by rewrite lookup_insert_ne].
    rewrite lookup_insert_eq, Hl. rewrite decide_False; [done|congruence].
  - intros t'. by rewrite Hl.
  - intros Hwf. by apply locks_wf_insert.
Qed.

Lemma acquire_read_held t l ls ls' :
  acquire_read t l ls = Some ls' → held t l ls = None →
  held t l ls' = Some false ∧
  (∀ t' l', (t', l') ≠ (t, l) → held t' l' ls' = held t' l' ls) ∧
  (locks_wf ls → locks_wf ls').
Proof.
  unfold acquire_read. intros Hacq Hnone.
  assert (∃ ts, ls' = <[l := Readers (t :: ts)]> ls ∧ t ∉ ts ∧
    (ls !! l = None ∧ ts = [] ∨ ls !! l = Some (Readers ts))) as (ts&->&Ht&Hl).
  { unfold held in Hnone. destruct (ls !! l) as [[|ts]|] eqn:Hl; [done|case_decide; [done|]|].
    - injection Hacq as <-. eauto.
    - injection Hacq as <-. exists []. split_and!; [done|apply not_elem_of_nil|by left]. }
  clear Hacq. split_and!; unfold held.
  - rewrite lookup_insert_eq, decide_True; [done|]. by left.
  - intros t' l' Hne. destruct (decide (l' = l)) as [->|]; [|by rewrite lookup_insert_ne].
    rewrite lookup_insert_eq. assert (t' ≠ t) by congruence.
    destruct Hl as [[-> ->]| ->].
    + rewrite decide_False; [done|]. by rewrite list_elem_of_singleton.
    + apply decide_ext. rewrite elem_of_cons. naive_solver.
  - intros Hwf. apply locks_wf_insert; [done|]. intros ts' [= <-]. split; [done|].
    constructor; [done|]. destruct Hl as [[_ ->]|Hl]; [constructor|]. by eapply Hwf.
Qed.

Lemma release_write_held t l ls :
  held t l ls = Some true →
  ∃ ls', release_write t l ls = Some ls' ∧
    held t l ls' = None ∧
    (∀ t' l', (t', l') ≠ (t, l) → held t' l' ls' = held t' l' ls) ∧
    (locks_wf ls → locks_wf ls').
Proof.
  unfold held at 1, release_write. intros Hh.
  destruct (ls !! l) as [[t'|ts]|] eqn:Hl; [|by case_decide|done].
  case_decide; [|done]. subst. eexists. split_and!; [done|unfold held..|].
  - by rewrite lookup_delete_eq.
  - intros t' l' Hne. destruct (decide (l' = l)) as [->|]; [|by rewrite lookup_delete_ne].
    rewrite lookup_delete_eq, Hl, decide_False; [done|congruence].
  - intros Hwf. by apply locks_wf_delete.
Qed.

Lemma NoDup_remove_one t ts : NoDup ts → NoDup (remove_one t ts) ∧ t ∉ remove_one t ts.
Proof.
  induction 1 as [|u ts Hu Hnd [IH1 IH2]]; simpl; [split; [constructor|apply not_elem_of_nil]|].
  case_decide; subst; [done|]. split.
  - constructor; [|done]. by rewrite elem_remove_other.
  - by rewrite not_elem_of_cons.
Qed.

Lemma release_read_held t l ls :
  locks_wf ls → held t l ls = Some false →
  ∃ ls', release_read t l ls = Some ls' ∧
    held t l ls' = None ∧
    (∀ t' l', (t', l') ≠ (t, l) → held t' l' ls' = held t' l' ls) ∧
    locks_wf ls'.
Proof.
  intros Hwf. unfold held at 1, release_read. intros Hh.
  destruct (ls !! l) as [[t'|ts]|] eqn:Hl; [by case_decide| |done].
  case_decide as Ht; [|done]. destruct (Hwf l ts Hl) as [_ Hnd].
  destruct (NoDup_remove_one t ts Hnd) as [Hnd' Hout].
  assert (Hother : ∀ t', t' ≠ t → (t' ∈ remove_one t ts ↔ t' ∈ ts)) by auto using elem_remove_other.
  destruct (remove_one t ts) as [|u us]; eexists; (split; [done|]); split_and!; unfold held.
  - by rewrite lookup_delete_eq.
  - intros t' l' Hne. destruct (decide (l' = l)) as [->|]; [|by rewrite lookup_delete_ne].
    rewrite lookup_delete_eq, Hl, decide_False; [done|].
    rewrite <-Hother by congruence. apply not_elem_of_nil.
  - by apply locks_wf_delete.
  - by rewrite lookup_insert_eq, decide_False.
  - intros t' l' Hne. destruct (decide (l' = l)) as [->|]; [|by rewrite lookup_insert_ne].
    rewrite lookup_insert_eq, Hl. apply decide_ext, Hother. congruence.
  - apply locks_wf_insert; [done|]. by intros ts' [= <-].
Qed.

(** What blocks a goroutine is a lock that another holds. *)
Lemma acquire_write_blocked t l ls :
  locks_wf ls → acquire_write t l ls = None → ∃ t', held t' l ls ≠ None.
Proof.
  unfold acquire_write, held. intros Hwf. destruct (ls !! l) as [[t'|ts]|] eqn:Hl; [| |done]; intros _.
  - exists t'. by rewrite decide_True.
  - destruct (Hwf l ts Hl) as [Hne _]. destruct ts as [|u ts]; [done|]. exists u.
    rewrite decide_True; [done|]. by left.
Qed.

Lemma acquire_read_blocked t l ls : acquire_read t l ls = None → ∃ t', held t' l ls ≠ None.
Proof.
  unfold acquire_read, held. destruct (ls !! l) as [[t'|ts]|]; [|done|done]. intros _.
  exists t'. by rewrite decide_True.
Qed.
End locks.

(** ** Pools of goroutines *)

(** What an action does to the shared memory [S]: the goroutine waits, the
    process dies (a race, a fatal error or a panic of the runtime), the memory
    answers, or the environment does and [f] records its answer. *)
Inductive effect (S A : Type) : Type :=
| Blocks
| Fails
| Gives (s : S) (x : A)
| Asks (f : A → S).
Arguments Blocks {S A}.
Arguments Fails {S A}.
Arguments Gives {S A} s x.
Arguments Asks {S A} f.

(** Where a goroutine is after a piece of its code: at its end, or between two
    rounds of a loop that polls. *)
Inductive next (R : Type) : Type :=
| Finished
| Poll (r : R).
Arguments Finished {R}.
Arguments Poll {R} r.

(** A process: its actions on a shared memory, the goroutine a [go] statement
    starts, and its polling loops: the code of one round, and the code that
    follows when the loop is cut short. *)
Class Process : Type := {
  process_effects :: Effects;
  memory : Type;
  round : Type;
  exec : tid → ∀ a : action, memory → effect memory (answer a);
  forks : action → option (M (next round));
  body : round → M (next round);
  leave : round → memory → option (M (next round));
}.

Section pool.
Context {PR : Process}.

Abbreviation goroutine := (M (next round)).

(** The history has the latest event first. *)
Record state := { mem : memory; hist : list (tid * event) }.
Record config := { shared : state; pool : list goroutine }.

Definition after (t : tid) (a : action) (r : answer a) (m : memory) (h : list (tid * event)) : state :=
  {| mem := m; hist := (t, Ev a r) :: h |}.

Definition advance (c : config) (t : tid) (a : action) (r : answer a) (m : memory) (p : goroutine) :
    config :=
  {| shared := after t a r m (hist (shared c));
     pool := <[t := p]> (pool c) ++ match forks a with Some p' => [p'] | None => [] end |}.

(** Goroutine [t] has its turn: [o] is what the environment answers and
    [early] says whether a loop is cut short, if it can be. *)
Definition turn (c : config) (t : tid) (o : ∀ a, answer a) (early : bool) : option config :=
  match pool c !! t with
  | None => None
  | Some (Do a k) =>
      match exec t a (mem (shared c)) with
      | Blocks => None
      | Fails => Some {| shared := shared c; pool := <[t := Ret Panic]> (pool c) |}
      | Gives m r => Some (advance c t a r m (k r))
      | Asks f => Some (advance c t a (o a) (f (o a)) (k (o a)))
      end
  | Some (Ret (Val (Poll r))) =>
      if early then
        match leave r (mem (shared c)) with
        | Some p => Some {| shared := shared c; pool := <[t := p]> (pool c) |}
        | None => None
        end
      else Some {| shared := shared c; pool := <[t := body r]> (pool c) |}
  | Some (Ret _) => None
  end.

(** A step of the process: a goroutine's turn, or the arrival of a goroutine of
    the rest of the program, one of [calls]. *)
Inductive step (calls : goroutine → Prop) (c : config) : config → Prop :=
| step_turn t o early c' : turn c t o early = Some c' → step calls c c'
| step_call p : calls p → step calls c {| shared := shared c; pool := pool c ++ [p] |}.

Definition reachable (calls : goroutine → Prop) (c0 c : config) : Prop := rtc (step calls) c0 c.

(** A schedule: who has the next turn, with the environment's answers. *)
Fixpoint schedule (c : config) (turns : list (tid * (∀ a, answer a) * bool)) : option config :=
  match turns with
  | [] => Some c
  | (t, o, early) :: turns' =>
      match turn c t o early with Some c' => schedule c' turns' | None => None end
  end.

Lemma schedule_reachable calls c turns c' : schedule c turns = Some c' → reachable calls c c'.
Proof.
  revert c; induction turns as [|[[t o] early] turns IH]; intros c; simpl.
  - intros [= ->]. apply rtc_refl.
  - destruct (turn c t o early) as [c1|] eqn:Ht; [|done]. intros Hs.
    eapply rtc_l; [by eapply step_turn|by apply IH].
Qed.

(** ** Running alone *)

(** [t] runs [p] while nothing else runs; [None] if it waits or fails. *)
Fixpoint alone {A} (t : tid) (o : ∀ a, answer a) (p : prog A) (m : memory) : option (memory * A) :=
  match p with
  | Ret x => Some (m, x)
  | Do a k =>
      match exec t a m with
      | Gives m' r => alone t o (k r) m'
      | Asks f => alone t o (k (o a)) (f (o a))
      | Blocks | Fails => None
      end
  end.

Lemma alone_pbind {A B} t o (p : prog A) (f : A → prog B) m :
  alone t o (pbind p f) m = alone t o p m ≫= λ r, alone t o (f r.2) r.1.
Proof.
  revert m; induction p as [x|a k IH]; intros m; simpl; [done|].
  by destruct (exec t a m).
Qed.

Lemma alone_bind {A B} t o (p : M A) (f : A → M B) m m' x :
  alone t o p m = Some (m', Val x) → alone t o (p ≫= f) m = alone t o (f x) m'.
Proof. intros Hp. unfold mbind, M_bind. by rewrite alone_pbind, Hp. Qed.

(** ** Rely and guarantee *)

(** A proof of a process: an invariant of the shared state, what each goroutine
    may rely on while the others run ([rely t]), what holds when it performs an
    action ([guard]), what code may be started ([entry]), and the invariant
    of a loop ([polling]); [idle t] says that [t] holds nothing and [unborn t]
    that it has done nothing yet. *)
Class Discipline : Type := {
  inv : state → Prop;
  rely : tid → relation state;
  guard : tid → action → state → Prop;
  entry : state → goroutine → Prop;
  idle : tid → state → Prop;
  unborn : tid → state → Prop;
  polling : tid → round → state → Prop;
}.

Section discipline.
Context {D : Discipline}.

(** What one action of [t] must guarantee. *)
Definition good (t : tid) (a : action) (σ σ' : state) : Prop :=
  inv σ' ∧ (∀ t', t' ≠ t → rely t' σ σ') ∧ (∀ p, forks a = Some p → entry σ' p).

(** [ok t p σ Q]: from [σ], whatever the others do, [t] can run [p] without
    failing, guarantees the invariant and what the others rely on, and ends
    in [Q]. *)
Fixpoint ok {A} (t : tid) (p : prog A) (σ : state) (Q : A → state → Prop) : Prop :=
  match p with
  | Ret x => ∀ σ', inv σ' → rely t σ σ' → Q x σ'
  | Do a k => ∀ σ', inv σ' → rely t σ σ' → guard t a σ' ∧
      match exec t a (mem σ') with
      | Blocks => True
      | Fails => False
      | Gives m r => good t a σ' (after t a r m (hist σ')) ∧ ok t (k r) (after t a r m (hist σ')) Q
      | Asks f => ∀ r, good t a σ' (after t a r (f r) (hist σ')) ∧
                       ok t (k r) (after t a r (f r) (hist σ')) Q
      end
  end.

(** Where a piece of code may leave its goroutine. *)
Definition settled (t : tid) (o : outcome (next round)) (σ : state) : Prop :=
  match o with
  | Val Finished => idle t σ
  | Val (Poll r) => idle t σ ∧ polling t r σ
  | Panic => False
  end.

Section sequences.
Context {RP : ∀ t, PreOrder (rely t)}.

Lemma ok_mono {A} t (p : prog A) σ (Q Q' : A → state → Prop) :
  (∀ x σ', inv σ' → Q x σ' → Q' x σ') → ok t p σ Q → ok t p σ Q'.
Proof.
  intros HQ. revert σ; induction p as [x|a k IH]; intros σ; simpl.
  - intros Hok σ' Hi Hr. by apply HQ, Hok.
  - intros Hok σ' Hi Hr. destruct (Hok σ' Hi Hr) as [Hg Hex]. split; [done|].
    destruct (exec t a (mem σ')) as [| |m r|f]; [done|done| |].
    + destruct Hex. split; [done|by apply IH].
    + intros r. destruct (Hex r). split; [done|by apply IH].
Qed.

Lemma ok_pbind {A B} t (p : prog A) (f : A → prog B) σ Q :
  ok t p σ (λ x σ', ok t (f x) σ' Q) → ok t (pbind p f) σ Q.
Proof.
  revert σ; induction p as [x|a k IH]; intros σ; simpl.
  - intros Hok. destruct (f x) eqn:Hf; simpl; intros σ' Hi Hr.
    + by apply (Hok σ' Hi Hr).
    + by apply (Hok σ' Hi Hr).
  - intros Hok σ' Hi Hr. destruct (Hok σ' Hi Hr) as [Hg Hex]. split; [done|].
    destruct (exec t a (mem σ')) as [| |m r|g]; [done|done| |].
    + destruct Hex. split; [done|by apply IH].
    + intros r. destruct (Hex r). split; [done|by apply IH].
Qed.

Lemma ok_bind {A B} t (p : M A) (f : A → M B) σ Q :
  ok t p σ (λ o σ', match o with Val x => ok t (f x) σ' Q | Panic => ok t (Ret Panic) σ' Q end) →
  ok t (p ≫= f) σ Q.
Proof. intros Hok. apply ok_pbind. revert Hok. apply ok_mono. by intros [x|]. Qed.
End sequences.

Class DisciplineLaws : Prop := {
  rely_preorder :: ∀ t, PreOrder (rely t);
  rely_unborn t σ σ' : rely t σ σ' → unborn t σ → unborn t σ';
  unborn_idle t σ : unborn t σ → idle t σ;
  rely_entry t σ σ' p : rely t σ σ' → entry σ p → entry σ' p;
  entry_ok t p σ : inv σ → unborn t σ → entry σ p → ok t p σ (settled t);
  body_ok t r σ : inv σ → idle t σ → polling t r σ → ok t (body r) σ (settled t);
  leave_ok t r σ p : inv σ → idle t σ → polling t r σ → leave r (mem σ) = Some p →
    ok t p σ (settled t);
}.

(** *** The invariant of the whole pool *)

Context {DL : DisciplineLaws}.

Lemma ok_rely {A} t (p : prog A) σ σ' Q : ok t p σ Q → rely t σ σ' → ok t p σ' Q.
Proof. destruct p; simpl; intros Hok Hr σ'' Hi Hr'; (apply Hok; [done|by etrans]). Qed.

Definition sane (c : config) : Prop :=
  inv (shared c) ∧
  (∀ t p, pool c !! t = Some p → ok t p (shared c) (settled t)) ∧
  (∀ t, length (pool c) ≤ t → unborn t (shared c)).

Lemma ok_settled t o σ : inv σ → ok t (Ret o) σ (settled t) → settled t o σ.
Proof. intros Hi Hok. by apply Hok. Qed.

(** Adding a goroutine that has not run yet. *)
Lemma sane_add σ ps p :
  sane {| shared := σ; pool := ps |} → entry σ p → sane {| shared := σ; pool := ps ++ [p] |}.
Proof.
  intros (Hi&Hok&Hidle) He. simpl in *. split_and!; simpl; [done| |].
  - intros t q [Hq|[Hle Hq]]%lookup_app_Some; [by apply Hok|].
    apply list_lookup_singleton_Some in Hq as [_ <-]. apply entry_ok; [done|by apply Hidle|done].
  - intros t. rewrite length_app. simpl. intros. apply Hidle. lia.
Qed.

(** Running one goroutine while the others rely on it. *)
Lemma sane_run c t p σ :
  sane c → is_Some (pool c !! t) → inv σ →
  (∀ t', t' ≠ t → rely t' (shared c) σ) → ok t p σ (settled t) →
  sane {| shared := σ; pool := <[t := p]> (pool c) |}.
Proof.
  intros (Hi&Hok&Hidle) [q Hq] Hi' Hr Hp. split_and!; simpl; [done| |].
  - intros t' p' [[<- [<- _]]|[Hne Hp']]%list_lookup_insert_Some; [done|].
    eapply ok_rely; [by apply Hok|by apply Hr].
  - intros t'. rewrite length_insert. intros Hle. eapply rely_unborn; [apply Hr|by apply Hidle].
    intros ->. apply lookup_lt_Some in Hq. lia.
Qed.

Lemma sane_advance c t a r m p :
  sane c → is_Some (pool c !! t) →
  good t a (shared c) (after t a r m (hist (shared c))) →
  ok t p (after t a r m (hist (shared c))) (settled t) → sane (advance c t a r m p).
Proof.
  intros Hs Ht (Hi&Hr&Hf) Hp. unfold advance.
  pose proof (sane_run c t p _ Hs Ht Hi Hr Hp) as Hrun.
  destruct (forks a) as [p'|]; [|by rewrite app_nil_r]. by apply sane_add, Hf.
Qed.

Lemma sane_turn c t o early c' : sane c → turn c t o early = Some c' → sane c'.
Proof.
  intros Hs. unfold turn. destruct (pool c !! t) as [p|] eqn:Ht; [|done].
  pose proof Hs as (Hi&Hok&_). specialize (Hok t p Ht).
  destruct p as [[[|r]|]|a k]; [done| |done|].
  - apply ok_settled in Hok as [Hidle Hp]; [|done]. destruct early.
    + destruct (leave r (mem (shared c))) as [p|] eqn:Hl; [|done]. intros [= <-].
      apply sane_run; [done|by eexists|done|done|by eapply leave_ok].
    + intros [= <-]. apply sane_run; [done|by eexists|done|done|by apply body_ok].
  - destruct (Hok (shared c)) as [_ Hex]; [done|done|].
    destruct (exec t a (mem (shared c))) as [| |m r|f]; [done|done| |]; intros [= <-].
    + destruct Hex. by apply sane_advance.
    + destruct (Hex (o a)). by apply sane_advance.
Qed.

Theorem sane_reachable calls c0 c :
  (∀ p σ, calls p → inv σ → entry σ p) → sane c0 → reachable calls c0 c → sane c.
Proof.
  intros Hcalls Hs Hr. revert Hs. induction Hr as [|c1 c2 c3 Hstep _ IH]; [done|].
  intros Hs. apply IH. destruct Hstep as [t o early c' Ht|p Hp].
  - by eapply sane_turn.
  - destruct c1. apply sane_add; [done|]. apply Hcalls; [done|]. apply Hs.
Qed.

(** In a sane pool no goroutine has died, every action about to be performed
    is guarded and cannot fail. *)
Lemma sane_no_panic c t : sane c → pool c !! t ≠ Some (Ret Panic).
Proof. intros (Hi&Hok&_) Ht. by apply Hok, ok_settled in Ht. Qed.

Lemma sane_guarded c t a k :
  sane c → pool c !! t = Some (Do a k) →
  guard t a (shared c) ∧ exec t a (mem (shared c)) ≠ Fails.
Proof.
  intros (Hi&Hok&_) Ht. apply Hok in Ht. destruct (Ht (shared c)) as [Hg Hex]; [done|done|].
  split; [done|]. intros Hf. by rewrite Hf in Hex.
Qed.

(** *** No deadlock *)

(** Locks are taken in increasing order: a goroutine that is blocked waits for
    a lock above all it holds, which another goroutine holds. *)
Class LockOrder : Type := {
  lock : Type;
  rank : lock → nat;
  top : nat;
  holds : tid → lock → state → Prop;
  rank_top l : rank l < top;
  idle_holds t l σ : idle t σ → ¬ holds t l σ;
  blocked t a σ : inv σ → guard t a σ → exec t a (mem σ) = Blocks →
    ∃ l t', (∀ l', holds t l' σ → rank l' < rank l) ∧ holds t' l σ;
}.

Context {LO : LockOrder}.

(** Goroutine [t] can have its turn. *)
Definition runnable (c : config) (t : tid) : Prop := ∀ o, is_Some (turn c t o false).

Lemma runnable_do c t a k :
  pool c !! t = Some (Do a k) → exec t a (mem (shared c)) ≠ Blocks → runnable c t.
Proof.
  intros Ht He o. unfold turn. rewrite Ht.
  destruct (exec t a (mem (shared c))) as [| |m r|f]; [done|..]; eauto.
Qed.

Lemma holder_progress n c t l :
  sane c → holds t l (shared c) → top - rank l ≤ n → ∃ t', runnable c t'.
Proof.
  intros Hs. revert t l; induction n as [|n IH]; intros t l Hl Hn.
  { pose proof (rank_top l). lia. }
  pose proof Hs as (Hi&Hok&Hidle).
  destruct (pool c !! t) as [p|] eqn:Ht.
  2:{ apply lookup_ge_None in Ht. by destruct (idle_holds t l _ (unborn_idle t _ (Hidle t Ht))). }
  destruct p as [o|a k].
  { apply Hok, ok_settled in Ht; [|done].
    destruct o as [[|r]|]; [|destruct Ht as [Ht _]|done]; by destruct (idle_holds t l _ Ht). }
  destruct (sane_guarded c t a k Hs Ht) as [Hg Hf].
  destruct (exec t a (mem (shared c))) as [| |m r|f] eqn:He; [|done| |].
  - destruct (blocked t a _ Hi Hg He) as (l'&t'&Hlt&Hl'). apply (IH t' l' Hl').
    specialize (Hlt l Hl). lia.
  - exists t. apply (runnable_do _ _ a k Ht). by rewrite He.
  - exists t. apply (runnable_do _ _ a k Ht). by rewrite He.
Qed.

(** As long as some goroutine is in the middle of its code, some goroutine can
    go on. *)
Lemma sane_progress c t a k :
  sane c → pool c !! t = Some (Do a k) → ∃ t', runnable c t'.
Proof.
  intros Hs Ht. destruct (sane_guarded c t a k Hs Ht) as [Hg Hf].
  destruct (exec t a (mem (shared c))) as [| |m r|f] eqn:He; [|done| |].
  - destruct (blocked t a _ (proj1 Hs) Hg He) as (l&t'&_&Hl). by eapply holder_progress.
  - exists t. apply (runnable_do _ _ a k Ht). by rewrite He.
  - exists t. apply (runnable_do _ _ a k Ht). by rewrite He.
Qed.
End discipline.
End pool.
