(* ===== verification/ClusterCache.v ===== *)
(** internal/remote/cluster_cache.go: the caches of workload clusters, as
    goroutines that share the tracker.

    The tracker's maps, the caches it points to and the two locks are the shared
    memory; every access of the code to them is one action, so goroutines
    interleave anywhere between two accesses.  An access without the lock that
    protects it, unlocking a lock that is not held and closing a closed channel
    make the process fail.  [RWMutex] lets a waiting writer hold back new
    readers; here both may go first. *)
From S2P Require Import Prelude GoRuntime ApiTypes Platform SamplePlatform ManagementCluster Concurrency.
Local Open Scope Z_scope.
Local Open Scope go_scope.

Definition healthCheckPollInterval : Z := 10 * Second.
Definition healthCheckRequestTimeout : Z := 5 * Second.
Definition healthCheckUnhealthyThreshold : Z := 3.

(** ** Data *)

(** Pointers to caches, numbered in the order they are made; a cache's stop
    channel is made with it.  Inner maps of [watches] likewise. *)
Abbreviation ptr := nat.

(** Values of interface types, compared by identity. *)
Abbreviation iface := positive.

Inductive tracker_lock :=
| ClusterCachesLock
| WatchesLock
| CacheLock (cc : ptr).

#[export] Instance tracker_lock_eq_dec : EqDecision tracker_lock.
Proof. solve_decision. Defined.
#[export] Instance tracker_lock_countable : Countable tracker_lock.
Proof.
  apply (inj_countable'
    (λ l, match l with ClusterCachesLock => inl true | WatchesLock => inl false | CacheLock p => inr p end)
    (λ s, match s with inl true => ClusterCachesLock | inl false => WatchesLock | inr p => CacheLock p end)).
  by intros [].
Defined.

Record watchInfo := {
  watcher : iface;
  kind : iface;
  eventHandler : iface;
}.
#[export] Instance watchInfo_eq_dec : EqDecision watchInfo.
Proof. solve_decision. Defined.
#[export] Instance watchInfo_countable : Countable watchInfo.
Proof.
  apply (inj_countable' (λ w, (watcher w, kind w, eventHandler w))
    (λ '(a, b, c), {| watcher := a; kind := b; eventHandler := c |})). by intros [].
Defined.

(** [cc_cluster] is not a field of the struct: it remembers the cluster the
    cache was made for.  [cc_stop_closed] is the state of the stop channel. *)
Record clusterCache := {
  cc_Cache : iface;
  cc_stopped : bool;
  cc_stop_closed : bool;
  cc_cluster : ObjectKey;
}.

Record ClusterCacheTracker := {
  locks : gmap tracker_lock holders;
  clusterCaches : gmap ObjectKey ptr;
  watches : gmap ObjectKey nat;
  caches : list clusterCache;
  watch_sets : list (gset watchInfo);
}.

Definition NewClusterCacheTracker : ClusterCacheTracker := {|
  locks := ∅; clusterCaches := ∅; watches := ∅; caches := []; watch_sets := [] |}.

Record WatchInput := {
  in_Cluster : ObjectKey;
  in_Watcher : iface;
  in_Kind : iface;
  in_CacheOptions : iface;
  in_EventHandler : iface;
  in_Predicates : list iface;
}.

Record healthCheckInput := {
  hc_stop : ptr;
  hc_cluster : ObjectKey;
  hc_cfg : RestConfig;
  hc_interval : Z;
  hc_requestTimeout : Z;
  hc_unhealthyThreshold : Z;
  hc_path : string;
}.

Definition validate (h : healthCheckInput) : healthCheckInput := {|
  hc_stop := hc_stop h; hc_cluster := hc_cluster h; hc_cfg := hc_cfg h;
  hc_interval := if hc_interval h =? 0 then healthCheckPollInterval else hc_interval h;
  hc_requestTimeout :=
    if hc_requestTimeout h =? 0 then healthCheckRequestTimeout else hc_requestTimeout h;
  hc_unhealthyThreshold :=
    if hc_unhealthyThreshold h =? 0 then healthCheckUnhealthyThreshold else hc_unhealthyThreshold h;
  hc_path := if String.eqb (hc_path h) "" then "/" else hc_path h |}.

Section cluster_cache.
Context {P : Platform}.

(** ** Actions *)

Inductive cache_action :=
| Lock (l : tracker_lock) | Unlock (l : tracker_lock)
| RLock (l : tracker_lock) | RUnlock (l : tracker_lock)
(* the maps of the tracker *)
| Load_clusterCaches (k : ObjectKey)
| Store_clusterCaches (k : ObjectKey) (cc : ptr)
| Delete_clusterCaches (k : ObjectKey)
| Load_watches (k : ObjectKey)
| Store_watches (k : ObjectKey) (set : nat)
| Delete_watches (k : ObjectKey)
| Make_set
| Contains (set : nat) (w : watchInfo)
| Insert (set : nat) (w : watchInfo)
(* a cache and its channel *)
| Make_clusterCache (k : ObjectKey) (remoteCache : iface)
| Load_stopped (cc : ptr)
| Store_stopped (cc : ptr)
| Close_stop (cc : ptr)
(* [go] statements *)
| Go_Start (cc : ptr)
| Go_healthCheckCluster (h : healthCheckInput)
(* calls out of the process *)
| K8s (a : k8s_action)
| Cache_New (cfg : RestConfig) (options : iface)
| Watcher_Watch (i : WatchInput) (cc : ptr)
| UnversionedRESTClientFor (cfg : RestConfig)
| REST_Get (cfg : RestConfig) (timeout : Z) (path : string).

Definition cache_answer (a : cache_action) : Type :=
  match a with
  | Load_clusterCaches _ => option ptr
  | Load_watches _ => option nat
  | Make_set => nat
  | Contains _ _ => bool
  | Make_clusterCache _ _ => ptr
  | Load_stopped _ => bool
  | K8s a => k8s_answer a
  | Cache_New _ _ => result error iface
  | Watcher_Watch _ _ | UnversionedRESTClientFor _ | REST_Get _ _ _ => option error
  | _ => unit
  end.

#[export] Instance cache_effects : Effects := {| action := cache_action; answer := cache_answer |}.

(** A goroutine of this process. *)
Abbreviation G := (M (E := cache_effects)).

Definition act (a : cache_action) : G (cache_answer a) := call (E := cache_effects) a.

(** The code of the other components, run in a goroutine. *)
Fixpoint in_goroutine {A} (p : prog (E := k8s) A) : prog (E := cache_effects) A :=
  match p with
  | Ret x => Ret x
  | Do a k => Do (E := cache_effects) (K8s a) (λ r, in_goroutine (k r))
  end.

(** [Lock(); defer Unlock()], and the same for reading. *)
Definition locked {A} (l : tracker_lock) (m : G A) : G A :=
  Do (E := cache_effects) (Lock l) (λ _,
    pbind m (λ o, Do (E := cache_effects) (Unlock l) (λ _, Ret o))).
Definition rlocked {A} (l : tracker_lock) (m : G A) : G A :=
  Do (E := cache_effects) (RLock l) (λ _,
    pbind m (λ o, Do (E := cache_effects) (RUnlock l) (λ _, Ret o))).

(** ** The caches *)

Definition Stop (cc : ptr) : G unit :=
  locked (CacheLock cc) (
    stopped ← act (Load_stopped cc);
    if stopped : bool then mret tt
    else
      _ ← act (Store_stopped cc);
      act (Close_stop cc)).

Definition getClusterCache (cluster : ObjectKey) : G (option ptr) :=
  rlocked ClusterCachesLock (act (Load_clusterCaches cluster)).

Definition deleteClusterCache (cluster : ObjectKey) : G unit :=
  locked ClusterCachesLock (act (Delete_clusterCaches cluster)).

(** The end of [newClusterCache]: the cache and its two goroutines. *)
Definition start_cache (cluster : ObjectKey) (config : RestConfig) (remoteCache : iface) :
    G (result error ptr) :=
  cc ← act (Make_clusterCache cluster remoteCache);
  _ ← act (Store_clusterCaches cluster cc);
  _ ← act (Go_Start cc);
  _ ← act (Go_healthCheckCluster {|
    hc_stop := cc; hc_cluster := cluster; hc_cfg := config; hc_interval := 0;
    hc_requestTimeout := 0; hc_unhealthyThreshold := 0; hc_path := "" |});
  mret (Ok cc).

Definition newClusterCache (cluster : ObjectKey) (cacheOptions : iface) : G (result error ptr) :=
  locked ClusterCachesLock (
    c ← act (Load_clusterCaches cluster);
    match c with
    | Some c => mret (Ok c)
    | None =>
        try config := in_goroutine (RESTConfig cluster)
        catch err => mret (Err (errors_Wrap err
          "error fetching REST client config for remote cluster"));;
        try remoteCache := act (Cache_New config cacheOptions)
        catch err => mret (Err (errors_Wrap err "error creating cache for remote cluster"));;
        start_cache cluster config remoteCache
    end).

Definition getOrCreateClusterCache (cluster : ObjectKey) (cacheOptions : iface) :
    G (result error ptr) :=
  cache ← getClusterCache cluster;
  match cache with
  | Some cache => mret (Ok cache)
  | None => newClusterCache cluster cacheOptions
  end.

(** ** The watches *)

Definition watchExists (cluster : ObjectKey) (watch : watchInfo) : G bool :=
  watchesForCluster ← act (Load_watches cluster);
  match watchesForCluster with
  | None => mret false
  | Some watchesForCluster => act (Contains watchesForCluster watch)
  end.

Definition deleteWatchesForCluster (cluster : ObjectKey) : G unit :=
  locked WatchesLock (act (Delete_watches cluster)).

Definition watch_info (i : WatchInput) : watchInfo := {|
  watcher := in_Watcher i; kind := in_Kind i; eventHandler := in_EventHandler i |}.

Definition watches_for (cluster : ObjectKey) : G nat :=
  found ← act (Load_watches cluster);
  match found with
  | Some watchesForCluster => mret watchesForCluster
  | None =>
      watchesForCluster ← act Make_set;
      _ ← act (Store_watches cluster watchesForCluster);
      mret watchesForCluster
  end.

Definition Watch (input : WatchInput) : G (option error) :=
  let wi := watch_info input in
  exists_ ← rlocked WatchesLock (watchExists (in_Cluster input) wi);
  if exists_ : bool then mret None
  else
    locked WatchesLock (
      exists_ ← watchExists (in_Cluster input) wi;
      if exists_ : bool then mret None
      else
        watchesForCluster ← watches_for (in_Cluster input);
        try cache := getOrCreateClusterCache (in_Cluster input) (in_CacheOptions input)
        catch err => mret (Some err);;
        check act (Watcher_Watch input cache)
        catch err => mret (Some (errors_Wrap err "error creating watch"));;
        _ ← act (Insert watchesForCluster wi);
        mret None).

(** ** Health checks *)

Definition healthCheckPath (sourceCfg : RestConfig) (requestTimeout : Z) (path : string) :
    G (option error) :=
  check act (UnversionedRESTClientFor sourceCfg) catch err => mret (Some err);;
  check act (REST_Get sourceCfg requestTimeout path) catch err => mret (Some err);;
  mret None.

(** One call of the closure: the new count, and what it returns. *)
Definition runHealthCheckWithThreshold (h : healthCheckInput) (unhealthyCount : Z) :
    G (Z * (bool * option error)) :=
  remoteCache ← getClusterCache (hc_cluster h);
  match remoteCache with
  | None => mret (unhealthyCount, (true, None))
  | Some _ =>
      err ← healthCheckPath (hc_cfg h) (hc_requestTimeout h) (hc_path h);
      let unhealthyCount := match err with Some _ => unhealthyCount + 1 | None => 0 end in
      if hc_unhealthyThreshold h <=? unhealthyCount then mret (unhealthyCount, (false, err))
      else mret (unhealthyCount, (false, None))
  end.

(** Between two rounds: the input and the count the closure has captured. *)
Definition polling_state : Type := healthCheckInput * Z.

(** The code after the polling loop, on the error the loop ended with. *)
Definition poll_end (h : healthCheckInput) (err : option error) : G (next polling_state) :=
  match err with
  | None => mret Finished
  | Some _ =>
      c ← getClusterCache (hc_cluster h);
      match c with
      | None => mret Finished
      | Some c =>
          _ ← Stop c;
          _ ← deleteClusterCache (hc_cluster h);
          _ ← deleteWatchesForCluster (hc_cluster h);
          mret Finished
      end
  end.

(** A round of [wait.PollImmediateUntil]: an error of the condition ends the
    loop with that error, a true condition ends it without. *)
Definition poll_round (s : polling_state) : G (next polling_state) :=
  r ← runHealthCheckWithThreshold s.1 s.2;
  let '(unhealthyCount, (done, err)) := r in
  match err with
  | Some _ => poll_end s.1 err
  | None => if done : bool then poll_end s.1 None else mret (Poll (s.1, unhealthyCount))
  end.

(** Between two rounds the loop may see the stop channel closed, and then ends
    with [wait.ErrWaitTimeout]. *)
Definition ErrWaitTimeout : error := errors_New "timed out waiting for the condition".

Definition poll_stopped (s : polling_state) (m : ClusterCacheTracker) :
    option (G (next polling_state)) :=
  match caches m !! hc_stop s.1 with
  | Some cc => if cc_stop_closed cc then Some (poll_end s.1 (Some ErrWaitTimeout)) else None
  | None => None
  end.

Definition healthCheckCluster (h : healthCheckInput) : G (next polling_state) :=
  poll_round (validate h, 0).

(** ** ClusterCacheReconciler *)

Definition Reconcile (req : ObjectKey) : G (option error) :=
  r ← act (K8s (Get_Cluster req));
  match r with
  | Ok _ => mret None
  | Err err =>
      if negb (apierrors_IsNotFound err) then mret (Some err)
      else
        c ← getClusterCache req;
        match c with
        | None => mret None
        | Some c =>
            _ ← Stop c;
            _ ← deleteClusterCache req;
            _ ← deleteWatchesForCluster req;
            mret None
        end
  end.

(** ** The memory *)

Definition with_locks (ls : gmap tracker_lock holders) (m : ClusterCacheTracker) := {|
  locks := ls; clusterCaches := clusterCaches m; watches := watches m;
  caches := caches m; watch_sets := watch_sets m |}.
Definition with_clusterCaches (c : gmap ObjectKey ptr) (m : ClusterCacheTracker) := {|
  locks := locks m; clusterCaches := c; watches := watches m;
  caches := caches m; watch_sets := watch_sets m |}.
Definition with_watches (w : gmap ObjectKey nat) (m : ClusterCacheTracker) := {|
  locks := locks m; clusterCaches := clusterCaches m; watches := w;
  caches := caches m; watch_sets := watch_sets m |}.
Definition with_caches (c : list clusterCache) (m : ClusterCacheTracker) := {|
  locks := locks m; clusterCaches := clusterCaches m; watches := watches m;
  caches := c; watch_sets := watch_sets m |}.
Definition with_watch_sets (s : list (gset watchInfo)) (m : ClusterCacheTracker) := {|
  locks := locks m; clusterCaches := clusterCaches m; watches := watches m;
  caches := caches m; watch_sets := s |}.

Definition set_stopped (cc : clusterCache) : clusterCache := {|
  cc_Cache := cc_Cache cc; cc_stopped := true; cc_stop_closed := cc_stop_closed cc;
  cc_cluster := cc_cluster cc |}.
Definition set_closed (cc : clusterCache) : clusterCache := {|
  cc_Cache := cc_Cache cc; cc_stopped := cc_stopped cc; cc_stop_closed := true;
  cc_cluster := cc_cluster cc |}.

(** An access that needs the lock for reading, or for writing. *)
Definition reading {A} (t : tid) (l : tracker_lock) (m : ClusterCacheTracker)
    (e : effect ClusterCacheTracker A) : effect ClusterCacheTracker A :=
  match held t l (locks m) with Some _ => e | None => Fails end.
Definition writing {A} (t : tid) (l : tracker_lock) (m : ClusterCacheTracker)
    (e : effect ClusterCacheTracker A) : effect ClusterCacheTracker A :=
  match held t l (locks m) with Some true => e | _ => Fails end.

Definition lock_result (m : ClusterCacheTracker) (ls : option (gmap tracker_lock holders))
    (otherwise : effect ClusterCacheTracker unit) : effect ClusterCacheTracker unit :=
  match ls with Some ls => Gives (with_locks ls m) tt | None => otherwise end.

Definition cache_exec (t : tid) (a : cache_action) (m : ClusterCacheTracker) :
    effect ClusterCacheTracker (cache_answer a) :=
  match a return effect ClusterCacheTracker (cache_answer a) with
  | Lock l => lock_result m (acquire_write t l (locks m)) Blocks
  | RLock l => lock_result m (acquire_read t l (locks m)) Blocks
  | Unlock l => lock_result m (release_write t l (locks m)) Fails
  | RUnlock l => lock_result m (release_read t l (locks m)) Fails
  | Load_clusterCaches k => reading t ClusterCachesLock m (Gives m (clusterCaches m !! k))
  | Store_clusterCaches k p =>
      writing t ClusterCachesLock m (Gives (with_clusterCaches (<[k := p]> (clusterCaches m)) m) tt)
  | Delete_clusterCaches k =>
      writing t ClusterCachesLock m (Gives (with_clusterCaches (delete k (clusterCaches m)) m) tt)
  | Load_watches k => reading t WatchesLock m (Gives m (watches m !! k))
  | Store_watches k s => writing t WatchesLock m (Gives (with_watches (<[k := s]> (watches m)) m) tt)
  | Delete_watches k => writing t WatchesLock m (Gives (with_watches (delete k (watches m)) m) tt)
  | Make_set => Gives (with_watch_sets (watch_sets m ++ [∅]) m) (length (watch_sets m))
  | Contains s w =>
      match watch_sets m !! s with
      | Some ws => reading t WatchesLock m (Gives m (bool_decide (w ∈ ws)))
      | None => Fails
      end
  | Insert s w =>
      match watch_sets m !! s with
      | Some ws => writing t WatchesLock m
                     (Gives (with_watch_sets (<[s := {[w]} ∪ ws]> (watch_sets m)) m) tt)
      | None => Fails
      end
  | Make_clusterCache k remoteCache =>
      Gives (with_caches (caches m ++ [{| cc_Cache := remoteCache; cc_stopped := false;
               cc_stop_closed := false; cc_cluster := k |}]) m) (length (caches m))
  | Load_stopped p =>
      match caches m !! p with
      | Some cc => reading t (CacheLock p) m (Gives m (cc_stopped cc))
      | None => Fails
      end
  | Store_stopped p =>
      match caches m !! p with
      | Some cc => writing t (CacheLock p) m (Gives (with_caches (<[p := set_stopped cc]> (caches m)) m) tt)
      | None => Fails
      end
  | Close_stop p =>
      match caches m !! p with
      | Some cc => if cc_stop_closed cc then Fails
                   else Gives (with_caches (<[p := set_closed cc]> (caches m)) m) tt
      | None => Fails
      end
  | Go_Start _ | Go_healthCheckCluster _ => Gives m tt
  | K8s _ | Cache_New _ _ | Watcher_Watch _ _ | UnversionedRESTClientFor _ | REST_Get _ _ _ =>
      Asks (λ _, m)
  end.

Definition cache_forks (a : cache_action) : option (G (next polling_state)) :=
  match a with Go_healthCheckCluster h => Some (healthCheckCluster h) | _ => None end.

#[export] Instance cache_process : Process := {|
  process_effects := cache_effects;
  memory := ClusterCacheTracker;
  round := polling_state;
  exec := cache_exec;
  forks := cache_forks;
  body := poll_round;
  leave := poll_stopped;
|}.

(** What the rest of the program calls, each in a goroutine of its own. *)
Definition finish {A} (m : G A) : G (next polling_state) := _ ← m; mret Finished.

Inductive calls : G (next polling_state) → Prop :=
| calls_Watch i : calls (finish (Watch i))
| calls_Reconcile k : calls (finish (Reconcile k)).

Definition start : config := {|
  shared := {| mem := NewClusterCacheTracker; hist := [] |}; pool := [] |}.

(** ** What the history says *)

(** What an event means for the properties below. *)
Inductive note :=
| Watched (k : ObjectKey) (w : watchInfo)
| Forgot (k : ObjectKey)
| Stored (k : ObjectKey) (cc : ptr)
| Dropped (k : ObjectKey)
| Gone (k : ObjectKey)
| Looked (k : ObjectKey)
| Checked (failed : bool)
| Other.

Definition note_of (a : cache_action) : cache_answer a → note :=
  match a with
  | Watcher_Watch i _ => λ r,
      match r with None => Watched (in_Cluster i) (watch_info i) | Some _ => Other end
  | Delete_watches k => λ _, Forgot k
  | Store_clusterCaches k p => λ _, Stored k p
  | Delete_clusterCaches k => λ _, Dropped k
  | K8s a =>
      match a with
      | Get_Cluster k => λ r,
          match r with Err e => if apierrors_IsNotFound e then Gone k else Other | Ok _ => Other end
      | _ => λ _, Other
      end
  | Load_clusterCaches k => λ _, Looked k
  | UnversionedRESTClientFor _ => λ r, match r with Some _ => Checked true | None => Other end
  | REST_Get _ _ _ => λ r, Checked (match r with Some _ => true | None => false end)
  | _ => λ _, Other
  end.

Definition notes (h : list (tid * event)) : list (tid * note) :=
  (λ e, (e.1, note_of (projT1 e.2) (projT2 e.2))) <$> h.

(** The watch is recorded: it was established and not forgotten since. *)
Fixpoint recorded (h : list (tid * note)) (k : ObjectKey) (w : watchInfo) : bool :=
  match h with
  | [] => false
  | (_, Watched k' w') :: h' => bool_decide (k' = k ∧ w' = w) || recorded h' k w
  | (_, Forgot k') :: h' => if decide (k' = k) then false else recorded h' k w
  | _ :: h' => recorded h' k w
  end.

(** The cache a cluster has. *)
Fixpoint current (h : list (tid * note)) (k : ObjectKey) : option ptr :=
  match h with
  | [] => None
  | (_, Stored k' p) :: h' => if decide (k' = k) then Some p else current h' k
  | (_, Dropped k') :: h' => if decide (k' = k) then None else current h' k
  | _ :: h' => current h' k
  end.

(** How many of [t]'s health checks in a row have failed, and the cluster whose
    cache it looked up last. *)
Fixpoint failures (t : tid) (h : list (tid * note)) : Z :=
  match h with
  | [] => 0
  | (t', Checked failed) :: h' =>
      if decide (t' = t) then if failed : bool then failures t h' + 1 else 0 else failures t h'
  | _ :: h' => failures t h'
  end.

Fixpoint looked_up (t : tid) (h : list (tid * note)) : option ObjectKey :=
  match h with
  | [] => None
  | (t', Looked k) :: h' => if decide (t' = t) then Some k else looked_up t h'
  | _ :: h' => looked_up t h'
  end.

(** A reason to give up the cache of a cluster: it was not found, or one
    goroutine's checks of it failed as often in a row as the threshold says. *)
Fixpoint reason (k : ObjectKey) (h : list (tid * note)) : Prop :=
  match h with
  | [] => False
  | (t, n) :: h' =>
      n = Gone k ∨
      (healthCheckUnhealthyThreshold ≤ failures t ((t, n) :: h') ∧ looked_up t ((t, n) :: h') = Some k) ∨
      reason k h'
  end.

(** No watch is established while it is recorded, and no cache is stored for a
    cluster that has one. *)
Fixpoint no_duplicates (h : list (tid * note)) : Prop :=
  match h with
  | [] => True
  | (_, Watched k w) :: h' => recorded h' k w = false ∧ no_duplicates h'
  | (_, Stored k _) :: h' => current h' k = None ∧ no_duplicates h'
  | _ :: h' => no_duplicates h'
  end.
End cluster_cache.
