(* ===== verification/TrackerDiscipline.v ===== *)
(** The discipline of the goroutines that share a [ClusterCacheTracker]: the
    invariant of the shared state, what a goroutine relies on, and the rules for
    its actions. *)
From S2P Require Import Prelude GoRuntime ApiTypes Platform ManagementCluster Concurrency ClusterCache.
Local Open Scope Z_scope.

Section tracker_discipline.
Context {P : Platform}.

(** A goroutine of this process. *)
Abbreviation G := (M (E := cache_effects)).

Implicit Types (σ : state) (h : list (tid * note)) (k : ObjectKey) (w : watchInfo).

Definition sees (t : tid) (l : tracker_lock) σ : option bool := held t l (locks (mem σ)).
Definition said σ : list (tid * note) := notes (hist σ).

(** The tracker's map says that the watch is recorded. *)
Definition watched (m : ClusterCacheTracker) (k : ObjectKey) (w : watchInfo) : bool :=
  match watches m !! k with
  | Some s => match watch_sets m !! s with Some ws => bool_decide (w ∈ ws) | None => false end
  | None => false
  end.

Definition watches_match σ : Prop := ∀ k w, watched (mem σ) k w = recorded (said σ) k w.

(** What a lock protects is in order while no writer holds it. *)
Definition in_order (l : tracker_lock) σ : Prop :=
  match l with
  | ClusterCachesLock => True
  | WatchesLock => watches_match σ
  | CacheLock p => ∀ cc, caches (mem σ) !! p = Some cc → cc_stopped cc = true → cc_stop_closed cc = true
  end.

(** Cache [p] was made for cluster [k]. *)
Definition belongs (p : ptr) k σ : Prop :=
  ∃ cc, caches (mem σ) !! p = Some cc ∧ cc_cluster cc = k.

(** Somebody gave up the caches or the watches of the cluster. *)
Definition given_up k h : Prop := ∃ t, (t, Dropped k) ∈ h ∨ (t, Forgot k) ∈ h.

Record cache_inv σ : Prop := {
  inv_locks : locks_wf (locks (mem σ));
  inv_order l : (∃ t, sees t l σ = Some true) ∨ in_order l σ;
  inv_current k : clusterCaches (mem σ) !! k = current (said σ) k;
  inv_caches k p : clusterCaches (mem σ) !! k = Some p → belongs p k σ;
  inv_closed p cc : caches (mem σ) !! p = Some cc → cc_stop_closed cc = true → cc_stopped cc = true;
  inv_stopped p cc : caches (mem σ) !! p = Some cc → cc_stopped cc = true → reason (cc_cluster cc) (said σ);
  inv_given_up k : given_up k (said σ) → reason k (said σ);
  inv_sets k s : watches (mem σ) !! k = Some s → (s < length (watch_sets (mem σ)))%nat;
  inv_sets_inj k k' s : watches (mem σ) !! k = Some s → watches (mem σ) !! k' = Some s → k = k';
  inv_no_duplicates : no_duplicates (said σ);
}.

(** While others run, a goroutine keeps its locks, and what they protect does
    not change; nobody moves a cache to another cluster or reopens a channel,
    and reasons stay. *)
Record cache_rely (t : tid) σ σ' : Prop := {
  rely_locks l : sees t l σ' = sees t l σ;
  rely_clusterCaches : sees t ClusterCachesLock σ ≠ None →
    clusterCaches (mem σ') = clusterCaches (mem σ);
  rely_watches : sees t WatchesLock σ ≠ None →
    watches (mem σ') = watches (mem σ) ∧ watch_sets (mem σ') = watch_sets (mem σ) ∧
    ∀ k w, recorded (said σ') k w = recorded (said σ) k w;
  rely_caches p cc : caches (mem σ) !! p = Some cc →
    ∃ cc', caches (mem σ') !! p = Some cc' ∧ cc_cluster cc' = cc_cluster cc ∧
      (cc_stop_closed cc = true → cc_stop_closed cc' = true) ∧
      (sees t (CacheLock p) σ ≠ None → cc' = cc);
  rely_failures : failures t (said σ') = failures t (said σ);
  rely_looked : looked_up t (said σ') = looked_up t (said σ);
  rely_reason k : reason k (said σ) → reason k (said σ');
}.

Definition lock_rank (l : tracker_lock) : nat :=
  match l with WatchesLock => 0 | ClusterCachesLock => 1 | CacheLock _ => 2 end.

(** A goroutine takes a lock only above those it holds. *)
Definition cache_guard (t : tid) (a : cache_action) σ : Prop :=
  match a with
  | Lock l | RLock l => ∀ l', sees t l' σ ≠ None → (lock_rank l' < lock_rank l)%nat
  | _ => True
  end.

(** The input the tracker gives to the health checks it starts. *)
Definition tracker_input (i : healthCheckInput) : Prop :=
  hc_unhealthyThreshold i = 0.

Definition cache_entry σ (p : G (next polling_state)) : Prop :=
  calls p ∨ ∃ i, p = healthCheckCluster i ∧ tracker_input i ∧ belongs (hc_stop i) (hc_cluster i) σ.

Definition cache_idle (t : tid) σ : Prop := ∀ l, sees t l σ = None.
Definition cache_unborn (t : tid) σ : Prop := cache_idle t σ ∧ failures t (said σ) = 0.

(** Between two rounds the count is the number of checks that have failed in a
    row, and below the threshold. *)
Definition cache_polling (t : tid) (r : polling_state) σ : Prop :=
  hc_unhealthyThreshold r.1 = healthCheckUnhealthyThreshold ∧
  belongs (hc_stop r.1) (hc_cluster r.1) σ ∧
  r.2 = failures t (said σ) ∧ r.2 < healthCheckUnhealthyThreshold.

#[export] Instance cache_discipline : Discipline := {|
  inv := cache_inv;
  rely := cache_rely;
  guard := cache_guard;
  entry := cache_entry;
  idle := cache_idle;
  unborn := cache_unborn;
  polling := cache_polling;
|}.

#[export] Instance cache_rely_preorder t : PreOrder (cache_rely t).
Proof.
  split.
  - intros σ. split; try done. intros p cc Hp. by exists cc.
  - intros σ1 σ2 σ3 [L1 C1 W1 P1 F1 K1 R1] [L2 C2 W2 P2 F2 K2 R2]. split.
    + intros l. by rewrite L2.
    + intros Hs. rewrite C2, C1; [done..|]. by rewrite L1.
    + intros Hs. destruct (W1 Hs) as (Hw1&Hs1&H1). rewrite <-L1 in Hs.
      destruct (W2 Hs) as (?&?&H2). split_and!; [congruence..|]. intros k w. by rewrite H2.
    + intros p cc Hp. destruct (P1 p cc Hp) as (cc1&Hp1&Hc1&Hs1&He1).
      destruct (P2 p cc1 Hp1) as (cc2&Hp2&Hc2&Hs2&He2). exists cc2. split_and!; [done|congruence|auto|].
      intros Hs. rewrite <-(He1 Hs). apply He2. by rewrite L1.
    + congruence.
    + congruence.
    + auto.
Qed.

(** *** What the notes depend on *)

Lemma said_after t a r m (h : list (tid * event)) :
  said (after t a r m h) = (t, note_of a r) :: notes h.
Proof. done. Qed.

Lemma failures_other t t' n h : t' ≠ t → failures t' ((t, n) :: h) = failures t' h.
Proof. intros Hne. simpl. destruct n; try done. by rewrite decide_False. Qed.

Lemma looked_up_other t t' n h : t' ≠ t → looked_up t' ((t, n) :: h) = looked_up t' h.
Proof. intros Hne. simpl. destruct n; try done. by rewrite decide_False. Qed.

Lemma reason_cons k e h : reason k h → reason k (e :: h).
Proof. destruct e. simpl. auto. Qed.

(** Notes that concern neither caches nor watches. *)
Definition observes (n : note) : bool :=
  match n with Watched _ _ | Forgot _ | Stored _ _ | Dropped _ => false | _ => true end.

Lemma recorded_observes t n h k w : observes n = true → recorded ((t, n) :: h) k w = recorded h k w.
Proof. by destruct n. Qed.
Lemma current_observes t n h k : observes n = true → current ((t, n) :: h) k = current h k.
Proof. by destruct n. Qed.
Lemma no_duplicates_observes t n h : observes n = true → no_duplicates ((t, n) :: h) ↔ no_duplicates h.
Proof. by destruct n. Qed.
Lemma given_up_observes t n h k : observes n = true → given_up k ((t, n) :: h) ↔ given_up k h.
Proof.
  intros Hn. unfold given_up. setoid_rewrite elem_of_cons. split; intros [t' Ht]; exists t'; [|tauto].
  destruct Ht as [[[= -> <-]|?]|[[= -> <-]|?]]; try done; tauto.
Qed.
(** *** Good actions *)

Lemma in_order_same l σ σ' :
  watches (mem σ') = watches (mem σ) → watch_sets (mem σ') = watch_sets (mem σ) →
  caches (mem σ') = caches (mem σ) →
  (∀ k w, recorded (said σ') k w = recorded (said σ) k w) →
  in_order l σ → in_order l σ'.
Proof.
  intros Hw Hs Hc Hr. destruct l; simpl; [done| |by rewrite Hc].
  intros Hm k w. unfold watched. rewrite Hw, Hs, Hr. apply Hm.
Qed.

(** Changing locks only, or nothing. *)
Lemma quiet t a r ls σ :
  cache_inv σ → observes (note_of a r) = true → locks_wf ls →
  (∀ t' l, t' ≠ t → held t' l ls = sees t' l σ) →
  (∀ l, (∃ t', held t' l ls = Some true) ∨ in_order l σ) →
  let σ' := after t a r (with_locks ls (mem σ)) (hist σ) in
  cache_inv σ' ∧ ∀ t', t' ≠ t → cache_rely t' σ σ'.
Proof.
  intros Hi Hn Hls Hother Horder. split.
  - split; rewrite ?said_after; cbn [mem after with_locks locks clusterCaches watches caches watch_sets].
    + done.
    + intros l. destruct (Horder l) as [?|Ho]; [by left|right].
      eapply in_order_same; [..|exact Ho]; [done..|]. intros k w.
      rewrite said_after. by apply recorded_observes.
    + intros k. rewrite current_observes by done. apply Hi.
    + intros k p Hk. apply (inv_caches _ Hi k p Hk).
    + apply Hi.
    + intros p cc Hp Hst. apply (reason_cons _ (t, note_of a r)). by eapply inv_stopped.
    + intros k Hg. apply (reason_cons _ (t, note_of a r)). apply inv_given_up; [done|].
      by eapply given_up_observes.
    + apply Hi.
    + apply Hi.
    + apply no_duplicates_observes; [done|]. apply Hi.
  - intros t' Hne. split; rewrite ?said_after.
    + intros l. by apply Hother.
    + done.
    + intros _. split_and!; [done..|]. intros k w. by apply recorded_observes.
    + intros p cc Hp. by exists cc.
    + by apply failures_other.
    + by apply looked_up_other.
    + intros k. apply reason_cons.
Qed.

Lemma good_quiet t a r ls σ :
  cache_inv σ → observes (note_of a r) = true → cache_forks a = None → locks_wf ls →
  (∀ t' l, t' ≠ t → held t' l ls = sees t' l σ) →
  (∀ l, (∃ t', held t' l ls = Some true) ∨ in_order l σ) →
  good t a σ (after t a r (with_locks ls (mem σ)) (hist σ)).
Proof.
  intros Hi Hn Hf Hls Hother Horder.
  destruct (quiet t a r ls σ) as [Hi' Hr']; [done..|]. split_and!; [exact Hi'|exact Hr'|].
  intros p. change (cache_forks a = Some p → cache_entry (after t a r (with_locks ls (mem σ)) (hist σ)) p).
  by rewrite Hf.
Qed.

Lemma with_locks_id m : with_locks (locks m) m = m.
Proof. by destruct m. Qed.

Lemma good_observe t a r σ :
  cache_inv σ → observes (note_of a r) = true → cache_forks a = None →
  good t a σ (after t a r (mem σ) (hist σ)).
Proof.
  intros Hi Hn Hf. rewrite <-(with_locks_id (mem σ)) at 1. apply good_quiet; [done..|apply Hi|done|apply Hi].
Qed.
(** An action that writes what [t] has locked: [n] is its note. *)
Lemma good_write t a r m σ (n := note_of a r) (h := (t, n) :: said σ) :
  cache_inv σ → cache_forks a = None → locks m = locks (mem σ) →
  (∀ k, clusterCaches m !! k = current h k) →
  (clusterCaches m = clusterCaches (mem σ) ∨ sees t ClusterCachesLock σ = Some true) →
  (∀ k p, clusterCaches m !! k = Some p → clusterCaches (mem σ) !! k = Some p ∨ belongs p k σ) →
  (watches m = watches (mem σ) ∧ watch_sets m = watch_sets (mem σ) ∧
     (∀ k w, recorded h k w = recorded (said σ) k w) ∨
   sees t WatchesLock σ = Some true) →
  (∀ k s, watches m !! k = Some s → (s < length (watch_sets m))%nat) →
  (∀ k k' s, watches m !! k = Some s → watches m !! k' = Some s → k = k') →
  (∀ p cc, caches (mem σ) !! p = Some cc → ∃ cc', caches m !! p = Some cc' ∧
     cc_cluster cc' = cc_cluster cc ∧ (cc_stop_closed cc = true → cc_stop_closed cc' = true) ∧
     (cc' = cc ∨ sees t (CacheLock p) σ = Some true)) →
  (∀ p cc, caches m !! p = Some cc → caches (mem σ) !! p = Some cc ∨
     (cc_stop_closed cc = true → cc_stopped cc = true) ∧
     (cc_stopped cc = true → reason (cc_cluster cc) h ∧
        (cc_stop_closed cc = true ∨ sees t (CacheLock p) σ = Some true))) →
  (∀ k, given_up k h → reason k h) → no_duplicates h →
  good t a σ (@after cache_process t a r m (hist σ)).
Proof.
  intros Hi Hf Hls Hcur Hcc Hbel Hw Hlt Hinj Hold Hnew Hgiven Hdup.
  assert (Hsees : ∀ t' l, sees t' l (@after cache_process t a r m (hist σ)) = sees t' l σ).
  { intros t' l. unfold sees. simpl. by rewrite Hls. }
  assert (Halone : ∀ t' l, t' ≠ t → sees t' l σ ≠ None → sees t l σ ≠ Some true).
  { intros t' l Hne Ht' Ht. destruct (sees t' l σ) as [b|] eqn:Hb; [|done].
    destruct Hne. by eapply held_exclusive. }
  split_and!.
  - split; cbn [mem after]; change (said (@after cache_process t a r m (hist σ))) with h.
    + rewrite Hls. apply Hi.
    + intros l. setoid_rewrite Hsees. destruct (inv_order _ Hi l) as [?|Ho]; [by left|].
      destruct l as [| |p]; cbn [in_order] in Ho |- *; [by right| |].
      * destruct Hw as [(Hw&Hs&Hrec)|Hl]; [|left; by exists t].
        right. intros k w. change (watched m k w = recorded h k w). unfold watched.
        rewrite Hw, Hs, Hrec. apply Ho.
      * destruct (sees t (CacheLock p) σ) as [[]|] eqn:Hl; [left; by exists t|right..];
          intros cc Hp; (destruct (Hnew p cc Hp) as [?|[_ Hst]]; [by apply Ho|]);
          intros Hs; destruct (Hst Hs) as [_ [?|?]]; congruence.
    + exact Hcur.
    + intros k p Hk. assert (belongs p k σ) as (cc&Hp&<-).
      { destruct (Hbel k p Hk) as [Hk'|?]; [by apply (inv_caches _ Hi)|done]. }
      destruct (Hold p cc Hp) as (cc'&?&?&_). by exists cc'.
    + intros p cc Hp. destruct (Hnew p cc Hp) as [?|[? _]]; [by eapply inv_closed|done].
    + intros p cc Hp Hst. destruct (Hnew p cc Hp) as [?|[_ Hr]].
      * apply reason_cons. by eapply inv_stopped.
      * by apply Hr.
    + exact Hgiven.
    + exact Hlt.
    + exact Hinj.
    + exact Hdup.
  - intros t' Hne. split; cbn [mem after]; change (said (@after cache_process t a r m (hist σ))) with h.
    + intros l. apply Hsees.
    + intros Hs. destruct Hcc as [?|Hl]; [done|]. by destruct (Halone t' ClusterCachesLock Hne).
    + intros Hs. destruct Hw as [?|Hl]; [done|]. by destruct (Halone t' WatchesLock Hne).
    + intros p cc Hp. destruct (Hold p cc Hp) as (cc'&?&?&?&Heq). exists cc'. split_and!; [done..|].
      intros Hs. destruct Heq as [?|Hl]; [done|]. by destruct (Halone t' (CacheLock p) Hne).
    + by apply failures_other.
    + by apply looked_up_other.
    + intros k. apply reason_cons.
  - intros p. change (cache_forks a = Some p → cache_entry (@after cache_process t a r m (hist σ)) p). by rewrite Hf.
Qed.

(** *** What a goroutine knows along its code *)

(** The locks [t] holds, [true] for writing. *)
Definition owns (t : tid) (S : gmap tracker_lock bool) σ : Prop := ∀ l, sees t l σ = S !! l.

(** What holds across a stretch of code of [t] that does no health check; with
    [b] it holds the lock of the watches and does not change them. *)
Record keeps (t : tid) (b : bool) σ σ' : Prop := {
  keeps_watches : b = true →
    watches (mem σ') = watches (mem σ) ∧ watch_sets (mem σ') = watch_sets (mem σ) ∧
    ∀ k w, recorded (said σ') k w = recorded (said σ) k w;
  keeps_caches p cc : caches (mem σ) !! p = Some cc →
    ∃ cc', caches (mem σ') !! p = Some cc' ∧ cc_cluster cc' = cc_cluster cc ∧
      (cc_stop_closed cc = true → cc_stop_closed cc' = true);
  keeps_failures : failures t (said σ') = failures t (said σ);
  keeps_reason k : reason k (said σ) → reason k (said σ');
}.

#[export] Instance keeps_preorder t b : PreOrder (keeps t b).
Proof.
  split.
  - intros σ. split; try done. intros p cc Hp. by exists cc.
  - intros σ1 σ2 σ3 [W1 P1 F1 R1] [W2 P2 F2 R2]. split.
    + intros Hb. destruct (W1 Hb) as (Hw1&Hs1&H1). destruct (W2 Hb) as (Hw2&Hs2&H2).
      split_and!; [congruence..|]. intros k w. by rewrite H2.
    + intros p cc Hp. destruct (P1 p cc Hp) as (cc1&Hp1&Hc1&Hs1).
      destruct (P2 p cc1 Hp1) as (cc2&Hp2&Hc2&Hs2). exists cc2. split_and!; [done|congruence|auto].
    + congruence.
    + auto.
Qed.

Definition has_watches (S : gmap tracker_lock bool) : bool := bool_decide (is_Some (S !! WatchesLock)).

Lemma rely_owns t S σ σ' : cache_rely t σ σ' → owns t S σ → owns t S σ'.
Proof. intros Hr Ho l. rewrite (rely_locks _ _ _ Hr). apply Ho. Qed.

Lemma rely_keeps t S σ σ' : cache_rely t σ σ' → owns t S σ → keeps t (has_watches S) σ σ'.
Proof.
  intros Hr Ho. split.
  - intros [x Hb]%bool_decide_eq_true. apply (rely_watches _ _ _ Hr). by rewrite Ho, Hb.
  - intros p cc Hp. destruct (rely_caches _ _ _ Hr p cc Hp) as (cc'&?&?&?&_). by exists cc'.
  - apply Hr.
  - apply Hr.
Qed.

Lemma keeps_belongs t b p k σ σ' : keeps t b σ σ' → belongs p k σ → belongs p k σ'.
Proof. intros Hk (cc&Hp&<-). destruct (keeps_caches _ _ _ _ Hk p cc Hp) as (cc'&?&?&_). by exists cc'. Qed.

Lemma rely_belongs t p k σ σ' : cache_rely t σ σ' → belongs p k σ → belongs p k σ'.
Proof. intros Hr (cc&Hp&<-). destruct (rely_caches _ _ _ Hr p cc Hp) as (cc'&?&?&_). by exists cc'. Qed.

Lemma keeps_forget t b σ σ' : keeps t b σ σ' → keeps t false σ σ'.
Proof. intros Hk. split; [done|apply Hk..]. Qed.

(** A step of [t] that keeps the memory but for the locks. *)
Lemma keeps_quiet t b σ a r ls :
  observes (note_of a r) = true → (∀ failed, note_of a r ≠ Checked failed) →
  keeps t b σ (after t a r (with_locks ls (mem σ)) (hist σ)).
Proof.
  intros Hn Hc. split; rewrite ?said_after.
  - intros _. split_and!; [done..|]. intros k w. by apply recorded_observes.
  - intros p cc Hp. by exists cc.
  - simpl. destruct (note_of a r); try done. by destruct (Hc failed).
  - intros k. apply reason_cons.
Qed.

Lemma keeps_observe t b σ a r :
  observes (note_of a r) = true → (∀ failed, note_of a r ≠ Checked failed) →
  keeps t b σ (after t a r (mem σ) (hist σ)).
Proof. intros Hn Hc. pose proof (keeps_quiet t b σ a r (locks (mem σ)) Hn Hc) as Hk. by rewrite with_locks_id in Hk. Qed.

Lemma in_order_rely t l σ σ' b :
  cache_rely t σ σ' → sees t l σ = Some b →
  (∀ p, l = CacheLock p → is_Some (caches (mem σ) !! p)) → in_order l σ → in_order l σ'.
Proof.
  intros Hr Hl Hp. destruct l as [| |p]; simpl; [done|..].
  - destruct (rely_watches _ _ _ Hr) as (Hw&Hs&Hrec); [by rewrite Hl|].
    intros Hm k w. unfold watched. rewrite Hw, Hs, Hrec. apply Hm.
  - intros Ho. destruct (Hp p eq_refl) as [cc Hcc].
    destruct (rely_caches _ _ _ Hr p cc Hcc) as (cc'&Hcc'&_&_&Heq).
    rewrite Heq in Hcc' by (by rewrite Hl). intros cc2 Hcc2. rewrite Hcc' in Hcc2. injection Hcc2 as <-. eauto.
Qed.

(** Taking or giving back lock [l]. *)
Lemma lock_step t a r l b ls S σ σ1 :
  owns t S σ → cache_rely t σ σ1 → cache_inv σ1 → note_of a r = Other → cache_forks a = None →
  locks_wf ls → held t l ls = b →
  (∀ t' l', (t', l') ≠ (t, l) → held t' l' ls = sees t' l' σ1) →
  (∃ t', held t' l ls = Some true) ∨ in_order l σ1 →
  let σ2 := after t a r (with_locks ls (mem σ1)) (hist σ1) in
  good t a σ1 σ2 ∧ owns t (partial_alter (λ _, b) l S) σ2 ∧ keeps t (has_watches S) σ σ2 ∧
  looked_up t (said σ2) = looked_up t (said σ).
Proof.
  intros Ho Hr Hi Hn Hf Hwf Hmine Hother Hl. assert (Ho1 : owns t S σ1) by by eapply rely_owns.
  simpl. split_and!.
  - apply good_quiet; [done|by rewrite Hn|done..| |].
    + intros t' l' Hne. apply Hother. congruence.
    + intros l'. destruct (decide (l' = l)) as [->|Hne]; [done|].
      destruct (inv_order _ Hi l') as [[t' Ht']|?]; [left|by right]. exists t'.
      rewrite Hother; [done|congruence].
  - intros l'. unfold sees. simpl. destruct (decide (l' = l)) as [->|Hne].
    + by rewrite lookup_partial_alter_eq.
    + rewrite lookup_partial_alter_ne by done. rewrite Hother by congruence. apply Ho1.
  - etrans; [by eapply rely_keeps|]. apply keeps_quiet; by rewrite Hn.
  - change (looked_up t ((t, note_of a r) :: said σ1) = looked_up t (said σ)). rewrite Hn. apply Hr.
Qed.

(** *** Rules for the actions *)

(** The rules for sequences, for this process. *)
Definition cache_pbind {A B} := ok_pbind (PR := cache_process) (D := cache_discipline) (A := A) (B := B).
Definition cache_bind {A B} := ok_bind (PR := cache_process) (D := cache_discipline) (A := A) (B := B).

Section rules.
Context {A : Type} (t : tid) (S : gmap tracker_lock bool) (Q : A → state → Prop).
Implicit Types (kt : unit → prog (E := cache_effects) A).

Lemma rank_free l σ :
  owns t S σ → (∀ l' b, S !! l' = Some b → (lock_rank l' < lock_rank l)%nat) →
  cache_guard t (Lock l) σ ∧ sees t l σ = None.
Proof.
  intros Ho Hrank. split.
  - intros l' Hl'. rewrite Ho in Hl'. destruct (S !! l') eqn:HS; [by eapply Hrank|done].
  - rewrite Ho. destruct (S !! l) eqn:HS; [|done]. apply Hrank in HS. lia.
Qed.

Lemma ok_Lock l kt σ :
  owns t S σ → (∀ l' b, S !! l' = Some b → (lock_rank l' < lock_rank l)%nat) →
  (∀ σ', cache_inv σ' → owns t (<[l := true]> S) σ' → keeps t (has_watches S) σ σ' →
     in_order l σ' → ok t (kt tt) σ' Q) →
  ok t (Do (E := cache_effects) (Lock l) kt) σ Q.
Proof.
  intros Ho Hrank Hk σ1 Hi Hr.
  destruct (rank_free l σ1) as [Hg _]; [by eapply rely_owns|done|]. split; [exact Hg|].
  simpl. unfold lock_result. destruct (acquire_write t l (locks (mem σ1))) as [ls|] eqn:Hacq; [|done].
  destruct (acquire_write_held t l _ ls Hacq) as (Hmine&Hother&Hfree&Hwf).
  destruct (lock_step t (Lock l) tt l (Some true) ls S σ σ1) as (Hgood&Ho2&Hk2&_);
    [done..|apply Hwf, Hi|done|exact Hother|by left; exists t|].
  split; [exact Hgood|]. apply Hk; [apply Hgood|done..|].
  destruct (inv_order _ Hi l) as [[t' Ht']|Hin]; [unfold sees in Ht'; by rewrite Hfree in Ht'|].
  eapply in_order_same; [..|exact Hin]; done.
Qed.

Lemma ok_RLock l kt σ :
  owns t S σ → (∀ l' b, S !! l' = Some b → (lock_rank l' < lock_rank l)%nat) →
  (∀ σ', cache_inv σ' → owns t (<[l := false]> S) σ' → keeps t (has_watches S) σ σ' →
     ok t (kt tt) σ' Q) →
  ok t (Do (E := cache_effects) (RLock l) kt) σ Q.
Proof.
  intros Ho Hrank Hk σ1 Hi Hr.
  destruct (rank_free l σ1) as [Hg Hnone]; [by eapply rely_owns|done|]. split; [exact Hg|].
  simpl. unfold lock_result. destruct (acquire_read t l (locks (mem σ1))) as [ls|] eqn:Hacq; [|done].
  destruct (acquire_read_held t l _ ls Hacq Hnone) as (Hmine&Hother&Hwf).
  destruct (lock_step t (RLock l) tt l (Some false) ls S σ σ1) as (Hgood&Ho2&Hk2&_);
    [done..|apply Hwf, Hi|done|exact Hother| |].
  { destruct (inv_order _ Hi l) as [[t' Ht']|?]; [left|by right]. exists t'.
    rewrite Hother; [done|]. intros [= ->]. by rewrite Hnone in Ht'. }
  split; [exact Hgood|]. apply Hk; [apply Hgood|done..].
Qed.

Lemma ok_Unlock l kt σ :
  owns t S σ → S !! l = Some true → (∀ p, l = CacheLock p → is_Some (caches (mem σ) !! p)) →
  in_order l σ →
  (∀ σ', cache_inv σ' → owns t (delete l S) σ' → keeps t (has_watches S) σ σ' → ok t (kt tt) σ' Q) →
  ok t (Do (E := cache_effects) (Unlock l) kt) σ Q.
Proof.
  intros Ho HS Hp Hin Hk σ1 Hi Hr. split; [done|]. simpl. unfold lock_result.
  destruct (release_write_held t l (locks (mem σ1))) as (ls&->&Hmine&Hother&Hwf).
  { change (sees t l σ1 = Some true). by rewrite (rely_locks _ _ _ Hr), Ho. }
  destruct (lock_step t (Unlock l) tt l None ls S σ σ1) as (Hgood&Ho2&Hk2&_);
    [done..|apply Hwf, Hi|done|exact Hother| |].
  { right. eapply in_order_rely; [exact Hr|by rewrite Ho|done|done]. }
  split; [exact Hgood|]. apply Hk; [apply Hgood|done..].
Qed.

Lemma ok_RUnlock l kt σ :
  owns t S σ → S !! l = Some false →
  (∀ σ', cache_inv σ' → owns t (delete l S) σ' → keeps t (has_watches S) σ σ' →
     looked_up t (said σ') = looked_up t (said σ) → ok t (kt tt) σ' Q) →
  ok t (Do (E := cache_effects) (RUnlock l) kt) σ Q.
Proof.
  intros Ho HS Hk σ1 Hi Hr. split; [done|]. simpl. unfold lock_result.
  assert (Hl : sees t l σ1 = Some false) by by rewrite (rely_locks _ _ _ Hr), Ho.
  destruct (release_read_held t l (locks (mem σ1))) as (ls&->&Hmine&Hother&Hwf); [apply Hi|done|].
  destruct (lock_step t (RUnlock l) tt l None ls S σ σ1) as (Hgood&Ho2&Hk2&Hlook);
    [done..|exact Hother| |].
  { destruct (inv_order _ Hi l) as [[t' Ht']|?]; [left|by right]. exists t'.
    rewrite Hother; [done|]. intros [= ->]. by rewrite Hl in Ht'. }
  split; [exact Hgood|]. apply Hk; [apply Hgood|done..].
Qed.
End rules.

Section more_rules.
Context (t : tid) (S : gmap tracker_lock bool).

Lemma ranks_none l : (∀ l' b, S !! l' = Some b → (lock_rank l' < lock_rank l)%nat) → S !! l = None.
Proof. intros Hrank. destruct (S !! l) eqn:HS; [|done]. apply Hrank in HS. lia. Qed.

Lemma keeps_unlocked l b σ σ' :
  keeps t (has_watches (<[l := b]> S)) σ σ' → keeps t (has_watches S) σ σ'.
Proof.
  intros Hk. split; [|apply Hk..]. intros [x Hx]%bool_decide_eq_true. apply Hk.
  apply bool_decide_eq_true. destruct (decide (l = WatchesLock)) as [->|].
  - rewrite lookup_insert_eq. by eexists.
  - rewrite lookup_insert_ne by done. by exists x.
Qed.

(** Code between [RLock] and [RUnlock]. *)
Lemma ok_rlocked {B} l (m : G B) σ (Q' : outcome B → state → Prop) :
  owns t S σ → (∀ l' b, S !! l' = Some b → (lock_rank l' < lock_rank l)%nat) →
  (∀ σ1, cache_inv σ1 → owns t (<[l := false]> S) σ1 → keeps t (has_watches S) σ σ1 →
     ok t m σ1 (λ o σ2, owns t (<[l := false]> S) σ2 ∧
       (∀ σ3, cache_inv σ3 → owns t S σ3 → keeps t (has_watches S) σ2 σ3 →
          looked_up t (said σ3) = looked_up t (said σ2) → Q' o σ3))) →
  ok t (rlocked l m) σ Q'.
Proof.
  intros Ho Hrank Hm. apply (ok_RLock _ S); [done|done|]. intros σ1 Hi1 Ho1 Hk1.
  apply cache_pbind. eapply ok_mono; [|by apply Hm]. intros o σ2 Hi2 [Ho2 HQ].
  apply (ok_RUnlock _ (<[l := false]> S)); [done|by rewrite lookup_insert_eq|].
  intros σ3 Hi3 Ho3 Hk3 Hlook σ4 Hi4 Hr4. rewrite delete_insert_id in Ho3 by by apply ranks_none.
  apply HQ; [done|by eapply rely_owns| |].
  - etrans; [by eapply keeps_unlocked|by eapply rely_keeps].
  - rewrite <-Hlook. apply Hr4.
Qed.

(** Code between [Lock] and [Unlock]: what the lock protects is in order before
    and after. *)
Lemma ok_locked {B} l (m : G B) σ (Q' : outcome B → state → Prop) :
  owns t S σ → (∀ l' b, S !! l' = Some b → (lock_rank l' < lock_rank l)%nat) →
  (∀ σ1, cache_inv σ1 → owns t (<[l := true]> S) σ1 → keeps t (has_watches S) σ σ1 →
     in_order l σ1 →
     ok t m σ1 (λ o σ2, owns t (<[l := true]> S) σ2 ∧
       (∀ p, l = CacheLock p → is_Some (caches (mem σ2) !! p)) ∧ in_order l σ2 ∧
       (∀ σ3, cache_inv σ3 → owns t S σ3 → keeps t (has_watches S) σ2 σ3 → Q' o σ3))) →
  ok t (locked l m) σ Q'.
Proof.
  intros Ho Hrank Hm. apply (ok_Lock _ S); [done|done|]. intros σ1 Hi1 Ho1 Hk1 Hin1.
  apply cache_pbind. eapply ok_mono; [|by apply Hm]. intros o σ2 Hi2 (Ho2&Hp&Hin2&HQ).
  apply (ok_Unlock _ (<[l := true]> S)); [done|by rewrite lookup_insert_eq|done|done|].
  intros σ3 Hi3 Ho3 Hk3 σ4 Hi4 Hr4. rewrite delete_insert_id in Ho3 by by apply ranks_none.
  apply HQ; [done|by eapply rely_owns|].
  etrans; [by eapply keeps_unlocked|by eapply rely_keeps].
Qed.

(** An action that leaves the memory as it is and asks the environment. *)
Lemma ok_Asks {A} (Q : A → state → Prop) a (ka : cache_answer a → prog (E := cache_effects) A) σ :
  (∀ m, cache_exec t a m = Asks (λ _, m)) → cache_forks a = None →
  (∀ σ', cache_guard t a σ') → (∀ r, observes (note_of a r) = true) → owns t S σ →
  (∀ r σ1, cache_inv σ1 → cache_rely t σ σ1 →
     let σ2 := after t a r (mem σ1) (hist σ1) in
     cache_inv σ2 → owns t S σ2 → ok t (ka r) σ2 Q) →
  ok t (Do (E := cache_effects) a ka) σ Q.
Proof.
  intros Ha Hf Hg Hobs Ho Hk σ1 Hi Hr. split; [apply Hg|].
  change (match cache_exec t a (mem σ1) with
    | Blocks => True | Fails => False
    | Gives m r => good t a σ1 (after t a r m (hist σ1)) ∧ ok t (ka r) (after t a r m (hist σ1)) Q
    | Asks f => ∀ r, good t a σ1 (after t a r (f r) (hist σ1)) ∧
                       ok t (ka r) (after t a r (f r) (hist σ1)) Q
    end).
  rewrite Ha. intros r. assert (Hgood := good_observe t a r σ1 Hi (Hobs r) Hf).
  split; [exact Hgood|]. apply Hk; [done|done|apply Hgood|].
  intros l. change (sees t l σ1 = S !! l). by eapply rely_owns.
Qed.

(** Starting the health checks of a cache. *)
Lemma good_fork i σ :
  cache_inv σ → tracker_input i → belongs (hc_stop i) (hc_cluster i) σ →
  good t (Go_healthCheckCluster i) σ
    (@after cache_process t (Go_healthCheckCluster i) tt (mem σ) (hist σ)).
Proof.
  intros Hi Hin Hbel. destruct (quiet t (Go_healthCheckCluster i) tt (locks (mem σ)) σ) as [Hi' Hr'];
    [done|done|apply Hi|done|apply Hi|]. rewrite with_locks_id in Hi', Hr'.
  split_and!; [exact Hi'|exact Hr'|]. intros p [= <-]. right. by exists i.
Qed.

(** An action of [t] on the memory. *)
Lemma ok_Gives {A} (Q : A → state → Prop) a (ka : cache_answer a → prog (E := cache_effects) A) σ :
  (∀ σ', cache_guard t a σ') → owns t S σ →
  (∀ σ1, cache_inv σ1 → cache_rely t σ σ1 → owns t S σ1 →
     ∃ m r, cache_exec t a (mem σ1) = Gives m r ∧ locks m = locks (mem σ1) ∧
       (let σ2 := after t a r m (hist σ1) in
        good t a σ1 σ2 ∧ (cache_inv σ2 → owns t S σ2 → ok t (ka r) σ2 Q))) →
  ok t (Do (E := cache_effects) a ka) σ Q.
Proof.
  intros Hg Ho Hk σ1 Hi Hr. split; [apply Hg|].
  assert (Ho1 : owns t S σ1) by by eapply rely_owns.
  destruct (Hk σ1 Hi Hr Ho1) as (m&r&He&Hls&Hgood&Hok).
  change (match cache_exec t a (mem σ1) with
    | Blocks => True | Fails => False
    | Gives m r => good t a σ1 (after t a r m (hist σ1)) ∧ ok t (ka r) (after t a r m (hist σ1)) Q
    | Asks f => ∀ r, good t a σ1 (after t a r (f r) (hist σ1)) ∧
                       ok t (ka r) (after t a r (f r) (hist σ1)) Q
    end).
  rewrite He. split; [exact Hgood|]. apply Hok; [apply Hgood|].
  intros l. unfold sees. simpl. rewrite Hls. apply Ho1.
Qed.

(** An action that reads the memory. *)
Lemma ok_Reads {A} (Q : A → state → Prop) a (ka : cache_answer a → prog (E := cache_effects) A) σ :
  cache_forks a = None → (∀ σ', cache_guard t a σ') → owns t S σ →
  (∀ σ1, cache_inv σ1 → cache_rely t σ σ1 → owns t S σ1 →
     ∃ r, cache_exec t a (mem σ1) = Gives (mem σ1) r ∧ observes (note_of a r) = true ∧
       (let σ2 := after t a r (mem σ1) (hist σ1) in
        cache_inv σ2 → owns t S σ2 → ok t (ka r) σ2 Q)) →
  ok t (Do (E := cache_effects) a ka) σ Q.
Proof.
  intros Hf Hg Ho Hk. apply ok_Gives; [done|done|]. intros σ1 Hi Hr Ho1.
  destruct (Hk σ1 Hi Hr Ho1) as (r&He&Hobs&Hok). exists (mem σ1), r.
  split; [done|]. split; [done|]. split; [by apply good_observe|exact Hok].
Qed.
End more_rules.
End tracker_discipline.
