(* ===== verification/TrackerFunctions.v ===== *)
(** The functions of the tracker keep the discipline of [TrackerDiscipline]: one
    lemma for each function of internal/remote/cluster_cache.go. *)
From S2P Require Import Prelude GoRuntime ApiTypes Platform ManagementCluster Concurrency ClusterCache TrackerDiscipline.
Local Open Scope Z_scope.
Local Open Scope go_scope.

Section tracker_functions.
Context {P : Platform}.

(** A goroutine of this process. *)
Abbreviation G := (M (E := cache_effects)).

Implicit Types (σ : state) (h : list (tid * note)) (k : ObjectKey) (w : watchInfo).

Lemma rely_keeps_locked t S l b σ σ' :
  cache_rely t σ σ' → owns t (<[l := b]> S) σ → keeps t (has_watches S) σ σ'.
Proof. intros Hr Ho. eapply keeps_unlocked. by eapply rely_keeps. Qed.

(** Accesses with the lock held. *)
Lemma reading_held {A} t l b σ (e : effect ClusterCacheTracker A) :
  sees t l σ = Some b → reading t l (mem σ) e = e.
Proof. unfold sees, reading. by intros ->. Qed.
Lemma writing_held {A} t l σ (e : effect ClusterCacheTracker A) :
  sees t l σ = Some true → writing t l (mem σ) e = e.
Proof. unfold sees, writing. by intros ->. Qed.

Lemma getClusterCache_ok t S k σ (Q : outcome (option ptr) → state → Prop) :
  owns t S σ → (∀ l b, S !! l = Some b → (lock_rank l < lock_rank ClusterCachesLock)%nat) →
  (∀ c σ', cache_inv σ' → owns t S σ' → keeps t (has_watches S) σ σ' →
     looked_up t (said σ') = Some k → (∀ p, c = Some p → belongs p k σ') → Q (Val c) σ') →
  ok t (getClusterCache k) σ Q.
Proof.
  intros Ho Hrank HQ. apply (ok_rlocked t S); [done|done|]. intros σ1 Hi1 Ho1 Hk1.
  apply (ok_Reads t (<[ClusterCachesLock := false]> S)); [done|done|done|].
  intros σ2 Hi2 Hr2 Ho2. exists (clusterCaches (mem σ2) !! k). split_and!.
  { eapply reading_held. by rewrite Ho2, lookup_insert_eq. }
  { done. }
  intros σ3 Hi3 Ho3 σ4 Hi4 Hr4. split; [by eapply rely_owns|].
  intros σ5 Hi5 Ho5 Hk5 Hlook5.
  assert (Hk4 : keeps t (has_watches S) σ2 σ4).
  { etrans; [by apply (keeps_observe t _ σ2 (Load_clusterCaches k))|by eapply rely_keeps_locked]. }
  apply HQ; [done|done| | |].
  - etrans; [exact Hk1|]. etrans; [by eapply rely_keeps_locked|]. by etrans.
  - rewrite Hlook5, (rely_looked _ _ _ Hr4). unfold said. simpl. by rewrite decide_True.
  - intros p Hp. eapply keeps_belongs; [exact Hk5|]. eapply keeps_belongs; [exact Hk4|].
    by apply (inv_caches _ Hi2).
Qed.
(** Performing an action and going on is one node of the program. *)
Ltac perform :=
  cbv beta;
  lazymatch goal with
  | |- ok _ (mbind ?f (act ?a)) _ _ => change (mbind f (act a)) with (Do (E := cache_effects) a f)
  | |- ok _ (act ?a) _ _ => change (act a) with (Do (E := cache_effects) a (λ r, Ret (Val r)))
  end.

Lemma lookup_allocated p k σ : belongs p k σ → is_Some (caches (mem σ) !! p).
Proof. intros (cc&Hp&_). by exists cc. Qed.

(** Replacing cache [p] by [cc'], which [t] has locked. *)
Lemma good_cache t a r p cc cc' σ :
  cache_inv σ → cache_forks a = None → note_of a r = Other →
  caches (mem σ) !! p = Some cc → sees t (CacheLock p) σ = Some true →
  cc_cluster cc' = cc_cluster cc → (cc_stop_closed cc = true → cc_stop_closed cc' = true) →
  cc_stopped cc' = true → reason (cc_cluster cc) (said σ) →
  good t a σ (@after cache_process t a r (with_caches (<[p := cc']> (caches (mem σ))) (mem σ)) (hist σ)).
Proof.
  intros Hi Hf Hn Hp Hl Hcl Hclosed Hst Hre.
  assert (Hlt : (p < length (caches (mem σ)))%nat) by by eapply lookup_lt_Some.
  apply good_write; rewrite ?Hn; try done; simpl.
  - apply Hi.
  - by left.
  - by left.
  - by left.
  - apply Hi.
  - apply Hi.
  - intros p' cc0 Hp'. destruct (decide (p' = p)) as [->|Hne].
    + rewrite Hp in Hp'. injection Hp' as <-. exists cc'. rewrite list_lookup_insert_eq by done.
      split_and!; [done..|by right].
    + exists cc0. rewrite list_lookup_insert_ne by done. split_and!; [done..|by left].
  - intros p' cc0. destruct (decide (p' = p)) as [->|Hne].
    + rewrite list_lookup_insert_eq by done. intros [= <-]. right. split; [done|]. intros _.
      rewrite Hcl. split; [by right; right|by right].
    + rewrite list_lookup_insert_ne by done. by left.
  - intros k [t' Hg]. right; right. apply inv_given_up; [done|]. exists t'.
    destruct Hg as [Hg|Hg]; [left|right]; by apply elem_of_cons in Hg as [|].
  - apply Hi.
Qed.

Lemma keeps_cache t b a r p cc cc' σ :
  note_of a r = Other → caches (mem σ) !! p = Some cc → cc_cluster cc' = cc_cluster cc →
  (cc_stop_closed cc = true → cc_stop_closed cc' = true) →
  keeps t b σ (@after cache_process t a r (with_caches (<[p := cc']> (caches (mem σ))) (mem σ)) (hist σ)).
Proof.
  intros Hn Hp Hcl Hclosed.
  assert (Hlt : (p < length (caches (mem σ)))%nat) by by eapply lookup_lt_Some.
  split; rewrite ?said_after, ?Hn; simpl; [done| |done|].
  - intros p' cc0 Hp'. destruct (decide (p' = p)) as [->|Hne].
    + rewrite Hp in Hp'. injection Hp' as <-. exists cc'. by rewrite list_lookup_insert_eq.
    + exists cc0. by rewrite list_lookup_insert_ne.
  - intros k Hk. by right; right.
Qed.
Lemma rely_cache_locked t p b cc σ σ' :
  cache_rely t σ σ' → sees t (CacheLock p) σ = Some b →
  caches (mem σ) !! p = Some cc → caches (mem σ') !! p = Some cc.
Proof.
  intros Hr Hl Hp. destruct (rely_caches _ _ _ Hr p cc Hp) as (cc'&Hp'&_&_&Heq).
  by rewrite <-Heq by by rewrite Hl.
Qed.

(** The body of [Stop]: whoever stops a cache has a reason to. *)
Lemma Stop_body_ok t S p cc σ (Q : outcome unit → state → Prop) :
  owns t (<[CacheLock p := true]> S) σ → caches (mem σ) !! p = Some cc → cc_stopped cc = false →
  reason (cc_cluster cc) (said σ) → cc_stop_closed cc = false →
  (∀ σ', cache_inv σ' → owns t (<[CacheLock p := true]> S) σ' → keeps t (has_watches S) σ σ' →
     is_Some (caches (mem σ') !! p) → in_order (CacheLock p) σ' → Q (Val tt) σ') →
  ok t (_ ← act (Store_stopped p); act (Close_stop p)) σ Q.
Proof.
  intros Ho Hp Hst Hre Hop HQ. perform.
  assert (Hl : ∀ σ', owns t (<[CacheLock p := true]> S) σ' → sees t (CacheLock p) σ' = Some true).
  { intros σ' Ho'. by rewrite Ho', lookup_insert_eq. }
  apply (ok_Gives t (<[CacheLock p := true]> S)); [done|done|]. intros σ1 Hi1 Hr1 Ho1.
  assert (Hp1 : caches (mem σ1) !! p = Some cc) by by eapply rely_cache_locked, Hp; [|apply Hl].
  assert (Hlt : (p < length (caches (mem σ1)))%nat) by by eapply lookup_lt_Some.
  eexists (with_caches (<[p := set_stopped cc]> (caches (mem σ1))) (mem σ1)), tt. split; [|split; [done|split]].
  { cbn [cache_exec]. rewrite Hp1. by apply writing_held, Hl. }
  { apply good_cache with cc; try done; [by apply Hl|]. by apply Hr1. }
  intros Hi2 Ho2. perform.
  apply (ok_Gives t (<[CacheLock p := true]> S)); [done|done|]. intros σ3 Hi3 Hr3 Ho3.
  assert (Hp3 : caches (mem σ3) !! p = Some (set_stopped cc)).
  { eapply rely_cache_locked; [exact Hr3|by apply Hl|]. simpl. by rewrite list_lookup_insert_eq. }
  assert (Hlt3 : (p < length (caches (mem σ3)))%nat) by by eapply lookup_lt_Some.
  eexists (with_caches (<[p := set_closed (set_stopped cc)]> (caches (mem σ3))) (mem σ3)), tt.
  split; [|split; [done|split]].
  { cbn [cache_exec]. rewrite Hp3. simpl. by rewrite Hop. }
  { apply good_cache with (set_stopped cc); try done; [by apply Hl|].
    simpl. apply Hr3. right; right. by apply Hr1. }
  intros Hi4 Ho4 σ5 Hi5 Hr5.
  assert (Hp5 : caches (mem σ5) !! p = Some (set_closed (set_stopped cc))).
  { eapply rely_cache_locked; [exact Hr5|by apply Hl|]. simpl. by rewrite list_lookup_insert_eq. }
  apply HQ; [done|by eapply rely_owns| |by eexists|].
  - etrans; [by eapply rely_keeps_locked|]. etrans; [by apply (keeps_cache t _ (Store_stopped p) tt p cc (set_stopped cc))|].
    etrans; [by eapply rely_keeps_locked|].
    etrans; [by apply (keeps_cache t _ (Close_stop p) tt p (set_stopped cc) (set_closed (set_stopped cc)))|].
    by eapply rely_keeps_locked.
  - intros cc5. simpl. rewrite Hp5. by intros [= <-].
Qed.

Lemma Stop_ok t S k p σ (Q : outcome unit → state → Prop) :
  owns t S σ → (∀ l b, S !! l = Some b → (lock_rank l < lock_rank (CacheLock p))%nat) →
  belongs p k σ → reason k (said σ) →
  (∀ σ', cache_inv σ' → owns t S σ' → keeps t (has_watches S) σ σ' → Q (Val tt) σ') →
  ok t (Stop p) σ Q.
Proof.
  intros Ho Hrank Hbel Hre HQ. apply (ok_locked t S); [done|done|]. intros σ1 Hi1 Ho1 Hk1 Hin1.
  perform. apply (ok_Reads t (<[CacheLock p := true]> S)); [done|done|done|].
  intros σ2 Hi2 Hr2 Ho2.
  assert (Hl2 : sees t (CacheLock p) σ2 = Some true) by by rewrite Ho2, lookup_insert_eq.
  destruct (keeps_belongs _ _ p k _ _ Hk1 Hbel) as (cc&Hp1&Hcl).
  assert (Hp2 : caches (mem σ2) !! p = Some cc).
  { eapply rely_cache_locked; [exact Hr2|by rewrite Ho1, lookup_insert_eq|done]. }
  exists (cc_stopped cc). split_and!; [|done|].
  { cbn [cache_exec]. rewrite Hp2. by eapply reading_held. }
  intros σ3 Hi3 Ho3.
  assert (Hk3 : keeps t (has_watches S) σ σ3).
  { etrans; [exact Hk1|]. etrans; [by eapply rely_keeps_locked|].
    by apply (keeps_observe t _ σ2 (Load_stopped p)). }
  destruct (cc_stopped cc) eqn:Hst.
  - intros σ4 Hi4 Hr4.
    assert (Hp4 : caches (mem σ4) !! p = Some cc).
    { eapply rely_cache_locked; [exact Hr4|by rewrite Ho3, lookup_insert_eq|done]. }
    split_and!; [by eapply rely_owns|by intros ? [= <-]; eexists| |].
    + intros cc4. rewrite Hp4. intros [= <-] _. by apply (Hin1 cc Hp1).
    + intros σ5 Hi5 Ho5 Hk5. apply HQ; [done|done|]. etrans; [exact Hk3|].
      etrans; [by eapply rely_keeps_locked|done].
  - apply (Stop_body_ok t S p cc); [done|done|done| | |].
    + rewrite Hcl. by apply Hk3.
    + destruct (cc_stop_closed cc) eqn:Hclosed; [|done].
      by rewrite (inv_closed _ Hi2 p cc Hp2 Hclosed) in Hst.
    + intros σ4 Hi4 Ho4 Hk4 Hal4 Hin4.
      split_and!; [done|by intros ? [= <-]|done|].
      intros σ5 Hi5 Ho5 Hk5. apply HQ; [done|done|]. etrans; [exact Hk3|]. by etrans.
Qed.
(** A step of [t] that concerns neither the caches nor the recorded watches. *)
Lemma keeps_write t b a r m σ :
  caches m = caches (mem σ) → (∀ failed, note_of a r ≠ Checked failed) →
  (b = true → watches m = watches (mem σ) ∧ watch_sets m = watch_sets (mem σ) ∧
     ∀ k w, recorded ((t, note_of a r) :: said σ) k w = recorded (said σ) k w) →
  keeps t b σ (@after cache_process t a r m (hist σ)).
Proof.
  intros Hc Hn Hw. split; simpl.
  - exact Hw.
  - rewrite Hc. intros p cc Hp. by exists cc.
  - unfold said. simpl. destruct (note_of a r); try done. by destruct (Hn failed).
  - intros k Hk. by right; right.
Qed.

Lemma given_up_cons k t n h :
  given_up k ((t, n) :: h) → n = Dropped k ∨ n = Forgot k ∨ given_up k h.
Proof.
  intros [t' [[[= -> <-]|?]%elem_of_cons|[[= -> <-]|?]%elem_of_cons]]; [by left|..|by right; left|];
    right; right; exists t'; tauto.
Qed.

Lemma has_watches_none S : S !! WatchesLock = None → has_watches S = false.
Proof. intros HS. apply bool_decide_eq_false. rewrite HS. by intros [? ?]. Qed.

Lemma deleteClusterCache_ok t S k σ (Q : outcome unit → state → Prop) :
  owns t S σ → (∀ l b, S !! l = Some b → (lock_rank l < lock_rank ClusterCachesLock)%nat) →
  reason k (said σ) →
  (∀ σ', cache_inv σ' → owns t S σ' → keeps t (has_watches S) σ σ' → Q (Val tt) σ') →
  ok t (deleteClusterCache k) σ Q.
Proof.
  intros Ho Hrank Hre HQ. apply (ok_locked t S); [done|done|]. intros σ1 Hi1 Ho1 Hk1 _.
  perform. apply (ok_Gives t (<[ClusterCachesLock := true]> S)); [done|done|].
  intros σ2 Hi2 Hr2 Ho2.
  assert (Hl2 : sees t ClusterCachesLock σ2 = Some true) by by rewrite Ho2, lookup_insert_eq.
  eexists (with_clusterCaches (delete k (clusterCaches (mem σ2))) (mem σ2)), tt.
  split; [by apply writing_held|]. split; [done|]. split.
  { apply good_write; try done; simpl.
    - intros k'. rewrite lookup_delete. case_decide; [done|apply Hi2].
    - by right.
    - intros k' p [_ Hp]%lookup_delete_Some. by left.
    - by left.
    - apply Hi2.
    - apply Hi2.
    - intros p cc Hp. exists cc. split_and!; [done..|by left].
    - intros p cc Hp. by left.
    - intros k' [[= <-]|[[=]|Hg]]%given_up_cons.
      + right; right. by apply Hr2, Hk1.
      + right; right. by apply inv_given_up.
    - apply Hi2. }
  intros Hi3 Ho3 σ4 Hi4 Hr4. split_and!; [by eapply rely_owns|by intros ? [=]|done|].
  intros σ5 Hi5 Ho5 Hk5. apply HQ; [done|done|].
  etrans; [exact Hk1|]. etrans; [by eapply rely_keeps_locked|].
  etrans; [by apply (keeps_write t _ (Delete_clusterCaches k) tt (with_clusterCaches (delete k (clusterCaches (mem σ2))) (mem σ2)))|].
  etrans; [by eapply rely_keeps_locked|done].
Qed.

Lemma deleteWatchesForCluster_ok t S k σ (Q : outcome unit → state → Prop) :
  owns t S σ → (∀ l b, S !! l = Some b → (lock_rank l < lock_rank WatchesLock)%nat) →
  reason k (said σ) →
  (∀ σ', cache_inv σ' → owns t S σ' → keeps t false σ σ' → Q (Val tt) σ') →
  ok t (deleteWatchesForCluster k) σ Q.
Proof.
  intros Ho Hrank Hre HQ. apply (ok_locked t S); [done|done|]. intros σ1 Hi1 Ho1 Hk1 Hin1.
  perform. apply (ok_Gives t (<[WatchesLock := true]> S)); [done|done|].
  intros σ2 Hi2 Hr2 Ho2.
  assert (Hl2 : sees t WatchesLock σ2 = Some true) by by rewrite Ho2, lookup_insert_eq.
  assert (Hin2 : in_order WatchesLock σ2).
  { eapply in_order_rely; [exact Hr2|by rewrite Ho1, lookup_insert_eq|done|done]. }
  eexists (with_watches (delete k (watches (mem σ2))) (mem σ2)), tt.
  split; [by apply writing_held|]. split; [done|]. split.
  { apply good_write; try done; simpl.
    - apply Hi2.
    - by left.
    - by left.
    - by right.
    - intros k' s [_ Hs]%lookup_delete_Some. by eapply inv_sets.
    - intros k1 k2 s [_ H1]%lookup_delete_Some [_ H2]%lookup_delete_Some. by eapply inv_sets_inj.
    - intros p cc Hp. exists cc. split_and!; [done..|by left].
    - intros p cc Hp. by left.
    - intros k' [[=]|[[= <-]|Hg]]%given_up_cons.
      + right; right. by apply Hr2, Hk1.
      + right; right. by apply inv_given_up.
    - apply Hi2. }
  intros Hi3 Ho3 σ4 Hi4 Hr4. split_and!; [by eapply rely_owns|by intros ? [=]| |].
  - eapply in_order_rely; [exact Hr4|by rewrite Ho3, lookup_insert_eq|done|].
    intros k' w. unfold watched. simpl. rewrite lookup_delete. unfold said. simpl.
    case_decide; [done|apply Hin2].
  - intros σ5 Hi5 Ho5 Hk5. apply HQ; [done|done|].
    etrans; [by eapply keeps_forget|]. etrans; [eapply keeps_forget; by eapply rely_keeps_locked|].
    etrans; [by apply (keeps_write t _ (Delete_watches k) tt (with_watches (delete k (watches (mem σ2))) (mem σ2)))|].
    etrans; [eapply keeps_forget; by eapply rely_keeps_locked|by eapply keeps_forget].
Qed.
(** Code of other components changes nothing here. *)
Lemma rely_observe t a r σ :
  note_of a r = Other ∨ (∃ k, note_of a r = Gone k) →
  cache_rely t σ (@after cache_process t a r (mem σ) (hist σ)).
Proof.
  intros Hn. split; rewrite ?said_after; simpl; [done|done|..].
  - intros _. split_and!; [done..|]. intros k w. by destruct Hn as [->|[? ->]].
  - intros p cc Hp. by exists cc.
  - unfold said. by destruct Hn as [->|[? ->]].
  - unfold said. by destruct Hn as [->|[? ->]].
  - intros k Hk. by right; right.
Qed.

Lemma K8s_note a r : note_of (K8s a) r = Other ∨ ∃ k, note_of (K8s a) r = Gone k.
Proof.
  destruct a; try by left. destruct r as [|e]; simpl; [by left|].
  destruct (apierrors_IsNotFound e); [right; by eexists|by left].
Qed.

Lemma K8s_observes a r : observes (note_of (K8s a) r) = true.
Proof. by destruct (K8s_note a r) as [->|[k ->]]. Qed.

#[local] Arguments ok : simpl never.

Lemma in_goroutine_ok {A} t S (p : prog (E := k8s) A) σ (R : A → Prop)
    (allowed : list (event (E := k8s)) → k8s_action → Prop) (past : list (event (E := k8s)))
    (Hp : hoare (E := k8s) allowed p past (λ x _, R x)) (Q : A → state → Prop) :
  owns t S σ →
  (∀ x σ', cache_inv σ' → owns t S σ' → cache_rely t σ σ' → R x → Q x σ') →
  ok t (in_goroutine p) σ Q.
Proof.
  revert σ past Hp. induction p as [x|a k IH]; intros σ past Hp Ho HQ; simpl.
  - intros σ' Hi Hr. apply HQ; [done|by eapply rely_owns|done|exact Hp].
  - apply (ok_Asks t S); [done|done|done|apply K8s_observes|done|].
    intros r σ1 Hi1 Hr1. simpl. intros Hi2 Ho2. eapply IH; [by apply Hp|done|].
    intros x σ3 Hi3 Ho3 Hr3. apply HQ; [done|done|]. etrans; [exact Hr1|].
    etrans; [by apply (rely_observe t (K8s a) r), K8s_note|done].
Qed.

(** *** Creating a cache *)

Lemma good_Make t k c σ :
  cache_inv σ →
  good t (Make_clusterCache k c) σ (@after cache_process t (Make_clusterCache k c) (length (caches (mem σ)))
    (with_caches (caches (mem σ) ++ [{| cc_Cache := c; cc_stopped := false; cc_stop_closed := false;
       cc_cluster := k |}]) (mem σ)) (hist σ)).
Proof.
  intros Hi. apply good_write; try done; simpl.
  - apply Hi.
  - by left.
  - by left.
  - by left.
  - apply Hi.
  - apply Hi.
  - intros p cc Hp. exists cc. rewrite lookup_app_l by by eapply lookup_lt_Some.
    split_and!; [done..|by left].
  - intros p cc [Hp|[_ Hp]]%lookup_app_Some; [by left|right].
    apply list_lookup_singleton_Some in Hp as [_ <-]. done.
  - intros k' [[=]|[[=]|Hg]]%given_up_cons. right; right. by apply inv_given_up.
  - apply Hi.
Qed.

Lemma good_Store t k p σ :
  cache_inv σ → sees t ClusterCachesLock σ = Some true → clusterCaches (mem σ) !! k = None →
  belongs p k σ →
  good t (Store_clusterCaches k p) σ (@after cache_process t (Store_clusterCaches k p) tt
    (with_clusterCaches (<[k := p]> (clusterCaches (mem σ))) (mem σ)) (hist σ)).
Proof.
  intros Hi Hl Hnone Hbel. apply good_write; try done; simpl.
  - intros k'. destruct (decide (k = k')) as [->|Hne].
    + by rewrite lookup_insert_eq.
    + rewrite lookup_insert_ne by done. apply Hi.
  - by right.
  - intros k' p' [[<- <-]|[_ ?]]%lookup_insert_Some; [by right|by left].
  - by left.
  - apply Hi.
  - apply Hi.
  - intros p' cc Hp. exists cc. split_and!; [done..|by left].
  - intros p' cc Hp. by left.
  - intros k' [[=]|[[=]|Hg]]%given_up_cons. right; right. by apply inv_given_up.
  - split; [|apply Hi]. rewrite <-(inv_current _ Hi). done.
Qed.

Lemma keeps_Make t b k c σ :
  keeps t b σ (@after cache_process t (Make_clusterCache k c) (length (caches (mem σ)))
    (with_caches (caches (mem σ) ++ [{| cc_Cache := c; cc_stopped := false; cc_stop_closed := false;
       cc_cluster := k |}]) (mem σ)) (hist σ)).
Proof.
  split; unfold said; simpl; [done| |done|].
  - intros p cc Hp. exists cc. by rewrite lookup_app_l by by eapply lookup_lt_Some.
  - intros k' Hk. by right; right.
Qed.

Lemma start_cache_ok t S k config c σ (Q : outcome (result error ptr) → state → Prop) :
  let S' := <[ClusterCachesLock := true]> S in
  owns t S' σ → clusterCaches (mem σ) !! k = None →
  (∀ p σ', cache_inv σ' → owns t S' σ' → keeps t (has_watches S) σ σ' → belongs p k σ' →
     Q (Val (Ok p)) σ') →
  ok t (start_cache k config c) σ Q.
Proof.
  intros S' Ho Hnone HQ.
  assert (Hl : ∀ σ', owns t S' σ' → sees t ClusterCachesLock σ' = Some true).
  { intros σ' Ho'. unfold S' in Ho'. by rewrite Ho', lookup_insert_eq. }
  unfold start_cache. perform. apply (ok_Gives t S'); [done|done|]. intros σ1 Hi1 Hr1 Ho1.
  eexists _, _. split; [done|]. split; [done|]. split; [by apply good_Make|]. intros Hi2 Ho2.
  set (p := length (caches (mem σ1))).
  perform. apply (ok_Gives t S'); [done|done|]. intros σ3 Hi3 Hr3 Ho3.
  assert (Hnone3 : clusterCaches (mem σ3) !! k = None).
  { rewrite (rely_clusterCaches _ _ _ Hr3) by by rewrite Hl. simpl.
    rewrite (rely_clusterCaches _ _ _ Hr1) by by rewrite Hl. done. }
  assert (Hbel3 : belongs p k σ3).
  { eapply rely_belongs; [exact Hr3|]. eexists. simpl. split; [by apply list_lookup_middle|done]. }
  eexists _, _. split; [by apply writing_held, Hl|]. split; [done|].
  split; [apply good_Store; [done|by apply Hl|done|done]|]. intros Hi4 Ho4.
  perform. apply (ok_Reads t S'); [done|done|done|]. intros σ5 Hi5 Hr5 Ho5.
  exists tt. split_and!; [done|done|]. intros σ6 Hi6 Ho6.
  perform. apply (ok_Gives t S'); [done|done|]. intros σ7 Hi7 Hr7 Ho7.
  assert (Hbel7 : belongs p k σ7).
  { eapply rely_belongs; [exact Hr7|]. apply (rely_belongs t p k _ σ5 Hr5 Hbel3). }
  exists (mem σ7), tt. split; [done|]. split; [done|]. split; [by apply good_fork|]. intros Hi8 Ho8 σ9 Hi9 Hr9.
  apply HQ; [done|by eapply rely_owns| |exact (rely_belongs t p k _ σ9 Hr9 Hbel7)].
  etrans; [by eapply rely_keeps_locked|]. etrans; [apply (keeps_Make t _ k c)|].
  etrans; [by eapply rely_keeps_locked|].
  etrans; [by apply (keeps_write t _ (Store_clusterCaches k p) tt
    (with_clusterCaches (<[k := p]> (clusterCaches (mem σ3))) (mem σ3)))|].
  etrans; [by eapply rely_keeps_locked|].
  etrans; [by apply (keeps_observe t _ σ5 (Go_Start p) tt)|].
  etrans; [by eapply rely_keeps_locked|].
  etrans; [by eapply (keeps_observe t _ σ7 (Go_healthCheckCluster _) tt)|by eapply rely_keeps_locked].
Qed.
Lemma newClusterCache_ok t S k opts σ (Q : outcome (result error ptr) → state → Prop) :
  owns t S σ → (∀ l b, S !! l = Some b → (lock_rank l < lock_rank ClusterCachesLock)%nat) →
  (∀ r σ', cache_inv σ' → owns t S σ' → keeps t (has_watches S) σ σ' →
     (∀ p, r = Ok p → belongs p k σ') → Q (Val r) σ') →
  ok t (newClusterCache k opts) σ Q.
Proof.
  intros Ho Hrank HQ. apply (ok_locked t S); [done|done|]. intros σ1 Hi1 Ho1 Hk1 _.
  set (S' := <[ClusterCachesLock := true]> S) in *.
  assert (Hl : ∀ σ', owns t S' σ' → sees t ClusterCachesLock σ' = Some true).
  { intros σ' Ho'. unfold S' in Ho'. by rewrite Ho', lookup_insert_eq. }
  assert (Hend : ∀ r σ', cache_inv σ' → owns t S' σ' → keeps t (has_watches S) σ1 σ' →
    (∀ p, r = Ok p → belongs p k σ') →
    owns t S' σ' ∧ (∀ p, ClusterCachesLock = CacheLock p → is_Some (caches (mem σ') !! p)) ∧
    in_order ClusterCachesLock σ' ∧
    ∀ σ3, cache_inv σ3 → owns t S σ3 → keeps t (has_watches S) σ' σ3 → Q (Val r) σ3).
  { intros r σ' Hi' Ho' Hk' Hbel. split_and!; [done|by intros ? [=]|done|].
    intros σ3 Hi3 Ho3 Hk3. apply HQ; [done|done|by etrans; [exact Hk1|etrans]|].
    intros p Hp. eapply keeps_belongs; [exact Hk3|by apply Hbel]. }
  perform. apply (ok_Reads t S'); [done|done|done|]. intros σ2 Hi2 Hr2 Ho2.
  exists (clusterCaches (mem σ2) !! k). split_and!; [by eapply reading_held, Hl|done|].
  intros σ3 Hi3 Ho3.
  assert (Hk3 : keeps t (has_watches S) σ1 σ3).
  { etrans; [by eapply rely_keeps_locked|]. by apply (keeps_observe t _ σ2 (Load_clusterCaches k)). }
  destruct (clusterCaches (mem σ2) !! k) as [p|] eqn:Hp.
  { intros σ4 Hi4 Hr4. apply Hend; [done|by eapply rely_owns| |].
    - etrans; [exact Hk3|by eapply rely_keeps_locked].
    - intros p' [= <-]. eapply rely_belongs; [exact Hr4|]. by apply (inv_caches _ Hi2). }
  apply cache_bind, (in_goroutine_ok t S' _ _ (λ o, o ≠ Panic) _ [] (RESTConfig_hoare k [])); [done|].
  intros [[config|e]|] σ4 Hi4 Ho4 Hr4 Hv; [| |done].
  2:{ intros σ5 Hi5 Hr5. apply Hend; [done|by eapply rely_owns| |done].
      etrans; [exact Hk3|]. etrans; by eapply rely_keeps_locked. }
  perform. apply (ok_Asks t S'); [done|done|done|done|done|]. intros r σ5 Hi5 Hr5. simpl. intros Hi6 Ho6.
  assert (Hk6 : keeps t (has_watches S) σ3 (@after cache_process t (Cache_New config opts) r (mem σ5) (hist σ5))).
  { etrans; [by eapply rely_keeps_locked|]. etrans; [by eapply rely_keeps_locked|].
    by apply (keeps_observe t _ σ5 (Cache_New config opts)). }
  destruct r as [c|e].
  2:{ intros σ7 Hi7 Hr7. apply Hend; [done|by eapply rely_owns| |done].
      etrans; [exact Hk3|]. etrans; [exact Hk6|by eapply rely_keeps_locked]. }
  apply (start_cache_ok t S); [done| |].
  { simpl. rewrite (rely_clusterCaches _ _ _ Hr5) by by rewrite Hl.
    rewrite (rely_clusterCaches _ _ _ Hr4) by by rewrite Hl. exact Hp. }
  intros p σ7 Hi7 Ho7 Hk7 Hbel7. apply Hend; [done|done| |by intros ? [= <-]].
  etrans; [exact Hk3|]. by etrans.
Qed.

Lemma getOrCreateClusterCache_ok t S k opts σ (Q : outcome (result error ptr) → state → Prop) :
  owns t S σ → (∀ l b, S !! l = Some b → (lock_rank l < lock_rank ClusterCachesLock)%nat) →
  (∀ r σ', cache_inv σ' → owns t S σ' → keeps t (has_watches S) σ σ' →
     (∀ p, r = Ok p → belongs p k σ') → Q (Val r) σ') →
  ok t (getOrCreateClusterCache k opts) σ Q.
Proof.
  intros Ho Hrank HQ. apply cache_bind, (getClusterCache_ok t S); [done|done|].
  intros [p|] σ1 Hi1 Ho1 Hk1 Hlook Hbel.
  - intros σ2 Hi2 Hr2. apply HQ; [done|by eapply rely_owns| |].
    + etrans; [exact Hk1|by eapply rely_keeps].
    + intros p' [= <-]. eapply rely_belongs; [exact Hr2|by apply Hbel].
  - apply (newClusterCache_ok t S); [done|done|]. intros r σ2 Hi2 Ho2 Hk2 Hbel2.
    apply HQ; [done|done|by etrans|done].
Qed.
(** *** Health checks and the reconciler *)

Lemma no_rank n (l : tracker_lock) (b : bool) :
  (∅ : gmap tracker_lock bool) !! l = Some b → (lock_rank l < n)%nat.
Proof. by rewrite lookup_empty. Qed.

(** Stopping a cache and forgetting it, which needs a reason. *)
Lemma clean_up_ok {A} t k p (m : G A) σ (Q : outcome A → state → Prop) :
  owns t ∅ σ → belongs p k σ → reason k (said σ) →
  (∀ σ', cache_inv σ' → owns t ∅ σ' → ok t m σ' Q) →
  ok t ((_ ← Stop p; _ ← deleteClusterCache k; _ ← deleteWatchesForCluster k; m) : G A) σ Q.
Proof.
  intros Ho Hbel Hre Hm.
  apply cache_bind, (Stop_ok t ∅ k); [done|apply no_rank|done|done|].
  intros σ1 Hi1 Ho1 Hk1.
  apply cache_bind, (deleteClusterCache_ok t ∅); [done|apply no_rank|by apply Hk1|].
  intros σ2 Hi2 Ho2 Hk2.
  apply cache_bind, (deleteWatchesForCluster_ok t ∅); [done|apply no_rank|by apply Hk2, Hk1|].
  intros σ3 Hi3 Ho3 _. by apply Hm.
Qed.

Lemma poll_end_ok t i err σ :
  owns t ∅ σ → (err ≠ None → reason (hc_cluster i) (said σ)) →
  ok t (poll_end i err) σ (settled t).
Proof.
  intros Ho Hre. destruct err as [e|]; simpl.
  2:{ intros σ' Hi' Hr' l. by rewrite (rely_locks _ _ _ Hr'), Ho. }
  apply cache_bind, (getClusterCache_ok t ∅); [done|apply no_rank|].
  intros [p|] σ1 Hi1 Ho1 Hk1 _ Hbel.
  2:{ intros σ' Hi' Hr' l. by rewrite (rely_locks _ _ _ Hr'), Ho1. }
  apply (clean_up_ok t (hc_cluster i) p); [done|by apply Hbel|by apply Hk1, Hre|].
  intros σ2 Hi2 Ho2 σ' Hi' Hr' l. by rewrite (rely_locks _ _ _ Hr'), Ho2.
Qed.

(** What a health check leaves: the count of failures in a row, and the rest as
    it was. *)
Definition checked (t : tid) (failed : bool) σ σ' : Prop :=
  failures t (said σ') = (if failed then failures t (said σ) + 1 else 0) ∧
  looked_up t (said σ') = looked_up t (said σ) ∧
  (∀ p k, belongs p k σ → belongs p k σ') ∧ (∀ k, reason k (said σ) → reason k (said σ')) ∧
  (failed = true → ∀ k, healthCheckUnhealthyThreshold ≤ failures t (said σ') →
     looked_up t (said σ') = Some k → reason k (said σ')).

Lemma checked_after t σ0 σ a r failed :
  cache_rely t σ0 σ → note_of a r = Checked failed →
  checked t failed σ0 (@after cache_process t a r (mem σ) (hist σ)).
Proof.
  intros Hr Hn. unfold checked.
  change (said (@after cache_process t a r (mem σ) (hist σ))) with ((t, note_of a r) :: said σ).
  rewrite Hn. split_and!.
  - simpl. rewrite decide_True by done. destruct failed; [|done].
    by rewrite (rely_failures _ _ _ Hr).
  - apply Hr.
  - intros p k Hb. by apply (rely_belongs t p k σ0 σ Hr).
  - intros k Hk. right; right. by apply Hr.
  - intros _ k Hle Hl. right; left. by split.
Qed.

Lemma checked_rely t failed σ σ1 σ2 : checked t failed σ σ1 → cache_rely t σ1 σ2 → checked t failed σ σ2.
Proof.
  intros (Hf&Hl&Hb&Hk&Hre) Hr. split_and!.
  - by rewrite (rely_failures _ _ _ Hr).
  - by rewrite (rely_looked _ _ _ Hr).
  - intros p k Hp. eapply rely_belongs; [exact Hr|by apply Hb].
  - intros k Hk'. by apply Hr, Hk.
  - intros Hfailed k. rewrite (rely_failures _ _ _ Hr), (rely_looked _ _ _ Hr). intros ??.
    by apply Hr, Hre.
Qed.

Lemma rely_checked t failed σ σ1 σ2 : cache_rely t σ σ1 → checked t failed σ1 σ2 → checked t failed σ σ2.
Proof.
  intros Hr (Hf&Hl&Hb&Hk&Hre). split_and!.
  - by rewrite Hf, (rely_failures _ _ _ Hr).
  - by rewrite Hl, (rely_looked _ _ _ Hr).
  - intros p k Hp. by eapply Hb, rely_belongs.
  - intros k Hk'. by apply Hk, Hr.
  - exact Hre.
Qed.

Lemma healthCheckPath_ok t cfg timeout path σ (Q : outcome (option error) → state → Prop) :
  owns t ∅ σ →
  (∀ r σ', cache_inv σ' → owns t ∅ σ' → checked t (bool_decide (r ≠ None)) σ σ' → Q (Val r) σ') →
  ok t (healthCheckPath cfg timeout path) σ Q.
Proof.
  intros Ho HQ. unfold healthCheckPath. perform.
  apply (ok_Asks t ∅); [done|done|done|by intros []|done|].
  intros r σ1 Hi1 Hr1 σ2 Hi2 Ho2. destruct r as [e|].
  { intros σ3 Hi3 Hr3. apply HQ; [done|by eapply rely_owns|].
    rewrite bool_decide_eq_true_2 by done. eapply checked_rely; [|exact Hr3].
    by apply checked_after. }
  perform. apply (ok_Asks t ∅); [done|done|done|by intros []|done|].
  intros r σ3 Hi3 Hr3 σ4 Hi4 Ho4.
  assert (Hck : checked t (bool_decide (r ≠ None)) σ σ4).
  { eapply rely_checked; [exact Hr1|]. eapply rely_checked.
    { by apply (rely_observe t (UnversionedRESTClientFor cfg) None σ1); left. }
    apply checked_after; [exact Hr3|]. by destruct r. }
  by destruct r; intros σ5 Hi5 Hr5; (apply HQ; [done|by eapply rely_owns|by eapply checked_rely]).
Qed.
(** One call of the closure by goroutine [t]: its count stays the number of
    checks of [t] that have failed in a row, and an error is a reason. *)
Lemma runHealthCheck_ok t i count σ (Q : outcome (Z * (bool * option error)) → state → Prop) :
  owns t ∅ σ → hc_unhealthyThreshold i = healthCheckUnhealthyThreshold →
  belongs (hc_stop i) (hc_cluster i) σ → count = failures t (said σ) →
  (∀ c over err σ', cache_inv σ' → owns t ∅ σ' →
     (err ≠ None → reason (hc_cluster i) (said σ')) →
     (err = None → over = false → cache_polling t (i, c) σ') → Q (Val (c, (over, err))) σ') →
  ok t (runHealthCheckWithThreshold i count) σ Q.
Proof.
  intros Ho Hth Hbel -> HQ.
  apply cache_bind, (getClusterCache_ok t ∅); [done|apply no_rank|].
  intros [p|] σ1 Hi1 Ho1 Hk1 Hlook _.
  2:{ intros σ2 Hi2 Hr2. apply HQ; [done|by eapply rely_owns|done|done]. }
  apply cache_bind, healthCheckPath_ok; [done|]. intros err σ2 Hi2 Ho2 (Hf&Hl&Hb&Hk&Hre).
  rewrite (keeps_failures _ _ _ _ Hk1) in Hf. rewrite Hlook in Hl. cbv zeta.
  set (c := match err with Some _ => _ | None => _ end).
  assert (Hc : c = failures t (said σ2)) by (unfold c; rewrite Hf; by destruct err).
  rewrite Hth. destruct (Z.leb_spec healthCheckUnhealthyThreshold c) as [Hle|Hlt];
    intros σ3 Hi3 Hr3; (apply HQ; [done|by eapply rely_owns|..]).
  - intros Herr. apply Hr3. apply Hre; [by apply bool_decide_eq_true|by rewrite <-Hc|done].
  - intros -> _. unfold c in Hle. done.
  - done.
  - intros _ _. split_and!; [done| | |done]; simpl.
    + eapply rely_belongs; [exact Hr3|]. apply Hb. by eapply keeps_belongs.
    + by rewrite (rely_failures _ _ _ Hr3).
Qed.

Lemma poll_round_ok t s σ :
  owns t ∅ σ → hc_unhealthyThreshold s.1 = healthCheckUnhealthyThreshold →
  belongs (hc_stop s.1) (hc_cluster s.1) σ → s.2 = failures t (said σ) →
  ok t (poll_round s) σ (settled t).
Proof.
  intros Ho Hth Hbel Hc. apply cache_bind, runHealthCheck_ok; [done..|].
  intros c over err σ1 Hi1 Ho1 Hre Hpoll. destruct err as [e|].
  { by apply poll_end_ok. }
  destruct over; [by apply poll_end_ok|]. intros σ2 Hi2 Hr2. split.
  - intros l. by rewrite (rely_locks _ _ _ Hr2), Ho1.
  - destruct (Hpoll eq_refl eq_refl) as (?&Hb&Hf&?). split_and!; [done| | |done].
    + by eapply rely_belongs.
    + by rewrite (rely_failures _ _ _ Hr2).
Qed.

Lemma healthCheckCluster_ok t i σ :
  owns t ∅ σ → tracker_input i → belongs (hc_stop i) (hc_cluster i) σ → failures t (said σ) = 0 →
  ok t (healthCheckCluster i) σ (settled t).
Proof.
  intros Ho Hin Hbel Hf. apply poll_round_ok; simpl; [done| |done|done].
  unfold tracker_input in Hin. by rewrite Hin.
Qed.

Lemma finish_ok {A} t (m : G A) σ :
  ok t m σ (λ o σ', ∃ x, o = Val x ∧ owns t ∅ σ') → ok t (finish m) σ (settled t).
Proof.
  intros Hm. apply cache_bind. revert Hm. apply ok_mono. intros o σ1 Hi1 (x&->&Ho1).
  intros σ2 Hi2 Hr2 l. by rewrite (rely_locks _ _ _ Hr2), Ho1.
Qed.

Lemma ret_ok {A} t S (x : A) σ : owns t S σ → ok t (mret x : G A) σ (λ o σ', ∃ x, o = Val x ∧ owns t S σ').
Proof. intros Ho σ' Hi Hr. exists x. split; [done|by eapply rely_owns]. Qed.

Lemma Reconcile_ok t k σ : owns t ∅ σ → ok t (Reconcile k) σ (λ o σ', ∃ x, o = Val x ∧ owns t ∅ σ').
Proof.
  intros Ho. unfold Reconcile. perform.
  apply (ok_Asks t ∅); [done|done|done|apply K8s_observes|done|].
  intros r σ1 Hi1 Hr1. cbv zeta. intros Hi2 Ho2. destruct r as [cl|e]; [by apply ret_ok|].
  destruct (apierrors_IsNotFound e) eqn:He; simpl; [|by apply ret_ok].
  assert (Hre : reason k (said (@after cache_process t (K8s (Get_Cluster k)) (Err e) (mem σ1) (hist σ1)))).
  { unfold said. simpl. rewrite He. by left. }
  apply cache_bind, (getClusterCache_ok t ∅); [done|apply no_rank|].
  intros [p|] σ3 Hi3 Ho3 Hk3 _ Hbel; [|by apply ret_ok].
  apply (clean_up_ok t k p); [done|by apply Hbel|by apply Hk3|].
  intros σ4 Hi4 Ho4. by apply ret_ok.
Qed.
(** *** Watches *)

(** What [t] knows of the watches lasts while it holds their lock. *)
Lemma rely_watches_locked t S b σ σ' :
  cache_rely t σ σ' → owns t S σ → S !! WatchesLock = Some b →
  watches (mem σ') = watches (mem σ) ∧ watch_sets (mem σ') = watch_sets (mem σ) ∧
  ∀ k w, recorded (said σ') k w = recorded (said σ) k w.
Proof. intros Hr Ho HS. apply (rely_watches _ _ _ Hr). by rewrite Ho, HS. Qed.

Lemma has_watches_some S b : S !! WatchesLock = Some b → has_watches S = true.
Proof. intros HS. apply bool_decide_eq_true. by exists b. Qed.

Lemma watched_same k w σ σ' :
  watches (mem σ') = watches (mem σ) → watch_sets (mem σ') = watch_sets (mem σ) →
  watched (mem σ') k w = watched (mem σ) k w.
Proof. intros Hw Hs. unfold watched. by rewrite Hw, Hs. Qed.

Lemma watchExists_ok t S b k w σ (Q : outcome bool → state → Prop) :
  owns t S σ → S !! WatchesLock = Some b →
  (∀ σ', cache_inv σ' → owns t S σ' → keeps t true σ σ' → Q (Val (watched (mem σ') k w)) σ') →
  ok t (watchExists k w) σ Q.
Proof.
  intros Ho HS HQ. assert (Hw : has_watches S = true) by by eapply has_watches_some.
  assert (Hk : ∀ σ σ', cache_rely t σ σ' → owns t S σ → keeps t true σ σ').
  { intros ?? Hr Ho'. rewrite <-Hw. by apply rely_keeps. }
  assert (Hl : ∀ σ', owns t S σ' → sees t WatchesLock σ' = Some b) by (intros ? Ho'; by rewrite Ho').
  unfold watchExists. perform. apply (ok_Reads t S); [done|done|done|]. intros σ1 Hi1 Hr1 Ho1.
  exists (watches (mem σ1) !! k). split_and!; [by eapply reading_held, Hl|done|]. intros σ2 Hi2 Ho2.
  assert (Hk2 : keeps t true σ σ2).
  { etrans; [by apply Hk|]. by apply (keeps_observe t _ σ1 (Load_watches k)). }
  destruct (watches (mem σ1) !! k) as [s|] eqn:Hs.
  - perform. apply (ok_Reads t S); [done|done|done|]. intros σ3 Hi3 Hr3 Ho3.
    destruct (rely_watches_locked t S b _ _ Hr3 Ho2 HS) as (Hw3&Hs3&_).
    assert (Hs3' : watches (mem σ3) !! k = Some s) by (rewrite Hw3; exact Hs).
    destruct (lookup_lt_is_Some_2 (watch_sets (mem σ3)) s) as [ws Hws]; [by eapply inv_sets|].
    exists (bool_decide (w ∈ ws)). split_and!; [|done|].
    { cbn [cache_exec]. rewrite Hws. by eapply reading_held, Hl. }
    intros σ4 Hi4 Ho4 σ5 Hi5 Hr5.
    destruct (rely_watches_locked t S b _ _ Hr5 Ho4 HS) as (Hw5&Hs5&_).
    replace (bool_decide (w ∈ ws)) with (watched (mem σ5) k w).
    2:{ rewrite (watched_same k w _ _ Hw5 Hs5). unfold watched. simpl. by rewrite Hs3', Hws. }
    apply HQ; [done|by eapply rely_owns|]. etrans; [exact Hk2|]. etrans; [by apply Hk|].
    etrans; [by apply (keeps_observe t _ σ3 (Contains s w))|by apply Hk].
  - intros σ3 Hi3 Hr3. destruct (rely_watches_locked t S b _ _ Hr3 Ho2 HS) as (Hw3&Hs3&_).
    replace false with (watched (mem σ3) k w).
    2:{ rewrite (watched_same k w _ _ Hw3 Hs3). unfold watched. simpl. by rewrite Hs. }
    apply HQ; [done|by eapply rely_owns|]. etrans; [exact Hk2|by apply Hk].
Qed.

(** A write of the watches by the goroutine that has locked them, which changes
    what is recorded as the map changes. *)
Lemma good_watches t a r m σ :
  cache_inv σ → cache_forks a = None →
  locks m = locks (mem σ) → clusterCaches m = clusterCaches (mem σ) → caches m = caches (mem σ) →
  note_of a r = Other ∨ (∃ k w, note_of a r = Watched k w ∧ recorded (said σ) k w = false) →
  sees t WatchesLock σ = Some true →
  (∀ k s, watches m !! k = Some s → (s < length (watch_sets m))%nat) →
  (∀ k k' s, watches m !! k = Some s → watches m !! k' = Some s → k = k') →
  good t a σ (@after cache_process t a r m (hist σ)).
Proof.
  intros Hi Hf Hls Hcs Hc Hn Hl Hlt Hinj. apply good_write; rewrite ?Hcs, ?Hc; try done.
  - intros k. rewrite (inv_current _ Hi). by destruct Hn as [->|(?&?&->&_)].
  - by left.
  - by left.
  - by right.
  - intros p cc Hp. exists cc. split_and!; [done..|by left].
  - intros p cc Hp. by left.
  - intros k Hg. right; right. apply inv_given_up; [done|].
    apply given_up_cons in Hg. by destruct Hn as [Hn|(?&?&Hn&_)]; rewrite Hn in Hg; destruct Hg as [|[|]].
  - destruct Hn as [->|(k&w&->&Hrec)]; simpl; [apply Hi|]. split; [done|apply Hi].
Qed.

(** [t] holds the lock of the watches, the map is in order, the watch is not in
    it, and [s] is the inner map of the cluster. *)
Definition about_to_watch (t : tid) k w (s : nat) σ : Prop :=
  owns t {[WatchesLock := true]} σ ∧ in_order WatchesLock σ ∧ watched (mem σ) k w = false ∧
  watches (mem σ) !! k = Some s.

Lemma about_to_watch_keeps t k w s σ σ' :
  keeps t true σ σ' → owns t {[WatchesLock := true]} σ' →
  about_to_watch t k w s σ → about_to_watch t k w s σ'.
Proof.
  intros Hk Ho' (Ho&Hin&Hw&Hs). destruct (keeps_watches _ _ _ _ Hk) as (Hww&Hss&Hrec); [done|].
  split_and!; [done| | |by rewrite Hww].
  - intros k' w'. by rewrite (watched_same k' w' _ _ Hww Hss), Hrec.
  - by rewrite (watched_same k w _ _ Hww Hss).
Qed.
Lemma keeps_locked_watches t σ σ' :
  cache_rely t σ σ' → owns t {[WatchesLock := true]} σ → keeps t true σ σ'.
Proof.
  intros Hr Ho. rewrite <-(has_watches_some {[WatchesLock := true]} true); [by apply rely_keeps|].
  apply lookup_singleton_eq.
Qed.

Lemma sees_watches t σ : owns t {[WatchesLock := true]} σ → sees t WatchesLock σ = Some true.
Proof. intros Ho. by rewrite Ho, lookup_singleton_eq. Qed.

(** A map without the cluster gets an empty set for it, which is no change. *)
Lemma watched_new_set m k s :
  watches m !! k = None → watch_sets m !! s = Some ∅ →
  ∀ k' w, watched (with_watches (<[k := s]> (watches m)) m) k' w = watched m k' w.
Proof.
  intros Hnone Hs k' w. unfold watched. simpl. destruct (decide (k' = k)) as [->|Hne].
  - rewrite lookup_insert_eq, Hnone, Hs. apply bool_decide_eq_false_2, not_elem_of_empty.
  - by rewrite lookup_insert_ne.
Qed.

(** While [t] has locked the watches, they stay in order and as they are. *)
Lemma watches_facts t k w σ σ' :
  in_order WatchesLock σ → watched (mem σ) k w = false → keeps t true σ σ' →
  in_order WatchesLock σ' ∧ watched (mem σ') k w = false.
Proof.
  intros Hin Hw Hk'. destruct (keeps_watches _ _ _ _ Hk') as (Hww&Hss&Hrec); [done|]. split.
  - intros k' w'. by rewrite (watched_same k' w' _ _ Hww Hss), Hrec.
  - by rewrite (watched_same k w _ _ Hww Hss).
Qed.

(** The map gets a set that no cluster has yet. *)
Lemma store_set_good t k s σ :
  cache_inv σ → owns t {[WatchesLock := true]} σ → watch_sets (mem σ) !! s = Some ∅ →
  (∀ k' s', watches (mem σ) !! k' = Some s' → (s' < s)%nat) →
  good t (Store_watches k s) σ (@after cache_process t (Store_watches k s) tt
    (with_watches (<[k := s]> (watches (mem σ))) (mem σ)) (hist σ)).
Proof.
  intros Hi Ho Hnew Hold. apply good_watches; [done..|by left|by apply sees_watches| |]; simpl.
  - intros k' s' [[<- <-]|[_ Hs']]%lookup_insert_Some; [by eapply lookup_lt_Some|by eapply inv_sets].
  - intros k1 k2 s' [[<- <-]|[Hne1 H1]]%lookup_insert_Some [[<- ?]|[Hne2 H2]]%lookup_insert_Some;
      [done|by apply Hold in H2; lia|subst; apply Hold in H1; lia|by eapply inv_sets_inj].
Qed.

Lemma make_watches_ok t k w σ (Q : outcome nat → state → Prop) :
  owns t {[WatchesLock := true]} σ → in_order WatchesLock σ → watched (mem σ) k w = false →
  watches (mem σ) !! k = None →
  (∀ s σ', cache_inv σ' → about_to_watch t k w s σ' → Q (Val s) σ') →
  ok t (s ← act Make_set; _ ← act (Store_watches k s); mret s : G nat) σ Q.
Proof.
  intros Ho Hin Hw Hnone HQ.
  perform. apply (ok_Gives t {[WatchesLock := true]}); [done|done|]. intros σ3 Hi3 Hr3 Ho3.
  assert (Hk3 : keeps t true σ σ3) by by apply keeps_locked_watches.
  assert (Hnone3 : watches (mem σ3) !! k = None).
  { destruct (keeps_watches _ _ _ _ Hk3) as (->&_); [done|exact Hnone]. }
  eexists _, _. split; [done|]. split; [done|]. split.
  { apply good_watches; [done..|by left|by apply sees_watches| |apply Hi3]; simpl.
    intros k' s' Hs'. rewrite length_app. apply Nat.lt_lt_add_r. by eapply inv_sets. }
  intros Hi4 Ho4. set (s := length (watch_sets (mem σ3))) in *.
  perform. apply (ok_Gives t {[WatchesLock := true]}); [done|done|]. intros σ5 Hi5 Hr5 Ho5.
  destruct (keeps_watches _ _ _ _ (keeps_locked_watches _ _ _ Hr5 Ho4)) as (Hw5&Hs5&Hrec5); [done|].
  assert (Hnew : watch_sets (mem σ5) !! s = Some ∅) by (rewrite Hs5; by apply list_lookup_middle).
  assert (Hnone5 : watches (mem σ5) !! k = None) by (rewrite Hw5; exact Hnone3).
  eexists (with_watches (<[k := s]> (watches (mem σ5))) (mem σ5)), tt.
  split; [by apply writing_held, sees_watches|]. split; [done|]. split.
  { apply store_set_good; [done..|]. intros k' s'. rewrite Hw5. apply (inv_sets _ Hi3). }
  intros Hi6 Ho6 σ7 Hi7 Hr7. apply HQ; [done|].
  apply about_to_watch_keeps with (@after cache_process t (Store_watches k s) tt
    (with_watches (<[k := s]> (watches (mem σ5))) (mem σ5)) (hist σ5));
    [by apply keeps_locked_watches|by eapply rely_owns|].
  assert (Hsame : ∀ k' w', watched (mem σ5) k' w' = watched (mem σ3) k' w').
  { intros k' w'. unfold watched. rewrite Hw5, Hs5. simpl. destruct (watches (mem σ3) !! k') as [s'|] eqn:Hs'; [|done].
    by rewrite lookup_app_l by by eapply inv_sets. }
  destruct (watches_facts t k w σ σ3) as [Hin3 Hw3]; [done..|].
  split_and!; [done| | |by apply lookup_insert_eq].
  - intros k' w'. simpl. rewrite watched_new_set by done. rewrite Hsame, Hin3.
    unfold said in *. simpl. by rewrite Hrec5.
  - simpl. rewrite watched_new_set by done. by rewrite Hsame.
Qed.

Lemma watches_for_ok t k w σ (Q : outcome nat → state → Prop) :
  owns t {[WatchesLock := true]} σ → in_order WatchesLock σ → watched (mem σ) k w = false →
  (∀ s σ', cache_inv σ' → about_to_watch t k w s σ' → Q (Val s) σ') →
  ok t (watches_for k) σ Q.
Proof.
  intros Ho Hin Hw HQ. unfold watches_for. perform.
  apply (ok_Reads t {[WatchesLock := true]}); [done|done|done|]. intros σ1 Hi1 Hr1 Ho1.
  exists (watches (mem σ1) !! k). split_and!; [by eapply reading_held, sees_watches|done|].
  intros σ2 Hi2 Ho2.
  assert (Hk2 : keeps t true σ σ2).
  { etrans; [by apply keeps_locked_watches|]. by apply (keeps_observe t _ σ1 (Load_watches k)). }
  destruct (watches_facts t k w σ σ2) as [Hin2 Hw2]; [done..|].
  destruct (watches (mem σ1) !! k) as [s|] eqn:Hs.
  - intros σ3 Hi3 Hr3. assert (Hk3 : keeps t true σ2 σ3) by by apply keeps_locked_watches.
    apply HQ; [done|]. apply about_to_watch_keeps with σ2; [done|by eapply rely_owns|]. by split_and!.
  - by apply (make_watches_ok t k w).
Qed.

(** Recording a watch that was just established. *)
Lemma Insert_ok t i s σ (Q : outcome (option error) → state → Prop) :
  (∃ σ0, about_to_watch t (in_Cluster i) (watch_info i) s σ0 ∧ watches (mem σ) = watches (mem σ0) ∧
     watch_sets (mem σ) = watch_sets (mem σ0) ∧
     (∀ k w, recorded (said σ) k w = bool_decide (in_Cluster i = k ∧ watch_info i = w) || recorded (said σ0) k w)) →
  owns t {[WatchesLock := true]} σ →
  (∀ σ', cache_inv σ' → owns t {[WatchesLock := true]} σ' → in_order WatchesLock σ' → Q (Val None) σ') →
  ok t (_ ← act (Insert s (watch_info i)); mret None : G (option error)) σ Q.
Proof.
  intros (σ0&(_&Hin0&Hw0&Hs0)&Hw&Hs&Hrec) Ho HQ. perform.
  apply (ok_Gives t {[WatchesLock := true]}); [done|done|]. intros σ1 Hi1 Hr1 Ho1.
  destruct (keeps_watches _ _ _ _ (keeps_locked_watches _ _ _ Hr1 Ho)) as (Hw1&Hs1&Hrec1); [done|].
  assert (Hs1' : watches (mem σ1) !! in_Cluster i = Some s) by by rewrite Hw1, Hw.
  destruct (lookup_lt_is_Some_2 (watch_sets (mem σ1)) s) as [ws Hws]; [by eapply inv_sets|].
  eexists (with_watch_sets (<[s := {[watch_info i]} ∪ ws]> (watch_sets (mem σ1))) (mem σ1)), tt.
  split; [cbn [cache_exec]; rewrite Hws; by apply writing_held, sees_watches|]. split; [done|]. split.
  { apply good_watches; [done..|by left|by apply sees_watches| |apply Hi1]; simpl.
    intros k s'. rewrite length_insert. by apply inv_sets. }
  intros Hi2 Ho2 σ3 Hi3 Hr3. apply HQ; [done|by eapply rely_owns|].
  eapply in_order_rely; [exact Hr3|by apply sees_watches|done|]. intros k w. unfold said. simpl.
  change (notes (hist σ1)) with (said σ1). rewrite Hrec1, Hrec. unfold watched. simpl.
  destruct (decide (in_Cluster i = k)) as [<-|Hne].
  - rewrite Hs1'. rewrite list_lookup_insert_eq by by eapply lookup_lt_Some.
    specialize (Hin0 (in_Cluster i) w). rewrite <-Hin0. unfold watched. rewrite Hs0, <-Hs, <-Hs1, Hws.
    rewrite <-bool_decide_or. apply bool_decide_ext. rewrite elem_of_union, elem_of_singleton. naive_solver.
  - specialize (Hin0 k w). rewrite <-Hin0. unfold watched. rewrite Hw1, Hw, Hs1, Hs.
    rewrite bool_decide_eq_false_2 by naive_solver. simpl.
    destruct (watches (mem σ0) !! k) as [s'|] eqn:Hs'; [|done].
    rewrite list_lookup_insert_ne; [done|]. intros <-. destruct Hne.
    eapply (inv_sets_inj _ Hi1); [exact Hs1'|]. by rewrite Hw1, Hw.
Qed.

(** Establishing the watch and recording it. *)
Lemma establish_ok t i p s σ (Q : outcome (option error) → state → Prop) :
  about_to_watch t (in_Cluster i) (watch_info i) s σ →
  (∀ r σ', cache_inv σ' → owns t {[WatchesLock := true]} σ' → in_order WatchesLock σ' → Q (Val r) σ') →
  ok t (check act (Watcher_Watch i p)
        catch err => mret (Some (errors_Wrap err "error creating watch"));;
        _ ← act (Insert s (watch_info i));
        mret None : G (option error)) σ Q.
Proof.
  intros Hat HQ. perform. intros σ1 Hi1 Hr1. split; [done|]. intros r.
  assert (Hat1 : about_to_watch t (in_Cluster i) (watch_info i) s σ1).
  { pose proof (proj1 Hat) as Ho. eapply about_to_watch_keeps; [|by eapply rely_owns|exact Hat].
    by apply keeps_locked_watches. }
  pose proof Hat1 as (Ho1&Hin1&Hw1&Hs1).
  assert (Hgood : good t (Watcher_Watch i p) σ1 (@after cache_process t (Watcher_Watch i p) r (mem σ1) (hist σ1))).
  { apply good_watches; [done..| |by apply sees_watches|apply Hi1|apply Hi1].
    destruct r; [by left|right]. exists (in_Cluster i), (watch_info i). split; [done|]. by rewrite <-Hin1. }
  split; [exact Hgood|]. destruct r as [e|].
  - intros σ2 Hi2 Hr2. apply HQ; [done|by eapply rely_owns|].
    eapply in_order_rely; [exact Hr2|by apply sees_watches|done|]. exact Hin1.
  - apply Insert_ok; [|exact Ho1|].
    + exists σ1. split_and!; done.
    + intros σ2 Hi2 Ho2 Hin2. by apply HQ.
Qed.

Lemma Watch_ok t i σ : owns t ∅ σ → ok t (Watch i) σ (λ o σ', ∃ x, o = Val x ∧ owns t ∅ σ').
Proof.
  intros Ho. unfold Watch. apply cache_bind.
  apply (ok_rlocked t ∅); [done|apply no_rank|]. intros σ1 Hi1 Ho1 Hk1.
  apply (watchExists_ok t (<[WatchesLock := false]> ∅) false); [done|by rewrite lookup_insert_eq|].
  intros σ2 Hi2 Ho2 Hk2. split; [done|]. intros σ3 Hi3 Ho3 Hk3 _.
  destruct (watched _ _ _); [by apply ret_ok|].
  apply (ok_locked t ∅); [done|apply no_rank|]. intros σ4 Hi4 Ho4 _ Hin4.
  assert (Hend : ∀ r σ', owns t {[WatchesLock := true]} σ' → in_order WatchesLock σ' →
    owns t {[WatchesLock := true]} σ' ∧ (∀ p, WatchesLock = CacheLock p → is_Some (caches (mem σ') !! p)) ∧
    in_order WatchesLock σ' ∧ ∀ σ3, cache_inv σ3 → owns t ∅ σ3 → keeps t (has_watches ∅) σ' σ3 →
      ∃ x : option error, Val r = Val x ∧ owns t ∅ σ3).
  { intros r σ' Ho' Hin'. split_and!; [done|by intros ? [=]|done|]. intros σ6 _ Ho6 _. by exists r. }
  apply cache_bind, (watchExists_ok t {[WatchesLock := true]} true); [done|apply lookup_singleton_eq|].
  intros σ5 Hi5 Ho5 Hk5.
  assert (Hin5 : in_order WatchesLock σ5).
  { destruct (keeps_watches _ _ _ _ Hk5) as (Hww&Hss&Hrec); [done|]. intros k w.
    by rewrite (watched_same k w _ _ Hww Hss), Hrec. }
  destruct (watched (mem σ5) _ _) eqn:Hw5.
  { intros σ6 Hi6 Hr6. apply Hend; [by eapply rely_owns|].
    eapply in_order_rely; [exact Hr6|by apply sees_watches|done|done]. }
  apply cache_bind, (watches_for_ok t _ (watch_info i)); [done..|]. intros s σ6 Hi6 Hat6.
  apply cache_bind, (getOrCreateClusterCache_ok t {[WatchesLock := true]});
    [apply Hat6|intros l b [<- _]%lookup_singleton_Some; simpl; lia|].
  intros r σ7 Hi7 Ho7 Hk7 _.
  rewrite (has_watches_some _ true) in Hk7 by apply lookup_singleton_eq.
  pose proof (about_to_watch_keeps _ _ _ _ _ _ Hk7 Ho7 Hat6) as Hat7.
  destruct r as [p|e].
  - apply establish_ok; [done|]. intros r σ8 Hi8 Ho8 Hin8. by apply Hend.
  - intros σ8 Hi8 Hr8. apply Hend; [by eapply rely_owns|].
    eapply in_order_rely; [exact Hr8|by apply sees_watches|done|apply Hat7].
Qed.

(** *** The process keeps its discipline *)

#[export] Instance cache_discipline_laws : DisciplineLaws.
Proof.
  split; simpl.
  - apply _.
  - intros t σ σ' Hr [Hidle Hf]. split.
    + intros l. by rewrite (rely_locks _ _ _ Hr).
    + by rewrite (rely_failures _ _ _ Hr).
  - by intros t σ [? _].
  - intros t σ σ' p Hr [?|(i&->&Hin&Hbel)]; [by left|right]. exists i. split_and!; [done..|].
    by eapply rely_belongs.
  - intros t p σ Hi [Hidle Hf] [Hp|(i&->&Hin&Hbel)].
    + assert (Ho : owns t ∅ σ) by (intros l; rewrite lookup_empty; apply Hidle).
      destruct Hp; apply finish_ok; [by apply Watch_ok|by apply Reconcile_ok].
    + apply healthCheckCluster_ok; [|done..]. intros l. rewrite lookup_empty. apply Hidle.
  - intros t s σ Hi Hidle (Hth&Hbel&Hc&_). apply poll_round_ok; [|done..].
    intros l. rewrite lookup_empty. apply Hidle.
  - intros t s σ p Hi Hidle (Hth&(cc&Hcc&Hcl)&_). unfold poll_stopped. rewrite Hcc.
    destruct (cc_stop_closed cc) eqn:Hclosed; [|done]. intros <-%(inj Some). apply poll_end_ok.
    + intros l. rewrite lookup_empty. apply Hidle.
    + intros _. rewrite <-Hcl. eapply inv_stopped; [done|exact Hcc|]. by eapply inv_closed.
Qed.

(** Only locking blocks. *)
Lemma cache_blocked t a σ :
  cache_inv σ → cache_guard t a σ → cache_exec t a (mem σ) = Blocks →
  ∃ l t', (∀ l', sees t l' σ ≠ None → (lock_rank l' < lock_rank l)%nat) ∧ sees t' l σ ≠ None.
Proof.
  intros Hi Hg. destruct a; simpl; unfold lock_result, reading, writing; intros Hb;
    try (repeat case_match; done).
  - destruct (acquire_write t l (locks (mem σ))) eqn:Hacq; [done|].
    destruct (acquire_write_blocked t l _ (inv_locks _ Hi) Hacq) as [t' Ht']. by exists l, t'.
  - destruct (acquire_read t l (locks (mem σ))) eqn:Hacq; [done|].
    destruct (acquire_read_blocked t l _ Hacq) as [t' Ht']. by exists l, t'.
Qed.

#[export] Instance cache_lock_order : LockOrder.
Proof.
  refine {| lock := tracker_lock; rank := lock_rank; top := 3; holds t l σ := sees t l σ ≠ None |}.
  - intros []; simpl; lia.
  - intros t l σ Hidle Hh. apply Hh, (Hidle l).
  - intros t a σ Hi Hg. by apply cache_blocked.
Defined.
End tracker_functions.
