(* ===== verification/ClusterCacheSafety.v ===== *)
(** What holds in every reachable state of the tracker's process, whatever the
    interleaving: no races and no deadlock, no duplicate watches, and caches
    that are only given up for a reason. *)
From S2P Require Import Prelude GoRuntime ApiTypes Platform SamplePlatform ManagementCluster Concurrency ClusterCache TrackerDiscipline TrackerFunctions.
Local Open Scope Z_scope.

Section cluster_cache_safety.
Context {P : Platform}.

(** A goroutine of this process. *)
Abbreviation G := (M (E := cache_effects)).

Implicit Types (σ : state) (h : list (tid * note)) (k : ObjectKey) (w : watchInfo).

(** ** Properties *)

Lemma start_sane : sane start.
Proof.
  split_and!; simpl.
  - split; simpl; try done; try (by intros *; rewrite lookup_empty).
    + intros l. right. by destruct l.
    + by intros k [t [?%not_elem_of_nil|?%not_elem_of_nil]].
  - intros t p Hp. by rewrite lookup_nil in Hp.
  - by intros t _.
Qed.

Lemma tracker_sane c : reachable calls start c → sane c.
Proof. apply sane_reachable; [by left|apply start_sane]. Qed.

(** C26: however the callers of [Watch] and [Reconcile], the health checks and
    the environment interleave, the tracker has no data race: no goroutine
    reads or writes a map or a flag without the lock that protects it, unlocks
    what it does not hold, closes a stop channel twice or panics otherwise, and
    a goroutine that has ended, or waits between two health checks, holds no
    lock. *)
Theorem tracker_race_free c t p :
  reachable calls start c → pool c !! t = Some p →
  match p with
  | Do a _ => cache_exec t a (mem (shared c)) ≠ Fails
  | Ret (Val _) => ∀ l, held t l (locks (mem (shared c))) = None
  | Ret Panic => False
  end.
Proof.
  intros Hr%tracker_sane Ht. destruct p as [[[|s]|]|a k].
  - apply Hr in Ht. by apply (ok_settled t (Val Finished)) in Ht; [|apply Hr].
  - apply Hr in Ht. by apply (ok_settled t (Val (Poll s))) in Ht as [? _]; [|apply Hr].
  - by apply (sane_no_panic c t Hr).
  - by apply (sane_guarded c t a k Hr).
Qed.

(** C27: the goroutines never deadlock: while one of them is in the middle of
    its code, some goroutine can take its next step, whatever the environment
    answers. *)
Theorem tracker_progress c t a go :
  reachable calls start c → pool c !! t = Some (Do a go) →
  ∃ t', ∀ o, is_Some (turn c t' o false).
Proof. intros Hr%tracker_sane Ht. by apply (sane_progress c t a go Hr). Qed.

Lemma recorded_watched h k w t : (t, Watched k w) ∈ h → (∀ t', (t', Forgot k) ∉ h) → recorded h k w = true.
Proof.
  induction h as [|[t' n] h IH]; [by intros ?%not_elem_of_nil|].
  intros [[= <- <-]|Hin]%elem_of_cons Hno; simpl.
  - by rewrite bool_decide_eq_true_2.
  - assert (recorded h k w = true) as Hrec.
    { apply IH; [done|]. intros t'' Ht. apply (Hno t''). by apply elem_of_cons; right. }
    destruct n; try done.
    + rewrite Hrec. apply orb_true_r.
    + case_decide as Hk; [|done]. subst. destruct (Hno t'). apply elem_of_cons. by left.
Qed.

Lemma current_stored h k p t :
  no_duplicates h → (t, Stored k p) ∈ h → (∀ t', (t', Dropped k) ∉ h) → current h k = Some p.
Proof.
  induction h as [|[t' n] h IH]; [by intros _ ?%not_elem_of_nil|].
  intros Hdup [[= <- <-]|Hin]%elem_of_cons Hno; simpl.
  - by rewrite decide_True.
  - assert (Hno' : ∀ t'', (t'', Dropped k) ∉ h).
    { intros t'' Ht. apply (Hno t''). by apply elem_of_cons; right. }
    destruct n as [| |k' p'|k'| | | |]; simpl in *; try (by apply IH; tauto).
    + case_decide as Hk; [|by apply IH; tauto]. subst.
      rewrite (IH (proj2 Hdup) Hin Hno') in Hdup. by destruct Hdup.
    + case_decide as Hk; [|by apply IH]. subst. destruct (Hno t'). apply elem_of_cons. by left.
Qed.

Lemma no_duplicates_app h1 h2 : no_duplicates (h1 ++ h2) → no_duplicates h2.
Proof.
  induction h1 as [|[t n] h1 IH]; simpl; [done|]. destruct n; try done; by intros [_ ?]; apply IH.
Qed.

Lemma recorded_app h1 h2 k w :
  recorded (h1 ++ h2) k w = false → (∀ t, (t, Forgot k) ∉ h1) → recorded h2 k w = false.
Proof.
  induction h1 as [|[t n] h1 IH]; [done|]. simpl. intros Hrec Hno.
  assert (Hno' : ∀ t', (t', Forgot k) ∉ h1).
  { intros t' Ht. apply (Hno t'). by apply elem_of_cons; right. }
  destruct n; try (by apply IH).
  - apply orb_false_iff in Hrec as [_ ?]. by apply IH.
  - case_decide as Hk; [|by apply IH]. subst. destruct (Hno t). apply elem_of_cons. by left.
Qed.

Lemma current_app h1 h2 k p :
  current (h1 ++ h2) k = None → (∀ t, (t, Dropped k) ∉ h1) → current h2 k ≠ Some p.
Proof.
  induction h1 as [|[t n] h1 IH]; simpl; [by intros ->|]. intros Hcur Hno.
  assert (Hno' : ∀ t', (t', Dropped k) ∉ h1).
  { intros t' Ht. apply (Hno t'). by apply elem_of_cons; right. }
  destruct n; try (by apply IH).
  - case_decide; [done|by apply IH].
  - case_decide as Hk; [|by apply IH]. subst. destruct (Hno t). apply elem_of_cons. by left.
Qed.
#[export] Instance note_eq_dec : EqDecision note.
Proof. solve_decision. Defined.

#[export] Instance reason_dec k h : Decision (reason k h).
Proof. induction h as [|[t n] h IH]; simpl; apply _. Defined.

Lemma said_or_not n h : (∃ t, (t, n) ∈ h) ∨ ∀ t, (t, n) ∉ h.
Proof.
  destruct (decide (n ∈ h.*2)) as [Hin|Hno].
  - left. apply list_elem_of_fmap in Hin as ([t n']&->&Hin). by exists t.
  - right. intros t Ht. apply Hno. apply list_elem_of_fmap. by exists (t, n).
Qed.

(** C21: in the history of the tracker (latest event first), between two
    occasions on which the same watch of a cluster was established, the watches
    of the cluster were forgotten, and between two caches stored for a cluster
    its cache was dropped; and while nobody is writing the map of watches it
    records exactly the watches that were established and not forgotten
    since. *)
Theorem watches_once c (h := notes (hist (shared c))) :
  reachable calls start c →
  (∀ k w h1 h2 h3 t1 t2, h = h1 ++ (t2, Watched k w) :: h2 ++ (t1, Watched k w) :: h3 →
     ∃ t, (t, Forgot k) ∈ h2) ∧
  (∀ k p1 p2 h1 h2 h3 t1 t2, h = h1 ++ (t2, Stored k p2) :: h2 ++ (t1, Stored k p1) :: h3 →
     ∃ t, (t, Dropped k) ∈ h2) ∧
  ((∀ t, held t WatchesLock (locks (mem (shared c))) ≠ Some true) →
     ∀ k w, watched (mem (shared c)) k w = recorded h k w).
Proof.
  intros Hr%tracker_sane. destruct (proj1 Hr) as [_ Hord _ _ _ _ _ _ _ Hdup]. split_and!.
  - intros k w h1 h2 h3 t1 t2 Heq. destruct (said_or_not (Forgot k) h2) as [?|Hno]; [done|].
    change (no_duplicates h) in Hdup. rewrite Heq in Hdup.
    apply no_duplicates_app in Hdup as [Hrec _]. apply recorded_app in Hrec; [|done].
    simpl in Hrec. by rewrite bool_decide_eq_true_2 in Hrec.
  - intros k p1 p2 h1 h2 h3 t1 t2 Heq. destruct (said_or_not (Dropped k) h2) as [?|Hno]; [done|].
    change (no_duplicates h) in Hdup. rewrite Heq in Hdup.
    apply no_duplicates_app in Hdup as [Hcur _].
    destruct (current_app _ _ k p1 Hcur Hno). simpl. by rewrite decide_True.
  - intros Hfree. destruct (Hord WatchesLock) as [[t Ht]|Hm]; [by destruct (Hfree t)|exact Hm].
Qed.

(** C24: a cluster's cache is given up only for a reason: as long as no
    reconciliation was told that the cluster does not exist and no goroutine's
    health checks of it failed three times in a row, none of its caches has
    been stopped, a cache once stored for it is still its cache, and a watch
    once established is still recorded, whatever happens to other clusters. *)
Theorem cache_kept c k (h := notes (hist (shared c))) (m := mem (shared c)) :
  reachable calls start c → ¬ reason k h →
  (∀ p cc, caches m !! p = Some cc → cc_cluster cc = k → cc_stopped cc = false ∧ cc_stop_closed cc = false) ∧
  (∀ t p, (t, Stored k p) ∈ h → clusterCaches m !! k = Some p) ∧
  (∀ t w, (t, Watched k w) ∈ h → recorded h k w = true).
Proof.
  intros Hr%tracker_sane Hno. pose proof (proj1 Hr) as Hi.
  assert (Hkept : ∀ t, (t, Dropped k) ∉ h ∧ (t, Forgot k) ∉ h).
  { intros t. split; intros Ht; apply Hno, (inv_given_up _ Hi); exists t; tauto. }
  split_and!.
  - intros p cc Hp Hk. assert (Hst : cc_stopped cc = false).
    { destruct (cc_stopped cc) eqn:Hst; [|done]. destruct Hno. rewrite <-Hk. by eapply inv_stopped. }
    split; [done|]. destruct (cc_stop_closed cc) eqn:Hcl; [|done].
    by rewrite (inv_closed _ Hi p cc Hp Hcl) in Hst.
  - intros t p Hs. unfold m. rewrite (inv_current _ Hi). eapply current_stored; [apply Hi|exact Hs|].
    intros t'. apply Hkept.
  - intros t w Hw. eapply recorded_watched; [exact Hw|]. intros t'. apply Hkept.
Qed.

Lemma failures_nonneg t h : 0 ≤ failures t h.
Proof.
  induction h as [|[t' n] h IH]; simpl; [done|]. destruct n; try done. case_decide; [|done].
  destruct failed; lia.
Qed.

(** C28: the count of a health check between two rounds is exactly the number of
    its checks that have failed in a row; it is never negative, stays below the
    threshold of three, and the check is of the cluster its cache was made
    for. *)
Theorem health_count_exact c t i count :
  reachable calls start c → pool c !! t = Some (Ret (Val (Poll (i, count)))) →
  count = failures t (notes (hist (shared c))) ∧ 0 ≤ count < healthCheckUnhealthyThreshold ∧
  hc_unhealthyThreshold i = healthCheckUnhealthyThreshold ∧
  ∃ cc, caches (mem (shared c)) !! hc_stop i = Some cc ∧ cc_cluster cc = hc_cluster i.
Proof.
  intros Hr%tracker_sane Ht. apply Hr in Ht.
  apply (ok_settled (PR := cache_process) t (Val (Poll (i, count)))) in Ht as [_ (Hth&Hbel&Hc&Hlt)]; [|apply Hr].
  simpl in *. split_and!; [done| |done|done|done]. rewrite Hc. apply failures_nonneg.
Qed.
End cluster_cache_safety.

(** ** Runs *)

Section runs.
Context {P : Platform}.
Abbreviation G := (M (E := cache_effects)).
Abbreviation environment := (∀ a : cache_action, cache_answer a).

(** A goroutine of the rest of the program arrives; goroutine [t] has one turn,
    or runs to the end of its code; what cannot happen is left out. *)
Definition arrive (p : G (next polling_state)) (c : config) : config :=
  {| shared := shared c; pool := pool c ++ [p] |}.
Definition give_turn (t : tid) (o : environment) (early : bool) (c : config) : config :=
  match turn c t o early with Some c' => c' | None => c end.
Fixpoint drain (fuel : nat) (t : tid) (o : environment) (c : config) : config :=
  match fuel with
  | O => c
  | S fuel =>
      match pool c !! t with
      | Some (Do _ _) => drain fuel t o (give_turn t o false c)
      | _ => c
      end
  end.

Lemma reachable_arrive p c : calls p → reachable calls start c → reachable calls start (arrive p c).
Proof. intros Hp Hr. eapply rtc_r; [exact Hr|exact (step_call calls c p Hp)]. Qed.

Lemma reachable_turn t o early c : reachable calls start c → reachable calls start (give_turn t o early c).
Proof.
  intros Hr. unfold give_turn. destruct (turn c t o early) as [c'|] eqn:Ht; [|done].
  eapply rtc_r; [exact Hr|by eapply step_turn].
Qed.

Lemma reachable_drain fuel t o c : reachable calls start c → reachable calls start (drain fuel t o c).
Proof.
  revert c; induction fuel as [|fuel IH]; intros c Hr; simpl; [done|].
  repeat case_match; try done. by apply IH, reachable_turn.
Qed.

(** Only goroutine [t] has turns. *)
Definition only_turns (t : tid) : config → config → Prop :=
  rtc (λ c c', ∃ (o : environment) early, turn (PR := cache_process) c t o early = Some c').

Lemma only_turns_give t o early c c' :
  only_turns t c c' → only_turns t c (give_turn t o early c').
Proof.
  intros Hr. unfold give_turn. destruct (turn c' t o early) as [c2|] eqn:Ht; [|done].
  eapply rtc_r; [exact Hr|by exists o, early].
Qed.

Lemma only_turns_drain fuel t o c c' : only_turns t c c' → only_turns t c (drain fuel t o c').
Proof.
  revert c'; induction fuel as [|fuel IH]; intros c' Hr; simpl; [done|].
  repeat case_match; try done. by apply IH, only_turns_give.
Qed.

(** Where a goroutine is: in its code, at its end or between two rounds. *)
Inductive place := Missing | Running | Dead | Ended | Between (s : polling_state).
Definition place_of (c : config) (t : tid) : place :=
  match pool c !! t with
  | None => Missing
  | Some (Do _ _) => Running
  | Some (Ret Panic) => Dead
  | Some (Ret (Val Finished)) => Ended
  | Some (Ret (Val (Poll s))) => Between s
  end.

Lemma place_of_Running c t : place_of c t = Running → ∃ a go, pool c !! t = Some (Do a go).
Proof. unfold place_of. destruct (pool c !! t) as [[[[|s]|]|a go]|]; try done. by exists a, go. Qed.
Lemma place_of_Ended c t : place_of c t = Ended → pool c !! t = Some (Ret (Val Finished)).
Proof. unfold place_of. by destruct (pool c !! t) as [[[[|s]|]|a go]|]. Qed.
Lemma place_of_Between c t s : place_of c t = Between s → pool c !! t = Some (Ret (Val (Poll s))).
Proof. unfold place_of. destruct (pool c !! t) as [[[[|s']|]|a go]|]; by try intros [= ->]. Qed.
End runs.

Module ClusterCacheWitness.
Import Sample.

Definition key : ObjectKey := {| key_Namespace := "default"; key_Name := "demo" |}.
Definition input : WatchInput := {|
  in_Cluster := key; in_Watcher := 1; in_Kind := 2; in_CacheOptions := 3;
  in_EventHandler := 4; in_Predicates := [] |}%positive.

(** A healthy cluster, and one that is gone. *)
Definition kubernetes (found : bool) (a : k8s_action) : k8s_answer a :=
  match a with
  | Get_Cluster _ => if found then Ok Fixtures.cluster else Err NotFound
  | Kubeconfig_FromSecret _ => Ok "kubeconfig"
  | a => Fixtures.accept_action a
  end.
Definition env (found healthy : bool) (a : cache_action) : cache_answer a :=
  match a with
  | K8s a => kubernetes found a
  | Cache_New _ _ => Ok 7%positive
  | Watcher_Watch _ _ => None
  | UnversionedRESTClientFor _ => None
  | REST_Get _ _ _ => if healthy then None else Some (Msg "refused")
  | Lock _ | Unlock _ | RLock _ | RUnlock _ | Store_clusterCaches _ _ | Delete_clusterCaches _
  | Store_watches _ _ | Delete_watches _ | Insert _ _ | Store_stopped _ | Close_stop _
  | Go_Start _ | Go_healthCheckCluster _ => tt
  | Load_clusterCaches _ | Load_watches _ => None
  | Make_set | Make_clusterCache _ _ => 0%nat
  | Contains _ _ | Load_stopped _ => false
  end.

(** A watch is established, and the first health check passes. *)
Definition watching : config :=
  drain 100 1 (env true true) (drain 100 0 (env true true) (arrive (finish (Watch input)) start)).
(** The cluster is deleted; a reconciliation cleans up. *)
Definition cleaned : config :=
  drain 100 2 (env false true) (arrive (finish (Reconcile key)) watching).
(** A cluster of that name is created and watched again. *)
Definition again : config :=
  drain 100 3 (env true true) (arrive (finish (Watch input)) cleaned).
(** The health check of the first cache sees that its channel is closed. *)
Definition woken : config :=
  drain 100 1 (env true true) (give_turn 1 (env true true) true again).

Lemma watching_reachable : reachable calls start watching.
Proof.
  apply reachable_drain, reachable_drain, reachable_arrive; [constructor|apply rtc_refl].
Qed.
Lemma again_reachable : reachable calls start again.
Proof.
  apply reachable_drain, reachable_arrive; [constructor|].
  apply reachable_drain, reachable_arrive; [constructor|apply watching_reachable].
Qed.

(** What can be seen of the memory. *)
Definition seen (c : config) :=
  let m := mem (shared c) in
  (clusterCaches m !! key, (λ cc, (cc_stopped cc, cc_stop_closed cc)) <$> caches m,
   watched m key (watch_info input)).

Example seen_watching : seen watching = (Some 0%nat, [(false, false)], true).
Proof. vm_compute. reflexivity. Qed.
Example seen_cleaned : seen cleaned = (None, [(true, true)], false).
Proof. vm_compute. reflexivity. Qed.
Example seen_again : seen again = (Some 1%nat, [(true, true); (false, false)], true).
Proof. vm_compute. reflexivity. Qed.

Lemma tracker_race_free_witness :
  place_of watching 0 = Ended ∧ ∀ l, held 0 l (locks (mem (shared watching))) = None.
Proof.
  assert (H : place_of watching 0 = Ended) by (vm_compute; reflexivity). split; [exact H|].
  exact (tracker_race_free watching 0 (Ret (Val Finished)) watching_reachable (place_of_Ended _ _ H)).
Defined.

(** Two callers want the same watch at the same time; the first waits. *)
Definition contended : config :=
  give_turn 1 (env true true) false (arrive (finish (Watch input)) (arrive (finish (Watch input)) start)).

Lemma tracker_progress_witness : ∃ t', ∀ o, is_Some (turn contended t' o false).
Proof.
  assert (H : place_of contended 0 = Running) by (vm_compute; reflexivity).
  destruct (place_of_Running _ _ H) as (a&go&Hgo).
  apply (tracker_progress contended 0 a go); [|exact Hgo].
  apply reachable_turn, reachable_arrive; [constructor|].
  apply reachable_arrive; [constructor|apply rtc_refl].
Defined.

Lemma watches_once_witness :
  watched (mem (shared watching)) key (watch_info input) =
  recorded (notes (hist (shared watching))) key (watch_info input).
Proof.
  destruct (watches_once watching watching_reachable) as (_&_&H). apply H. intros t.
  assert (Hfree : locks (mem (shared watching)) = ∅) by (vm_compute; reflexivity).
  rewrite Hfree. unfold held. rewrite lookup_empty. discriminate.
Defined.

Lemma cache_kept_witness :
  ¬ reason key (notes (hist (shared watching))) ∧ clusterCaches (mem (shared watching)) !! key = Some 0%nat.
Proof.
  assert (Hno : ¬ reason key (notes (hist (shared watching)))).
  { apply (bool_decide_eq_false_1 _). vm_compute. reflexivity. }
  split; [exact Hno|]. destruct (cache_kept watching key watching_reachable Hno) as (_&H&_).
  apply (H 0%nat). apply (bool_decide_eq_true_1 _). vm_compute. reflexivity.
Defined.

(** The input of the health check of the first cache. *)
Definition first_check : healthCheckInput := validate {|
  hc_stop := 0%nat; hc_cluster := key; hc_cfg := {| rc_Data := "kubeconfig"; rc_Timeout := 0 |};
  hc_interval := 0; hc_requestTimeout := 0; hc_unhealthyThreshold := 0; hc_path := "" |}.

Lemma health_count_exact_witness :
  place_of watching 1 = Between (first_check, 0) ∧ 0 = failures 1 (notes (hist (shared watching))).
Proof.
  assert (H : place_of watching 1 = Between (first_check, 0)) by (vm_compute; reflexivity).
  split; [exact H|].
  exact (proj1 (health_count_exact watching 1 first_check 0 watching_reachable (place_of_Between _ _ _ H))).
Defined.

(** C29: a health check outlives its cache.  In a reachable state, the health
    check of a cluster's first cache is between two rounds and its own channel is
    closed, since that cache was stopped; the cluster, created anew, has another
    cache, which runs.  If now only this health check goes on, it stops and drops
    the other cache and ends, although no health check has ever failed and the
    cluster was not missed since the new cache was made. *)
Theorem stale_check_stops_new_cache :
  ∃ (c1 c2 : config (PR := cache_process)) t h n p,
    reachable calls start c1 ∧
    pool c1 !! t = Some (Ret (Val (Poll (h, n)))) ∧ hc_cluster h = key ∧
    (∃ cc, caches (mem (shared c1)) !! hc_stop h = Some cc ∧ cc_stop_closed cc = true) ∧
    clusterCaches (mem (shared c1)) !! key = Some p ∧ p ≠ hc_stop h ∧
    (∃ cc, caches (mem (shared c1)) !! p = Some cc ∧ cc_stopped cc = false) ∧
    only_turns t c1 c2 ∧
    pool c2 !! t = Some (Ret (Val Finished)) ∧
    (∃ cc, caches (mem (shared c2)) !! p = Some cc ∧ cc_stopped cc = true) ∧
    clusterCaches (mem (shared c2)) !! key = None ∧
    (∀ t', (t', Checked true) ∉ notes (hist (shared c2))) ∧
    (∃ t0 h1 h2, notes (hist (shared c2)) = h1 ++ (t0, Stored key p) :: h2 ∧ ∀ t', (t', Gone key) ∉ h1).
Proof.
  set (l := notes (hist (shared woken))).
  exists again, woken, 1%nat, first_check, 0, 1%nat.
  assert (Hno : ∀ n k, bool_decide ((n : note) ∈ (k : list (tid * note)).*2) = false → ∀ t : nat, (t, n) ∉ k).
  { intros n k Hb t Ht. apply bool_decide_eq_false_1 in Hb. apply Hb, list_elem_of_fmap. by exists (t, n). }
  split; [exact again_reachable|].
  split; [apply place_of_Between; vm_compute; reflexivity|]. split; [reflexivity|].
  split; [eexists; split; vm_compute; reflexivity|]. split; [vm_compute; reflexivity|].
  split; [vm_compute; discriminate|]. split; [eexists; split; vm_compute; reflexivity|].
  split; [by apply only_turns_drain, only_turns_give|].
  split; [apply place_of_Ended; vm_compute; reflexivity|].
  split; [eexists; split; vm_compute; reflexivity|]. split; [vm_compute; reflexivity|].
  split; [apply Hno; vm_compute; reflexivity|].
  exists 3%nat, (take 20 l), (drop 21 l). split; [symmetry; apply take_drop_middle; vm_compute; reflexivity|].
  apply Hno. vm_compute. reflexivity.
Qed.
End ClusterCacheWitness.
