(* ===== verification/ClusterCacheSpec.v ===== *)
(** What the operations of the tracker do when nothing interferes: they
    implement operations on an abstract view of it, the caches of the clusters
    and the set of established watches, on every branch. *)
From S2P Require Import Prelude GoRuntime ApiTypes Platform SamplePlatform ManagementCluster Concurrency.
From S2P Require Import ClusterCache TrackerDiscipline ClusterCacheSafety.
Local Open Scope Z_scope.
Local Open Scope go_scope.

Section cluster_cache_spec.
Context {P : Platform}.

(** ** The abstract view *)

Record tracker_view := {
  v_cache : gmap ObjectKey ptr;
  v_made : nat;
  v_stopped : gset ptr;
  v_watches : gset (ObjectKey * watchInfo);
}.

Abbreviation G := (M (E := cache_effects)).
Abbreviation environment := (∀ a : cache_action, cache_answer a).

(** Forgetting a cluster. *)
Definition spec_forget (k : ObjectKey) (v : tracker_view) : tracker_view :=
  match v_cache v !! k with
  | None => v
  | Some p => {|
      v_cache := delete k (v_cache v); v_made := v_made v; v_stopped := {[p]} ∪ v_stopped v;
      v_watches := filter (λ e, e.1 ≠ k) (v_watches v) |}
  end.

Definition spec_Reconcile (o : environment) (k : ObjectKey) (v : tracker_view) :
    option error * tracker_view :=
  match o (K8s (Get_Cluster k)) with
  | Ok _ => (None, v)
  | Err e => if apierrors_IsNotFound e then (None, spec_forget k v) else (Some e, v)
  end.

(** The cluster's configuration, as [RESTConfig] finds it. *)
Definition config_found (o : environment) (k : ObjectKey) : outcome (result error RestConfig) :=
  (drive (E := k8s) (λ _ a, o (K8s a)) [] (RESTConfig k)).2.

(** A new cache for the cluster. *)
Definition spec_made (k : ObjectKey) (v : tracker_view) : tracker_view := {|
  v_cache := <[k := v_made v]> (v_cache v); v_made := S (v_made v);
  v_stopped := v_stopped v; v_watches := v_watches v |}.

(** The cluster's cache, made if there is none; [RESTConfig] does not panic. *)
Definition spec_cache (o : environment) (k : ObjectKey) (options : iface) (v : tracker_view) :
    result error ptr * tracker_view :=
  match v_cache v !! k with
  | Some p => (Ok p, v)
  | None =>
      match config_found o k with
      | Val (Ok cfg) =>
          match o (Cache_New cfg options) with
          | Ok _ => (Ok (v_made v), spec_made k v)
          | Err e => (Err (errors_Wrap e "error creating cache for remote cluster"), v)
          end
      | Val (Err e) => (Err (errors_Wrap e "error fetching REST client config for remote cluster"), v)
      | Panic => (Err (errors_New ""), v)
      end
  end.

Definition spec_Watch (o : environment) (i : WatchInput) (v : tracker_view) :
    option error * tracker_view :=
  let e := (in_Cluster i, watch_info i) in
  if decide (e ∈ v_watches v) then (None, v)
  else
    match spec_cache o (in_Cluster i) (in_CacheOptions i) v with
    | (Err err, v) => (Some err, v)
    | (Ok p, v) =>
        match o (Watcher_Watch i p) with
        | Some err => (Some (errors_Wrap err "error creating watch"), v)
        | None => (None, {| v_cache := v_cache v; v_made := v_made v; v_stopped := v_stopped v;
                            v_watches := {[e]} ∪ v_watches v |})
        end
    end.

(** ** The relation between the tracker and the view *)

(** Between two operations: the tracker points to caches and sets that exist,
    every stopped cache has its channel closed, clusters do not share sets. *)
Record ordered (m : ClusterCacheTracker) : Prop := {
  rest_caches k p : clusterCaches m !! k = Some p → is_Some (caches m !! p);
  rest_flags p cc : caches m !! p = Some cc → cc_stopped cc = cc_stop_closed cc;
  rest_sets k s : watches m !! k = Some s → (s < length (watch_sets m))%nat;
  rest_inj k k' s : watches m !! k = Some s → watches m !! k' = Some s → k = k';
}.

(** No goroutine is in the tracker's code. *)
Definition at_rest (m : ClusterCacheTracker) : Prop := locks m = ∅ ∧ ordered m.

Record shows (m : ClusterCacheTracker) (v : tracker_view) : Prop := {
  shows_cache : v_cache v = clusterCaches m;
  shows_made : v_made v = length (caches m);
  shows_stopped p : p ∈ v_stopped v ↔ ∃ cc, caches m !! p = Some cc ∧ cc_stopped cc = true;
  shows_watches k w : (k, w) ∈ v_watches v ↔ watched m k w = true;
}.

(** Every reachable state in which no lock is held is at rest. *)
Lemma reachable_at_rest c :
  reachable calls start c → locks (mem (shared c)) = ∅ → at_rest (mem (shared c)).
Proof.
  intros Hr%tracker_sane Hls. destruct (proj1 Hr) as [_ Hord _ Hcaches Hclosed _ _ Hsets Hinj _].
  split; [done|]. split; [| |done|done].
  - intros k p Hp. destruct (Hcaches k p Hp) as (cc&?&_). by exists cc.
  - intros p cc Hp. destruct (Hord (CacheLock p)) as [[t Ht]|Ho].
    { unfold sees, held in Ht. by rewrite Hls, lookup_empty in Ht. }
    specialize (Ho cc Hp). specialize (Hclosed p cc Hp).
    destruct (cc_stopped cc), (cc_stop_closed cc); naive_solver.
Qed.

(** *** What each change of the memory does to the view *)

Lemma ordered_locks ls m : ordered m → ordered (with_locks ls m).
Proof. intros []. by split. Qed.
Lemma shows_locks ls m v : shows m v → shows (with_locks ls m) v.
Proof. intros []. by split. Qed.

(** [newClusterCache] with the lock held. *)
Definition with_cache (k : ObjectKey) (remoteCache : iface) (m : ClusterCacheTracker) : ClusterCacheTracker :=
  with_clusterCaches (<[k := length (caches m)]> (clusterCaches m))
    (with_caches (caches m ++ [{| cc_Cache := remoteCache; cc_stopped := false;
       cc_stop_closed := false; cc_cluster := k |}]) m).

Lemma lookup_snoc_ordered (cc new : clusterCache) p l :
  (l ++ [new]) !! p = Some cc → l !! p = Some cc ∨ p = length l ∧ cc = new.
Proof. intros [Hp|[Hle Hp]]%lookup_app_Some; [by left|]. apply list_lookup_singleton_Some in Hp. right. lia || (split; [lia|by destruct Hp]). Qed.

Lemma ordered_with_cache k remoteCache m : ordered m → ordered (with_cache k remoteCache m).
Proof.
  intros [Hc Hf Hs Hi]. split; simpl; [| |done|done].
  - intros k' p. destruct (decide (k' = k)) as [->|].
    + rewrite lookup_insert_eq. intros [= <-]. rewrite list_lookup_middle by done. by eexists.
    + rewrite lookup_insert_ne by done. intros [cc Hp]%Hc. exists cc. by apply lookup_app_l_Some.
  - intros p cc [Hp|[_ ->]]%lookup_snoc_ordered; [by eapply Hf|done].
Qed.

Lemma shows_with_cache k remoteCache m v :
  shows m v → shows (with_cache k remoteCache m) (spec_made k v).
Proof.
  intros [Hc Hm Hs Hw]. split; simpl.
  - by rewrite Hc, Hm.
  - rewrite length_app, Hm. simpl. lia.
  - intros p. rewrite Hs. split; intros (cc&Hp&Hcc); exists cc; (split; [|done]).
    + by apply lookup_app_l_Some.
    + apply lookup_snoc_ordered in Hp as [Hp|[_ ->]]; done.
  - intros k' w. by rewrite Hw.
Qed.

(** Stopping the cache of a cluster and forgetting the cluster. *)
Definition without (k : ObjectKey) (p : ptr) (cc : clusterCache) (m : ClusterCacheTracker) : ClusterCacheTracker :=
  with_watches (delete k (watches m))
    (with_clusterCaches (delete k (clusterCaches m))
      (with_caches (<[p := set_closed (set_stopped cc)]> (caches m)) m)).

Lemma ordered_without k p cc m : caches m !! p = Some cc → ordered m → ordered (without k p cc m).
Proof.
  intros Hp [Hc Hf Hs Hi]. assert (Hlt : (p < length (caches m))%nat) by by eapply lookup_lt_Some.
  split; simpl.
  - intros k' p' [_ Hk]%lookup_delete_Some. apply Hc in Hk as [cc' Hp']. apply lookup_lt_is_Some_2.
    rewrite length_insert. by eapply lookup_lt_Some.
  - intros p' cc' [(_&<-&_)|[_ Hp']]%list_lookup_insert_Some; [done|by eapply Hf].
  - intros k' s [_ Hk]%lookup_delete_Some. by eapply Hs.
  - intros k1 k2 s [_ H1]%lookup_delete_Some [_ H2]%lookup_delete_Some. by eapply Hi.
Qed.

Lemma shows_without k p cc m v :
  caches m !! p = Some cc → clusterCaches m !! k = Some p → shows m v →
  shows (without k p cc m) (spec_forget k v).
Proof.
  intros Hp Hk [Hc Hm Hs Hw]. assert (Hlt : (p < length (caches m))%nat) by by eapply lookup_lt_Some.
  unfold spec_forget. rewrite Hc, Hk. split; simpl.
  - done.
  - by rewrite length_insert.
  - intros p'. rewrite elem_of_union, elem_of_singleton, Hs. destruct (decide (p' = p)) as [->|Hne].
    + rewrite list_lookup_insert_eq by done. split; [|by left]. intros _. by eexists.
    + rewrite list_lookup_insert_ne by done. naive_solver.
  - intros k' w. rewrite elem_of_filter, Hw. unfold watched. simpl.
    destruct (decide (k' = k)) as [->|Hne].
    + rewrite lookup_delete_eq. naive_solver.
    + rewrite lookup_delete_ne by done. naive_solver.
Qed.

(** An empty set for the cluster's watches. *)
Definition with_empty_set (k : ObjectKey) (m : ClusterCacheTracker) : ClusterCacheTracker :=
  with_watches (<[k := length (watch_sets m)]> (watches m))
    (with_watch_sets (watch_sets m ++ [∅]) m).

Lemma ordered_with_empty_set k m : watches m !! k = None → ordered m → ordered (with_empty_set k m).
Proof.
  intros Hk [Hc Hf Hs Hi]. split; simpl; [done|done| |].
  - intros k' s. rewrite length_app. simpl. intros [[_ <-]|[_ ?%Hs]]%lookup_insert_Some; lia.
  - intros k1 k2 s [[<- <-]|[? H1]]%lookup_insert_Some [[<- ?]|[? H2]]%lookup_insert_Some; [done| | |].
    + apply Hs in H2. lia.
    + apply Hs in H1. lia.
    + by eapply Hi.
Qed.

Lemma shows_with_empty_set k m v :
  watches m !! k = None → ordered m → shows m v → shows (with_empty_set k m) v.
Proof.
  intros Hk Ho [Hc Hm Hs Hw]. split; simpl; [done..|]. intros k' w. rewrite Hw. unfold watched. simpl.
  destruct (decide (k' = k)) as [->|].
  - by rewrite lookup_insert_eq, Hk, list_lookup_middle.
  - rewrite lookup_insert_ne by done. destruct (watches m !! k') as [s|] eqn:Hk'; [|done].
    by rewrite lookup_app_l by by eapply rest_sets.
Qed.

(** Recording a watch. *)
Definition with_watch (s : nat) (w : watchInfo) (m : ClusterCacheTracker) : ClusterCacheTracker :=
  with_watch_sets (alter (λ ws, {[w]} ∪ ws) s (watch_sets m)) m.

Lemma ordered_with_watch s w m : ordered m → ordered (with_watch s w m).
Proof. intros [Hc Hf Hs Hi]. split; simpl; [done|done| |done]. intros k s'. rewrite length_alter. apply Hs. Qed.

Lemma shows_with_watch k s w m v :
  watches m !! k = Some s → ordered m → shows m v →
  shows (with_watch s w m) {| v_cache := v_cache v; v_made := v_made v; v_stopped := v_stopped v;
                              v_watches := {[(k, w)]} ∪ v_watches v |}.
Proof.
  intros Hk Ho [Hc Hm Hs Hw]. split; simpl; [done..|]. intros k' w'.
  rewrite elem_of_union, elem_of_singleton, Hw. unfold watched. simpl.
  destruct (lookup_lt_is_Some_2 (watch_sets m) s (rest_sets _ Ho k s Hk)) as [ws Hws].
  destruct (decide (k' = k)) as [->|Hne].
  - rewrite Hk, list_lookup_alter_eq, Hws. simpl. rewrite !bool_decide_eq_true. set_solver.
  - destruct (watches m !! k') as [s'|] eqn:Hk'; [|naive_solver].
    rewrite list_lookup_alter_ne; [naive_solver|]. intros ->. by destruct Hne; apply (rest_inj _ Ho k' k s').
Qed.

(** ** Running the functions alone *)

Section run.
Context (t : tid) (o : environment).
Implicit Types (m : ClusterCacheTracker).

Abbreviation run p m := (alone (PR := cache_process) t o p m).

Lemma with_locks_with ls ls' m : with_locks ls (with_locks ls' m) = with_locks ls m.
Proof. done. Qed.

Lemma run_pbind {A B} (p : prog (E := cache_effects) A) (f : A → prog (E := cache_effects) B) m :
  run (pbind p f) m = run p m ≫= λ r, run (f r.2) r.1.
Proof. apply (alone_pbind (PR := cache_process)). Qed.

Lemma run_bind {A B} (p : G A) (f : A → G B) m m' x :
  run p m = Some (m', Val x) → run (p ≫= f) m = run (f x) m'.
Proof. apply (alone_bind (PR := cache_process)). Qed.

Lemma run_do {A} a (k : cache_answer a → prog (E := cache_effects) A) m :
  run (Do (E := cache_effects) a k) m =
    match cache_exec t a m with
    | Gives m' r => run (k r) m'
    | Asks f => run (k (o a)) (f (o a))
    | _ => None
    end.
Proof. done. Qed.

Lemma run_locked {A} l (b : prog (E := cache_effects) (outcome A)) m m' x :
  locks m !! l = None →
  run b (with_locks (<[l := Writer t]> (locks m)) m) = Some (m', x) →
  locks m' = <[l := Writer t]> (locks m) →
  run (locked l b) m = Some (with_locks (locks m) m', x).
Proof.
  intros Hl Hb Hls. unfold locked. rewrite run_do. cbn [cache_exec].
  unfold acquire_write. rewrite Hl. cbn [lock_result].
  rewrite run_pbind, Hb. cbn [option_bind mbind fst snd]. rewrite run_do. cbn [cache_exec]. unfold release_write.
  rewrite Hls, lookup_insert_eq, decide_True by done. cbn.
  by rewrite delete_insert_id.
Qed.

Lemma run_rlocked {A} l (b : prog (E := cache_effects) (outcome A)) m m' x :
  locks m !! l = None →
  run b (with_locks (<[l := Readers [t]]> (locks m)) m) = Some (m', x) →
  locks m' = <[l := Readers [t]]> (locks m) →
  run (rlocked l b) m = Some (with_locks (locks m) m', x).
Proof.
  intros Hl Hb Hls. unfold rlocked. rewrite run_do. cbn [cache_exec].
  unfold acquire_read. rewrite Hl. cbn [lock_result].
  rewrite run_pbind, Hb. cbn [option_bind mbind fst snd]. rewrite run_do. cbn [cache_exec]. unfold release_read.
  rewrite Hls, lookup_insert_eq, decide_True by by left. cbn [remove_one].
  rewrite decide_True by done. cbn. by rewrite delete_insert_id.
Qed.

Lemma held_writer l (ls : gmap tracker_lock holders) : held t l (<[l := Writer t]> ls) = Some true.
Proof. unfold held. by rewrite lookup_insert_eq, decide_True. Qed.
Lemma held_reader l (ls : gmap tracker_lock holders) :
  held t l (<[l := Readers [t]]> ls) = Some false.
Proof. unfold held. rewrite lookup_insert_eq, decide_True; [done|by left]. Qed.

(** One access and the rest. *)
Lemma run_gives {A} a (f : cache_answer a → G A) m m' r :
  cache_exec t a m = Gives m' r → run (act a ≫= f) m = run (f r) m'.
Proof. intros He. change (run (act a ≫= f) m) with (run (Do (E := cache_effects) a f) m). by rewrite run_do, He. Qed.

Lemma run_asks {A} a (f : cache_answer a → G A) m :
  cache_exec t a m = Asks (λ _, m) → run (act a ≫= f) m = run (f (o a)) m.
Proof. intros He. change (run (act a ≫= f) m) with (run (Do (E := cache_effects) a f) m). by rewrite run_do, He. Qed.

Lemma run_last a m m' r :
  cache_exec t a m = Gives m' r → run (act a) m = Some (m', Val r).
Proof. intros He. unfold act, call. by rewrite run_do, He. Qed.

(** The program's next access is [a]. *)
Ltac gives a := etrans; [apply (run_gives a)|].
Ltac asks a := etrans; [apply (run_asks a)|].

Lemma run_getClusterCache k m :
  locks m !! ClusterCachesLock = None →
  run (getClusterCache k) m = Some (m, Val (clusterCaches m !! k)).
Proof.
  intros Hl. unfold getClusterCache. erewrite run_rlocked; [|done| |].
  2:{ apply (run_last (Load_clusterCaches k)). simpl. unfold reading. simpl. by rewrite held_reader. }
  - by rewrite with_locks_with, with_locks_id.
  - done.
Qed.

Lemma run_deleteClusterCache k m :
  locks m !! ClusterCachesLock = None →
  run (deleteClusterCache k) m = Some (with_clusterCaches (delete k (clusterCaches m)) m, Val tt).
Proof.
  intros Hl. unfold deleteClusterCache. erewrite run_locked; [|done| |].
  2:{ apply (run_last (Delete_clusterCaches k)). simpl. unfold writing. simpl. by rewrite held_writer. }
  - by destruct m.
  - done.
Qed.

Lemma run_deleteWatches k m :
  locks m !! WatchesLock = None →
  run (deleteWatchesForCluster k) m = Some (with_watches (delete k (watches m)) m, Val tt).
Proof.
  intros Hl. unfold deleteWatchesForCluster. erewrite run_locked; [|done| |].
  2:{ apply (run_last (Delete_watches k)). simpl. unfold writing. simpl. by rewrite held_writer. }
  - by destruct m.
  - done.
Qed.

(** [Stop] leaves a stopped cache alone and stops a running one. *)
Lemma run_Stop p cc m :
  locks m !! CacheLock p = None → caches m !! p = Some cc → cc_stopped cc = cc_stop_closed cc →
  run (Stop p) m =
    Some (with_caches (<[p := set_closed (set_stopped cc)]> (caches m)) m, Val tt).
Proof.
  intros Hl Hp Hflags. assert (Hlt : (p < length (caches m))%nat) by by eapply lookup_lt_Some.
  unfold Stop. destruct (cc_stopped cc) eqn:Hst.
  - erewrite run_locked; [|done| |].
    2:{ gives (Load_stopped p); [by simpl; rewrite Hp; unfold reading; simpl; rewrite held_writer|].
        by rewrite Hst. }
    + rewrite with_locks_with, with_locks_id. rewrite list_insert_id; [by destruct m|].
      rewrite Hp. f_equal. destruct cc; simpl in *. by subst.
    + done.
  - erewrite run_locked; [|done| |].
    2:{ gives (Load_stopped p); [by simpl; rewrite Hp; unfold reading; simpl; rewrite held_writer|].
        rewrite Hst. gives (Store_stopped p); [by simpl; rewrite Hp; unfold writing; simpl; rewrite held_writer|].
        apply (run_last (Close_stop p)). simpl. rewrite list_lookup_insert_eq by done. simpl. by rewrite <-Hflags. }
    + simpl. rewrite list_insert_insert_eq. by destruct m.
    + done.
Qed.
(** The calls of [RESTConfig] leave the tracker's memory alone. *)
Lemma run_in_goroutine {A} (p : prog (E := k8s) A) h m :
  run (in_goroutine p) m = Some (m, (drive (E := k8s) (λ _ a, o (K8s a)) h p).2).
Proof.
  revert h m; induction p as [x|a k IH]; intros h m; [done|]. cbn [in_goroutine].
  rewrite run_do. cbn [cache_exec]. rewrite (IH _ (h ++ [Ev (E := k8s) a (o (K8s a))])). cbn [drive].
  by destruct (drive _ _ (k (o (K8s a)))).
Qed.

Lemma config_found_val k : config_found o k ≠ Panic.
Proof.
  unfold config_found. intros Hp. destruct (drive_result (E := k8s) _ _ _ _ Hp) as [tr Hr].
  by apply (hoare_runs _ _ _ _ _ _ (RESTConfig_hoare k []) Hr).
Qed.

Lemma run_RESTConfig {A} k (f : result error RestConfig → G A) m :
  run (in_goroutine (RESTConfig k) ≫= f) m =
    match config_found o k with Val r => run (f r) m | Panic => None end.
Proof.
  unfold mbind, M_bind. rewrite run_pbind, (run_in_goroutine _ []). cbn [option_bind mbind fst snd].
  fold (config_found o k). destruct (config_found o k) eqn:Hc; [done|]. by destruct (config_found_val k).
Qed.

Lemma run_start_cache k cfg remoteCache m :
  held t ClusterCachesLock (locks m) = Some true →
  run (start_cache k cfg remoteCache) m =
    Some (with_cache k remoteCache m, Val (Ok (length (caches m)))).
Proof.
  intros Hl. gives (Make_clusterCache k remoteCache); [done|].
  gives (Store_clusterCaches k (length (caches m))); [simpl; unfold writing; simpl; by rewrite Hl|].
  gives (Go_Start (length (caches m))); [done|]. unfold start_cache.
  etrans; [eapply (run_gives (Go_healthCheckCluster _)); done|]. done.
Qed.

(** [newClusterCache] after [RESTConfig]. *)
Definition fetched (k : ObjectKey) (options : iface) (r : result error RestConfig) : G (result error ptr) :=
  match r with
  | Err err => mret (Err (errors_Wrap err "error fetching REST client config for remote cluster"))
  | Ok config =>
      try remoteCache := act (Cache_New config options)
      catch err => mret (Err (errors_Wrap err "error creating cache for remote cluster"));;
      start_cache k config remoteCache
  end.

Lemma run_fetched k options r m v :
  held t ClusterCachesLock (locks m) = Some true → v_made v = length (caches m) →
  clusterCaches m !! k = None → v_cache v = clusterCaches m → config_found o k = Val r →
  ∃ m', run (fetched k options r) m = Some (m', Val (spec_cache o k options v).1) ∧
    (m' = m ∧ (spec_cache o k options v).2 = v ∨
     ∃ remoteCache, m' = with_cache k remoteCache m ∧ (spec_cache o k options v).2 = spec_made k v).
Proof.
  intros Hl Hmade Hk Hv Hr. unfold spec_cache. rewrite Hv, Hk, Hr.
  destruct r as [cfg|err]; [|eexists; split; [done|by left]].
  destruct (o (Cache_New cfg options)) as [remoteCache|err] eqn:Hnew; eexists.
  - split; [|right; by exists remoteCache].
    asks (Cache_New cfg options); [done|]. simpl. rewrite Hnew.
    etrans; [by apply run_start_cache|]. by rewrite Hmade.
  - split; [|by left]. asks (Cache_New cfg options); [done|]. simpl. by rewrite Hnew.
Qed.

Lemma run_newClusterCache k options m v :
  locks m !! ClusterCachesLock = None → clusterCaches m !! k = None → shows m v →
  ∃ m', run (newClusterCache k options) m = Some (m', Val (spec_cache o k options v).1) ∧
    (m' = m ∧ (spec_cache o k options v).2 = v ∨
     ∃ remoteCache, m' = with_cache k remoteCache m ∧ (spec_cache o k options v).2 = spec_made k v).
Proof.
  intros Hl Hk Hv. set (m0 := with_locks (<[ClusterCachesLock := Writer t]> (locks m)) m).
  assert (∃ r, config_found o k = Val r) as [r Hr].
  { destruct (config_found o k) as [r|] eqn:Hc; [by exists r|]. by destruct (config_found_val k). }
  destruct (run_fetched k options r m0 v) as (m'&Hrun&Hm'); try done.
  { apply held_writer. }
  { apply Hv. }
  { apply Hv. }
  exists (with_locks (locks m) m'). split.
  - apply run_locked; [done| |].
    + gives (Load_clusterCaches k); [simpl; unfold reading; simpl; by rewrite held_writer|].
      simpl. rewrite Hk. etrans; [apply run_RESTConfig|]. by rewrite Hr.
    + by destruct Hm' as [[-> _]|(remoteCache&->&_)].
  - destruct Hm' as [[-> ?]|(remoteCache&->&?)]; [left|right; exists remoteCache]; split; try done; by destruct m.
Qed.

Lemma run_getOrCreateClusterCache k options m v :
  locks m !! ClusterCachesLock = None → shows m v →
  ∃ m', run (getOrCreateClusterCache k options) m = Some (m', Val (spec_cache o k options v).1) ∧
    (m' = m ∧ (spec_cache o k options v).2 = v ∨
     ∃ remoteCache, m' = with_cache k remoteCache m ∧ (spec_cache o k options v).2 = spec_made k v).
Proof.
  intros Hl Hv. destruct (clusterCaches m !! k) as [p|] eqn:Hk.
  - exists m. unfold spec_cache. rewrite (shows_cache _ _ Hv), Hk. split; [|by left].
    etrans; [apply run_bind, run_getClusterCache, Hl|]. by rewrite Hk.
  - destruct (run_newClusterCache k options m v Hl Hk Hv) as (m'&Hrun&Hm'). exists m'. split; [|done].
    etrans; [apply run_bind, run_getClusterCache, Hl|]. by rewrite Hk.
Qed.
(** Looking up and preparing the watches of a cluster. *)
Lemma run_watchExists k w b m :
  held t WatchesLock (locks m) = Some b → ordered m →
  run (watchExists k w) m = Some (m, Val (watched m k w)).
Proof.
  intros Hl Ho. gives (Load_watches k); [simpl; unfold reading; simpl; by rewrite Hl|]. unfold watched.
  destruct (watches m !! k) as [s|] eqn:Hk; [|done].
  destruct (lookup_lt_is_Some_2 (watch_sets m) s (rest_sets _ Ho k s Hk)) as [ws Hws].
  rewrite Hws. apply (run_last (Contains s w)). simpl. rewrite Hws. unfold reading. by rewrite Hl.
Qed.

Lemma run_watches_for k m v :
  held t WatchesLock (locks m) = Some true → ordered m → shows m v →
  ∃ s m', run (watches_for k) m = Some (m', Val s) ∧ watches m' !! k = Some s ∧
    locks m' = locks m ∧ ordered m' ∧ shows m' v.
Proof.
  intros Hl Ho Hv. destruct (watches m !! k) as [s|] eqn:Hk.
  - exists s, m. split; [|done]. gives (Load_watches k); [simpl; unfold reading; simpl; by rewrite Hl|].
    by rewrite Hk.
  - exists (length (watch_sets m)), (with_empty_set k m). split.
    + gives (Load_watches k); [simpl; unfold reading; simpl; by rewrite Hl|]. rewrite Hk.
      gives Make_set; [done|].
      gives (Store_watches k (length (watch_sets m))); [simpl; unfold writing; simpl; by rewrite Hl|]. done.
    + split_and!; [by simpl; rewrite lookup_insert_eq|done| |].
      * by apply ordered_with_empty_set.
      * by apply shows_with_empty_set.
Qed.

Lemma run_Insert k s w m :
  held t WatchesLock (locks m) = Some true → ordered m → watches m !! k = Some s →
  run (_ ← act (Insert s w); mret (None : option error)) m = Some (with_watch s w m, Val None).
Proof.
  intros Hl Ho Hk. destruct (lookup_lt_is_Some_2 (watch_sets m) s (rest_sets _ Ho k s Hk)) as [ws Hws].
  etrans; [apply (run_gives (Insert s w) _ _ (with_watch s w m) tt)|done]. simpl. rewrite Hws.
  unfold writing. rewrite Hl. f_equal. unfold with_watch. f_equal. rewrite list_insert_alter.
  apply list_alter_ext; [|done]. intros ws'. rewrite Hws. by intros [= ->].
Qed.

(** Giving up a cache: what [Reconcile] and the health check do. *)
Lemma run_cleanup {A} k p cc (x : A) m :
  locks m = ∅ → caches m !! p = Some cc → cc_stopped cc = cc_stop_closed cc →
  run (_ ← Stop p; _ ← deleteClusterCache k; _ ← deleteWatchesForCluster k; mret x) m =
    Some (without k p cc m, Val x).
Proof.
  intros Hl Hp Hflags.
  etrans; [eapply run_bind, run_Stop; [by rewrite Hl, lookup_empty|done|done]|].
  etrans; [eapply run_bind, run_deleteClusterCache; simpl; by rewrite Hl, lookup_empty|].
  etrans; [eapply run_bind, run_deleteWatches; simpl; by rewrite Hl, lookup_empty|]. done.
Qed.
End run.

(** C23: a reconciliation that nothing interferes with implements the abstract
    one, on every branch: it does nothing when the cluster is found, passes on
    other errors, and otherwise stops and forgets the cluster's cache and
    forgets its watches. *)
Theorem Reconcile_refines t o k m v :
  at_rest m → shows m v →
  ∃ m', alone (PR := cache_process) t o (Reconcile k) m = Some (m', Val (spec_Reconcile o k v).1) ∧
    at_rest m' ∧ shows m' (spec_Reconcile o k v).2.
Proof.
  intros [Hl Ho] Hv. unfold spec_Reconcile.
  eassert (Hrun : alone (PR := cache_process) t o (Reconcile k) m = _).
  { apply (run_asks t o (K8s (Get_Cluster k))). done. }
  rewrite Hrun. clear Hrun.
  destruct (o (K8s (Get_Cluster k))) as [c|e]; [by eexists|].
  destruct (apierrors_IsNotFound e); [|by eexists].
  destruct (clusterCaches m !! k) as [p|] eqn:Hk.
  - destruct (rest_caches _ Ho k p Hk) as [cc Hp]. exists (without k p cc m). split; [|split].
    + etrans; [apply run_bind, run_getClusterCache; by rewrite Hl, lookup_empty|].
      rewrite Hk. apply run_cleanup; [done|done|by eapply rest_flags].
    + split; [done|by apply ordered_without].
    + by apply shows_without.
  - exists m. unfold spec_forget. rewrite (shows_cache _ _ Hv), Hk. split; [|done].
    etrans; [apply run_bind, run_getClusterCache; by rewrite Hl, lookup_empty|]. by rewrite Hk.
Qed.
(** The second half of [Watch], with the lock held and the watch not found. *)
Definition establish (i : WatchInput) : G (option error) :=
  watchesForCluster ← watches_for (in_Cluster i);
  try cache := getOrCreateClusterCache (in_Cluster i) (in_CacheOptions i)
  catch err => mret (Some err);;
  check act (Watcher_Watch i cache)
  catch err => mret (Some (errors_Wrap err "error creating watch"));;
  _ ← act (Insert watchesForCluster (watch_info i));
  mret None.

Lemma run_establish t o i m v :
  held t WatchesLock (locks m) = Some true → locks m !! ClusterCachesLock = None →
  ordered m → shows m v → (in_Cluster i, watch_info i) ∉ v_watches v →
  ∃ m', alone (PR := cache_process) t o (establish i) m = Some (m', Val (spec_Watch o i v).1) ∧
    locks m' = locks m ∧ ordered m' ∧ shows m' (spec_Watch o i v).2.
Proof.
  intros Hl Hcl Ho Hv Hnew. unfold spec_Watch. rewrite decide_False by done.
  destruct (run_watches_for t o (in_Cluster i) m v) as (s&m1&Hrun1&Hs&Hl1&Ho1&Hv1); [done..|].
  destruct (run_getOrCreateClusterCache t o (in_Cluster i) (in_CacheOptions i) m1 v) as (m2&Hrun2&Hm2);
    [by rewrite Hl1|done|].
  assert (locks m2 = locks m ∧ ordered m2 ∧ shows m2 (spec_cache o (in_Cluster i) (in_CacheOptions i) v).2 ∧
    watches m2 !! in_Cluster i = Some s) as (Hl2&Ho2&Hv2&Hs2).
  { destruct Hm2 as [[-> ->]|(remoteCache&->&->)]; [done|].
    split_and!; [done|by apply ordered_with_cache|by apply shows_with_cache|done]. }
  clear Hm2. unfold establish. erewrite run_bind by exact Hrun1. cbv beta. erewrite run_bind by exact Hrun2.
  destruct (spec_cache o (in_Cluster i) (in_CacheOptions i) v) as [[p|err] v2]; simpl in Hv2.
  2:{ by exists m2. }
  eassert (alone (PR := cache_process) t o _ m2 = _) as ->.
  { apply (run_asks t o (Watcher_Watch i p)). done. }
  destruct (o (Watcher_Watch i p)) as [err|]; [by exists m2|].
  exists (with_watch s (watch_info i) m2). split; [|split_and!].
  - apply (run_Insert t o (in_Cluster i)); [by rewrite Hl2|done|done].
  - done.
  - by apply ordered_with_watch.
  - by apply shows_with_watch.
Qed.

(** C22: a call of [Watch] that nothing interferes with implements the abstract
    one, on every branch: nothing for an established watch; otherwise the
    cluster's cache, made with its configuration if it has none, the watch
    on it, and the record of the watch only if that succeeded.  A failure
    returns its error and keeps a cache that was made. *)
Theorem Watch_refines t o i m v :
  at_rest m → shows m v →
  ∃ m', alone (PR := cache_process) t o (Watch i) m = Some (m', Val (spec_Watch o i v).1) ∧
    at_rest m' ∧ shows m' (spec_Watch o i v).2.
Proof.
  intros [Hl Ho] Hv.
  assert (Hfirst : alone (PR := cache_process) t o
      (rlocked WatchesLock (watchExists (in_Cluster i) (watch_info i))) m =
    Some (m, Val (watched m (in_Cluster i) (watch_info i)))).
  { erewrite run_rlocked; [|by rewrite Hl, lookup_empty| |].
    2:{ eapply run_watchExists; [apply held_reader|by apply ordered_locks]. }
    - by rewrite with_locks_with, with_locks_id.
    - done. }
  unfold Watch. cbv zeta. erewrite run_bind by exact Hfirst.
  destruct (watched m (in_Cluster i) (watch_info i)) eqn:Hw.
  { exists m. unfold spec_Watch. rewrite decide_True by by apply (shows_watches _ _ Hv). done. }
  set (m0 := with_locks (<[WatchesLock := Writer t]> (locks m)) m).
  destruct (run_establish t o i m0 v) as (m'&Hrun&Hl'&Ho'&Hv').
  { apply held_writer. }
  { simpl. by rewrite lookup_insert_ne, Hl, lookup_empty. }
  { by apply ordered_locks. }
  { by apply shows_locks. }
  { intros Hin%(shows_watches _ _ Hv). by rewrite Hw in Hin. }
  exists (with_locks (locks m) m'). split_and!.
  - apply run_locked; [by rewrite Hl, lookup_empty| |done].
    etrans; [eapply run_bind, run_watchExists; [apply held_writer|by apply ordered_locks]|].
    assert (Hw0 : watched m0 (in_Cluster i) (watch_info i) = false) by exact Hw.
    unfold m0 in Hw0. cbv beta. rewrite Hw0. exact Hrun.
  - by split; [|apply ordered_locks].
  - by apply shows_locks.
Qed.
End cluster_cache_spec.

Module ClusterCacheSpecWitness.
Import Sample ClusterCacheWitness.

Definition empty_view : tracker_view := {|
  v_cache := ∅; v_made := 0; v_stopped := ∅; v_watches := ∅ |}.
Definition watching_view : tracker_view := {|
  v_cache := {[key := 0%nat]}; v_made := 1; v_stopped := ∅; v_watches := {[(key, watch_info input)]} |}.

(** Watching a cluster for the first time. *)
Lemma Watch_refines_witness :
  ∃ m', alone (PR := cache_process) 0 (env true true) (Watch input) NewClusterCacheTracker = Some (m', Val None) ∧
    v_watches (spec_Watch (env true true) input empty_view).2 = {[(key, watch_info input)]} ∧
    clusterCaches m' !! key = Some 0%nat ∧ watched m' key (watch_info input) = true.
Proof.
  assert (Hrest : at_rest NewClusterCacheTracker).
  { split; [reflexivity|]. split; intros *; simpl.
    - rewrite lookup_empty. discriminate.
    - discriminate.
    - rewrite lookup_empty. discriminate.
    - rewrite lookup_empty. discriminate. }
  assert (Hshows : shows NewClusterCacheTracker empty_view).
  { split; simpl; [reflexivity|reflexivity| |].
    - intros p. split; [intros []%not_elem_of_empty|intros (cc&[=]&_)].
    - intros k w. split; [intros []%not_elem_of_empty|discriminate]. }
  destruct (Watch_refines 0 (env true true) input NewClusterCacheTracker empty_view Hrest Hshows)
    as (m'&Hrun&_&Hv).
  assert (Hw : v_watches (spec_Watch (env true true) input empty_view).2 = {[(key, watch_info input)]})
    by by_evaluation.
  exists m'. split; [exact Hrun|]. split; [exact Hw|]. split.
  - rewrite <-(shows_cache _ _ Hv). by_evaluation.
  - apply (shows_watches _ _ Hv). rewrite Hw. by apply elem_of_singleton.
Defined.

Lemma watching_shows : shows (mem (shared watching)) watching_view.
Proof.
  assert (Hc : caches (mem (shared watching)) =
    [{| cc_Cache := 7%positive; cc_stopped := false; cc_stop_closed := false; cc_cluster := key |}])
    by by_evaluation.
  split.
  - by_evaluation.
  - by rewrite Hc.
  - intros p. rewrite Hc. split; [intros []%not_elem_of_empty|].
    by intros (cc&[_ <-]%list_lookup_singleton_Some&?).
  - intros k w. unfold watched.
    replace (watches (mem (shared watching))) with ({[key := 0%nat]} : gmap ObjectKey nat)
      by by_evaluation.
    replace (watch_sets (mem (shared watching))) with [{[watch_info input]} : gset watchInfo]
      by by_evaluation.
    simpl. rewrite elem_of_singleton. destruct (decide (k = key)) as [->|Hne].
    + rewrite lookup_singleton_eq. simpl. rewrite bool_decide_eq_true, elem_of_singleton.
      split; [intros Heq; exact (f_equal snd Heq)|by intros ->].
    + rewrite lookup_singleton_ne by done.
      split; [intros Heq; destruct Hne; exact (f_equal fst Heq)|discriminate].
Qed.

(** The watched cluster is gone. *)
Lemma Reconcile_refines_witness :
  ∃ m', alone (PR := cache_process) 2 (env false true) (Reconcile key) (mem (shared watching)) =
      Some (m', Val None) ∧
    clusterCaches m' !! key = None ∧ watched m' key (watch_info input) = false ∧
    ∃ cc, caches m' !! 0%nat = Some cc ∧ cc_stopped cc = true.
Proof.
  assert (Hrest : at_rest (mem (shared watching))).
  { apply reachable_at_rest; [exact watching_reachable|vm_compute; reflexivity]. }
  destruct (Reconcile_refines 2 (env false true) key _ _ Hrest watching_shows) as (m'&Hrun&_&Hv).
  exists m'. split; [exact Hrun|]. split; [|split].
  - rewrite <-(shows_cache _ _ Hv). by_evaluation.
  - apply not_true_iff_false. rewrite <-(shows_watches _ _ Hv). apply (bool_decide_eq_false_1 _).
    vm_compute. reflexivity.
  - apply (shows_stopped _ _ Hv). apply (bool_decide_eq_true_1 _). vm_compute. reflexivity.
Defined.
End ClusterCacheSpecWitness.
