(* ===== verification/HealthChecks.v ===== *)
(** The health checks of a cached cluster, from the first round to the last,
    when nothing interferes: a cluster whose checks fail often enough in a row
    loses its cache and its watches, and no other does. *)
From S2P Require Import Prelude GoRuntime ApiTypes Platform SamplePlatform ManagementCluster Concurrency.
From S2P Require Import ClusterCache TrackerDiscipline ClusterCacheSafety ClusterCacheSpec.
Local Open Scope Z_scope.
Local Open Scope go_scope.

(** ** Counting failures *)

(** One check: the new count, or none when the cluster is given up. *)
Definition count_check (threshold n : Z) (failed : bool) : option Z :=
  if failed then if threshold <=? n + 1 then None else Some (n + 1) else Some 0.

Fixpoint count_checks (threshold n : Z) (fails : list bool) : option Z :=
  match fails with
  | [] => Some n
  | failed :: fails => count_check threshold n failed ≫= λ n, count_checks threshold n fails
  end.

(** A threshold below one acts like one. *)
Definition tolerated (threshold : Z) : nat := Z.to_nat (Z.max 1 threshold).

Definition failed_in_a_row (k : nat) (fails : list bool) : Prop :=
  ∃ i : nat, ∀ j : nat, (j < k)%nat → fails !! (i + j)%nat = Some true.

Lemma failed_in_a_row_short k fails : (length fails < k)%nat → ¬ failed_in_a_row k fails.
Proof.
  intros Hlen [i Hi]. assert (Hl : fails !! (i + (k - 1))%nat = Some true) by (apply Hi; lia).
  apply lookup_lt_Some in Hl. lia.
Qed.

(** A passed check separates what is before it from what is after it. *)
Lemma failed_in_a_row_passed k n fails :
  (n < k)%nat → failed_in_a_row k (replicate n true ++ false :: fails) ↔ failed_in_a_row k fails.
Proof.
  intros Hn. split; intros [i Hi].
  - assert (Hni : (n < i)%nat).
    { destruct (decide (n < i)%nat) as [|Hle]; [done|]. specialize (Hi (n - i)%nat ltac:(lia)).
      replace (i + (n - i))%nat with n in Hi by lia. by rewrite list_lookup_middle in Hi by by rewrite length_replicate. }
    exists (i - S n)%nat. intros j Hj. rewrite <-(Hi j Hj), lookup_app_r; rewrite length_replicate; [|lia].
    by replace (i + j - n)%nat with (S (i - S n + j)) by lia.
  - exists (n + S i)%nat. intros j Hj. rewrite lookup_app_r; rewrite length_replicate; [|lia].
    replace (n + S i + j - n)%nat with (S (i + j)) by lia. by apply Hi.
Qed.

Lemma count_checks_correct threshold (n : nat) fails :
  (n < tolerated threshold)%nat →
  match count_checks threshold (Z.of_nat n) fails with
  | None => failed_in_a_row (tolerated threshold) (replicate n true ++ fails)
  | Some n' => ¬ failed_in_a_row (tolerated threshold) (replicate n true ++ fails) ∧
               0 ≤ n' < Z.max 1 threshold
  end.
Proof.
  unfold tolerated. revert n; induction fails as [|[] fails IH]; intros n Hn; simpl.
  - split; [|lia]. apply failed_in_a_row_short. rewrite app_nil_r, length_replicate. lia.
  - destruct (Z.leb_spec threshold (Z.of_nat n + 1)) as [Hle|Hlt]; simpl.
    + exists 0%nat. intros j Hj. destruct (decide (j < n)%nat).
      * apply lookup_app_l_Some, lookup_replicate_2. lia.
      * apply list_lookup_middle. rewrite length_replicate. lia.
    + replace (Z.of_nat n + 1) with (Z.of_nat (S n)) by lia.
      replace (replicate n true ++ true :: fails) with (replicate (S n) true ++ fails).
      * apply IH. lia.
      * by rewrite replicate_S_end, <-app_assoc.
  - specialize (IH 0%nat ltac:(lia)). cbn [count_check mbind option_bind].
    change (Z.of_nat 0) with 0 in IH. simpl in IH.
    destruct (count_checks threshold 0 fails); by rewrite failed_in_a_row_passed by done.
Qed.

Section health_checks.
Context {P : Platform}.

Abbreviation environment := (∀ a : cache_action, cache_answer a).
Abbreviation run t o p m := (alone (PR := cache_process) t o p m).

(** ** Polling *)

(** The next round, or the end of the loop when its channel is closed. *)
Definition after_round (s : polling_state) (m : ClusterCacheTracker) : M (E := cache_effects) (next polling_state) :=
  default (poll_round s) (poll_stopped s m).

(** A goroutine that polls, alone: [p] is its code up to the end of a round, and
    each round has its environment. *)
Fixpoint polling (t : tid) (o : environment) (os : list environment)
    (p : M (E := cache_effects) (next polling_state)) (m : ClusterCacheTracker) :
    option (ClusterCacheTracker * next polling_state) :=
  r ← run t o p m;
  match r.2, os with
  | Val (Poll s), o' :: os' => polling t o' os' (after_round s r.1) r.1
  | Val x, _ => Some (r.1, x)
  | Panic, _ => None
  end.

(** Whether the check of a round fails. *)
Definition check_fails (h : healthCheckInput) (o : environment) : bool :=
  match o (UnversionedRESTClientFor (hc_cfg h)) with
  | Some _ => true
  | None =>
      match o (REST_Get (hc_cfg h) (hc_requestTimeout h) (hc_path h)) with
      | Some _ => true
      | None => false
      end
  end.

(** ** Running the rounds *)

Lemma run_healthCheckPath t o (h : healthCheckInput) m :
  ∃ err, run t o (healthCheckPath (hc_cfg h) (hc_requestTimeout h) (hc_path h)) m = Some (m, Val err) ∧
    check_fails h o = bool_decide (is_Some err).
Proof.
  unfold check_fails.
  eexists. split.
  - etrans; [apply run_asks; done|].
    instantiate (1 := match o (UnversionedRESTClientFor (hc_cfg h)) with
      | Some err => Some err | None => o (REST_Get (hc_cfg h) (hc_requestTimeout h) (hc_path h)) end).
    destruct (o (UnversionedRESTClientFor (hc_cfg h))) as [err|]; [done|].
    etrans; [apply run_asks; done|]. by destruct (o (REST_Get _ _ _)).
  - destruct (o (UnversionedRESTClientFor (hc_cfg h))) as [err|]; [done|].
    by destruct (o (REST_Get _ _ _)).
Qed.

(** A round on a cluster without a cache ends the loop. *)
Lemma run_poll_round_gone t o h n m :
  at_rest m → clusterCaches m !! hc_cluster h = None →
  run t o (poll_round (h, n)) m = Some (m, Val Finished).
Proof.
  intros [Hl _] Hk.
  assert (Hget : run t o (getClusterCache (hc_cluster h)) m = Some (m, Val None)).
  { rewrite run_getClusterCache by by rewrite Hl. by rewrite Hk. }
  etrans; [eapply run_bind; etrans; [eapply run_bind, Hget|]; done|]. done.
Qed.

(** The condition of the loop on a cluster with a cache. *)
Lemma run_condition t o h n m p :
  at_rest m → clusterCaches m !! hc_cluster h = Some p →
  ∃ err, check_fails h o = bool_decide (is_Some err) ∧
    let n' := match err with Some _ => n + 1 | None => 0 end in
    run t o (runHealthCheckWithThreshold h n) m =
      Some (m, Val (n', (false, if hc_unhealthyThreshold h <=? n' then err else None))).
Proof.
  intros [Hl _] Hk. destruct (run_healthCheckPath t o h m) as (err&Hcheck&Hfails).
  exists err. split; [done|].
  assert (Hget : run t o (getClusterCache (hc_cluster h)) m = Some (m, Val (Some p))).
  { rewrite run_getClusterCache by by rewrite Hl. by rewrite Hk. }
  etrans; [eapply run_bind, Hget|]. cbv beta iota.
  etrans; [eapply run_bind, Hcheck|]. cbv beta zeta. by destruct (hc_unhealthyThreshold h <=? _).
Qed.

(** After the loop. *)
Lemma run_poll_end t o h err m p cc :
  at_rest m → clusterCaches m !! hc_cluster h = Some p → caches m !! p = Some cc →
  run t o (poll_end h (Some err)) m = Some (without (hc_cluster h) p cc m, Val Finished).
Proof.
  intros [Hl Ho] Hk Hp. etrans; [apply run_bind, run_getClusterCache; by rewrite Hl|]. rewrite Hk.
  apply run_cleanup; [done|done|by eapply rest_flags].
Qed.

(** A round counts its check, and gives the cache up when there were enough. *)
Lemma run_poll_round t o h n m p cc :
  at_rest m → clusterCaches m !! hc_cluster h = Some p → caches m !! p = Some cc →
  run t o (poll_round (h, n)) m =
    Some match count_check (hc_unhealthyThreshold h) n (check_fails h o) with
         | Some n' => (m, Val (Poll (h, n')))
         | None => (without (hc_cluster h) p cc m, Val Finished)
         end.
Proof.
  intros Hrest Hk Hp. destruct (run_condition t o h n m p Hrest Hk) as (err&->&Hrun).
  etrans; [eapply run_bind, Hrun|]. clear Hrun.
  destruct err as [err|]; unfold count_check; cbv beta iota zeta.
  - rewrite bool_decide_eq_true_2 by done. destruct (hc_unhealthyThreshold h <=? n + 1); [|done].
    by apply run_poll_end.
  - rewrite bool_decide_eq_false_2 by (by intros []). by destruct (hc_unhealthyThreshold h <=? 0).
Qed.

(** An open channel lets the loop go on. *)
Lemma after_round_open s m v :
  at_rest m → shows m v → hc_stop s.1 ∉ v_stopped v → after_round s m = poll_round s.
Proof.
  intros [_ Ho] Hv Hopen. unfold after_round, poll_stopped.
  destruct (caches m !! hc_stop s.1) as [cc|] eqn:Hcc; [|done].
  rewrite <-(rest_flags _ Ho _ _ Hcc). destruct (cc_stopped cc) eqn:Hst; [|done].
  destruct Hopen. apply (shows_stopped _ _ Hv). by exists cc.
Qed.

Lemma run_polling t o os h n m v p :
  at_rest m → shows m v → v_cache v !! hc_cluster h = Some p → hc_stop h ∉ v_stopped v →
  match count_checks (hc_unhealthyThreshold h) n (check_fails h <$> o :: os) with
  | Some n' => polling t o os (poll_round (h, n)) m = Some (m, Poll (h, n'))
  | None => ∃ m', polling t o os (poll_round (h, n)) m = Some (m', Finished) ∧
                  at_rest m' ∧ shows m' (spec_forget (hc_cluster h) v)
  end.
Proof.
  intros Hrest Hv Hk Hopen. rewrite (shows_cache _ _ Hv) in Hk.
  destruct (rest_caches _ (proj2 Hrest) _ _ Hk) as [cc Hp].
  revert o n; induction os as [|o' os IH]; intros o n; cbn [polling fmap list_fmap count_checks];
    rewrite (run_poll_round _ _ _ _ _ _ _ Hrest Hk Hp);
    destruct (count_check _ n _) as [n'|] eqn:Hc; simpl.
  - done.
  - exists (without (hc_cluster h) p cc m). split; [done|]. split; [|by apply shows_without].
    split; [apply Hrest|by apply ordered_without, Hrest].
  - rewrite (after_round_open _ _ v) by done. apply IH.
  - exists (without (hc_cluster h) p cc m). split; [done|]. split; [|by apply shows_without].
    split; [apply Hrest|by apply ordered_without, Hrest].
Qed.

(** C25: the health checks of a cluster with a cache, when nothing interferes:
    after any number of rounds the cache is stopped and dropped and the
    cluster's watches are forgotten if as many checks in a row failed as the
    threshold says, and otherwise the loop goes on with nothing changed; without
    a cache the loop ends at once. *)
Theorem unhealthy_cluster_forgotten t o os h m v :
  at_rest m → shows m v → hc_stop h ∉ v_stopped v →
  let k := hc_cluster h in
  let threshold := hc_unhealthyThreshold (validate h) in
  let unhealthy := failed_in_a_row (tolerated threshold) (check_fails (validate h) <$> o :: os) in
  ∃ m' x, polling t o os (healthCheckCluster h) m = Some (m', x) ∧ at_rest m' ∧
    (v_cache v !! k = None → x = Finished ∧ m' = m) ∧
    (is_Some (v_cache v !! k) → unhealthy → x = Finished ∧ shows m' (spec_forget k v)) ∧
    (is_Some (v_cache v !! k) → ¬ unhealthy →
     m' = m ∧ ∃ n, x = Poll (validate h, n) ∧ 0 ≤ n < Z.max 1 threshold).
Proof.
  intros Hrest Hv Hopen k threshold unhealthy.
  destruct (v_cache v !! k) as [p|] eqn:Hk.
  - pose proof (run_polling t o os (validate h) 0 m v p Hrest Hv Hk Hopen) as Hrun.
    pose proof (count_checks_correct threshold 0 (check_fails (validate h) <$> o :: os)) as Hcount.
    specialize (Hcount ltac:(unfold tolerated; lia)). change (Z.of_nat 0) with 0 in Hcount.
    unfold threshold in Hcount. rewrite app_nil_l in Hcount.
    destruct (count_checks _ 0 _) as [n|].
    + exists m, (Poll (validate h, n)). split; [exact Hrun|]. split; [done|]. naive_solver.
    + destruct Hrun as (m'&Hrun&Hrest'&Hv'). exists m', Finished. split; [exact Hrun|]. split; [done|]. naive_solver.
  - exists m, Finished. split; [|split; [done|naive_solver]].
    assert (Hgone : run t o (healthCheckCluster h) m = Some (m, Val Finished)).
    { apply run_poll_round_gone; [done|]. by rewrite <-(shows_cache _ _ Hv). }
    destruct os; cbn [polling]; by rewrite Hgone.
Qed.
End health_checks.

Module HealthChecksWitness.
Import Sample ClusterCacheWitness ClusterCacheSpecWitness.

(** The first check passes; the next three fail. *)
Definition silent : list bool := [false; false; false].

Lemma watched_at_rest : at_rest (mem (shared watching)).
Proof. apply reachable_at_rest; [exact watching_reachable|vm_compute; reflexivity]. Qed.

Lemma unhealthy_cluster_forgotten_witness :
  ∃ m', polling 1 (env true true) (env true <$> silent) (healthCheckCluster first_check)
      (mem (shared watching)) = Some (m', Finished) ∧
    clusterCaches m' !! key = None ∧ watched m' key (watch_info input) = false ∧
    ∃ cc, caches m' !! 0%nat = Some cc ∧ cc_stopped cc = true.
Proof.
  destruct (unhealthy_cluster_forgotten 1 (env true true) (env true <$> silent) first_check _ _
    watched_at_rest watching_shows (not_elem_of_empty 0%nat)) as (m'&x&Hrun&_&_&Hgone&_).
  destruct Hgone as [-> Hv].
  - exists 0%nat. vm_compute. reflexivity.
  - exists 1%nat. intros j Hj. change (j < 3)%nat in Hj. do 3 (destruct j as [|j]; [vm_compute; reflexivity|]). lia.
  - exists m'. split; [exact Hrun|]. split; [|split].
    + rewrite <-(shows_cache _ _ Hv). by_evaluation.
    + apply not_true_iff_false. rewrite <-(shows_watches _ _ Hv). apply (bool_decide_eq_false_1 _).
      vm_compute. reflexivity.
    + apply (shows_stopped _ _ Hv). apply (bool_decide_eq_true_1 _). vm_compute. reflexivity.
Defined.
End HealthChecksWitness.
