(* ===== verification/Memory.v ===== *)
(** A heap of typed cells for the code that depends on aliasing: pointers and
    slices, the allocation of fresh memory, assertions that own their part of the
    heap exactly, and the rules for code that copies. *)
From S2P Require Import Prelude.
Local Open Scope nat_scope.

(** ** Layouts

    A struct of the source is a record over a layout, which says what its
    pointers and slices are: locations in memory, or the values behind them.  A
    slice is the whole array behind it; a nil slice differs from an empty one. *)
Abbreviation loc := positive.

Record layout := { Pt : Type → Type; Sl : Type → Type }.
Definition mem : layout := {| Pt := λ _, option loc; Sl := λ _, option loc |}.
Definition val : layout := {| Pt := option; Sl := λ T, option (list T) |}.

(** The types of memory cells, by code; each has its zero value. *)
Class CellTypes : Type := {
  ty : Type;
  ty_eq_dec :: EqDecision ty;
  cell_type : ty → Type;
  zero : ∀ t, cell_type t;
}.

Section memory.
Context {C : CellTypes}.

(** What a location holds: a variable, or the array behind a slice. *)
Inductive cell :=
| Var (t : ty) (x : cell_type t)
| Array (t : ty) (xs : list (cell_type t)).

Abbreviation heap := (gmap loc cell).

(** Code that uses the heap; [None] is a run-time panic. *)
Definition H (A : Type) : Type := heap → option (heap * A).
#[export] Instance H_ret : MRet H := λ A x h, Some (h, x).
#[export] Instance H_bind : MBind H := λ A B f m h,
  match m h with Some (h', x) => f x h' | None => None end.

Definition cast (t t' : ty) (x : cell_type t) : option (cell_type t') :=
  match decide (t = t') with left e => Some (eq_rect t cell_type x t' e) | right _ => None end.
Definition casts (t t' : ty) (xs : list (cell_type t)) : option (list (cell_type t')) :=
  match decide (t = t') with
  | left e => Some (eq_rect t (λ t, list (cell_type t)) xs t' e)
  | right _ => None
  end.

(** Reading and writing through a pointer, and an element of a slice. *)
Definition load (t : ty) (l : loc) : H (cell_type t) := λ h,
  match h !! l with
  | Some (Var t' x) => match cast t' t x with Some x => Some (h, x) | None => None end
  | _ => None
  end.
Definition store (t : ty) (l : loc) (x : cell_type t) : H unit := λ h,
  match h !! l with
  | Some (Var t' _) => if decide (t' = t) then Some (<[l := Var t x]> h, tt) else None
  | _ => None
  end.
Definition load_array (t : ty) (l : loc) : H (list (cell_type t)) := λ h,
  match h !! l with
  | Some (Array t' xs) => match casts t' t xs with Some xs => Some (h, xs) | None => None end
  | _ => None
  end.
Definition load_elem (t : ty) (l : loc) (i : nat) : H (cell_type t) := λ h,
  match load_array t l h with
  | Some (_, xs) => match xs !! i with Some x => Some (h, x) | None => None end
  | None => None
  end.
Definition store_elem (t : ty) (l : loc) (i : nat) (x : cell_type t) : H unit := λ h,
  match load_array t l h with
  | Some (_, xs) =>
      if decide (i < length xs) then Some (<[l := Array t (<[i := x]> xs)]> h, tt) else None
  | None => None
  end.

(** [new(T)] and [make([]T, n)]. *)
Definition alloc (c : cell) : H loc := λ h,
  let l := fresh (dom h) in Some (<[l := c]> h, l).
Definition new (t : ty) : H loc := alloc (Var t (zero t)).
Definition make_slice (t : ty) (n : nat) : H loc := alloc (Array t (replicate n (zero t))).

(** ** The shapes of copying code *)

(** A pointer field: unless it is nil, a new variable that [into] fills. *)
Definition copy_ptr (t : ty) (into : cell_type t → H (cell_type t)) (p : option loc) : H (option loc) :=
  match p with
  | None => mret None
  | Some l =>
      l' ← new t;
      x ← load t l;
      y ← into x;
      _ ← store t l' y;
      mret (Some l')
  end.

(** A loop over a slice that copies the elements one by one. *)
Fixpoint copy_elems (t : ty) (into : cell_type t → H (cell_type t)) (l l' : loc) (idx : list nat) : H unit :=
  match idx with
  | [] => mret tt
  | i :: idx =>
      x ← load_elem t l i;
      y ← into x;
      _ ← store_elem t l' i y;
      copy_elems t into l l' idx
  end.

(** A slice field: unless it is nil, a new array of the same length, and copies
    of the elements. *)
Definition copy_slice (t : ty) (into : cell_type t → H (cell_type t)) (s : option loc) : H (option loc) :=
  match s with
  | None => mret None
  | Some l =>
      xs ← load_array t l;
      l' ← make_slice t (length xs);
      _ ← copy_elems t into l l' (seq 0 (length xs));
      mret (Some l')
  end.

(** An assignment, and [copy] for elements without pointers. *)
Definition plain {A} (x : A) : H A := mret x.

(** [DeepCopy]: nil for nil, else a new variable that [into] fills. *)
Definition deep_copy (t : ty) (into : cell_type t → H (cell_type t)) (p : option loc) : H (option loc) :=
  copy_ptr t into p.

(** ** Assertions: the part of the heap a value owns *)

Definition assertion : Type := heap → Prop.

Definition emp : assertion := λ h, h = ∅.
Definition pure (φ : Prop) : assertion := λ h, φ ∧ h = ∅.
Definition sep (A B : assertion) : assertion := λ h,
  ∃ h1 h2, h = h1 ∪ h2 ∧ h1 ##ₘ h2 ∧ A h1 ∧ B h2.
Definition points_to (l : loc) (c : cell) : assertion := λ h, h = {[l := c]}.
Definition exists_ {A} (B : A → assertion) : assertion := λ h, ∃ x, B x h.

(** A variable without pointers owns nothing but itself. *)
Definition own_plain {A} (x y : A) : assertion := pure (x = y).

Definition own_ptr {V} (t : ty) (own : cell_type t → V → assertion) (p : option loc) (v : option V) :
    assertion :=
  match p, v with
  | None, None => emp
  | Some l, Some v => exists_ (λ x, sep (points_to l (Var t x)) (own x v))
  | _, _ => pure False
  end.

Fixpoint own_list {T V} (own : T → V → assertion) (xs : list T) (vs : list V) : assertion :=
  match xs, vs with
  | [], [] => emp
  | x :: xs, v :: vs => sep (own x v) (own_list own xs vs)
  | _, _ => pure False
  end.

Definition own_slice {V} (t : ty) (own : cell_type t → V → assertion) (s : option loc)
    (vs : option (list V)) : assertion :=
  match s, vs with
  | None, None => emp
  | Some l, Some vs => exists_ (λ xs, sep (points_to l (Array t xs)) (own_list own xs vs))
  | _, _ => pure False
  end.

(** Code that copies: it runs to its end, leaves the whole heap as it was, and
    what its result owns is new. *)
Definition copies {A} (pre : assertion) (m : H A) (post : A → assertion) : Prop :=
  ∀ h hp, pre hp → hp ⊆ h →
  ∃ h' x, m h = Some (h' ∪ h, x) ∧ h' ##ₘ h ∧ post x h'.

(** ** Rules *)

Lemma copies_ret {A} (x : A) : copies emp (mret x) (λ y, pure (y = x)).
Proof. intros h hp _ _. exists ∅, x. split; [by rewrite (left_id_L ∅ _)|]. split; [apply map_disjoint_empty_l|done]. Qed.

Lemma copies_pure {A} (φ : Prop) pre (m : H A) post :
  (φ → copies pre m post) → copies (sep (pure φ) pre) m post.
Proof.
  intros Hm h hp (h1&h2&->&Hd&[Hφ ->]&Hpre) Hsub. rewrite (left_id_L ∅ _) in Hsub. by eapply Hm.
Qed.

Lemma copies_post {A} pre (m : H A) (post post' : A → assertion) :
  (∀ x h, post x h → post' x h) → copies pre m post → copies pre m post'.
Proof. intros Hpost Hm h hp Hpre Hsub. destruct (Hm h hp Hpre Hsub) as (h'&x&?&?&?). eauto 6. Qed.

Lemma sep_intro A B h1 h2 : h1 ##ₘ h2 → A h1 → B h2 → sep A B (h1 ∪ h2).
Proof. intros. by exists h1, h2. Qed.
Lemma sep_pure_intro φ A h : φ → A h → sep (pure φ) A h.
Proof.
  intros. exists ∅, h. split; [by rewrite (left_id_L ∅ _)|].
  split; [apply map_disjoint_empty_l|done].
Qed.

(** Sequencing: the second part leaves the heap of the first alone. *)
Lemma copies_bind {A B} pre1 pre2 (m : H A) (f : A → H B) post1 (post2 : A → B → assertion) :
  copies pre1 m post1 → (∀ x, copies pre2 (f x) (post2 x)) →
  copies (sep pre1 pre2) (m ≫= f) (λ y, exists_ (λ x, sep (post1 x) (post2 x y))).
Proof.
  intros Hm Hf h hp (h1&h2&->&Hd&H1&H2) Hsub.
  assert (Hsub1 : h1 ⊆ h) by (etrans; [apply map_union_subseteq_l|done]).
  assert (Hsub2 : h2 ⊆ h) by (etrans; [by apply map_union_subseteq_r|done]).
  destruct (Hm h h1 H1 Hsub1) as (h3&x&Hrun1&Hd1&Hpost1).
  destruct (Hf x (h3 ∪ h) h2 H2) as (h4&y&Hrun2&Hd2&Hpost2).
  { etrans; [exact Hsub2|by apply map_union_subseteq_r]. }
  apply map_disjoint_union_r in Hd2 as [Hd2 Hd3].
  exists (h3 ∪ h4), y. split_and!.
  - unfold mbind, H_bind. rewrite Hrun1, Hrun2. f_equal. f_equal.
    rewrite (assoc_L (∪)), (map_union_comm h4 h3) by done. done.
  - by apply map_disjoint_union_l.
  - exists x, h3, h4. split_and!; try done.
Qed.

(** *** Accesses *)

Lemma cast_id t (x : cell_type t) : cast t t x = Some x.
Proof. unfold cast. by rewrite (decide_True_pi eq_refl). Qed.
Lemma casts_id t (xs : list (cell_type t)) : casts t t xs = Some xs.
Proof. unfold casts. by rewrite (decide_True_pi eq_refl). Qed.

Lemma load_spec t l x h : h !! l = Some (Var t x) → load t l h = Some (h, x).
Proof. unfold load. intros ->. by rewrite cast_id. Qed.
Lemma store_spec t l x y h : h !! l = Some (Var t x) → store t l y h = Some (<[l := Var t y]> h, tt).
Proof. unfold store. intros ->. by rewrite decide_True. Qed.
Lemma load_array_spec t l xs h : h !! l = Some (Array t xs) → load_array t l h = Some (h, xs).
Proof. unfold load_array. intros ->. by rewrite casts_id. Qed.
Lemma load_elem_spec t l xs i x h :
  h !! l = Some (Array t xs) → xs !! i = Some x → load_elem t l i h = Some (h, x).
Proof. unfold load_elem. intros Hl Hx. by rewrite (load_array_spec _ _ _ _ Hl), Hx. Qed.
Lemma store_elem_spec t l xs i y h :
  h !! l = Some (Array t xs) → i < length xs →
  store_elem t l i y h = Some (<[l := Array t (<[i := y]> xs)]> h, tt).
Proof. unfold store_elem. intros Hl Hi. by rewrite (load_array_spec _ _ _ _ Hl), decide_True. Qed.

Lemma bind_eq {A B} (m : H A) (f : A → H B) h h' x : m h = Some (h', x) → (m ≫= f) h = f x h'.
Proof. unfold mbind, H_bind. by intros ->. Qed.

Lemma alloc_spec c h : alloc c h = Some (<[fresh (dom h) := c]> h, fresh (dom h)) ∧ h !! fresh (dom h) = None.
Proof. split; [done|]. apply not_elem_of_dom, is_fresh. Qed.

Lemma points_to_lookup l c A hp h : sep (points_to l c) A hp → hp ⊆ h → h !! l = Some c.
Proof.
  intros (h1&h2&->&Hd&->&_) Hsub. eapply lookup_weaken; [|exact Hsub].
  apply lookup_union_Some_l, lookup_singleton_eq.
Qed.

(** *** The shapes copy *)

Lemma copies_ptr {V} t (own : cell_type t → V → assertion) into p v :
  (∀ x v, copies (own x v) (into x) (λ y, own y v)) →
  copies (own_ptr t own p v) (copy_ptr t into p) (λ q, own_ptr t own q v).
Proof.
  intros Hinto h hp Hown Hsub. destruct p as [l|], v as [v|]; try by destruct Hown.
  2:{ exists ∅, None. split_and!; [by rewrite (left_id_L ∅ _)|apply map_disjoint_empty_l|done]. }
  destruct Hown as [x Hx]. pose proof (points_to_lookup _ _ _ _ _ Hx Hsub) as Hl.
  destruct Hx as (h1&hx&->&Hd&_&Hx).
  destruct (alloc_spec (Var t (zero t)) h) as [Hnew Hfresh]. set (l' := fresh (dom h)) in *.
  set (h0 := <[l' := Var t (zero t)]> h) in *.
  assert (Hl0 : h0 !! l = Some (Var t x)) by (unfold h0; rewrite lookup_insert_ne; [done|congruence]).
  destruct (Hinto x v h0 hx Hx) as (h2&y&Hrun&Hd2&Hy).
  { etrans; [|by apply insert_subseteq]. etrans; [|exact Hsub]. by apply map_union_subseteq_r. }
  apply map_disjoint_insert_r in Hd2 as [Hn2 Hd2].
  exists (<[l' := Var t y]> h2), (Some l'). split_and!.
  - simpl. erewrite bind_eq by exact Hnew. erewrite bind_eq by (by eapply load_spec).
    erewrite bind_eq by exact Hrun. unfold h0. rewrite <-insert_union_r by done.
    erewrite bind_eq by (eapply store_spec, lookup_insert_eq).
    rewrite insert_insert_eq, insert_union_l. done.
  - by apply map_disjoint_insert_l.
  - exists y, {[l' := Var t y]}, h2. split_and!; [|by apply map_disjoint_singleton_l|done|done].
    by rewrite <-insert_union_singleton_l.
Qed.

Lemma own_list_nil {T V} (own : T → V → assertion) vs h : own_list own [] vs h → vs = [] ∧ h = ∅.
Proof. destruct vs; [by intros ->|by intros []]. Qed.

Lemma own_list_cons {T V} (own : T → V → assertion) x xs vs h :
  own_list own (x :: xs) vs h → ∃ v vs', vs = v :: vs' ∧ sep (own x v) (own_list own xs vs') h.
Proof. destruct vs as [|v vs]; [by intros []|]. simpl. intros. by exists v, vs. Qed.

Lemma loop_heap l' a (h2 h4 h : heap) :
  h4 !! l' = None → h4 ∪ <[l' := a]> (h2 ∪ h) = <[l' := a]> ((h4 ∪ h2) ∪ h).
Proof. intros Hn. by rewrite <-insert_union_r, <-(assoc_L (∪)) by done. Qed.

(** The loop, with [ys1] of the elements copied: [h2] is what they own. *)
Lemma copy_elems_ok {V} t (own : cell_type t → V → assertion) into l l' h :
  (∀ x v, copies (own x v) (into x) (λ y, own y v)) → h !! l' = None →
  ∀ xs2 vs2 xs1 ys1 h2 hx,
    h !! l = Some (Array t (xs1 ++ xs2)) → length ys1 = length xs1 →
    h2 ##ₘ h → h2 !! l' = None → own_list own xs2 vs2 hx → hx ⊆ h →
    ∃ h3 ys2,
      copy_elems t into l l' (seq (length ys1) (length xs2))
        (<[l' := Array t (ys1 ++ replicate (length xs2) (zero t))]> (h2 ∪ h)) =
        Some (<[l' := Array t (ys1 ++ ys2)]> ((h3 ∪ h2) ∪ h), tt) ∧
      h3 ##ₘ h2 ∪ h ∧ h3 !! l' = None ∧ own_list own ys2 vs2 h3.
Proof.
  intros Hinto Hl'. induction xs2 as [|x xs2 IH]; intros vs2 xs1 ys1 h2 hx Hl Hlen Hd Hn Hown Hsub.
  { apply own_list_nil in Hown as [-> ->]. exists ∅, []. split_and!.
    - simpl. by rewrite (left_id_L ∅ (∪)).
    - apply map_disjoint_empty_l.
    - apply lookup_empty.
    - done. }
  apply own_list_cons in Hown as (v&vs&->&(hx1&hx2&->&Hdx&Hx&Hxs)).
  assert (Hll : l' ≠ l) by congruence.
  set (hc := <[l' := Array t (ys1 ++ replicate (length (x :: xs2)) (zero t))]> (h2 ∪ h)).
  assert (Hsubc : h ⊆ hc).
  { etrans; [by apply map_union_subseteq_r|]. apply insert_subseteq. by apply lookup_union_None. }
  destruct (Hinto x v hc hx1 Hx) as (h4&y&Hrun&Hd4&Hy).
  { etrans; [apply map_union_subseteq_l|]. by etrans. }
  apply map_disjoint_insert_r in Hd4 as [Hn4 Hd4]. apply map_disjoint_union_r in Hd4 as Hd4'.
  destruct (IH vs (xs1 ++ [x]) (ys1 ++ [y]) (h4 ∪ h2) hx2) as (h3&ys2&Hrest&Hd3&Hn3&Hown3).
  { by rewrite <-app_assoc. }
  { rewrite !length_app. simpl. lia. }
  { apply map_disjoint_union_l. by split; [apply Hd4'|]. }
  { by apply lookup_union_None. }
  { done. }
  { etrans; [by apply map_union_subseteq_r|done]. }
  assert (Hd34 : h3 ##ₘ h4 ∧ h3 ##ₘ h2 ∪ h).
  { apply map_disjoint_union_r in Hd3 as [[? ?]%map_disjoint_union_r ?].
    split; [done|]. by apply map_disjoint_union_r. }
  exists (h3 ∪ h4), (y :: ys2). split_and!.
  - change (seq (length ys1) (length (x :: xs2))) with (length ys1 :: seq (S (length ys1)) (length xs2)).
    cbn [copy_elems]. erewrite bind_eq.
    2:{ eapply (load_elem_spec _ _ (xs1 ++ x :: xs2)); [by eapply lookup_weaken|].
        by rewrite Hlen, list_lookup_middle. }
    erewrite bind_eq by exact Hrun. unfold hc. rewrite loop_heap by done.
    erewrite bind_eq.
    2:{ eapply store_elem_spec; [apply lookup_insert_eq|]. rewrite length_app. simpl. lia. }
    rewrite insert_insert_eq, insert_app_r_alt, Nat.sub_diag by lia. simpl.
    rewrite length_app, Nat.add_1_r, <-!app_assoc in Hrest. simpl in Hrest. rewrite Hrest.
    by rewrite (assoc_L (∪) h3).
  - apply map_disjoint_union_l. split; [apply Hd34|done].
  - by apply lookup_union_None.
  - simpl. exists h4, h3. split_and!; [apply map_union_comm, Hd34|symmetry; apply Hd34|done|done].
Qed.

Lemma copies_slice {V} t (own : cell_type t → V → assertion) into p v :
  (∀ x v, copies (own x v) (into x) (λ y, own y v)) →
  copies (own_slice t own p v) (copy_slice t into p) (λ q, own_slice t own q v).
Proof.
  intros Hinto h hp Hown Hsub. destruct p as [l|], v as [vs|]; try by destruct Hown.
  2:{ exists ∅, None. split_and!; [by rewrite (left_id_L ∅ _)|apply map_disjoint_empty_l|done]. }
  destruct Hown as [xs Hx]. pose proof (points_to_lookup _ _ _ _ _ Hx Hsub) as Hl.
  destruct Hx as (h1&hx&->&Hd&_&Hx).
  destruct (alloc_spec (Array t (replicate (length xs) (zero t))) h) as [Hnew Hfresh].
  set (l' := fresh (dom h)) in *.
  destruct (copy_elems_ok t own into l l' h Hinto Hfresh xs vs [] [] ∅ hx) as (h3&ys&Hrun&Hd3&Hn3&Hys); try done.
  { apply map_disjoint_empty_l. }
  { etrans; [|exact Hsub]. by apply map_union_subseteq_r. }
  rewrite (left_id_L ∅ (∪)) in Hd3. rewrite (left_id_L ∅ (∪)), (right_id_L ∅ (∪)) in Hrun.
  exists (<[l' := Array t ys]> h3), (Some l'). split_and!.
  - cbn [copy_slice]. erewrite bind_eq by (by eapply load_array_spec). erewrite bind_eq by exact Hnew.
    erewrite bind_eq by exact Hrun. rewrite insert_union_l. done.
  - by apply map_disjoint_insert_l.
  - exists ys, {[l' := Array t ys]}, h3. split_and!; [|by apply map_disjoint_singleton_l|done|done].
    by rewrite <-insert_union_singleton_l.
Qed.

Lemma copies_plain {A} (x v : A) : copies (own_plain x v) (plain x) (λ y, own_plain y v).
Proof.
  intros h hp [-> ->] _. exists ∅, v. split_and!; [by rewrite (left_id_L ∅ _)|apply map_disjoint_empty_l|done..].
Qed.

(** *** Owning a concrete heap, cell by cell *)

Lemma sep_assoc_2 A B D h : sep A (sep B D) h → sep (sep A B) D h.
Proof.
  intros (h1&hr&->&Hd&HA&(h2&h3&->&Hd'&HB&HD)). apply map_disjoint_union_r in Hd as [Hd1 Hd2].
  exists (h1 ∪ h2), h3. split_and!; [apply (assoc_L (∪))|by apply map_disjoint_union_l|by apply sep_intro|done].
Qed.
Lemma sep_emp_l A h : A h → sep emp A h.
Proof. intros. exists ∅, h. split_and!; [by rewrite (left_id_L ∅ _)|apply map_disjoint_empty_l|done..]. Qed.
Lemma sep_emp_r_1 A h : sep A emp h → A h.
Proof. intros (h1&?&->&_&?&->). by rewrite (right_id_L ∅ _). Qed.
Lemma sep_points_to l c B h : h !! l = Some c → B (delete l h) → sep (points_to l c) B h.
Proof.
  intros Hl HB. assert (Heq : h = {[l := c]} ∪ delete l h) by (rewrite <-insert_union_singleton_l; by rewrite insert_delete_id).
  rewrite Heq. apply sep_intro; [by apply map_disjoint_singleton_l, lookup_delete_eq|done|done].
Qed.
Lemma sep_own_cons {T V} (own : T → V → assertion) x xs v vs B h :
  sep (own x v) (sep (own_list own xs vs) B) h → sep (own_list own (x :: xs) (v :: vs)) B h.
Proof. apply sep_assoc_2. Qed.
Lemma sep_own_ptr {V} t (own : cell_type t → V → assertion) l v x B h :
  h !! l = Some (Var t x) → sep (own x v) B (delete l h) → sep (own_ptr t own (Some l) (Some v)) B h.
Proof.
  intros Hl HB. destruct (sep_assoc_2 _ _ _ _ (sep_points_to l _ _ h Hl HB)) as (h1&h2&->&?&?&?).
  apply sep_intro; [done| |done]. by exists x.
Qed.
Lemma sep_own_slice {V} t (own : cell_type t → V → assertion) l vs xs B h :
  h !! l = Some (Array t xs) → sep (own_list own xs vs) B (delete l h) →
  sep (own_slice t own (Some l) (Some vs)) B h.
Proof.
  intros Hl HB. destruct (sep_assoc_2 _ _ _ _ (sep_points_to l _ _ h Hl HB)) as (h1&h2&->&?&?&?).
  apply sep_intro; [done| |done]. by exists xs.
Qed.
End memory.
