(* ===== verification/DeepCopy.v ===== *)
(** The generated deep copies (zz_generated.deepcopy.go of
    apis/bootstrap/v1alpha1, apis/bootstrap/v1alpha2, apis/controlplane/v1alpha1
    and apis/controlplane/v1alpha2): the copy of an object is equal to it and
    shares no memory with it.

    [DeepCopyInto] starts with the assignment of the whole struct, which copies
    pointers and slices as they are; the statements that follow replace those of
    the fields they name.  A definition therefore takes the struct and gives the
    struct [out] ends as, with every field it does not replace taken over. *)
From S2P Require Import Prelude Memory.
Local Set Implicit Arguments.

(** ** The types *)

(** The structs of other modules: each over a layout, with the types of the cells
    its values need. *)
Class External : Type := {
  ObjectMeta : layout → Type;
  ListMeta : layout → Type;
  ControlPlaneConfiguration : layout → Type;
  WorkerConfiguration : layout → Type;
  ObjectReference : Type;
  zero_ObjectMeta : ObjectMeta mem;
  zero_ListMeta : ListMeta mem;
  zero_ControlPlaneConfiguration : ControlPlaneConfiguration mem;
  zero_WorkerConfiguration : WorkerConfiguration mem;
  zero_ObjectReference : ObjectReference;
  external_ty : Type;
  external_ty_eq_dec :: EqDecision external_ty;
  external_cell : external_ty → Type;
  external_zero : ∀ t, external_cell t;
}.

Record TypeMeta := { Kind : string; APIVersion : string }.
Record File := {
  f_Path : string;
  f_Owner : string;
  f_Permissions : string;
  f_Encoding : string;
  f_Content : string;
}.
Record NTP (L : layout) := { n_Servers : Sl L string; n_Enabled : Pt L bool }.
Record User (L : layout) := {
  u_Name : string;
  u_Gecos : Pt L string;
  u_Groups : Pt L string;
  u_HomeDir : Pt L string;
  u_Inactive : Pt L bool;
  u_Shell : Pt L string;
  u_Passwd : Pt L string;
  u_PrimaryGroup : Pt L string;
  u_LockPassword : Pt L bool;
  u_Sudo : Pt L string;
  u_SSHAuthorizedKeys : Sl L string;
}.
Record CritConfigStatus (L : layout) := {
  st_Ready : bool;
  st_DataSecretName : Pt L string;
  st_FailureReason : string;
  st_FailureMessage : string;
}.
(** The specifications of the two versions. *)
Record CritConfigSpec1 `{External} (L : layout) := {
  s1_ControlPlaneConfiguration : Pt L (ControlPlaneConfiguration L);
  s1_WorkerConfiguration : Pt L (WorkerConfiguration L);
  s1_Files : Sl L File;
  s1_PreCritCommands : Sl L string;
  s1_PostCritCommands : Sl L string;
  s1_Users : Sl L (User L);
  s1_NTP : Pt L (NTP L);
  s1_Format : string;
  s1_Verbosity : bool;
}.
Record CritConfigSpec2 (L : layout) := {
  s2_Config : string;
  s2_Files : Sl L File;
  s2_PreCritCommands : Sl L string;
  s2_PostCritCommands : Sl L string;
  s2_Users : Sl L (User L);
  s2_NTP : Pt L (NTP L);
  s2_Format : string;
  s2_Verbosity : bool;
}.

(** The other types only differ in the specification they contain. *)
Inductive version := v1alpha1 | v1alpha2.
#[export] Instance version_eq_dec : EqDecision version.
Proof. solve_decision. Defined.

Definition CritConfigSpec `{External} (v : version) (L : layout) : Type :=
  match v with v1alpha1 => CritConfigSpec1 L | v1alpha2 => CritConfigSpec2 L end.
Record CritConfig `{External} (v : version) (L : layout) := {
  c_TypeMeta : TypeMeta;
  c_ObjectMeta : ObjectMeta L;
  c_Spec : CritConfigSpec v L;
  c_Status : CritConfigStatus L;
}.
Record CritConfigTemplateResource `{External} (v : version) (L : layout) := { r_Spec : CritConfigSpec v L }.
Record CritConfigTemplateSpec `{External} (v : version) (L : layout) := {
  ts_Template : CritConfigTemplateResource v L }.
Record CritConfigTemplate `{External} (v : version) (L : layout) := {
  t_TypeMeta : TypeMeta;
  t_ObjectMeta : ObjectMeta L;
  t_Spec : CritConfigTemplateSpec v L;
}.
Record CritControlPlaneSpec `{External} (v : version) (L : layout) := {
  ps_Replicas : Z;
  ps_Version : string;
  ps_InfrastructureTemplate : ObjectReference;
  ps_CritConfigSpec : CritConfigSpec v L;
}.
Record CritControlPlaneStatus (L : layout) := {
  pst_Selector : string;
  pst_Replicas : Z;
  pst_UpdatedReplicas : Z;
  pst_ReadyReplicas : Z;
  pst_UnavailableReplicas : Z;
  pst_Initialized : bool;
  pst_Ready : bool;
  pst_FailureReason : string;
  pst_FailureMessage : Pt L string;
}.
Record CritControlPlane `{External} (v : version) (L : layout) := {
  p_TypeMeta : TypeMeta;
  p_ObjectMeta : ObjectMeta L;
  p_Spec : CritControlPlaneSpec v L;
  p_Status : CritControlPlaneStatus L;
}.
(** A list object. *)
Record ListOf `{External} (L : layout) (T : Type) := {
  l_TypeMeta : TypeMeta;
  l_ListMeta : ListMeta L;
  l_Items : Sl L T;
}.

Arguments Build_NTP {L} & _ _.
Arguments Build_User {L} & _ _ _ _ _ _ _ _ _ _ _.
Arguments Build_CritConfigStatus {L} & _ _ _ _.
Arguments Build_CritConfigSpec1 {_ L} & _ _ _ _ _ _ _ _ _.
Arguments Build_CritConfigSpec2 {L} & _ _ _ _ _ _ _ _.
Arguments Build_CritConfig {_ v L} & _ _ _ _.
Arguments Build_CritConfigTemplateResource {_ v L} & _.
Arguments Build_CritConfigTemplateSpec {_ v L} & _.
Arguments Build_CritConfigTemplate {_ v L} & _ _ _.
Arguments Build_CritControlPlaneSpec {_ v L} & _ _ _ _.
Arguments Build_CritControlPlaneStatus {L} & _ _ _ _ _ _ _ _ _.
Arguments Build_CritControlPlane {_ v L} & _ _ _ _.
Arguments Build_ListOf {_ L T} & _ _ _.

(** ** The cells *)

Section cells.
Context `{X : External}.

Inductive struct :=
| TString | TBool | TFile | TNTP | TUser | TCritConfigStatus
| TControlPlaneConfiguration | TWorkerConfiguration
| TCritConfigSpec (v : version) | TCritConfig (v : version) | TCritConfigList (v : version)
| TCritConfigTemplateResource (v : version) | TCritConfigTemplateSpec (v : version)
| TCritConfigTemplate (v : version) | TCritConfigTemplateList (v : version)
| TCritControlPlaneSpec (v : version) | TCritControlPlaneStatus
| TCritControlPlane (v : version) | TCritControlPlaneList (v : version)
| TExternal (t : external_ty).
#[export] Instance struct_eq_dec : EqDecision struct.
Proof. solve_decision. Defined.

Definition struct_type (t : struct) : Type :=
  match t with
  | TString => string
  | TBool => bool
  | TFile => File
  | TNTP => NTP mem
  | TUser => User mem
  | TCritConfigStatus => CritConfigStatus mem
  | TControlPlaneConfiguration => ControlPlaneConfiguration mem
  | TWorkerConfiguration => WorkerConfiguration mem
  | TCritConfigSpec v => CritConfigSpec v mem
  | TCritConfig v => CritConfig v mem
  | TCritConfigList v => ListOf mem (CritConfig v mem)
  | TCritConfigTemplateResource v => CritConfigTemplateResource v mem
  | TCritConfigTemplateSpec v => CritConfigTemplateSpec v mem
  | TCritConfigTemplate v => CritConfigTemplate v mem
  | TCritConfigTemplateList v => ListOf mem (CritConfigTemplate v mem)
  | TCritControlPlaneSpec v => CritControlPlaneSpec v mem
  | TCritControlPlaneStatus => CritControlPlaneStatus mem
  | TCritControlPlane v => CritControlPlane v mem
  | TCritControlPlaneList v => ListOf mem (CritControlPlane v mem)
  | TExternal t => external_cell t
  end.

(** Zero values. *)
Definition zero_TypeMeta : TypeMeta := {| Kind := ""; APIVersion := "" |}.
Definition zero_NTP : NTP mem := {| n_Servers := None; n_Enabled := None |}.
Definition zero_User : User mem := {|
  u_Name := ""; u_Gecos := None; u_Groups := None; u_HomeDir := None; u_Inactive := None;
  u_Shell := None; u_Passwd := None; u_PrimaryGroup := None; u_LockPassword := None; u_Sudo := None;
  u_SSHAuthorizedKeys := None |}.
Definition zero_Status : CritConfigStatus mem := {|
  st_Ready := false; st_DataSecretName := None; st_FailureReason := ""; st_FailureMessage := "" |}.
Definition zero_Spec (v : version) : CritConfigSpec v mem :=
  match v with
  | v1alpha1 => {| s1_ControlPlaneConfiguration := None; s1_WorkerConfiguration := None; s1_Files := None;
      s1_PreCritCommands := None; s1_PostCritCommands := None; s1_Users := None; s1_NTP := None;
      s1_Format := ""; s1_Verbosity := false |}
  | v1alpha2 => {| s2_Config := ""; s2_Files := None; s2_PreCritCommands := None;
      s2_PostCritCommands := None; s2_Users := None; s2_NTP := None; s2_Format := ""; s2_Verbosity := false |}
  end.
Definition zero_Resource (v : version) : CritConfigTemplateResource v mem := {| r_Spec := zero_Spec v |}.
Definition zero_TemplateSpec (v : version) : CritConfigTemplateSpec v mem := {| ts_Template := zero_Resource v |}.
Definition zero_PlaneSpec (v : version) : CritControlPlaneSpec v mem := {|
  ps_Replicas := 0; ps_Version := ""; ps_InfrastructureTemplate := zero_ObjectReference;
  ps_CritConfigSpec := zero_Spec v |}.
Definition zero_PlaneStatus : CritControlPlaneStatus mem := {|
  pst_Selector := ""; pst_Replicas := 0; pst_UpdatedReplicas := 0; pst_ReadyReplicas := 0;
  pst_UnavailableReplicas := 0; pst_Initialized := false; pst_Ready := false;
  pst_FailureReason := ""; pst_FailureMessage := None |}.
Definition zero_ListOf (T : Type) : ListOf mem T := {|
  l_TypeMeta := zero_TypeMeta; l_ListMeta := zero_ListMeta; l_Items := None |}.
Definition zero_struct (t : struct) : struct_type t :=
  match t with
  | TString => ""
  | TBool => false
  | TFile => {| f_Path := ""; f_Owner := ""; f_Permissions := ""; f_Encoding := ""; f_Content := "" |}
  | TNTP => zero_NTP
  | TUser => zero_User
  | TCritConfigStatus => zero_Status
  | TControlPlaneConfiguration => zero_ControlPlaneConfiguration
  | TWorkerConfiguration => zero_WorkerConfiguration
  | TCritConfigSpec v => zero_Spec v
  | TCritConfig v => ({| c_TypeMeta := zero_TypeMeta; c_ObjectMeta := zero_ObjectMeta;
      c_Spec := zero_Spec v; c_Status := zero_Status |} : CritConfig v mem)
  | TCritConfigList v => zero_ListOf _
  | TCritConfigTemplateResource v => zero_Resource v
  | TCritConfigTemplateSpec v => zero_TemplateSpec v
  | TCritConfigTemplate v => ({| t_TypeMeta := zero_TypeMeta; t_ObjectMeta := zero_ObjectMeta;
      t_Spec := zero_TemplateSpec v |} : CritConfigTemplate v mem)
  | TCritConfigTemplateList v => zero_ListOf _
  | TCritControlPlaneSpec v => zero_PlaneSpec v
  | TCritControlPlaneStatus => zero_PlaneStatus
  | TCritControlPlane v => ({| p_TypeMeta := zero_TypeMeta; p_ObjectMeta := zero_ObjectMeta;
      p_Spec := zero_PlaneSpec v; p_Status := zero_PlaneStatus |} : CritControlPlane v mem)
  | TCritControlPlaneList v => zero_ListOf _
  | TExternal t => external_zero t
  end.

#[export] Instance struct_cells : CellTypes := {|
  ty := struct; cell_type := struct_type; zero := zero_struct |}.
End cells.

(** The deep copies of the structs of other modules, and what each owns. *)
Class ExternalCopies {X : External} : Type := {
  ObjectMeta_DeepCopyInto : ObjectMeta mem → H (ObjectMeta mem);
  ListMeta_DeepCopyInto : ListMeta mem → H (ListMeta mem);
  ControlPlaneConfiguration_DeepCopyInto : ControlPlaneConfiguration mem → H (ControlPlaneConfiguration mem);
  WorkerConfiguration_DeepCopyInto : WorkerConfiguration mem → H (WorkerConfiguration mem);
  own_ObjectMeta : ObjectMeta mem → ObjectMeta val → assertion;
  own_ListMeta : ListMeta mem → ListMeta val → assertion;
  own_ControlPlaneConfiguration : ControlPlaneConfiguration mem → ControlPlaneConfiguration val → assertion;
  own_WorkerConfiguration : WorkerConfiguration mem → WorkerConfiguration val → assertion;
}.

(** They copy deeply, which is what [DeepCopyInto] promises everywhere. *)
Class ExternalCopiesLaws {X : External} (E : ExternalCopies) : Prop := {
  ObjectMeta_copies x v : copies (own_ObjectMeta x v) (ObjectMeta_DeepCopyInto x) (λ y, own_ObjectMeta y v);
  ListMeta_copies x v : copies (own_ListMeta x v) (ListMeta_DeepCopyInto x) (λ y, own_ListMeta y v);
  ControlPlaneConfiguration_copies x v :
    copies (own_ControlPlaneConfiguration x v) (ControlPlaneConfiguration_DeepCopyInto x)
      (λ y, own_ControlPlaneConfiguration y v);
  WorkerConfiguration_copies x v :
    copies (own_WorkerConfiguration x v) (WorkerConfiguration_DeepCopyInto x)
      (λ y, own_WorkerConfiguration y v);
}.

(** A pointer in an interface, with its dynamic type. *)
Definition object `{External} : Type := struct * loc.

(** [DeepCopyObject] gives a nil interface, not an interface holding nil. *)
Definition deep_copy_object `{External} (t : struct) (copy : option loc → H (option loc))
    (p : option loc) : H (option object) :=
  c ← copy p;
  mret (match c with Some l => Some (t, l) | None => None end).

(** ** The generated functions *)

(** *** apis/bootstrap/v1alpha1 *)

Module bootstrap1.
Section copies.
Context {X : External} {E : ExternalCopies}.
Definition File_DeepCopyInto (i : File) : H File := plain i.
Definition File_DeepCopy (p : option loc) : H (option loc) := deep_copy (TFile) File_DeepCopyInto p.

Definition NTP_DeepCopyInto (i : NTP mem) : H (NTP mem) :=
  servers ← copy_slice TString plain (n_Servers i);
  enabled ← copy_ptr TBool plain (n_Enabled i);
  mret {| n_Servers := servers; n_Enabled := enabled |}.
Definition NTP_DeepCopy (p : option loc) : H (option loc) := deep_copy (TNTP) NTP_DeepCopyInto p.

Definition User_DeepCopyInto (i : User mem) : H (User mem) :=
  gecos ← copy_ptr TString plain (u_Gecos i);
  groups ← copy_ptr TString plain (u_Groups i);
  homeDir ← copy_ptr TString plain (u_HomeDir i);
  inactive ← copy_ptr TBool plain (u_Inactive i);
  shell ← copy_ptr TString plain (u_Shell i);
  passwd ← copy_ptr TString plain (u_Passwd i);
  primaryGroup ← copy_ptr TString plain (u_PrimaryGroup i);
  lockPassword ← copy_ptr TBool plain (u_LockPassword i);
  sudo ← copy_ptr TString plain (u_Sudo i);
  sshAuthorizedKeys ← copy_slice TString plain (u_SSHAuthorizedKeys i);
  mret {| u_Name := u_Name i; u_Gecos := gecos; u_Groups := groups; u_HomeDir := homeDir;
          u_Inactive := inactive; u_Shell := shell; u_Passwd := passwd; u_PrimaryGroup := primaryGroup;
          u_LockPassword := lockPassword; u_Sudo := sudo; u_SSHAuthorizedKeys := sshAuthorizedKeys |}.
Definition User_DeepCopy (p : option loc) : H (option loc) := deep_copy (TUser) User_DeepCopyInto p.

Definition CritConfigSpec_DeepCopyInto (i : CritConfigSpec1 mem) : H (CritConfigSpec v1alpha1 mem) :=
  controlPlaneConfiguration ← copy_ptr TControlPlaneConfiguration ControlPlaneConfiguration_DeepCopyInto
    (s1_ControlPlaneConfiguration i);
  workerConfiguration ← copy_ptr TWorkerConfiguration WorkerConfiguration_DeepCopyInto
    (s1_WorkerConfiguration i);
  files ← copy_slice TFile plain (s1_Files i);
  preCritCommands ← copy_slice TString plain (s1_PreCritCommands i);
  postCritCommands ← copy_slice TString plain (s1_PostCritCommands i);
  users ← copy_slice TUser User_DeepCopyInto (s1_Users i);
  ntp ← copy_ptr TNTP NTP_DeepCopyInto (s1_NTP i);
  mret ({| s1_ControlPlaneConfiguration := controlPlaneConfiguration;
          s1_WorkerConfiguration := workerConfiguration; s1_Files := files;
          s1_PreCritCommands := preCritCommands; s1_PostCritCommands := postCritCommands;
          s1_Users := users; s1_NTP := ntp; s1_Format := s1_Format i; s1_Verbosity := s1_Verbosity i |} : CritConfigSpec1 mem).
Definition CritConfigSpec_DeepCopy (p : option loc) : H (option loc) := deep_copy (TCritConfigSpec v1alpha1) CritConfigSpec_DeepCopyInto p.

Definition CritConfigStatus_DeepCopyInto (i : CritConfigStatus mem) : H (CritConfigStatus mem) :=
  dataSecretName ← copy_ptr TString plain (st_DataSecretName i);
  mret {| st_Ready := st_Ready i; st_DataSecretName := dataSecretName;
          st_FailureReason := st_FailureReason i; st_FailureMessage := st_FailureMessage i |}.
Definition CritConfigStatus_DeepCopy (p : option loc) : H (option loc) := deep_copy (TCritConfigStatus) CritConfigStatus_DeepCopyInto p.

Definition CritConfig_DeepCopyInto (i : CritConfig v1alpha1 mem) : H (CritConfig v1alpha1 mem) :=
  objectMeta ← ObjectMeta_DeepCopyInto (c_ObjectMeta i);
  spec ← CritConfigSpec_DeepCopyInto (c_Spec i);
  status ← CritConfigStatus_DeepCopyInto (c_Status i);
  mret {| c_TypeMeta := c_TypeMeta i; c_ObjectMeta := objectMeta; c_Spec := spec; c_Status := status |}.
Definition CritConfig_DeepCopy (p : option loc) : H (option loc) := deep_copy (TCritConfig v1alpha1) CritConfig_DeepCopyInto p.
Definition CritConfig_DeepCopyObject (p : option loc) : H (option object) :=
  deep_copy_object (TCritConfig v1alpha1) CritConfig_DeepCopy p.

Definition CritConfigList_DeepCopyInto (i : ListOf mem (CritConfig v1alpha1 mem)) : H (ListOf mem (CritConfig v1alpha1 mem)) :=
  listMeta ← ListMeta_DeepCopyInto (l_ListMeta i);
  items ← copy_slice (TCritConfig v1alpha1) CritConfig_DeepCopyInto (l_Items i);
  mret {| l_TypeMeta := l_TypeMeta i; l_ListMeta := listMeta; l_Items := items |}.
Definition CritConfigList_DeepCopy (p : option loc) : H (option loc) := deep_copy (TCritConfigList v1alpha1) CritConfigList_DeepCopyInto p.
Definition CritConfigList_DeepCopyObject (p : option loc) : H (option object) :=
  deep_copy_object (TCritConfigList v1alpha1) CritConfigList_DeepCopy p.

Definition CritConfigTemplateResource_DeepCopyInto (i : CritConfigTemplateResource v1alpha1 mem) :
    H (CritConfigTemplateResource v1alpha1 mem) :=
  spec ← CritConfigSpec_DeepCopyInto (r_Spec i);
  mret {| r_Spec := spec |}.
Definition CritConfigTemplateResource_DeepCopy (p : option loc) : H (option loc) := deep_copy (TCritConfigTemplateResource v1alpha1) CritConfigTemplateResource_DeepCopyInto p.

Definition CritConfigTemplateSpec_DeepCopyInto (i : CritConfigTemplateSpec v1alpha1 mem) :
    H (CritConfigTemplateSpec v1alpha1 mem) :=
  template ← CritConfigTemplateResource_DeepCopyInto (ts_Template i);
  mret {| ts_Template := template |}.
Definition CritConfigTemplateSpec_DeepCopy (p : option loc) : H (option loc) := deep_copy (TCritConfigTemplateSpec v1alpha1) CritConfigTemplateSpec_DeepCopyInto p.

Definition CritConfigTemplate_DeepCopyInto (i : CritConfigTemplate v1alpha1 mem) : H (CritConfigTemplate v1alpha1 mem) :=
  objectMeta ← ObjectMeta_DeepCopyInto (t_ObjectMeta i);
  spec ← CritConfigTemplateSpec_DeepCopyInto (t_Spec i);
  mret {| t_TypeMeta := t_TypeMeta i; t_ObjectMeta := objectMeta; t_Spec := spec |}.
Definition CritConfigTemplate_DeepCopy (p : option loc) : H (option loc) := deep_copy (TCritConfigTemplate v1alpha1) CritConfigTemplate_DeepCopyInto p.
Definition CritConfigTemplate_DeepCopyObject (p : option loc) : H (option object) :=
  deep_copy_object (TCritConfigTemplate v1alpha1) CritConfigTemplate_DeepCopy p.

Definition CritConfigTemplateList_DeepCopyInto (i : ListOf mem (CritConfigTemplate v1alpha1 mem)) : H (ListOf mem (CritConfigTemplate v1alpha1 mem)) :=
  listMeta ← ListMeta_DeepCopyInto (l_ListMeta i);
  items ← copy_slice (TCritConfigTemplate v1alpha1) CritConfigTemplate_DeepCopyInto (l_Items i);
  mret {| l_TypeMeta := l_TypeMeta i; l_ListMeta := listMeta; l_Items := items |}.
Definition CritConfigTemplateList_DeepCopy (p : option loc) : H (option loc) := deep_copy (TCritConfigTemplateList v1alpha1) CritConfigTemplateList_DeepCopyInto p.
Definition CritConfigTemplateList_DeepCopyObject (p : option loc) : H (option object) :=
  deep_copy_object (TCritConfigTemplateList v1alpha1) CritConfigTemplateList_DeepCopy p.
End copies.
End bootstrap1.

(** *** apis/controlplane/v1alpha1 *)

Module controlplane1.
Section copies.
Context {X : External} {E : ExternalCopies}.

Definition CritControlPlaneSpec_DeepCopyInto (i : CritControlPlaneSpec v1alpha1 mem) : H (CritControlPlaneSpec v1alpha1 mem) :=
  critConfigSpec ← bootstrap1.CritConfigSpec_DeepCopyInto (ps_CritConfigSpec i);
  mret {| ps_Replicas := ps_Replicas i; ps_Version := ps_Version i;
          ps_InfrastructureTemplate := ps_InfrastructureTemplate i; ps_CritConfigSpec := critConfigSpec |}.
Definition CritControlPlaneSpec_DeepCopy (p : option loc) : H (option loc) := deep_copy (TCritControlPlaneSpec v1alpha1) CritControlPlaneSpec_DeepCopyInto p.

Definition CritControlPlaneStatus_DeepCopyInto (i : CritControlPlaneStatus mem) : H (CritControlPlaneStatus mem) :=
  failureMessage ← copy_ptr TString plain (pst_FailureMessage i);
  mret {| pst_Selector := pst_Selector i; pst_Replicas := pst_Replicas i;
          pst_UpdatedReplicas := pst_UpdatedReplicas i; pst_ReadyReplicas := pst_ReadyReplicas i;
          pst_UnavailableReplicas := pst_UnavailableReplicas i; pst_Initialized := pst_Initialized i;
          pst_Ready := pst_Ready i; pst_FailureReason := pst_FailureReason i;
          pst_FailureMessage := failureMessage |}.
Definition CritControlPlaneStatus_DeepCopy (p : option loc) : H (option loc) := deep_copy (TCritControlPlaneStatus) CritControlPlaneStatus_DeepCopyInto p.

Definition CritControlPlane_DeepCopyInto (i : CritControlPlane v1alpha1 mem) : H (CritControlPlane v1alpha1 mem) :=
  objectMeta ← ObjectMeta_DeepCopyInto (p_ObjectMeta i);
  spec ← CritControlPlaneSpec_DeepCopyInto (p_Spec i);
  status ← CritControlPlaneStatus_DeepCopyInto (p_Status i);
  mret {| p_TypeMeta := p_TypeMeta i; p_ObjectMeta := objectMeta; p_Spec := spec; p_Status := status |}.
Definition CritControlPlane_DeepCopy (p : option loc) : H (option loc) := deep_copy (TCritControlPlane v1alpha1) CritControlPlane_DeepCopyInto p.
Definition CritControlPlane_DeepCopyObject (p : option loc) : H (option object) :=
  deep_copy_object (TCritControlPlane v1alpha1) CritControlPlane_DeepCopy p.

Definition CritControlPlaneList_DeepCopyInto (i : ListOf mem (CritControlPlane v1alpha1 mem)) : H (ListOf mem (CritControlPlane v1alpha1 mem)) :=
  listMeta ← ListMeta_DeepCopyInto (l_ListMeta i);
  items ← copy_slice (TCritControlPlane v1alpha1) CritControlPlane_DeepCopyInto (l_Items i);
  mret {| l_TypeMeta := l_TypeMeta i; l_ListMeta := listMeta; l_Items := items |}.
Definition CritControlPlaneList_DeepCopy (p : option loc) : H (option loc) := deep_copy (TCritControlPlaneList v1alpha1) CritControlPlaneList_DeepCopyInto p.
Definition CritControlPlaneList_DeepCopyObject (p : option loc) : H (option object) :=
  deep_copy_object (TCritControlPlaneList v1alpha1) CritControlPlaneList_DeepCopy p.
End copies.
End controlplane1.

(** *** apis/bootstrap/v1alpha2 *)

Module bootstrap2.
Section copies.
Context {X : External} {E : ExternalCopies}.
Definition File_DeepCopyInto (i : File) : H File := plain i.
Definition File_DeepCopy (p : option loc) : H (option loc) := deep_copy (TFile) File_DeepCopyInto p.

Definition NTP_DeepCopyInto (i : NTP mem) : H (NTP mem) :=
  servers ← copy_slice TString plain (n_Servers i);
  enabled ← copy_ptr TBool plain (n_Enabled i);
  mret {| n_Servers := servers; n_Enabled := enabled |}.
Definition NTP_DeepCopy (p : option loc) : H (option loc) := deep_copy (TNTP) NTP_DeepCopyInto p.

Definition User_DeepCopyInto (i : User mem) : H (User mem) :=
  gecos ← copy_ptr TString plain (u_Gecos i);
  groups ← copy_ptr TString plain (u_Groups i);
  homeDir ← copy_ptr TString plain (u_HomeDir i);
  inactive ← copy_ptr TBool plain (u_Inactive i);
  shell ← copy_ptr TString plain (u_Shell i);
  passwd ← copy_ptr TString plain (u_Passwd i);
  primaryGroup ← copy_ptr TString plain (u_PrimaryGroup i);
  lockPassword ← copy_ptr TBool plain (u_LockPassword i);
  sudo ← copy_ptr TString plain (u_Sudo i);
  sshAuthorizedKeys ← copy_slice TString plain (u_SSHAuthorizedKeys i);
  mret {| u_Name := u_Name i; u_Gecos := gecos; u_Groups := groups; u_HomeDir := homeDir;
          u_Inactive := inactive; u_Shell := shell; u_Passwd := passwd; u_PrimaryGroup := primaryGroup;
          u_LockPassword := lockPassword; u_Sudo := sudo; u_SSHAuthorizedKeys := sshAuthorizedKeys |}.
Definition User_DeepCopy (p : option loc) : H (option loc) := deep_copy (TUser) User_DeepCopyInto p.

Definition CritConfigSpec_DeepCopyInto (i : CritConfigSpec2 mem) : H (CritConfigSpec v1alpha2 mem) :=
  files ← copy_slice TFile plain (s2_Files i);
  preCritCommands ← copy_slice TString plain (s2_PreCritCommands i);
  postCritCommands ← copy_slice TString plain (s2_PostCritCommands i);
  users ← copy_slice TUser User_DeepCopyInto (s2_Users i);
  ntp ← copy_ptr TNTP NTP_DeepCopyInto (s2_NTP i);
  mret ({| s2_Config := s2_Config i; s2_Files := files;
          s2_PreCritCommands := preCritCommands; s2_PostCritCommands := postCritCommands;
          s2_Users := users; s2_NTP := ntp; s2_Format := s2_Format i; s2_Verbosity := s2_Verbosity i |} : CritConfigSpec2 mem).
Definition CritConfigSpec_DeepCopy (p : option loc) : H (option loc) := deep_copy (TCritConfigSpec v1alpha2) CritConfigSpec_DeepCopyInto p.

Definition CritConfigStatus_DeepCopyInto (i : CritConfigStatus mem) : H (CritConfigStatus mem) :=
  dataSecretName ← copy_ptr TString plain (st_DataSecretName i);
  mret {| st_Ready := st_Ready i; st_DataSecretName := dataSecretName;
          st_FailureReason := st_FailureReason i; st_FailureMessage := st_FailureMessage i |}.
Definition CritConfigStatus_DeepCopy (p : option loc) : H (option loc) := deep_copy (TCritConfigStatus) CritConfigStatus_DeepCopyInto p.

Definition CritConfig_DeepCopyInto (i : CritConfig v1alpha2 mem) : H (CritConfig v1alpha2 mem) :=
  objectMeta ← ObjectMeta_DeepCopyInto (c_ObjectMeta i);
  spec ← CritConfigSpec_DeepCopyInto (c_Spec i);
  status ← CritConfigStatus_DeepCopyInto (c_Status i);
  mret {| c_TypeMeta := c_TypeMeta i; c_ObjectMeta := objectMeta; c_Spec := spec; c_Status := status |}.
Definition CritConfig_DeepCopy (p : option loc) : H (option loc) := deep_copy (TCritConfig v1alpha2) CritConfig_DeepCopyInto p.
Definition CritConfig_DeepCopyObject (p : option loc) : H (option object) :=
  deep_copy_object (TCritConfig v1alpha2) CritConfig_DeepCopy p.

Definition CritConfigList_DeepCopyInto (i : ListOf mem (CritConfig v1alpha2 mem)) : H (ListOf mem (CritConfig v1alpha2 mem)) :=
  listMeta ← ListMeta_DeepCopyInto (l_ListMeta i);
  items ← copy_slice (TCritConfig v1alpha2) CritConfig_DeepCopyInto (l_Items i);
  mret {| l_TypeMeta := l_TypeMeta i; l_ListMeta := listMeta; l_Items := items |}.
Definition CritConfigList_DeepCopy (p : option loc) : H (option loc) := deep_copy (TCritConfigList v1alpha2) CritConfigList_DeepCopyInto p.
Definition CritConfigList_DeepCopyObject (p : option loc) : H (option object) :=
  deep_copy_object (TCritConfigList v1alpha2) CritConfigList_DeepCopy p.

Definition CritConfigTemplateResource_DeepCopyInto (i : CritConfigTemplateResource v1alpha2 mem) :
    H (CritConfigTemplateResource v1alpha2 mem) :=
  spec ← CritConfigSpec_DeepCopyInto (r_Spec i);
  mret {| r_Spec := spec |}.
Definition CritConfigTemplateResource_DeepCopy (p : option loc) : H (option loc) := deep_copy (TCritConfigTemplateResource v1alpha2) CritConfigTemplateResource_DeepCopyInto p.

Definition CritConfigTemplateSpec_DeepCopyInto (i : CritConfigTemplateSpec v1alpha2 mem) :
    H (CritConfigTemplateSpec v1alpha2 mem) :=
  template ← CritConfigTemplateResource_DeepCopyInto (ts_Template i);
  mret {| ts_Template := template |}.
Definition CritConfigTemplateSpec_DeepCopy (p : option loc) : H (option loc) := deep_copy (TCritConfigTemplateSpec v1alpha2) CritConfigTemplateSpec_DeepCopyInto p.

Definition CritConfigTemplate_DeepCopyInto (i : CritConfigTemplate v1alpha2 mem) : H (CritConfigTemplate v1alpha2 mem) :=
  objectMeta ← ObjectMeta_DeepCopyInto (t_ObjectMeta i);
  spec ← CritConfigTemplateSpec_DeepCopyInto (t_Spec i);
  mret {| t_TypeMeta := t_TypeMeta i; t_ObjectMeta := objectMeta; t_Spec := spec |}.
Definition CritConfigTemplate_DeepCopy (p : option loc) : H (option loc) := deep_copy (TCritConfigTemplate v1alpha2) CritConfigTemplate_DeepCopyInto p.
Definition CritConfigTemplate_DeepCopyObject (p : option loc) : H (option object) :=
  deep_copy_object (TCritConfigTemplate v1alpha2) CritConfigTemplate_DeepCopy p.

Definition CritConfigTemplateList_DeepCopyInto (i : ListOf mem (CritConfigTemplate v1alpha2 mem)) : H (ListOf mem (CritConfigTemplate v1alpha2 mem)) :=
  listMeta ← ListMeta_DeepCopyInto (l_ListMeta i);
  items ← copy_slice (TCritConfigTemplate v1alpha2) CritConfigTemplate_DeepCopyInto (l_Items i);
  mret {| l_TypeMeta := l_TypeMeta i; l_ListMeta := listMeta; l_Items := items |}.
Definition CritConfigTemplateList_DeepCopy (p : option loc) : H (option loc) := deep_copy (TCritConfigTemplateList v1alpha2) CritConfigTemplateList_DeepCopyInto p.
Definition CritConfigTemplateList_DeepCopyObject (p : option loc) : H (option object) :=
  deep_copy_object (TCritConfigTemplateList v1alpha2) CritConfigTemplateList_DeepCopy p.
End copies.
End bootstrap2.

(** *** apis/controlplane/v1alpha2 *)

Module controlplane2.
Section copies.
Context {X : External} {E : ExternalCopies}.

Definition CritControlPlaneSpec_DeepCopyInto (i : CritControlPlaneSpec v1alpha2 mem) : H (CritControlPlaneSpec v1alpha2 mem) :=
  critConfigSpec ← bootstrap2.CritConfigSpec_DeepCopyInto (ps_CritConfigSpec i);
  mret {| ps_Replicas := ps_Replicas i; ps_Version := ps_Version i;
          ps_InfrastructureTemplate := ps_InfrastructureTemplate i; ps_CritConfigSpec := critConfigSpec |}.
Definition CritControlPlaneSpec_DeepCopy (p : option loc) : H (option loc) := deep_copy (TCritControlPlaneSpec v1alpha2) CritControlPlaneSpec_DeepCopyInto p.

Definition CritControlPlaneStatus_DeepCopyInto (i : CritControlPlaneStatus mem) : H (CritControlPlaneStatus mem) :=
  failureMessage ← copy_ptr TString plain (pst_FailureMessage i);
  mret {| pst_Selector := pst_Selector i; pst_Replicas := pst_Replicas i;
          pst_UpdatedReplicas := pst_UpdatedReplicas i; pst_ReadyReplicas := pst_ReadyReplicas i;
          pst_UnavailableReplicas := pst_UnavailableReplicas i; pst_Initialized := pst_Initialized i;
          pst_Ready := pst_Ready i; pst_FailureReason := pst_FailureReason i;
          pst_FailureMessage := failureMessage |}.
Definition CritControlPlaneStatus_DeepCopy (p : option loc) : H (option loc) := deep_copy (TCritControlPlaneStatus) CritControlPlaneStatus_DeepCopyInto p.

Definition CritControlPlane_DeepCopyInto (i : CritControlPlane v1alpha2 mem) : H (CritControlPlane v1alpha2 mem) :=
  objectMeta ← ObjectMeta_DeepCopyInto (p_ObjectMeta i);
  spec ← CritControlPlaneSpec_DeepCopyInto (p_Spec i);
  status ← CritControlPlaneStatus_DeepCopyInto (p_Status i);
  mret {| p_TypeMeta := p_TypeMeta i; p_ObjectMeta := objectMeta; p_Spec := spec; p_Status := status |}.
Definition CritControlPlane_DeepCopy (p : option loc) : H (option loc) := deep_copy (TCritControlPlane v1alpha2) CritControlPlane_DeepCopyInto p.
Definition CritControlPlane_DeepCopyObject (p : option loc) : H (option object) :=
  deep_copy_object (TCritControlPlane v1alpha2) CritControlPlane_DeepCopy p.

Definition CritControlPlaneList_DeepCopyInto (i : ListOf mem (CritControlPlane v1alpha2 mem)) : H (ListOf mem (CritControlPlane v1alpha2 mem)) :=
  listMeta ← ListMeta_DeepCopyInto (l_ListMeta i);
  items ← copy_slice (TCritControlPlane v1alpha2) CritControlPlane_DeepCopyInto (l_Items i);
  mret {| l_TypeMeta := l_TypeMeta i; l_ListMeta := listMeta; l_Items := items |}.
Definition CritControlPlaneList_DeepCopy (p : option loc) : H (option loc) := deep_copy (TCritControlPlaneList v1alpha2) CritControlPlaneList_DeepCopyInto p.
Definition CritControlPlaneList_DeepCopyObject (p : option loc) : H (option object) :=
  deep_copy_object (TCritControlPlaneList v1alpha2) CritControlPlaneList_DeepCopy p.
End copies.
End controlplane2.

(** ** What the objects own *)

Section owns.
Context {X : External} {E : ExternalCopies}.

Definition own_NTP (x : NTP mem) (v : NTP val) : assertion :=
  sep (own_slice TString own_plain (n_Servers x) (n_Servers v))
    (sep (own_ptr TBool own_plain (n_Enabled x) (n_Enabled v)) emp).

Definition own_User (x : User mem) (v : User val) : assertion :=
  sep (pure (u_Name x = u_Name v))
    (sep (own_ptr TString own_plain (u_Gecos x) (u_Gecos v))
    (sep (own_ptr TString own_plain (u_Groups x) (u_Groups v))
    (sep (own_ptr TString own_plain (u_HomeDir x) (u_HomeDir v))
    (sep (own_ptr TBool own_plain (u_Inactive x) (u_Inactive v))
    (sep (own_ptr TString own_plain (u_Shell x) (u_Shell v))
    (sep (own_ptr TString own_plain (u_Passwd x) (u_Passwd v))
    (sep (own_ptr TString own_plain (u_PrimaryGroup x) (u_PrimaryGroup v))
    (sep (own_ptr TBool own_plain (u_LockPassword x) (u_LockPassword v))
    (sep (own_ptr TString own_plain (u_Sudo x) (u_Sudo v))
    (sep (own_slice TString own_plain (u_SSHAuthorizedKeys x) (u_SSHAuthorizedKeys v)) emp)))))))))).

Definition own_Status (x : CritConfigStatus mem) (v : CritConfigStatus val) : assertion :=
  sep (pure (st_Ready x = st_Ready v ∧ st_FailureReason x = st_FailureReason v ∧
             st_FailureMessage x = st_FailureMessage v))
    (sep (own_ptr TString own_plain (st_DataSecretName x) (st_DataSecretName v)) emp).

Definition own_Spec1 (x : CritConfigSpec1 mem) (v : CritConfigSpec1 val) : assertion :=
  sep (pure (s1_Format x = s1_Format v ∧ s1_Verbosity x = s1_Verbosity v))
    (sep (own_ptr TControlPlaneConfiguration own_ControlPlaneConfiguration
            (s1_ControlPlaneConfiguration x) (s1_ControlPlaneConfiguration v))
    (sep (own_ptr TWorkerConfiguration own_WorkerConfiguration
            (s1_WorkerConfiguration x) (s1_WorkerConfiguration v))
    (sep (own_slice TFile own_plain (s1_Files x) (s1_Files v))
    (sep (own_slice TString own_plain (s1_PreCritCommands x) (s1_PreCritCommands v))
    (sep (own_slice TString own_plain (s1_PostCritCommands x) (s1_PostCritCommands v))
    (sep (own_slice TUser own_User (s1_Users x) (s1_Users v))
    (sep (own_ptr TNTP own_NTP (s1_NTP x) (s1_NTP v)) emp))))))).

Definition own_Spec2 (x : CritConfigSpec2 mem) (v : CritConfigSpec2 val) : assertion :=
  sep (pure (s2_Config x = s2_Config v ∧ s2_Format x = s2_Format v ∧ s2_Verbosity x = s2_Verbosity v))
    (sep (own_slice TFile own_plain (s2_Files x) (s2_Files v))
    (sep (own_slice TString own_plain (s2_PreCritCommands x) (s2_PreCritCommands v))
    (sep (own_slice TString own_plain (s2_PostCritCommands x) (s2_PostCritCommands v))
    (sep (own_slice TUser own_User (s2_Users x) (s2_Users v))
    (sep (own_ptr TNTP own_NTP (s2_NTP x) (s2_NTP v)) emp))))).

Definition own_Spec (ver : version) : CritConfigSpec ver mem → CritConfigSpec ver val → assertion :=
  match ver with v1alpha1 => own_Spec1 | v1alpha2 => own_Spec2 end.

Definition own_CritConfig (ver : version) (x : CritConfig ver mem) (v : CritConfig ver val) : assertion :=
  sep (pure (c_TypeMeta x = c_TypeMeta v))
    (sep (own_ObjectMeta (c_ObjectMeta x) (c_ObjectMeta v))
    (sep (own_Spec ver (c_Spec x) (c_Spec v))
    (sep (own_Status (c_Status x) (c_Status v)) emp))).

Definition own_Resource (ver : version) (x : CritConfigTemplateResource ver mem)
    (v : CritConfigTemplateResource ver val) : assertion :=
  sep (own_Spec ver (r_Spec x) (r_Spec v)) emp.

Definition own_TemplateSpec (ver : version) (x : CritConfigTemplateSpec ver mem)
    (v : CritConfigTemplateSpec ver val) : assertion :=
  sep (own_Resource (ts_Template x) (ts_Template v)) emp.

Definition own_CritConfigTemplate (ver : version) (x : CritConfigTemplate ver mem)
    (v : CritConfigTemplate ver val) : assertion :=
  sep (pure (t_TypeMeta x = t_TypeMeta v))
    (sep (own_ObjectMeta (t_ObjectMeta x) (t_ObjectMeta v))
    (sep (own_TemplateSpec (t_Spec x) (t_Spec v)) emp)).

Definition own_PlaneSpec (ver : version) (x : CritControlPlaneSpec ver mem)
    (v : CritControlPlaneSpec ver val) : assertion :=
  sep (pure (ps_Replicas x = ps_Replicas v ∧ ps_Version x = ps_Version v ∧
             ps_InfrastructureTemplate x = ps_InfrastructureTemplate v))
    (sep (own_Spec ver (ps_CritConfigSpec x) (ps_CritConfigSpec v)) emp).

Definition own_PlaneStatus (x : CritControlPlaneStatus mem) (v : CritControlPlaneStatus val) : assertion :=
  sep (pure (pst_Selector x = pst_Selector v ∧ pst_Replicas x = pst_Replicas v ∧
             pst_UpdatedReplicas x = pst_UpdatedReplicas v ∧ pst_ReadyReplicas x = pst_ReadyReplicas v ∧
             pst_UnavailableReplicas x = pst_UnavailableReplicas v ∧ pst_Initialized x = pst_Initialized v ∧
             pst_Ready x = pst_Ready v ∧ pst_FailureReason x = pst_FailureReason v))
    (sep (own_ptr TString own_plain (pst_FailureMessage x) (pst_FailureMessage v)) emp).

Definition own_CritControlPlane (ver : version) (x : CritControlPlane ver mem)
    (v : CritControlPlane ver val) : assertion :=
  sep (pure (p_TypeMeta x = p_TypeMeta v))
    (sep (own_ObjectMeta (p_ObjectMeta x) (p_ObjectMeta v))
    (sep (own_PlaneSpec (p_Spec x) (p_Spec v))
    (sep (own_PlaneStatus (p_Status x) (p_Status v)) emp))).

(** A list object whose items, of cells [t], own [own]. *)
Definition own_ListOf {V} (t : struct) (own : struct_type t → V → assertion)
    (x : ListOf mem (struct_type t)) (v : ListOf val V) : assertion :=
  sep (pure (l_TypeMeta x = l_TypeMeta v))
    (sep (own_ListMeta (l_ListMeta x) (l_ListMeta v))
    (sep (own_slice t own (l_Items x) (l_Items v)) emp)).
End owns.

(** ** Every function copies *)

Create HintDb copies.
#[export] Hint Resolve copies_ptr copies_slice copies_plain : copies.
#[export] Hint Resolve ObjectMeta_copies ListMeta_copies ControlPlaneConfiguration_copies
  WorkerConfiguration_copies : copies.

(** A struct: its plain fields, then the others one after the other. *)
Ltac copy_struct :=
  try (apply copies_pure; intros ?);
  eapply copies_post; cycle 1;
  [ repeat first
      [ apply copies_ret
      | eapply copies_bind; [solve [eauto with copies]|intros ?] ]
  | let z := fresh "z" in let h := fresh "h" in let Hz := fresh "Hz" in
    intros z h Hz;
    repeat (cbv beta in Hz;
      lazymatch type of Hz with
      | exists_ _ _ =>
          let y := fresh "y" in let h1 := fresh "h" in let h2 := fresh "h" in
          let Hd := fresh "Hd" in let HB := fresh "HB" in
          destruct Hz as (y&h1&h2&->&Hd&HB&Hz)
      end);
    destruct Hz as [-> ->];
    repeat first
      [ apply sep_pure_intro; [assumption|]
      | apply sep_intro; [assumption|assumption|] ];
    reflexivity ].

Section copying.
Context {X : External} {E : ExternalCopies} {EL : ExternalCopiesLaws E}.

Lemma NTP_copies1 (x : NTP mem) (v : NTP val) :
  copies (own_NTP x v) (bootstrap1.NTP_DeepCopyInto x) (λ y, own_NTP y v).
Proof. copy_struct. Qed.
#[local] Hint Resolve NTP_copies1 : copies.

Lemma User_copies1 (x : User mem) (v : User val) :
  copies (own_User x v) (bootstrap1.User_DeepCopyInto x) (λ y, own_User y v).
Proof. copy_struct. Qed.
#[local] Hint Resolve User_copies1 : copies.

Lemma CritConfigSpec_copies1 (x : CritConfigSpec1 mem) (v : CritConfigSpec1 val) :
  copies (own_Spec1 x v) (bootstrap1.CritConfigSpec_DeepCopyInto x) (λ y, own_Spec1 y v).
Proof. copy_struct. Qed.
#[local] Hint Resolve CritConfigSpec_copies1 : copies.

Lemma CritConfigStatus_copies1 (x : CritConfigStatus mem) (v : CritConfigStatus val) :
  copies (own_Status x v) (bootstrap1.CritConfigStatus_DeepCopyInto x) (λ y, own_Status y v).
Proof. copy_struct. Qed.
#[local] Hint Resolve CritConfigStatus_copies1 : copies.

Lemma CritConfig_copies1 (x : CritConfig v1alpha1 mem) (v : CritConfig v1alpha1 val) :
  copies (own_CritConfig x v) (bootstrap1.CritConfig_DeepCopyInto x) (λ y, own_CritConfig y v).
Proof. copy_struct. Qed.
#[local] Hint Resolve CritConfig_copies1 : copies.

Lemma CritConfigTemplateResource_copies1 (x : CritConfigTemplateResource v1alpha1 mem) (v : CritConfigTemplateResource v1alpha1 val) :
  copies (own_Resource x v) (bootstrap1.CritConfigTemplateResource_DeepCopyInto x) (λ y, own_Resource y v).
Proof. copy_struct. Qed.
#[local] Hint Resolve CritConfigTemplateResource_copies1 : copies.

Lemma CritConfigTemplateSpec_copies1 (x : CritConfigTemplateSpec v1alpha1 mem) (v : CritConfigTemplateSpec v1alpha1 val) :
  copies (own_TemplateSpec x v) (bootstrap1.CritConfigTemplateSpec_DeepCopyInto x) (λ y, own_TemplateSpec y v).
Proof. copy_struct. Qed.
#[local] Hint Resolve CritConfigTemplateSpec_copies1 : copies.

Lemma CritConfigTemplate_copies1 (x : CritConfigTemplate v1alpha1 mem) (v : CritConfigTemplate v1alpha1 val) :
  copies (own_CritConfigTemplate x v) (bootstrap1.CritConfigTemplate_DeepCopyInto x) (λ y, own_CritConfigTemplate y v).
Proof. copy_struct. Qed.
#[local] Hint Resolve CritConfigTemplate_copies1 : copies.

Lemma CritControlPlaneSpec_copies1 (x : CritControlPlaneSpec v1alpha1 mem) (v : CritControlPlaneSpec v1alpha1 val) :
  copies (own_PlaneSpec x v) (controlplane1.CritControlPlaneSpec_DeepCopyInto x) (λ y, own_PlaneSpec y v).
Proof. copy_struct. Qed.
#[local] Hint Resolve CritControlPlaneSpec_copies1 : copies.

Lemma CritControlPlaneStatus_copies1 (x : CritControlPlaneStatus mem) (v : CritControlPlaneStatus val) :
  copies (own_PlaneStatus x v) (controlplane1.CritControlPlaneStatus_DeepCopyInto x) (λ y, own_PlaneStatus y v).
Proof. copy_struct. Qed.
#[local] Hint Resolve CritControlPlaneStatus_copies1 : copies.

Lemma CritControlPlane_copies1 (x : CritControlPlane v1alpha1 mem) (v : CritControlPlane v1alpha1 val) :
  copies (own_CritControlPlane x v) (controlplane1.CritControlPlane_DeepCopyInto x) (λ y, own_CritControlPlane y v).
Proof. copy_struct. Qed.
#[local] Hint Resolve CritControlPlane_copies1 : copies.

Lemma CritConfigList_copies1 (x : ListOf mem (CritConfig v1alpha1 mem)) (v : ListOf val (CritConfig v1alpha1 val)) :
  copies (own_ListOf (TCritConfig v1alpha1) (@own_CritConfig _ _ v1alpha1) x v) (bootstrap1.CritConfigList_DeepCopyInto x) (λ y, own_ListOf (TCritConfig v1alpha1) (@own_CritConfig _ _ v1alpha1) y v).
Proof. copy_struct. Qed.
#[local] Hint Resolve CritConfigList_copies1 : copies.

Lemma CritConfigTemplateList_copies1 (x : ListOf mem (CritConfigTemplate v1alpha1 mem)) (v : ListOf val (CritConfigTemplate v1alpha1 val)) :
  copies (own_ListOf (TCritConfigTemplate v1alpha1) (@own_CritConfigTemplate _ _ v1alpha1) x v) (bootstrap1.CritConfigTemplateList_DeepCopyInto x) (λ y, own_ListOf (TCritConfigTemplate v1alpha1) (@own_CritConfigTemplate _ _ v1alpha1) y v).
Proof. copy_struct. Qed.
#[local] Hint Resolve CritConfigTemplateList_copies1 : copies.

Lemma CritControlPlaneList_copies1 (x : ListOf mem (CritControlPlane v1alpha1 mem)) (v : ListOf val (CritControlPlane v1alpha1 val)) :
  copies (own_ListOf (TCritControlPlane v1alpha1) (@own_CritControlPlane _ _ v1alpha1) x v) (controlplane1.CritControlPlaneList_DeepCopyInto x) (λ y, own_ListOf (TCritControlPlane v1alpha1) (@own_CritControlPlane _ _ v1alpha1) y v).
Proof. copy_struct. Qed.
#[local] Hint Resolve CritControlPlaneList_copies1 : copies.

Lemma NTP_copies2 (x : NTP mem) (v : NTP val) :
  copies (own_NTP x v) (bootstrap2.NTP_DeepCopyInto x) (λ y, own_NTP y v).
Proof. copy_struct. Qed.
#[local] Hint Resolve NTP_copies2 : copies.

Lemma User_copies2 (x : User mem) (v : User val) :
  copies (own_User x v) (bootstrap2.User_DeepCopyInto x) (λ y, own_User y v).
Proof. copy_struct. Qed.
#[local] Hint Resolve User_copies2 : copies.

Lemma CritConfigSpec_copies2 (x : CritConfigSpec2 mem) (v : CritConfigSpec2 val) :
  copies (own_Spec2 x v) (bootstrap2.CritConfigSpec_DeepCopyInto x) (λ y, own_Spec2 y v).
Proof. copy_struct. Qed.
#[local] Hint Resolve CritConfigSpec_copies2 : copies.

Lemma CritConfigStatus_copies2 (x : CritConfigStatus mem) (v : CritConfigStatus val) :
  copies (own_Status x v) (bootstrap2.CritConfigStatus_DeepCopyInto x) (λ y, own_Status y v).
Proof. copy_struct. Qed.
#[local] Hint Resolve CritConfigStatus_copies2 : copies.

Lemma CritConfig_copies2 (x : CritConfig v1alpha2 mem) (v : CritConfig v1alpha2 val) :
  copies (own_CritConfig x v) (bootstrap2.CritConfig_DeepCopyInto x) (λ y, own_CritConfig y v).
Proof. copy_struct. Qed.
#[local] Hint Resolve CritConfig_copies2 : copies.

Lemma CritConfigTemplateResource_copies2 (x : CritConfigTemplateResource v1alpha2 mem) (v : CritConfigTemplateResource v1alpha2 val) :
  copies (own_Resource x v) (bootstrap2.CritConfigTemplateResource_DeepCopyInto x) (λ y, own_Resource y v).
Proof. copy_struct. Qed.
#[local] Hint Resolve CritConfigTemplateResource_copies2 : copies.

Lemma CritConfigTemplateSpec_copies2 (x : CritConfigTemplateSpec v1alpha2 mem) (v : CritConfigTemplateSpec v1alpha2 val) :
  copies (own_TemplateSpec x v) (bootstrap2.CritConfigTemplateSpec_DeepCopyInto x) (λ y, own_TemplateSpec y v).
Proof. copy_struct. Qed.
#[local] Hint Resolve CritConfigTemplateSpec_copies2 : copies.

Lemma CritConfigTemplate_copies2 (x : CritConfigTemplate v1alpha2 mem) (v : CritConfigTemplate v1alpha2 val) :
  copies (own_CritConfigTemplate x v) (bootstrap2.CritConfigTemplate_DeepCopyInto x) (λ y, own_CritConfigTemplate y v).
Proof. copy_struct. Qed.
#[local] Hint Resolve CritConfigTemplate_copies2 : copies.

Lemma CritControlPlaneSpec_copies2 (x : CritControlPlaneSpec v1alpha2 mem) (v : CritControlPlaneSpec v1alpha2 val) :
  copies (own_PlaneSpec x v) (controlplane2.CritControlPlaneSpec_DeepCopyInto x) (λ y, own_PlaneSpec y v).
Proof. copy_struct. Qed.
#[local] Hint Resolve CritControlPlaneSpec_copies2 : copies.

Lemma CritControlPlaneStatus_copies2 (x : CritControlPlaneStatus mem) (v : CritControlPlaneStatus val) :
  copies (own_PlaneStatus x v) (controlplane2.CritControlPlaneStatus_DeepCopyInto x) (λ y, own_PlaneStatus y v).
Proof. copy_struct. Qed.
#[local] Hint Resolve CritControlPlaneStatus_copies2 : copies.

Lemma CritControlPlane_copies2 (x : CritControlPlane v1alpha2 mem) (v : CritControlPlane v1alpha2 val) :
  copies (own_CritControlPlane x v) (controlplane2.CritControlPlane_DeepCopyInto x) (λ y, own_CritControlPlane y v).
Proof. copy_struct. Qed.
#[local] Hint Resolve CritControlPlane_copies2 : copies.

Lemma CritConfigList_copies2 (x : ListOf mem (CritConfig v1alpha2 mem)) (v : ListOf val (CritConfig v1alpha2 val)) :
  copies (own_ListOf (TCritConfig v1alpha2) (@own_CritConfig _ _ v1alpha2) x v) (bootstrap2.CritConfigList_DeepCopyInto x) (λ y, own_ListOf (TCritConfig v1alpha2) (@own_CritConfig _ _ v1alpha2) y v).
Proof. copy_struct. Qed.
#[local] Hint Resolve CritConfigList_copies2 : copies.

Lemma CritConfigTemplateList_copies2 (x : ListOf mem (CritConfigTemplate v1alpha2 mem)) (v : ListOf val (CritConfigTemplate v1alpha2 val)) :
  copies (own_ListOf (TCritConfigTemplate v1alpha2) (@own_CritConfigTemplate _ _ v1alpha2) x v) (bootstrap2.CritConfigTemplateList_DeepCopyInto x) (λ y, own_ListOf (TCritConfigTemplate v1alpha2) (@own_CritConfigTemplate _ _ v1alpha2) y v).
Proof. copy_struct. Qed.
#[local] Hint Resolve CritConfigTemplateList_copies2 : copies.

Lemma CritControlPlaneList_copies2 (x : ListOf mem (CritControlPlane v1alpha2 mem)) (v : ListOf val (CritControlPlane v1alpha2 val)) :
  copies (own_ListOf (TCritControlPlane v1alpha2) (@own_CritControlPlane _ _ v1alpha2) x v) (controlplane2.CritControlPlaneList_DeepCopyInto x) (λ y, own_ListOf (TCritControlPlane v1alpha2) (@own_CritControlPlane _ _ v1alpha2) y v).
Proof. copy_struct. Qed.
#[local] Hint Resolve CritControlPlaneList_copies2 : copies.
End copying.

(** ** Copies are independent of their originals *)

(** The objects the API machinery handles, which [DeepCopyObject] copies. *)
Inductive kind :=
| KCritConfig | KCritConfigList | KCritConfigTemplate | KCritConfigTemplateList
| KCritControlPlane | KCritControlPlaneList.

Section objects.
Context {X : External} {E : ExternalCopies}.

(** The dynamic type of an object, its value and what it owns. *)
Definition kind_struct (ver : version) (k : kind) : struct :=
  match k with
  | KCritConfig => TCritConfig ver
  | KCritConfigList => TCritConfigList ver
  | KCritConfigTemplate => TCritConfigTemplate ver
  | KCritConfigTemplateList => TCritConfigTemplateList ver
  | KCritControlPlane => TCritControlPlane ver
  | KCritControlPlaneList => TCritControlPlaneList ver
  end.
Definition kind_value (ver : version) (k : kind) : Type :=
  match k with
  | KCritConfig => CritConfig ver val
  | KCritConfigList => ListOf val (CritConfig ver val)
  | KCritConfigTemplate => CritConfigTemplate ver val
  | KCritConfigTemplateList => ListOf val (CritConfigTemplate ver val)
  | KCritControlPlane => CritControlPlane ver val
  | KCritControlPlaneList => ListOf val (CritControlPlane ver val)
  end.
Definition own_kind (ver : version) (k : kind) :
    struct_type (kind_struct ver k) → kind_value ver k → assertion :=
  match k with
  | KCritConfig => @own_CritConfig _ _ ver
  | KCritConfigList => own_ListOf (TCritConfig ver) (@own_CritConfig _ _ ver)
  | KCritConfigTemplate => @own_CritConfigTemplate _ _ ver
  | KCritConfigTemplateList => own_ListOf (TCritConfigTemplate ver) (@own_CritConfigTemplate _ _ ver)
  | KCritControlPlane => @own_CritControlPlane _ _ ver
  | KCritControlPlaneList => own_ListOf (TCritControlPlane ver) (@own_CritControlPlane _ _ ver)
  end.

(** The method an object's dynamic type selects. *)
Definition DeepCopyObject (ver : version) (k : kind) : option loc → H (option object) :=
  match ver, k with
  | v1alpha1, KCritConfig => bootstrap1.CritConfig_DeepCopyObject
  | v1alpha1, KCritConfigList => bootstrap1.CritConfigList_DeepCopyObject
  | v1alpha1, KCritConfigTemplate => bootstrap1.CritConfigTemplate_DeepCopyObject
  | v1alpha1, KCritConfigTemplateList => bootstrap1.CritConfigTemplateList_DeepCopyObject
  | v1alpha1, KCritControlPlane => controlplane1.CritControlPlane_DeepCopyObject
  | v1alpha1, KCritControlPlaneList => controlplane1.CritControlPlaneList_DeepCopyObject
  | v1alpha2, KCritConfig => bootstrap2.CritConfig_DeepCopyObject
  | v1alpha2, KCritConfigList => bootstrap2.CritConfigList_DeepCopyObject
  | v1alpha2, KCritConfigTemplate => bootstrap2.CritConfigTemplate_DeepCopyObject
  | v1alpha2, KCritConfigTemplateList => bootstrap2.CritConfigTemplateList_DeepCopyObject
  | v1alpha2, KCritControlPlane => controlplane2.CritControlPlane_DeepCopyObject
  | v1alpha2, KCritControlPlaneList => controlplane2.CritControlPlaneList_DeepCopyObject
  end.

(** [h'] differs from [h] only where [d] has memory. *)
Definition changes_only (d h h' : gmap loc (cell (C := struct_cells))) : Prop :=
  ∀ l, d !! l = None → h' !! l = h !! l.

Lemma changes_elsewhere d k h h' : d ##ₘ k → k ⊆ h → changes_only d h h' → k ⊆ h'.
Proof.
  intros Hd Hk Hch. apply map_subseteq_spec. intros l c Hl.
  rewrite Hch by (eapply map_disjoint_Some_l; [symmetry; exact Hd|exact Hl]).
  by eapply map_subseteq_spec.
Qed.

Context {EL : ExternalCopiesLaws E}.

(** Each method allocates a variable that the copying of the struct fills. *)
Lemma kind_copies ver k : ∃ copy,
  (∀ p, DeepCopyObject ver k p = deep_copy_object (kind_struct ver k) copy p) ∧
  ∀ p v, copies (own_ptr (kind_struct ver k) (own_kind ver k) p v) (copy p)
           (λ q, own_ptr (kind_struct ver k) (own_kind ver k) q v).
Proof.
  destruct ver, k; (eexists; split; [reflexivity|]); intros p v; apply copies_ptr; intros x w;
    [ apply CritConfig_copies1 | apply CritConfigList_copies1 | apply CritConfigTemplate_copies1
    | apply CritConfigTemplateList_copies1 | apply CritControlPlane_copies1
    | apply CritControlPlaneList_copies1
    | apply CritConfig_copies2 | apply CritConfigList_copies2 | apply CritConfigTemplate_copies2
    | apply CritConfigTemplateList_copies2 | apply CritControlPlane_copies2
    | apply CritControlPlaneList_copies2 ].
Qed.

Lemma own_ptr_nil {V} t (own : struct_type t → V → assertion) q h :
  own_ptr t own q None h → q = None ∧ h = ∅.
Proof. destruct q; [by intros []|done]. Qed.
Lemma own_ptr_some {V} t (own : struct_type t → V → assertion) q v h :
  own_ptr t own q (Some v) h → ∃ l, q = Some l.
Proof. destruct q; [eauto|by intros []]. Qed.

(** C30: Copying an object of the API through its interface never panics.  A nil
    pointer gives a nil interface and changes nothing.  For an object whose value
    is [v], with the memory [hp] it owns anywhere in the heap [h], the result is an
    object of the same type and the same value [v], made of memory [hc] that was
    not in use, and all memory in use is as before.  Hence the original keeps its
    value whatever is written to the memory of the copy, and the copy keeps its
    value whatever is written to the memory of the original. *)
Theorem DeepCopyObject_independent ver k p v h hp :
  own_ptr (kind_struct ver k) (own_kind ver k) p v hp → hp ⊆ h →
  match v with
  | None => DeepCopyObject ver k p h = Some (h, None)
  | Some _ => ∃ hc c,
      DeepCopyObject ver k p h = Some (hc ∪ h, Some (kind_struct ver k, c)) ∧ hc ##ₘ h ∧
      own_ptr (kind_struct ver k) (own_kind ver k) (Some c) v hc ∧
      (∀ h', changes_only hc (hc ∪ h) h' → hp ⊆ h') ∧
      (∀ h', changes_only hp (hc ∪ h) h' → hc ⊆ h')
  end.
Proof.
  intros Hown Hsub. destruct (kind_copies ver k) as (copy&Heq&Hcopy).
  destruct (Hcopy p v h hp Hown Hsub) as (hc&q&Hrun&Hd&Hq). rewrite Heq.
  assert (Hobj : deep_copy_object (kind_struct ver k) copy p h =
    Some (hc ∪ h, match q with Some l => Some (kind_struct ver k, l) | None => None end)).
  { unfold deep_copy_object. by erewrite bind_eq by exact Hrun. }
  destruct v as [v|].
  - destruct (own_ptr_some _ _ _ _ _ Hq) as [c ->]. exists hc, c. split_and!; [done..| |].
    + intros h'. apply changes_elsewhere; [by eapply map_disjoint_weaken_r|].
      etrans; [exact Hsub|]. by apply map_union_subseteq_r.
    + intros h'. apply changes_elsewhere; [|apply map_union_subseteq_l].
      symmetry. by eapply map_disjoint_weaken_r.
  - apply own_ptr_nil in Hq as [-> ->]. by rewrite (left_id_L ∅ _) in Hobj.
Qed.
End objects.

(** ** A sample: metadata with a label, configurations that are lists of words *)

Module DeepCopyWitness.
Record SampleMeta (L : layout) := { m_Name : string; m_Label : Pt L string }.
Arguments Build_SampleMeta {L} & _ _.
#[local] Instance sample : External := {|
  ObjectMeta := SampleMeta;
  ListMeta := λ _, string;
  ControlPlaneConfiguration := λ L, Sl L string;
  WorkerConfiguration := λ L, Sl L string;
  ObjectReference := string;
  zero_ObjectMeta := ({| m_Name := ""; m_Label := None |} : SampleMeta mem);
  zero_ListMeta := "";
  zero_ControlPlaneConfiguration := None;
  zero_WorkerConfiguration := None;
  zero_ObjectReference := "";
  external_ty := unit;
  external_cell := λ _, unit;
  external_zero := λ _, ();
|}.
Definition SampleMeta_DeepCopyInto (i : SampleMeta mem) : H (C := struct_cells) (SampleMeta mem) :=
  label ← copy_ptr TString plain (m_Label i);
  mret {| m_Name := m_Name i; m_Label := label |}.
Definition own_SampleMeta (x : SampleMeta mem) (v : SampleMeta val) : assertion (C := struct_cells) :=
  sep (pure (m_Name x = m_Name v)) (sep (own_ptr TString own_plain (m_Label x) (m_Label v)) emp).
#[local] Instance sample_copies : ExternalCopies := {|
  ObjectMeta_DeepCopyInto := SampleMeta_DeepCopyInto;
  ListMeta_DeepCopyInto := plain;
  ControlPlaneConfiguration_DeepCopyInto := copy_slice TString plain;
  WorkerConfiguration_DeepCopyInto := copy_slice TString plain;
  own_ObjectMeta := own_SampleMeta;
  own_ListMeta := own_plain;
  own_ControlPlaneConfiguration := own_slice TString own_plain;
  own_WorkerConfiguration := own_slice TString own_plain;
|}.

Lemma SampleMeta_copies x v : copies (own_SampleMeta x v) (SampleMeta_DeepCopyInto x) (λ y, own_SampleMeta y v).
Proof. copy_struct. Qed.
Lemma words_copy x v : copies (own_slice TString own_plain x v) (copy_slice TString plain x)
  (λ y, own_slice TString own_plain y v).
Proof. apply copies_slice, copies_plain. Qed.
#[local] Instance sample_laws : ExternalCopiesLaws sample_copies.
Proof.
  split; [exact SampleMeta_copies|apply copies_plain|exact words_copy|exact words_copy].
Qed.

(** A CritConfig with a label, an NTP server and a user in a group. *)
Definition sample_ntp : NTP mem := {| n_Servers := Some 4%positive; n_Enabled := None |}.
Definition sample_user : User mem := {|
  u_Name := "ops"; u_Gecos := None; u_Groups := Some 6%positive; u_HomeDir := None;
  u_Inactive := None; u_Shell := None; u_Passwd := None; u_PrimaryGroup := None;
  u_LockPassword := None; u_Sudo := None; u_SSHAuthorizedKeys := None |}.
Definition sample_config : CritConfig v1alpha2 mem := {|
  c_TypeMeta := {| Kind := "CritConfig"; APIVersion := "v1alpha2" |};
  c_ObjectMeta := ({| m_Name := "worker"; m_Label := Some 2%positive |} : SampleMeta mem);
  c_Spec := ({| s2_Config := "kind: WorkerConfiguration"; s2_Files := None; s2_PreCritCommands := None;
    s2_PostCritCommands := None; s2_Users := Some 5%positive; s2_NTP := Some 3%positive;
    s2_Format := "cloud-config"; s2_Verbosity := true |} : CritConfigSpec2 mem);
  c_Status := zero_Status |}.
Definition sample_heap : gmap loc (cell (C := struct_cells)) := list_to_map [
  (1%positive, Var (TCritConfig v1alpha2 : ty) sample_config);
  (2%positive, Var (TString : ty) "blue");
  (5%positive, Array (TUser : ty) [sample_user]);
  (6%positive, Var (TString : ty) "wheel");
  (3%positive, Var (TNTP : ty) sample_ntp);
  (4%positive, Array (TString : ty) ["ntp.example"; "ntp2.example"])].
Definition ntp_value : NTP val := {| n_Servers := Some ["ntp.example"; "ntp2.example"]; n_Enabled := None |}.
Definition user_value : User val := {|
  u_Name := "ops"; u_Gecos := None; u_Groups := Some "wheel"; u_HomeDir := None;
  u_Inactive := None; u_Shell := None; u_Passwd := None; u_PrimaryGroup := None;
  u_LockPassword := None; u_Sudo := None; u_SSHAuthorizedKeys := None |}.
Definition sample_value : CritConfig v1alpha2 val := {|
  c_TypeMeta := {| Kind := "CritConfig"; APIVersion := "v1alpha2" |};
  c_ObjectMeta := ({| m_Name := "worker"; m_Label := Some "blue" |} : SampleMeta val);
  c_Spec := ({| s2_Config := "kind: WorkerConfiguration"; s2_Files := None; s2_PreCritCommands := None;
    s2_PostCritCommands := None;
    s2_Users := Some [user_value]; s2_NTP := Some ntp_value;
    s2_Format := "cloud-config"; s2_Verbosity := true |} : CritConfigSpec2 val);
  c_Status := {| st_Ready := false; st_DataSecretName := None; st_FailureReason := "";
    st_FailureMessage := "" |} |}.

#[local] Arguments own_ptr : simpl never.
#[local] Arguments own_slice : simpl never.
#[local] Arguments own_list : simpl never.
#[local] Arguments own_plain : simpl never.
#[local] Arguments sep : simpl never.
#[local] Arguments pure : simpl never.
#[local] Arguments delete : simpl never.
Ltac own_sample :=
  repeat (lazymatch goal with
  | |- emp ?h => reflexivity
  | |- sep (pure _) _ _ => apply sep_pure_intro; [by repeat split|]
  | |- sep (sep _ _) _ _ => apply sep_assoc_2
  | |- sep (own_ptr _ _ None None) _ _ => apply sep_emp_l
  | |- sep (own_slice _ _ None None) _ _ => apply sep_emp_l
  | |- sep (own_list _ [] []) _ _ => apply sep_emp_l
  | |- sep emp _ _ => apply sep_emp_l
  | |- sep (own_ptr _ _ _ _) _ _ => eapply sep_own_ptr; [reflexivity|]
  | |- sep (own_slice _ _ _ _) _ _ => eapply sep_own_slice; [reflexivity|]
  | |- sep (own_plain _ _) _ _ => apply sep_pure_intro; [reflexivity|]
  | |- sep (own_list _ (_ :: _) _) _ _ => apply sep_own_cons
  | |- sep _ _ _ => progress cbv beta iota delta
      [own_kind own_CritConfig own_Spec own_Spec2 own_Status own_User own_NTP own_ObjectMeta
       sample_copies own_SampleMeta]
  end; simpl).

Lemma sample_owned : own_ptr (kind_struct v1alpha2 KCritConfig) (own_kind v1alpha2 KCritConfig)
  (Some 1%positive) (Some sample_value) sample_heap.
Proof.
  apply sep_emp_r_1. own_sample.
Qed.

Lemma DeepCopyObject_independent_witness : ∃ hc c,
  DeepCopyObject v1alpha2 KCritConfig (Some 1%positive) sample_heap =
    Some (hc ∪ sample_heap, Some (TCritConfig v1alpha2, c)) ∧
  own_ptr (TCritConfig v1alpha2 : ty) (@own_CritConfig _ _ v1alpha2) (Some c) (Some sample_value) hc ∧
  ∀ h', changes_only sample_heap (hc ∪ sample_heap) h' → hc ⊆ h'.
Proof.
  destruct (@DeepCopyObject_independent _ _ _ v1alpha2 KCritConfig (Some 1%positive)
    (Some sample_value) sample_heap sample_heap sample_owned (reflexivity _)) as (hc&c&Hrun&_&Hown&_&Hkeep).
  exists hc, c. split; [exact Hrun|]. split; [exact Hown|exact Hkeep].
Defined.
End DeepCopyWitness.
