(* ===== verification/Scheme.v ===== *)
(** Which types the scheme knows and which conversions it is given: the [init]
    functions and [RegisterConversions] of apis/bootstrap/v1alpha1,
    apis/bootstrap/v1alpha2, apis/controlplane/v1alpha1 and
    apis/controlplane/v1alpha2.

    The scheme stores conversions as functions on [interface{}] arguments, which
    assert the types they were registered for: a wrong registration compiles and
    panics when the conversion is used. *)
From S2P Require Import Prelude GoRuntime ApiTypes Platform SamplePlatform Conversion.
Import v1alpha1.
Local Open Scope go_scope.

(** ** Types as values *)

(** The types conversions are registered for, by their name in either version. *)
Inductive type_name :=
| TCritConfig | TCritConfigList | TCritConfigSpec | TCritConfigStatus | TCritConfigTemplate
| TCritConfigTemplateList | TCritConfigTemplateResource | TCritConfigTemplateSpec | TFile | TNTP | TUser
| TCritControlPlane | TCritControlPlaneList | TCritControlPlaneSpec | TCritControlPlaneStatus.
Inductive go_type := V1 (n : type_name) | V2 (n : type_name).
#[export] Instance type_name_eq_dec : EqDecision type_name.
Proof. solve_decision. Defined.
#[export] Instance go_type_eq_dec : EqDecision go_type.
Proof. solve_decision. Defined.

(** The same type in the other version. *)
Definition partner (t : go_type) : go_type := match t with V1 n => V2 n | V2 n => V1 n end.

(** The packages that declare the types. *)
Definition is_control_plane (n : type_name) : bool :=
  match n with
  | TCritControlPlane | TCritControlPlaneList | TCritControlPlaneSpec | TCritControlPlaneStatus => true
  | _ => false
  end.
Definition name_of (t : go_type) : type_name := match t with V1 n => n | V2 n => n end.

Section scheme.
Context {P : Platform} {C : CritConversion}.

Definition go_value (t : go_type) : Type :=
  match t with
  | V1 TCritConfig => CritConfig
  | V1 TCritConfigList => List CritConfig
  | V1 TCritConfigSpec => CritConfigSpec
  | V1 TCritConfigStatus => CritConfigStatus
  | V1 TCritConfigTemplate => CritConfigTemplate
  | V1 TCritConfigTemplateList => List CritConfigTemplate
  | V1 TCritConfigTemplateResource => CritConfigTemplateResource
  | V1 TCritConfigTemplateSpec => CritConfigTemplateSpec
  | V1 TFile => File
  | V1 TNTP => NTP
  | V1 TUser => User
  | V1 TCritControlPlane => CritControlPlane
  | V1 TCritControlPlaneList => List CritControlPlane
  | V1 TCritControlPlaneSpec => CritControlPlaneSpec
  | V1 TCritControlPlaneStatus => CritControlPlaneStatus
  | V2 TCritConfig => ApiTypes.CritConfig
  | V2 TCritConfigList => List ApiTypes.CritConfig
  | V2 TCritConfigSpec => ApiTypes.CritConfigSpec
  | V2 TCritConfigStatus => ApiTypes.CritConfigStatus
  | V2 TCritConfigTemplate => CritConfigTemplate2
  | V2 TCritConfigTemplateList => List CritConfigTemplate2
  | V2 TCritConfigTemplateResource => CritConfigTemplateResource2
  | V2 TCritConfigTemplateSpec => CritConfigTemplateSpec2
  | V2 TFile => ApiTypes.File
  | V2 TNTP => ApiTypes.NTP
  | V2 TUser => ApiTypes.User
  | V2 TCritControlPlane => ApiTypes.CritControlPlane
  | V2 TCritControlPlaneList => List ApiTypes.CritControlPlane
  | V2 TCritControlPlaneSpec => ApiTypes.CritControlPlaneSpec
  | V2 TCritControlPlaneStatus => ApiTypes.CritControlPlaneStatus
  end.

(** An [interface{}] that holds a pointer to a value, and the assertion
    [a.( *T )], which panics for another dynamic type. *)
Inductive any := Any (t : go_type) (x : go_value t).
Definition type_of (a : any) : go_type := match a with Any t _ => t end.
Definition assert_type (t : go_type) (a : any) : outcome (go_value t) :=
  match a with
  | Any t' x =>
      match decide (t' = t) with left e => Val (eq_rect t' go_value x t e) | right _ => Panic end
  end.

(** A conversion as the scheme calls it: from [a] into [b]; it gives [b] as it is
    afterwards. *)
Definition ConversionFunc : Type := any → any → option (Scope (P := P) (C := C)) → conv error any.

(** The closure passed to [AddConversionFunc]. *)
Definition closure (t u : go_type) (f : go_value t → go_value u → option Scope → conv error (go_value u)) :
    ConversionFunc := λ a b s,
  match assert_type t a, assert_type u b with
  | Val x, Val y => y ← f x y s; mret (Any u y)
  | _, _ => Panic
  end.

(** Registering with [runtime.Scheme], which may refuse. *)
Inductive scheme_action :=
| AddGeneratedConversionFunc (a b : go_type) (f : ConversionFunc)
| AddConversionFunc (a b : go_type) (f : ConversionFunc).
#[local] Instance scheme_effects : Effects := {|
  action := scheme_action; answer := λ _, option error |}.

(** Zero values of the items of lists. *)
Definition zero_Meta : ObjectMeta := {|
  om_Name := ""; om_Namespace := ""; om_UID := ""; om_Labels := ∅; om_Annotations := None;
  om_OwnerReferences := []; om_CreationTimestamp := 0; om_DeletionTimestamp := None; om_Finalizers := [] |}.
Definition zero_Reference : ObjectReference := {|
  ref_APIVersion := ""; ref_Kind := ""; ref_Namespace := ""; ref_Name := ""; ref_UID := "" |}.
Definition zero_Spec1 : CritConfigSpec := {|
  s_ControlPlaneConfiguration := None; s_WorkerConfiguration := None; s_Files := [];
  s_PreCritCommands := []; s_PostCritCommands := []; s_Users := []; s_NTP := None;
  s_Format := ""; s_Verbosity := false |}.
Definition zero_Spec2 : ApiTypes.CritConfigSpec := {|
  ccs_Config := ""; ccs_Files := []; ccs_PreCritCommands := []; ccs_PostCritCommands := [];
  ccs_Users := []; ccs_NTP := None; ccs_Format := ""; ccs_Verbosity := false |}.
Definition zero_CritConfig1 : CritConfig := {|
  c_Meta := zero_Meta; c_Spec := zero_Spec1;
  c_Status := {| st_Ready := false; st_DataSecretName := None; st_FailureReason := "";
                 st_FailureMessage := "" |} |}.
Definition zero_CritConfig2 : ApiTypes.CritConfig := {|
  cc_Meta := zero_Meta; cc_Spec := zero_Spec2;
  cc_Status := {| ccst_Ready := false; ccst_DataSecretName := None; ccst_FailureReason := "";
                  ccst_FailureMessage := "" |} |}.
Definition zero_CritConfigTemplate1 : CritConfigTemplate := {|
  t_Meta := zero_Meta; t_Spec := {| ts_Template := {| r_Spec := zero_Spec1 |} |} |}.
Definition zero_CritConfigTemplate2 : CritConfigTemplate2 := {|
  t2_Meta := zero_Meta; t2_Spec := {| ts2_Template := {| r2_Spec := zero_Spec2 |} |} |}.
Definition zero_CritControlPlane1 : CritControlPlane := {|
  cp_Meta := zero_Meta;
  cp_Spec := {| cps_Replicas := 0; cps_Version := ""; cps_InfrastructureTemplate := zero_Reference;
                cps_CritConfigSpec := zero_Spec1 |};
  cp_Status := {| cpst_Selector := ""; cpst_Replicas := 0; cpst_UpdatedReplicas := 0;
    cpst_ReadyReplicas := 0; cpst_UnavailableReplicas := 0; cpst_Initialized := false;
    cpst_Ready := false; cpst_FailureReason := ""; cpst_FailureMessage := None |} |}.
Definition zero_CritControlPlane2 : ApiTypes.CritControlPlane := {|
  ccp_Meta := zero_Meta;
  ccp_Spec := {| ccps_Replicas := 0; ccps_Version := ""; ccps_InfrastructureTemplate := zero_Reference;
                 ccps_CritConfigSpec := zero_Spec2 |};
  ccp_Status := {| ccpst_Selector := ""; ccpst_Replicas := 0; ccpst_UpdatedReplicas := 0;
    ccpst_ReadyReplicas := 0; ccpst_UnavailableReplicas := 0; ccpst_Initialized := false;
    ccpst_Ready := false; ccpst_FailureReason := ""; ccpst_FailureMessage := None |} |}.

(** ** [RegisterConversions] *)

(** *** apis/bootstrap/v1alpha1/zz_generated.conversion.go *)

Definition bootstrap_RegisterConversions : M (option error) :=
  check call (AddGeneratedConversionFunc (V1 TCritConfig) (V2 TCritConfig)
    (closure (V1 TCritConfig) (V2 TCritConfig) (λ x y _, Convert_v1alpha1_CritConfig_To_v1alpha2_CritConfig x y)))
    catch e => mret (Some e);;
  check call (AddGeneratedConversionFunc (V2 TCritConfig) (V1 TCritConfig)
    (closure (V2 TCritConfig) (V1 TCritConfig) (λ x y _, Convert_v1alpha2_CritConfig_To_v1alpha1_CritConfig x y)))
    catch e => mret (Some e);;
  check call (AddGeneratedConversionFunc (V1 TCritConfigList) (V2 TCritConfigList)
    (closure (V1 TCritConfigList) (V2 TCritConfigList) (λ x _ _, Convert_v1alpha1_CritConfigList_To_v1alpha2_CritConfigList zero_CritConfig2 x)))
    catch e => mret (Some e);;
  check call (AddGeneratedConversionFunc (V2 TCritConfigList) (V1 TCritConfigList)
    (closure (V2 TCritConfigList) (V1 TCritConfigList) (λ x _ _, Convert_v1alpha2_CritConfigList_To_v1alpha1_CritConfigList zero_CritConfig1 x)))
    catch e => mret (Some e);;
  check call (AddGeneratedConversionFunc (V1 TCritConfigStatus) (V2 TCritConfigStatus)
    (closure (V1 TCritConfigStatus) (V2 TCritConfigStatus) (λ x _ _, mret (Convert_v1alpha1_CritConfigStatus_To_v1alpha2_CritConfigStatus x))))
    catch e => mret (Some e);;
  check call (AddGeneratedConversionFunc (V2 TCritConfigStatus) (V1 TCritConfigStatus)
    (closure (V2 TCritConfigStatus) (V1 TCritConfigStatus) (λ x _ _, mret (Convert_v1alpha2_CritConfigStatus_To_v1alpha1_CritConfigStatus x))))
    catch e => mret (Some e);;
  check call (AddGeneratedConversionFunc (V1 TCritConfigTemplate) (V2 TCritConfigTemplate)
    (closure (V1 TCritConfigTemplate) (V2 TCritConfigTemplate) (λ x y _, Convert_v1alpha1_CritConfigTemplate_To_v1alpha2_CritConfigTemplate x y)))
    catch e => mret (Some e);;
  check call (AddGeneratedConversionFunc (V2 TCritConfigTemplate) (V1 TCritConfigTemplate)
    (closure (V2 TCritConfigTemplate) (V1 TCritConfigTemplate) (λ x y _, Convert_v1alpha2_CritConfigTemplate_To_v1alpha1_CritConfigTemplate x y)))
    catch e => mret (Some e);;
  check call (AddGeneratedConversionFunc (V1 TCritConfigTemplateList) (V2 TCritConfigTemplateList)
    (closure (V1 TCritConfigTemplateList) (V2 TCritConfigTemplateList) (λ x _ _, Convert_v1alpha1_CritConfigTemplateList_To_v1alpha2_CritConfigTemplateList zero_CritConfigTemplate2 x)))
    catch e => mret (Some e);;
  check call (AddGeneratedConversionFunc (V2 TCritConfigTemplateList) (V1 TCritConfigTemplateList)
    (closure (V2 TCritConfigTemplateList) (V1 TCritConfigTemplateList) (λ x _ _, Convert_v1alpha2_CritConfigTemplateList_To_v1alpha1_CritConfigTemplateList zero_CritConfigTemplate1 x)))
    catch e => mret (Some e);;
  check call (AddGeneratedConversionFunc (V1 TCritConfigTemplateResource) (V2 TCritConfigTemplateResource)
    (closure (V1 TCritConfigTemplateResource) (V2 TCritConfigTemplateResource) (λ x y _, Convert_v1alpha1_CritConfigTemplateResource_To_v1alpha2_CritConfigTemplateResource x y)))
    catch e => mret (Some e);;
  check call (AddGeneratedConversionFunc (V2 TCritConfigTemplateResource) (V1 TCritConfigTemplateResource)
    (closure (V2 TCritConfigTemplateResource) (V1 TCritConfigTemplateResource) (λ x y _, Convert_v1alpha2_CritConfigTemplateResource_To_v1alpha1_CritConfigTemplateResource x y)))
    catch e => mret (Some e);;
  check call (AddGeneratedConversionFunc (V1 TCritConfigTemplateSpec) (V2 TCritConfigTemplateSpec)
    (closure (V1 TCritConfigTemplateSpec) (V2 TCritConfigTemplateSpec) (λ x y _, Convert_v1alpha1_CritConfigTemplateSpec_To_v1alpha2_CritConfigTemplateSpec x y)))
    catch e => mret (Some e);;
  check call (AddGeneratedConversionFunc (V2 TCritConfigTemplateSpec) (V1 TCritConfigTemplateSpec)
    (closure (V2 TCritConfigTemplateSpec) (V1 TCritConfigTemplateSpec) (λ x y _, Convert_v1alpha2_CritConfigTemplateSpec_To_v1alpha1_CritConfigTemplateSpec x y)))
    catch e => mret (Some e);;
  check call (AddGeneratedConversionFunc (V1 TFile) (V2 TFile)
    (closure (V1 TFile) (V2 TFile) (λ x _ _, mret (Convert_v1alpha1_File_To_v1alpha2_File x))))
    catch e => mret (Some e);;
  check call (AddGeneratedConversionFunc (V2 TFile) (V1 TFile)
    (closure (V2 TFile) (V1 TFile) (λ x _ _, mret (Convert_v1alpha2_File_To_v1alpha1_File x))))
    catch e => mret (Some e);;
  check call (AddGeneratedConversionFunc (V1 TNTP) (V2 TNTP)
    (closure (V1 TNTP) (V2 TNTP) (λ x _ _, mret (Convert_v1alpha1_NTP_To_v1alpha2_NTP x))))
    catch e => mret (Some e);;
  check call (AddGeneratedConversionFunc (V2 TNTP) (V1 TNTP)
    (closure (V2 TNTP) (V1 TNTP) (λ x _ _, mret (Convert_v1alpha2_NTP_To_v1alpha1_NTP x))))
    catch e => mret (Some e);;
  check call (AddGeneratedConversionFunc (V1 TUser) (V2 TUser)
    (closure (V1 TUser) (V2 TUser) (λ x _ _, mret (Convert_v1alpha1_User_To_v1alpha2_User x))))
    catch e => mret (Some e);;
  check call (AddGeneratedConversionFunc (V2 TUser) (V1 TUser)
    (closure (V2 TUser) (V1 TUser) (λ x _ _, mret (Convert_v1alpha2_User_To_v1alpha1_User x))))
    catch e => mret (Some e);;
  check call (AddConversionFunc (V1 TCritConfigSpec) (V2 TCritConfigSpec)
    (closure (V1 TCritConfigSpec) (V2 TCritConfigSpec) (λ x y _, Convert_v1alpha1_CritConfigSpec_To_v1alpha2_CritConfigSpec x y)))
    catch e => mret (Some e);;
  check call (AddConversionFunc (V2 TCritConfigSpec) (V1 TCritConfigSpec)
    (closure (V2 TCritConfigSpec) (V1 TCritConfigSpec) (λ x y _, Convert_v1alpha2_CritConfigSpec_To_v1alpha1_CritConfigSpec x y)))
    catch e => mret (Some e);;
  mret None.

(** *** apis/controlplane/v1alpha1/zz_generated.conversion.go *)

Definition controlplane_RegisterConversions : M (option error) :=
  check call (AddGeneratedConversionFunc (V1 TCritControlPlane) (V2 TCritControlPlane)
    (closure (V1 TCritControlPlane) (V2 TCritControlPlane) Convert_v1alpha1_CritControlPlane_To_v1alpha2_CritControlPlane))
    catch e => mret (Some e);;
  check call (AddGeneratedConversionFunc (V2 TCritControlPlane) (V1 TCritControlPlane)
    (closure (V2 TCritControlPlane) (V1 TCritControlPlane) Convert_v1alpha2_CritControlPlane_To_v1alpha1_CritControlPlane))
    catch e => mret (Some e);;
  check call (AddGeneratedConversionFunc (V1 TCritControlPlaneList) (V2 TCritControlPlaneList)
    (closure (V1 TCritControlPlaneList) (V2 TCritControlPlaneList) (λ x _ s, Convert_v1alpha1_CritControlPlaneList_To_v1alpha2_CritControlPlaneList zero_CritControlPlane2 x s)))
    catch e => mret (Some e);;
  check call (AddGeneratedConversionFunc (V2 TCritControlPlaneList) (V1 TCritControlPlaneList)
    (closure (V2 TCritControlPlaneList) (V1 TCritControlPlaneList) (λ x _ s, Convert_v1alpha2_CritControlPlaneList_To_v1alpha1_CritControlPlaneList zero_CritControlPlane1 x s)))
    catch e => mret (Some e);;
  check call (AddGeneratedConversionFunc (V1 TCritControlPlaneStatus) (V2 TCritControlPlaneStatus)
    (closure (V1 TCritControlPlaneStatus) (V2 TCritControlPlaneStatus) (λ x _ _, mret (Convert_v1alpha1_CritControlPlaneStatus_To_v1alpha2_CritControlPlaneStatus x))))
    catch e => mret (Some e);;
  check call (AddGeneratedConversionFunc (V2 TCritControlPlaneStatus) (V1 TCritControlPlaneStatus)
    (closure (V2 TCritControlPlaneStatus) (V1 TCritControlPlaneStatus) (λ x _ _, mret (Convert_v1alpha2_CritControlPlaneStatus_To_v1alpha1_CritControlPlaneStatus x))))
    catch e => mret (Some e);;
  check call (AddConversionFunc (V1 TCritControlPlaneSpec) (V2 TCritControlPlaneSpec)
    (closure (V1 TCritControlPlaneSpec) (V2 TCritControlPlaneSpec) Convert_v1alpha1_CritControlPlaneSpec_To_v1alpha2_CritControlPlaneSpec))
    catch e => mret (Some e);;
  check call (AddConversionFunc (V2 TCritControlPlaneSpec) (V1 TCritControlPlaneSpec)
    (closure (V2 TCritControlPlaneSpec) (V1 TCritControlPlaneSpec) Convert_v1alpha2_CritControlPlaneSpec_To_v1alpha1_CritControlPlaneSpec))
    catch e => mret (Some e);;
  mret None.

(** ** What a registration amounts to *)

(** A conversion registered for [t] and [u] takes pointers to values of exactly
    these types, without a panic, and leaves [b] a [u]. *)
Definition well_typed (t u : go_type) (f : ConversionFunc) : Prop :=
  (∀ x y s, ∃ r, f (Any t x) (Any u y) s = Val r ∧ ∀ b, r = Ok b → type_of b = u) ∧
  ∀ a b s, type_of a ≠ t ∨ type_of b ≠ u → f a b s = Panic.

Definition source (a : scheme_action) : go_type :=
  match a with AddGeneratedConversionFunc t _ _ | AddConversionFunc t _ _ => t end.
Definition target (a : scheme_action) : go_type :=
  match a with AddGeneratedConversionFunc _ u _ | AddConversionFunc _ u _ => u end.
Definition function (a : scheme_action) : ConversionFunc :=
  match a with AddGeneratedConversionFunc _ _ f | AddConversionFunc _ _ f => f end.
Definition good (a : scheme_action) : Prop :=
  target a = partner (source a) ∧ well_typed (source a) (target a) (function a).

(** Registering a list of conversions, up to the first refusal. *)
Fixpoint register_all (l : list scheme_action) : M (option error) :=
  match l with
  | [] => mret None
  | a :: l => check call a catch e => mret (Some e);; register_all l
  end.

Lemma register_all_runs l tr o : runs (register_all l) tr o →
  (o = Val None ∧ tr = (λ a, Ev a None) <$> l) ∨
  ∃ l1 a l2 e, l = l1 ++ a :: l2 ∧ o = Val (Some e) ∧ tr = ((λ a, Ev a None) <$> l1) ++ [Ev a (Some e)].
Proof.
  revert tr. induction l as [|a l IH]; intros tr.
  { intros [-> ->]. by left. }
  cbn [register_all]. intros (r&tr'&->&Hr)%runs_call. destruct r as [e|].
  - destruct Hr as [-> ->]. right. by exists [], a, l, e.
  - apply IH in Hr as [[-> ->]|(l1&b&l2&e&->&->&->)]; [by left|].
    right. by exists (a :: l1), b, l2, e.
Qed.

(** The generated code is such a list. *)
Lemma register_nil : (mret None : M (option error)) = register_all [].
Proof. done. Qed.
Lemma register_cons a l k : k = register_all l →
  (check call a catch e => mret (Some e);; k) = register_all (a :: l).
Proof. by intros ->. Qed.

Lemma assert_type_id t (x : go_value t) : assert_type t (Any t x) = Val x.
Proof. simpl. by rewrite (decide_True_pi eq_refl). Qed.
Lemma assert_type_ne t a : type_of a ≠ t → assert_type t a = Panic.
Proof. destruct a as [t' x]. simpl. intros. by destruct (decide (t' = t)). Qed.

Lemma closure_well_typed t u f : (∀ x y s, f x y s ≠ Panic) → well_typed t u (closure t u f).
Proof.
  intros Hf. split.
  - intros x y s. unfold closure. rewrite !assert_type_id. specialize (Hf x y s).
    destruct (f x y s) as [[z|e]|]; [eexists (Ok _)|exists (Err e)|done]; (split; [done|]); [|done].
    by intros b [= <-].
  - intros a b s Hne. unfold closure. destruct Hne as [Hne|Hne].
    + by rewrite assert_type_ne.
    + rewrite (assert_type_ne u) by done. by destruct (assert_type t a).
Qed.

(** *** No conversion panics *)

Lemma convert_items_no_panic {A B} (f : A → B → conv error B) zero items :
  (∀ x y, f x y ≠ Panic) → convert_items f zero items ≠ Panic.
Proof.
  intros Hf. induction items as [|i items IH]; simpl; [done|].
  apply conv_bind_no_panic; [done|]. intros o. by apply conv_bind_no_panic.
Qed.
Lemma convert_list_no_panic {A B} (f : A → B → conv error B) zero i :
  (∀ x y, f x y ≠ Panic) → convert_list f zero i ≠ Panic.
Proof.
  intros Hf. unfold convert_list. destruct (l_Items i); [|done].
  apply conv_bind_no_panic; [by apply convert_items_no_panic|done].
Qed.
Lemma spec_to_no_panic x y : Convert_v1alpha1_CritConfigSpec_To_v1alpha2_CritConfigSpec x y ≠ Panic.
Proof.
  unfold Convert_v1alpha1_CritConfigSpec_To_v1alpha2_CritConfigSpec. by destruct (marshalled_config _ _).
Qed.
Lemma spec_from_no_panic x y : Convert_v1alpha2_CritConfigSpec_To_v1alpha1_CritConfigSpec x y ≠ Panic.
Proof.
  unfold Convert_v1alpha2_CritConfigSpec_To_v1alpha1_CritConfigSpec. by destruct (unmarshalled_config _ _).
Qed.
Ltac no_panic :=
  intros; repeat first
    [ done | apply spec_to_no_panic | apply spec_from_no_panic
    | apply plane_spec_to_no_panic | apply plane_spec_from_no_panic
    | apply convert_list_no_panic; intros | apply conv_bind_no_panic; [|intros] ].
Ltac solve_good := split; [reflexivity|]; apply closure_well_typed; no_panic.

Lemma bootstrap_table : ∃ l, bootstrap_RegisterConversions = register_all l ∧
  Forall good l ∧ source <$> l =
    [V1 TCritConfig; V2 TCritConfig; V1 TCritConfigList; V2 TCritConfigList;
     V1 TCritConfigStatus; V2 TCritConfigStatus; V1 TCritConfigTemplate;
     V2 TCritConfigTemplate; V1 TCritConfigTemplateList; V2 TCritConfigTemplateList;
     V1 TCritConfigTemplateResource; V2 TCritConfigTemplateResource;
     V1 TCritConfigTemplateSpec; V2 TCritConfigTemplateSpec; V1 TFile; V2 TFile; V1 TNTP;
     V2 TNTP; V1 TUser; V2 TUser; V1 TCritConfigSpec; V2 TCritConfigSpec].
Proof.
  eexists. split; [repeat (eapply register_cons); apply register_nil|].
  split; [repeat (constructor; [solve_good|]); constructor|reflexivity].
Qed.

Lemma controlplane_table : ∃ l, controlplane_RegisterConversions = register_all l ∧
  Forall good l ∧ source <$> l =
    [V1 TCritControlPlane; V2 TCritControlPlane; V1 TCritControlPlaneList;
     V2 TCritControlPlaneList; V1 TCritControlPlaneStatus; V2 TCritControlPlaneStatus;
     V1 TCritControlPlaneSpec; V2 TCritControlPlaneSpec].
Proof.
  eexists. split; [repeat (eapply register_cons); apply register_nil|].
  split; [repeat (constructor; [solve_good|]); constructor|reflexivity].
Qed.

(** ** The property *)

Inductive package := bootstrap | controlplane.
Definition RegisterConversions (p : package) : M (option error) :=
  match p with
  | bootstrap => bootstrap_RegisterConversions
  | controlplane => controlplane_RegisterConversions
  end.
Definition declares (p : package) (t : go_type) : Prop :=
  is_control_plane (name_of t) = match p with bootstrap => false | controlplane => true end.

Lemma table p : ∃ l, RegisterConversions p = register_all l ∧ Forall good l ∧
  NoDup (source <$> l) ∧ ∀ t, declares p t ↔ t ∈ source <$> l.
Proof.
  destruct p; [destruct bootstrap_table as (l&?&?&Hl)|destruct controlplane_table as (l&?&?&Hl)];
    exists l; rewrite Hl; (split_and!; [done|done|by apply (bool_decide_unpack (NoDup _))|]); intros t;
    (split; [|intros Ht; revert t Ht; apply Forall_forall; repeat (constructor; [done|]); constructor]);
    unfold declares; destruct t as [n|n]; destruct n; try discriminate; intros _;
    (by apply (bool_decide_unpack (_ ∈ _))).
Qed.

(** The conversions performed in [tr], and their answers. *)
Lemma answered_None a r (l : list scheme_action) :
  @Ev scheme_effects a r ∈ ((λ a, @Ev scheme_effects a None) <$> l) → a ∈ l ∧ r = None.
Proof.
  intros (b&Heq&Hb)%list_elem_of_fmap.
  apply (f_equal (λ e : event (E := scheme_effects), (projT1 e, projT2 e : option error))) in Heq.
  simpl in Heq. by injection Heq as -> ->.
Qed.
Lemma sources_of (l : list scheme_action) :
  (source ∘ @projT1 _ _) <$> ((λ a, @Ev scheme_effects a None) <$> l) = source <$> l.
Proof. by rewrite <-list_fmap_compose. Qed.

(** C39: whatever the scheme answers, registering the conversions of a package
    never panics.  Every conversion it registers goes between the two versions of
    one type, takes objects of exactly the types it is registered for without a
    panic, and gives an object of the type asked for; no type is registered twice.
    Without an error every type of the package was accepted in both directions; an
    error is the scheme's answer to the last registration, after which nothing is
    registered. *)
Theorem RegisterConversions_well_typed p tr o :
  runs (RegisterConversions p) tr o →
  (∀ a r, Ev a r ∈ tr → target a = partner (source a) ∧ well_typed (source a) (target a) (function a)) ∧
  NoDup ((source ∘ @projT1 _ _) <$> tr) ∧
  match o with
  | Val None => ∀ t, declares p t ↔ ∃ a, source a = t ∧ Ev a None ∈ tr
  | Val (Some e) => ∃ tr' a, tr = tr' ++ [Ev a (Some e)] ∧ ∀ b r, Ev b r ∈ tr' → r = None
  | Panic => False
  end.
Proof.
  destruct (table p) as (l&->&Hgood&Hdup&Hall). rewrite Forall_forall in Hgood.
  intros [[-> ->]|(l1&a&l2&e&->&->&->)]%register_all_runs.
  - rewrite sources_of. split_and!; [by intros a r [? _]%answered_None; apply Hgood|done|].
    intros t. rewrite Hall, list_elem_of_fmap. split.
    + intros (a&->&Ha). exists a. split; [done|]. by apply (list_elem_of_fmap_2 (λ a, @Ev scheme_effects a None)).
    + intros (a&<-&[? _]%answered_None). by exists a.
  - split_and!.
    + intros b r [[? _]%answered_None|Hb%list_elem_of_singleton]%elem_of_app.
      * apply Hgood, elem_of_app. by left.
      * apply (f_equal (@projT1 _ _)) in Hb. simpl in Hb. rewrite Hb. apply Hgood, elem_of_app. right. left.
    + rewrite fmap_app, sources_of. simpl. rewrite fmap_app, fmap_cons in Hdup.
      apply NoDup_app in Hdup as (?&Hn&Hc). apply NoDup_cons in Hc as [? _].
      apply NoDup_app. split_and!; [done| |apply NoDup_singleton].
      intros t Ht ->%list_elem_of_singleton. apply (Hn _ Ht). left.
    + eexists _, a. split; [reflexivity|]. by intros b r [_ ?]%answered_None.
Qed.
End scheme.

(** ** A scheme that accepts everything, and one that refuses users *)

Module SchemeWitness.
Import Sample ConversionWitness.
#[local] Existing Instance scheme_effects.
Definition accepting (h : list (@event scheme_effects)) (a : @action scheme_effects) :
    @answer scheme_effects a := None.

Lemma RegisterConversions_well_typed_witness : ∃ tr a,
  runs (RegisterConversions bootstrap) tr (Val None) ∧
  source a = V2 TUser ∧ target a = V1 TUser ∧ @Ev scheme_effects a None ∈ tr.
Proof.
  destruct (drive_result (E := scheme_effects) accepting [] (RegisterConversions bootstrap) (Val None) eq_refl)
    as [tr Hr].
  destruct (RegisterConversions_well_typed bootstrap tr (Val None) Hr) as (Hgood&_&Hall).
  destruct (proj1 (Hall (V2 TUser)) eq_refl) as (a&Ha&Hin).
  exists tr, a. split_and!; [exact Hr|exact Ha| |exact Hin].
  destruct (Hgood a None Hin) as [-> _]. by rewrite Ha.
Defined.
End SchemeWitness.
