(* ===== verification/Startup.v ===== *)
(** main.go and what it calls to set the process up: the scheme, the flags, the
    manager, and either the webhooks or the two controllers ([SetupWithManager],
    [SetupWebhookWithManager]). *)
From S2P Require Import Prelude GoRuntime ApiTypes Platform SamplePlatform ManagementCluster Conversion Scheme.
Local Open Scope Z_scope.
Local Open Scope go_scope.

(** ** Types the process handles *)

Inductive object_type := Own (t : go_type) | Machine | Cluster | MachinePool.
#[export] Instance object_type_eq_dec : EqDecision object_type.
Proof. solve_decision. Defined.

(** A package that adds its types to a scheme: one of other modules, or one of
    this repository with its group, version and registered types. *)
Inductive type_package :=
| ClientGo | ClusterV1alpha3 | ExpV1alpha3
| OwnPackage (gv : GroupVersion) (types : list go_type).

Definition bootstrapv1alpha1_GroupVersion : GroupVersion :=
  {| gv_Group := "bootstrap.cluster.x-k8s.io"; gv_Version := "v1alpha1" |}.
Definition controlplanev1alpha1_GroupVersion : GroupVersion :=
  {| gv_Group := "controlplane.cluster.x-k8s.io"; gv_Version := "v1alpha1" |}.

(** What the [init] functions of each package register with its builder. *)
Definition critconfig_types1 : list go_type := [V1 TCritConfig; V1 TCritConfigList].
Definition critconfigtemplate_types1 : list go_type := [V1 TCritConfigTemplate; V1 TCritConfigTemplateList].
Definition critcontrolplane_types1 : list go_type := [V1 TCritControlPlane; V1 TCritControlPlaneList].
Definition critconfig_types2 : list go_type := [V2 TCritConfig; V2 TCritConfigList].
Definition critconfigtemplate_types2 : list go_type := [V2 TCritConfigTemplate; V2 TCritConfigTemplateList].
Definition critcontrolplane_types2 : list go_type := [V2 TCritControlPlane; V2 TCritControlPlaneList].

Definition bootstrapv1alpha1_package : type_package :=
  OwnPackage bootstrapv1alpha1_GroupVersion (critconfig_types1 ++ critconfigtemplate_types1).
Definition bootstrapv1alpha2_package : type_package :=
  OwnPackage bootstrapv1_GroupVersion (critconfig_types2 ++ critconfigtemplate_types2).
Definition controlplanev1alpha1_package : type_package :=
  OwnPackage controlplanev1alpha1_GroupVersion critcontrolplane_types1.
Definition controlplanev1alpha2_package : type_package :=
  OwnPackage controlplanev1_GroupVersion critcontrolplane_types2.

(** The package whose [AddToScheme] makes a type known; those of other modules
    declare the types of theirs. *)
Definition provides (p : type_package) (t : object_type) : Prop :=
  match p, t with
  | OwnPackage _ ts, Own t => t ∈ ts
  | ClusterV1alpha3, (Machine | Cluster) => True
  | ExpV1alpha3, MachinePool => True
  | _, _ => False
  end.

(** ** Flags *)

Inductive FlagValue := FString (s : string) | FBool (b : bool) | FDuration (ns : Z) | FInt (n : Z).
Definition second : Z := 1000000000.

(** The flags main declares, with their defaults. *)
Definition flag_defaults : gmap string FlagValue := list_to_map [
  ("metrics-addr", FString ":8081");
  ("enable-leader-election", FBool false);
  ("leader-election-lease-duration", FDuration (15 * second));
  ("leader-election-renew-deadline", FDuration (10 * second));
  ("leader-election-retry-period", FDuration (2 * second));
  ("namespace", FString "");
  ("profiler-address", FString "");
  ("critconfig-concurrency", FInt 10);
  ("critcontrolplane-concurrency", FInt 10);
  ("sync-period", FDuration (10 * 60 * second));
  ("webhook-port", FInt 0)].

Definition same_type (v w : FlagValue) : bool :=
  match v, w with
  | FString _, FString _ | FBool _, FBool _ | FDuration _, FDuration _ | FInt _, FInt _ => true
  | _, _ => false
  end.

(** The flags that the packages main imports register with the process; main
    declares its own among them.  (controller-runtime's config package registers
    "kubeconfig", which [GetConfigOrDie] reads.) *)
Class ImportedFlags := imported_flags : gmap string FlagValue.

(** [flag.Parse] on a command line whose texts have been read as values: a flag
    that is not declared, "help" among them, or a value that is not of its type
    ends the process ([None]); of several settings of a flag the last one
    counts. *)
Fixpoint Parse (vals : gmap string FlagValue) (args : list (string * FlagValue)) :
    option (gmap string FlagValue) :=
  match args with
  | [] => Some vals
  | (name, v) :: args =>
      match vals !! name with
      | Some d => if same_type d v then Parse (<[name := v]> vals) args else None
      | None => None
      end
  end.

Definition string_flag (vals : gmap string FlagValue) (name : string) : string :=
  match vals !! name with Some (FString s) => s | _ => "" end.
Definition bool_flag (vals : gmap string FlagValue) (name : string) : bool :=
  match vals !! name with Some (FBool b) => b | _ => false end.
Definition duration_flag (vals : gmap string FlagValue) (name : string) : Z :=
  match vals !! name with Some (FDuration d) => d | _ => 0 end.
Definition int_flag (vals : gmap string FlagValue) (name : string) : Z :=
  match vals !! name with Some (FInt n) => n | _ => 0 end.

(** ** The manager, controllers and webhooks *)

(** [ctrl.Options], without the scheme, which is the process's. *)
Record Options := {
  MetricsBindAddress : string;
  LeaderElection : bool;
  LeaderElectionID : string;
  LeaseDuration : Z;
  RenewDeadline : Z;
  RetryPeriod : Z;
  o_Namespace : string;
  SyncPeriod : Z;
  Port : Z;
}.

(** The functions that map an object to the requests it causes. *)
Inductive map_function :=
| MachineToBootstrapMapFunc | ClusterToCritConfigs | MachinePoolToBootstrapMapFunc
| ClusterToCritControlPlane.

(** A controller before it is built: its type, the types it owns, the types it
    watches, and how many requests it works on at once. *)
Record Builder := {
  For : object_type;
  Owns : list object_type;
  Watches : list (object_type * map_function);
  MaxConcurrentReconciles : Z;
}.
Definition handled (b : Builder) : list object_type := For b :: Owns b ++ (fst <$> Watches b).

Inductive start_action :=
| AddToScheme (p : type_package)
(* the configuration to reach the API server, from the flags that are not main's *)
| GetConfig (others : gmap string FlagValue)
| NewManager (o : Options)
| FeatureEnabled_MachinePool
| Build (b : Builder)                         (* [Build] and [Complete] of a controller *)
| BuildWebhook (t : object_type)              (* [Complete] of a webhook *)
| GetEventRecorderFor (name : string)
| Start.

Section startup.
Context {R : GoRuntime} {P : Platform} {IF : ImportedFlags}.

Definition start_answer (a : start_action) : Type :=
  match a with
  | FeatureEnabled_MachinePool => bool
  | GetEventRecorderFor _ => unit
  | _ => option error
  end.
#[local] Instance start_effects : Effects := {| action := start_action; answer := start_answer |}.

(** ** Webhooks *)

Definition CritConfig_SetupWebhookWithManager : M (option error) :=
  call (BuildWebhook (Own (V2 TCritConfig))).
Definition CritConfigTemplate_SetupWebhookWithManager : M (option error) :=
  call (BuildWebhook (Own (V2 TCritConfigTemplate))).
Definition CritControlPlane_SetupWebhookWithManager : M (option error) :=
  call (BuildWebhook (Own (V2 TCritControlPlane))).

(** Defaulting changes nothing, and every object is valid. *)
Definition CritConfig_Default (r : ApiTypes.CritConfig) : ApiTypes.CritConfig := r.
Definition CritConfig_ValidateCreate (r : ApiTypes.CritConfig) : option error := None.
Definition CritConfig_ValidateUpdate (r old : ApiTypes.CritConfig) : option error := None.
Definition CritConfig_ValidateDelete (r : ApiTypes.CritConfig) : option error := None.

(** ** Controllers *)

(** The fields of a reconciler that [SetupWithManager] fills in. *)
Record reconciler_fields := {
  has_Scheme : bool;
  f_controller : option Builder;
  f_recorder : option string;
  f_remoteClientGetter : option (ObjectKey → M (E := k8s) (result error Client));
  f_managementCluster : option ManagementCluster;
}.
(** As main makes them: both are given the manager's scheme. *)
Definition new_fields : reconciler_fields := {|
  has_Scheme := true; f_controller := None; f_recorder := None; f_remoteClientGetter := None;
  f_managementCluster := None |}.

Definition failed_setup (e : error) : option error :=
  Some (errors_Wrap e "failed setting up with a controller manager").

(** controllers/bootstrap/controller.go *)
Definition CritConfigReconciler_SetupWithManager (concurrency : Z) (r : reconciler_fields) :
    M (reconciler_fields * option error) :=
  let r := {| has_Scheme := true; f_controller := f_controller r; f_recorder := f_recorder r;
    f_remoteClientGetter :=
      Some (match f_remoteClientGetter r with Some g => g | None => NewClusterClient end);
    f_managementCluster := f_managementCluster r |} in
  pools ← call FeatureEnabled_MachinePool;
  let builder := {|
    For := Own (V2 TCritConfig);
    Owns := [];
    Watches := [(Machine, MachineToBootstrapMapFunc); (Cluster, ClusterToCritConfigs)] ++
      (if pools : bool then [(MachinePool, MachinePoolToBootstrapMapFunc)] else []);
    MaxConcurrentReconciles := concurrency |} in
  check call (Build builder) catch e => mret (r, failed_setup e);;
  mret (r, None).

(** controllers/controlplane/controller.go *)
Definition CritControlPlaneReconciler_SetupWithManager (concurrency : Z) (r : reconciler_fields) :
    M (reconciler_fields * option error) :=
  let c := {|
    For := Own (V2 TCritControlPlane);
    Owns := [Machine];
    Watches := [(Cluster, ClusterToCritControlPlane)];
    MaxConcurrentReconciles := concurrency |} in
  check call (Build c) catch e => mret (r, failed_setup e);;
  _ ← call (GetEventRecorderFor "crit-control-plane-controller");
  mret ({| has_Scheme := true; f_controller := Some c;
           f_recorder := Some "crit-control-plane-controller";
           f_remoteClientGetter :=
             Some (match f_remoteClientGetter r with Some g => g | None => NewClusterClient end);
           f_managementCluster :=
             Some (match f_managementCluster r with Some m => m | None => Management end) |}, None).

(** internal/remote/cluster_cache.go: nothing in the repository calls it. *)
Definition NewClusterCacheReconciler (concurrency : Z) : M (option error) :=
  check call (Build {| For := Cluster; Owns := []; Watches := [];
                       MaxConcurrentReconciles := concurrency |})
    catch e => mret (Some (errors_Wrap e "failed to create cluster cache manager controller"));;
  mret None.

(** ** main.go *)

(** [init]: the errors are dropped. *)
Definition init : M unit :=
  _ ← call (AddToScheme ClientGo);
  _ ← call (AddToScheme ClusterV1alpha3);
  _ ← call (AddToScheme ExpV1alpha3);
  _ ← call (AddToScheme bootstrapv1alpha1_package);
  _ ← call (AddToScheme controlplanev1alpha1_package);
  _ ← call (AddToScheme bootstrapv1alpha2_package);
  _ ← call (AddToScheme controlplanev1alpha2_package);
  mret ().

Definition options (vals : gmap string FlagValue) : Options := {|
  MetricsBindAddress := string_flag vals "metrics-addr";
  LeaderElection := bool_flag vals "enable-leader-election";
  LeaderElectionID := "controller-leader-election-cabpc";
  LeaseDuration := duration_flag vals "leader-election-lease-duration";
  RenewDeadline := duration_flag vals "leader-election-renew-deadline";
  RetryPeriod := duration_flag vals "leader-election-retry-period";
  o_Namespace := string_flag vals "namespace";
  SyncPeriod := duration_flag vals "sync-period";
  Port := 9443 |}.

(** The end of main: [err] is that of the last step of the setting up. *)
Definition start_manager (err : option error) : M Z :=
  match err with
  | Some _ => mret 1
  | None => check call Start catch _ => mret 1;; mret 0
  end.

(** The webhooks if a port is given for them, else the controllers. *)
Definition set_up_mode (vals : gmap string FlagValue) : M (option error) :=
  if bool_decide (int_flag vals "webhook-port" ≠ 0) then
    check CritConfig_SetupWebhookWithManager catch e => mret (Some e);;
    CritControlPlane_SetupWebhookWithManager
  else
    '(_, err) ← CritConfigReconciler_SetupWithManager (int_flag vals "critconfig-concurrency") new_fields;
    match err with
    | Some e => mret (Some e)
    | None =>
        '(_, err) ← CritControlPlaneReconciler_SetupWithManager
                      (int_flag vals "critcontrolplane-concurrency") new_fields;
        mret err
    end.

(** After the flags are parsed; the result is the exit status. *)
Definition run_manager (vals : gmap string FlagValue) : M Z :=
  check call (GetConfig (vals ∖ flag_defaults)) catch _ => mret 1;;
  check call (NewManager (options vals)) catch _ => mret 1;;
  err ← set_up_mode vals;
  start_manager err.

(** Declaring a flag that is registered already panics; a command line that does
    not parse exits with 2. *)
Definition process_flags : gmap string FlagValue := flag_defaults ∪ imported_flags.

Definition main (args : list (string * FlagValue)) : M Z :=
  if decide (flag_defaults ##ₘ imported_flags) then
    match Parse process_flags args with
    | None => mret 2
    | Some vals => run_manager vals
    end
  else panic.

Definition program (args : list (string * FlagValue)) : M Z := init ;; main args.

(** ** What a start-up does *)

Definition built (tr : list event) : list Builder :=
  omap (λ e, match projT1 e with Build b => Some b | _ => None end) tr.
Definition webhooks (tr : list event) : list object_type :=
  omap (λ e, match projT1 e with BuildWebhook t => Some t | _ => None end) tr.
Definition started (tr : list event) : bool :=
  existsb (λ e, match projT1 e with Start => true | _ => false end) tr.
Definition added (tr : list event) : list type_package :=
  omap (λ e, match projT1 e with AddToScheme p => Some p | _ => None end) tr.
Definition managers (tr : list event) : list Options :=
  omap (λ e, match projT1 e with NewManager o => Some o | _ => None end) tr.

(** The error an action answered with. *)
Definition error_of (e : event) : option error :=
  match e with
  | existT a r =>
      match a return start_answer a → option error with
      | FeatureEnabled_MachinePool | GetEventRecorderFor _ => λ _, None
      | _ => λ r, r
      end r
  end.

(** The two controllers, with the watch the feature gate decides on. *)
Definition config_controller (vals : gmap string FlagValue) (pools : bool) : Builder := {|
  For := Own (V2 TCritConfig); Owns := [];
  Watches := [(Machine, MachineToBootstrapMapFunc); (Cluster, ClusterToCritConfigs)] ++
    (if pools then [(MachinePool, MachinePoolToBootstrapMapFunc)] else []);
  MaxConcurrentReconciles := int_flag vals "critconfig-concurrency" |}.
Definition plane_controller (vals : gmap string FlagValue) : Builder := {|
  For := Own (V2 TCritControlPlane); Owns := [Machine]; Watches := [(Cluster, ClusterToCritControlPlane)];
  MaxConcurrentReconciles := int_flag vals "critcontrolplane-concurrency" |}.

(** The manager's options, field by field. *)
Definition as_flags_say (vals : gmap string FlagValue) (o : Options) : Prop :=
  vals !! "metrics-addr" = Some (FString (MetricsBindAddress o)) ∧
  vals !! "enable-leader-election" = Some (FBool (LeaderElection o)) ∧
  vals !! "leader-election-lease-duration" = Some (FDuration (LeaseDuration o)) ∧
  vals !! "leader-election-renew-deadline" = Some (FDuration (RenewDeadline o)) ∧
  vals !! "leader-election-retry-period" = Some (FDuration (RetryPeriod o)) ∧
  vals !! "namespace" = Some (FString (o_Namespace o)) ∧
  vals !! "sync-period" = Some (FDuration (SyncPeriod o)) ∧
  LeaderElectionID o = "controller-leader-election-cabpc" ∧ Port o = 9443.

(** What is set up, in this order; all of it before the manager starts. *)
Definition set_up (vals : gmap string FlagValue) (bs : list Builder) (ws : list object_type) : Prop :=
  if bool_decide (int_flag vals "webhook-port" ≠ 0)
  then bs = [] ∧ ws `prefix_of` [Own (V2 TCritConfig); Own (V2 TCritControlPlane)]
  else ws = [] ∧ ∃ pools, bs `prefix_of` [config_controller vals pools; plane_controller vals].
Definition all_set_up (vals : gmap string FlagValue) (bs : list Builder) (ws : list object_type) : Prop :=
  if bool_decide (int_flag vals "webhook-port" ≠ 0)
  then ws = [Own (V2 TCritConfig); Own (V2 TCritControlPlane)]
  else ∃ pools, bs = [config_controller vals pools; plane_controller vals].

Definition packages : list type_package :=
  [ClientGo; ClusterV1alpha3; ExpV1alpha3; bootstrapv1alpha1_package; controlplanev1alpha1_package;
   bootstrapv1alpha2_package; controlplanev1alpha2_package].

Ltac next H :=
  let r := fresh "r" in let tr := fresh "tr" in apply runs_call in H as (r&tr&->&H).

Lemma init_runs tr o : runs init tr o →
  o = Val () ∧ added tr = packages ∧ built tr = [] ∧ webhooks tr = [] ∧ managers tr = [] ∧ started tr = false.
Proof. unfold init. intros H. repeat next H. by destruct H as [-> ->]. Qed.

(** The last action failed. *)
Definition failed (tr : list event) : Prop := ∃ tr' ev e, tr = tr' ++ [ev] ∧ error_of ev = Some e.

Lemma set_up_mode_runs vals tr o : runs (set_up_mode vals) tr o →
  ∃ err, o = Val err ∧ managers tr = [] ∧ started tr = false ∧ set_up vals (built tr) (webhooks tr) ∧
    match err with Some _ => failed tr | None => all_set_up vals (built tr) (webhooks tr) end.
Proof.
  unfold set_up_mode, set_up, all_set_up. case_bool_decide; intros Hr.
  - next Hr. destruct r as [e|].
    { destruct Hr as [-> ->]. exists (Some e). split_and!; [done..|apply prefix_cons, prefix_nil|].
      by eexists [], _, e. }
    destruct Hr as (r&tr'&->&[-> ->]). exists r. split_and!; [done..|].
    destruct r as [e|]; [|done]. by eexists [_], _, e.
  - next Hr. rename r into pools. next Hr. destruct r as [e|].
    { destruct Hr as [-> ->]. exists (failed_setup e). split_and!; [done..| |by eexists [_], _, e].
      exists pools. apply prefix_cons, prefix_nil. }
    next Hr. destruct r as [e|].
    { destruct Hr as [-> ->]. exists (failed_setup e). split_and!; [done..| |by eexists [_; _], _, e].
      by exists pools. }
    next Hr. destruct Hr as [-> ->]. exists None. split_and!; [done..| |]; by exists pools.
Qed.

Lemma start_manager_runs err tr o : runs (start_manager err) tr o →
  managers tr = [] ∧ built tr = [] ∧ webhooks tr = [] ∧
  match err with
  | Some _ => tr = [] ∧ o = Val 1
  | None => started tr ∧ (o = Val 0 ∧ tr = [@Ev start_effects Start None] ∨ o = Val 1 ∧ failed tr)
  end.
Proof.
  destruct err as [e|]; [by intros [-> ->]|]. intros H. next H. destruct r as [e|]; destruct H as [-> ->].
  - split_and!; [done..|]. right. split; [done|]. by eexists [], _, e.
  - split_and!; [done..|]. by left.
Qed.

Lemma failed_app tr1 tr2 : failed tr2 → failed (tr1 ++ tr2).
Proof. intros (tr'&ev&e&->&?). exists (tr1 ++ tr'), ev, e. by rewrite (assoc_L (++)). Qed.

(** What has happened by the exit with [code]. *)
Definition manager_result (vals : gmap string FlagValue) (tr : list event) (code : Z) : Prop :=
  (managers tr = [] ∨ ∃ o, managers tr = [o] ∧ as_flags_say vals o) ∧
  set_up vals (built tr) (webhooks tr) ∧
  (started tr → managers tr ≠ [] ∧ all_set_up vals (built tr) (webhooks tr)) ∧
  (code = 0 ∧ (∃ tr', tr = tr' ++ [@Ev start_effects Start None]) ∨ code = 1 ∧ failed tr).

Lemma nothing_set_up vals : set_up vals [] [].
Proof. unfold set_up. case_bool_decide; (split; [done|]); [|exists true]; apply prefix_nil. Qed.

Lemma managers_app l1 l2 : managers (l1 ++ l2) = managers l1 ++ managers l2.
Proof. apply omap_app. Qed.
Lemma built_app l1 l2 : built (l1 ++ l2) = built l1 ++ built l2.
Proof. apply omap_app. Qed.
Lemma webhooks_app l1 l2 : webhooks (l1 ++ l2) = webhooks l1 ++ webhooks l2.
Proof. apply omap_app. Qed.
Lemma started_app l1 l2 : started (l1 ++ l2) = started l1 || started l2.
Proof. apply existsb_app. Qed.

Lemma early_failure vals tr :
  (managers tr = [] ∨ ∃ o, managers tr = [o] ∧ as_flags_say vals o) → built tr = [] → webhooks tr = [] → started tr = false →
  failed tr → manager_result vals tr 1.
Proof.
  unfold manager_result. intros ? -> -> -> ?.
  split_and!; [done|apply nothing_set_up|done|by right].
Qed.

Lemma run_manager_runs vals tr o :
  as_flags_say vals (options vals) → runs (run_manager vals) tr o →
  ∃ code, o = Val code ∧ manager_result vals tr code.
Proof.
  unfold run_manager. intros Hsay Hr. next Hr. destruct r as [e|].
  { destruct Hr as [-> ->]. exists 1. split; [done|].
    apply early_failure; [by left|done..|by eexists [], _, e]. }
  next Hr. destruct r as [e|].
  { destruct Hr as [-> ->]. exists 1. split; [done|].
    apply early_failure; [by right; eexists|done..|by eexists [_], _, e]. }
  apply runs_bind in Hr as [[Hr ->]|(tr1&tr2&err&->&H1&H2)].
  { by apply set_up_mode_runs in Hr as (?&?&_). }
  apply set_up_mode_runs in H1 as (err'&[= <-]&Hm&Hs&Hup&Hend).
  apply start_manager_runs in H2 as (Hm2&Hb2&Hw2&Hcode).
  assert (Hpre : ∀ code, (code = 0 ∧ tr2 = [@Ev start_effects Start None] ∨ code = 1 ∧ failed (tr1 ++ tr2)) →
    (err = None → started tr2) → (started tr2 → err = None) →
    manager_result vals (@Ev start_effects (GetConfig (vals ∖ flag_defaults)) None ::
      @Ev start_effects (NewManager (options vals)) None :: tr1 ++ tr2) code).
  { intros code Hc Hs1 Hs2. change (?a :: ?b :: ?l) with ([a; b] ++ l).
    unfold manager_result. rewrite !managers_app, !built_app, !webhooks_app, !started_app, Hm, Hs, Hm2, Hb2, Hw2, !app_nil_r.
    simpl. split_and!; [by right; eexists|done| |].
    - intros Hst. split; [done|]. by rewrite (Hs2 Hst) in Hend.
    - destruct Hc as [[-> ->]|[-> Hf]]; [left|right]; (split; [done|]); [by eexists (_ :: _ :: tr1)|]. by apply (failed_app [_; _]). }
  destruct err as [e|].
  - destruct Hcode as [-> ->]. exists 1. split; [done|]. apply Hpre; [|done|done].
    right. rewrite app_nil_r. auto.
  - destruct Hcode as [Hst [[-> ->]|[-> Hf]]]; [exists 0|exists 1]; (split; [done|]); apply Hpre; auto.
    right. split; [done|]. by apply failed_app.
Qed.

(** Every type a controller or webhook handles is one the scheme was given. *)
Definition known (t : object_type) : Prop := ∃ p, p ∈ packages ∧ provides p t.

Lemma known_types : known (Own (V2 TCritConfig)) ∧ known (Own (V2 TCritControlPlane)) ∧
  known Machine ∧ known Cluster ∧ known MachinePool.
Proof.
  assert (Hp : ∀ p t, Exists (eq p) packages → provides p t → known t).
  { intros p t (q&?&->)%Exists_exists ?. by exists q. }
  split_and!;
    [ apply (Hp bootstrapv1alpha2_package) | apply (Hp controlplanev1alpha2_package)
    | apply (Hp ClusterV1alpha3) | apply (Hp ClusterV1alpha3) | apply (Hp ExpV1alpha3) ];
    try done; try (by repeat first [left; reflexivity|right]); left.
Qed.

Lemma Forall_prefix {A} (Q : A → Prop) l l' : l `prefix_of` l' → Forall Q l' → ∀ x, x ∈ l → Q x.
Proof. intros [k ->] [H _]%Forall_app. by apply Forall_forall. Qed.

Lemma set_up_known vals bs ws : set_up vals bs ws →
  (∀ b t, b ∈ bs → t ∈ handled b → known t) ∧ (∀ t, t ∈ ws → known t).
Proof.
  destruct known_types as (?&?&?&?&?).
  unfold set_up. case_bool_decide; [intros [-> Hpre]|intros (->&pools&Hpre)].
  - split; [by intros b t ?%not_elem_of_nil|]. apply (Forall_prefix _ _ _ Hpre). repeat constructor; done.
  - split; [|by intros t ?%not_elem_of_nil]. intros b t Hb. revert t. apply Forall_forall.
    revert b Hb. apply (Forall_prefix _ _ _ Hpre).
    constructor; [|constructor; [|constructor]]; [destruct pools|]; repeat constructor; done.
Qed.

(** *** Flags *)

Lemma Parse_app vals args args' : Parse vals (args ++ args') = Parse vals args ≫= λ vals, Parse vals args'.
Proof.
  revert vals. induction args as [|[name v] args IH]; intros vals; simpl; [done|].
  destruct (vals !! name) as [d|]; [|done]. by destruct (same_type d v).
Qed.
(** Parsing keeps every flag, at its type. *)
Lemma Parse_typed vals args vals' name d : Parse vals args = Some vals' → vals !! name = Some d →
  ∃ v, vals' !! name = Some v ∧ same_type d v.
Proof.
  revert vals d. induction args as [|[n v] args IH]; intros vals d; simpl.
  { intros [= <-] Hd. exists d. split; [done|]. by destruct d. }
  destruct (vals !! n) as [d'|] eqn:Hn; [|done]. destruct (same_type d' v) eqn:Ht; [|done].
  intros Hp Hd. destruct (decide (n = name)) as [->|Hne].
  - destruct (IH _ v Hp) as (w&Hw&?); [apply lookup_insert_eq|]. exists w. split; [done|].
    rewrite Hd in Hn. injection Hn as <-. by destruct d, v, w.
  - eapply IH; [done|]. by rewrite lookup_insert_ne.
Qed.
(** One more setting of a declared flag, of its type. *)
Lemma Parse_more flags args vals name d v : Parse flags args = Some vals →
  flags !! name = Some d → same_type d v →
  Parse flags (args ++ [(name, v)]) = Some (<[name := v]> vals).
Proof.
  intros Hp Hd Hv. rewrite Parse_app, Hp. destruct (Parse_typed _ _ _ _ _ Hp Hd) as (w&Hw&Ht).
  simpl. rewrite Hw. assert (same_type w v = true) as -> by (by destruct d, v, w). done.
Qed.
Lemma Parse_none flags args args' : Parse flags args = None → Parse flags (args ++ args') = None.
Proof. intros Hp. by rewrite Parse_app, Hp. Qed.

Lemma own_flag name d : flag_defaults !! name = Some d → process_flags !! name = Some d.
Proof. apply lookup_union_Some_l. Qed.

(** The options are those of the flags. *)
Lemma options_say args vals : Parse process_flags args = Some vals → as_flags_say vals (options vals).
Proof.
  intros Hp. assert (Hflag : ∀ name d, flag_defaults !! name = Some d → ∃ v, vals !! name = Some v ∧ same_type d v).
  { intros name d Hd. by eapply Parse_typed, own_flag. }
  unfold as_flags_say, options, string_flag, bool_flag, duration_flag. cbn [MetricsBindAddress LeaderElection
    LeaderElectionID LeaseDuration RenewDeadline RetryPeriod o_Namespace SyncPeriod Port].
  split_and!; try done;
    match goal with |- vals !! ?n = _ =>
      let d := eval vm_compute in (flag_defaults !! n) in
      match d with Some ?d => destruct (Hflag n d eq_refl) as ([]&->&?) end end; done.
Qed.

Lemma others_same (vals : gmap string FlagValue) name v d :
  flag_defaults !! name = Some d → <[name := v]> vals ∖ flag_defaults = vals ∖ flag_defaults.
Proof.
  intros Hd. apply map_eq. intros i. rewrite !lookup_difference.
  destruct (decide (i = name)) as [->|Hne]; [by rewrite Hd|by rewrite lookup_insert_ne].
Qed.

Lemma profiler_unused vals s : run_manager (<["profiler-address" := FString s]> vals) = run_manager vals.
Proof.
  unfold run_manager. erewrite others_same by done.
  unfold set_up_mode, options, string_flag, bool_flag, duration_flag, int_flag.
  by rewrite !lookup_insert_ne by done.
Qed.
Lemma webhook_port_unused vals n m : n ≠ 0 → m ≠ 0 →
  run_manager (<["webhook-port" := FInt n]> vals) = run_manager (<["webhook-port" := FInt m]> vals).
Proof.
  intros. unfold run_manager. do 2 erewrite others_same by done.
  unfold set_up_mode, options, string_flag, bool_flag, duration_flag, int_flag.
  rewrite !lookup_insert_eq, !(lookup_insert_ne _ "webhook-port") by done.
  by rewrite !bool_decide_true by done.
Qed.

(** Actions before the manager's that set up nothing. *)
Lemma manager_result_app vals tr1 tr2 code :
  managers tr1 = [] → built tr1 = [] → webhooks tr1 = [] → started tr1 = false →
  manager_result vals tr2 code → manager_result vals (tr1 ++ tr2) code.
Proof.
  unfold manager_result. intros Hm Hb Hw Hs.
  rewrite managers_app, built_app, webhooks_app, started_app, Hm, Hb, Hw, Hs. simpl.
  intros (?&?&?&Hcode). split_and!; [done..|]. destruct Hcode as [[-> [tr' ->]]|[-> ?]]; [left|right].
  - split; [done|]. exists (tr1 ++ tr'). by rewrite (assoc_L (++)).
  - split; [done|]. by apply failed_app.
Qed.

(** ** The property *)

End startup.

(** ** A process that serves webhooks, and one without an API server *)

Module StartupWitness.
Import Reference Sample.

Definition healthy (h : list (@event start_effects)) (a : @action start_effects) : @answer start_effects a :=
  match a return start_answer a with
  | FeatureEnabled_MachinePool => false
  | GetEventRecorderFor _ => ()
  | _ => None
  end.
(** The flag controller-runtime registers. *)
#[export] Instance kubeconfig_flag : ImportedFlags :=
  ({["kubeconfig" := FString ""]} : gmap string FlagValue).

Definition webhook_args : list (string * FlagValue) :=
  [("webhook-port", FInt 443); ("kubeconfig", FString "/root/.kube/config"); ("namespace", FString "demo")].
Definition webhook_flags : gmap string FlagValue :=
  <["namespace" := FString "demo"]> (<["kubeconfig" := FString "/root/.kube/config"]>
    (<["webhook-port" := FInt 443]> process_flags)).


(** A flag nobody declared. *)
Example unknown_flag : Parse process_flags [("webhook-prot", FInt 443)] = None.
Proof. by_evaluation. Qed.
End StartupWitness.
